(* ===== verification/_CoqProject ===== *)
-Q . S2P
Prelude.v
Interfaces.v
Packet.v
Keys.v
NumPool.v
PacketQueue.v
BaseChannel.v
SendWindow.v
RecvWindow.v
Tcp.v
TcpRecv.v
TcpSend.v
TcpConn.v
Threads.v
Connection.v
ConnWf.v
TcpCongestion.v
Kernel.v
Host.v
HostDemux.v
HostInv.v
Process.v
Stream.v
Transfer.v
TransferInv.v
TransferLive.v
Session.v
SessionInv.v
SessionStep.v
SessionRecv.v
SessionSafe.v
SessionSpec.v
App.v
World.v
WorldInv.v
UnitTests.v
