(* ===== verification/Prelude.v ===== *)
(** * TcpStack: a verification development

    A user-space TCP/IP stack in C++ ([src/src]): two hosts in one process, joined
    by simulated lossy channels, each with processes, sockets, connections and
    threads. This library models it in Rocq and proves what it does.

    ** The program

    A [Process] ([Host.h], [Host.cc]) makes system calls on file descriptors. The
    [Host] keeps the open file table ([Kernel.h], [Kernel.cc]), the connections,
    the listeners and the ports ([NumPool]). A connection ([TcpController]) has a
    receive pipeline (packet queue, [RecvWindow], overflow queue, socket buffer),
    a send pipeline (socket buffer, [SendWindow], packet queue), a state machine
    and timers. The host moves packets ([Packet]) between the connections and a
    [BaseChannel], which drops some of them. Threads meet in [PacketQueue].

    ** The files

    - [Prelude]: machine integers as [Z] with explicit wrap-around, faults and the
      error monad [res], record update, lists, reachability. [Interfaces]: the
      library the stack is built on (stop watches, timers, ring buffers, [Min]),
      which is not in the repository, as classes of operations and laws.
    - [Packet], [Keys], [NumPool], [PacketQueue], [BaseChannel], [SendWindow],
      [RecvWindow]: the source files of these names. [Kernel]: sockets and open
      files.
    - [Tcp], [TcpRecv], [TcpSend], [TcpConn], [TcpCongestion]: [TcpController.cc]
      by parts: the state and the packets; delivery and [ReadData]; [WriteData],
      [SendBufferListener], [SendFIN] and the timers; the handlers of segments;
      round-trip times and congestion control. [Threads]: a turn of any thread or
      timer of a connection, and batches of packets. [Connection]: a connection as
      a step relation. [ConnWf]: the packets a connection makes have fields of
      their widths.
    - [Host]: the class [Host]. [HostDemux]: what it does with packets.
      [HostInv]: a host as a step relation, and its invariant. [Process]: the
      class [Process] and its descriptors.
    - [Stream]: streams of packets on their way, the ends of a stream; shared by
      the next two groups.
    - [Transfer]: two connections, one sending, and a network that delays and
      reorders, as a function on sequences of actions, with its invariant.
      [TransferInv]: every action keeps it, the handshake establishes it.
      [TransferLive]: schedules that finish.
    - [Session]: two connections that send to each other, from the first SYN to
      the last FIN, and a network that loses. [SessionInv]: its invariant;
      [SessionStep] and [SessionRecv]: the calls and threads, and the segments,
      keep it; [SessionSafe]: what follows; [SessionSpec]: the abstract
      specification of a session, and that it is refined.
    - [App]: the programs of [main.cc] as interaction trees of system calls, their
      runs on a process and its host, [Host::CreateProcess]. [World]: the function
      [main], two hosts with their processes and channels, all threads by turns.
      [WorldInv]: what holds in all its states.
    - [UnitTests]: the unit tests of the repository, run on the model.

    ** How code becomes definitions

    A method [Foo::Bar] is the definition [Foo_Bar], with the source's branches
    in the source's order; state is a record, passed and returned. An abnormal
    end (a failed [SANITY_CHECK], [LogFATAL], a null or dangling pointer, a
    division by zero) is [Fault]; a call that blocks on a condition variable
    returns [None], with its wait predicate as a definition of its own; a thread
    that loops is one definition for its round. The order of rounds, calls and
    packets is free: [conn_step] and [host_step] take them in any order, each
    method being one step; [conn_step] asks of its inputs that they fit their
    types, [host_step] asks nothing of its calls. Inside [PacketQueue],
    where the locking is the point, the steps are single statements. The receive
    window's nodes live on a heap, since two pointers to a node matter. A pointer
    to a connection ([con_ptr]) is null, a key of the host's map, or dangling:
    erasing a connection makes every pointer to it dangle, so that a connection
    made later under the same key is not taken for it. A pointer to a socket is
    its open file id; ids are never used twice, so a dangling one is an absent id.

    Loops of the source that follow a counter or a queue are structural
    recursions. The pointer walks of [RecvWindow] and of the delivery have fuel:
    one more than the number of nodes ever allocated, which is proved enough for
    [RecvWindow] ([RecvWindow_refines]) and for the delivery of chains without a
    SYN ([StreamData_in_order]); with one, no fuel is enough
    ([StreamData_sync_diverges]); in a session it never meets one
    ([Session_faults]). A program runs for as many steps as it is given: a number
    that is enough is part of each statement.

    ** What is proved

    - The windows: the receive window reassembles the stream under any arrival
      order, on the heap, as a refinement of a list; the send window stays
      contiguous, is popped by cumulative acknowledgements, wrap-around included;
      the acknowledgements it accepts are characterised.
    - A session: in every run of two connections, with the handshake, data both
      ways, FINs, resets and all timers, and whatever the network loses, each end
      reads a prefix of what the other wrote, nothing in between is lost or
      duplicated, the end of file comes after everything, and only two things can
      fail. The results of the calls are those of two byte streams, the abstract
      specification. The network of a session keeps the order of the packets, a FIN is sent
      once the SYN is acknowledged, sequence numbers do not wrap around.
    - A transfer: after the handshake, data written at one end is read at the
      other over a network that also delays and reorders, and from every state a
      continuation without losses delivers everything. The data goes one way.
    - A connection: the handshake; an invariant of all reachable states; the state
      machine against RFC 793; each handler's result and faults; the cutting of
      the send buffer into packets; delivery to the reader; handling packets in
      batches is handling them one by one.
    - A host: demultiplexing in order, new connections, the behaviour of the calls
      on every kind of socket; a socket's pointer to a connection leads to its own
      one unless the socket took over the connection of another, which
      [SocketConnect] lets it do, and only then can the pointer dangle.
    - A process: its descriptors are never shared, [Socket] and [Close] undo each
      other, what is released when its program ends.
    - The programs: client and server send and receive all their data, however the
      calls cut it into pieces, against a specification of the calls ([pipe]); on
      the process itself, when the server's loop of writes does not end. In all
      states of the whole program the packets, wherever they wait, are well typed
      and have the shape of a segment, and only segments make threads fail.
    - The pools and queues: refinement of a set, unique allocation; first in first
      out under every interleaving, no lost wake-up in use.
    - Where the code does not do what it means to, a theorem says what it does
      instead: each is listed with its place in the source as a finding.

    ** Not modelled

    - The thread pools of the library: which of a host's and a connection's threads
      runs next is free, that a pool has a thread for each task is assumed. The
      pause of the client before it begins.
    - Durations of sleeps and timers: a timer may fire at any moment.
    - Interleavings inside a method that releases a lock half way: [WriteData]
      tests the state, waits and then writes; [SendFIN] fills the window and then
      changes the state; [HandleACK] leaves the window before it looks at the
      state. Each is one step, and a call of [WriteData] that blocks tests the
      state again when it is retried. The difference shows only when two
      application threads use one socket, or [SendFIN] runs between the halves of
      [HandleACK].
    - The wait of [TearDown] for the threads of the pool: it returns at once. The
      flag [shutdown_], which the constructor does not initialise, is false in a
      new connection. With both, [SocketConnect] on a key in use returns, where
      the program may wait for the threads of the connection it made for nothing;
      the states of a host that are reached are therefore at least those of the
      program.
    - The logging and [debug.h], the macro of its messages; the assertion library
      of the unit tests.
    - The memory of payloads: the theorems on freed memory are about list nodes,
      sockets and connections. *)
From Stdlib Require Export ZArith Lia.
From stdpp Require Export base option list gmap strings pretty relations.

Open Scope Z_scope.

(** ** Machine integers

    [uint16], [uint32], [int32] and [size_t] are integers of [Z] whose
    arithmetic is reduced explicitly: a C++ expression [a + b] on [uint32]
    operands is [u32 (a + b)]. *)

Definition u16 (x : Z) : Z := x mod 65536.
Definition u32 (x : Z) : Z := x mod 4294967296.
Definition u64 (x : Z) : Z := x mod 18446744073709551616.
Definition i32 (x : Z) : Z := (x + 2147483648) mod 4294967296 - 2147483648.

Definition is_u32 (x : Z) : Prop := 0 <= x < 4294967296.
Definition is_i32 (x : Z) : Prop := -2147483648 <= x < 2147483648.

#[export] Instance is_u32_dec x : Decision (is_u32 x).
Proof. unfold is_u32. apply _. Defined.
#[export] Instance is_i32_dec x : Decision (is_i32 x).
Proof. unfold is_i32. apply _. Defined.

(** [word_lia] decides linear goals that mention the wrap-around functions. *)
Ltac word_lia :=
  unfold is_u32, is_i32, u16, u32, u64, i32 in *;
  Z.div_mod_to_equations; lia.

Create HintDb tcp.
Create Rewrite HintDb tcp.

Lemma u32_range x : is_u32 (u32 x).
Proof. word_lia. Qed.
Lemma u32_small x : is_u32 x → u32 x = x.
Proof. intros. apply Z.mod_small. done. Qed.
Lemma u32_idem x : u32 (u32 x) = u32 x.
Proof. apply u32_small, u32_range. Qed.
Lemma u32_add_l x y : u32 (u32 x + y) = u32 (x + y).
Proof. unfold u32. by rewrite Zplus_mod_idemp_l. Qed.
Lemma u32_add_r x y : u32 (x + u32 y) = u32 (x + y).
Proof. unfold u32. by rewrite Zplus_mod_idemp_r. Qed.
Lemma u32_sub_l x y : u32 (u32 x - y) = u32 (x - y).
Proof. unfold u32. by rewrite Zminus_mod_idemp_l. Qed.
Lemma u32_sub_r x y : u32 (x - u32 y) = u32 (x - y).
Proof. unfold u32. by rewrite Zminus_mod_idemp_r. Qed.
Lemma i32_small x : is_i32 x → i32 x = x.
Proof. intros. word_lia. Qed.
Lemma i32_u32 x : i32 (u32 x) = i32 x.
Proof. word_lia. Qed.

#[export] Hint Resolve u32_range : tcp.
#[export] Hint Rewrite u32_idem u32_add_l u32_add_r u32_sub_l u32_sub_r i32_u32 : tcp.

(** ** Faults

    What ends a call abnormally: a failed [SANITY_CHECK], a [LogFATAL], an
    access through a null pointer or to a freed object, a division by zero, [at] on an absent key,
    or a floating-point value converted to an integer type it does not fit.
    [OutOfFuel] is the outcome of a loop model whose fuel ran out. What the
    macros do with the process is outside the source; the models stop there. *)

Inductive fault :=
  | SanityCheckFailed
  | LogFatal
  | NullDereference
  | UseAfterFree
  | DivisionByZero
  | OutOfRange
  | BadConversion
  | OutOfFuel.

#[export] Instance fault_eq_dec : EqDecision fault.
Proof. solve_decision. Defined.

Inductive res (A : Type) :=
  | Ok (a : A)
  | Fault (f : fault).
Arguments Ok {A} a.
Arguments Fault {A} f.

#[export] Instance res_ret : MRet res := @Ok.
#[export] Instance res_bind : MBind res := λ A B k m,
  match m with Ok a => k a | Fault f => Fault f end.

Definition is_ok {A} (m : res A) : bool :=
  match m with Ok _ => true | Fault _ => false end.

Definition sanity_check (b : bool) : res unit :=
  if b then Ok tt else Fault SanityCheckFailed.

(** Dereferencing a pointer that may be null. *)
Definition deref {A} (p : option A) : res A :=
  match p with Some a => Ok a | None => Fault NullDereference end.

Lemma bind_Ok {A B} (m : res A) (k : A → res B) b :
  (m ≫= k) = Ok b ↔ ∃ a, m = Ok a ∧ k a = Ok b.
Proof. split; [destruct m; [by eauto | done] | by intros (a & -> & ?)]. Qed.
Lemma bind_Fault {A B} (m : res A) (k : A → res B) f :
  (m ≫= k) = Fault f ↔ m = Fault f ∨ ∃ a, m = Ok a ∧ k a = Fault f.
Proof.
  destruct m as [a|g]; simpl; split.
  - eauto.
  - by intros [?|(? & [= ->] & ?)].
  - intros [= ->]. by left.
  - by intros [[= ->]|(? & ? & ?)].
Qed.
Lemma Ok_inj {A} (a b : A) : Ok a = Ok b ↔ a = b.
Proof. split; congruence. Qed.
Lemma sanity_check_Ok b u : sanity_check b = Ok u ↔ b = true.
Proof. by destruct b, u. Qed.
Lemma sanity_check_Fault b f : sanity_check b = Fault f → f = SanityCheckFailed.
Proof. destruct b; simpl; congruence. Qed.
Lemma deref_Ok {A} (p : option A) a : deref p = Ok a ↔ p = Some a.
Proof. destruct p; simpl; split; congruence. Qed.

(** [inv_res H] opens the binds of a hypothesis [m ≫= k = Ok b]. *)
Ltac inv_res H :=
  repeat match type of H with
  | (_ ≫= _) = Ok _ => let a := fresh "a" in let Ha := fresh "Ha" in
      apply bind_Ok in H as (a & Ha & H)
  end.

(** ** Record update

    [r <| f := v |>] replaces field [f] of [r]; a component declares a [Setter]
    for each field it assigns. *)

Class Setter {R T : Type} (proj : R → T) := set : (T → T) → R → R.
#[global] Arguments set {R T} proj {_} _ _ / : assert.
Declare Scope tcp_scope.
Delimit Scope tcp_scope with tcp.
Notation "r <| f := v |>" := (set f (λ _, v) r)
  (at level 1, left associativity, f at next level, v at level 200,
   format "r  <| f  :=  v |>") : tcp_scope.
Open Scope tcp_scope.

(** [setter_of eta] is the update function of the field the goal names, from
    the record's eta-expansion [eta r = Mk (f1 r) .. (fn r)]. *)
Ltac setter_of eta :=
  match goal with |- Setter ?proj =>
    let T := match type of proj with ?R → _ => R end in
    exact (λ f (r : T), ltac:(
      let t := eval cbv beta delta [eta] in (eta r) in
      let t' := eval pattern (proj r) in t in
      match t' with ?g _ => let u := eval cbv beta in (g (f (proj r))) in exact u end))
  end.

(** ** Sums over lists *)

Definition sum_Z (l : list Z) : Z := foldr Z.add 0 l.

Lemma sum_Z_nil : sum_Z [] = 0.
Proof. done. Qed.
Lemma sum_Z_cons x l : sum_Z (x :: l) = x + sum_Z l.
Proof. done. Qed.
Lemma sum_Z_app l k : sum_Z (l ++ k) = sum_Z l + sum_Z k.
Proof. induction l; csimpl; lia. Qed.
Lemma sum_Z_nonneg l : Forall (λ x, 0 <= x) l → 0 <= sum_Z l.
Proof. induction 1; csimpl; lia. Qed.

(** How many elements of [l] satisfy the test [f]. *)
Definition countb {A} (f : A → bool) (l : list A) : Z := sum_Z ((λ x, Z.b2z (f x)) <$> l).

Lemma countb_insert {A} (f : A → bool) (l : list A) i x y :
  l !! i = Some y → countb f (<[i := x]> l) = countb f l - Z.b2z (f y) + Z.b2z (f x).
Proof.
  unfold countb. revert i. induction l as [|z l IH]; intros [|i] Hi; csimpl in *;
    simplify_eq; [lia|]. rewrite (IH i Hi). lia.
Qed.
Lemma countb_bounds {A} (f : A → bool) (l : list A) : 0 <= countb f l <= Z.of_nat (length l).
Proof.
  unfold countb. induction l as [|x l IH]; csimpl; [lia|]. destruct (f x); simpl; lia.
Qed.
Lemma countb_zero {A} (f : A → bool) (l : list A) i x :
  countb f l = 0 → l !! i = Some x → f x = false.
Proof.
  revert i. induction l as [|y l IH]; intros [|i] H0 Hi; simplify_eq/=;
    pose proof (countb_bounds f l) as Hb; unfold countb in *; csimpl in *.
  - destruct (f x); simpl in *; [lia|done].
  - apply (IH i); [destruct (f y); simpl in *; lia | done].
Qed.
Lemma countb_replicate {A} (f : A → bool) n x : countb f (replicate n x) = Z.of_nat n * Z.b2z (f x).
Proof. unfold countb. induction n as [|n IH]; csimpl in *; lia. Qed.
Lemma countb_fmap {A} (f : A → bool) (g : A → A) (l : list A) :
  (∀ x, f (g x) = f x) → countb f (g <$> l) = countb f l.
Proof. intros Hfg. unfold countb. induction l as [|x l IH]; csimpl in *; rewrite ?Hfg; lia. Qed.

#[export] Hint Rewrite sum_Z_nil sum_Z_cons sum_Z_app : tcp.
#[export] Hint Resolve sum_Z_nonneg : tcp.

(** ** Reachability

    An invariant of a step relation holds of every state its closure reaches. *)
Lemma rtc_invariant {A} (R : relation A) (P : A → Prop) x y :
  (∀ a b, P a → R a b → P b) → P x → rtc R x y → P y.
Proof. intros Hstep Hx. induction 1; eauto. Qed.
