(* ===== verification/Interfaces.v ===== *)
(** * Interfaces to code outside the repository

    The stack is built on a library that is not part of the repository (stop
    watches, timers, byte buffers). Each is a class of operations here; the
    classes of laws state what the stack relies on, and a simple instance shows
    that the laws can hold. *)
From S2P Require Import Prelude.
Open Scope Z_scope.
Open Scope tcp_scope.

(** ** [Utility::StopWatch]

    [Start] and [Pause] take the reading of the clock at the call. *)
Class StopWatchOps := {
  StopWatch : Type;
  StopWatch_init : StopWatch;
  StopWatch_Start : Z → StopWatch → StopWatch;
  StopWatch_Pause : Z → StopWatch → StopWatch;
  StopWatch_elapsed_time : StopWatch → Z;
}.

(** A watch as the instants it was started and paused. *)
Definition simple_StopWatch : StopWatchOps := {|
  StopWatch := Z * Z;
  StopWatch_init := (0, 0);
  StopWatch_Start now w := (now, now);
  StopWatch_Pause now w := (w.1, now);
  StopWatch_elapsed_time w := w.2 - w.1;
|}.

(** ** [Utility::Timer] *)
Class TimerOps := {
  Timer : Type;
  Timer_new : Z → Timer;
  Timer_SetRepeat : bool → Timer → Timer;
  Timer_Restart : Timer → Timer;
  Timer_RestartWith : Z → Timer → Timer;
  Timer_Stop : Timer → Timer;
  Timer_started : Timer → bool;
}.

Class TimerLaws `{!TimerOps} : Prop := {
  Timer_Restart_started t : Timer_started (Timer_Restart t) = true;
  Timer_RestartWith_started d t : Timer_started (Timer_RestartWith d t) = true;
  Timer_Stop_started t : Timer_started (Timer_Stop t) = false;
}.

(** A timer as its interval, its repeat flag and whether it runs. *)
Definition simple_Timer : TimerOps := {|
  Timer := Z * bool * bool;
  Timer_new d := (d, false, false);
  Timer_SetRepeat r t := (t.1.1, r, t.2);
  Timer_Restart t := (t.1, true);
  Timer_RestartWith d t := (d, t.1.2, true);
  Timer_Stop t := (t.1, false);
  Timer_started t := t.2;
|}.

#[export] Instance simple_TimerLaws : @TimerLaws simple_Timer.
Proof. by split. Qed.

(** ** [Utility::BufferInterface] and [Utility::RingBuffer]

    A bounded byte buffer. [Buffer_bytes] is the sequence of bytes it holds;
    [Write] stores a prefix of the data and returns its length, [Read] removes
    a prefix of the contents. *)
Class BufferOps := {
  Buffer : Type;
  Buffer_new : Z → Buffer;
  Buffer_Write : list Z → Buffer → Z * Buffer;
  Buffer_Read : Z → Buffer → list Z * Buffer;
  Buffer_Clear : Buffer → Buffer;
  Buffer_free_space : Buffer → Z;
  Buffer_size : Buffer → Z;
  Buffer_empty : Buffer → bool;
  Buffer_full : Buffer → bool;
}.

Class BufferLaws `{!BufferOps} (Buffer_bytes : Buffer → list Z)
    (Buffer_capacity : Buffer → Z) : Prop := {
  Buffer_new_bytes n : 0 <= n → Buffer_bytes (Buffer_new n) = [] ∧ Buffer_capacity (Buffer_new n) = n;
  (** As much of the data as fits is appended. *)
  Buffer_Write_spec data b n b' : Buffer_Write data b = (n, b') →
    n = Z.min (Z.of_nat (length data)) (Buffer_free_space b) ∧
    Buffer_bytes b' = Buffer_bytes b ++ take (Z.to_nat n) data ∧
    Buffer_capacity b' = Buffer_capacity b;
  (** As much as there is, up to the size asked for, is taken from the front. *)
  Buffer_Read_spec size b data b' : 0 <= size → Buffer_Read size b = (data, b') →
    data = take (Z.to_nat size) (Buffer_bytes b) ∧
    Buffer_bytes b' = drop (Z.to_nat size) (Buffer_bytes b) ∧
    Buffer_capacity b' = Buffer_capacity b;
  Buffer_Clear_spec b : Buffer_bytes (Buffer_Clear b) = [] ∧
    Buffer_capacity (Buffer_Clear b) = Buffer_capacity b;
  Buffer_size_spec b : Buffer_size b = Z.of_nat (length (Buffer_bytes b));
  Buffer_free_space_spec b :
    Buffer_free_space b = Buffer_capacity b - Z.of_nat (length (Buffer_bytes b));
  Buffer_bounded b : Z.of_nat (length (Buffer_bytes b)) <= Buffer_capacity b;
  Buffer_empty_spec b : Buffer_empty b = true ↔ Buffer_bytes b = [];
  Buffer_full_spec b : Buffer_full b = true ↔ Buffer_free_space b = 0;
}.

(** A buffer as its capacity and contents; an ill-formed pair counts as empty. *)
Record list_buffer := MkListBuffer {
  lb_capacity : Z;
  lb_bytes : list Z;
  lb_ok : (Z.of_nat (length lb_bytes) <=? lb_capacity) = true;
}.

Lemma lb_write_ok data b :
  (Z.of_nat (length (lb_bytes b ++ take (Z.to_nat
    (Z.min (Z.of_nat (length data)) (lb_capacity b - Z.of_nat (length (lb_bytes b))))) data))
    <=? lb_capacity b) = true.
Proof.
  pose proof (lb_ok b) as Hb. rewrite Z.leb_le in *. rewrite length_app, length_take. lia.
Qed.

Lemma lb_drop_ok n b : (Z.of_nat (length (drop n (lb_bytes b))) <=? lb_capacity b) = true.
Proof. pose proof (lb_ok b) as Hb. rewrite Z.leb_le in *. rewrite length_drop. lia. Qed.

Lemma lb_new_ok n : (Z.of_nat (length ([] : list Z)) <=? Z.max 0 n) = true.
Proof. rewrite Z.leb_le. simpl. lia. Qed.

Definition simple_Buffer : BufferOps := {|
  Buffer := list_buffer;
  Buffer_new n := MkListBuffer (Z.max 0 n) [] (lb_new_ok n);
  Buffer_Write data b :=
    (Z.min (Z.of_nat (length data)) (lb_capacity b - Z.of_nat (length (lb_bytes b))),
     MkListBuffer (lb_capacity b) _ (lb_write_ok data b));
  Buffer_Read size b :=
    (take (Z.to_nat size) (lb_bytes b),
     MkListBuffer (lb_capacity b) _ (lb_drop_ok (Z.to_nat size) b));
  Buffer_Clear b := MkListBuffer (lb_capacity b) _ (lb_drop_ok (length (lb_bytes b)) b);
  Buffer_free_space b := lb_capacity b - Z.of_nat (length (lb_bytes b));
  Buffer_size b := Z.of_nat (length (lb_bytes b));
  Buffer_empty b := bool_decide (lb_bytes b = []);
  Buffer_full b := lb_capacity b =? Z.of_nat (length (lb_bytes b));
|}.

#[export] Instance simple_BufferLaws : @BufferLaws simple_Buffer lb_bytes lb_capacity.
Proof.
  split; simpl; intros.
  - split; [done | lia].
  - by simplify_eq/=.
  - by simplify_eq/=.
  - by rewrite drop_all.
  - done.
  - done.
  - pose proof (lb_ok b) as Hb. by apply Z.leb_le in Hb.
  - apply bool_decide_eq_true.
  - rewrite Z.eqb_eq. lia.
Qed.

(** ** [Utils::Min] *)
Class MinOps := { Utils_Min : Z → Z → Z }.
Class MinLaws `{!MinOps} : Prop := { Utils_Min_spec a b : Utils_Min a b = Z.min a b }.

Definition simple_Min : MinOps := {| Utils_Min := Z.min |}.
#[export] Instance simple_MinLaws : @MinLaws simple_Min.
Proof. by split. Qed.
