(* ===== verification/Packet.v ===== *)
(** * Packets

    [TcpHeader.h], [IPHeader.h], [Packet.h] and [Packet.cc]: the IP and TCP
    headers, the packet object with its heap-allocated payload, payload
    injection, deep copy and the flags of [DebugString]. *)
From S2P Require Import Prelude Interfaces.
Open Scope Z_scope.
Open Scope tcp_scope.

(** ** Headers *)

Record IPHeader := MkIPHeader {
  source_ip : string;
  dest_ip : string;
  protocol : Z;
}.

(** [IPHeader ip_header;] : the member initialisers. *)
Definition IPHeader_default : IPHeader := MkIPHeader "" "" 6.

Record TcpHeader := MkTcpHeader {
  source_port : Z;
  dest_port : Z;
  seq_num : Z;
  ack_num : Z;
  data_offset : Z;
  ack : bool;
  window_size : Z;
  check_sum : Z;
  sync : bool;
  fin : bool;
  rst : bool;
}.

Definition TcpHeader_default : TcpHeader :=
  MkTcpHeader 0 0 0 0 0 false 0 0 false false false.

#[export] Instance IPHeader_eq_dec : EqDecision IPHeader.
Proof. solve_decision. Defined.
#[export] Instance TcpHeader_eq_dec : EqDecision TcpHeader.
Proof. solve_decision. Defined.

#[export] Instance set_source_ip : Setter source_ip := λ f h,
  MkIPHeader (f (source_ip h)) (dest_ip h) (protocol h).
#[export] Instance set_dest_ip : Setter dest_ip := λ f h,
  MkIPHeader (source_ip h) (f (dest_ip h)) (protocol h).

(** The eleven fields of [TcpHeader]; a store to one of them on a [uint16] or
    [uint32] field truncates, which the assignments of the callers write out. *)
#[export] Instance set_source_port : Setter source_port := λ f h,
  MkTcpHeader (f (source_port h)) (dest_port h) (seq_num h) (ack_num h) (data_offset h)
    (ack h) (window_size h) (check_sum h) (sync h) (fin h) (rst h).
#[export] Instance set_dest_port : Setter dest_port := λ f h,
  MkTcpHeader (source_port h) (f (dest_port h)) (seq_num h) (ack_num h) (data_offset h)
    (ack h) (window_size h) (check_sum h) (sync h) (fin h) (rst h).
#[export] Instance set_seq_num : Setter seq_num := λ f h,
  MkTcpHeader (source_port h) (dest_port h) (f (seq_num h)) (ack_num h) (data_offset h)
    (ack h) (window_size h) (check_sum h) (sync h) (fin h) (rst h).
#[export] Instance set_ack_num : Setter ack_num := λ f h,
  MkTcpHeader (source_port h) (dest_port h) (seq_num h) (f (ack_num h)) (data_offset h)
    (ack h) (window_size h) (check_sum h) (sync h) (fin h) (rst h).
#[export] Instance set_ack : Setter ack := λ f h,
  MkTcpHeader (source_port h) (dest_port h) (seq_num h) (ack_num h) (data_offset h)
    (f (ack h)) (window_size h) (check_sum h) (sync h) (fin h) (rst h).
#[export] Instance set_window_size : Setter window_size := λ f h,
  MkTcpHeader (source_port h) (dest_port h) (seq_num h) (ack_num h) (data_offset h)
    (ack h) (f (window_size h)) (check_sum h) (sync h) (fin h) (rst h).
#[export] Instance set_sync : Setter sync := λ f h,
  MkTcpHeader (source_port h) (dest_port h) (seq_num h) (ack_num h) (data_offset h)
    (ack h) (window_size h) (check_sum h) (f (sync h)) (fin h) (rst h).
#[export] Instance set_fin : Setter fin := λ f h,
  MkTcpHeader (source_port h) (dest_port h) (seq_num h) (ack_num h) (data_offset h)
    (ack h) (window_size h) (check_sum h) (sync h) (f (fin h)) (rst h).
#[export] Instance set_rst : Setter rst := λ f h,
  MkTcpHeader (source_port h) (dest_port h) (seq_num h) (ack_num h) (data_offset h)
    (ack h) (window_size h) (check_sum h) (sync h) (fin h) (f (rst h)).

(** ** The packet object

    [payload_] is the block the packet owns, [None] for the null pointer. A
    block is owned by one packet and copied deeply, so its bytes are a value.
    [payload_size_] is a field of its own: [set_payload_size] sets it without a
    block, which is how SYN and FIN segments take one sequence number. *)

Record Packet := MkPacket {
  ip_header : IPHeader;
  tcp_header : TcpHeader;
  payload : option (list Z);
  payload_size : Z;
  corrupted : bool;
}.

#[export] Instance Packet_eq_dec : EqDecision Packet.
Proof. solve_decision. Defined.

#[export] Instance set_tcp_header : Setter tcp_header := λ f p,
  MkPacket (ip_header p) (f (tcp_header p)) (payload p) (payload_size p) (corrupted p).
#[export] Instance set_payload : Setter payload := λ f p,
  MkPacket (ip_header p) (tcp_header p) (f (payload p)) (payload_size p) (corrupted p).
#[export] Instance set_payload_size : Setter payload_size := λ f p,
  MkPacket (ip_header p) (tcp_header p) (payload p) (f (payload_size p)) (corrupted p).
#[export] Instance set_corrupted : Setter corrupted := λ f p,
  MkPacket (ip_header p) (tcp_header p) (payload p) (payload_size p) (f (corrupted p)).

(** [Packet::Packet(ip_header, tcp_header)] *)
Definition Packet_new (ip : IPHeader) (tcp : TcpHeader) : Packet :=
  MkPacket ip tcp None 0 false.

(** [Packet::Packet(ip_header, tcp_header, std::string)] *)
Definition Packet_of_string (ip : IPHeader) (tcp : TcpHeader) (data : list Z) : Packet :=
  MkPacket ip tcp (Some data) (u32 (Z.of_nat (length data))) false.

(** [Packet::InjectPayload]: [data] is the caller's buffer, [None] for null;
    [size] is an [int]. Returns the value returned and the packet. *)
Definition Packet_InjectPayload (p : Packet) (data : option (list Z)) (size : Z) : Z * Packet :=
  match data with
  | None => (0, p)
  | Some bs =>
      if size <=? 0 then (0, p)
      else (u32 size, p <| payload := Some (take (Z.to_nat size) bs) |>
                        <| payload_size := u32 size |>)
  end.

(** [Packet::Packet(ip_header, tcp_header, data, size)] *)
Definition Packet_of_bytes (ip : IPHeader) (tcp : TcpHeader)
    (data : option (list Z)) (size : Z) : Packet :=
  (Packet_InjectPayload (Packet_new ip tcp) data size).2.

(** [Packet::InjectPayloadFromBuffer]: reads up to [size] bytes out of a byte
    buffer. The block has [size] bytes; those behind the bytes read are never
    initialised, and [payload] lists the ones that are. *)
Definition Packet_InjectPayloadFromBuffer `{!BufferOps} (p : Packet) (src_buffer : Buffer)
    (size : Z) : Z * Packet * Buffer :=
  if size =? 0 then (0, p <| payload_size := 0 |>, src_buffer)
  else
    let '(data, src_buffer) := Buffer_Read size src_buffer in
    let n := u32 (Z.of_nat (length data)) in
    (n, p <| payload := Some data |> <| payload_size := n |>, src_buffer).

(** [Packet::Copy]: the [uint32] size is passed as an [int]. *)
Definition Packet_Copy (p : Packet) : Packet :=
  let copy := Packet_new (ip_header p) (tcp_header p) in
  let copy := copy <| payload_size := payload_size p |> in
  (Packet_InjectPayload copy (payload p) (i32 (payload_size p))).2.

(** [Packet::DebugString]: the flags it joins. [Strings::Join] is not part of
    the repository and is a parameter. *)
Definition to_string_u32 (x : Z) : string := pretty (Z.to_N x).

Definition Packet_debug_flags (p : Packet) : list string :=
  let h := tcp_header p in
  (if rst h then ["Rst"] else []) ++
  (if sync h then ["Syn*"] else []) ++
  (if fin h then ["Fin*"] else []) ++
  (if 0 <? payload_size p then ["Seq " ++ to_string_u32 (seq_num h)]%string
   else if negb (ack h) && negb (rst h) then ["probing window size"] else []) ++
  (if ack h then ["Ack " ++ to_string_u32 (ack_num h)]%string else []).

Definition Packet_DebugString (Join : list string → string → string) (p : Packet) : string :=
  Join (Packet_debug_flags p) ", "%string.

(** ** Well-formed packets

    The fields fit their types, a non-null block holds at least [payload_size]
    bytes, and the size fits the [int] that [Copy] passes it as. *)

Definition tcp_header_wf (h : TcpHeader) : Prop :=
  0 <= source_port h < 65536 ∧ 0 <= dest_port h < 65536 ∧
  is_u32 (seq_num h) ∧ is_u32 (ack_num h) ∧ 0 <= window_size h < 65536.

Record packet_wf (p : Packet) : Prop := {
  wf_header : tcp_header_wf (tcp_header p);
  wf_size : 0 <= payload_size p < 2147483648;
  wf_block : ∀ bs, payload p = Some bs → payload_size p <= Z.of_nat (length bs);
}.

(** The bytes a reader of the packet may look at: the first [payload_size]
    bytes of the block; a packet without a block carries no bytes. *)
Definition packet_bytes (p : Packet) : list Z :=
  match payload p with Some bs => take (Z.to_nat (payload_size p)) bs | None => [] end.

(** The sequence range of a packet. *)
Definition pkt_seq (p : Packet) : Z := seq_num (tcp_header p).
Definition pkt_len (p : Packet) : Z := payload_size p.

(** A data packet carries the bytes it says, and at least one. *)
Definition data_packet (p : Packet) : Prop :=
  payload_size p = Z.of_nat (length (packet_bytes p)) ∧ 0 < payload_size p.

(** The flags of the control segments. *)
Definition is_sync (pkt : Packet) : bool := sync (tcp_header pkt).
Definition is_fin (pkt : Packet) : bool := fin (tcp_header pkt).

(** ** Lemmas *)

Lemma packet_wf_len_nonneg p : packet_wf p → 0 <= pkt_len p.
Proof. intros []; unfold pkt_len; lia. Qed.
#[export] Hint Resolve packet_wf_len_nonneg : tcp.

(** a copy has the headers, the size and the bytes of the original, is well
    formed again, and is never marked corrupted. *)
Theorem Packet_Copy_faithful p (Hwf : packet_wf p) :
  ip_header (Packet_Copy p) = ip_header p ∧
  tcp_header (Packet_Copy p) = tcp_header p ∧
  payload_size (Packet_Copy p) = payload_size p ∧
  packet_bytes (Packet_Copy p) = packet_bytes p ∧
  corrupted (Packet_Copy p) = false ∧
  packet_wf (Packet_Copy p).
Proof.
  destruct Hwf as [Hh Hs Hb]. destruct p as [ip tcp pl sz c]; simpl in *.
  unfold Packet_Copy; simpl. rewrite i32_small by word_lia.
  destruct pl as [bs|]; simpl; last by split_and!; try constructor; naive_solver.
  specialize (Hb bs eq_refl).
  destruct (Z.leb_spec sz 0) as [Hz|Hz]; simpl.
  - assert (sz = 0) as -> by lia.
    split_and!; try constructor; naive_solver lia.
  - rewrite u32_small by word_lia. unfold packet_bytes; simpl.
    rewrite take_take, Nat.min_id.
    split_and!; try constructor; simpl; try done.
    intros ? [= <-]. rewrite length_take. lia.
Qed.

Definition sample_packet : Packet :=
  (Packet_of_string IPHeader_default TcpHeader_default [1; 2; 3]) <| corrupted := true |>.

Lemma Packet_Copy_faithful_witness :
  packet_bytes (Packet_Copy sample_packet) = [1; 2; 3] ∧ corrupted (Packet_Copy sample_packet) = false.
Proof.
  destruct (Packet_Copy_faithful sample_packet) as (_ & _ & _ & Hb & Hc & _).
  - split; [done | done |]. intros bs [= <-]. done.
  - split; [exact Hb | exact Hc].
Defined.
