(* ===== verification/Keys.v ===== *)
(** * Connection and listener keys

    [Common.h]: [TcpControllerKey] (the four-tuple that identifies a
    connection) and [LocalLayerThreeKey] (the pair that identifies a listener),
    with their equality, their [operator<], their hash and their printing. *)
From S2P Require Import Prelude.
From Stdlib Require Import OrdersEx.
Open Scope Z_scope.
Open Scope tcp_scope.

(** [std::string]'s [operator<]: lexicographic on unsigned characters. *)
Definition string_ltb (a b : string) : bool :=
  match String_as_OT.compare a b with Lt => true | _ => false end.

Record TcpControllerKey := MkKey {
  key_source_ip : string;
  key_source_port : Z;
  key_dest_ip : string;
  key_dest_port : Z;
}.

(** The default constructor. *)
Definition TcpControllerKey_default : TcpControllerKey := MkKey "" 0 "" 0.

Record LocalLayerThreeKey := MkLocalKey {
  local_ip : string;
  local_port : Z;
}.

Definition LocalLayerThreeKey_default : LocalLayerThreeKey := MkLocalKey "" 0.

#[export] Instance TcpControllerKey_eq_dec : EqDecision TcpControllerKey.
Proof. solve_decision. Defined.
#[export] Instance LocalLayerThreeKey_eq_dec : EqDecision LocalLayerThreeKey.
Proof. solve_decision. Defined.
#[export] Instance TcpControllerKey_countable : Countable TcpControllerKey.
Proof.
  by apply (inj_countable'
    (λ k, (key_source_ip k, key_source_port k, key_dest_ip k, key_dest_port k))
    (λ '(a, b, c, d), MkKey a b c d)); intros [].
Defined.
#[export] Instance LocalLayerThreeKey_countable : Countable LocalLayerThreeKey.
Proof.
  by apply (inj_countable' (λ k, (local_ip k, local_port k))
    (λ '(a, b), MkLocalKey a b)); intros [].
Defined.

(** [TcpControllerKey::operator==] *)
Definition TcpControllerKey_eqb (a b : TcpControllerKey) : bool :=
  String.eqb (key_source_ip a) (key_source_ip b) &&
  (key_source_port a =? key_source_port b) &&
  String.eqb (key_dest_ip a) (key_dest_ip b) &&
  (key_dest_port a =? key_dest_port b).

(** [TcpControllerKey::operator<] *)
Definition TcpControllerKey_ltb (a b : TcpControllerKey) : bool :=
  if negb (String.eqb (key_source_ip a) (key_source_ip b))
  then string_ltb (key_source_ip a) (key_source_ip b)
  else if negb (key_source_port a =? key_source_port b)
  then key_source_port a <? key_source_port b
  else if negb (String.eqb (key_dest_ip a) (key_dest_ip b))
  then string_ltb (key_dest_ip a) (key_dest_ip b)
  else if negb (key_dest_port a =? key_dest_port b)
  then key_dest_port a <? key_dest_port b
  else false.

(** [LocalLayerThreeKey::operator==] and [operator<] *)
Definition LocalLayerThreeKey_eqb (a b : LocalLayerThreeKey) : bool :=
  String.eqb (local_ip a) (local_ip b) && (local_port a =? local_port b).

Definition LocalLayerThreeKey_ltb (a b : LocalLayerThreeKey) : bool :=
  if negb (String.eqb (local_ip a) (local_ip b))
  then string_ltb (local_ip a) (local_ip b)
  else if negb (local_port a =? local_port b)
  then local_port a <? local_port b
  else false.

(** [DebugString]: [Strings::StrCat] is not part of the repository, so the
    printing is given as the pieces it concatenates. *)
Definition TcpControllerKey_DebugString (StrCat : list string → string)
    (k : TcpControllerKey) : string :=
  StrCat ["{"; key_source_ip k; ":"; pretty (key_source_port k); ", ";
          key_dest_ip k; ":"; pretty (key_dest_port k); "}"]%string.

Definition LocalLayerThreeKey_DebugString (StrCat : list string → string)
    (k : LocalLayerThreeKey) : string :=
  StrCat ["{"; local_ip k; ", "; pretty (local_port k); "}"]%string.

(** [std::hash] of the two keys, over the standard string and integer hashers,
    whose values the C++ standard leaves to the implementation. [size_t] has 64
    bits: a left shift drops the bits beyond them. *)
Section hash.
Context (str_hasher : string → Z) (int_hasher : Z → Z).

Definition shl64 (x n : Z) : Z := u64 (Z.shiftl x n).

Definition TcpControllerKey_hash (k : TcpControllerKey) : Z :=
  Z.lxor
    (Z.shiftr (Z.lxor (str_hasher (key_source_ip k))
                      (shl64 (int_hasher (key_source_port k)) 1)) 1)
    (Z.shiftr (Z.lxor (shl64 (str_hasher (key_dest_ip k)) 2)
                      (shl64 (int_hasher (key_dest_port k)) 2)) 2).

Definition LocalLayerThreeKey_hash (k : LocalLayerThreeKey) : Z :=
  Z.shiftr (Z.lxor (str_hasher (local_ip k)) (shl64 (int_hasher (local_port k)) 1)) 1.
End hash.

(** ** Equality *)

Lemma TcpControllerKey_eqb_spec a b : TcpControllerKey_eqb a b = true ↔ a = b.
Proof.
  destruct a, b; unfold TcpControllerKey_eqb; simpl.
  rewrite !andb_true_iff, !String.eqb_eq, !Z.eqb_eq. naive_solver.
Qed.

Lemma LocalLayerThreeKey_eqb_spec a b : LocalLayerThreeKey_eqb a b = true ↔ a = b.
Proof.
  destruct a, b; unfold LocalLayerThreeKey_eqb; simpl.
  rewrite andb_true_iff, String.eqb_eq, Z.eqb_eq. naive_solver.
Qed.

(** ** Order

    Both [operator<] are lexicographic products, so one lemma on products of
    strict total orders carries them. [ltb_total lt] packages the three laws
    a [std::map] key needs. *)

Record ltb_total {A} (lt : A → A → bool) : Prop := {
  ltb_irrefl : ∀ a, lt a a = false;
  ltb_trans : ∀ a b c, lt a b = true → lt b c = true → lt a c = true;
  ltb_tri : ∀ a b, lt a b = false → lt b a = false → a = b;
}.

Lemma string_ltb_lt a b : string_ltb a b = true ↔ String_as_OT.lt a b.
Proof.
  unfold string_ltb, String_as_OT.lt.
  destruct (String_as_OT.compare a b); split; congruence.
Qed.

Lemma string_ltb_total : ltb_total string_ltb.
Proof.
  split.
  - intros a. apply not_true_iff_false. rewrite string_ltb_lt.
    apply (irreflexivity String_as_OT.lt).
  - intros a b c. rewrite !string_ltb_lt. apply transitivity.
  - intros a b Hab Hba. destruct (String_as_OT.compare_spec a b) as [| H | H]; [done | |];
      apply string_ltb_lt in H; congruence.
Qed.

Lemma Z_ltb_total : ltb_total Z.ltb.
Proof. split; intros; rewrite ?Z.ltb_lt, ?Z.ltb_ge in *; lia. Qed.

(** The lexicographic step of the two operators: compare [f], and on a tie
    continue with [rest]. *)
Definition lex_ltb {A B} (f : A → B) (eqb lt : B → B → bool)
    (rest : A → A → bool) (x y : A) : bool :=
  if negb (eqb (f x) (f y)) then lt (f x) (f y) else rest x y.

(** [rest] is total among the elements that agree on [f]. *)
Record ltb_total_on {A} (E : A → A → Prop) (lt : A → A → bool) : Prop := {
  on_irrefl : ∀ a, lt a a = false;
  on_trans : ∀ a b c, E a b → E b c → lt a b = true → lt b c = true → lt a c = true;
  on_tri : ∀ a b, E a b → lt a b = false → lt b a = false → a = b;
}.

Lemma lex_ltb_on {A B} (E : A → A → Prop) (f : A → B) eqb lt rest
    (Heqb : ∀ u v, eqb u v = true ↔ u = v) (Hlt : ltb_total lt)
    (Hrest : ltb_total_on (λ x y, E x y ∧ f x = f y) rest) :
  ltb_total_on E (lex_ltb f eqb lt rest).
Proof.
  assert (∀ x y, eqb (f x) (f y) = false ↔ f x ≠ f y) as Hneq.
  { intros x y. rewrite <- not_true_iff_false, Heqb. done. }
  destruct Hlt as [Hi Ht Htri], Hrest as [Ri Rt Rtri]. unfold lex_ltb. split.
  - intros a. rewrite (proj2 (Heqb (f a) (f a)) eq_refl). apply Ri.
  - intros a b c HEab HEbc.
    destruct (eqb (f a) (f b)) eqn:Hab, (eqb (f b) (f c)) eqn:Hbc; simpl;
      rewrite ?Heqb, ?Hneq in *.
    + assert (eqb (f a) (f c) = true) as -> by (apply Heqb; congruence).
      intros ??. by eapply Rt; eauto.
    + intros _ Hlt. rewrite Hab. apply Hneq in Hbc. by rewrite Hbc.
    + intros Hlt _. rewrite <- Hbc. apply Hneq in Hab. by rewrite Hab.
    + intros H1 H2. assert (eqb (f a) (f c) = false) as ->; [|simpl; eauto].
      apply Hneq. intros Hac. rewrite Hac in H1.
      pose proof (Ht _ _ _ H2 H1) as Hbb. by rewrite Hi in Hbb.
  - intros a b HE. destruct (eqb (f a) (f b)) eqn:Hab; simpl.
    + apply Heqb in Hab. rewrite Hab, (proj2 (Heqb _ _) eq_refl). simpl. eauto.
    + apply Hneq in Hab. destruct (eqb (f b) (f a)) eqn:Hba; simpl.
      * apply Heqb in Hba. congruence.
      * intros H1 H2. destruct Hab. eauto.
Qed.

Lemma const_false_on {A} (E : A → A → Prop) :
  (∀ x y, E x y → x = y) → ltb_total_on E (λ _ _, false).
Proof. intros HE. split; naive_solver. Qed.

Lemma ltb_total_on_top {A} (lt : A → A → bool) :
  ltb_total_on (λ _ _, True) lt → ltb_total lt.
Proof. intros [Hi Ht Htri]. split; eauto. Qed.

Lemma LocalLayerThreeKey_ltb_total : ltb_total LocalLayerThreeKey_ltb.
Proof.
  apply ltb_total_on_top.
  apply (lex_ltb_on _ local_ip String.eqb string_ltb), (lex_ltb_on _ local_port Z.eqb Z.ltb);
    eauto using String.eqb_eq, Z.eqb_eq, string_ltb_total, Z_ltb_total.
  apply const_false_on. intros [] []; simpl; naive_solver.
Qed.

(** The four-tuple order is a strict total order: what [std::map] and
    [std::set] need of a key type. *)
Theorem TcpControllerKey_ltb_total : ltb_total TcpControllerKey_ltb.
Proof.
  apply ltb_total_on_top.
  apply (lex_ltb_on _ key_source_ip String.eqb string_ltb),
    (lex_ltb_on _ key_source_port Z.eqb Z.ltb),
    (lex_ltb_on _ key_dest_ip String.eqb string_ltb),
    (lex_ltb_on _ key_dest_port Z.eqb Z.ltb);
    eauto using String.eqb_eq, Z.eqb_eq, string_ltb_total, Z_ltb_total.
  apply const_false_on. intros [] []; simpl; naive_solver.
Qed.

(** ** Hash range *)

Lemma shl64_range x n : 0 <= shl64 x n < 2 ^ 64.
Proof. unfold shl64. word_lia. Qed.

Lemma lxor_bound n x y (Hn : 0 <= n) (Hx : 0 <= x < 2 ^ n) (Hy : 0 <= y < 2 ^ n) :
  0 <= Z.lxor x y < 2 ^ n.
Proof.
  split; [apply Z.lxor_nonneg; lia |].
  destruct (decide (Z.lxor x y = 0)) as [-> | Hne]; [lia |].
  apply Z.log2_lt_pow2; [pose proof (proj2 (Z.lxor_nonneg x y)); lia |].
  eapply Z.le_lt_trans; [apply Z.log2_lxor; lia |].
  apply Z.max_lub_lt.
  - destruct (decide (x = 0)) as [-> |]; [simpl; destruct (decide (n = 0)); [|lia] |].
    + subst. simpl in *. assert (y = 0) by lia. by subst.
    + apply Z.log2_lt_pow2; lia.
  - destruct (decide (y = 0)) as [-> |]; [simpl; destruct (decide (n = 0)); [|lia] |].
    + subst. simpl in *. assert (x = 0) by lia. by subst.
    + apply Z.log2_lt_pow2; lia.
Qed.

Lemma shiftr_bound n x k (Hx : 0 <= x < 2 ^ n) (Hk : 0 <= k) : 0 <= Z.shiftr x k < 2 ^ n.
Proof.
  rewrite Z.shiftr_div_pow2 by done. pose proof (Z.pow_pos_nonneg 2 k). split.
  - apply Z.div_pos; lia.
  - eapply Z.le_lt_trans; [|apply Hx]. apply Z.div_le_upper_bound; nia.
Qed.

Theorem TcpControllerKey_hash_range sh ih k
    (Hsh : ∀ s, 0 <= sh s < 2 ^ 64) :
  0 <= TcpControllerKey_hash sh ih k < 2 ^ 64.
Proof.
  apply lxor_bound; [lia | |]; apply shiftr_bound; try lia;
    apply lxor_bound; auto using shl64_range; lia.
Qed.

Lemma TcpControllerKey_hash_range_witness :
  0 <= TcpControllerKey_hash (λ s, Z.of_nat (String.length s) mod 2 ^ 64) (λ i, i)
         (MkKey "10.0.0.1" 80 "10.0.0.2" 1024) < 2 ^ 64.
Proof. apply TcpControllerKey_hash_range. intros s. by apply Z.mod_pos_bound. Defined.
