(* ===== verification/NumPool.v ===== *)
(** * Number pools

    [NumPool.h] and [NumPool.cc]: the pool of file descriptors, open-file ids
    and ports. The [std::set<int32>] is its strictly increasing list of
    elements; [NumPool_set] is the set it stands for, against which the
    operations are specified. Every method holds [mutex_] throughout, so each is
    one atomic step. *)
From S2P Require Import Prelude.
From stdpp Require Import sorting.
Open Scope Z_scope.
Open Scope tcp_scope.

(** ** [std::set<int32>] *)

Fixpoint set_insert (x : Z) (l : list Z) : list Z :=
  match l with
  | [] => [x]
  | y :: l' => if x <? y then x :: l else if x =? y then l else y :: set_insert x l'
  end.

Fixpoint set_erase (x : Z) (l : list Z) : list Z :=
  match l with
  | [] => []
  | y :: l' => if x =? y then l' else y :: set_erase x l'
  end.

Definition set_mem (x : Z) (l : list Z) : bool := existsb (Z.eqb x) l.

(** ** The pool *)

Record NumPool := MkNumPool {
  np_name : string;
  np_pool : list Z;
}.

#[export] Instance set_np_pool : Setter np_pool := λ f p,
  MkNumPool (np_name p) (f (np_pool p)).
#[export] Instance set_np_name : Setter np_name := λ f p,
  MkNumPool (f (np_name p)) (np_pool p).

(** [NumPool::NumPool(int min, int max)]: inserts [min], [min + 1], .., [max]. *)
Definition NumPool_new (min max : Z) : NumPool :=
  MkNumPool "" (foldl (λ s i, set_insert i s) [] (seqZ min (max - min + 1))).

(** [NumPool::NumPool(name, min, max)] *)
Definition NumPool_new_named (name : string) (min max : Z) : NumPool :=
  (NumPool_new min max) <| np_name := name |>.

(** [NumPool::Allocate]: the smallest number, [-1] when there is none. *)
Definition NumPool_Allocate (p : NumPool) : Z * NumPool :=
  match np_pool p with
  | [] => (-1, p)
  | num :: rest => (num, p <| np_pool := rest |>)
  end.

(** [NumPool::Take] *)
Definition NumPool_Take (num : Z) (p : NumPool) : bool * NumPool :=
  if set_mem num (np_pool p) then (true, p <| np_pool := set_erase num (np_pool p) |>)
  else (false, p).

(** [NumPool::AllocateRandom]: [Utils::RandomNumber] is not part of the
    repository and is a parameter; an index outside the set would walk past
    its end. *)
Definition NumPool_AllocateRandom (RandomNumber : Z → Z) (p : NumPool) : res (Z * NumPool) :=
  let size := u32 (Z.of_nat (length (np_pool p))) in
  if size =? 0 then Ok (-1, p)
  else
    let index := u32 (RandomNumber size) in
    match np_pool p !! Z.to_nat index with
    | None => Fault OutOfRange
    | Some it => let num := u32 it in
                 Ok (i32 num, p <| np_pool := set_erase it (np_pool p) |>)
    end.

(** [NumPool::Release] *)
Definition NumPool_Release (num : Z) (p : NumPool) : NumPool :=
  p <| np_pool := set_insert num (np_pool p) |>.

(** ** The set a pool stands for, and the invariant *)

Definition NumPool_set (p : NumPool) : gset Z := list_to_set (np_pool p).

(** The invariant of a pool whose numbers lie in [lo..hi]. *)
Record NumPool_inv (lo hi : Z) (p : NumPool) : Prop := {
  np_sorted : StronglySorted Z.lt (np_pool p);
  np_range : ∀ x, x ∈ np_pool p → lo <= x <= hi;
}.

(** The methods as one operation type, so that the contract is stated once.
    [Take] returns [1] for true and [0] for false, [Release] nothing ([0]). *)
Inductive pool_op :=
  | OpAllocate
  | OpAllocateRandom (RandomNumber : Z → Z)
  | OpTake (num : Z)
  | OpRelease (num : Z).

Definition pool_exec (op : pool_op) (p : NumPool) : res (Z * NumPool) :=
  match op with
  | OpAllocate => Ok (NumPool_Allocate p)
  | OpAllocateRandom r => NumPool_AllocateRandom r p
  | OpTake n => let '(b, p') := NumPool_Take n p in Ok (if b then 1 else 0, p')
  | OpRelease n => Ok (0, NumPool_Release n p)
  end.

(** What the methods promise, on sets. *)
Inductive pool_spec (S : gset Z) : pool_op → Z → gset Z → Prop :=
  | spec_allocate n : n ∈ S → (∀ m, m ∈ S → n <= m) →
      pool_spec S OpAllocate n (S ∖ {[n]})
  | spec_allocate_empty : S = ∅ → pool_spec S OpAllocate (-1) S
  | spec_random r n : n ∈ S → pool_spec S (OpAllocateRandom r) n (S ∖ {[n]})
  | spec_random_empty r : S = ∅ → pool_spec S (OpAllocateRandom r) (-1) S
  | spec_take n : n ∈ S → pool_spec S (OpTake n) 1 (S ∖ {[n]})
  | spec_take_absent n : n ∉ S → pool_spec S (OpTake n) 0 S
  | spec_release n : pool_spec S (OpRelease n) 0 (S ∪ {[n]}).

(** An operation a client may call: the random source stays below its bound,
    and what is released lies in the pool's range. *)
Definition pool_op_ok (lo hi : Z) (op : pool_op) : Prop :=
  match op with
  | OpAllocateRandom r => ∀ size, 0 < size → 0 <= r size < size
  | OpRelease n => lo <= n <= hi
  | _ => True
  end.

(** ** Clients of a pool

    The numbers handed out and not yet released, beside the pool. A client
    releases only a number it holds. *)
Inductive pool_step (lo hi : Z) : NumPool * gset Z → NumPool * gset Z → Prop :=
  | step_allocate p H n p' op :
      op = OpAllocate ∨ (∃ r, op = OpAllocateRandom r) →
      pool_op_ok lo hi op → pool_exec op p = Ok (n, p') → n ≠ -1 →
      pool_step lo hi (p, H) (p', H ∪ {[n]})
  | step_fail p H op p' :
      op = OpAllocate ∨ (∃ r, op = OpAllocateRandom r) →
      pool_op_ok lo hi op → pool_exec op p = Ok (-1, p') →
      pool_step lo hi (p, H) (p', H)
  | step_take p H n p' :
      pool_exec (OpTake n) p = Ok (1, p') → pool_step lo hi (p, H) (p', H ∪ {[n]})
  | step_take_fail p H n p' :
      pool_exec (OpTake n) p = Ok (0, p') → pool_step lo hi (p, H) (p', H)
  | step_release p H n p' :
      n ∈ H → pool_exec (OpRelease n) p = Ok (0, p') →
      pool_step lo hi (p, H) (p', H ∖ {[n]}).

(** ** Lemmas on sorted lists *)

Lemma elem_of_set_insert x y l : y ∈ set_insert x l ↔ y = x ∨ y ∈ l.
Proof.
  induction l as [|z l IH]; simpl; [set_solver |].
  destruct (Z.ltb_spec x z), (Z.eqb_spec x z); set_solver.
Qed.

Lemma length_set_insert x l : (length (set_insert x l) ≤ S (length l))%nat.
Proof.
  induction l as [|z l IH]; simpl; [lia |].
  destruct (x <? z), (x =? z); simpl; lia.
Qed.

Lemma set_insert_sorted x l : StronglySorted Z.lt l → StronglySorted Z.lt (set_insert x l).
Proof.
  induction 1 as [|z l Hs IH Hz]; simpl; [repeat constructor |].
  rewrite Forall_forall in Hz.
  destruct (Z.ltb_spec x z); [|destruct (Z.eqb_spec x z)].
  - constructor; [by constructor; [|apply Forall_forall] |].
    apply Forall_forall. intros y [->|Hy]%elem_of_cons; [lia|]. specialize (Hz y Hy). lia.
  - by constructor; [|apply Forall_forall].
  - constructor; [done|]. apply Forall_forall.
    intros y [->|Hy]%elem_of_set_insert; [lia|auto].
Qed.

Lemma set_mem_spec x l : set_mem x l = true ↔ x ∈ l.
Proof.
  unfold set_mem. rewrite existsb_exists. setoid_rewrite <- list_elem_of_In. split.
  - intros (y & ? & ->%Z.eqb_eq). done.
  - intros. exists x. by rewrite Z.eqb_refl.
Qed.

Lemma elem_of_set_erase x y l :
  StronglySorted Z.lt l → y ∈ set_erase x l ↔ y ≠ x ∧ y ∈ l.
Proof.
  induction 1 as [|z l Hs IH Hz]; simpl; [set_solver |].
  rewrite Forall_forall in Hz.
  destruct (Z.eqb_spec x z) as [->|Hne]; [|set_solver].
  rewrite elem_of_cons. split; [|naive_solver].
  intros Hy. split; [specialize (Hz y Hy); lia | by right].
Qed.

Lemma set_erase_sublist x l : set_erase x l `sublist_of` l.
Proof.
  induction l as [|z l IH]; simpl; [done |].
  destruct (x =? z); [by apply sublist_cons | by apply sublist_skip].
Qed.

Lemma sublist_sorted (l k : list Z) :
  l `sublist_of` k → StronglySorted Z.lt k → StronglySorted Z.lt l.
Proof.
  induction 1 as [|x l k Hl IH|x l k Hl IH]; intros Hs; [done | |].
  - apply StronglySorted_inv in Hs as [Hs Hx]. constructor; [auto|].
    rewrite Forall_forall in *. eauto using elem_of_sublist.
  - apply StronglySorted_inv in Hs as [Hs _]. auto.
Qed.

(** A strictly increasing list inside [lo..hi] has at most [hi - lo + 1]
    elements, so the size of a pool fits a [uint32]. *)
Lemma sorted_length (lo hi : Z) (l : list Z) :
  StronglySorted Z.lt l → (∀ x, x ∈ l → lo <= x <= hi) →
  Z.of_nat (length l) <= Z.max 0 (hi - lo + 1).
Proof.
  intros Hs. revert lo. induction Hs as [|z l Hs IH Hz]; intros lo Hr; simpl; [lia |].
  rewrite Forall_forall in Hz. pose proof (Hr z ltac:(by left)) as Hzr.
  assert (∀ x, x ∈ l → z + 1 <= x <= hi) as Hl.
  { intros x Hx. specialize (Hz x Hx). specialize (Hr x ltac:(by right)). lia. }
  specialize (IH _ Hl). lia.
Qed.

(** ** The pool keeps its invariant and implements the set *)

Section pool.
Context (lo hi : Z) (Hlo : 0 <= lo) (Hhi : hi < 2147483648).
Implicit Types p : NumPool.

Lemma NumPool_set_elem p n : n ∈ NumPool_set p ↔ n ∈ np_pool p.
Proof. apply elem_of_list_to_set. Qed.

Lemma NumPool_set_empty p : NumPool_set p = ∅ ↔ np_pool p = [].
Proof.
  unfold NumPool_set. destruct (np_pool p) as [|z l]; simpl; [done |].
  split; [set_solver | done].
Qed.

Lemma NumPool_size p : NumPool_inv lo hi p →
  u32 (Z.of_nat (length (np_pool p))) = Z.of_nat (length (np_pool p)).
Proof. intros [Hs Hr]. apply u32_small. pose proof (sorted_length _ _ _ Hs Hr). word_lia. Qed.

Lemma NumPool_erase p n : NumPool_inv lo hi p →
  NumPool_inv lo hi (p <| np_pool := set_erase n (np_pool p) |>) ∧
  NumPool_set (p <| np_pool := set_erase n (np_pool p) |>) = NumPool_set p ∖ {[n]}.
Proof.
  intros [Hs Hr]. pose proof (set_erase_sublist n (np_pool p)) as Hsub.
  split; [split; simpl |].
  - eauto using sublist_sorted.
  - intros x Hx. eauto using elem_of_sublist.
  - apply set_eq. intros x.
    rewrite elem_of_difference, elem_of_singleton, !NumPool_set_elem; simpl.
    rewrite elem_of_set_erase by done. naive_solver.
Qed.

Lemma NumPool_insert p n : NumPool_inv lo hi p → lo <= n <= hi →
  NumPool_inv lo hi (NumPool_Release n p) ∧
  NumPool_set (NumPool_Release n p) = NumPool_set p ∪ {[n]}.
Proof.
  intros [Hs Hr] Hn. split; [split; simpl; [by apply set_insert_sorted |] |].
  - intros x [->|?]%elem_of_set_insert; auto.
  - apply set_eq. intros x. rewrite elem_of_union, elem_of_singleton, !NumPool_set_elem.
    simpl. rewrite elem_of_set_insert. naive_solver.
Qed.

(** The smallest number heads the list; erasing it leaves the tail. *)
Lemma NumPool_head p n l : NumPool_inv lo hi p → np_pool p = n :: l →
  (∀ m, m ∈ NumPool_set p → n <= m) ∧ l = set_erase n (np_pool p).
Proof.
  intros [Hs _] Hp. rewrite Hp in *. apply StronglySorted_inv in Hs as [_ Hz].
  rewrite Forall_forall in Hz. split.
  - intros m. rewrite NumPool_set_elem, Hp. intros [->|Hm]%elem_of_cons; [lia|].
    specialize (Hz m Hm). lia.
  - simpl. by rewrite Z.eqb_refl.
Qed.

Lemma NumPool_refines_Allocate p : NumPool_inv lo hi p →
  let '(n, p') := NumPool_Allocate p in
  NumPool_inv lo hi p' ∧ pool_spec (NumPool_set p) OpAllocate n (NumPool_set p').
Proof.
  intros Hp. unfold NumPool_Allocate. destruct (np_pool p) as [|n l] eqn:Hl.
  - split; [done |]. by apply spec_allocate_empty, NumPool_set_empty.
  - destruct (NumPool_head _ _ _ Hp Hl) as [Hmin ->].
    destruct (NumPool_erase p n Hp) as [Hi ->]. split; [done |].
    constructor; [|done]. rewrite NumPool_set_elem, Hl. by left.
Qed.

Lemma NumPool_refines_AllocateRandom p r :
  NumPool_inv lo hi p → pool_op_ok lo hi (OpAllocateRandom r) →
  ∃ n p', NumPool_AllocateRandom r p = Ok (n, p') ∧ NumPool_inv lo hi p' ∧
    pool_spec (NumPool_set p) (OpAllocateRandom r) n (NumPool_set p').
Proof.
  intros Hp Hr. unfold NumPool_AllocateRandom. rewrite NumPool_size by done.
  pose proof (sorted_length _ _ _ (np_sorted _ _ _ Hp) (np_range _ _ _ Hp)) as Hlen.
  destruct (Z.eqb_spec (Z.of_nat (length (np_pool p))) 0) as [H0|H0].
  - exists (-1), p. split_and!; [done..|].
    apply spec_random_empty, NumPool_set_empty, length_zero_iff_nil. lia.
  - specialize (Hr (Z.of_nat (length (np_pool p))) ltac:(lia)).
    rewrite u32_small by word_lia.
    destruct (lookup_lt_is_Some_2 (np_pool p) (Z.to_nat (r (Z.of_nat (length (np_pool p))))))
      as [n Hn]; [lia |].
    rewrite Hn. pose proof (list_elem_of_lookup_2 _ _ _ Hn) as Hin.
    pose proof (np_range _ _ _ Hp n Hin) as Hrg.
    eexists _, _. split; [done |]. rewrite i32_u32, i32_small by word_lia.
    destruct (NumPool_erase p n Hp) as [Hi ->]. split; [done |].
    constructor. by rewrite NumPool_set_elem.
Qed.

Lemma pool_exec_refines p op :
  NumPool_inv lo hi p → pool_op_ok lo hi op →
  ∃ n p', pool_exec op p = Ok (n, p') ∧ NumPool_inv lo hi p' ∧
    pool_spec (NumPool_set p) op n (NumPool_set p').
Proof.
  intros Hinv Hop. destruct op as [|r|n|n]; simpl.
  - pose proof (NumPool_refines_Allocate p Hinv) as HA.
    destruct (NumPool_Allocate p) as [n p']. eauto.
  - by apply NumPool_refines_AllocateRandom.
  - unfold NumPool_Take. destruct (set_mem n (np_pool p)) eqn:Hm.
    + destruct (NumPool_erase p n Hinv) as [Hi Hs].
      eexists _, _. split_and!; [done..|]. rewrite Hs. constructor.
      by rewrite NumPool_set_elem, <- set_mem_spec.
    + eexists _, _. split_and!; [done..|]. constructor.
      by rewrite NumPool_set_elem, <- set_mem_spec, Hm.
  - destruct (NumPool_insert p n Hinv Hop) as [Hi Hs].
    eexists _, _. split_and!; [done..|]. rewrite Hs. constructor.
Qed.

(** The contract, read off a given run of an operation. *)
Lemma pool_exec_inv p op n p' :
  NumPool_inv lo hi p → pool_op_ok lo hi op → pool_exec op p = Ok (n, p') →
  NumPool_inv lo hi p' ∧ pool_spec (NumPool_set p) op n (NumPool_set p').
Proof.
  intros Hinv Hop Hex. destruct (pool_exec_refines p op Hinv Hop) as (? & ? & Hex' & ? & ?).
  rewrite Hex in Hex'. by simplify_eq.
Qed.

(** *** The pool as constructed *)

Lemma foldl_set_insert l k :
  StronglySorted Z.lt k →
  StronglySorted Z.lt (foldl (λ s i, set_insert i s) k l) ∧
  ∀ x, x ∈ foldl (λ s i, set_insert i s) k l ↔ x ∈ k ∨ x ∈ l.
Proof.
  revert k. induction l as [|i l IH]; intros k Hk; simpl; [set_solver |].
  destruct (IH (set_insert i k) (set_insert_sorted i k Hk)) as [Hs Hm].
  split; [done |]. intros x. rewrite Hm, elem_of_set_insert, elem_of_cons. tauto.
Qed.

Lemma elem_of_NumPool_new x : x ∈ np_pool (NumPool_new lo hi) ↔ lo <= x <= hi.
Proof.
  unfold NumPool_new; simpl.
  rewrite (proj2 (foldl_set_insert _ [] ltac:(constructor))), elem_of_seqZ. set_solver by lia.
Qed.

Lemma NumPool_new_inv : NumPool_inv lo hi (NumPool_new lo hi).
Proof.
  split; [apply foldl_set_insert; constructor |].
  intros x. by rewrite elem_of_NumPool_new.
Qed.

(** What every reachable pair of pool and held numbers satisfies. *)
Definition pool_partition (s : NumPool * gset Z) : Prop :=
  NumPool_inv lo hi s.1 ∧ s.2 ## NumPool_set s.1 ∧
  ∀ x, x ∈ s.2 ∪ NumPool_set s.1 ↔ lo <= x <= hi.

Lemma pool_partition_step s s' :
  pool_partition s → pool_step lo hi s s' → pool_partition s'.
Proof.
  intros (Hinv & Hdis & Hall) Hstep. destruct Hstep as
    [p H n p' op Hop Hok Hex Hne|p H op p' Hop Hok Hex|p H n p' Hex|p H n p' Hex|p H n p' HnH Hex];
    simpl in *.
  - destruct (pool_exec_inv p op n p' Hinv Hok Hex) as [Hi Hsp]. unfold pool_partition; simpl.
    destruct Hop as [->|[r ->]]; inversion Hsp; subst; try done;
      (split_and!; [done | set_solver |]); intros x; rewrite <- Hall;
      rewrite !elem_of_union, elem_of_difference, elem_of_singleton;
      destruct (decide (x = n)); naive_solver.
  - destruct (pool_exec_inv p op (-1) p' Hinv Hok Hex) as [Hi Hsp]. unfold pool_partition; simpl.
    assert (-1 ∉ NumPool_set p) by (intros Hm; specialize (Hall (-1)); set_solver by lia).
    destruct Hop as [->|[r ->]]; inversion Hsp; subst; try done; congruence.
  - destruct (pool_exec_inv p (OpTake n) 1 p' Hinv I Hex) as [Hi Hsp]. unfold pool_partition; simpl.
    inversion Hsp; subst. split_and!; [done | set_solver |]. intros x. rewrite <- Hall.
    rewrite !elem_of_union, elem_of_difference, elem_of_singleton.
    destruct (decide (x = n)); naive_solver.
  - destruct (pool_exec_inv p (OpTake n) 0 p' Hinv I Hex) as [Hi Hsp]. unfold pool_partition; simpl.
    assert (NumPool_set p' = NumPool_set p) as -> by (by inversion Hsp). done.
  - assert (lo <= n <= hi) as Hn by (apply Hall; set_solver).
    destruct (pool_exec_inv p (OpRelease n) 0 p' Hinv Hn Hex) as [Hi Hsp].
    unfold pool_partition; simpl.
    inversion Hsp; subst. split_and!; [done | set_solver |]. intros x. rewrite <- Hall.
    rewrite !elem_of_union, elem_of_difference, elem_of_singleton.
    destruct (decide (x = n)); naive_solver.
Qed.
End pool.

(** ** Properties *)

Definition pool_reachable (lo hi : Z) (s : NumPool * gset Z) : Prop :=
  rtc (pool_step lo hi) (NumPool_new lo hi, ∅) s.

Lemma pool_reachable_partition lo hi s :
  0 <= lo → hi < 2147483648 → pool_reachable lo hi s → pool_partition lo hi s.
Proof.
  intros Hlo Hhi Hr. refine (rtc_invariant _ _ _ _ _ _ Hr).
  - intros. by eapply pool_partition_step.
  - split_and!; simpl.
    + apply NumPool_new_inv; lia.
    + set_solver.
    + intros x. rewrite elem_of_union, NumPool_set_elem, elem_of_NumPool_new by lia. set_solver.
Qed.

(** C24. Under the invariant every method of the pool returns, keeps the
    invariant (sorted, within the range), and does to the set the pool stands
    for what the contract [pool_spec] says: [Allocate] hands out the smallest
    number, [AllocateRandom] some number of the pool, [Take] succeeds exactly
    on a member, [Release] adds the number back. *)
Theorem NumPool_refines_set lo hi p op
    (Hlo : 0 <= lo) (Hhi : hi < 2147483648)
    (Hinv : NumPool_inv lo hi p) (Hop : pool_op_ok lo hi op) :
  ∃ n p', pool_exec op p = Ok (n, p') ∧ NumPool_inv lo hi p' ∧
    pool_spec (NumPool_set p) op n (NumPool_set p').
Proof. eauto using pool_exec_refines. Qed.

(** C25. No number is handed out twice. From a fresh pool [lo..hi], whatever
    clients allocate, take and release (only what they hold), the numbers held
    and the numbers in the pool partition [lo..hi]; so the next allocation
    returns a number nobody holds, and it fails exactly when all are held. *)
Theorem NumPool_unique_allocation lo hi p H op n p'
    (Hlo : 0 <= lo) (Hhi : hi < 2147483648)
    (Hreach : pool_reachable lo hi (p, H))
    (Halloc : op = OpAllocate ∨ (∃ r, op = OpAllocateRandom r))
    (Hop : pool_op_ok lo hi op) (Hexec : pool_exec op p = Ok (n, p')) :
  H ## NumPool_set p ∧ (∀ x, x ∈ H ∪ NumPool_set p ↔ lo <= x <= hi) ∧
  ((n ≠ -1) → (n ∉ H) ∧ (lo <= n <= hi)) ∧ (n = -1 ↔ (∀ x, lo <= x <= hi → x ∈ H)).
Proof.
  destruct (pool_reachable_partition _ _ _ Hlo Hhi Hreach) as (Hinv & Hdis & Hall); simpl in *.
  split; [done |]. split; [done |].
  destruct (pool_exec_inv lo hi Hlo Hhi p op n p' Hinv Hop Hexec) as [_ Hsp].
  assert (n ∈ NumPool_set p ∨ (n = -1 ∧ NumPool_set p = ∅)) as [Hn|[-> He]]
    by (destruct Halloc as [->|[r ->]]; inversion Hsp; subst; eauto).
  - assert (lo <= n <= hi) by (apply Hall; set_solver).
    split; [set_solver |]. split; [lia |]. intros Hx. set_solver.
  - split; [done |]. split; [|done]. intros _ x Hx%Hall. set_solver.
Qed.

(** ** Concrete instances *)

(** The file descriptors of a process: [3..6] here, [3] handed out. *)
Lemma small_pool_inv : NumPool_inv 3 6 (NumPool_new 3 6).
Proof. by apply NumPool_new_inv. Qed.

Lemma small_pool_reachable : pool_reachable 3 6 (MkNumPool "" [4; 5; 6], ∅ ∪ {[3]}).
Proof.
  eapply rtc_l; [|apply rtc_refl].
  eapply (step_allocate 3 6 (NumPool_new 3 6) ∅ 3 _ OpAllocate); [by left | done | done | done].
Qed.

Lemma NumPool_refines_set_witness : ∃ n p',
  pool_exec OpAllocate (NumPool_new 3 6) = Ok (n, p') ∧ NumPool_inv 3 6 p' ∧ n = 3.
Proof.
  destruct (NumPool_refines_set 3 6 (NumPool_new 3 6) OpAllocate) as (n & p' & He & Hi & _);
    [done | done | apply small_pool_inv | done |].
  exists n, p'. split_and!; [done..|]. vm_compute in He. by simplify_eq.
Defined.

Lemma NumPool_unique_allocation_witness : 4 ∉ (∅ ∪ {[3]} : gset Z).
Proof.
  destruct (NumPool_unique_allocation 3 6 (MkNumPool "" [4; 5; 6]) (∅ ∪ {[3]}) OpAllocate 4
    (MkNumPool "" [5; 6])) as (_ & _ & H & _);
    [done | done | apply small_pool_reachable | by left | done | done | by apply H].
Defined.
