(* ===== verification/PacketQueue.v ===== *)
(** * The packet queue

    [PacketQueue.h] and [PacketQueue.cc]. The first half gives the methods as
    functions on the queue's state, as they run when they hold [mutex_]; the
    second half runs them as threads, at the granularity of the lock: a reader
    that evaluates the wait predicate, blocks, is notified and takes the
    packets, a pusher, and the thread that calls [Stop]. *)
From S2P Require Import Prelude Packet.
Open Scope Z_scope.
Open Scope tcp_scope.

(** ** State and methods *)

Record PacketQueue := MkPacketQueue {
  pq_packets : list Packet;
  pq_destroy : bool;
  pq_num_readers : Z;
}.

#[export] Instance set_pq_packets : Setter pq_packets := λ f q,
  MkPacketQueue (f (pq_packets q)) (pq_destroy q) (pq_num_readers q).
#[export] Instance set_pq_destroy : Setter pq_destroy := λ f q,
  MkPacketQueue (pq_packets q) (f (pq_destroy q)) (pq_num_readers q).
#[export] Instance set_pq_num_readers : Setter pq_num_readers := λ f q,
  MkPacketQueue (pq_packets q) (pq_destroy q) (f (pq_num_readers q)).

Definition PacketQueue_new : PacketQueue := MkPacketQueue [] false 0.

(** [PacketQueue::Push(std::unique_ptr<Packet>)] *)
Definition PacketQueue_Push (new_ele : Packet) (q : PacketQueue) : bool * PacketQueue :=
  (true, q <| pq_packets := pq_packets q ++ [new_ele] |>).

(** The loop of [PacketQueue::Push] of a [std::queue]: [n] times, move the front of
    [pkts] to the back of [dst]. *)
Fixpoint push_loop (n : nat) (pkts dst : list Packet) : list Packet * list Packet :=
  match n, pkts with
  | S n', p :: pkts' => push_loop n' pkts' (dst ++ [p])
  | _, _ => (pkts, dst)
  end.

(** [PacketQueue::Push] of a [std::queue]: the number pushed, the caller's queue
    afterwards, and the packet queue. *)
Definition PacketQueue_PushAll (pkts : list Packet) (q : PacketQueue)
    : Z * list Packet * PacketQueue :=
  let size := u32 (Z.of_nat (length pkts)) in
  let '(pkts', dst) := push_loop (Z.to_nat size) pkts (pq_packets q) in
  (size, pkts', q <| pq_packets := dst |>).

Definition PacketQueue_empty (q : PacketQueue) : bool :=
  match pq_packets q with [] => true | _ => false end.

Definition PacketQueue_size (q : PacketQueue) : Z := u32 (Z.of_nat (length (pq_packets q))).

(** The predicate readers wait for. *)
Definition PacketQueue_wait_pred (q : PacketQueue) : bool :=
  pq_destroy q || negb (PacketQueue_empty q).

(** The part of [DeQueue] after the wait. *)
Definition PacketQueue_DeQueue_locked (q : PacketQueue) : option Packet * PacketQueue :=
  if pq_destroy q then (None, q)
  else match pq_packets q with
       | [] => (None, q)
       | re :: rest => (Some re, q <| pq_packets := rest |>)
       end.

(** The part of [DeQueueAllTo] after the wait: the number returned, the
    receiver's queue, which is swapped with the packets, and the queue. *)
Definition PacketQueue_DeQueueAllTo_locked (receiver : list Packet) (q : PacketQueue)
    : Z * list Packet * PacketQueue :=
  if pq_destroy q then (0, receiver, q)
  else match pq_packets q with
       | [] => (0, receiver, q)
       | pkts => (u32 (Z.of_nat (length pkts)), pkts, q <| pq_packets := receiver |>)
       end.

(** [DeQueue] and [DeQueueAllTo] when called with nobody else running: [None]
    when the call blocks in [cv_.wait]. *)
Definition PacketQueue_DeQueue (blocking : bool) (q : PacketQueue)
    : option (option Packet * PacketQueue) :=
  if negb blocking then
    if PacketQueue_empty q then Some (None, q) else Some (PacketQueue_DeQueue_locked q)
  else if PacketQueue_wait_pred q then Some (PacketQueue_DeQueue_locked q) else None.

Definition PacketQueue_DeQueueAllTo (receiver : list Packet) (blocking : bool) (q : PacketQueue)
    : option (Z * list Packet * PacketQueue) :=
  if negb blocking then
    if PacketQueue_empty q then Some (0, receiver, q)
    else Some (PacketQueue_DeQueueAllTo_locked receiver q)
  else if PacketQueue_wait_pred q then Some (PacketQueue_DeQueueAllTo_locked receiver q)
  else None.

(** [IncReaders] and the locked part of [DecReaders], with [last_reader]. *)
Definition PacketQueue_IncReaders (q : PacketQueue) : PacketQueue :=
  q <| pq_num_readers := u32 (pq_num_readers q + 1) |>.

Definition PacketQueue_DecReaders (q : PacketQueue) : bool * PacketQueue :=
  (pq_num_readers q =? 1, q <| pq_num_readers := u32 (pq_num_readers q - 1) |>).

(** ** Threads

    A reader is outside ([RIdle]), inside and about to lock [mutex_]
    ([REntered]), holding [mutex_] with the predicate false ([RChecked]: it will
    block) or true ([RReady]: it will run the body), blocked ([RAsleep]), back
    from the body with [mutex_] released ([RDone]), or past the decrement of
    [num_readers_] with the notification of [num_readers_cv_] still to send
    ([RLeaving]). The stopper goes through [Stop] in the order of its
    statements. *)

Inductive read_mode := ReadOne | ReadAll.

Inductive reader_pc :=
  | RIdle
  | REntered (m : read_mode) (blocking : bool)
  | RChecked (m : read_mode)
  | RReady (m : read_mode)
  | RAsleep (m : read_mode)
  | RDone
  | RLeaving (last : bool).

Inductive stopper_pc := SIdle | SStored | SNotified | SAsleep | SReturned.

Record pq_sys := MkSys {
  sys_q : PacketQueue;
  sys_mutex : option nat;
  sys_readers : list reader_pc;
  sys_stopper : stopper_pc;
  sys_notify : nat;
  sys_pushed : list Packet;
  sys_taken : list Packet;
}.

#[export] Instance set_sys_q : Setter sys_q := λ f s,
  MkSys (f (sys_q s)) (sys_mutex s) (sys_readers s) (sys_stopper s) (sys_notify s)
    (sys_pushed s) (sys_taken s).
#[export] Instance set_sys_mutex : Setter sys_mutex := λ f s,
  MkSys (sys_q s) (f (sys_mutex s)) (sys_readers s) (sys_stopper s) (sys_notify s)
    (sys_pushed s) (sys_taken s).
#[export] Instance set_sys_readers : Setter sys_readers := λ f s,
  MkSys (sys_q s) (sys_mutex s) (f (sys_readers s)) (sys_stopper s) (sys_notify s)
    (sys_pushed s) (sys_taken s).
#[export] Instance set_sys_stopper : Setter sys_stopper := λ f s,
  MkSys (sys_q s) (sys_mutex s) (sys_readers s) (f (sys_stopper s)) (sys_notify s)
    (sys_pushed s) (sys_taken s).
#[export] Instance set_sys_notify : Setter sys_notify := λ f s,
  MkSys (sys_q s) (sys_mutex s) (sys_readers s) (sys_stopper s) (f (sys_notify s))
    (sys_pushed s) (sys_taken s).
#[export] Instance set_sys_pushed : Setter sys_pushed := λ f s,
  MkSys (sys_q s) (sys_mutex s) (sys_readers s) (sys_stopper s) (sys_notify s)
    (f (sys_pushed s)) (sys_taken s).
#[export] Instance set_sys_taken : Setter sys_taken := λ f s,
  MkSys (sys_q s) (sys_mutex s) (sys_readers s) (sys_stopper s) (sys_notify s)
    (sys_pushed s) (f (sys_taken s)).

Definition pq_init (n : nat) : pq_sys :=
  MkSys PacketQueue_new None (replicate n RIdle) SIdle 0 [] [].

(** [s] with reader [t] at [pc]. *)
Definition at_pc (t : nat) (pc : reader_pc) (s : pq_sys) : pq_sys :=
  s <| sys_readers := <[t := pc]> (sys_readers s) |>.

(** What the body of a read takes out of the queue, and the queue after it. *)
Definition read_body (m : read_mode) (q : PacketQueue) : list Packet * PacketQueue :=
  match m with
  | ReadOne => let '(r, q') := PacketQueue_DeQueue_locked q in (option_list r, q')
  | ReadAll => let '(_, pkts, q') := PacketQueue_DeQueueAllTo_locked [] q in (pkts, q')
  end.

Definition wake (pc : reader_pc) : reader_pc :=
  match pc with RAsleep m => REntered m true | _ => pc end.

(** [num_readers_cv_.notify_one()], when [b]. *)
Definition notify_stopper (b : bool) (s : pq_sys) : pq_sys :=
  match b, sys_stopper s with
  | true, SAsleep => s <| sys_stopper := SNotified |>
  | _, _ => s
  end.

(** Who moves: a call that starts ([LCall]), a push, a reader or the stopper
    going on, a notification reaching its waiters, or a wake-up nobody sent. *)
Inductive pq_label := LCall | LPush | LThread | LNotify | LSpurious.

Inductive pq_step : pq_label → pq_sys → pq_sys → Prop :=
  (** [DeQueue]/[DeQueueAllTo] is called: [IncReaders]. *)
  | step_enter s t m b :
      sys_readers s !! t = Some RIdle →
      pq_step LCall s
        (at_pc t (REntered m b) (s <| sys_q := PacketQueue_IncReaders (sys_q s) |>))
  (** The reader locks [mutex_] and evaluates the wait predicate (or, in
      non-blocking mode, the emptiness test). *)
  | step_ready s t m b :
      sys_readers s !! t = Some (REntered m b) → sys_mutex s = None →
      (if b then PacketQueue_wait_pred (sys_q s) else negb (PacketQueue_empty (sys_q s))) = true →
      pq_step LThread s (at_pc t (RReady m) (s <| sys_mutex := Some t |>))
  | step_check_false s t m :
      sys_readers s !! t = Some (REntered m true) → sys_mutex s = None →
      PacketQueue_wait_pred (sys_q s) = false →
      pq_step LThread s (at_pc t (RChecked m) (s <| sys_mutex := Some t |>))
  | step_nonblocking_empty s t m :
      sys_readers s !! t = Some (REntered m false) → sys_mutex s = None →
      PacketQueue_empty (sys_q s) = true →
      pq_step LThread s (at_pc t RDone s)
  (** [cv_.wait] releases [mutex_] and blocks. *)
  | step_sleep s t m :
      sys_readers s !! t = Some (RChecked m) →
      pq_step LThread s (at_pc t (RAsleep m) (s <| sys_mutex := None |>))
  (** The body runs under [mutex_] and releases it. *)
  | step_body s t m pkts q' :
      sys_readers s !! t = Some (RReady m) → read_body m (sys_q s) = (pkts, q') →
      pq_step LThread s
        (at_pc t RDone (s <| sys_q := q' |> <| sys_mutex := None |>
                          <| sys_taken := sys_taken s ++ pkts |>))
  (** [DecReaders]: the decrement, then the notification. *)
  | step_dec s t was_last q' :
      sys_readers s !! t = Some RDone → PacketQueue_DecReaders (sys_q s) = (was_last, q') →
      pq_step LThread s (at_pc t (RLeaving was_last) (s <| sys_q := q' |>))
  | step_leave s t was_last :
      sys_readers s !! t = Some (RLeaving was_last) →
      pq_step LThread s
        (at_pc t RIdle (notify_stopper (pq_destroy (sys_q s) && was_last) s))
  (** [Push]: under [mutex_], then [notify_one]. *)
  | step_push s pkts n rest q' :
      sys_mutex s = None → PacketQueue_PushAll pkts (sys_q s) = (n, rest, q') →
      Z.of_nat (length pkts) < 4294967296 →
      pq_step LPush s
        (s <| sys_q := q' |> <| sys_notify := S (sys_notify s) |>
           <| sys_pushed := sys_pushed s ++ pkts |>)
  | step_notify_one s t m k :
      sys_notify s = S k → sys_readers s !! t = Some (RAsleep m) →
      pq_step LNotify s (at_pc t (REntered m true) (s <| sys_notify := k |>))
  | step_notify_none s k :
      sys_notify s = S k → (∀ t m, sys_readers s !! t ≠ Some (RAsleep m)) →
      pq_step LNotify s (s <| sys_notify := k |>)
  (** [Stop]: store [destroy_] (without [mutex_]), notify all readers, wait
      until [num_readers_] is zero. *)
  | step_stop_again s :
      sys_stopper s = SReturned → pq_destroy (sys_q s) = true → pq_step LCall s s
  | step_stop_store s :
      sys_stopper s = SIdle → pq_destroy (sys_q s) = false →
      pq_step LCall s (s <| sys_q := (sys_q s) <| pq_destroy := true |> |>
                         <| sys_stopper := SStored |>)
  | step_stop_notify s :
      sys_stopper s = SStored →
      pq_step LThread s (s <| sys_readers := wake <$> sys_readers s |>
                           <| sys_stopper := SNotified |>)
  | step_stop_return s :
      sys_stopper s = SNotified → pq_num_readers (sys_q s) <= 0 →
      pq_step LThread s (s <| sys_stopper := SReturned |>)
  | step_stop_sleep s :
      sys_stopper s = SNotified → 0 < pq_num_readers (sys_q s) →
      pq_step LThread s (s <| sys_stopper := SAsleep |>)
  (** A condition variable may wake a waiter on its own. *)
  | step_spurious_reader s t m :
      sys_readers s !! t = Some (RAsleep m) →
      pq_step LSpurious s (at_pc t (REntered m true) s)
  | step_spurious_stopper s :
      sys_stopper s = SAsleep → pq_step LSpurious s (s <| sys_stopper := SNotified |>).

Definition pq_reachable (n : nat) : pq_sys → Prop :=
  rtc (λ s s', ∃ l, pq_step l s s') (pq_init n).

(** ** The methods, one call at a time *)

Lemma push_loop_all n pkts dst :
  (length pkts <= n)%nat → push_loop n pkts dst = ([], dst ++ pkts).
Proof.
  revert pkts dst. induction n as [|n IH]; intros [|p pkts] dst Hn; simpl in *; try lia;
    rewrite ?app_nil_r; [done..|].
  rewrite IH by lia. by rewrite <- app_assoc.
Qed.

(** [Push] of a whole queue appends it, empties the caller's queue and returns
    its length. *)
Lemma PacketQueue_PushAll_spec pkts q :
  Z.of_nat (length pkts) < 4294967296 →
  PacketQueue_PushAll pkts q =
    (Z.of_nat (length pkts), [], q <| pq_packets := pq_packets q ++ pkts |>).
Proof.
  intros Hlen. unfold PacketQueue_PushAll. rewrite u32_small by word_lia.
  by rewrite push_loop_all by lia.
Qed.

(** The body of a read takes a prefix of the queue: nothing once the queue is
    being destroyed, the first packet or all of them otherwise. *)
Lemma read_body_spec m q pkts q' :
  read_body m q = (pkts, q') →
  pq_packets q = pkts ++ pq_packets q' ∧
  pq_destroy q' = pq_destroy q ∧ pq_num_readers q' = pq_num_readers q ∧
  (pq_destroy q = true → pkts = []) ∧
  (pq_destroy q = false → pq_packets q ≠ [] →
     pkts = match m with ReadOne => take 1 (pq_packets q) | ReadAll => pq_packets q end).
Proof.
  destruct q as [ps d n]. unfold read_body, PacketQueue_DeQueue_locked,
    PacketQueue_DeQueueAllTo_locked; simpl.
  destruct m, d, ps as [|p ps]; simpl; intros [= <- <-]; simpl;
    rewrite ?app_nil_r; split_and!; done.
Qed.

(** ** Invariants of the threaded queue *)

Lemma notify_stopper_frame b s :
  sys_q (notify_stopper b s) = sys_q s ∧ sys_mutex (notify_stopper b s) = sys_mutex s ∧
  sys_readers (notify_stopper b s) = sys_readers s ∧
  sys_notify (notify_stopper b s) = sys_notify s ∧
  sys_pushed (notify_stopper b s) = sys_pushed s ∧
  sys_taken (notify_stopper b s) = sys_taken s ∧
  (sys_stopper (notify_stopper b s) = SIdle ↔ sys_stopper s = SIdle).
Proof. unfold notify_stopper. by destruct b, (sys_stopper s) eqn:Hs; simpl; rewrite ?Hs. Qed.

(** A reader that [num_readers_] counts. *)
Definition inside (pc : reader_pc) : bool :=
  match pc with RIdle | RLeaving _ => false | _ => true end.

Definition holds_mutex (pc : reader_pc) : bool :=
  match pc with RChecked _ | RReady _ => true | _ => false end.

Record pq_inv (n : nat) (s : pq_sys) : Prop := {
  inv_fifo : sys_pushed s = sys_taken s ++ pq_packets (sys_q s);
  inv_threads : length (sys_readers s) = n;
  inv_count : pq_num_readers (sys_q s) = countb inside (sys_readers s);
  inv_mutex : ∀ t pc, sys_readers s !! t = Some pc →
    holds_mutex pc = true ↔ sys_mutex s = Some t;
  inv_stopper : pq_destroy (sys_q s) = false ↔ sys_stopper s = SIdle;
}.

(** The counting step: reader [t] moves from [y] to [x] and the counter follows. *)
Lemma inv_count_insert (l : list reader_pc) t x y (c d : Z) :
  Z.of_nat (length l) < 4294967296 → l !! t = Some y → c = countb inside l →
  d = Z.b2z (inside x) - Z.b2z (inside y) →
  u32 (c + d) = countb inside (<[t := x]> l).
Proof.
  intros Hlen Ht -> ->. rewrite (countb_insert _ _ _ _ _ Ht).
  pose proof (countb_bounds inside (<[t := x]> l)) as Hb.
  rewrite length_insert, (countb_insert _ _ _ _ _ Ht) in Hb.
  rewrite u32_small by word_lia. lia.
Qed.

Lemma inv_mutex_insert s t (pc : reader_pc) (o : option nat) :
  (∀ t' pc', sys_readers s !! t' = Some pc' → holds_mutex pc' = true ↔ sys_mutex s = Some t') →
  (holds_mutex pc = true ↔ o = Some t) →
  (∀ t', t' ≠ t → sys_mutex s = Some t' ↔ o = Some t') →
  ∀ t' pc', <[t := pc]> (sys_readers s) !! t' = Some pc' → holds_mutex pc' = true ↔ o = Some t'.
Proof.
  intros Hinv Hpc Hother t' pc' Ht'. destruct (decide (t = t')) as [<-|Hne].
  - apply list_lookup_insert_Some in Ht' as [(_ & <- & _)|(? & _)]; [done | congruence].
  - rewrite list_lookup_insert_ne in Ht' by done.
    rewrite (Hinv _ _ Ht'). by apply Hother.
Qed.

(** The invariant is preserved: its five parts one at a time, each over the
    steps that touch what it speaks about. *)
Ltac pq_open :=
  repeat match goal with
  | H : read_body _ _ = _ |- _ => apply read_body_spec in H as (Hb1 & Hb2 & Hb3 & _ & _)
  | H : PacketQueue_PushAll _ _ = _ |- _ =>
      rewrite PacketQueue_PushAll_spec in H by done; simplify_eq
  | H : PacketQueue_DecReaders _ = _ |- _ => unfold PacketQueue_DecReaders in H; simplify_eq
  end; simpl in *;
  try match goal with
  | |- context [notify_stopper ?b ?s] =>
      destruct (notify_stopper_frame b s) as (Hn1 & Hn2 & Hn3 & Hn4 & Hn5 & Hn6 & Hstop);
      rewrite ?Hn1, ?Hn2, ?Hn3, ?Hn4, ?Hn5, ?Hn6 in *
  end.

Lemma inv_fifo_step n l s s' :
  pq_inv n s → pq_step l s s' → sys_pushed s' = sys_taken s' ++ pq_packets (sys_q s').
Proof.
  intros [Hf _ _ _ _] Hstep. destruct Hstep; pq_open; simpl; try done.
  - by rewrite Hf, <- app_assoc, Hb1.
  - by rewrite Hf, <- app_assoc.
Qed.

Lemma inv_count_step n l s s' :
  Z.of_nat n < 4294967296 → pq_inv n s → pq_step l s s' →
  length (sys_readers s') = n ∧ pq_num_readers (sys_q s') = countb inside (sys_readers s').
Proof.
  intros Hn [_ Ht Hc _ _] Hstep. destruct Hstep; pq_open; simpl; try done.
  all: rewrite ?length_insert, ?length_fmap; split; [done|].
  all: try (by eapply (inv_count_insert _ _ _ _ _ 1); eauto; rewrite Ht).
  all: try (by eapply (inv_count_insert _ _ _ _ _ (-1)); eauto; rewrite Ht).
  all: try (erewrite countb_insert by eassumption; simpl; lia).
  rewrite countb_fmap; [done | by intros []].
Qed.

Lemma inv_mutex_step n l s s' :
  pq_inv n s → pq_step l s s' → ∀ t pc, sys_readers s' !! t = Some pc →
  holds_mutex pc = true ↔ sys_mutex s' = Some t.
Proof.
  intros [_ _ _ Hm _] Hstep. destruct Hstep; pq_open; simpl; try done.
  all: try match goal with H : sys_readers _ !! ?t = Some ?pc |- _ => pose proof (Hm _ _ H) as Hmt end.
  all: try (eapply inv_mutex_insert; [exact Hm | simpl in *; naive_solver | simpl in *; naive_solver]).
  intros t pc. rewrite list_lookup_fmap, fmap_Some. intros (pc0 & H0 & ->).
  rewrite <- (Hm _ _ H0). by destruct pc0.
Qed.

Lemma inv_stopper_step n l s s' :
  pq_inv n s → pq_step l s s' → pq_destroy (sys_q s') = false ↔ sys_stopper s' = SIdle.
Proof.
  intros [_ _ _ _ Hs] Hstep. destruct Hstep; pq_open; simpl; try done.
  all: try (split; intros K; try discriminate; apply Hs in K; congruence).
  all: rewrite ?Hstop, ?Hb2; done.
Qed.

Lemma pq_inv_step n l s s' :
  Z.of_nat n < 4294967296 → pq_inv n s → pq_step l s s' → pq_inv n s'.
Proof.
  intros Hn Hi Hstep. destruct (inv_count_step n l s s') as [??]; [done..|]. split;
    eauto using inv_fifo_step, inv_mutex_step, inv_stopper_step.
Qed.

Lemma pq_inv_reachable n s :
  Z.of_nat n < 4294967296 → pq_reachable n s → pq_inv n s.
Proof.
  intros Hn. apply rtc_invariant.
  - intros a b Ha [l Hl]. by eapply pq_inv_step.
  - split; simpl; try done.
    + apply length_replicate.
    + rewrite countb_replicate. simpl. lia.
    + intros t pc [-> _]%lookup_replicate. done.
Qed.

(** A reader found blocked by the stopper's or its own point of view: with one
    reader, packets never wait for a blocked reader without a notification on
    its way, as long as the queue is not being destroyed. *)
Definition single_reader_ok (s : pq_sys) : Prop :=
  pq_destroy (sys_q s) = false →
  (∀ m, sys_readers s !! 0%nat = Some (RChecked m) → pq_packets (sys_q s) = []) ∧
  (∀ m, sys_readers s !! 0%nat = Some (RAsleep m) → pq_packets (sys_q s) ≠ [] →
     (0 < sys_notify s)%nat).

Lemma single_reader_step l s s' :
  pq_inv 1 s → single_reader_ok s → pq_step l s s' → single_reader_ok s'.
Proof.
  intros [_ Hlen _ Hm Hst] Hok Hstep.
  assert (∀ t pc, sys_readers s !! t = Some pc → t = 0%nat) as H0.
  { intros t pc Ht%lookup_lt_Some. lia. }
  destruct Hstep; intros Hd; pq_open; simpl in *.
  all: try match goal with
    | H : sys_readers _ !! ?u = Some _ |- _ => pose proof (H0 _ _ H); subst u
    end.
  all: rewrite ?list_lookup_insert_eq by lia; simpl.
  all: try (split; intros ?; intros [=]; simplify_eq; fail).
  all: try (apply Hok; congruence).
  - (* the check found the queue empty *)
    split; intros ?; intros [= ->]. unfold PacketQueue_wait_pred, PacketQueue_empty in *.
    rewrite Hd in *. destruct (pq_packets (sys_q s)); done.
  - (* going to sleep: it had found the queue empty *)
    split; intros ?; intros [= <-] Hne. destruct Hne. by eapply (proj1 (Hok Hd)).
  - (* a push: nobody holds the mutex, and a notification follows *)
    split; intros m0 Hm0; [|lia]. apply Hm in Hm0. simpl in Hm0. naive_solver.
  - (* nobody to notify *)
    split; intros m0 Hm0; [by eapply (proj1 (Hok Hd)) | naive_solver].
  - (* notify_all comes after the store *)
    apply Hst in Hd. congruence.
Qed.

(** ** Properties *)

(** C26. Packets leave the queue in the order they entered it, each exactly once:
    in every reachable state of any number of readers, pushers and a stopper,
    what was pushed is what was taken followed by what is still queued. *)
Theorem PacketQueue_fifo n s
    (Hn : Z.of_nat n < 4294967296) (Hreach : pq_reachable n s) :
  sys_pushed s = sys_taken s ++ pq_packets (sys_q s).
Proof. by apply (pq_inv_reachable n s Hn Hreach). Qed.

(** [Stop] waits for the readers: when the call that stored [destroy_]
    returns, no thread is inside [DeQueue] or [DeQueueAllTo] before its
    decrement of [num_readers_]; and [num_readers_] always counts those. *)
Theorem PacketQueue_Stop_waits n s s'
    (Hn : Z.of_nat n < 4294967296) (Hreach : pq_reachable n s)
    (Hstep : pq_step LThread s s')
    (Hbefore : sys_stopper s ≠ SReturned) (Hafter : sys_stopper s' = SReturned) :
  pq_num_readers (sys_q s') = 0 ∧
  ∀ t pc, sys_readers s' !! t = Some pc → pc = RIdle ∨ ∃ b, pc = RLeaving b.
Proof.
  destruct (pq_inv_reachable n s Hn Hreach) as [_ _ Hc _ _].
  pose proof (countb_bounds inside (sys_readers s)) as Hb.
  inversion Hstep; subst; pq_open; try congruence.
  - exfalso. revert Hafter. unfold notify_stopper. repeat case_match; simpl; congruence.
  - assert (countb inside (sys_readers s) = 0) as Hz by lia. split; [lia|].
    intros t pc Ht. pose proof (countb_zero _ _ _ _ Hz Ht). destruct pc; simplify_eq/=; eauto.
Qed.

(** With one reader no wake-up is lost while the queue is in use: if packets
    are queued and the reader is blocked, a notification is on its way. *)
Theorem PacketQueue_no_lost_wakeup s m
    (Hreach : pq_reachable 1 s) (Huse : pq_destroy (sys_q s) = false)
    (Hblocked : sys_readers s !! 0%nat = Some (RAsleep m))
    (Hpackets : pq_packets (sys_q s) ≠ []) :
  (0 < sys_notify s)%nat.
Proof.
  assert (pq_inv 1 s ∧ single_reader_ok s) as [_ Hok].
  { refine (rtc_invariant _ (λ s, pq_inv 1 s ∧ single_reader_ok s) _ _ _ _ Hreach).
    - intros a b [Hi Ho] [l Hl]. split; [by eapply pq_inv_step | by eapply single_reader_step].
    - split; [apply (pq_inv_reachable 1); [done | apply rtc_refl] | by split]. }
  by eapply (proj2 (Hok Huse)).
Qed.

(** The interleaving that loses the wake-up of [Stop]: the reader evaluates its
    predicate, then [Stop] stores [destroy_] and notifies, both without
    [mutex_], and only then does the reader block. *)
Definition lost_wakeup_state : pq_sys :=
  MkSys (MkPacketQueue [] true 1) None [RAsleep ReadAll] SAsleep 0 [] [].

Lemma lost_wakeup_reachable : pq_reachable 1 lost_wakeup_state.
Proof.
  unfold pq_reachable.
  eapply rtc_l; [eexists; eapply (step_enter _ 0 ReadAll true); reflexivity|].
  eapply rtc_l; [eexists; eapply (step_check_false _ 0 ReadAll); reflexivity|].
  eapply rtc_l; [eexists; eapply step_stop_store; reflexivity|].
  eapply rtc_l; [eexists; eapply step_stop_notify; reflexivity|].
  eapply rtc_l; [eexists; eapply (step_sleep _ 0 ReadAll); reflexivity|].
  eapply rtc_l; [eexists; eapply step_stop_sleep; [reflexivity | vm_compute; reflexivity]|].
  apply rtc_refl.
Qed.

(** C38. [Stop] can miss a reader: a state is reachable in which the reader is
    blocked, [Stop] is blocked waiting for it, no notification is pending, and
    no step of either thread is possible: only a later [Push] or a spurious
    wake-up can end the wait. [destroy_] is stored, and the readers are
    notified, without holding the mutex of the wait. *)
Theorem PacketQueue_Stop_lost_wakeup :
  ∃ s, pq_reachable 1 s ∧ pq_destroy (sys_q s) = true ∧
    sys_readers s = [RAsleep ReadAll] ∧ sys_stopper s = SAsleep ∧
    ∀ l s', pq_step l s s' → l = LPush ∨ l = LSpurious.
Proof.
  exists lost_wakeup_state. split; [apply lost_wakeup_reachable|]. split_and!; [done..|].
  intros l s' Hstep. inversion Hstep; subst; simpl in *; auto; try congruence; try lia.
  all: match goal with H : [_] !! _ = Some _ |- _ => apply list_lookup_singleton_Some in H as [_ [=]] end.
Qed.

(** After [Stop] returned, a reader may still be inside [DecReaders], about
    to read [destroy_] and to notify [num_readers_cv_]: returning from [Stop]
    does not make it safe to destroy the queue. *)
Theorem PacketQueue_Stop_returns_early :
  ∃ s, pq_reachable 1 s ∧ sys_stopper s = SReturned ∧ sys_readers s = [RLeaving true].
Proof.
  eexists (MkSys (MkPacketQueue [] true 0) None [RLeaving true] SReturned 0 [] []).
  split; [|done]. unfold pq_reachable.
  eapply rtc_l; [eexists; eapply (step_enter _ 0 ReadAll true); reflexivity|].
  eapply rtc_l; [eexists; eapply step_stop_store; reflexivity|].
  eapply rtc_l; [eexists; eapply step_stop_notify; reflexivity|].
  eapply rtc_l; [eexists; eapply (step_ready _ 0 ReadAll true); reflexivity|].
  eapply rtc_l; [eexists; eapply (step_body _ 0 ReadAll); reflexivity|].
  eapply rtc_l; [eexists; eapply (step_dec _ 0); reflexivity|].
  eapply rtc_l; [eexists; eapply step_stop_return; [reflexivity | vm_compute; congruence]|].
  apply rtc_refl.
Qed.

(** ** Concrete instances *)

(** One packet pushed while the only reader is blocked. *)
Definition blocked_state (k : nat) (pkts : list Packet) : pq_sys :=
  MkSys (MkPacketQueue pkts false 1) None [RAsleep ReadAll] SIdle k pkts [].

Lemma blocked_reachable p : pq_reachable 1 (blocked_state 1 [p]).
Proof.
  unfold pq_reachable.
  eapply rtc_l; [eexists; eapply (step_enter _ 0 ReadAll true); reflexivity|].
  eapply rtc_l; [eexists; eapply (step_check_false _ 0 ReadAll); reflexivity|].
  eapply rtc_l; [eexists; eapply (step_sleep _ 0 ReadAll); reflexivity|].
  eapply rtc_l; [eexists; eapply (step_push _ [p]); [reflexivity|reflexivity|done]|].
  apply rtc_refl.
Qed.

Definition queue_pkt : Packet := Packet_new IPHeader_default TcpHeader_default.

Lemma PacketQueue_fifo_witness :
  sys_pushed (blocked_state 1 [queue_pkt]) = [] ++ [queue_pkt].
Proof.
  apply (PacketQueue_fifo 1 (blocked_state 1 [queue_pkt])); [done | apply blocked_reachable].
Defined.

Lemma PacketQueue_no_lost_wakeup_witness : (0 < sys_notify (blocked_state 1 [queue_pkt]))%nat.
Proof.
  apply (PacketQueue_no_lost_wakeup _ ReadAll (blocked_reachable queue_pkt)); done.
Defined.

(** [Stop] with nobody inside: it stores, notifies and returns. *)
Definition stopping_state (pc : stopper_pc) : pq_sys :=
  MkSys (MkPacketQueue [] true 0) None [RIdle] pc 0 [] [].

Lemma stopping_reachable : pq_reachable 1 (stopping_state SNotified).
Proof.
  unfold pq_reachable.
  eapply rtc_l; [eexists; eapply step_stop_store; reflexivity|].
  eapply rtc_l; [eexists; eapply step_stop_notify; reflexivity|].
  apply rtc_refl.
Qed.

Lemma PacketQueue_Stop_waits_witness : pq_num_readers (sys_q (stopping_state SReturned)) = 0.
Proof.
  apply (PacketQueue_Stop_waits 1 (stopping_state SNotified) (stopping_state SReturned));
    [done | apply stopping_reachable | by apply step_stop_return | done | done].
Defined.
