(* ===== verification/BaseChannel.v ===== *)
(** * The simulated network channel

    [BaseChannel.h] and [BaseChannel.cc]: a one-way channel that drops packets
    by rolling dice, keeps the order of the others, and hands them to the
    receiver's callback in batches. [Utils::RandomFloat] is not part of the
    repository: its successive values are a parameter, a sequence of rationals
    (a double is one). *)
From S2P Require Import Prelude Packet PacketQueue.
From Stdlib Require Import QArith Qminmax.
Open Scope Z_scope.
Open Scope tcp_scope.

(** [kPacketLossRatio], the double nearest to [0.2], and [kPacketCorruptRatio]. *)
Definition kPacketLossRatio : Q := 3602879701896397 # 18014398509481984.
Definition kPacketCorruptRatio : Q := 0.

Definition Q_ltb (a b : Q) : bool := negb (Qle_bool b a).

(** The receiver's callback works on a state of the receiver's. *)
Record BaseChannel (S : Type) := MkBaseChannel {
  bc_pkt_buffer : PacketQueue;
  bc_receiver_callback : option (list Packet → S → S);
  bc_stop : bool;
}.
Arguments MkBaseChannel {S}.
Arguments bc_pkt_buffer {S}.
Arguments bc_receiver_callback {S}.
Arguments bc_stop {S}.

Section channel.
Context {S : Type}.
Implicit Types c : BaseChannel S.

#[export] Instance set_bc_pkt_buffer : Setter (@bc_pkt_buffer S) := λ f c,
  MkBaseChannel (f (bc_pkt_buffer c)) (bc_receiver_callback c) (bc_stop c).
#[export] Instance set_bc_receiver_callback : Setter (@bc_receiver_callback S) := λ f c,
  MkBaseChannel (bc_pkt_buffer c) (f (bc_receiver_callback c)) (bc_stop c).
#[export] Instance set_bc_stop : Setter (@bc_stop S) := λ f c,
  MkBaseChannel (bc_pkt_buffer c) (bc_receiver_callback c) (f (bc_stop c)).

(** [BaseChannel::BaseChannel(receiver_callback)] and [Start]. *)
Definition BaseChannel_new (cb : option (list Packet → S → S)) : BaseChannel S :=
  MkBaseChannel PacketQueue_new cb true.

(** [BaseChannel::BaseChannel()]: [stop_] is what the memory held. *)
Definition BaseChannel_default (memory : bool) : BaseChannel S :=
  MkBaseChannel PacketQueue_new None memory.

Definition BaseChannel_Start c : BaseChannel S := c <| bc_stop := false |>.

Definition BaseChannel_RegisterReceiverCallback (cb : list Packet → S → S) c : BaseChannel S :=
  c <| bc_receiver_callback := Some cb |>.

(** [BaseChannel::Send(std::unique_ptr<Packet>)]: no loss. *)
Definition BaseChannel_Send (packet : Packet) c : BaseChannel S :=
  c <| bc_pkt_buffer := (PacketQueue_Push packet (bc_pkt_buffer c)).2 |>.

(** [BaseChannel::Send] of a plain pointer: it takes the packet over. *)
Definition BaseChannel_SendRaw (packet : Packet) c : BaseChannel S :=
  c <| bc_pkt_buffer := (PacketQueue_Push packet (bc_pkt_buffer c)).2 |>.

(** The destructor, before it joins the listener: [PacketQueue::Stop] sets the flag. *)
Definition BaseChannel_Stop c : BaseChannel S :=
  c <| bc_stop := true |> <| bc_pkt_buffer := (bc_pkt_buffer c) <| pq_destroy := true |> |>.

Context (RandomFloat : nat → Q).

(** The loop of [BaseChannel::Send] on a queue: [n] rounds over
    [pkts_to_send], with [k] dice rolled so far. Returns what is left of
    [pkts_to_send], the surviving packets, and the number of dice rolled. *)
Fixpoint channel_send_loop (n k : nat) (pkts_to_send pkts : list Packet)
    : list Packet * list Packet * nat :=
  match n, pkts_to_send with
  | Datatypes.S n', p :: rest =>
      if Q_ltb (RandomFloat k) kPacketLossRatio
      then channel_send_loop n' (Datatypes.S k) rest pkts
      else
        let p := if Q_ltb (RandomFloat (Datatypes.S k)) kPacketCorruptRatio
                 then p <| corrupted := true |> else p in
        channel_send_loop n' (Datatypes.S (Datatypes.S k)) rest (pkts ++ [p])
  | _, _ => (pkts_to_send, pkts, k)
  end.

Definition BaseChannel_SendAll (k : nat) (pkts_to_send : list Packet) c
    : list Packet * nat * BaseChannel S :=
  let size := u32 (Z.of_nat (length pkts_to_send)) in
  let '(rest, pkts, k') := channel_send_loop (Z.to_nat size) k pkts_to_send [] in
  let '(_, _, q) := PacketQueue_PushAll pkts (bc_pkt_buffer c) in
  (rest, k', c <| bc_pkt_buffer := q |>).

(** One round of [WaitingForPackets], with the receiver's state: [None] when
    the round blocks in [DeQueueAllTo]. *)
Definition BaseChannel_WaitingForPackets_round c (s : S) : option (BaseChannel S * S) :=
  match PacketQueue_DeQueueAllTo [] true (bc_pkt_buffer c) with
  | None => None
  | Some (re, new_packets, q) =>
      let c := c <| bc_pkt_buffer := q |> in
      if re =? 0 then Some (c, s)
      else match bc_receiver_callback c with
           | Some cb => Some (c, cb new_packets s)
           | None => Some (c, s)
           end
  end.

(** [WaitingForPackets], at most [fuel] rounds: whether the thread has ended, the
    channel, and the receiver's state. It has not ended when a round blocks. *)
Fixpoint BaseChannel_WaitingForPackets (fuel : nat) c (s : S) : bool * BaseChannel S * S :=
  if bc_stop c then (true, c, s)
  else
    match fuel with
    | O => (false, c, s)
    | Datatypes.S fuel =>
        match BaseChannel_WaitingForPackets_round c s with
        | None => (false, c, s)
        | Some (c, s) => BaseChannel_WaitingForPackets fuel c s
        end
    end.
End channel.

(** ** What a lossy first-in first-out channel may do to a batch *)

(** [lossy mask src] keeps the packets whose mask bit is set. *)
Fixpoint lossy (mask : list bool) (src : list Packet) : list Packet :=
  match mask, src with
  | b :: mask', p :: src' => (if b then [p] else []) ++ lossy mask' src'
  | _, _ => []
  end.

Lemma lossy_sublist mask src : lossy mask src `sublist_of` src.
Proof.
  revert src. induction mask as [|b mask IH]; intros [|p src]; simpl; try apply sublist_nil_l.
  destruct b; simpl; [by apply sublist_skip | by apply sublist_cons].
Qed.

Lemma lossy_all_true src : lossy (replicate (length src) true) src = src.
Proof. induction src as [|p src IH]; simpl; [done | by rewrite IH]. Qed.

(** The dice as a mask: packet by packet, one die when it is dropped and two
    when it is kept. *)
Fixpoint dice_mask (RandomFloat : nat → Q) (n k : nat) : list bool :=
  match n with
  | O => []
  | Datatypes.S n' =>
      if Q_ltb (RandomFloat k) kPacketLossRatio
      then false :: dice_mask RandomFloat n' (Datatypes.S k)
      else true :: dice_mask RandomFloat n' (Datatypes.S (Datatypes.S k))
  end.

Lemma Q_ltb_false a b : Q_ltb a b = false ↔ (b <= a)%Q.
Proof. unfold Q_ltb. by rewrite negb_false_iff, Qle_bool_iff. Qed.

Lemma length_dice_mask r n k : length (dice_mask r n k) = n.
Proof.
  revert k. induction n as [|n IH]; intros k; simpl; [done|].
  by destruct (Q_ltb _ _); simpl; rewrite IH.
Qed.

Lemma channel_send_loop_spec (r : nat → Q) n k src pkts :
  (∀ i, (0 <= r i)%Q) → (length src <= n)%nat →
  ∃ k', channel_send_loop r n k src pkts
        = ([], pkts ++ lossy (dice_mask r n k) src, k').
Proof.
  intros Hr. revert k src pkts. induction n as [|n IH]; intros k [|p src] pkts Hn;
    simpl in *; try lia; rewrite ?app_nil_r; eauto.
  { destruct (Q_ltb _ _); simpl; rewrite ?app_nil_r; eauto. }
  destruct (Q_ltb (r k) kPacketLossRatio) eqn:Hl; simpl; [apply IH; lia|].
  assert (Q_ltb (r (Datatypes.S k)) kPacketCorruptRatio = false) as ->.
  { apply Q_ltb_false, Hr. }
  destruct (IH (Datatypes.S (Datatypes.S k)) src (pkts ++ [p]) ltac:(lia)) as [k' ->].
  exists k'. by rewrite <- app_assoc.
Qed.

Lemma length_lossy mask src : (length (lossy mask src) <= length src)%nat.
Proof. apply sublist_length, lossy_sublist. Qed.

(** The channel is a lossy first-in first-out queue that never corrupts or
    duplicates: for dice that are never negative, sending a batch appends to the
    channel's buffer exactly the packets whose die reached the loss ratio,
    unchanged and in order, and leaves the caller's queue empty. *)
Theorem BaseChannel_SendAll_lossy {S} (r : nat → Q) k src (c : BaseChannel S)
    (Hdice : ∀ i, (0 <= r i)%Q) (Hlen : Z.of_nat (length src) < 4294967296) :
  ∃ k' mask, length mask = length src ∧
    BaseChannel_SendAll r k src c =
      ([], k', c <| bc_pkt_buffer := (bc_pkt_buffer c)
                 <| pq_packets := pq_packets (bc_pkt_buffer c) ++ lossy mask src |> |>) ∧
    ((∀ i, (kPacketLossRatio <= r i)%Q) → lossy mask src = src).
Proof.
  unfold BaseChannel_SendAll. rewrite u32_small, Nat2Z.id by word_lia.
  destruct (channel_send_loop_spec r (length src) k src [] Hdice ltac:(lia)) as [k' ->]; simpl.
  pose proof (length_lossy (dice_mask r (length src) k) src).
  rewrite PacketQueue_PushAll_spec by lia.
  exists k', (dice_mask r (length src) k). split; [apply length_dice_mask|]. split; [done|].
  intros Hhigh. transitivity (lossy (replicate (length src) true) src); [|apply lossy_all_true].
  f_equal. clear -Hhigh. generalize (length src) as n. intros n. revert k.
  induction n as [|n IH]; intros k; simpl; [done|].
  by rewrite (proj2 (Q_ltb_false _ _) (Hhigh k)), IH.
Qed.

(** Two packets, the first die below the ratio and the others above it. *)
Definition example_dice (i : nat) : Q := match i with O => 1 # 10 | _ => 1 # 2 end.
Definition example_packet (seq : Z) : Packet :=
  Packet_of_string IPHeader_default (TcpHeader_default <| seq_num := seq |>) [104; 105].
Definition example_channel : BaseChannel unit := BaseChannel_new None.

Lemma BaseChannel_SendAll_lossy_witness :
  (BaseChannel_SendAll example_dice 0 [example_packet 0; example_packet 2] example_channel =
    ([], 3%nat, example_channel <| bc_pkt_buffer :=
       PacketQueue_new <| pq_packets := [example_packet 2] |> |>)) ∧
  ∃ k' mask, length mask = 2%nat ∧
    BaseChannel_SendAll example_dice 0 [example_packet 0; example_packet 2] example_channel =
      ([], k', example_channel <| bc_pkt_buffer := PacketQueue_new
         <| pq_packets := [] ++ lossy mask [example_packet 0; example_packet 2] |> |>) ∧
    ((∀ i, (kPacketLossRatio <= example_dice i)%Q) →
       lossy mask [example_packet 0; example_packet 2] = [example_packet 0; example_packet 2]).
Proof.
  split; [vm_compute; reflexivity|].
  apply (BaseChannel_SendAll_lossy example_dice 0
           [example_packet 0; example_packet 2] example_channel);
    [intros [|i]; discriminate | simpl; lia].
Defined.

(** The receiver's callback gets exactly what is buffered, once, in order,
    and the buffer is empty afterwards; without a callback the packets are
    dropped; an empty buffer of a running channel blocks the listener. *)
Theorem BaseChannel_delivers {S} (c : BaseChannel S) (s : S)
    (Hrun : pq_destroy (bc_pkt_buffer c) = false)
    (Hlen : Z.of_nat (length (pq_packets (bc_pkt_buffer c))) < 4294967296) :
  BaseChannel_WaitingForPackets_round c s =
    match pq_packets (bc_pkt_buffer c) with
    | [] => None
    | pkts => Some (c <| bc_pkt_buffer := (bc_pkt_buffer c) <| pq_packets := [] |> |>,
                    match bc_receiver_callback c with Some cb => cb pkts s | None => s end)
    end.
Proof.
  destruct c as [[pkts d n] cb st]; simpl in *. subst d.
  unfold BaseChannel_WaitingForPackets_round, PacketQueue_DeQueueAllTo, PacketQueue_wait_pred,
    PacketQueue_empty; simpl.
  destruct pkts as [|p pkts]; simpl; [done|].
  unfold PacketQueue_DeQueueAllTo_locked; simpl.
  rewrite u32_small by (simpl in *; word_lia). by destruct cb.
Qed.

(** The destructor ends the thread: a round that was blocked goes on without a packet,
    the loop is left, and what is buffered is delivered to nobody. *)
Theorem BaseChannel_Stop_ends {S} fuel (c : BaseChannel S) (s : S) :
  BaseChannel_WaitingForPackets_round (BaseChannel_Stop c) s = Some (BaseChannel_Stop c, s) ∧
  BaseChannel_WaitingForPackets fuel (BaseChannel_Stop c) s = (true, BaseChannel_Stop c, s).
Proof. split; [done|by destruct fuel]. Qed.

(** Of a running channel the thread delivers what is buffered, and then waits. *)
Theorem BaseChannel_waits {S} fuel (c : BaseChannel S) (s : S) cb pkts
    (Hup : bc_stop c = false) (Hrun : pq_destroy (bc_pkt_buffer c) = false)
    (Hcb : bc_receiver_callback c = Some cb)
    (Hpkts : pq_packets (bc_pkt_buffer c) = pkts) (Hne : pkts ≠ [])
    (Hlen : Z.of_nat (length pkts) < 4294967296) :
  BaseChannel_WaitingForPackets (Datatypes.S (Datatypes.S fuel)) c s =
    (false, c <| bc_pkt_buffer := (bc_pkt_buffer c) <| pq_packets := [] |> |>, cb pkts s).
Proof.
  cbn [BaseChannel_WaitingForPackets]. rewrite Hup, BaseChannel_delivers, Hpkts, Hcb by (by rewrite ?Hpkts).
  destruct pkts as [|p pkts]; [done|]. cbn [bc_stop set set_bc_pkt_buffer]. rewrite Hup.
  rewrite BaseChannel_delivers by done. done.
Qed.

Lemma BaseChannel_waits_witness :
  BaseChannel_WaitingForPackets 2 (BaseChannel_Start (BaseChannel_SendRaw (example_packet 7)
    (BaseChannel_new (Some (λ pkts n, n + Z.of_nat (length pkts)))))) 4 =
  (false, BaseChannel_Start (BaseChannel_new (Some (λ pkts n, n + Z.of_nat (length pkts)))), 5).
Proof. by rewrite (BaseChannel_waits 0 _ _ (λ pkts n, n + Z.of_nat (length pkts)) [example_packet 7]). Defined.

Lemma BaseChannel_delivers_witness :
  BaseChannel_WaitingForPackets_round (BaseChannel_Send (example_packet 7)
    (BaseChannel_new (Some (λ pkts n, n + Z.of_nat (length pkts))))) 4 =
  Some (BaseChannel_new (Some (λ pkts n, n + Z.of_nat (length pkts))), 5).
Proof.
  apply (BaseChannel_delivers (BaseChannel_Send (example_packet 7)
    (BaseChannel_new (Some (λ pkts n, n + Z.of_nat (length pkts))))) 4);
    [reflexivity | simpl; lia].
Defined.
