(* ===== verification/SendWindow.v ===== *)
(** * The send window

    [TcpWindow], [SendWindow.h] and [SendWindow.cc]: the queue of unacknowledged
    packets, cumulative and duplicate acknowledgements, and the choice of the
    packet to retransmit. Sequence numbers are [uint32] and wrap around. The
    retransmission tolerance [max_duplicated_acks] is a variable of the source
    file, shared by all send windows: it is an argument and a result of the
    operation that uses it. *)
From S2P Require Import Prelude Packet Interfaces.
Open Scope Z_scope.
Open Scope tcp_scope.

(** [TcpWindow::kDefaultWindowSize] *)
Definition TcpWindow_kDefaultWindowSize : Z := 65536.

(** [kMaxDuplicatedAcksOrigin] *)
Definition kMaxDuplicatedAcksOrigin : Z := 3.

(** [max_duplicated_acks *= 1.5]: the product is a double, exact below [2^33],
    and its conversion back to [uint32] is undefined when it does not fit. *)
Definition scale_max_duplicated_acks (m : Z) : res Z :=
  let d := (3 * m) / 2 in
  if d <? 4294967296 then Ok d else Fault BadConversion.

Section SendWindow.
Context `{!StopWatchOps}.

(** ** State *)

Record SendWindowNode := MkSendWindowNode {
  swn_pkt : Packet;
  swn_rtt_watch : StopWatch;
  swn_re_transmit_count : Z;
}.

Record SendWindow := MkSendWindow {
  sw_send_base : Z;
  sw_capacity : Z;
  sw_size : Z;
  sw_pkts_to_ack : list SendWindowNode;
  sw_last_acked_num : Z;
  sw_duplicated_acks : Z;
  sw_has_retransmitted_pkt : bool;
}.

#[export] Instance set_sw_send_base : Setter sw_send_base := λ f w,
  MkSendWindow (f (sw_send_base w)) (sw_capacity w) (sw_size w) (sw_pkts_to_ack w)
    (sw_last_acked_num w) (sw_duplicated_acks w) (sw_has_retransmitted_pkt w).
#[export] Instance set_sw_capacity : Setter sw_capacity := λ f w,
  MkSendWindow (sw_send_base w) (f (sw_capacity w)) (sw_size w) (sw_pkts_to_ack w)
    (sw_last_acked_num w) (sw_duplicated_acks w) (sw_has_retransmitted_pkt w).
#[export] Instance set_sw_size : Setter sw_size := λ f w,
  MkSendWindow (sw_send_base w) (sw_capacity w) (f (sw_size w)) (sw_pkts_to_ack w)
    (sw_last_acked_num w) (sw_duplicated_acks w) (sw_has_retransmitted_pkt w).
#[export] Instance set_sw_pkts_to_ack : Setter sw_pkts_to_ack := λ f w,
  MkSendWindow (sw_send_base w) (sw_capacity w) (sw_size w) (f (sw_pkts_to_ack w))
    (sw_last_acked_num w) (sw_duplicated_acks w) (sw_has_retransmitted_pkt w).
#[export] Instance set_sw_last_acked_num : Setter sw_last_acked_num := λ f w,
  MkSendWindow (sw_send_base w) (sw_capacity w) (sw_size w) (sw_pkts_to_ack w)
    (f (sw_last_acked_num w)) (sw_duplicated_acks w) (sw_has_retransmitted_pkt w).
#[export] Instance set_sw_duplicated_acks : Setter sw_duplicated_acks := λ f w,
  MkSendWindow (sw_send_base w) (sw_capacity w) (sw_size w) (sw_pkts_to_ack w)
    (sw_last_acked_num w) (f (sw_duplicated_acks w)) (sw_has_retransmitted_pkt w).
#[export] Instance set_sw_has_retransmitted_pkt : Setter sw_has_retransmitted_pkt := λ f w,
  MkSendWindow (sw_send_base w) (sw_capacity w) (sw_size w) (sw_pkts_to_ack w)
    (sw_last_acked_num w) (sw_duplicated_acks w) (f (sw_has_retransmitted_pkt w)).

(** [AckResult]; [ack_rtt] is [None] when the code returns its local variable
    [rtt] without having assigned it. *)
Record AckResult := MkAckResult {
  ack_refreshed : bool;
  dup_ack : bool;
  re_transmit : bool;
  ack_rtt : option Z;
}.

(** ** Operations *)

(** [SendWindow::SendWindow(send_base, capacity)] and [SendWindow(send_base)] *)
Definition SendWindow_new (send_base capacity : Z) : SendWindow :=
  MkSendWindow send_base capacity 0 [] 0 0 false.
Definition SendWindow_new_default (send_base : Z) : SendWindow :=
  SendWindow_new send_base TcpWindow_kDefaultWindowSize.

Definition SendWindow_free_space (w : SendWindow) : Z :=
  if sw_size w <? sw_capacity w then u32 (sw_capacity w - sw_size w) else 0.

Definition SendWindow_NumPacketsToAck (w : SendWindow) : Z :=
  u32 (Z.of_nat (length (sw_pkts_to_ack w))).

Definition SendWindow_NextSeqNumberToSend (w : SendWindow) : Z :=
  u32 (sw_send_base w + sw_size w).

(** The final statements of [SendPacket]: enqueue, account, start the watch. *)
Definition SendWindow_enqueue (now : Z) (new_pkt : Packet) (w : SendWindow) : SendWindow :=
  w <| sw_pkts_to_ack := sw_pkts_to_ack w ++
         [MkSendWindowNode new_pkt (StopWatch_Start now StopWatch_init) 0] |>
    <| sw_size := u32 (sw_size w + payload_size new_pkt) |>.

(** [SendWindow::SendPacket]; [now] is the clock when the watch starts. *)
Definition SendWindow_SendPacket (now : Z) (new_pkt : Packet) (w : SendWindow)
    : res (bool * SendWindow) :=
  if (SendWindow_free_space w <? payload_size new_pkt) && (0 <? sw_capacity w)
  then Ok (false, w)
  else
    match last (sw_pkts_to_ack w) with
    | None =>
        if negb (pkt_seq new_pkt =? sw_send_base w) then Ok (false, w)
        else Ok (true, SendWindow_enqueue now new_pkt w)
    | Some back =>
        let last_seq_num := pkt_seq (swn_pkt back) in
        let last_pkt_length := payload_size (swn_pkt back) in
        _ ← sanity_check (u32 (last_seq_num + last_pkt_length) =?
                          u32 (sw_send_base w + sw_size w));
        if negb (pkt_seq new_pkt =? u32 (last_seq_num + last_pkt_length)) then Ok (false, w)
        else Ok (true, SendWindow_enqueue now new_pkt w)
    end.

(** The loop of [NewAckedPacket]: pops the packets the acknowledgement covers.
    Its results are the last packet looked at (sequence number and length), the
    round-trip time read last, the size and the queue. *)
Fixpoint SendWindow_pop_acked (ack_num send_base : Z) (ack_overflow : bool) (now : Z)
    (crt_seq_num crt_pkt_length : Z) (rtt : option Z) (size : Z) (pkts : list SendWindowNode)
    : res (Z * Z * option Z * Z * list SendWindowNode) :=
  match pkts with
  | [] => Ok (crt_seq_num, crt_pkt_length, rtt, size, [])
  | front :: rest =>
      let crt_seq_num := pkt_seq (swn_pkt front) in
      let crt_pkt_length := payload_size (swn_pkt front) in
      if (crt_seq_num <? ack_num) || (ack_overflow && (send_base <=? crt_seq_num)) then
        _ ← sanity_check ((u32 (crt_seq_num + crt_pkt_length) <=? ack_num) ||
              (ack_overflow && (ack_num <? u32 (crt_seq_num + crt_pkt_length))));
        SendWindow_pop_acked ack_num send_base ack_overflow now crt_seq_num crt_pkt_length
          (Some (StopWatch_elapsed_time (StopWatch_Pause now (swn_rtt_watch front))))
          (u32 (size - payload_size (swn_pkt front))) rest
      else Ok (crt_seq_num, crt_pkt_length, rtt, size, pkts)
  end.

(** [SendWindow::NewAckedPacket], with [max_duplicated_acks] threaded. *)
Definition SendWindow_NewAckedPacket (now ack_num : Z) (w : SendWindow) (max_dup : Z)
    : res (AckResult * SendWindow * Z) :=
  let ack_overflow := (ack_num <? sw_send_base w) &&
                      (ack_num <=? u32 (sw_send_base w + sw_capacity w)) in
  if (sw_send_base w <? ack_num) || ack_overflow then
    '(crt_seq_num, crt_pkt_length, rtt, size, pkts) ←
      SendWindow_pop_acked ack_num (sw_send_base w) ack_overflow now 0 0 None
        (sw_size w) (sw_pkts_to_ack w);
    let expected_next_ack :=
      match pkts with [] => u32 (crt_seq_num + crt_pkt_length) | _ => crt_seq_num end in
    _ ← sanity_check (ack_num =? expected_next_ack);
    let w' := w <| sw_size := size |> <| sw_pkts_to_ack := pkts |>
                <| sw_send_base := ack_num |> <| sw_last_acked_num := ack_num |>
                <| sw_duplicated_acks := 0 |>
                <| sw_has_retransmitted_pkt :=
                     match pkts with [] => false | _ => sw_has_retransmitted_pkt w end |> in
    Ok (MkAckResult true false false (if negb (sw_has_retransmitted_pkt w) then rtt else Some 0),
        w', kMaxDuplicatedAcksOrigin)
  else if ack_num =? sw_send_base w then
    let dup := u32 (sw_duplicated_acks w + 1) in
    if max_dup <=? dup then
      max_dup' ← scale_max_duplicated_acks max_dup;
      Ok (MkAckResult false true true (Some 0), w <| sw_duplicated_acks := 0 |>, max_dup')
    else Ok (MkAckResult false true false (Some 0), w <| sw_duplicated_acks := dup |>, max_dup)
  else Ok (MkAckResult false false false (Some 0), w, max_dup).

(** [SendWindow::GetBasePakcketToReSend] *)
Definition SendWindow_GetBasePakcketToReSend (w : SendWindow) : option Packet * SendWindow :=
  match sw_pkts_to_ack w with
  | [] => (None, w)
  | front :: _ => (Some (Packet_Copy (swn_pkt front)), w <| sw_has_retransmitted_pkt := true |>)
  end.

(** ** Invariant

    The packets of the window are contiguous from [send_base], modulo [2^32],
    each carries at least one byte, and [size] is their total length, which is
    less than [2^32]. *)

Definition sw_packets (w : SendWindow) : list Packet := swn_pkt <$> sw_pkts_to_ack w.

Fixpoint contiguous (base : Z) (pkts : list Packet) : Prop :=
  match pkts with
  | [] => True
  | p :: rest => pkt_seq p = u32 base ∧ 0 < pkt_len p ∧ contiguous (base + pkt_len p) rest
  end.

Definition total_len (pkts : list Packet) : Z := sum_Z (pkt_len <$> pkts).

Record SendWindow_inv (w : SendWindow) : Prop := {
  swi_base : is_u32 (sw_send_base w);
  swi_capacity : is_u32 (sw_capacity w);
  swi_contiguous : contiguous (sw_send_base w) (sw_packets w);
  swi_size : sw_size w = total_len (sw_packets w);
  swi_total : total_len (sw_packets w) < 4294967296;
}.

(** *** Contiguous runs of packets *)

Lemma total_len_app l k : total_len (l ++ k) = total_len l + total_len k.
Proof. unfold total_len. by rewrite fmap_app, sum_Z_app. Qed.
Lemma total_len_cons p l : total_len (p :: l) = pkt_len p + total_len l.
Proof. done. Qed.
Lemma total_len_nil : total_len [] = 0.
Proof. done. Qed.

Lemma data_total_nonneg pkts : Forall data_packet pkts → 0 <= total_len pkts.
Proof.
  induction 1 as [|q l [_ Hq] _ IH]; [by rewrite total_len_nil|].
  rewrite total_len_cons. unfold pkt_len. lia.
Qed.

Lemma bytes_total pkts : Forall data_packet pkts →
  Z.of_nat (length (pkts ≫= packet_bytes)) = total_len pkts.
Proof.
  induction 1 as [|p l [Hp _] _ IH]; csimpl; [by rewrite total_len_nil|].
  rewrite length_app, total_len_cons. unfold pkt_len. lia.
Qed.

Lemma contiguous_total base l : contiguous base l → 0 <= total_len l.
Proof.
  revert base. induction l as [|p l IH]; intros base; [done|].
  intros (_ & Hp & Hl%IH). rewrite total_len_cons. lia.
Qed.

Lemma contiguous_total_pos base p l : contiguous base (p :: l) → 0 < total_len (p :: l).
Proof.
  intros (_ & Hp & Hl%contiguous_total). rewrite total_len_cons. lia.
Qed.

Lemma contiguous_app base l k :
  contiguous base (l ++ k) ↔ contiguous base l ∧ contiguous (base + total_len l) k.
Proof.
  revert base. induction l as [|p l IH]; intros base; simpl.
  - rewrite total_len_nil, Z.add_0_r. tauto.
  - rewrite IH, total_len_cons, Z.add_assoc. tauto.
Qed.

Lemma contiguous_shift base base' l :
  u32 base = u32 base' → contiguous base l → contiguous base' l.
Proof.
  revert base base'. induction l as [|p l IH]; intros base base' Hb; simpl; [done|].
  intros (-> & Hp & Hl). split_and!; [done..|]. eapply IH; [|done].
  rewrite <- (u32_add_l base), <- (u32_add_l base'). by rewrite Hb.
Qed.

Lemma contiguous_lookup base l p k :
  contiguous base (l ++ p :: k) → pkt_seq p = u32 (base + total_len l) ∧ 0 < pkt_len p.
Proof. rewrite contiguous_app. by intros (_ & ? & ? & _). Qed.

(** The end of a window: the sequence number after its last packet. *)
Lemma contiguous_last base l p :
  contiguous base (l ++ [p]) → u32 (pkt_seq p + pkt_len p) = u32 (base + total_len (l ++ [p])).
Proof.
  intros [-> _]%contiguous_lookup. rewrite u32_add_l, total_len_app, total_len_cons, total_len_nil.
  f_equal. lia.
Qed.

Lemma sw_packets_last w :
  last (sw_packets w) = swn_pkt <$> last (sw_pkts_to_ack w).
Proof. unfold sw_packets. apply fmap_last. Qed.

(** ** Sending *)

Lemma SendWindow_new_inv base cap : is_u32 base → is_u32 cap → SendWindow_inv (SendWindow_new base cap).
Proof. intros. by split. Qed.

Lemma SendWindow_free_space_eq w : SendWindow_inv w →
  SendWindow_free_space w = Z.max 0 (sw_capacity w - sw_size w).
Proof.
  intros [_ Hc Hl Hs Ht]. apply contiguous_total in Hl. unfold SendWindow_free_space.
  destruct (Z.ltb_spec (sw_size w) (sw_capacity w)); [|lia]. rewrite u32_small; word_lia.
Qed.

(** Room for [p]: enough free space, or a capacity of zero, which the code does
    not check against. *)
Definition has_room (w : SendWindow) (p : Packet) : bool :=
  (sw_capacity w =? 0) || (payload_size p <=? SendWindow_free_space w).

Lemma sw_packets_enqueue now p w : sw_packets (SendWindow_enqueue now p w) = sw_packets w ++ [p].
Proof. unfold sw_packets; simpl. by rewrite fmap_app. Qed.

(** Under the invariant the two tests on the sequence number are one: the
    packet is the next to send. And the sanity check never fails. *)
Lemma SendWindow_SendPacket_eq now p w : SendWindow_inv w → is_u32 (pkt_len p) →
  SendWindow_SendPacket now p w =
    Ok (if has_room w p && (pkt_seq p =? SendWindow_NextSeqNumberToSend w)
        then (true, SendWindow_enqueue now p w) else (false, w)).
Proof.
  intros [Hb Hc Hl Hs Ht] Hp. unfold SendWindow_SendPacket, has_room,
    SendWindow_NextSeqNumberToSend.
  replace (0 <? sw_capacity w) with (negb (sw_capacity w =? 0))
    by (unfold is_u32 in *; destruct (Z.eqb_spec (sw_capacity w) 0), (Z.ltb_spec 0 (sw_capacity w)); done || lia).
  rewrite Z.ltb_antisym, <- negb_orb, orb_comm.
  destruct (_ || _); simpl; [|done].
  assert (last (sw_packets w) = swn_pkt <$> last (sw_pkts_to_ack w)) as Hlast by apply sw_packets_last.
  destruct (last (sw_pkts_to_ack w)) as [back|] eqn:Hback; simpl in *.
  - apply last_Some in Hlast as [l Hlst].
    rewrite Hlst in Hl. pose proof (contiguous_last _ _ _ Hl) as Hend.
    rewrite <- Hlst, <- Hs in Hend. unfold pkt_len in Hend. rewrite Hend, Z.eqb_refl; simpl.
    by destruct (pkt_seq p =? _).
  - apply last_None in Hlast. rewrite Hlast in Hs. rewrite Hs, total_len_nil, Z.add_0_r, u32_small by done.
    by destruct (pkt_seq p =? _).
Qed.

(** Enqueueing the next packet keeps the invariant. *)
Lemma SendWindow_enqueue_inv now p w : SendWindow_inv w →
  pkt_seq p = SendWindow_NextSeqNumberToSend w → 0 < pkt_len p →
  sw_size w + pkt_len p < 4294967296 → SendWindow_inv (SendWindow_enqueue now p w).
Proof.
  intros [Hb Hc Hl Hs Ht] Hseq Hlen Hsum. pose proof (contiguous_total _ _ Hl).
  assert (total_len (sw_packets w ++ [p]) = sw_size w + pkt_len p) as Htot.
  { rewrite total_len_app, total_len_cons, total_len_nil. lia. }
  split; rewrite ?sw_packets_enqueue; simpl; try done.
  - apply contiguous_app. split; [done|]. simpl. split_and!; [|done..].
    rewrite Hseq. unfold SendWindow_NextSeqNumberToSend. by rewrite Hs.
  - rewrite u32_small; unfold pkt_len in *; [lia | word_lia].
  - lia.
Qed.

Lemma has_room_sum w p : SendWindow_inv w → 0 < sw_capacity w → has_room w p = true →
  0 <= pkt_len p → sw_size w + pkt_len p < 4294967296.
Proof.
  intros Hinv Hcap. unfold has_room. rewrite SendWindow_free_space_eq by done.
  destruct Hinv as [_ Hc _ Hs Ht]. unfold is_u32, pkt_len in *.
  rewrite orb_true_iff, Z.eqb_eq, Z.leb_le. lia.
Qed.

(** ** Acknowledgements *)

(** The loop's test and its sanity check, for a packet at [seq] of length [len]. *)
Definition covers (ack base : Z) (ovf : bool) (seq : Z) : bool :=
  (seq <? ack) || (ovf && (base <=? seq)).
Definition cover_sane (ack : Z) (ovf : bool) (seq len : Z) : bool :=
  (u32 (seq + len) <=? ack) || (ovf && (ack <? u32 (seq + len))).

Definition overflow_ack (ack : Z) (w : SendWindow) : bool :=
  (ack <? sw_send_base w) && (ack <=? u32 (sw_send_base w + sw_capacity w)).

(** An acknowledgement [total] bytes past the send base is recognised when it
    does not wrap around, or when it lies within the current capacity. *)
Definition recognised (total : Z) (w : SendWindow) : Prop :=
  sw_send_base w + total < 4294967296 ∨
  u32 (sw_send_base w + total) <= u32 (sw_send_base w + sw_capacity w).

Lemma pop_acked_snoc ack base ovf now c1 c2 rtt size l nd l2 :
  Forall (λ x, covers ack base ovf (pkt_seq (swn_pkt x)) = true ∧
               cover_sane ack ovf (pkt_seq (swn_pkt x)) (payload_size (swn_pkt x)) = true)
    (l ++ [nd]) →
  SendWindow_pop_acked ack base ovf now c1 c2 rtt size ((l ++ [nd]) ++ l2) =
  SendWindow_pop_acked ack base ovf now (pkt_seq (swn_pkt nd)) (payload_size (swn_pkt nd))
    (Some (StopWatch_elapsed_time (StopWatch_Pause now (swn_rtt_watch nd))))
    (u32 (size - total_len (swn_pkt <$> (l ++ [nd])))) l2.
Proof.
  revert c1 c2 rtt size. induction l as [|x l IH]; intros c1 c2 rtt size Hall; csimpl in *.
  - apply Forall_cons in Hall as [[Hc Hs] _]. unfold covers, cover_sane in *.
    rewrite Hc, Hs; simpl. rewrite total_len_cons, total_len_nil, Z.add_0_r. done.
  - apply Forall_cons in Hall as [[Hc Hs] Hall]. rewrite <- app_assoc in IH. simpl in IH.
    unfold covers, cover_sane in Hc, Hs. rewrite Hc, Hs; simpl.
    rewrite <- app_assoc; simpl. rewrite IH by done. f_equal.
    rewrite u32_sub_l, total_len_cons. f_equal. unfold pkt_len. lia.
Qed.

Lemma covers_inside ack base cap o len total :
  is_u32 base → 0 <= o → 0 < len → o + len <= total → total < 4294967296 →
  ack = u32 (base + total) →
  base + total < 4294967296 ∨ ack <= u32 (base + cap) →
  let ovf := (ack <? base) && (ack <=? u32 (base + cap)) in
  covers ack base ovf (u32 (base + o)) = true ∧
  cover_sane ack ovf (u32 (base + o)) len = true.
Proof.
  intros Hb Ho Hlen Hol Ht -> Hrec. unfold covers, cover_sane. rewrite u32_add_l.
  destruct (Z.ltb_spec (u32 (base + total)) base) as [Hlt|Hge];
    destruct (Z.leb_spec (u32 (base + total)) (u32 (base + cap))) as [Hle|Hgt]; simpl;
    rewrite ?andb_true_l, ?orb_false_r, ?orb_true_iff, ?Z.ltb_lt, ?Z.leb_le; word_lia.
Qed.

Lemma covers_end ack base cap total :
  is_u32 base → ack = u32 (base + total) →
  covers ack base ((ack <? base) && (ack <=? u32 (base + cap))) ack = false.
Proof.
  intros Hb ->. unfold covers. rewrite Z.ltb_irrefl; simpl.
  destruct (Z.ltb_spec (u32 (base + total)) base); simpl; [|done].
  destruct (Z.leb_spec base (u32 (base + total))); [lia|]. apply andb_false_r.
Qed.

(** The window after an acknowledgement that leaves [l2] unacknowledged. *)
Definition SendWindow_acked (ack : Z) (l2 : list SendWindowNode) (w : SendWindow) : SendWindow :=
  MkSendWindow ack (sw_capacity w) (total_len (swn_pkt <$> l2)) l2 ack 0
    (match l2 with [] => false | _ => sw_has_retransmitted_pkt w end).

Lemma sw_packets_app w l1 l2 : sw_pkts_to_ack w = l1 ++ l2 →
  sw_packets w = (swn_pkt <$> l1) ++ (swn_pkt <$> l2).
Proof. intros Hw. unfold sw_packets. by rewrite Hw, fmap_app. Qed.

(** Every packet of an acknowledged prefix passes the loop's tests. *)
Lemma covered_prefix w l1 l2 (Hinv : SendWindow_inv w) (Hw : sw_pkts_to_ack w = l1 ++ l2) :
  let ack := u32 (sw_send_base w + total_len (swn_pkt <$> l1)) in
  recognised (total_len (swn_pkt <$> l1)) w →
  Forall (λ x, covers ack (sw_send_base w) (overflow_ack ack w) (pkt_seq (swn_pkt x)) = true ∧
     cover_sane ack (overflow_ack ack w) (pkt_seq (swn_pkt x)) (payload_size (swn_pkt x)) = true) l1.
Proof.
  destruct Hinv as [Hb Hc Hl Hs Ht]. rewrite (sw_packets_app _ _ _ Hw) in Hl, Ht.
  rewrite total_len_app in Ht. apply contiguous_app in Hl as [Hl1 Hl2].
  pose proof (contiguous_total _ _ Hl2). intros ack Hrec. apply Forall_forall. intros x Hx.
  apply list_elem_of_split in Hx as (k1 & k2 & ->).
  rewrite fmap_app in *. csimpl in *. pose proof (contiguous_lookup _ _ _ _ Hl1) as [-> Hlen].
  apply contiguous_app in Hl1 as [Hk1 (_ & _ & Hk2)].
  pose proof (contiguous_total _ _ Hk1). pose proof (contiguous_total _ _ Hk2).
  subst ack. unfold overflow_ack, recognised in *. rewrite fmap_app. csimpl.
  rewrite total_len_app, total_len_cons in *. unfold pkt_len in *.
  eapply covers_inside; [done | | | | | reflexivity | done]; lia.
Qed.

(** The acknowledgement of a nonempty prefix is taken as such. *)
Lemma NewAckedPacket_prefix w l nd l2 now g total ack
    (Hinv : SendWindow_inv w) (Hw : sw_pkts_to_ack w = (l ++ [nd]) ++ l2)
    (Htot : total = total_len (swn_pkt <$> (l ++ [nd])))
    (Hack : ack = u32 (sw_send_base w + total)) :
  recognised total w →
  SendWindow_NewAckedPacket now ack w g =
    Ok (MkAckResult true false false
          (if sw_has_retransmitted_pkt w then Some 0
           else Some (StopWatch_elapsed_time (StopWatch_Pause now (swn_rtt_watch nd)))),
        SendWindow_acked ack l2 w, kMaxDuplicatedAcksOrigin).
Proof.
  intros Hrec. pose proof (covered_prefix _ _ _ Hinv Hw) as Hall.
  rewrite <- Htot, <- Hack in Hall. specialize (Hall Hrec).
  destruct Hinv as [Hb Hc Hl Hs Ht]. pose proof (sw_packets_app _ _ _ Hw) as Hpk.
  rewrite Hpk in Hl, Ht, Hs. rewrite total_len_app, <- Htot in Ht, Hs.
  apply contiguous_app in Hl as [Hl1 Hl2]. rewrite <- Htot in Hl2.
  pose proof (contiguous_total _ _ Hl2) as Hpos2.
  assert (u32 (pkt_seq (swn_pkt nd) + payload_size (swn_pkt nd)) = ack) as Hend.
  { rewrite Hack, Htot, fmap_app in *. csimpl in *. by apply contiguous_last. }
  assert (0 < total) as Hpos.
  { rewrite Htot, fmap_app in *. csimpl in *. destruct (swn_pkt <$> l); simpl in *;
      by eapply contiguous_total_pos. }
  assert ((sw_send_base w <? ack) || overflow_ack ack w = true) as Hbranch.
  { unfold overflow_ack, recognised in *. rewrite <- Hack in Hrec.
    rewrite orb_true_iff, andb_true_iff, !Z.ltb_lt, Z.leb_le. word_lia. }
  assert (u32 (sw_size w - total) = total_len (swn_pkt <$> l2)) as Hsz.
  { rewrite Hs, u32_small by word_lia. lia. }
  unfold SendWindow_NewAckedPacket. fold (overflow_ack ack w).
  rewrite Hbranch, Hw, pop_acked_snoc, <- Htot by exact Hall.
  destruct l2 as [|nd2 l2]; simpl.
  - rewrite Hend, Z.eqb_refl, Hsz; simpl. by destruct (sw_has_retransmitted_pkt w).
  - destruct Hl2 as (Hseq & _ & _). rewrite Hseq, <- Hack.
    pose proof (covers_end ack _ (sw_capacity w) total Hb Hack) as Hcov.
    unfold covers in Hcov. fold (overflow_ack ack w) in Hcov. rewrite Hcov; simpl.
    rewrite Z.eqb_refl, Hsz; unfold SendWindow_acked; simpl.
    by destruct (sw_has_retransmitted_pkt w).
Qed.

Lemma SendWindow_acked_inv w l1 l2 :
  SendWindow_inv w → sw_pkts_to_ack w = l1 ++ l2 →
  SendWindow_inv (SendWindow_acked (u32 (sw_send_base w + total_len (swn_pkt <$> l1))) l2 w).
Proof.
  intros [Hb Hc Hl Hs Ht] Hw. rewrite (sw_packets_app _ _ _ Hw) in Hl, Ht.
  rewrite total_len_app in Ht. apply contiguous_app in Hl as [Hl1 Hl2].
  pose proof (contiguous_total _ _ Hl1). split; unfold sw_packets in *; simpl; [apply u32_range | done | | done | lia].
  eapply contiguous_shift; [|exact Hl2]. by rewrite u32_idem.
Qed.

(** *** Acknowledgements of a window that does not wrap around *)

(** What the loop leaves of a run that starts at [b <= ack]: it stops exactly
    at [ack], or at the end of the run. *)
Lemma pop_acked_nowrap ack base now c1 c2 rtt size b l r :
  contiguous b (swn_pkt <$> l) → 0 <= b <= ack → b + total_len (swn_pkt <$> l) < 4294967296 →
  c1 + c2 = b →
  SendWindow_pop_acked ack base false now c1 c2 rtt size l = Ok r →
  let '(c1', c2', _, _, l2) := r in
  ∃ l1, l = l1 ++ l2 ∧
    match l2 with
    | [] => c1' + c2' = b + total_len (swn_pkt <$> l)
    | _ => ack = b + total_len (swn_pkt <$> l1)
    end.
Proof.
  revert c1 c2 rtt size b. induction l as [|nd l IH]; intros c1 c2 rtt size b; csimpl.
  - intros _ _ _ Hc [= <-]. exists []. rewrite total_len_nil. split; [done | lia].
  - intros (Hseq & Hlen & Hl) Hb Ht Hc. rewrite total_len_cons in *.
    pose proof (contiguous_total _ _ Hl) as Hpos.
    unfold pkt_len in *. rewrite Hseq, (u32_small b) by word_lia. simpl.
    rewrite !orb_false_r. destruct (Z.ltb_spec b ack) as [Hlt|Hge].
    + rewrite (u32_small (b + payload_size (swn_pkt nd))) by word_lia.
      destruct (Z.leb_spec (b + payload_size (swn_pkt nd)) ack) as [Hle|Hgt]; simpl; [|done].
      intros Hr. apply IH with (b := b + payload_size (swn_pkt nd)) in Hr; [|done|lia..].
      destruct r as [[[[c1' c2'] ?] ?] l2]. destruct Hr as (l1 & -> & Hr).
      exists (nd :: l1). split; [done|]. destruct l2; csimpl; rewrite ?total_len_cons in *;
        unfold pkt_len; lia.
    + intros [= <-]. exists []. split; [done|]. csimpl. rewrite total_len_nil. lia.
Qed.

(** With every packet past the acknowledgement, the overflow case pops all. *)
Lemma pop_acked_stale ack base now c1 c2 rtt size b l r :
  contiguous b (swn_pkt <$> l) → 0 <= ack < base → base <= b →
  b + total_len (swn_pkt <$> l) < 4294967296 → c1 + c2 = b →
  SendWindow_pop_acked ack base true now c1 c2 rtt size l = Ok r →
  let '(c1', c2', _, _, l2) := r in
  l2 = [] ∧ c1' + c2' = b + total_len (swn_pkt <$> l).
Proof.
  revert c1 c2 rtt size b. induction l as [|nd l IH]; intros c1 c2 rtt size b; csimpl.
  - intros _ _ _ _ Hc [= <-]. rewrite total_len_nil. split; [done | lia].
  - intros (Hseq & Hlen & Hl) Ha Hb Ht Hc. rewrite total_len_cons in *.
    pose proof (contiguous_total _ _ Hl) as Hpos.
    unfold pkt_len in *. rewrite Hseq, (u32_small b) by word_lia.
    destruct (Z.leb_spec base b) as [_|]; [|lia]. rewrite orb_true_r; simpl.
    destruct (sanity_check _) as [[]|] eqn:Hs; simpl; [|done]. intros Hr.
    apply IH with (b := b + payload_size (swn_pkt nd)) in Hr; [|done|lia..].
    destruct r as [[[[c1' c2'] ?] ?] l2]. destruct Hr as [-> Hr]. split; [done | lia].
Qed.

(** The acknowledgement numbers a window expects: its send base and the ends of
    its packets. *)
Definition expected_acks (w : SendWindow) (ack : Z) : Prop :=
  ∃ l1 l2, sw_pkts_to_ack w = l1 ++ l2 ∧ ack = sw_send_base w + total_len (swn_pkt <$> l1).

Definition no_wrap (w : SendWindow) : Prop :=
  sw_send_base w + sw_capacity w < 4294967296 ∧ sw_send_base w + sw_size w < 4294967296.

Lemma NewAckedPacket_Ok_expected w ack now g r :
  SendWindow_inv w → no_wrap w → is_u32 ack → sw_pkts_to_ack w ≠ [] →
  SendWindow_NewAckedPacket now ack w g = Ok r → expected_acks w ack.
Proof.
  intros [Hb Hc Hl Hs Ht] [Hnc Hns] Ha Hne. unfold SendWindow_NewAckedPacket.
  fold (overflow_ack ack w). unfold sw_packets in *.
  destruct (Z.eqb_spec ack (sw_send_base w)) as [->|Hneq].
  { intros _. exists [], (sw_pkts_to_ack w). split; [done|]. csimpl. rewrite total_len_nil. lia. }
  destruct (Z.ltb_spec (sw_send_base w) ack) as [Hgt|Hle].
  - assert (overflow_ack ack w = false) as ->.
    { unfold overflow_ack. destruct (Z.ltb_spec ack (sw_send_base w)); [lia|done]. }
    simpl. intros Hr. apply bind_Ok in Hr as ([[[[c1 c2] rtt] size] l2] & Hpop & Hr).
    destruct (sw_pkts_to_ack w) as [|nd l] eqn:Hpk; [done|].
    (* the first packet starts at the send base *)
    csimpl in *. destruct Hl as (Hseq & Hlen & Hl). rewrite total_len_cons in *.
    pose proof (contiguous_total _ _ Hl) as Hpos. unfold pkt_len in *. unfold is_u32 in *.
    rewrite Hseq, (u32_small (sw_send_base w)) in Hpop by word_lia.
    rewrite ?andb_false_l, ?orb_false_r in Hpop.
    destruct (Z.ltb_spec (sw_send_base w) ack) as [_|]; [|lia].
    rewrite (u32_small (sw_send_base w + payload_size (swn_pkt nd))) in Hpop by word_lia.
    destruct (Z.leb_spec (sw_send_base w + payload_size (swn_pkt nd)) ack) as [Hle|]; [|done].
    simpl in Hpop. apply pop_acked_nowrap with (b := sw_send_base w + payload_size (swn_pkt nd))
      in Hpop; [|done|lia..].
    destruct Hpop as (l1 & Hl1 & Hend). destruct (sanity_check _) as [[]|] eqn:Hsc; [|done].
    apply sanity_check_Ok, Z.eqb_eq in Hsc. exists (nd :: l1), l2. split; [by rewrite Hpk, Hl1|].
    csimpl. rewrite total_len_cons. unfold pkt_len. destruct l2; [|lia].
    rewrite app_nil_r in Hl1. subst l1. rewrite Hend, u32_small in Hsc by word_lia. lia.
  - assert (overflow_ack ack w = true) as ->.
    { unfold overflow_ack, is_u32 in *. rewrite u32_small by word_lia.
      rewrite andb_true_iff, Z.ltb_lt, Z.leb_le. lia. }
    simpl. intros Hr. apply bind_Ok in Hr as ([[[[c1 c2] rtt] size] l2] & Hpop & Hr). exfalso.
    destruct (sw_pkts_to_ack w) as [|nd l] eqn:Hpk; [done|].
    csimpl in *. destruct Hl as (Hseq & Hlen & Hl). rewrite total_len_cons in *.
    pose proof (contiguous_total _ _ Hl) as Hpos. unfold pkt_len in *. unfold is_u32 in *.
    rewrite Hseq, (u32_small (sw_send_base w)) in Hpop by word_lia.
    rewrite (proj2 (Z.leb_le (sw_send_base w) (sw_send_base w))), orb_true_r in Hpop by lia.
    apply bind_Ok in Hpop as (? & _ & Hpop).
    apply pop_acked_stale with (b := sw_send_base w + payload_size (swn_pkt nd))
      in Hpop; [|done|lia..].
    destruct Hpop as [-> Hend]. destruct (sanity_check _) as [[]|] eqn:Hsc; [|done].
    apply sanity_check_Ok, Z.eqb_eq in Hsc. rewrite Hend, u32_small in Hsc by word_lia. lia.
Qed.
(** *** The invariant across any acknowledgement *)

(** The loop leaves a suffix of the queue, the size less what it popped, and,
    when it stops early, the sequence number of the packet it stopped at. *)
Lemma pop_acked_suffix ack base ovf now c1 c2 rtt size l r :
  SendWindow_pop_acked ack base ovf now c1 c2 rtt size l = Ok r →
  let '(c1', _, _, size', l2) := r in
  ∃ l1, l = l1 ++ l2 ∧ u32 size' = u32 (size - total_len (swn_pkt <$> l1)) ∧
    (l1 = [] → size' = size) ∧ (l1 ≠ [] → is_u32 size') ∧
    match l2 with [] => True | x :: _ => c1' = pkt_seq (swn_pkt x) end.
Proof.
  revert c1 c2 rtt size. induction l as [|nd l IH]; intros c1 c2 rtt size; simpl.
  - intros [= <-]. exists []. csimpl. rewrite total_len_nil, Z.sub_0_r. by split_and!.
  - destruct (_ || _); simpl.
    + intros (_ & _ & Hr)%bind_Ok. apply IH in Hr. destruct r as [[[[c1' c2'] rtt'] size'] l2].
      destruct Hr as (l1 & -> & Hs & H0 & H1 & Hl2). exists (nd :: l1).
      split_and!; [done| |done| |done].
      * rewrite Hs, u32_sub_l. csimpl. rewrite total_len_cons. f_equal. unfold pkt_len. lia.
      * intros _. destruct l1; [rewrite H0 by done; apply u32_range | by apply H1].
    + intros [= <-]. exists []. csimpl. rewrite total_len_nil, Z.sub_0_r. by split_and!.
Qed.

Lemma NewAckedPacket_inv w ack now g r w' g' :
  SendWindow_inv w → is_u32 ack →
  SendWindow_NewAckedPacket now ack w g = Ok (r, w', g') → SendWindow_inv w'.
Proof.
  intros [Hb Hc Hl Hs Ht] Ha. unfold SendWindow_NewAckedPacket. case_match.
  - intros ([[[[c1 c2] rtt] size] l2] & Hpop & Hr)%bind_Ok.
    apply bind_Ok in Hr as (? & Hsc%sanity_check_Ok & [= <- <- <-]). apply Z.eqb_eq in Hsc.
    apply pop_acked_suffix in Hpop as (l1 & Hl1 & Hsize & Hz & Hnz & Hc1).
    rewrite (sw_packets_app _ _ _ Hl1) in Hl, Hs, Ht. rewrite total_len_app in Hs, Ht.
    apply contiguous_app in Hl as [Hp1 Hp2].
    pose proof (contiguous_total _ _ Hp1). pose proof (contiguous_total _ _ Hp2).
    split; unfold sw_packets; simpl; [done|done| | |lia].
    + destruct l2 as [|nd l2]; [done|]. eapply contiguous_shift; [|exact Hp2].
      rewrite Hsc, Hc1. csimpl in Hp2. destruct Hp2 as (-> & _). by rewrite u32_idem.
    + rewrite Hs in Hsize. destruct l1 as [|nd l1]; [rewrite Hz by done; csimpl in *; rewrite total_len_nil in *; lia|].
      rewrite <- (u32_small size) by (by apply Hnz). rewrite Hsize, u32_small by word_lia. lia.
  - case_match; [|intros [= <- <- <-]; by split]. case_match.
    + intros (d & _ & [= <- <- <-])%bind_Ok. by split.
    + intros [= <- <- <-]. by split.
Qed.

(** The only ways an acknowledgement fails. *)
Lemma pop_acked_fault ack base ovf now c1 c2 rtt size l f :
  SendWindow_pop_acked ack base ovf now c1 c2 rtt size l = Fault f → f = SanityCheckFailed.
Proof.
  revert c1 c2 rtt size. induction l as [|nd l IH]; intros c1 c2 rtt size; simpl; [done|].
  destruct (_ || _); [|done]. unfold sanity_check. case_match; simpl; [apply IH | congruence].
Qed.

Lemma NewAckedPacket_fault w ack now g f :
  SendWindow_NewAckedPacket now ack w g = Fault f → f = SanityCheckFailed ∨ f = BadConversion.
Proof.
  unfold SendWindow_NewAckedPacket. case_match.
  - intros [Hf%pop_acked_fault|([[[[c1 c2] rtt] size] l2] & _ & Hf)]%bind_Fault; [by left|].
    apply bind_Fault in Hf as [Hf%sanity_check_Fault|(? & _ & [=])]. by left.
  - case_match; [|done]. case_match; [|done]. unfold scale_max_duplicated_acks.
    case_match; simpl; [done|]. intros [= <-]. by right.
Qed.
End SendWindow.

(** ** Properties *)

Section properties.
Context `{!StopWatchOps}.
Implicit Types w : SendWindow.

(** C18. Sending never trips the consistency check, succeeds exactly when the
    packet is the next in sequence and there is room for it (a window of zero
    capacity is not checked), changes nothing when it refuses, and keeps the
    window contiguous. *)
Theorem SendWindow_SendPacket_spec now p w
    (Hinv : SendWindow_inv w) (Hlen : 0 < pkt_len p)
    (Hsum : sw_size w + pkt_len p < 4294967296) :
  ∃ b w', SendWindow_SendPacket now p w = Ok (b, w') ∧ SendWindow_inv w' ∧
    (b = true ↔ (sw_capacity w = 0 ∨ sw_size w + pkt_len p <= sw_capacity w) ∧
                pkt_seq p = SendWindow_NextSeqNumberToSend w) ∧
    (b = true → sw_packets w' = sw_packets w ++ [p] ∧ sw_send_base w' = sw_send_base w) ∧
    (b = false → w' = w).
Proof.
  assert (0 <= sw_size w) as Hs0.
  { rewrite (swi_size _ Hinv). apply (contiguous_total (sw_send_base w)), Hinv. }
  rewrite SendWindow_SendPacket_eq by (done || word_lia).
  assert (has_room w p = true ↔ sw_capacity w = 0 ∨ sw_size w + pkt_len p <= sw_capacity w) as Hroom.
  { unfold has_room. rewrite orb_true_iff, Z.eqb_eq, Z.leb_le.
    rewrite SendWindow_free_space_eq by done. unfold pkt_len in *. lia. }
  destruct (has_room w p && _) eqn:Hb; eexists _, _; (split; [done|]).
  - apply andb_true_iff in Hb as [Hb1 Hb2%Z.eqb_eq].
    split_and!; [by apply SendWindow_enqueue_inv | by rewrite <- Hroom | | done].
    intros _. by rewrite sw_packets_enqueue.
  - apply andb_false_iff in Hb. rewrite Z.eqb_neq, <- not_true_iff_false, Hroom in Hb.
    split_and!; [done | | done | done]. split; [done|]. intros [? ?]. tauto.
Qed.

(** C16. A cumulative acknowledgement: acknowledging the end of any nonempty
    prefix of the window, wrap-around included, removes exactly that prefix,
    moves the send base there, frees its bytes, resets the duplicate counter and
    the retransmission tolerance, and reports a round-trip time only when
    nothing was retransmitted. *)
Theorem SendWindow_cumulative_ack w l nd l2 now g
    (Hinv : SendWindow_inv w) (Hw : sw_pkts_to_ack w = (l ++ [nd]) ++ l2)
    (Hrec : recognised (total_len (swn_pkt <$> (l ++ [nd]))) w) :
  let ack := u32 (sw_send_base w + total_len (swn_pkt <$> (l ++ [nd]))) in
  ∃ w', SendWindow_NewAckedPacket now ack w g =
      Ok (MkAckResult true false false
            (if sw_has_retransmitted_pkt w then Some 0
             else Some (StopWatch_elapsed_time (StopWatch_Pause now (swn_rtt_watch nd)))),
          w', kMaxDuplicatedAcksOrigin) ∧
    SendWindow_inv w' ∧ sw_pkts_to_ack w' = l2 ∧ sw_send_base w' = ack ∧
    sw_size w' = sw_size w - total_len (swn_pkt <$> (l ++ [nd])) ∧
    sw_capacity w' = sw_capacity w ∧ sw_duplicated_acks w' = 0 ∧
    sw_has_retransmitted_pkt w' = match l2 with [] => false | _ => sw_has_retransmitted_pkt w end.
Proof.
  intros ack. exists (SendWindow_acked ack l2 w).
  rewrite (NewAckedPacket_prefix w l nd l2 now g _ ack Hinv Hw eq_refl eq_refl Hrec).
  split_and!; try done; simpl.
  - by apply (SendWindow_acked_inv w (l ++ [nd]) l2).
  - rewrite (swi_size _ Hinv), (sw_packets_app _ _ _ Hw), total_len_app. lia.
Qed.

(** C17. While a nonempty window does not wrap around, [NewAckedPacket] returns
    exactly for the acknowledgement numbers the window expects, its send base
    and the ends of its packets; every other number, one older than the send
    base included, makes a sanity check fail. *)
Theorem SendWindow_ack_accepted_iff w ack now g
    (Hinv : SendWindow_inv w) (Hwrap : no_wrap w) (Hack : is_u32 ack)
    (Hne : sw_pkts_to_ack w ≠ []) (Hg : 0 <= g < 2147483648) :
  is_ok (SendWindow_NewAckedPacket now ack w g) = true ↔ expected_acks w ack.
Proof.
  split.
  - destruct (SendWindow_NewAckedPacket now ack w g) as [r|] eqn:Hr; [intros _ | done].
    by eapply NewAckedPacket_Ok_expected.
  - intros (l1 & l2 & Hw & Hexp). destruct l1 as [|nd l _] using rev_ind.
    + rewrite Hexp. csimpl. rewrite total_len_nil, Z.add_0_r.
      unfold SendWindow_NewAckedPacket. rewrite Z.ltb_irrefl, Z.eqb_refl; simpl.
      destruct (g <=? _); [|done]. unfold scale_max_duplicated_acks.
      destruct (Z.ltb_spec (3 * g / 2) 4294967296) as [|Hbig]; [done|].
      exfalso. assert (3 * g / 2 < 4294967296) by (apply Z.div_lt_upper_bound; lia). lia.
    + assert (total_len (swn_pkt <$> l ++ [nd]) <= sw_size w) as Hle.
      { destruct Hinv as [_ _ Hl Hs _]. rewrite (sw_packets_app _ _ _ Hw) in Hl, Hs.
        apply contiguous_app in Hl as [_ Hl2%contiguous_total]. rewrite Hs, total_len_app. lia. }
      destruct Hwrap as [_ Hns].
      rewrite (NewAckedPacket_prefix w l nd l2 now g (total_len (swn_pkt <$> l ++ [nd])) ack);
        try done; [|left; lia].
      rewrite u32_small; [done | word_lia].
Qed.

(** An acknowledgement older than the send base is taken for one that
    wrapped around: when the window does not wrap, it empties the queue and the
    call ends in a failed sanity check. *)
Theorem SendWindow_stale_ack_faults w ack now g
    (Hinv : SendWindow_inv w) (Hwrap : no_wrap w)
    (Hne : sw_pkts_to_ack w ≠ []) (Hack : 0 <= ack < sw_send_base w) :
  SendWindow_NewAckedPacket now ack w g = Fault SanityCheckFailed.
Proof.
  pose proof Hinv as [Hb Hc Hl Hs Ht]. unfold is_u32 in *.
  destruct (SendWindow_NewAckedPacket now ack w g) as [r|f] eqn:Hr.
  - exfalso. destruct (NewAckedPacket_Ok_expected w ack now g r Hinv Hwrap ltac:(word_lia) Hne Hr)
      as (l1 & l2 & Hw & Hexp).
    rewrite (sw_packets_app _ _ _ Hw) in Hl. apply contiguous_app in Hl as [Hl1%contiguous_total _].
    lia.
  - f_equal. revert Hr. unfold SendWindow_NewAckedPacket.
    destruct Hwrap as [Hnc _]. rewrite (u32_small (sw_send_base w + sw_capacity w)) by word_lia.
    destruct (Z.ltb_spec ack (sw_send_base w)) as [_|]; [|lia].
    destruct (Z.leb_spec ack (sw_send_base w + sw_capacity w)) as [_|]; [|lia].
    rewrite orb_true_r. intros [Hp|(r & _ & Hr)]%bind_Fault.
    + revert Hp. generalize 0 at 1 as c1, 0 at 1 as c2, (@None Z) as rtt, (sw_size w) as sz.
      generalize (sw_pkts_to_ack w) as pkts. clear.
      induction pkts as [|nd pkts IH]; intros c1 c2 rtt sz; simpl; [done|].
      destruct (_ || _); [|done]. unfold sanity_check at 1.
      destruct (_ || _); simpl; [apply IH | congruence].
    + destruct r as [[[[c1 c2] rtt] size] l2]. unfold sanity_check in Hr.
      destruct (_ =? _); simpl in Hr; congruence.
Qed.

(** A valid acknowledgement that wraps around is ignored when flow control
    has shrunk the capacity below the bytes it acknowledges. *)
Theorem SendWindow_wrapped_ack_ignored w total now g
    (Hinv : SendWindow_inv w) (Hlo : 0 < total <= sw_size w)
    (Hwrap : 4294967296 <= sw_send_base w + total)
    (Hcap : sw_capacity w < total)
    (Hcapwrap : 4294967296 <= sw_send_base w + sw_capacity w) :
  SendWindow_NewAckedPacket now (u32 (sw_send_base w + total)) w g =
    Ok (MkAckResult false false false (Some 0), w, g).
Proof.
  destruct Hinv as [Hb Hc Hl Hs Ht]. rewrite Hs in Hlo. unfold is_u32 in *.
  unfold SendWindow_NewAckedPacket.
  assert (u32 (sw_send_base w + total) = sw_send_base w + total - 4294967296) as -> by word_lia.
  assert (u32 (sw_send_base w + sw_capacity w) = sw_send_base w + sw_capacity w - 4294967296)
    as -> by word_lia.
  destruct (Z.leb_spec (sw_send_base w + total - 4294967296)
    (sw_send_base w + sw_capacity w - 4294967296)); [lia|].
  rewrite andb_false_r. destruct (Z.ltb_spec (sw_send_base w)
    (sw_send_base w + total - 4294967296)); [lia|]; simpl.
  destruct (Z.eqb_spec (sw_send_base w + total - 4294967296) (sw_send_base w)); [lia|done].
Qed.

(** *** Duplicate acknowledgements *)

(** [n] acknowledgements in a row of the current send base, with what each
    answered about retransmission. *)
Fixpoint repeat_dup_ack (n : nat) (now : Z) w (g : Z) : res (list bool * SendWindow * Z) :=
  match n with
  | O => Ok ([], w, g)
  | S n' =>
      '(r, w1, g1) ← SendWindow_NewAckedPacket now (sw_send_base w) w g;
      '(rs, w2, g2) ← repeat_dup_ack n' now w1 g1;
      Ok (re_transmit r :: rs, w2, g2)
  end.

Lemma NewAckedPacket_dup now w g :
  SendWindow_NewAckedPacket now (sw_send_base w) w g =
    (let dup := u32 (sw_duplicated_acks w + 1) in
     if g <=? dup then
       max_dup' ← scale_max_duplicated_acks g;
       Ok (MkAckResult false true true (Some 0), w <| sw_duplicated_acks := 0 |>, max_dup')
     else Ok (MkAckResult false true false (Some 0), w <| sw_duplicated_acks := dup |>, g)).
Proof. unfold SendWindow_NewAckedPacket. by rewrite Z.ltb_irrefl, Z.eqb_refl. Qed.

Lemma repeat_dup_ack_quiet n now w g :
  0 <= sw_duplicated_acks w → sw_duplicated_acks w + Z.of_nat n < g → g < 2147483648 →
  repeat_dup_ack n now w g =
    Ok (replicate n false, w <| sw_duplicated_acks := sw_duplicated_acks w + Z.of_nat n |>, g).
Proof.
  revert w. induction n as [|n IH]; intros w Hd Hn Hg; cbn [repeat_dup_ack].
  - rewrite Z.add_0_r. by destruct w.
  - rewrite NewAckedPacket_dup, u32_small by word_lia. cbv zeta.
    destruct (Z.leb_spec g (sw_duplicated_acks w + 1)); [lia|]. cbn [mbind res_bind].
    rewrite IH by (simpl; lia). simpl. rewrite <- Z.add_assoc.
    by replace (1 + Z.of_nat n) with (Z.of_nat (S n)) by lia.
Qed.

Lemma repeat_dup_ack_app n m now w g :
  repeat_dup_ack (n + m) now w g =
    ('(rs1, w1, g1) ← repeat_dup_ack n now w g;
     '(rs2, w2, g2) ← repeat_dup_ack m now w1 g1;
     Ok (rs1 ++ rs2, w2, g2)).
Proof.
  revert w g. induction n as [|n IH]; intros w g; simpl.
  - by destruct (repeat_dup_ack m now w g) as [[[? ?] ?]|].
  - destruct (SendWindow_NewAckedPacket now (sw_send_base w) w g) as [[[r w1] g1]|]; simpl; [|done].
    rewrite IH. destruct (repeat_dup_ack n now w1 g1) as [[[? ?] ?]|]; simpl; [|done].
    by destruct (repeat_dup_ack m now _ _) as [[[? ?] ?]|].
Qed.

(** Fast retransmission: with a tolerance of [g] and no duplicate counted
    yet, the first [g - 1] duplicate acknowledgements ask for nothing, the
    [g]-th asks for a retransmission, resets the counter and raises the
    tolerance by half, leaving the window as it was. *)
Theorem SendWindow_fast_retransmit w now g
    (Hd : sw_duplicated_acks w = 0) (Hg : 1 <= g < 2147483648) :
  repeat_dup_ack (Z.to_nat g) now w g =
    Ok (replicate (Z.to_nat g - 1) false ++ [true], w <| sw_duplicated_acks := 0 |>, 3 * g / 2).
Proof.
  replace (Z.to_nat g) with ((Z.to_nat g - 1) + 1)%nat at 1 by lia.
  rewrite repeat_dup_ack_app, repeat_dup_ack_quiet by lia.
  cbn [mbind res_bind repeat_dup_ack].
  rewrite NewAckedPacket_dup. simpl. rewrite u32_small by word_lia.
  destruct (Z.leb_spec g (sw_duplicated_acks w + Z.of_nat (Z.to_nat g - 1) + 1)); [|lia].
  unfold scale_max_duplicated_acks.
  assert (3 * g / 2 < 4294967296) as ->%Z.ltb_lt by (apply Z.div_lt_upper_bound; lia).
  done.
Qed.
End properties.

(** ** Concrete instances

    A window holding two packets of five bytes, as in [SendWindow_test.cc]. *)

#[local] Existing Instance simple_StopWatch.

Definition hello_pkt (seq : Z) : Packet :=
  Packet_of_string IPHeader_default (TcpHeader_default <| seq_num := seq |>)
    [104; 101; 108; 108; 111].

Definition hello_window (base cap : Z) : SendWindow :=
  SendWindow_enqueue 20 (hello_pkt (u32 (base + 5)))
    (SendWindow_enqueue 10 (hello_pkt base) (SendWindow_new base cap)).

Lemma hello_window_inv base cap : is_u32 base → is_u32 cap → SendWindow_inv (hello_window base cap).
Proof.
  intros Hb Hc. unfold hello_window. apply SendWindow_enqueue_inv; [|done|done..].
  apply SendWindow_enqueue_inv; [by apply SendWindow_new_inv| |done|done].
  unfold SendWindow_NextSeqNumberToSend; simpl. by rewrite Z.add_0_r, u32_small.
Qed.

Lemma hello_nodes base cap : ∃ n1 n2,
  sw_pkts_to_ack (hello_window base cap) = ([] ++ [n1]) ++ [n2] ∧
  swn_pkt n1 = hello_pkt base ∧ total_len (swn_pkt <$> ([] ++ [n1])) = 5.
Proof. by eexists _, _. Qed.

Lemma SendWindow_SendPacket_spec_witness : ∃ w', SendWindow_inv w' ∧ sw_size w' = 15.
Proof.
  destruct (SendWindow_SendPacket_spec 30 (hello_pkt 4) (hello_window 4294967290 65536))
    as (b & w' & Hs & Hinv & _); [by apply hello_window_inv | done | done |].
  exists w'. split; [done|]. vm_compute in Hs. by simplify_eq.
Defined.

Lemma SendWindow_cumulative_ack_witness : ∃ w',
  SendWindow_NewAckedPacket 50 5 (hello_window 0 65536) 3 =
    Ok (MkAckResult true false false (Some 40), w', 3) ∧ sw_size w' = 5.
Proof.
  destruct (SendWindow_cumulative_ack (hello_window 0 65536) []
    (MkSendWindowNode (hello_pkt 0) (StopWatch_Start 10 StopWatch_init) 0)
    [MkSendWindowNode (hello_pkt 5) (StopWatch_Start 20 StopWatch_init) 0] 50 3) as (w' & He & _ & _ & _ & Hs & _).
  - by apply hello_window_inv.
  - reflexivity.
  - by left.
  - exists w'. split; [exact He | exact Hs].
Defined.

Lemma SendWindow_ack_accepted_iff_witness :
  is_ok (SendWindow_NewAckedPacket 50 5 (hello_window 0 65536) 3) = true ↔
    expected_acks (hello_window 0 65536) 5.
Proof.
  apply (SendWindow_ack_accepted_iff (hello_window 0 65536) 5 50 3);
    [by apply hello_window_inv | done | done | done | done].
Defined.

Lemma SendWindow_stale_ack_faults_witness :
  SendWindow_NewAckedPacket 50 5 (hello_window 10 65536) 3 = Fault SanityCheckFailed.
Proof.
  apply (SendWindow_stale_ack_faults (hello_window 10 65536) 5 50 3);
    [by apply hello_window_inv | done | done | done].
Defined.

Lemma SendWindow_wrapped_ack_ignored_witness :
  SendWindow_NewAckedPacket 50 4 (hello_window 4294967290 7) 3 =
    Ok (MkAckResult false false false (Some 0), hello_window 4294967290 7, 3).
Proof.
  apply (SendWindow_wrapped_ack_ignored (hello_window 4294967290 7) 10 50 3);
    [by apply hello_window_inv | done | done | done | done].
Defined.

Lemma SendWindow_fast_retransmit_witness :
  repeat_dup_ack 3 50 (hello_window 0 65536) 3 =
    Ok ([false; false; true], hello_window 0 65536, 4).
Proof. apply (SendWindow_fast_retransmit (hello_window 0 65536) 50 3); done. Defined.
