(* ===== verification/RecvWindow.v ===== *)
(** * The receive window

    [RecvWindow.h] and [RecvWindow.cc]. The queue of out-of-order packets is a
    doubly linked list of nodes on the heap behind a dummy head; the nodes that
    are delivered are cut out of it and handed to the caller as a chain. The
    model keeps the heap, the aliasing and the order of the stores. A second,
    pure description of the window (a list of packets) is proved equivalent, and
    the properties of reassembly are proved on it. *)
From stdpp Require Import sorting.
From S2P Require Import Prelude Packet SendWindow.
Open Scope Z_scope.
Open Scope tcp_scope.

(** ** State *)

Definition loc := nat.

(** [RecvWindow::RecvWindowNode]; a null [shared_ptr] is [None]. *)
Record RecvWindowNode := MkRecvNode {
  rn_pkt : option Packet;
  rn_prev : option loc;
  rn_next : option loc;
}.

#[export] Instance set_rn_prev : Setter rn_prev := λ f n,
  MkRecvNode (rn_pkt n) (f (rn_prev n)) (rn_next n).
#[export] Instance set_rn_next : Setter rn_next := λ f n,
  MkRecvNode (rn_pkt n) (rn_prev n) (f (rn_next n)).

(** The nodes allocated so far, at the locations below [hp_next]. *)
Record node_heap := MkHeap {
  hp_cells : gmap loc RecvWindowNode;
  hp_next : loc;
}.

Definition heap_empty : node_heap := MkHeap ∅ 0%nat.
Definition heap_alloc (n : RecvWindowNode) (h : node_heap) : loc * node_heap :=
  (hp_next h, MkHeap (<[hp_next h := n]> (hp_cells h)) (S (hp_next h))).
Definition heap_load (h : node_heap) (l : loc) : res RecvWindowNode := deref (hp_cells h !! l).
Definition heap_store (l : loc) (f : RecvWindowNode → RecvWindowNode) (h : node_heap)
    : res node_heap :=
  n ← heap_load h l; Ok (MkHeap (<[l := f n]> (hp_cells h)) (hp_next h)).

Record RecvWindow := MkRecvWindow {
  rw_recv_base : Z;
  rw_capacity : Z;
  rw_head : loc;
}.

#[export] Instance set_rw_recv_base : Setter rw_recv_base := λ f w,
  MkRecvWindow (f (rw_recv_base w)) (rw_capacity w) (rw_head w).

(** ** Operations *)

(** [RecvWindow::RecvWindow(recv_base, capacity)] and [RecvWindow(recv_base)] *)
Definition RecvWindow_new (recv_base capacity : Z) (h : node_heap) : RecvWindow * node_heap :=
  let '(head, h) := heap_alloc (MkRecvNode None None None) h in
  (MkRecvWindow recv_base capacity head, h).
Definition RecvWindow_new_default (recv_base : Z) (h : node_heap) : RecvWindow * node_heap :=
  RecvWindow_new recv_base TcpWindow_kDefaultWindowSize h.

(** [RecvWindow::empty] *)
Definition RecvWindow_empty (w : RecvWindow) (h : node_heap) : res bool :=
  head ← heap_load h (rw_head w);
  Ok (match rn_next head with None => true | Some _ => false end).

(** The first loop of [ReceivePacket]: the node after which the new one goes. *)
Fixpoint RecvWindow_find (fuel : nat) (h : node_heap) (new_pkt_seq : Z) (node : loc) : res loc :=
  match fuel with
  | O => Fault OutOfFuel
  | S fuel =>
      nd ← heap_load h node;
      match rn_next nd with
      | None => Ok node
      | Some next =>
          nx ← heap_load h next;
          p ← deref (rn_pkt nx);
          let next_pkt_seq := pkt_seq p in
          let next_pkt_length := payload_size p in
          if next_pkt_seq <? new_pkt_seq then
            _ ← sanity_check (u32 (next_pkt_seq + next_pkt_length) <=? new_pkt_seq);
            RecvWindow_find fuel h new_pkt_seq next
          else Ok node
      end
  end.

(** The second loop: the last node of the run without a gap. *)
Fixpoint RecvWindow_run (fuel : nat) (h : node_heap) (node : loc) : res loc :=
  match fuel with
  | O => Fault OutOfFuel
  | S fuel =>
      nd ← heap_load h node;
      match rn_next nd with
      | None => Ok node
      | Some next =>
          p ← deref (rn_pkt nd);
          nx ← heap_load h next;
          q ← deref (rn_pkt nx);
          if u32 (pkt_seq p + payload_size p) =? pkt_seq q
          then RecvWindow_run fuel h next else Ok node
      end
  end.

(** [ReceivePacket], first part: the new node is allocated and linked in at its
    place. The result is its location and the heap. *)
Definition RecvWindow_link (new_pkt : Packet) (w : RecvWindow) (h : node_heap)
    : res (loc * node_heap) :=
  let '(new_node, h) := heap_alloc (MkRecvNode (Some new_pkt) None None) h in
  let new_pkt_seq := pkt_seq new_pkt in
  let new_pkt_length := payload_size new_pkt in
  node ← RecvWindow_find (S (hp_next h)) h new_pkt_seq (rw_head w);
  nd ← heap_load h node;
  h ← heap_store new_node (λ n, n <| rn_next := rn_next nd |>) h;
  h ← match rn_next nd with
      | None => Ok h
      | Some next =>
          h ← heap_store next (λ n, n <| rn_prev := Some new_node |>) h;
          nx ← heap_load h next;
          p ← deref (rn_pkt nx);
          _ ← sanity_check (u32 (new_pkt_seq + new_pkt_length) <=? pkt_seq p);
          Ok h
      end;
  h ← heap_store new_node (λ n, n <| rn_prev := Some node |>) h;
  h ← heap_store node (λ n, n <| rn_next := Some new_node |>) h;
  Ok (new_node, h).

(** [ReceivePacket], second part, for a packet in order: the run that starts at
    the new node is cut out of the queue, and [recv_base] moves behind it. *)
Definition RecvWindow_deliver (new_node : loc) (w : RecvWindow) (h : node_heap)
    : res (Z * option loc * RecvWindow * node_heap) :=
  hd ← heap_load h (rw_head w);
  _ ← sanity_check (bool_decide (rn_next hd = Some new_node));
  node ← RecvWindow_run (S (hp_next h)) h new_node;
  nd ← heap_load h node;
  h ← heap_store (rw_head w) (λ n, n <| rn_next := rn_next nd |>) h;
  h ← match rn_next nd with
      | None => Ok h
      | Some next => heap_store next (λ n, n <| rn_prev := Some (rw_head w) |>) h
      end;
  h ← heap_store new_node (λ n, n <| rn_prev := None |>) h;
  h ← heap_store node (λ n, n <| rn_next := None |>) h;
  nd ← heap_load h node;
  p ← deref (rn_pkt nd);
  let w := w <| rw_recv_base := u32 (pkt_seq p + payload_size p) |> in
  Ok (rw_recv_base w, Some new_node, w, h).

(** [RecvWindow::ReceivePacket]: the acknowledgement number, the chain to
    deliver, the window and the heap. *)
Definition RecvWindow_ReceivePacket (new_pkt : Packet) (w : RecvWindow) (h : node_heap)
    : res (Z * option loc * RecvWindow * node_heap) :=
  if pkt_seq new_pkt <? rw_recv_base w then Ok (rw_recv_base w, None, w, h)
  else
    '(new_node, h) ← RecvWindow_link new_pkt w h;
    if pkt_seq new_pkt =? rw_recv_base w then RecvWindow_deliver new_node w h
    else Ok (rw_recv_base w, None, w, h).

(** The walk of a caller over the chain it was handed, by [next]. *)
Fixpoint chain_packets (fuel : nat) (h : node_heap) (node : option loc) : res (list Packet) :=
  match node with
  | None => Ok []
  | Some l =>
      match fuel with
      | O => Fault OutOfFuel
      | S fuel =>
          nd ← heap_load h l;
          p ← deref (rn_pkt nd);
          rest ← chain_packets fuel h (rn_next nd);
          Ok (p :: rest)
      end
  end.

(** ** The pure window

    The queue as the list of its packets. *)

Record recv_state := MkRecv { rs_base : Z; rs_queue : list Packet }.

(** Where a packet goes in the queue. *)
Fixpoint recv_insert (p : Packet) (q : list Packet) : res (list Packet) :=
  match q with
  | [] => Ok [p]
  | x :: q' =>
      if pkt_seq x <? pkt_seq p then
        _ ← sanity_check (u32 (pkt_seq x + pkt_len x) <=? pkt_seq p);
        r ← recv_insert p q'; Ok (x :: r)
      else
        _ ← sanity_check (u32 (pkt_seq p + pkt_len p) <=? pkt_seq x);
        Ok (p :: x :: q')
  end.

(** The longest run without a gap from [p], its end, and the rest of the queue. *)
Fixpoint recv_run (p : Packet) (q : list Packet) : list Packet * Packet * list Packet :=
  match q with
  | [] => ([p], p, [])
  | x :: q' =>
      if u32 (pkt_seq p + pkt_len p) =? pkt_seq x then
        let '(run, lst, rest) := recv_run x q' in (p :: run, lst, rest)
      else ([p], p, q)
  end.

(** What [ReceivePacket] does: the acknowledgement, the packets delivered and
    the new state. A packet in order that does not come first in the queue
    fails a sanity check. *)
Definition recv_spec (p : Packet) (s : recv_state) : res (Z * list Packet * recv_state) :=
  if pkt_seq p <? rs_base s then Ok (rs_base s, [], s)
  else
    q ← recv_insert p (rs_queue s);
    if pkt_seq p =? rs_base s then
      match rs_queue s with
      | x :: _ => sanity_check (negb (pkt_seq x <? pkt_seq p))
      | [] => Ok tt
      end;;
      let '(run, lst, rest) := recv_run p (rs_queue s) in
      let base := u32 (pkt_seq lst + pkt_len lst) in
      Ok (base, run, MkRecv base rest)
    else Ok (rs_base s, [], MkRecv (rs_base s) q).

(** ** List segments on the heap

    A segment is the list of its locations and packets. [first_loc ns nxt] is
    where the pointer to the segment points, [nxt] being what follows it;
    [last_loc l ns] is the last node, starting from [l]. *)

Abbreviation cells := (gmap loc RecvWindowNode).

Definition first_loc (ns : list (loc * Packet)) (nxt : option loc) : option loc :=
  match ns with [] => nxt | (l, _) :: _ => Some l end.

Fixpoint last_loc (l : loc) (ns : list (loc * Packet)) : loc :=
  match ns with [] => l | (l', _) :: ns' => last_loc l' ns' end.

Fixpoint dseg (h : cells) (prev : loc) (ns : list (loc * Packet)) (nxt : option loc) : Prop :=
  match ns with
  | [] => True
  | (l, p) :: ns' =>
      h !! l = Some (MkRecvNode (Some p) (Some prev) (first_loc ns' nxt)) ∧ dseg h l ns' nxt
  end.

(** A leading node, the dummy head or the first node of a chain, and the
    segment behind it. *)
Definition lseg (h : cells) (l : loc) (pk : option Packet) (pv : option loc)
    (ns : list (loc * Packet)) (nxt : option loc) : Prop :=
  h !! l = Some (MkRecvNode pk pv (first_loc ns nxt)) ∧ dseg h l ns nxt.

Lemma first_loc_app a b nxt : first_loc (a ++ b) nxt = first_loc a (first_loc b nxt).
Proof. by destruct a as [|[]]. Qed.

Lemma last_loc_elem l ns : last_loc l ns ∈ l :: ns.*1.
Proof.
  revert l. induction ns as [|[l' p] ns IH]; intros l; csimpl; [set_solver|].
  specialize (IH l'). set_solver.
Qed.

Lemma dseg_app h prev a b nxt :
  dseg h prev (a ++ b) nxt ↔ dseg h prev a (first_loc b nxt) ∧ dseg h (last_loc prev a) b nxt.
Proof.
  revert prev. induction a as [|[l p] a IH]; intros prev; simpl; [tauto|].
  rewrite IH, first_loc_app. tauto.
Qed.

Lemma lseg_app h l pk pv a b nxt :
  lseg h l pk pv (a ++ b) nxt ↔ lseg h l pk pv a (first_loc b nxt) ∧ dseg h (last_loc l a) b nxt.
Proof. unfold lseg. rewrite dseg_app, first_loc_app. tauto. Qed.

Lemma lseg_cons h l pk pv l' p ns nxt :
  lseg h l pk pv ((l', p) :: ns) nxt ↔
  h !! l = Some (MkRecvNode pk pv (Some l')) ∧ lseg h l' (Some p) (Some l) ns nxt.
Proof. done. Qed.

Lemma dseg_frame h prev ns nxt l c : l ∉ ns.*1 → dseg h prev ns nxt → dseg (<[l:=c]> h) prev ns nxt.
Proof.
  revert prev. induction ns as [|[l' p] ns IH]; intros prev; csimpl; [done|].
  intros Hl [Hc Hd]. rewrite lookup_insert_ne by set_solver. split; [done|]. apply IH; set_solver.
Qed.

Lemma lseg_frame h l0 pk pv ns nxt l c :
  l ∉ l0 :: ns.*1 → lseg h l0 pk pv ns nxt → lseg (<[l:=c]> h) l0 pk pv ns nxt.
Proof.
  intros Hl [Hc Hd]. split; [by rewrite lookup_insert_ne by set_solver|].
  apply dseg_frame; set_solver.
Qed.

Lemma dseg_set_prev h prev prev' l p ns nxt : NoDup (l :: ns.*1) →
  dseg h prev ((l, p) :: ns) nxt →
  dseg (<[l := MkRecvNode (Some p) (Some prev') (first_loc ns nxt)]> h) prev' ((l, p) :: ns) nxt.
Proof.
  intros [Hl Hnd]%NoDup_cons [Hc Hd]. split; [by rewrite lookup_insert_eq|]. by apply dseg_frame.
Qed.

(** The last node of a segment, and what storing its [next] does. *)
Lemma lseg_set_next h l pk pv ns nxt nxt' : NoDup (l :: ns.*1) → lseg h l pk pv ns nxt →
  ∃ c, h !! last_loc l ns = Some c ∧ rn_next c = nxt ∧
    rn_pkt c = match last ns with Some x => Some x.2 | None => pk end ∧
    lseg (<[last_loc l ns := c <| rn_next := nxt' |>]> h) l pk pv ns nxt'.
Proof.
  revert l pk pv. induction ns as [|[l' p] ns IH]; intros l pk pv Hnd Hs.
  - destruct Hs as [Hc _]. exists (MkRecvNode pk pv nxt). simpl. split_and!; try done.
    split; [by rewrite lookup_insert_eq|done].
  - csimpl in Hnd. apply NoDup_cons in Hnd as [Hl Hnd]. apply lseg_cons in Hs as [Hc Hs].
    destruct (IH l' (Some p) (Some l) Hnd Hs) as (c & Hlast & Hn & Hp & Hs').
    exists c. split_and!; [done..| |].
    + rewrite Hp. destruct ns as [|y ns]; [done|]. rewrite last_cons_cons.
      destruct (last (y :: ns)) eqn:E; [done|]. by apply last_None in E.
    + simpl. apply lseg_cons. split; [|done].
      rewrite lookup_insert_ne; [exact Hc|]. intros <-. apply Hl, last_loc_elem.
Qed.

(** ** Representation *)

Record recv_rep (w : RecvWindow) (h : node_heap) (s : recv_state) (ns : list (loc * Packet))
    : Prop := {
  rr_base : rs_base s = rw_recv_base w;
  rr_queue : rs_queue s = ns.*2;
  rr_seg : lseg (hp_cells h) (rw_head w) None None ns None;
  rr_nodup : NoDup (rw_head w :: ns.*1);
  rr_alloc : Forall (λ l, (l < hp_next h)%nat) (rw_head w :: ns.*1);
}.

Definition RecvWindow_rep (w : RecvWindow) (h : node_heap) (s : recv_state) : Prop :=
  ∃ ns, recv_rep w h s ns.

(** What the caller was handed: a chain without predecessor or successor. *)
Definition chain_rep (h : node_heap) (o : option loc) (pkts : list Packet) : Prop :=
  match pkts, o with
  | [], None => True
  | p :: pkts', Some l => ∃ ns, lseg (hp_cells h) l (Some p) None ns None ∧ ns.*2 = pkts' ∧
      NoDup (l :: ns.*1) ∧ Forall (λ l, (l < hp_next h)%nat) (l :: ns.*1)
  | _, _ => False
  end.

Lemma alloc_bound (ls : list loc) n :
  NoDup ls → Forall (λ l, (l < n)%nat) ls → (length ls ≤ n)%nat.
Proof.
  intros Hnd Hb. rewrite <- (length_seq n 0). apply submseteq_length, NoDup_submseteq; [done|].
  intros l Hl. rewrite Forall_forall in Hb. apply elem_of_seq. specialize (Hb l Hl). lia.
Qed.

(** ** The loops *)

(** Where the first loop stops: in front of the first packet that does not
    start before the new one. It fails exactly when the pure insertion fails. *)
Lemma find_spec fuel h l pk pv ns p :
  lseg (hp_cells h) l pk pv ns None → (length ns < fuel)%nat →
  (RecvWindow_find fuel h (pkt_seq p) l = Fault SanityCheckFailed ∧
   recv_insert p ns.*2 = Fault SanityCheckFailed) ∨
  ∃ ns1 ns2, ns = ns1 ++ ns2 ∧ RecvWindow_find fuel h (pkt_seq p) l = Ok (last_loc l ns1) ∧
    Forall (λ x, (pkt_seq x.2 <? pkt_seq p) = true) ns1 ∧
    match ns2 with
    | [] => recv_insert p ns.*2 = Ok (ns1.*2 ++ [p])
    | (_, x) :: _ => (pkt_seq x <? pkt_seq p) = false ∧
        recv_insert p ns.*2 =
          (_ ← sanity_check (u32 (pkt_seq p + pkt_len p) <=? pkt_seq x);
           Ok (ns1.*2 ++ p :: ns2.*2))
    end.
Proof.
  revert l pk pv fuel. induction ns as [|[l' x] ns IH]; intros l pk pv [|fuel] Hs Hf;
    csimpl in *; try lia.
  - right. exists [], []. destruct Hs as [Hc _]. unfold heap_load. rewrite Hc. by simpl.
  - apply lseg_cons in Hs as [Hc Hs]. unfold heap_load. rewrite Hc; simpl.
    destruct Hs as [Hc' Hd']. rewrite Hc'; simpl. fold (pkt_len x).
    destruct (pkt_seq x <? pkt_seq p) eqn:Hlt; simpl.
    + destruct (_ <=? pkt_seq p) eqn:Hle; simpl; [|by left].
      destruct (IH l' (Some x) (Some l) fuel) as [[Hf1 ->]|(ns1 & ns2 & -> & Hf1 & Hall & Hins)];
        [done | lia | by left | right].
      exists ((l', x) :: ns1), ns2. split_and!; [done|done|by constructor|].
      destruct ns2 as [|[? y] ns2]; [by rewrite Hins|]. destruct Hins as [? ->].
      split; [done|]. by destruct (sanity_check _).
    + right. exists [], ((l', x) :: ns). by split_and!.
Qed.

Lemma run_spec fuel h l p pv ns :
  lseg (hp_cells h) l (Some p) pv ns None → (length ns < fuel)%nat →
  ∃ ns1 ns2, ns = ns1 ++ ns2 ∧ RecvWindow_run fuel h l = Ok (last_loc l ns1) ∧
    recv_run p ns.*2 =
      (p :: ns1.*2, match last ns1 with Some x => x.2 | None => p end, ns2.*2).
Proof.
  revert l p pv fuel. induction ns as [|[l' x] ns IH]; intros l p pv [|fuel] Hs Hf;
    csimpl in *; try lia.
  - exists [], []. destruct Hs as [Hc _]. unfold heap_load. rewrite Hc. by simpl.
  - apply lseg_cons in Hs as [Hc Hs]. unfold heap_load. rewrite Hc; simpl.
    destruct Hs as [Hc' Hd']. rewrite Hc'; simpl. fold (pkt_len p).
    destruct (_ =? pkt_seq x); simpl.
    + destruct (IH l' x (Some l) fuel) as (ns1 & ns2 & -> & Hr & Hrun); [done|lia|].
      exists ((l', x) :: ns1), ns2. split_and!; [done|done|]. rewrite Hrun; simpl.
      destruct ns1 as [|y ns1]; [done|]. rewrite last_cons_cons.
      destruct (last (y :: ns1)) eqn:E; [done|]. by apply last_None in E.
    + by exists [], ((l', x) :: ns).
Qed.

Lemma chain_packets_lseg fuel h l p pv ns :
  lseg (hp_cells h) l (Some p) pv ns None → (length ns < fuel)%nat →
  chain_packets fuel h (Some l) = Ok (p :: ns.*2).
Proof.
  revert l p pv fuel. induction ns as [|[l' x] ns IH]; intros l p pv [|fuel] Hs Hf;
    csimpl in *; try lia.
  - destruct Hs as [Hc _]. unfold heap_load. rewrite Hc. simpl. by destruct fuel.
  - apply lseg_cons in Hs as [Hc Hs]. unfold heap_load. rewrite Hc; simpl.
    by rewrite (IH l' x (Some l)) by (done || lia).
Qed.

(** The caller's walk visits exactly the delivered packets and ends. *)
Lemma chain_packets_rep h o pkts : chain_rep h o pkts →
  chain_packets (hp_next h) h o = Ok pkts.
Proof.
  destruct pkts as [|p pkts], o as [l|]; try done; [by destruct (hp_next h)|].
  intros (ns & Hs & <- & Hnd & Ha). eapply chain_packets_lseg; [exact Hs|].
  pose proof (alloc_bound _ _ Hnd Ha) as Hle. simpl in Hle. rewrite length_fmap in Hle. lia.
Qed.

(** ** The splice and the cut

    The stores that link the new node in, and those that unlink a run from the
    front, as equations on segments. *)

Lemma NoDup_cons_app {A} (l : A) a b : NoDup (l :: a ++ b) →
  NoDup (l :: a) ∧ NoDup b ∧ ∀ x, x ∈ b → x ∉ l :: a.
Proof.
  rewrite app_comm_cons, NoDup_app. intros (? & Hd & ?). split_and!; [done..|].
  intros x Hx Hx'. by apply (Hd x).
Qed.

Lemma lseg_splice h l pk pv ns1 ns2 new p :
  NoDup (l :: (ns1 ++ ns2).*1) → new ∉ l :: (ns1 ++ ns2).*1 →
  lseg h l pk pv (ns1 ++ ns2) None →
  ∃ c, h !! last_loc l ns1 = Some c ∧ rn_next c = first_loc ns2 None ∧
    lseg (<[last_loc l ns1 := c <| rn_next := Some new |>]>
           (<[new := MkRecvNode (Some p) (Some (last_loc l ns1)) (first_loc ns2 None)]>
             match ns2 with
             | [] => h
             | (l2, x) :: ns2' =>
                 <[l2 := MkRecvNode (Some x) (Some new) (first_loc ns2' None)]> h
             end)) l pk pv (ns1 ++ (new, p) :: ns2) None.
Proof.
  intros Hnd Hnew Hs. rewrite fmap_app in Hnd, Hnew.
  apply lseg_app in Hs as [Hs1 Hs2].
  apply NoDup_cons_app in Hnd as (Hnd1 & Hnd2 & Hdis).
  destruct (lseg_set_next _ _ _ _ _ _ (Some new) Hnd1 Hs1) as (c & Hc & Hn & _ & _).
  exists c. split_and!; [done..|].
  assert (new ≠ last_loc l ns1) as Hnl.
  { intros ->. apply Hnew. pose proof (last_loc_elem l ns1). set_solver. }
  apply lseg_app. split.
  - set (h' := <[new := _]> _).
    assert (lseg h' l pk pv ns1 (first_loc ns2 None)) as Hs1'.
    { subst h'. apply lseg_frame; [set_solver|]. destruct ns2 as [|[l2 x] ns2']; [done|].
      apply lseg_frame; [|done]. apply Hdis. csimpl. set_solver. }
    destruct (lseg_set_next _ _ _ _ _ _ (Some new) Hnd1 Hs1') as (c' & Hc' & _ & _ & Hset).
    assert (c' = c) as ->; [|exact Hset]. subst h'.
    rewrite lookup_insert_ne in Hc' by done.
    destruct ns2 as [|[l2 x] ns2']; [congruence|].
    rewrite lookup_insert_ne in Hc'; [congruence|]. intros ->.
    apply (Hdis (last_loc l ns1)); [csimpl; set_solver | apply last_loc_elem].
  - assert (∀ x, x ∈ ns2.*1 → x ≠ last_loc l ns1) as Hd2.
    { intros x Hx ->. eapply Hdis; [done|]. apply last_loc_elem. }
    split.
    + rewrite lookup_insert_ne by done. by rewrite lookup_insert_eq.
    + apply dseg_frame; [intros Hx; by apply (Hd2 _ Hx)|].
      apply dseg_frame; [set_solver|]. destruct ns2 as [|[l2 x] ns2']; [done|].
      by eapply dseg_set_prev.
Qed.

Lemma lseg_cut h hd new p b1 b2 :
  NoDup (hd :: new :: b1.*1 ++ b2.*1) →
  lseg h hd None None ((new, p) :: b1 ++ b2) None →
  ∃ nd c,
    h !! last_loc new b1 = Some nd ∧ rn_next nd = first_loc b2 None ∧
    let h2 := match b2 with
              | [] => <[hd := MkRecvNode None None (first_loc b2 None)]> h
              | (l2, x) :: b2' => <[l2 := MkRecvNode (Some x) (Some hd) (first_loc b2' None)]>
                                   (<[hd := MkRecvNode None None (first_loc b2 None)]> h)
              end in
    let h3 := <[new := MkRecvNode (Some p) None (first_loc (b1 ++ b2) None)]> h2 in
    h3 !! last_loc new b1 = Some c ∧
    rn_pkt c = Some (match last b1 with Some x => x.2 | None => p end) ∧
    let h4 := <[last_loc new b1 := c <| rn_next := None |>]> h3 in
    lseg h4 hd None None b2 None ∧ lseg h4 new (Some p) None b1 None.
Proof.
  intros Hnd [_ Hs]%lseg_cons. apply NoDup_cons in Hnd as [Hhd Hnd].
  apply NoDup_cons_app in Hnd as (Hnd1 & Hnd2 & Hdis).
  apply lseg_app in Hs as [Hs1 Hs2].
  destruct (lseg_set_next _ _ _ _ _ _ None Hnd1 Hs1) as (nd & Hnd & Hn & _).
  set (h1 := <[hd := MkRecvNode None None (first_loc b2 None)]> h).
  set (h2 := match b2 with [] => h1 | (l2, x) :: b2' =>
    <[l2 := MkRecvNode (Some x) (Some hd) (first_loc b2' None)]> h1 end).
  set (h3 := <[new := MkRecvNode (Some p) None (first_loc (b1 ++ b2) None)]> h2).
  assert (∀ x, x ∈ b2.*1 → x ≠ hd) as Hhd2 by set_solver.
  assert (lseg h3 new (Some p) None b1 (first_loc b2 None)) as Hs3.
  { split; [subst h3; by rewrite lookup_insert_eq, first_loc_app|].
    apply NoDup_cons in Hnd1 as [Hnew _]. apply dseg_frame; [done|]. subst h2.
    destruct b2 as [|[l2 x] b2'].
    - apply dseg_frame; [set_solver|]. apply Hs1.
    - apply dseg_frame; [set_solver|]. apply dseg_frame; [set_solver|]. apply Hs1. }
  destruct (lseg_set_next _ _ _ _ _ _ None Hnd1 Hs3) as (c & Hc & _ & Hp & Hs4).
  exists nd, c. split_and!; [done..|].
  replace (match b2 with [] => h1 | (l2, x) :: b2' => _ end) with h2 by by destruct b2.
  split; [done|]. split; [rewrite Hp; by destruct (last b1)|]. split; [|done].
  assert (∀ x, x ∈ b2.*1 → x ≠ last_loc new b1) as Hd2.
  { intros x Hx ->. eapply Hdis; [done|]. apply last_loc_elem. }
  assert (hd ≠ last_loc new b1 ∧ hd ≠ new) as [Hd3 Hd4].
  { split; [|set_solver]. pose proof (last_loc_elem new b1) as Hl. intros ->. set_solver. }
  split.
  - do 2 rewrite lookup_insert_ne by done. subst h2. destruct b2 as [|[l2 x] b2'].
    + subst h1. by rewrite lookup_insert_eq.
    + rewrite lookup_insert_ne; [subst h1; by rewrite lookup_insert_eq|].
      apply Hhd2. csimpl. set_solver.
  - apply dseg_frame; [intros Hx; by apply (Hd2 _ Hx)|]. apply dseg_frame; [set_solver|].
    subst h2. destruct b2 as [|[l2 x] b2']; [done|].
    eapply dseg_set_prev; [done|]. apply dseg_frame; [|done].
    intros Hx. by apply (Hhd2 _ Hx).
Qed.

(** ** Refinement *)

Lemma heap_store_eq l f h c : hp_cells h !! l = Some c →
  heap_store l f h = Ok (MkHeap (<[l := f c]> (hp_cells h)) (hp_next h)).
Proof. intros Hc. unfold heap_store, heap_load. by rewrite Hc. Qed.
Lemma heap_load_eq l h c : hp_cells h !! l = Some c → heap_load h l = Ok c.
Proof. intros Hc. unfold heap_load. by rewrite Hc. Qed.

(** The stores of [RecvWindow_link] once the place is found. *)
Lemma link_stores h hd ns1 ns2 new p :
  NoDup (hd :: (ns1 ++ ns2).*1) → new ∉ hd :: (ns1 ++ ns2).*1 →
  lseg (hp_cells h) hd None None (ns1 ++ ns2) None →
  hp_cells h !! new = Some (MkRecvNode (Some p) None None) →
  ∃ c m, heap_load h (last_loc hd ns1) = Ok c ∧ rn_next c = first_loc ns2 None ∧
    lseg m hd None None (ns1 ++ (new, p) :: ns2) None ∧
    (h ← heap_store new (λ n, n <| rn_next := first_loc ns2 None |>) h;
     h ← match first_loc ns2 None with
         | None => Ok h
         | Some next =>
             h ← heap_store next (λ n, n <| rn_prev := Some new |>) h;
             nx ← heap_load h next;
             q ← deref (rn_pkt nx);
             _ ← sanity_check (u32 (pkt_seq p + payload_size p) <=? pkt_seq q);
             Ok h
         end;
     h ← heap_store new (λ n, n <| rn_prev := Some (last_loc hd ns1) |>) h;
     h ← heap_store (last_loc hd ns1) (λ n, n <| rn_next := Some new |>) h;
     Ok (new, h)) =
    (_ ← match ns2 with
         | [] => Ok tt
         | (_, x) :: _ => sanity_check (u32 (pkt_seq p + payload_size p) <=? pkt_seq x)
         end;
     Ok (new, MkHeap m (hp_next h))).
Proof.
  intros Hnd Hnew Hs Hcell.
  set (m1 := <[new := MkRecvNode (Some p) None (first_loc ns2 None)]> (hp_cells h)).
  assert (lseg m1 hd None None (ns1 ++ ns2) None) as Hs1 by by apply lseg_frame.
  destruct (lseg_splice m1 hd None None ns1 ns2 new p Hnd Hnew Hs1) as (c & Hc & Hn & Hs').
  assert (new ≠ last_loc hd ns1) as Hnl.
  { intros ->. apply Hnew. pose proof (last_loc_elem hd ns1). rewrite fmap_app. set_solver. }
  exists c. eexists. split_and!; [|exact Hn|exact Hs'|].
  { apply heap_load_eq. subst m1. by rewrite lookup_insert_ne in Hc. }
  rewrite (heap_store_eq _ _ _ _ Hcell). cbn [mbind res_bind set set_rn_next rn_pkt rn_prev].
  fold m1. destruct ns2 as [|[l2 x] ns2']; cbn [first_loc mbind res_bind].
  - erewrite heap_store_eq by (simpl; subst m1; apply lookup_insert_eq).
    cbn [mbind res_bind]. erewrite heap_store_eq; [done|].
    simpl. by rewrite lookup_insert_ne.
  - apply lseg_app in Hs1 as [_ [Hl2 _]].
    rewrite fmap_app in Hnew, Hnd. csimpl in Hnew. apply NoDup_cons_app in Hnd as (_ & _ & Hdis).
    erewrite heap_store_eq by exact Hl2. cbn [mbind res_bind].
    erewrite heap_load_eq by (simpl; apply lookup_insert_eq). simpl.
    destruct (sanity_check _); simpl; [|done].
    erewrite heap_store_eq; last first.
    { simpl. rewrite lookup_insert_ne by set_solver. subst m1. apply lookup_insert_eq. }
    simpl. erewrite heap_store_eq; [done|]. simpl. rewrite (lookup_insert_ne _ new) by done.
    rewrite lookup_insert_ne; [exact Hc|]. intros ->. apply (Hdis (last_loc hd ns1)); [csimpl; set_solver | apply last_loc_elem].
Qed.

Lemma locs_insert_perm (hd new : loc) (p : Packet) ns1 ns2 :
  hd :: (ns1 ++ (new, p) :: ns2).*1 ≡ₚ new :: hd :: (ns1 ++ ns2).*1.
Proof. rewrite !fmap_app. csimpl. solve_Permutation. Qed.

Lemma RecvWindow_link_spec p w h s ns : recv_rep w h s ns →
  (RecvWindow_link p w h = Fault SanityCheckFailed ∧
   recv_insert p (rs_queue s) = Fault SanityCheckFailed) ∨
  ∃ ns1 ns2 h', ns = ns1 ++ ns2 ∧
    RecvWindow_link p w h = Ok (hp_next h, h') ∧
    recv_insert p (rs_queue s) = Ok (ns1.*2 ++ p :: ns2.*2) ∧
    recv_rep w h' (MkRecv (rs_base s) (ns1.*2 ++ p :: ns2.*2)) (ns1 ++ (hp_next h, p) :: ns2) ∧
    Forall (λ x, (pkt_seq x.2 <? pkt_seq p) = true) ns1 ∧
    match ns2 with [] => True | (_, x) :: _ => (pkt_seq x <? pkt_seq p) = false end.
Proof.
  intros [Hb Hq Hs Hnd Ha]. set (new := hp_next h). set (hd := rw_head w) in *.
  assert (new ∉ hd :: ns.*1) as Hnew.
  { intros Hin. rewrite Forall_forall in Ha. specialize (Ha _ Hin). subst new. lia. }
  unfold RecvWindow_link, heap_alloc. cbv beta iota zeta. cbn [hp_next]. fold new hd.
  set (c0 := MkRecvNode (Some p) None None). set (h0 := MkHeap (<[new:=c0]> (hp_cells h)) (S new)).
  assert (lseg (hp_cells h0) hd None None ns None) as Hs0 by by apply lseg_frame.
  pose proof (alloc_bound _ _ Hnd Ha) as Hlen. simpl in Hlen. rewrite length_fmap in Hlen.
  fold new in Hlen.
  destruct (find_spec (S (S new)) h0 hd None None ns p Hs0 ltac:(lia))
    as [[-> Hins]|(ns1 & ns2 & Hns & -> & Hall & Hns2)]; rewrite Hq; [by left|]. rewrite Hns in *.
  destruct (link_stores h0 hd ns1 ns2 new p Hnd Hnew Hs0 (lookup_insert_eq _ _ _))
    as (c & m & Hc & Hn & Hm & Hst).
  cbn [mbind res_bind] in Hst |- *. fold h0. rewrite Hc. cbn [mbind res_bind]. rewrite Hn, Hst.
  assert (recv_rep w (MkHeap m (S new)) (MkRecv (rs_base s) (ns1.*2 ++ p :: ns2.*2))
    (ns1 ++ (new, p) :: ns2)) as Hrep.
  { split; simpl; [done|by rewrite fmap_app|exact Hm| |].
    - rewrite locs_insert_perm. by apply NoDup_cons.
    - rewrite locs_insert_perm. constructor; [lia|].
      eapply Forall_impl; [exact Ha|]. simpl. subst new. lia. }
  destruct ns2 as [|[l2 x] ns2]; simpl.
  - right. exists ns1, [], (MkHeap m (S new)). by split_and!.
  - destruct Hns2 as [Hx ->]. fold (pkt_len p).
    destruct (sanity_check _) as [[]|f] eqn:Hsc; simpl; [right|left].
    + eexists ns1, _, (MkHeap m (S new)). by split_and!.
    + unfold sanity_check in Hsc. destruct (_ <=? _); by simplify_eq.
Qed.

(** The stores of [RecvWindow_deliver], from a heap that holds the run [b1] and
    the rest [b2]. *)
Lemma cut_stores h hd new p b1 b2 c nxt B (k : node_heap → res B) :
  NoDup (hd :: new :: b1.*1 ++ b2.*1) →
  lseg (hp_cells h) hd None None ((new, p) :: b1 ++ b2) None →
  nxt = first_loc b2 None →
  let m := <[new := MkRecvNode (Some p) None (first_loc (b1 ++ b2) None)]>
             match b2 with
             | [] => <[hd := MkRecvNode None None (first_loc b2 None)]> (hp_cells h)
             | (l2, x) :: b2' => <[l2 := MkRecvNode (Some x) (Some hd) (first_loc b2' None)]>
                                   (<[hd := MkRecvNode None None (first_loc b2 None)]> (hp_cells h))
             end in
  m !! last_loc new b1 = Some c →
  (h1 ← heap_store hd (λ n, n <| rn_next := nxt |>) h;
   h1 ← match nxt with
        | None => Ok h1
        | Some next => heap_store next (λ n, n <| rn_prev := Some hd |>) h1
        end;
   h1 ← heap_store new (λ n, n <| rn_prev := None |>) h1;
   h1 ← heap_store (last_loc new b1) (λ n, n <| rn_next := None |>) h1; k h1) =
  k (MkHeap (<[last_loc new b1 := c <| rn_next := None |>]> m) (hp_next h)).
Proof.
  intros Hnd Hs -> m Hc. apply NoDup_cons in Hnd as [Hhdn Hnd].
  apply NoDup_cons_app in Hnd as (_ & _ & Hdis).
  destruct (proj1 (lseg_cons _ _ _ _ _ _ _ _) Hs) as [Hhd Hs1].
  erewrite heap_store_eq by exact Hhd.
  cbn [mbind res_bind set set_rn_next rn_pkt rn_prev]. subst m.
  destruct b2 as [|[l2 x] b2']; cbn [first_loc mbind res_bind].
  - erewrite heap_store_eq by (simpl; rewrite lookup_insert_ne by set_solver; apply Hs1).
    cbn [mbind res_bind]. erewrite heap_store_eq; [done|exact Hc].
  - destruct (proj1 (lseg_app _ _ _ _ _ _ _) Hs1) as [_ [Hl2 _]]. csimpl in *.
    erewrite heap_store_eq; last first.
    { simpl. rewrite lookup_insert_ne; [exact Hl2 | set_solver]. }
    cbn [mbind res_bind]. erewrite heap_store_eq; last first.
    { simpl. rewrite !lookup_insert_ne; [apply Hs1 | set_solver..]. }
    cbn [mbind res_bind]. erewrite heap_store_eq; [done|exact Hc].
Qed.

Lemma RecvWindow_deliver_spec w h s new p ns :
  recv_rep w h s ((new, p) :: ns) →
  ∃ run lst rest h', recv_run p ns.*2 = (run, lst, rest) ∧
    let base := u32 (pkt_seq lst + pkt_len lst) in
    RecvWindow_deliver new w h = Ok (base, Some new, w <| rw_recv_base := base |>, h') ∧
    RecvWindow_rep (w <| rw_recv_base := base |>) h' (MkRecv base rest) ∧
    chain_rep h' (Some new) run.
Proof.
  intros [_ _ Hs Hnd Ha]. set (hd := rw_head w) in *. csimpl in Hnd.
  pose proof (alloc_bound _ _ Hnd Ha) as Hlen. simpl in Hlen. rewrite length_fmap in Hlen.
  destruct (proj1 (lseg_cons _ _ _ _ _ _ _ _) Hs) as [Hhd Hs1].
  destruct (run_spec (S (hp_next h)) h new p (Some hd) ns Hs1 ltac:(lia))
    as (b1 & b2 & -> & Hrun & Hspec). rewrite Hspec.
  rewrite fmap_app in Hnd. csimpl in Ha. rewrite fmap_app in Ha.
  destruct (lseg_cut (hp_cells h) hd new p b1 b2 Hnd Hs)
    as (nd & c & Hnd' & Hn & Hc & Hp & Hwin & Hchain).
  set (lst := match last b1 with Some x => x.2 | None => p end) in *.
  eexists _, _, _, (MkHeap _ (hp_next h)). split; [done|]. split; [|split].
  - unfold RecvWindow_deliver. fold hd. rewrite (heap_load_eq _ _ _ Hhd).
    cbn [mbind res_bind rn_next]. rewrite bool_decide_eq_true_2 by done.
    cbn [mbind res_bind sanity_check]. rewrite Hrun.
    cbn [mbind res_bind]. rewrite (heap_load_eq _ _ _ Hnd'). cbn [mbind res_bind].
    rewrite (cut_stores _ _ _ _ _ _ _ _ _ _ Hnd Hs Hn Hc).
    erewrite heap_load_eq by (simpl; apply lookup_insert_eq). simpl. by rewrite Hp.
  - exists b2. apply NoDup_cons in Hnd as [Hhdn Hnd]. apply NoDup_cons_app in Hnd as (_ & Hnd2 & _).
    split; [done..|exact Hwin| |].
    + apply NoDup_cons. split; [set_solver|done].
    + rewrite !Forall_cons, Forall_app in Ha. apply Forall_cons. tauto.
  - exists b1. apply NoDup_cons in Hnd as [_ Hnd]. apply NoDup_cons_app in Hnd as (Hnd1 & _ & _).
    rewrite !Forall_cons, Forall_app in Ha. split_and!; [exact Hchain|done..|].
    apply Forall_cons. tauto.
Qed.

(** A packet in order that is not first in the queue is refused. *)
Lemma RecvWindow_deliver_fault w h s new x p ns1 ns2 :
  recv_rep w h s (x :: ns1 ++ (new, p) :: ns2) →
  RecvWindow_deliver new w h = Fault SanityCheckFailed.
Proof.
  intros [_ _ [Hhd _] Hnd _]. unfold RecvWindow_deliver. rewrite (heap_load_eq _ _ _ Hhd).
  cbn [mbind res_bind rn_next]. destruct x as [l x]. rewrite bool_decide_eq_false_2; [done|].
  csimpl in *. intros [= ->]. rewrite fmap_app in Hnd. csimpl in Hnd.
  apply NoDup_cons in Hnd as [_ [Hn _]%NoDup_cons]. set_solver.
Qed.

Lemma RecvWindow_new_rep base cap h w h' :
  RecvWindow_new base cap h = (w, h') → RecvWindow_rep w h' (MkRecv base []).
Proof.
  intros [= <- <-]. exists []. split; simpl; [done..| | |].
  - split; simpl; [by rewrite lookup_insert_eq|done].
  - apply NoDup_singleton.
  - repeat constructor.
Qed.

(** What a call on the heap does, given what the pure window does. *)
Definition receive_refines (w : RecvWindow) (h : node_heap) (p : Packet)
    (r : res (Z * list Packet * recv_state)) : Prop :=
  match r with
  | Fault f => RecvWindow_ReceivePacket p w h = Fault f
  | Ok (ack, pkts, s') => ∃ chain w' h',
      RecvWindow_ReceivePacket p w h = Ok (ack, chain, w', h') ∧
      RecvWindow_rep w' h' s' ∧ chain_rep h' chain pkts
  end.

Lemma ReceivePacket_refines p w h s :
  RecvWindow_rep w h s → receive_refines w h p (recv_spec p s).
Proof.
  intros [ns Hrep]. pose proof Hrep as [Hb Hq _ _ _].
  unfold receive_refines, recv_spec, RecvWindow_ReceivePacket. rewrite Hb.
  destruct (pkt_seq p <? rw_recv_base w) eqn:Hlt.
  { exists None, w, h. split; [done|]. split; [|done].
    exists ns. by destruct s; simpl in *; subst. }
  destruct (RecvWindow_link_spec p w h s ns Hrep)
    as [[-> ->]|(ns1 & ns2 & h' & -> & -> & -> & Hrep' & Hall & Hns2)]; [done|].
  cbn [mbind res_bind]. destruct (pkt_seq p =? rw_recv_base w) eqn:Heq; last first.
  { exists None, w, h'. split; [done|]. split; [by eexists; rewrite <- Hb|done]. }
  rewrite Hq. destruct ns1 as [|[l x] ns1].
  - assert (match ns2.*2 with x :: _ => sanity_check (negb (pkt_seq x <? pkt_seq p)) | [] => Ok tt end
      = Ok tt) as Hsc by (destruct ns2 as [|[? y] ns2]; csimpl; [done | by rewrite Hns2]).
    simpl. rewrite Hsc. simpl. simpl in Hrep'.
    destruct (RecvWindow_deliver_spec _ _ _ _ _ _ Hrep')
      as (run & lst & rest & h2 & -> & -> & Hr & Hc).
    by eexists _, _, _.
  - csimpl. apply Forall_cons in Hall as [Hx _]. simpl in Hx. rewrite Hx. simpl.
    by eapply RecvWindow_deliver_fault.
Qed.

(** The only way a call fails. *)
Lemma recv_insert_fault p q f : recv_insert p q = Fault f → f = SanityCheckFailed.
Proof.
  induction q as [|x q IH]; simpl; [done|]. unfold sanity_check. repeat case_match; simpl; try congruence.
  destruct (recv_insert p q); simpl; [done|]. intros [= <-]. by apply IH.
Qed.

Lemma recv_spec_fault p s f : recv_spec p s = Fault f → f = SanityCheckFailed.
Proof.
  unfold recv_spec. case_match; [done|]. intros [?%recv_insert_fault|(q & _ & Hf)]%bind_Fault; [done|].
  case_match; [|done]. apply bind_Fault in Hf as [Hf|(u & _ & Hf)].
  - revert Hf. unfold sanity_check. repeat case_match; congruence.
  - by destruct (recv_run p (rs_queue s)) as [[? ?] ?].
Qed.

(** A chain that was handed out lies on the heap behind its first node. *)
Lemma delivered_chain p w h s ack l w' h' :
  RecvWindow_rep w h s → RecvWindow_ReceivePacket p w h = Ok (ack, Some l, w', h') →
  ∃ q ns, lseg (hp_cells h') l (Some q) None ns None ∧ NoDup (l :: ns.*1) ∧
    Forall (λ l, (l < hp_next h')%nat) (l :: ns.*1).
Proof.
  intros [ns Hrep] Hr. unfold RecvWindow_ReceivePacket in Hr. case_match; [done|].
  destruct (RecvWindow_link_spec p w h s ns Hrep)
    as [[Hl _]|(ns1 & ns2 & h1 & _ & Hl & _ & Hrep' & _)]; rewrite Hl in Hr; [done|].
  cbn [mbind res_bind] in Hr. case_match; [|done]. destruct ns1 as [|x ns1].
  - destruct (RecvWindow_deliver_spec _ _ _ _ _ _ Hrep')
      as (run & lst & rest & h2 & _ & Hd & _ & Hc). rewrite Hd in Hr. simplify_eq.
    destruct run as [|q run]; [done|]. destruct Hc as (ns' & ? & _ & ? & ?). eauto 10.
  - by rewrite (RecvWindow_deliver_fault _ _ _ _ _ _ _ _ Hrep') in Hr.
Qed.

(** ** Packets of a stream

    With the set [A] of the indices that arrived, [queued A i] says that packet
    [i] waits in the queue: it arrived, and some packet before it did not. *)

Definition queued (A : gset nat) (i : nat) : Prop :=
  i ∈ A ∧ Exists (λ j, j ∉ A) (seq 0 i).

#[export] Instance queued_dec A i : Decision (queued A i).
Proof. unfold queued. apply _. Defined.

Lemma queued_gap A i : queued A i ↔ i ∈ A ∧ ∃ j, (j < i)%nat ∧ j ∉ A.
Proof.
  unfold queued. rewrite Exists_exists. setoid_rewrite elem_of_seq. split.
  - intros (? & j & ? & ?). split; [done|]. exists j. split; [lia|done].
  - intros (? & j & ? & ?). split; [done|]. exists j. split; [lia|done].
Qed.

(** *** Streams

    A stream is a sequence of packets contiguous from [b] whose sequence
    numbers do not wrap around. *)

Section stream.
Context (b : Z) (st : list Packet).
Hypothesis Hb : 0 <= b.
Hypothesis Hst : contiguous b st.
Hypothesis Hmax : b + total_len st < 4294967296.

(** The sequence number at which packet [i] of the stream starts. *)
Definition spos (i : nat) : Z := b + total_len (take i st).

Lemma spos_S i p : st !! i = Some p → spos (S i) = spos i + pkt_len p.
Proof.
  intros Hi. unfold spos. rewrite (take_S_r _ _ _ Hi), total_len_app, total_len_cons, total_len_nil.
  lia.
Qed.

Lemma stream_lookup i p : st !! i = Some p →
  pkt_seq p = spos i ∧ 0 < pkt_len p ∧ 0 <= spos i ∧ spos i + pkt_len p < 4294967296.
Proof.
  intros Hi. pose proof Hst as Hs. rewrite <- (take_drop_middle _ _ _ Hi) in Hs.
  pose proof (contiguous_lookup _ _ _ _ Hs) as [Hseq Hlen].
  apply contiguous_app in Hs as [H1 (_ & _ & H2)].
  apply contiguous_total in H1, H2.
  assert (total_len st = total_len (take i st) + (pkt_len p + total_len (drop (S i) st))) as Htot.
  { by rewrite <- (take_drop_middle _ _ _ Hi) at 1; rewrite total_len_app, total_len_cons. }
  unfold spos in *. rewrite Hseq, u32_small by word_lia. lia.
Qed.

Lemma spos_lt i j p : st !! i = Some p → (i < j)%nat → spos i + pkt_len p <= spos j.
Proof.
  intros Hi Hij. rewrite <- (spos_S i p Hi). unfold spos.
  replace j with (S i + (j - S i))%nat by lia.
  rewrite <- (take_take_drop st (S i) (j - S i)), total_len_app.
  assert (0 <= total_len (take (j - S i) (drop (S i) st))); [|lia].
  pose proof Hst as Hs. rewrite <- (take_drop (S i) st) in Hs.
  apply contiguous_app in Hs as [_ Hs]. rewrite <- (take_drop (j - S i) (drop (S i) st)) in Hs.
  apply contiguous_app in Hs as [Hs _]. by apply contiguous_total in Hs.
Qed.

Lemma seq_compare i j p q : st !! i = Some p → st !! j = Some q →
  (pkt_seq p <? pkt_seq q) = bool_decide (i < j)%nat.
Proof.
  intros Hi Hj. destruct (stream_lookup i p Hi) as (-> & Hp & _), (stream_lookup j q Hj) as (-> & Hq & _).
  apply eq_true_iff_eq. rewrite bool_decide_eq_true, Z.ltb_lt. split.
  - intros Hlt. destruct (decide (i < j)%nat) as [|Hge]; [done|]. exfalso.
    destruct (decide (i = j)) as [->|]; [lia|].
    pose proof (spos_lt j i q Hj ltac:(lia)). lia.
  - intros Hlt. pose proof (spos_lt i j p Hi Hlt). lia.
Qed.

Lemma end_compare i j p q : st !! i = Some p → st !! j = Some q →
  (u32 (pkt_seq p + pkt_len p) <=? pkt_seq q) = bool_decide (i < j)%nat ∧
  (u32 (pkt_seq p + pkt_len p) =? pkt_seq q) = bool_decide (j = S i).
Proof.
  intros Hi Hj. destruct (stream_lookup i p Hi) as (-> & Hp & Hp0 & Hpm).
  destruct (stream_lookup j q Hj) as (-> & Hq & _).
  rewrite u32_small by word_lia. rewrite <- (spos_S i p Hi). split.
  - apply eq_true_iff_eq. rewrite bool_decide_eq_true, Z.leb_le. split; intros Hc.
    + destruct (decide (i < j)%nat) as [|]; [done|]. exfalso. rewrite (spos_S i p Hi) in Hc.
      destruct (decide (i = j)) as [->|]; [lia|]. pose proof (spos_lt j i q Hj ltac:(lia)). lia.
    + rewrite (spos_S i p Hi). by apply spos_lt.
  - apply eq_true_iff_eq. rewrite bool_decide_eq_true, Z.eqb_eq. split; [|by intros ->]. intros Hc.
    destruct (decide (j < S i)%nat) as [Hl|].
    { pose proof (spos_lt j (S i) q Hj Hl). lia. }
    destruct (decide (S i < j)%nat) as [Hl|]; [|lia].
    assert (is_Some (st !! S i)) as [r Hr].
    { apply lookup_lt_is_Some. apply lookup_lt_Some in Hj. lia. }
    pose proof (spos_lt (S i) j r Hr Hl). destruct (stream_lookup _ _ Hr) as (_ & ? & _). lia.
Qed.

(** *** Queues of stream packets, by their indices *)

Definition at_indices (js : list nat) (q : list Packet) : Prop :=
  Forall2 (λ j p, st !! j = Some p) js q.

Lemma recv_insert_dup i p js q :
  at_indices js q → StronglySorted Nat.lt js → st !! i = Some p → i ∈ js →
  recv_insert p q = Fault SanityCheckFailed.
Proof.
  intros Hq Hs Hi Hin. induction Hq as [|j x js q Hj Hq IH]; [set_solver|].
  apply StronglySorted_inv in Hs as [Hs Hall]. simpl.
  rewrite (seq_compare j i x p Hj Hi). apply elem_of_cons in Hin as [->|Hin].
  - rewrite bool_decide_eq_false_2 by lia.
    rewrite (proj1 (end_compare j j p x Hi Hj)), bool_decide_eq_false_2 by lia. done.
  - rewrite Forall_forall in Hall. specialize (Hall i Hin).
    rewrite bool_decide_eq_true_2 by done.
    rewrite (proj1 (end_compare j i x p Hj Hi)), bool_decide_eq_true_2 by done. simpl.
    by rewrite IH.
Qed.

Lemma recv_insert_new i p js q :
  at_indices js q → StronglySorted Nat.lt js → st !! i = Some p → i ∉ js →
  ∃ js' q', recv_insert p q = Ok q' ∧ at_indices js' q' ∧ StronglySorted Nat.lt js' ∧
    ∀ j, j ∈ js' ↔ j = i ∨ j ∈ js.
Proof.
  intros Hq Hs Hi. induction Hq as [|j x js q Hj Hq IH]; intros Hin.
  { exists [i], [p]. split_and!; [done | by repeat constructor | by repeat constructor | set_solver]. }
  apply StronglySorted_inv in Hs as [Hs Hall]. simpl. rewrite (seq_compare j i x p Hj Hi).
  apply not_elem_of_cons in Hin as [Hne Hin].
  destruct (bool_decide_reflect (j < i)%nat) as [Hlt|Hge].
  - rewrite (proj1 (end_compare j i x p Hj Hi)), bool_decide_eq_true_2 by done. simpl.
    destruct (IH Hs Hin) as (js' & q' & -> & Hq' & Hs' & Hel).
    exists (j :: js'), (x :: q'). split_and!; [done | by constructor | | set_solver].
    constructor; [done|]. rewrite Forall_forall in *. intros y [->|Hy]%Hel; auto.
  - rewrite (proj1 (end_compare i j p x Hi Hj)), bool_decide_eq_true_2 by lia. simpl.
    exists (i :: j :: js), (p :: x :: q). split_and!; [done | by repeat constructor | | set_solver].
    constructor; [by constructor|]. constructor; [lia|].
    eapply Forall_impl; [exact Hall|]. simpl. lia.
Qed.

Lemma recv_run_stream i p js q :
  at_indices js q → StronglySorted Nat.lt (i :: js) → st !! i = Some p →
  ∃ n js' run lst rest, recv_run p q = (run, lst, rest) ∧
    at_indices (seq i (S n)) run ∧ st !! (i + n)%nat = Some lst ∧
    js = seq (S i) n ++ js' ∧ at_indices js' rest ∧
    Forall (λ j, (S (i + n) < j)%nat) js'.
Proof.
  intros Hq. revert i p. induction Hq as [|j x js q Hj Hq IH]; intros i p Hs Hi; simpl.
  { exists 0%nat, [], [p], p, []. rewrite Nat.add_0_r. by repeat constructor. }
  apply StronglySorted_inv in Hs as [Hs Hall].
  rewrite (proj2 (end_compare i j p x Hi Hj)).
  destruct (bool_decide_reflect (j = S i)) as [->|Hne].
  - destruct (IH (S i) x Hs Hj) as (n & js' & run & lst & rest & -> & Hrun & Hl & -> & Hrest & Hgt).
    exists (S n), js', (p :: run), lst, rest. rewrite Nat.add_succ_r. split_and!; try done.
    by constructor.
  - exists 0%nat, (j :: js), [p], p, (x :: q). rewrite Nat.add_0_r.
    split_and!; [done | by repeat constructor | done | done | by constructor |].
    apply Forall_cons in Hall as [Hij Hall]. apply StronglySorted_inv in Hs as [_ Hs].
    constructor; [lia|]. eapply Forall_impl; [exact Hs|]. simpl. lia.
Qed.

Lemma at_indices_seq i n run : at_indices (seq i n) run → run = take n (drop i st).
Proof.
  revert i run. induction n as [|n IH]; intros i run Hr; simpl in Hr.
  - by apply Forall2_nil_inv_l in Hr as ->.
  - apply Forall2_cons_inv_l in Hr as (p & run' & Hp & Hr & ->).
    rewrite (drop_S _ _ _ Hp). simpl. f_equal. by apply IH.
Qed.

(** *** The state after a set of arrivals

    [A] holds the indices that arrived; the first missing one is [k]: everything
    before it was delivered, everything after it is queued. *)
Record recv_stream_inv (A : gset nat) (k : nat) (s : recv_state) : Prop := {
  rsi_k : (k <= length st)%nat;
  rsi_base : rs_base s = spos k;
  rsi_queue : ∃ js, at_indices js (rs_queue s) ∧ StronglySorted Nat.lt js ∧
    ∀ j, j ∈ js ↔ (k < j)%nat ∧ j ∈ A;
  rsi_missing : k ∉ A;
  rsi_before : ∀ j, (j < k)%nat → j ∈ A;
}.


Lemma recv_stream_fault A k s i p :
  recv_stream_inv A k s → st !! i = Some p → queued A i →
  recv_spec p s = Fault SanityCheckFailed.
Proof.
  intros [Hk Hbase (js & Hq & Hs & Hel) Hm Hbf] Hi (HiA & j & Hji & Hj)%queued_gap.
  assert (k < i)%nat as Hki.
  { destruct (decide (j < k)%nat) as [?%Hbf|]; [done|]. destruct (decide (i = k)) as [->|]; [done|lia]. }
  unfold recv_spec. rewrite Hbase. destruct (stream_lookup i p Hi) as (Hseq & _).
  assert (is_Some (st !! k)) as [r Hr].
  { apply lookup_lt_is_Some. apply lookup_lt_Some in Hi. lia. }
  pose proof (spos_lt k i r Hr Hki). destruct (stream_lookup k r Hr) as (_ & Hrl & _).
  destruct (Z.ltb_spec (pkt_seq p) (spos k)) as [|_]; [lia|].
  erewrite recv_insert_dup; [done|done|done|done|]. by apply Hel.
Qed.

Lemma recv_stream_deliver A k s p :
  recv_stream_inv A k s → st !! k = Some p →
  ∃ k' s', recv_spec p s = Ok (spos k', take (k' - k) (drop k st), s') ∧ (k < k')%nat ∧
    recv_stream_inv (A ∪ {[k]}) k' s'.
Proof.
  intros [Hk Hbase (js & Hq & Hs & Hel) Hm Hbf] Hi.
  destruct (stream_lookup k p Hi) as (Hseq & _). unfold recv_spec. rewrite Hbase, Hseq.
  rewrite Z.ltb_irrefl, Z.eqb_refl.
  destruct (recv_insert_new k p js (rs_queue s) Hq Hs Hi) as (? & q' & -> & _).
  { intros [? _]%Hel. lia. }
  cbn [mbind res_bind].
  assert (StronglySorted Nat.lt (k :: js)) as Hs'.
  { constructor; [done|]. apply Forall_forall. by intros j [? _]%Hel. }
  assert (match rs_queue s with
    | [] => Ok tt | x :: _ => sanity_check (negb (pkt_seq x <? spos k)) end = Ok tt) as ->.
  { rewrite <- Hseq. destruct Hq as [|j y js q Hj Hq]; [done|].
    rewrite (seq_compare j k y p Hj Hi), bool_decide_eq_false_2; [done|].
    assert (k < j)%nat; [|lia]. apply Hel. set_solver. }
  destruct (recv_run_stream k p js (rs_queue s) Hq Hs' Hi)
    as (n & js' & run & lst & rest & -> & Hrun & Hlst & -> & Hrest & Hgt).
  destruct (stream_lookup _ _ Hlst) as (Hls & Hll & ? & Hlm). cbn [mbind res_bind].
  apply at_indices_seq in Hrun as ->. exists (S (k + n)).
  rewrite Hls, u32_small, <- (spos_S _ _ Hlst) by word_lia.
  eexists. split; [|split]; [by replace (S (k + n) - k)%nat with (S n) by lia | lia |].
  rewrite Forall_forall in Hgt.
  split; simpl; [by apply lookup_lt_Some in Hlst | done | | |].
  - exists js'. split_and!; [done| |].
    + clear -Hs'. apply StronglySorted_inv in Hs' as [Hs' _]. by apply StronglySorted_app_1_r in Hs'.
    + intros j. split.
      * intros Hj. split; [by apply Hgt|]. apply elem_of_union_l, Hel. set_solver.
      * intros [Hkj [HjA|?%elem_of_singleton]%elem_of_union]; [|lia].
        assert (j ∈ seq (S k) n ++ js') as [Hj|Hj]%elem_of_app; [apply Hel; split; [lia|done]| |done].
        apply elem_of_seq in Hj. lia.
  - intros [HjA|?%elem_of_singleton]%elem_of_union; [|lia].
    assert (S (k + n) ∈ seq (S k) n ++ js') as [Hj|Hj]%elem_of_app; [apply Hel; split; [lia|done]| |].
    + apply elem_of_seq in Hj. lia.
    + specialize (Hgt _ Hj). lia.
  - intros j Hj. destruct (decide (j < k)%nat) as [?%Hbf|]; [set_solver|].
    destruct (decide (j = k)) as [->|]; [set_solver|]. apply elem_of_union_l, Hel.
    apply elem_of_app. left. apply elem_of_seq. lia.
Qed.

Lemma recv_stream_old A k s i p :
  recv_stream_inv A k s → st !! i = Some p → (i < k)%nat →
  recv_spec p s = Ok (spos k, [], s) ∧ recv_stream_inv (A ∪ {[i]}) k s.
Proof.
  intros [Hk Hbase (js & Hq & Hs & Hel) Hm Hbf] Hi Hik. split.
  - unfold recv_spec. rewrite Hbase. destruct (stream_lookup i p Hi) as (-> & Hl & _).
    pose proof (spos_lt i k p Hi Hik). by rewrite (proj2 (Z.ltb_lt _ _)) by lia.
  - assert (i ∈ A) by auto. replace (A ∪ {[i]}) with A by set_solver. split; eauto.
Qed.

Lemma recv_stream_ahead A k s i p :
  recv_stream_inv A k s → st !! i = Some p → (k < i)%nat → i ∉ A →
  ∃ s', recv_spec p s = Ok (spos k, [], s') ∧ recv_stream_inv (A ∪ {[i]}) k s'.
Proof.
  intros [Hk Hbase (js & Hq & Hs & Hel) Hm Hbf] Hi Hki HiA. unfold recv_spec. rewrite Hbase.
  destruct (stream_lookup i p Hi) as (Hseq & _).
  assert (is_Some (st !! k)) as [r Hr].
  { apply lookup_lt_is_Some. apply lookup_lt_Some in Hi. lia. }
  pose proof (spos_lt k i r Hr Hki). destruct (stream_lookup k r Hr) as (_ & Hrl & _).
  destruct (Z.ltb_spec (pkt_seq p) (spos k)) as [|_]; [lia|].
  destruct (recv_insert_new i p js (rs_queue s) Hq Hs Hi) as (js' & q' & -> & Hq' & Hs' & Hel').
  { by intros [_ ?]%Hel. }
  cbn [mbind res_bind]. destruct (Z.eqb_spec (pkt_seq p) (spos k)) as [|_]; [lia|].
  eexists. split; [done|]. split; simpl; [done|done| | |set_solver]; last first.
  { intros [?|?%elem_of_singleton]%elem_of_union; [done|lia]. }
  exists js'. split_and!; [done..|]. intros j. rewrite Hel', Hel, elem_of_union, elem_of_singleton.
  split; [intros [->|[? ?]]; auto | intros [? [?| ->]]; auto].
Qed.

(** One arrival: the acknowledgement is the start of the first missing packet,
    and the packets delivered are those between the old and the new one. *)
Lemma recv_stream_step A k s i p :
  recv_stream_inv A k s → st !! i = Some p → ¬ queued A i →
  ∃ k' s', recv_spec p s = Ok (spos k', take (k' - k) (drop k st), s') ∧ (k ≤ k')%nat ∧
    recv_stream_inv (A ∪ {[i]}) k' s'.
Proof.
  intros Hinv Hi Hnq. destruct (decide (i < k)%nat) as [Hlt|Hge].
  { exists k, s. rewrite Nat.sub_diag. by destruct (recv_stream_old _ _ _ _ _ Hinv Hi Hlt). }
  destruct (decide (i = k)) as [->|Hne].
  { destruct (recv_stream_deliver _ _ _ _ Hinv Hi) as (k' & s' & ? & ? & ?).
    exists k', s'. split_and!; [done|lia|done]. }
  destruct (recv_stream_ahead A k s i p) as (s' & ? & ?); [done|done|lia| |].
  { intros HiA. apply Hnq, queued_gap. split; [done|]. exists k. split; [lia|]. apply Hinv. }
  exists k, s'. by rewrite Nat.sub_diag.
Qed.

Lemma recv_stream_init : recv_stream_inv ∅ 0 (MkRecv b []).
Proof.
  split; simpl; [lia | unfold spos; rewrite take_0, total_len_nil; lia | | set_solver | lia].
  exists []. split_and!; [constructor | constructor | set_solver].
Qed.
End stream.

(** ** Runs of the window on the heap *)

(** A sequence of arrivals: the acknowledgements sent, the packets delivered (read
    by walking each chain), the window and the heap. *)
Fixpoint RecvWindow_receive_all (arrivals : list Packet) (w : RecvWindow) (h : node_heap)
    : res (list Z * list Packet * RecvWindow * node_heap) :=
  match arrivals with
  | [] => Ok ([], [], w, h)
  | p :: arrivals =>
      '(ack, chain, w, h) ← RecvWindow_ReceivePacket p w h;
      pkts ← chain_packets (hp_next h) h chain;
      '(acks, rest, w, h) ← RecvWindow_receive_all arrivals w h;
      Ok (ack :: acks, pkts ++ rest, w, h)
  end.

(** No packet arrives again while its first copy waits in the queue. *)
Fixpoint no_requeue (A : gset nat) (idxs : list nat) : Prop :=
  match idxs with
  | [] => True
  | i :: idxs => ¬ queued A i ∧ no_requeue (A ∪ {[i]}) idxs
  end.

(** The last acknowledgement of a run that sent some. *)
Definition last_ack (base : Z) (acks : list Z) : Z := default base (last acks).

Lemma last_ack_cons base a acks : last_ack base (a :: acks) = last_ack a acks.
Proof. unfold last_ack. rewrite last_cons. by destruct (last acks). Qed.

Section runs.
Context (b : Z) (st : list Packet).
Hypothesis Hb : 0 <= b.
Hypothesis Hst : contiguous b st.
Hypothesis Hmax : b + total_len st < 4294967296.

Lemma receive_all_stream A k s w h idxs arrivals :
  recv_stream_inv b st A k s → RecvWindow_rep w h s →
  Forall2 (λ i p, st !! i = Some p) idxs arrivals →
  (is_ok (RecvWindow_receive_all arrivals w h) = true ↔ no_requeue A idxs) ∧
  ∀ acks pkts w' h', RecvWindow_receive_all arrivals w h = Ok (acks, pkts, w', h') →
    ∃ k' s', (k ≤ k')%nat ∧ pkts = take (k' - k) (drop k st) ∧
      last_ack (spos b st k) acks = spos b st k' ∧
      recv_stream_inv b st (A ∪ list_to_set idxs) k' s' ∧ RecvWindow_rep w' h' s'.
Proof.
  intros Hinv Hrep Harr. revert A k s w h Hinv Hrep.
  induction Harr as [|i p idxs arrivals Hi Harr IH]; intros A k s w h Hinv Hrep; simpl.
  { split; [done|]. intros ???? [= <- <- <- <-]. exists k, s.
    rewrite Nat.sub_diag, (right_id_L ∅ _). by split_and!. }
  pose proof (ReceivePacket_refines p w h s Hrep) as Href. unfold receive_refines in Href.
  destruct (decide (queued A i)) as [Hqd|Hnq].
  - rewrite (recv_stream_fault b st Hb Hst Hmax A k s i p Hinv Hi Hqd) in Href. rewrite Href.
    simpl. split; [|done]. split; [done|]. by intros [Hn _].
  - destruct (recv_stream_step b st Hb Hst Hmax A k s i p Hinv Hi Hnq) as (k' & s' & Hr & Hkk & Hinv').
    rewrite Hr in Href. destruct Href as (chain & w1 & h1 & -> & Hrep1 & Hch%chain_packets_rep).
    cbn [mbind res_bind]. rewrite Hch. cbn [mbind res_bind].
    destruct (IH _ _ _ _ _ Hinv' Hrep1) as [Hok Hres].
    destruct (RecvWindow_receive_all arrivals w1 h1) as [[[[acks pkts] w'] h']|] eqn:Hrun.
    + cbn [mbind res_bind is_ok]. split; [split; [by intros; split; [|by apply Hok] | done]|].
      intros ???? [= <- <- <- <-]. destruct (Hres _ _ _ _ eq_refl) as (k2 & s2 & Hk2 & -> & Hl & Hinv2 & Hrep2).
      exists k2, s2. split; [lia|]. split.
      * replace (k2 - k)%nat with ((k' - k) + (k2 - k'))%nat by lia.
        rewrite <- take_take_drop, drop_drop. do 3 f_equal. lia.
      * rewrite last_ack_cons. split_and!; [done| |done]. simpl. by rewrite (assoc_L _).
    + cbn [mbind res_bind is_ok]. split; [|done]. split; [done|]. intros [_ Hc%Hok]. done.
Qed.
End runs.

(** ** Reference counts

    A node lives as long as a [shared_ptr] to it exists: one in a live node, or
    one of the roots outside the heap. [release_step] frees a node nobody
    points to. *)

Definition points_to (n : RecvWindowNode) (l : loc) : Prop :=
  rn_prev n = Some l ∨ rn_next n = Some l.

Inductive release_step (roots : list loc) : cells → cells → Prop :=
  | release_node m l : l ∉ roots → is_Some (m !! l) →
      (∀ l' n, m !! l' = Some n → ¬ points_to n l) →
      release_step roots m (delete l m).

Lemma linked_pair_stays roots m l1 l2 n1 n2 m' :
  m !! l1 = Some n1 → m !! l2 = Some n2 → rn_next n1 = Some l2 → rn_prev n2 = Some l1 →
  rtc (release_step roots) m m' → m' !! l1 = Some n1 ∧ m' !! l2 = Some n2.
Proof.
  intros H1 H2 Hn Hp. apply (rtc_invariant _ (λ m, m !! l1 = Some n1 ∧ m !! l2 = Some n2)); [|done].
  intros a a' [Ha1 Ha2] Hst. destruct Hst as [m0 l _ _ Hno].
  assert (l ≠ l1) by (intros ->; apply (Hno l2 n2 Ha2); by left).
  assert (l ≠ l2) by (intros ->; apply (Hno l1 n1 Ha1); by right).
  by rewrite !lookup_delete_ne.
Qed.

(** ** Properties *)

(** C15. [ReceivePacket] on the linked list does what the pure window says, for
    every packet and every represented window: it acknowledges the same number,
    hands out a chain that holds exactly the packets the pure window delivers,
    and leaves a heap that represents the new queue; its loops end; and it
    fails, with a failed sanity check and nothing else, when the pure window
    does. *)
Theorem RecvWindow_refines p w h s (Hrep : RecvWindow_rep w h s) :
  match recv_spec p s with
  | Fault f => f = SanityCheckFailed ∧ RecvWindow_ReceivePacket p w h = Fault f
  | Ok (ack, pkts, s') => ∃ chain w' h',
      RecvWindow_ReceivePacket p w h = Ok (ack, chain, w', h') ∧
      RecvWindow_rep w' h' s' ∧ chain_packets (hp_next h') h' chain = Ok pkts
  end.
Proof.
  pose proof (ReceivePacket_refines p w h s Hrep) as Href. unfold receive_refines in Href.
  destruct (recv_spec p s) as [[[ack pkts] s']|f] eqn:Hs.
  { destruct Href as (chain & w' & h' & ? & ? & ?%chain_packets_rep). eauto 10. }
  split; [|done].  by eapply recv_spec_fault.
Qed.

(** C14. Reassembly. The packets of a stream (contiguous, not wrapping around)
    arrive in any order, with losses and duplicates. The run ends without a
    failed sanity check exactly when no packet arrives again while its first
    copy still waits in the queue; then the packets delivered are the longest
    prefix of the stream all of whose packets arrived, in order, each once, and
    the last acknowledgement is the sequence number of the first missing one. *)
Theorem RecvWindow_reassembly b st idxs arrivals w h
    (Hb : 0 <= b) (Hst : contiguous b st) (Hmax : b + total_len st < 4294967296)
    (Hrep : RecvWindow_rep w h (MkRecv b []))
    (Harr : Forall2 (λ i p, st !! i = Some p) idxs arrivals) :
  (is_ok (RecvWindow_receive_all arrivals w h) = true ↔ no_requeue ∅ idxs) ∧
  ∀ acks pkts w' h', RecvWindow_receive_all arrivals w h = Ok (acks, pkts, w', h') →
    ∃ k, pkts = take k st ∧ last_ack b acks = b + total_len (take k st) ∧
      (∀ j, (j < k)%nat → j ∈ idxs) ∧ k ∉ idxs.
Proof.
  destruct (receive_all_stream b st Hb Hst Hmax ∅ 0 _ w h idxs arrivals
    (recv_stream_init b st Hb Hst Hmax) Hrep Harr) as [Hok Hres]. split; [done|].
  intros acks pkts w' h' Hrun.
  destruct (Hres _ _ _ _ Hrun) as (k & s & _ & -> & Hl & [_ _ _ Hm Hbf] & _).
  exists k. rewrite Nat.sub_0_r, drop_0. split; [done|].
  unfold spos in Hl. rewrite take_0, total_len_nil, Z.add_0_r in Hl. split; [done|].
  split; [intros j Hj; specialize (Hbf j Hj); set_solver | set_solver].
Qed.

(** A delivered chain of two packets or more is never freed: once the caller
    has dropped its pointer, with the head of the window as the only root, no
    sequence of releases frees its nodes. [next] and [prev] are both owning
    pointers. *)
Theorem RecvWindow_chain_leaks p w h s ack l w' h' p1 p2 pkts
    (Hrep : RecvWindow_rep w h s)
    (Hrecv : RecvWindow_ReceivePacket p w h = Ok (ack, Some l, w', h'))
    (Hchain : chain_packets (hp_next h') h' (Some l) = Ok (p1 :: p2 :: pkts)) :
  ∃ l2, l2 ≠ l ∧ ∀ m, rtc (release_step [rw_head w']) (hp_cells h') m →
    is_Some (m !! l) ∧ is_Some (m !! l2).
Proof.
  destruct (delivered_chain _ _ _ _ _ _ _ _ Hrep Hrecv) as (q & ns & Hs & Hnd & Ha).
  rewrite (chain_packets_lseg (hp_next h') h' l q None ns Hs) in Hchain; last first.
  { pose proof (alloc_bound _ _ Hnd Ha) as Hle. simpl in Hle. rewrite length_fmap in Hle. lia. }
  destruct ns as [|[l2 x] ns]; [done|]. apply NoDup_cons in Hnd as [Hl _].
  exists l2. split; [csimpl in Hl; set_solver|]. intros m Hm.
  destruct (proj1 (lseg_cons _ _ _ _ _ _ _ _) Hs) as [H1 [H2 _]].
  destruct (linked_pair_stays [rw_head w'] (hp_cells h') l l2 _ _ m H1 H2 eq_refl eq_refl Hm); eauto.
Qed.

(** ** Concrete instances *)

Definition hello_stream : list Packet := [hello_pkt 0; hello_pkt 5; hello_pkt 10].
Definition hello_recv : RecvWindow * node_heap := RecvWindow_new 0 65536 heap_empty.

Lemma hello_recv_rep : RecvWindow_rep hello_recv.1 hello_recv.2 (MkRecv 0 []).
Proof. by apply (RecvWindow_new_rep 0 65536 heap_empty). Qed.

Lemma RecvWindow_refines_witness : ∃ chain w' h',
  RecvWindow_ReceivePacket (hello_pkt 0) hello_recv.1 hello_recv.2 = Ok (5, chain, w', h') ∧
  chain_packets (hp_next h') h' chain = Ok [hello_pkt 0].
Proof.
  pose proof (RecvWindow_refines (hello_pkt 0) _ _ _ hello_recv_rep) as H.
  vm_compute recv_spec in H. destruct H as (chain & w' & h' & H1 & _ & H2). eauto.
Defined.

(** The second packet is lost at first and the third one arrives early. *)
Lemma RecvWindow_reassembly_witness :
  is_ok (RecvWindow_receive_all [hello_pkt 0; hello_pkt 10; hello_pkt 5; hello_pkt 0]
    hello_recv.1 hello_recv.2) = true.
Proof.
  apply (RecvWindow_reassembly 0 hello_stream [0; 2; 1; 0]%nat); [done|done|done|apply hello_recv_rep| |].
  - by repeat constructor.
  - cbn [no_requeue]. rewrite !queued_gap. set_solver by lia.
Defined.

(** Two packets delivered at once. *)
Lemma hello_early : ∃ w h,
  RecvWindow_ReceivePacket (hello_pkt 5) hello_recv.1 hello_recv.2 = Ok (0, None, w, h) ∧
  RecvWindow_rep w h (MkRecv 0 [hello_pkt 5]) ∧
  ∃ w' h', RecvWindow_ReceivePacket (hello_pkt 0) w h = Ok (10, Some 2%nat, w', h') ∧
    chain_packets (hp_next h') h' (Some 2%nat) = Ok [hello_pkt 0; hello_pkt 5] ∧
    rw_head w' = 0%nat.
Proof.
  pose proof (ReceivePacket_refines (hello_pkt 5) _ _ _ hello_recv_rep) as H.
  vm_compute recv_spec in H. destruct H as (chain & w' & h' & H1 & Hrep & _).
  vm_compute in H1. simplify_eq. eexists _, _. split; [reflexivity|]. split; [exact Hrep|].
  eexists _, _. split_and!; vm_compute; reflexivity.
Qed.

Lemma RecvWindow_chain_leaks_witness : ∃ h', (∃ l l2, l2 ≠ l ∧
  ∀ m, rtc (release_step [0%nat]) (hp_cells h') m → is_Some (m !! l) ∧ is_Some (m !! l2)).
Proof.
  destruct hello_early as (w & h & _ & Hrep & w' & h' & Hr & Hc & Hhd).
  destruct (RecvWindow_chain_leaks (hello_pkt 0) w h _ _ 2%nat w' h' _ _ [] Hrep Hr Hc)
    as (l2 & Hne & Hm).
  exists h', 2%nat, l2. split; [done|]. intros m Hrtc. apply Hm.
  rewrite Hhd. exact Hrtc.
Defined.
