(* ===== verification/Tcp.v ===== *)
(** * The TCP controller: state and packets

    [TcpController.h] and the parts of [TcpController.cc] every other part
    shares: constants, options, the state of a connection, the constructor, the
    packets a connection makes, the packet queue to the host, the state
    predicates and the teardown. The state is one record; the code's locks
    protect groups of its fields, and each method that holds them throughout is
    one function on the record. *)
From S2P Require Import Prelude Interfaces Packet Keys PacketQueue SendWindow RecvWindow.
Open Scope Z_scope.
Open Scope tcp_scope.

(** ** Constants *)

Definition kThreadPoolSize : Z := 9.
Definition kDefaultDataPacketSize : Z := 10.
Definition kInitialSSThresh : Z := 8 * kDefaultDataPacketSize.
Definition kDefaultWindowBase : Z := 0.
Definition kDefaultWindowSize : Z := 100.
Definition kDefaultSocketBufferSize : Z := 100.
Definition kInitialTimeout : Z := 500 * 1000 * 1000.
Definition kEnableCongestionControl : bool := false.

(** Durations are in nanoseconds. *)
Definition milliseconds (n : Z) : Z := n * 1000000.
Definition seconds (n : Z) : Z := n * 1000000000.

Record TcpControllerOptions := MkOptions {
  send_buffer_size : Z;
  send_window_base : Z;
  send_window_size : Z;
  recv_buffer_size : Z;
  recv_window_base : Z;
  recv_window_size : Z;
}.

#[export] Instance set_recv_window_base : Setter recv_window_base := λ f o,
  MkOptions (send_buffer_size o) (send_window_base o) (send_window_size o)
    (recv_buffer_size o) (f (recv_window_base o)) (recv_window_size o).
#[export] Instance set_send_window_size : Setter send_window_size := λ f o,
  MkOptions (send_buffer_size o) (send_window_base o) (f (send_window_size o))
    (recv_buffer_size o) (recv_window_base o) (recv_window_size o).

(** [TcpController::GetDefaultOptions] *)
Definition TcpController_GetDefaultOptions : TcpControllerOptions :=
  MkOptions kDefaultSocketBufferSize kDefaultWindowBase kDefaultWindowSize
    kDefaultSocketBufferSize kDefaultWindowBase kDefaultWindowSize.

(** [TcpController::TCP_STATE], [PipeState] and [CongestionControlState] *)
Inductive TCP_STATE :=
  | CLOSED | SYN_SENT | ESTABLISHED | LISTEN | SYN_RCVD | FIN_WAIT_1 | FIN_WAIT_2
  | TIME_WAIT | CLOSING | CLOSE_WAIT | LAST_ACK.

Inductive PipeState := OPEN | EOF_NOT_CONSUMED | EOF_CONSUMED.

Inductive CongestionControlState := SLOW_START | CONGESTION_AVOIDANCE | FAST_RECOVERY.

#[export] Instance TCP_STATE_eq_dec : EqDecision TCP_STATE.
Proof. solve_decision. Defined.
#[export] Instance PipeState_eq_dec : EqDecision PipeState.
Proof. solve_decision. Defined.
#[export] Instance CongestionControlState_eq_dec : EqDecision CongestionControlState.
Proof. solve_decision. Defined.

(** The tasks a connection gives its thread pool. *)
Inductive tcp_task :=
  | PacketReceiveBufferListener | PacketSendBufferListener | SendBufferListener
  | ReceiveBufferListener | SendFIN | SendRSTForClosedConnection.

Section Tcp.
Context `{!StopWatchOps, !TimerOps, !BufferOps}.

(** ** State

    [tc_socket], the pointer to the socket, is the id of the open file that holds
    the socket. [tc_recv_nodes] is the heap of the receive window's nodes; [tc_tasks] the
    tasks added to the pool; [tc_kill_threads] the number of detached threads
    that sleep for three seconds and call [CloseAndDelete]; [tc_deleting] says
    that [CloseAndDelete] has spawned the thread that tears down and deletes. *)
Record TcpController := MkTcp {
  tc_key : TcpControllerKey;
  tc_socket : Z;
  tc_tasks : list tcp_task;
  tc_pkt_recv_buffer : PacketQueue;
  tc_recv_window : RecvWindow;
  tc_recv_nodes : node_heap;
  tc_recv_buffer : Buffer;
  tc_pipe_state : PipeState;
  tc_overflow_pkts : list Packet;
  tc_send_buffer : Buffer;
  tc_send_window : SendWindow;
  tc_pkt_send_buffer : PacketQueue;
  tc_timer : Timer;
  tc_syn_timer : Timer;
  tc_fin_timer : Timer;
  tc_close_timer : Timer;
  tc_prober_timer : Timer;
  tc_state : TCP_STATE;
  tc_estimated_rtt : Z;
  tc_dev_rtt : Z;
  tc_timeout_interval : Z;
  tc_cc_state : CongestionControlState;
  tc_cwnd : Z;
  tc_ssthresh : Z;
  tc_shutdown : bool;
  tc_release_port : bool;
  tc_kill_threads : nat;
  tc_deleting : bool;
}.

Definition tcp_eta (t : TcpController) : TcpController :=
  MkTcp (tc_key t) (tc_socket t) (tc_tasks t) (tc_pkt_recv_buffer t) (tc_recv_window t) (tc_recv_nodes t)
    (tc_recv_buffer t) (tc_pipe_state t) (tc_overflow_pkts t) (tc_send_buffer t)
    (tc_send_window t) (tc_pkt_send_buffer t) (tc_timer t) (tc_syn_timer t) (tc_fin_timer t)
    (tc_close_timer t) (tc_prober_timer t) (tc_state t) (tc_estimated_rtt t) (tc_dev_rtt t)
    (tc_timeout_interval t) (tc_cc_state t) (tc_cwnd t) (tc_ssthresh t) (tc_shutdown t)
    (tc_release_port t) (tc_kill_threads t) (tc_deleting t).

#[export] Instance set_tc_tasks : Setter tc_tasks := ltac:(setter_of tcp_eta).
#[export] Instance set_tc_pkt_recv_buffer : Setter tc_pkt_recv_buffer := ltac:(setter_of tcp_eta).
#[export] Instance set_tc_recv_window : Setter tc_recv_window := ltac:(setter_of tcp_eta).
#[export] Instance set_tc_recv_nodes : Setter tc_recv_nodes := ltac:(setter_of tcp_eta).
#[export] Instance set_tc_recv_buffer : Setter tc_recv_buffer := ltac:(setter_of tcp_eta).
#[export] Instance set_tc_pipe_state : Setter tc_pipe_state := ltac:(setter_of tcp_eta).
#[export] Instance set_tc_overflow_pkts : Setter tc_overflow_pkts := ltac:(setter_of tcp_eta).
#[export] Instance set_tc_send_buffer : Setter tc_send_buffer := ltac:(setter_of tcp_eta).
#[export] Instance set_tc_send_window : Setter tc_send_window := ltac:(setter_of tcp_eta).
#[export] Instance set_tc_pkt_send_buffer : Setter tc_pkt_send_buffer := ltac:(setter_of tcp_eta).
#[export] Instance set_tc_timer : Setter tc_timer := ltac:(setter_of tcp_eta).
#[export] Instance set_tc_syn_timer : Setter tc_syn_timer := ltac:(setter_of tcp_eta).
#[export] Instance set_tc_fin_timer : Setter tc_fin_timer := ltac:(setter_of tcp_eta).
#[export] Instance set_tc_close_timer : Setter tc_close_timer := ltac:(setter_of tcp_eta).
#[export] Instance set_tc_prober_timer : Setter tc_prober_timer := ltac:(setter_of tcp_eta).
#[export] Instance set_tc_state : Setter tc_state := ltac:(setter_of tcp_eta).
#[export] Instance set_tc_estimated_rtt : Setter tc_estimated_rtt := ltac:(setter_of tcp_eta).
#[export] Instance set_tc_dev_rtt : Setter tc_dev_rtt := ltac:(setter_of tcp_eta).
#[export] Instance set_tc_timeout_interval : Setter tc_timeout_interval := ltac:(setter_of tcp_eta).
#[export] Instance set_tc_cc_state : Setter tc_cc_state := ltac:(setter_of tcp_eta).
#[export] Instance set_tc_cwnd : Setter tc_cwnd := ltac:(setter_of tcp_eta).
#[export] Instance set_tc_ssthresh : Setter tc_ssthresh := ltac:(setter_of tcp_eta).
#[export] Instance set_tc_shutdown : Setter tc_shutdown := ltac:(setter_of tcp_eta).
#[export] Instance set_tc_release_port : Setter tc_release_port := ltac:(setter_of tcp_eta).
#[export] Instance set_tc_kill_threads : Setter tc_kill_threads := ltac:(setter_of tcp_eta).
#[export] Instance set_tc_deleting : Setter tc_deleting := ltac:(setter_of tcp_eta).

Implicit Types t : TcpController.

(** [TcpController::TcpController]: the fields, the repeat flags of two timers
    and the four listeners given to the pool. The callbacks the timers are bound
    to ([TimeoutReTransmitter], [ProbeWindowSize], and [CloseAndDelete] for the
    other three) are the definitions of the same names. *)
Definition TcpController_new (socket : Z) (tcp_key : TcpControllerKey) (options : TcpControllerOptions)
    : TcpController :=
  let '(recv_window, nodes) :=
    RecvWindow_new (recv_window_base options) (recv_window_size options) heap_empty in
  MkTcp tcp_key socket
    [PacketReceiveBufferListener; PacketSendBufferListener; SendBufferListener;
     ReceiveBufferListener]
    PacketQueue_new recv_window nodes (Buffer_new (recv_buffer_size options)) OPEN []
    (Buffer_new (send_buffer_size options))
    (SendWindow_new (send_window_base options) (send_window_size options)) PacketQueue_new
    (Timer_SetRepeat true (Timer_new (milliseconds (5 * 100))))
    (Timer_new (seconds 2)) (Timer_new (seconds 30)) (Timer_new (seconds 30))
    (Timer_SetRepeat true (Timer_new (milliseconds (5 * 100))))
    CLOSED kInitialTimeout 0 kInitialTimeout SLOW_START kDefaultDataPacketSize
    kInitialSSThresh false false 0 false.

(** [thread_pool_.AddTask] *)
Definition TcpController_AddTask (k : tcp_task) t : TcpController :=
  t <| tc_tasks := tc_tasks t ++ [k] |>.

(** ** Packets *)

Definition TcpController_ip_header t : IPHeader :=
  IPHeader_default <| source_ip := key_source_ip (tc_key t) |>
                   <| dest_ip := key_dest_ip (tc_key t) |>.

(** The port fields of the key are [int32], those of the header [uint16]. *)
Definition TcpController_tcp_header t : TcpHeader :=
  TcpHeader_default <| source_port := u16 (key_source_port (tc_key t)) |>
                    <| dest_port := u16 (key_dest_port (tc_key t)) |>.

(** [MakeDataPacket(seq_num, data, size)] *)
Definition TcpController_MakeDataPacket (seq : Z) (data : option (list Z)) (size : Z) t : Packet :=
  let tcp_header := (TcpController_tcp_header t) <| seq_num := seq |> <| ack := false |> in
  Packet_of_bytes (TcpController_ip_header t) tcp_header data (i32 size).

(** [MakeDataPacket(seq_num, data_buffer, size)]; the buffer is the connection's
    send buffer wherever it is called. *)
Definition TcpController_MakeDataPacketFromBuffer (seq : Z) (data_buffer : Buffer) (size : Z) t
    : Packet * Buffer :=
  let tcp_header := (TcpController_tcp_header t) <| seq_num := seq |> <| ack := false |> in
  let pkt := Packet_new (TcpController_ip_header t) tcp_header in
  let '(_, pkt, data_buffer) := Packet_InjectPayloadFromBuffer pkt data_buffer size in
  (pkt, data_buffer).

(** [MakeAckPacket]: the window size is the free space cut to sixteen bits. *)
Definition TcpController_MakeAckPacket (ack_number : Z) t : Packet :=
  let tcp_header := (TcpController_tcp_header t) <| ack := true |> <| ack_num := ack_number |> in
  let tcp_header := tcp_header <| window_size := u16 (Buffer_free_space (tc_recv_buffer t)) |> in
  Packet_new (TcpController_ip_header t) tcp_header.

(** [MakeSyncPacket], [MakeFinPacket]: a payload size of one, and no payload. *)
Definition TcpController_MakeSyncPacket (seq : Z) t : Packet :=
  let tcp_header := (TcpController_tcp_header t) <| sync := true |> <| seq_num := seq |> in
  let tcp_header := tcp_header <| window_size := u16 (Buffer_free_space (tc_recv_buffer t)) |> in
  (Packet_new (TcpController_ip_header t) tcp_header) <| payload_size := 1 |>.

Definition TcpController_MakeFinPacket (seq : Z) t : Packet :=
  let tcp_header := (TcpController_tcp_header t) <| fin := true |> <| seq_num := seq |> in
  (Packet_new (TcpController_ip_header t) tcp_header) <| payload_size := 1 |>.

Definition TcpController_MakeRstPacket t : Packet :=
  let tcp_header := (TcpController_tcp_header t) <| rst := true |> in
  Packet_new (TcpController_ip_header t) tcp_header.

(** ** The queues towards the host *)

(** [TcpController::SendPacket]: nothing for a null pointer. *)
Definition TcpController_SendPacket (pkt : option Packet) t : TcpController :=
  match pkt with
  | None => t
  | Some pkt =>
      t <| tc_pkt_send_buffer := (PacketQueue_Push pkt (tc_pkt_send_buffer t)).2 |>
  end.

(** [TcpController::ReceiveNewPacket] *)
Definition TcpController_ReceiveNewPacket (packet : Packet) t : TcpController :=
  t <| tc_pkt_recv_buffer := (PacketQueue_Push packet (tc_pkt_recv_buffer t)).2 |>.

(** A round of [PacketSendBufferListener]: the packets handed to the host's
    [MultiplexPacketsFromTcp], or [None] when it blocks. *)
Definition TcpController_PacketSendBufferListener_round t
    : option (list Packet * TcpController) :=
  if tc_shutdown t then None
  else
    match PacketQueue_DeQueueAllTo [] true (tc_pkt_send_buffer t) with
    | None => None
    | Some (_, packets_to_send, q) => Some (packets_to_send, t <| tc_pkt_send_buffer := q |>)
    end.

(** ** State predicates *)

Definition InConnectingState (s : TCP_STATE) : bool :=
  match s with CLOSED | SYN_SENT | SYN_RCVD => true | _ => false end.

Definition InClosingState (s : TCP_STATE) : bool :=
  match s with FIN_WAIT_1 | FIN_WAIT_2 | TIME_WAIT | CLOSING | LAST_ACK => true | _ => false end.

(** [TcpStateStr(state)]: the code switches on the field, not on its argument,
    and has no case for [CLOSING]. *)
Definition TcpController_TcpStateStr (_ : TCP_STATE) t : string :=
  match tc_state t with
  | CLOSED => "CLOSED" | SYN_SENT => "SYN_SENT" | ESTABLISHED => "ESTABLISHED"
  | LISTEN => "LISTEN" | SYN_RCVD => "SYN_RCVD" | FIN_WAIT_1 => "FIN_WAIT_1"
  | FIN_WAIT_2 => "FIN_WAIT_2" | TIME_WAIT => "TIME_WAIT" | CLOSE_WAIT => "CLOSE_WAIT"
  | LAST_ACK => "LAST_ACK"
  | CLOSING => "UNKNOWN_TCP_STATE"
  end.

Definition TcpController_SetReleasePort (set_ : bool) t : TcpController :=
  t <| tc_release_port := set_ |>.

(** ** Teardown *)

(** [TcpController::CloseAndDelete], up to the thread it spawns: once. *)
Definition TcpController_CloseAndDelete t : TcpController :=
  if tc_shutdown t then t else t <| tc_shutdown := true |> <| tc_deleting := true |>.

(** [PacketQueue::Stop], up to its wait for the readers. *)
Definition PacketQueue_Stop_store (q : PacketQueue) : PacketQueue := q <| pq_destroy := true |>.

(** [TcpController::TearDown], when its waits have ended: the timers are stopped,
    the packet queues destroyed. The result is the port to give back to the
    host, if any; detaching the socket is the host's part of the state. *)
Definition TcpController_TearDown t : option Z * TcpController :=
  let t := t <| tc_timer := Timer_Stop (tc_timer t) |>
             <| tc_syn_timer := Timer_Stop (tc_syn_timer t) |>
             <| tc_fin_timer := Timer_Stop (tc_fin_timer t) |> in
  let t := t <| tc_syn_timer := Timer_Stop (tc_syn_timer t) |>
             <| tc_close_timer := Timer_Stop (tc_close_timer t) |>
             <| tc_prober_timer := Timer_Stop (tc_prober_timer t) |> in
  let t := t <| tc_pkt_recv_buffer := PacketQueue_Stop_store (tc_pkt_recv_buffer t) |>
             <| tc_pkt_send_buffer := PacketQueue_Stop_store (tc_pkt_send_buffer t) |> in
  (if tc_release_port t then Some (key_dest_port (tc_key t)) else None, t).

(** [TcpController::CurrentTimeOut] and [CurrentCWND] *)
Definition TcpController_CurrentTimeOut t : Z := tc_timeout_interval t.
Definition TcpController_CurrentCWND t : Z := tc_cwnd t.

(** [timer_.Restart(CurrentTimeOut())] *)
Definition TcpController_restart_timer t : TcpController :=
  t <| tc_timer := Timer_RestartWith (TcpController_CurrentTimeOut t) (tc_timer t) |>.
End Tcp.
