(* ===== verification/TcpRecv.v ===== *)
(** * The receive pipeline

    [TcpController.cc]: the delivery of packets from the receive window to the
    socket receive buffer, the overflow queue behind a full buffer, and
    [ReadData]. *)
From S2P Require Import Prelude Interfaces Packet Keys PacketQueue SendWindow RecvWindow Tcp.
Open Scope Z_scope.
Open Scope tcp_scope.

Section TcpRecv.
Context `{!StopWatchOps, !TimerOps, !BufferOps}.
Implicit Types t : TcpController.

(** ** Operations *)

(** [recv_buffer_.Write(pkt->payload(), pkt->payload_size())]: the number of
    bytes written, and the buffer. *)
Definition write_payload (pkt : Packet) (b : Buffer) : Z * Buffer :=
  Buffer_Write (packet_bytes pkt) b.

(** The loop of [PushOverflowedPacketsToSocketBuffer]: at most [n] packets from
    the front of the queue. *)
Fixpoint push_overflowed (n : nat) (pkts : list Packet) (b : Buffer) : list Packet * Buffer :=
  match n, pkts with
  | S n, pkt :: rest =>
      if payload_size pkt <=? Buffer_free_space b then
        let '(writen, b') := write_payload pkt b in
        if 0 <? writen then push_overflowed n rest b' else (pkts, b')
      else (pkts, b)
  | _, _ => (pkts, b)
  end.

(** [TcpController::PushOverflowedPacketsToSocketBuffer] *)
Definition TcpController_PushOverflowedPacketsToSocketBuffer t : TcpController :=
  let '(pkts, b) :=
    push_overflowed (length (tc_overflow_pkts t)) (tc_overflow_pkts t) (tc_recv_buffer t) in
  t <| tc_overflow_pkts := pkts |> <| tc_recv_buffer := b |>.

(** What [StreamDataToReceiveBuffer] does with a data packet: into the socket
    buffer when it fits, into the overflow queue otherwise. *)
Definition stream_one (pkt : Packet) t : TcpController :=
  if payload_size pkt <=? Buffer_free_space (tc_recv_buffer t) then
    let '(writen, b) := write_payload pkt (tc_recv_buffer t) in
    let t := t <| tc_recv_buffer := b |> in
    if writen <=? 0
    then t <| tc_overflow_pkts := tc_overflow_pkts t ++ [pkt] |> else t
  else t <| tc_overflow_pkts := tc_overflow_pkts t ++ [pkt] |>.

(** The loop of [StreamDataToReceiveBuffer]. The branch for a SYN segment
    continues without moving to the next node. *)
Fixpoint stream_loop (fuel : nat) (node : option loc) t : res TcpController :=
  match node with
  | None => Ok t
  | Some l =>
      match fuel with
      | O => Fault OutOfFuel
      | S fuel =>
          nd ← heap_load (tc_recv_nodes t) l;
          pkt ← deref (rn_pkt nd);
          if sync (tcp_header pkt) then stream_loop fuel node t
          else if fin (tcp_header pkt) then Ok (t <| tc_pipe_state := EOF_NOT_CONSUMED |>)
          else stream_loop fuel (rn_next nd) (stream_one pkt t)
      end
  end.

(** [TcpController::StreamDataToReceiveBuffer]; the fuel is the number of nodes
    ever allocated plus one. *)
Definition TcpController_StreamDataToReceiveBuffer (nodes : option loc) t : res TcpController :=
  let t := TcpController_PushOverflowedPacketsToSocketBuffer t in
  stream_loop (S (hp_next (tc_recv_nodes t))) nodes t.

(** A round of [ReceiveBufferListener]: [None] when the thread blocks or has
    ended. The wait is for a buffer that is not full, and for nothing else. *)
Definition ReceiveBufferListener_wait t : bool := negb (Buffer_full (tc_recv_buffer t)).

Definition TcpController_ReceiveBufferListener_round t : option TcpController :=
  if tc_shutdown t then None
  else if ReceiveBufferListener_wait t
  then Some (TcpController_PushOverflowedPacketsToSocketBuffer t)
  else None.

(** [TcpController::ReadData]: the value returned, the bytes stored and the
    state; [None] when the call blocks. *)
Definition ReadData_wait t : bool :=
  tc_shutdown t || bool_decide (tc_pipe_state t = EOF_NOT_CONSUMED) ||
  negb (Buffer_empty (tc_recv_buffer t)).

Definition TcpController_ReadData (size : Z) t : res (option (Z * list Z * TcpController)) :=
  if bool_decide (tc_pipe_state t = EOF_CONSUMED) then Fault LogFatal
  else if negb (ReadData_wait t) then Ok None
  else if tc_shutdown t then Ok (Some (-1, [], t))
  else if negb (bool_decide (tc_pipe_state t = EOF_NOT_CONSUMED)) && Buffer_empty (tc_recv_buffer t)
  then Ok (Some (-1, [], t))
  else if bool_decide (tc_pipe_state t = EOF_NOT_CONSUMED) && Buffer_empty (tc_recv_buffer t)
  then Ok (Some (0, [], t <| tc_pipe_state := EOF_CONSUMED |>))
  else
    let '(bytes, b) := Buffer_Read size (tc_recv_buffer t) in
    Ok (Some (i32 (Z.of_nat (length bytes)), bytes, t <| tc_recv_buffer := b |>)).

(** ** The chain as a list

    [stream_packets] is the loop on the list of the chain's packets. *)

Fixpoint stream_packets (pkts : list Packet) t : TcpController :=
  match pkts with
  | [] => t
  | pkt :: pkts =>
      if fin (tcp_header pkt) then t <| tc_pipe_state := EOF_NOT_CONSUMED |>
      else stream_packets pkts (stream_one pkt t)
  end.

Lemma stream_one_nodes pkt t : tc_recv_nodes (stream_one pkt t) = tc_recv_nodes t.
Proof. unfold stream_one. repeat case_match; done. Qed.

Lemma stream_loop_spec fuel l p pv ns t :
  lseg (hp_cells (tc_recv_nodes t)) l (Some p) pv ns None →
  Forall (λ q, is_sync q = false) (p :: ns.*2) → (length ns < fuel)%nat →
  stream_loop fuel (Some l) t = Ok (stream_packets (p :: ns.*2) t).
Proof.
  revert l p pv t fuel. induction ns as [|[l' q] ns IH]; intros l p pv t [|fuel] Hs Hsy Hf;
    csimpl in *; try lia; apply Forall_cons in Hsy as [Hp Hsy]; unfold is_sync in Hp.
  - destruct Hs as [Hc _]. unfold heap_load. rewrite Hc. simpl. rewrite Hp.
    destruct (fin (tcp_header p)); [done|]. by destruct fuel.
  - apply lseg_cons in Hs as [Hc Hs]. unfold heap_load. rewrite Hc. cbn [deref mbind res_bind rn_pkt].
    rewrite Hp. destruct (fin (tcp_header p)); [done|]. cbn [rn_next].
    rewrite (IH l' q (Some l)); [done| |done|lia]. by rewrite stream_one_nodes.
Qed.

Lemma push_overflowed_nodes t :
  tc_recv_nodes (TcpController_PushOverflowedPacketsToSocketBuffer t) = tc_recv_nodes t.
Proof. unfold TcpController_PushOverflowedPacketsToSocketBuffer. by case_match. Qed.

(** On a chain without SYN segments the loop ends, and does what the list says. *)
Lemma StreamData_chain nodes pkts t :
  chain_rep (tc_recv_nodes t) nodes pkts → Forall (λ q, is_sync q = false) pkts →
  TcpController_StreamDataToReceiveBuffer nodes t =
    Ok (stream_packets pkts (TcpController_PushOverflowedPacketsToSocketBuffer t)).
Proof.
  intros Hc Hsy. unfold TcpController_StreamDataToReceiveBuffer. rewrite push_overflowed_nodes.
  destruct pkts as [|p pkts], nodes as [l|]; try done.
  destruct Hc as (ns & Hs & <- & Hnd & Ha). eapply stream_loop_spec; [|done|].
  - rewrite push_overflowed_nodes. exact Hs.
  - pose proof (alloc_bound _ _ Hnd Ha) as Hle. simpl in Hle. rewrite length_fmap in Hle. lia.
Qed.

(** ** The buffer *)

Context (Buffer_bytes : Buffer → list Z) (Buffer_capacity : Buffer → Z).
Context `{!BufferLaws Buffer_bytes Buffer_capacity}.

Lemma write_fits p b :
  data_packet p → payload_size p <= Buffer_free_space b →
  ∃ b', write_payload p b = (payload_size p, b') ∧
    Buffer_bytes b' = Buffer_bytes b ++ packet_bytes p ∧
    Buffer_free_space b' = Buffer_free_space b - payload_size p.
Proof.
  intros [Hlen Hpos] Hfit. unfold write_payload.
  destruct (Buffer_Write (packet_bytes p) b) as [n b'] eqn:Hw.
  destruct (Buffer_Write_spec _ _ _ _ Hw) as (Hn & Hb & Hc).
  assert (n = payload_size p) as -> by lia. rewrite take_ge in Hb by lia.
  exists b'. split_and!; [done|done|]. rewrite !Buffer_free_space_spec, Hb, Hc, length_app. lia.
Qed.

Lemma stream_one_fits p t :
  data_packet p → payload_size p <= Buffer_free_space (tc_recv_buffer t) →
  ∃ b', stream_one p t = t <| tc_recv_buffer := b' |> ∧
    Buffer_bytes b' = Buffer_bytes (tc_recv_buffer t) ++ packet_bytes p ∧
    Buffer_free_space b' = Buffer_free_space (tc_recv_buffer t) - payload_size p.
Proof.
  intros Hp Hfit. destruct (write_fits p _ Hp Hfit) as (b' & Hw & Hb & Hf).
  exists b'. split_and!; [|done..]. unfold stream_one. rewrite (proj2 (Z.leb_le _ _) Hfit), Hw.
  destruct Hp as [_ Hpos]. by rewrite (proj2 (Z.leb_gt _ _) Hpos).
Qed.

Lemma stream_one_overflows p t :
  Buffer_free_space (tc_recv_buffer t) < payload_size p →
  stream_one p t = t <| tc_overflow_pkts := tc_overflow_pkts t ++ [p] |>.
Proof. intros Hp. unfold stream_one. by rewrite (proj2 (Z.leb_gt _ _) Hp). Qed.

Lemma push_overflowed_fits pkts b n :
  Forall data_packet pkts → total_len pkts <= Buffer_free_space b → (length pkts <= n)%nat →
  ∃ b', push_overflowed n pkts b = ([], b') ∧
    Buffer_bytes b' = Buffer_bytes b ++ (pkts ≫= packet_bytes) ∧
    Buffer_free_space b' = Buffer_free_space b - total_len pkts.
Proof.
  revert b n. induction pkts as [|p pkts IH]; intros b n Hd Hf Hn.
  { exists b. rewrite total_len_nil. csimpl. rewrite app_nil_r, Z.sub_0_r. by destruct n. }
  apply Forall_cons in Hd as [Hp Hd]. rewrite total_len_cons in *. unfold pkt_len in *.
  assert (0 <= total_len pkts) as Ht by by apply data_total_nonneg.
  destruct n as [|n]; simpl in Hn; [lia|].
  destruct (write_fits p b Hp ltac:(lia)) as (b1 & Hw & Hb1 & Hf1). simpl.
  rewrite (proj2 (Z.leb_le _ _)) by lia. rewrite Hw.
  destruct Hp as [_ Hpos]. rewrite (proj2 (Z.ltb_lt _ _) Hpos).
  destruct (IH b1 n Hd ltac:(lia) ltac:(lia)) as (b' & -> & Hb & Hf').
  exists b'. split_and!; [done| |lia]. by rewrite Hb, Hb1, <- app_assoc.
Qed.

(** The packets before the first FIN, and whether there is one. *)
Fixpoint before_fin (pkts : list Packet) : list Packet :=
  match pkts with
  | [] => []
  | p :: pkts => if is_fin p then [] else p :: before_fin pkts
  end.
Definition has_fin (pkts : list Packet) : bool := existsb is_fin pkts.

Lemma stream_packets_fits pkts t :
  Forall data_packet (before_fin pkts) →
  total_len (before_fin pkts) <= Buffer_free_space (tc_recv_buffer t) →
  ∃ b', stream_packets pkts t =
      (if has_fin pkts then t <| tc_recv_buffer := b' |> <| tc_pipe_state := EOF_NOT_CONSUMED |>
       else t <| tc_recv_buffer := b' |>) ∧
    Buffer_bytes b' = Buffer_bytes (tc_recv_buffer t) ++ (before_fin pkts ≫= packet_bytes) ∧
    Buffer_free_space b' = Buffer_free_space (tc_recv_buffer t) - total_len (before_fin pkts).
Proof.
  revert t. induction pkts as [|p pkts IH]; intros t; simpl.
  { intros _ _. exists (tc_recv_buffer t). rewrite app_nil_r, total_len_nil, Z.sub_0_r.
    by destruct t. }
  change (fin (tcp_header p)) with (is_fin p).
  destruct (is_fin p); simpl.
  { intros _ _. exists (tc_recv_buffer t). rewrite app_nil_r, total_len_nil, Z.sub_0_r.
    by destruct t. }
  intros [Hp Hd]%Forall_cons. rewrite total_len_cons. unfold pkt_len. intros Hf.
  assert (0 <= total_len (before_fin pkts)) as Ht by by apply data_total_nonneg.
  destruct (stream_one_fits p t Hp ltac:(lia)) as (b1 & -> & Hb1 & Hf1).
  destruct (IH (t <| tc_recv_buffer := b1 |>) Hd) as (b' & -> & Hb & Hf'); [simpl; lia|].
  exists b'. split_and!; [done | | simpl in *; lia].
  rewrite Hb. simpl. by rewrite Hb1, <- app_assoc.
Qed.

(** ** Properties *)

(** C20. When there is room for what is pending and for the new data, delivering a
    chain appends to the socket buffer, in order, the bytes that overflowed
    before, then the bytes of every packet before the first FIN, and nothing
    else; the overflow queue is empty afterwards, and the end of file is
    recorded exactly when the chain has a FIN. The loop ends. *)
Theorem StreamData_in_order nodes pkts t
    (Hchain : chain_rep (tc_recv_nodes t) nodes pkts)
    (Hsync : Forall (λ q, is_sync q = false) pkts)
    (Hdata : Forall data_packet (tc_overflow_pkts t ++ before_fin pkts))
    (Hroom : total_len (tc_overflow_pkts t) + total_len (before_fin pkts) <=
             Buffer_free_space (tc_recv_buffer t)) :
  ∃ t', TcpController_StreamDataToReceiveBuffer nodes t = Ok t' ∧
    Buffer_bytes (tc_recv_buffer t') = Buffer_bytes (tc_recv_buffer t) ++
      (tc_overflow_pkts t ≫= packet_bytes) ++ (before_fin pkts ≫= packet_bytes) ∧
    tc_overflow_pkts t' = [] ∧
    tc_pipe_state t' = if has_fin pkts then EOF_NOT_CONSUMED else tc_pipe_state t.
Proof.
  apply Forall_app in Hdata as [Ho Hd].
  assert (0 <= total_len (before_fin pkts)) as Ht by by apply data_total_nonneg.
  eexists. split; [by apply StreamData_chain|].
  unfold TcpController_PushOverflowedPacketsToSocketBuffer.
  destruct (push_overflowed_fits (tc_overflow_pkts t) (tc_recv_buffer t) _ Ho ltac:(lia) (le_n _))
    as (b & -> & Hb & Hf).
  destruct (stream_packets_fits pkts (t <| tc_overflow_pkts := [] |> <| tc_recv_buffer := b |>) Hd)
    as (b' & -> & Hb' & _); [simpl; lia|].
  destruct (has_fin pkts); simpl in *; by rewrite Hb', Hb, <- app_assoc.
Qed.

(** Delivery can reorder the stream: of two packets delivered together, the
    first of which does not fit the socket buffer while the second does, the
    second is written and the first waits in the overflow queue. *)
Theorem StreamData_reorders nodes p q t
    (Hchain : chain_rep (tc_recv_nodes t) nodes [p; q])
    (Hplain : Forall (λ x, is_sync x = false ∧ is_fin x = false) [p; q])
    (Hdata : Forall data_packet [p; q]) (Hover : tc_overflow_pkts t = [])
    (Hp : Buffer_free_space (tc_recv_buffer t) < payload_size p)
    (Hq : payload_size q <= Buffer_free_space (tc_recv_buffer t)) :
  ∃ t', TcpController_StreamDataToReceiveBuffer nodes t = Ok t' ∧
    Buffer_bytes (tc_recv_buffer t') = Buffer_bytes (tc_recv_buffer t) ++ packet_bytes q ∧
    tc_overflow_pkts t' = [p].
Proof.
  apply Forall_cons in Hplain as [[Hps Hpf] [[Hqs Hqf] _]%Forall_cons].
  eexists. split; [apply StreamData_chain; [done | by repeat constructor]|].
  unfold TcpController_PushOverflowedPacketsToSocketBuffer. rewrite Hover. simpl.
  unfold is_fin in *. rewrite Hpf, Hqf, (stream_one_overflows p) by (simpl; lia).
  apply Forall_cons in Hdata as [_ [Hdq _]%Forall_cons].
  match goal with |- context [stream_one q ?s] =>
    destruct (stream_one_fits q s Hdq Hq) as (b' & -> & Hb & _) end.
  by simpl in *.
Qed.

(** C40. A SYN segment in the delivered chain makes the delivery loop for ever: no
    amount of fuel ends it. The branch for it does not move to the next node. *)
Theorem StreamData_sync_diverges fuel l nd p t
    (Hnode : hp_cells (tc_recv_nodes t) !! l = Some nd)
    (Hpkt : rn_pkt nd = Some p) (Hsync : is_sync p = true) :
  stream_loop fuel (Some l) t = Fault OutOfFuel.
Proof.
  induction fuel as [|fuel IH]; [done|]. simpl. unfold heap_load in *. rewrite Hnode; simpl.
  rewrite Hpkt; simpl. unfold is_sync in Hsync. by rewrite Hsync.
Qed.

(** C30. [ReadData], on every branch: it blocks exactly when the connection is up,
    there is no data and no unread end of file; after the end of file was
    consumed it is fatal; on a connection shut down it returns -1; with data it
    returns a prefix of the buffer of at most [size] bytes, which it removes;
    without data it returns 0 once, at the end of file. *)
Theorem ReadData_spec size t (Hsize : 0 <= size < 2147483648) :
  match TcpController_ReadData size t with
  | Fault f => f = LogFatal ∧ tc_pipe_state t = EOF_CONSUMED
  | Ok None => tc_shutdown t = false ∧ tc_pipe_state t = OPEN ∧ Buffer_bytes (tc_recv_buffer t) = []
  | Ok (Some (r, bytes, t')) =>
      tc_pipe_state t ≠ EOF_CONSUMED ∧
      Buffer_bytes (tc_recv_buffer t) = bytes ++ Buffer_bytes (tc_recv_buffer t') ∧
      ((r = -1 ∧ tc_shutdown t = true ∧ t' = t) ∨
       (r = 0 ∧ bytes = [] ∧ tc_pipe_state t = EOF_NOT_CONSUMED ∧
        Buffer_bytes (tc_recv_buffer t) = [] ∧ tc_pipe_state t' = EOF_CONSUMED) ∨
       (r = Z.of_nat (length bytes) ∧ Buffer_bytes (tc_recv_buffer t) ≠ [] ∧
        bytes = take (Z.to_nat size) (Buffer_bytes (tc_recv_buffer t)) ∧
        tc_pipe_state t' = tc_pipe_state t))
  end.
Proof.
  unfold TcpController_ReadData, ReadData_wait.
  destruct (Buffer_empty (tc_recv_buffer t)) eqn:He.
  - apply Buffer_empty_spec in He. rewrite He.
    destruct (tc_pipe_state t) eqn:Hp, (tc_shutdown t) eqn:Hsh; simpl; split_and!; try done; eauto 10.
  - assert (Buffer_bytes (tc_recv_buffer t) ≠ []) as Hne.
    { intros Hc%Buffer_empty_spec. congruence. }
    destruct (Buffer_Read size (tc_recv_buffer t)) as [bytes b] eqn:Hr.
    destruct (Buffer_Read_spec _ _ _ _ (proj1 Hsize) Hr) as (Hby & Hb & _).
    assert (Z.of_nat (length bytes) < 2147483648) by (rewrite Hby, length_take; lia).
    destruct (tc_pipe_state t) eqn:Hp, (tc_shutdown t) eqn:Hsh; simpl; split_and!; try done;
      first [ by left | simpl; rewrite Hb, Hby; by rewrite take_drop
            | right; right; rewrite i32_small by word_lia; by split_and! ].
Qed.

(** C39. A reader can get the end of file before the data. When a packet and a FIN
    are delivered behind data that fills the buffer, so that the packet
    overflows, a read that drains the buffer and a second read before the
    overflow queue is pushed return the data of the first packet and then 0; the
    second packet is still queued, and every later read is fatal. *)
Theorem ReadData_premature_eof nodes p q f t size
    (Hchain : chain_rep (tc_recv_nodes t) nodes [p; q; f])
    (Hsync : Forall (λ x, is_sync x = false) [p; q; f])
    (Hfin : is_fin p = false ∧ is_fin q = false ∧ is_fin f = true)
    (Hdata : Forall data_packet [p; q])
    (Hfresh : tc_overflow_pkts t = [] ∧ Buffer_bytes (tc_recv_buffer t) = [] ∧
              tc_shutdown t = false ∧ tc_pipe_state t = OPEN)
    (Hp : payload_size p <= Buffer_free_space (tc_recv_buffer t))
    (Hq : Buffer_free_space (tc_recv_buffer t) < payload_size p + payload_size q)
    (Hsize : payload_size p <= size < 2147483648) :
  ∃ t1 t2 t3, TcpController_StreamDataToReceiveBuffer nodes t = Ok t1 ∧
    TcpController_ReadData size t1 = Ok (Some (payload_size p, packet_bytes p, t2)) ∧
    TcpController_ReadData size t2 = Ok (Some (0, [], t3)) ∧
    tc_overflow_pkts t3 = [q] ∧ TcpController_ReadData size t3 = Fault LogFatal.
Proof.
  destruct Hfin as (Hpf & Hqf & Hff), Hfresh as (Hov & Hemp & Hsh & Hop).
  apply Forall_cons in Hdata as [Hdp [Hdq _]%Forall_cons].
  assert (∃ b1, TcpController_StreamDataToReceiveBuffer nodes t = Ok (t <| tc_overflow_pkts := [q] |>
      <| tc_recv_buffer := b1 |> <| tc_pipe_state := EOF_NOT_CONSUMED |>) ∧
    Buffer_bytes b1 = packet_bytes p) as (b1 & -> & Hb1).
  { rewrite (StreamData_chain _ _ _ Hchain Hsync).
    unfold TcpController_PushOverflowedPacketsToSocketBuffer. rewrite Hov. simpl.
    unfold is_fin in *. rewrite Hpf, Hqf, Hff.
    match goal with |- context [stream_one p ?s] =>
      destruct (stream_one_fits p s Hdp Hp) as (b1 & -> & Hb & Hf) end. simpl in *.
    rewrite (stream_one_overflows q) by (simpl; lia). exists b1. split; [done|]. by rewrite Hb, Hemp. }
  destruct Hdp as [Hlen Hpos].
  assert (Buffer_empty b1 = false) as He.
  { apply not_true_iff_false. rewrite Buffer_empty_spec, Hb1. intros Hn. rewrite Hn in Hlen. simpl in *. lia. }
  destruct (Buffer_Read size b1) as [bytes b2] eqn:Hr.
  destruct (Buffer_Read_spec size b1 _ _ ltac:(lia) Hr) as (Hby & Hb2 & _).
  rewrite Hb1, take_ge in Hby by lia. rewrite Hb1, drop_ge in Hb2 by lia. subst bytes.
  assert (Buffer_empty b2 = true) as He2 by by apply Buffer_empty_spec.
  eexists _, _, _. split; [done|]. unfold TcpController_ReadData, ReadData_wait. simpl.
  rewrite He, Hsh, Hr. simpl. rewrite <- Hlen, i32_small by word_lia. split; [done|].
  simpl. rewrite He2. simpl. by rewrite Hsh.
Qed.
End TcpRecv.

(** ** Concrete instances *)

#[local] Existing Instance simple_StopWatch.
#[local] Existing Instance simple_Timer.
#[local] Existing Instance simple_Buffer.

Definition bytes_pkt (n : nat) : Packet :=
  Packet_of_string IPHeader_default TcpHeader_default (replicate n 7).
Definition fin_pkt : Packet :=
  (Packet_new IPHeader_default (TcpHeader_default <| fin := true |>)) <| payload_size := 1 |>.
Definition syn_pkt : Packet :=
  (Packet_new IPHeader_default (TcpHeader_default <| sync := true |>)) <| payload_size := 1 |>.

(** A chain of three nodes at the locations [0], [1] and [2]. *)
Definition three_nodes (p q r : Packet) : node_heap :=
  MkHeap (<[0%nat := MkRecvNode (Some p) None (Some 1%nat)]>
         (<[1%nat := MkRecvNode (Some q) (Some 0%nat) (Some 2%nat)]>
         (<[2%nat := MkRecvNode (Some r) (Some 1%nat) None]> ∅))) 3%nat.

Lemma three_nodes_chain p q r : chain_rep (three_nodes p q r) (Some 0%nat) [p; q; r].
Proof.
  exists [(1%nat, q); (2%nat, r)]. split_and!; [done | done | |by repeat constructor].
  repeat (apply NoDup_cons; split; [set_solver|]). constructor.
Qed.

Definition two_nodes (p q : Packet) : node_heap :=
  MkHeap (<[0%nat := MkRecvNode (Some p) None (Some 1%nat)]>
         (<[1%nat := MkRecvNode (Some q) (Some 0%nat) None]> ∅)) 2%nat.

Lemma two_nodes_chain p q : chain_rep (two_nodes p q) (Some 0%nat) [p; q].
Proof.
  exists [(1%nat, q)]. split_and!; [done | done | |by repeat constructor].
  repeat (apply NoDup_cons; split; [set_solver|]). constructor.
Qed.

(** A connection with a receive buffer of [cap] bytes and nodes [h]. *)
Definition recv_tcp (cap : Z) (h : node_heap) : TcpController :=
  (TcpController_new 0 TcpControllerKey_default (MkOptions 100 0 100 cap 0 100))
    <| tc_recv_nodes := h |>.

Lemma StreamData_in_order_witness : ∃ t',
  TcpController_StreamDataToReceiveBuffer (Some 0%nat)
    (recv_tcp 100 (three_nodes (bytes_pkt 2) (bytes_pkt 1) fin_pkt)) = Ok t' ∧
  lb_bytes (tc_recv_buffer t') = [7; 7; 7] ∧ tc_pipe_state t' = EOF_NOT_CONSUMED.
Proof.
  destruct (StreamData_in_order _ _ (Some 0%nat) [bytes_pkt 2; bytes_pkt 1; fin_pkt]
    (recv_tcp 100 (three_nodes (bytes_pkt 2) (bytes_pkt 1) fin_pkt))) as (t' & He & Hb & _ & Hp).
  - apply three_nodes_chain.
  - by repeat constructor.
  - by repeat constructor.
  - done.
  - exists t'. split; [exact He|]. rewrite Hb, Hp. done.
Defined.

Lemma StreamData_reorders_witness : ∃ t',
  TcpController_StreamDataToReceiveBuffer (Some 0%nat)
    (recv_tcp 4 (two_nodes (bytes_pkt 8) (bytes_pkt 3))) = Ok t' ∧
  lb_bytes (tc_recv_buffer t') = [7; 7; 7] ∧ tc_overflow_pkts t' = [bytes_pkt 8].
Proof.
  destruct (StreamData_reorders _ _ (Some 0%nat) (bytes_pkt 8) (bytes_pkt 3)
    (recv_tcp 4 (two_nodes (bytes_pkt 8) (bytes_pkt 3)))) as (t' & He & Hb & Ho).
  - apply two_nodes_chain.
  - by repeat constructor.
  - by repeat constructor.
  - done.
  - done.
  - done.
  - exists t'. split; [exact He|]. rewrite Hb, Ho. done.
Defined.

Lemma StreamData_sync_diverges_witness :
  stream_loop 1000 (Some 0%nat) (recv_tcp 4 (two_nodes syn_pkt (bytes_pkt 3))) = Fault OutOfFuel.
Proof.
  apply (StreamData_sync_diverges 1000 0%nat (MkRecvNode (Some syn_pkt) None (Some 1%nat)) syn_pkt);
    reflexivity.
Defined.

Lemma ReadData_spec_witness :
  match TcpController_ReadData 10 (recv_tcp 4 heap_empty) with
  | Ok None => tc_pipe_state (recv_tcp 4 heap_empty) = OPEN
  | _ => False
  end.
Proof.
  destruct (ReadData_spec _ _ 10 (recv_tcp 4 heap_empty)) as (_ & H & _); [done|].
  exact H.
Defined.

Lemma ReadData_premature_eof_witness : ∃ t3, tc_overflow_pkts t3 = [bytes_pkt 5] ∧
  TcpController_ReadData 20 t3 = Fault LogFatal.
Proof.
  destruct (ReadData_premature_eof _ _ (Some 0%nat) (bytes_pkt 8) (bytes_pkt 5) fin_pkt
    (recv_tcp 10 (three_nodes (bytes_pkt 8) (bytes_pkt 5) fin_pkt)) 20)
    as (t1 & t2 & t3 & _ & _ & _ & Ho & Hf).
  - apply three_nodes_chain.
  - by repeat constructor.
  - done.
  - by repeat constructor.
  - done.
  - done.
  - done.
  - done.
  - exists t3. split; [exact Ho | exact Hf].
Defined.
