(* ===== verification/TcpSend.v ===== *)
(** * The send pipeline

    [TcpController.cc]: [WriteData], the listener that cuts the send buffer into
    packets, the FIN segment, the window prober and the retransmission timer. *)
From S2P Require Import Prelude Interfaces Packet Keys PacketQueue SendWindow RecvWindow Tcp.
Open Scope Z_scope.
Open Scope tcp_scope.

Section TcpSend.
Context `{!StopWatchOps, !TimerOps, !BufferOps, !MinOps}.
Implicit Types t : TcpController.

(** ** Operations *)

(** [TcpController::WriteData]: [None] when the call blocks. *)
Definition WriteData_wait t : bool := tc_shutdown t || negb (Buffer_full (tc_send_buffer t)).

Definition TcpController_WriteData (buf : list Z) t : option (Z * TcpController) :=
  if InClosingState (tc_state t) then Some (-1, t)
  else if negb (WriteData_wait t) then None
  else if tc_shutdown t then Some (-1, t)
  else
    let '(writen, b) := Buffer_Write buf (tc_send_buffer t) in
    Some (i32 writen, t <| tc_send_buffer := b |>).

(** The waits of [SendBufferListener]: once for the connection, then in each
    round for the window and, with the window's lock released, for data. *)
Definition SendBufferListener_state_wait t : bool :=
  tc_shutdown t || negb (InConnectingState (tc_state t)).
Definition SendBufferListener_window_wait t : bool :=
  tc_shutdown t || (0 <? SendWindow_free_space (tc_send_window t)) ||
  ((sw_capacity (tc_send_window t) <=? 0) && negb (Timer_started (tc_prober_timer t))).
Definition SendBufferListener_buffer_wait t : bool :=
  tc_shutdown t || negb (Buffer_empty (tc_send_buffer t)).

(** One packet of [size] bytes: out of the send buffer, into the send window,
    and a copy to the packet queue. When the window refuses it, its bytes are
    out of the buffer all the same. *)
Definition send_data_packet (now : Z) (restart_timer : bool) (size : Z) t : res TcpController :=
  let '(new_data_pkt, b) :=
    TcpController_MakeDataPacketFromBuffer (SendWindow_NextSeqNumberToSend (tc_send_window t))
      (tc_send_buffer t) size t in
  let t := t <| tc_send_buffer := b |> in
  '(sent, w) ← SendWindow_SendPacket now new_data_pkt (tc_send_window t);
  let t := t <| tc_send_window := w |> in
  Ok (if negb sent then t
      else
        let t := TcpController_SendPacket (Some (Packet_Copy new_data_pkt)) t in
        if restart_timer then TcpController_restart_timer t else t).

(** The loop over the full packets. *)
Fixpoint send_full_packets (now : Z) (num_pkts : nat) t : res TcpController :=
  match num_pkts with
  | O => Ok t
  | S n =>
      t ← send_data_packet now (SendWindow_NumPacketsToAck (tc_send_window t) =? 0)
            kDefaultDataPacketSize t;
      send_full_packets now n t
  end.

(** A round of [SendBufferListener] after its waits, with both locks held. *)
Definition TcpController_SendBufferListener_round (now : Z) t : res TcpController :=
  let w := tc_send_window t in
  if (SendWindow_free_space w <=? 0) && (0 <? sw_capacity w) then Ok t
  else if sw_capacity w =? 0 then
    Ok (if negb (Timer_started (tc_prober_timer t))
        then t <| tc_prober_timer := Timer_Restart (tc_prober_timer t) |> else t)
  else
    let size_to_send := i32 (Utils_Min (SendWindow_free_space w) (Buffer_size (tc_send_buffer t))) in
    let num_pkts := u32 size_to_send / kDefaultDataPacketSize in
    let last_pkt_size := u32 size_to_send mod kDefaultDataPacketSize in
    t ← send_full_packets now (Z.to_nat num_pkts) t;
    if 0 <? last_pkt_size
    then send_data_packet now (sw_size (tc_send_window t) =? 0) last_pkt_size t
    else Ok t.

(** [TcpController::SendFIN]: [None] when it blocks. *)
Definition SendFIN_wait t : bool := tc_shutdown t || Buffer_empty (tc_send_buffer t).

Definition TcpController_SendFIN (now : Z) t : res (option TcpController) :=
  if tc_shutdown t then Ok (Some t)
  else if negb (SendFIN_wait t) then Ok None
  else
    let w := tc_send_window t in
    let w := w <| sw_capacity := u32 (sw_size w + 1) |> in
    let fin_pkt := TcpController_MakeFinPacket (SendWindow_NextSeqNumberToSend w) t in
    '(sent, w) ← SendWindow_SendPacket now fin_pkt w;
    let t := t <| tc_send_window := w |> in
    if negb sent then Fault LogFatal
    else
      let send t :=
        let t := TcpController_restart_timer
                   (TcpController_SendPacket (Some (Packet_Copy fin_pkt)) t) in
        Ok (Some (t <| tc_fin_timer := Timer_Restart (tc_fin_timer t) |>)) in
      match tc_state t with
      | ESTABLISHED => send (t <| tc_state := FIN_WAIT_1 |>)
      | CLOSE_WAIT => send (t <| tc_state := LAST_ACK |>)
      | _ => Ok (Some t)
      end.

(** [TcpController::ProbeWindowSize] *)
Definition TcpController_ProbeWindowSize t : TcpController :=
  if sw_capacity (tc_send_window t) =? 0 then
    let prober_pkt := TcpController_MakeDataPacket
      (SendWindow_NextSeqNumberToSend (tc_send_window t)) None 0 t in
    TcpController_SendPacket (Some (Packet_Copy prober_pkt)) t
  else t.

(** [TcpController::TimeoutReTransmitter] *)
Definition TcpController_TimeoutReTransmitter t : TcpController :=
  let t :=
    if 0 <? SendWindow_NumPacketsToAck (tc_send_window t) then
      let '(pkt, w) := SendWindow_GetBasePakcketToReSend (tc_send_window t) in
      TcpController_SendPacket pkt (t <| tc_send_window := w |>)
    else t in
  t <| tc_ssthresh := tc_cwnd t / 2 |> <| tc_cwnd := kDefaultDataPacketSize |>
    <| tc_cc_state := SLOW_START |>.

(** [TcpController::TryShutDown] and [TryClose] with [CloseConnection] *)
Definition TcpController_TryShutDown t : bool * TcpController :=
  if InClosingState (tc_state t) then (true, t)
  else (true, TcpController_AddTask SendFIN t).

Definition TcpController_CloseConnection t : TcpController :=
  TcpController_AddTask SendRSTForClosedConnection t.

Definition TcpController_TryClose t : bool * TcpController :=
  let '(_, t) := TcpController_TryShutDown t in
  (true, TcpController_CloseConnection t).

(** A round of [SendRSTForClosedConnection]: [None] when it blocks or ends. *)
Definition SendRST_wait t : bool := tc_shutdown t || negb (Buffer_empty (tc_recv_buffer t)).

Definition TcpController_SendRSTForClosedConnection_round t : option TcpController :=
  if tc_shutdown t then None
  else if negb (SendRST_wait t) then None
  else
    let t := t <| tc_recv_buffer := Buffer_Clear (tc_recv_buffer t) |> <| tc_state := CLOSED |> in
    let t := t <| tc_close_timer := Timer_Restart (tc_close_timer t) |> in
    Some (TcpController_SendPacket (Some (TcpController_MakeRstPacket t)) t).

(** ** Packets made from the send buffer *)

Context (Buffer_bytes : Buffer → list Z) (Buffer_capacity : Buffer → Z).
Context `{!BufferLaws Buffer_bytes Buffer_capacity, !MinLaws}.

(** A segment with data: no flag is set, and a copy is the packet itself. *)
Record plain_segment (p : Packet) : Prop := {
  pl_data : data_packet p;
  pl_sync : is_sync p = false;
  pl_fin : is_fin p = false;
  pl_ack : ack (tcp_header p) = false;
  pl_rst : rst (tcp_header p) = false;
  pl_copy : Packet_Copy p = p;
}.

(** While packets wait for an acknowledgement the retransmission timer runs. *)
Definition timer_inv t : Prop :=
  sw_packets (tc_send_window t) ≠ [] → Timer_started (tc_timer t) = true.

(** [t'] is [t] after [ps] went from the send buffer into the send window and,
    copied, to the packet queue; nothing else but the timer has changed. *)
Record sent_packets t (ps : list Packet) t' : Prop := {
  sent_frame : t' = t <| tc_send_buffer := tc_send_buffer t' |>
    <| tc_send_window := tc_send_window t' |> <| tc_pkt_send_buffer := tc_pkt_send_buffer t' |>
    <| tc_timer := tc_timer t' |>;
  sent_window : sw_packets (tc_send_window t') = sw_packets (tc_send_window t) ++ ps;
  sent_base : sw_send_base (tc_send_window t') = sw_send_base (tc_send_window t);
  sent_capacity : sw_capacity (tc_send_window t') = sw_capacity (tc_send_window t);
  sent_size : sw_size (tc_send_window t') = sw_size (tc_send_window t) + total_len ps;
  sent_inv : SendWindow_inv (tc_send_window t');
  sent_queue : tc_pkt_send_buffer t' = (tc_pkt_send_buffer t) <| pq_packets :=
    pq_packets (tc_pkt_send_buffer t) ++ ps |>;
  sent_space : Buffer_capacity (tc_send_buffer t') = Buffer_capacity (tc_send_buffer t);
  sent_bytes : Buffer_bytes (tc_send_buffer t) =
    (ps ≫= packet_bytes) ++ Buffer_bytes (tc_send_buffer t');
  sent_sizes : Forall (λ p, data_packet p ∧ payload_size p <= kDefaultDataPacketSize) ps;
  sent_plain : Forall plain_segment ps;
  sent_timer : TimerLaws → timer_inv t → timer_inv t';
  sent_wf : Forall packet_wf ps;
}.

Lemma sent_nil t : SendWindow_inv (tc_send_window t) → sent_packets t [] t.
Proof.
  intros Hinv. split; rewrite ?app_nil_r, ?total_len_nil, ?Z.add_0_r; try done.
  - by destruct t.
  - by destruct (tc_pkt_send_buffer t).
Qed.

Lemma sent_app t1 ps1 t2 ps2 t3 :
  sent_packets t1 ps1 t2 → sent_packets t2 ps2 t3 → sent_packets t1 (ps1 ++ ps2) t3.
Proof.
  intros [F1 W1 B1 C1 Z1 I1 Q1 E1 Y1 S1 P1 T1 X1] [F2 W2 B2 C2 Z2 I2 Q2 E2 Y2 S2 P2 T2 X2].
  split; try congruence; [..|by auto|by apply Forall_app].
  - clear -F1 F2. destruct t1, t2, t3; cbn in *.
    injection F1; injection F2; intros; subst; reflexivity.
  - by rewrite W2, W1, app_assoc.
  - rewrite Z2, Z1, total_len_app. lia.
  - rewrite Q2, Q1. simpl. by rewrite app_assoc.
  - by rewrite Y1, Y2, bind_app, app_assoc.
  - by apply Forall_app.
  - by apply Forall_app.
Qed.

Lemma Packet_Copy_made ip h bs n : n = Z.of_nat (length bs) → 0 < n < 2147483648 →
  Packet_Copy (MkPacket ip h (Some bs) n false) = MkPacket ip h (Some bs) n false.
Proof.
  intros Hn Hlt. unfold Packet_Copy; simpl. rewrite i32_small by word_lia.
  rewrite (proj2 (Z.leb_gt _ _)) by lia. simpl. rewrite u32_small, take_ge by word_lia. done.
Qed.

Lemma MakeDataPacketFromBuffer_eq seq b k t : 0 < k <= kDefaultDataPacketSize →
  k <= Buffer_size b → is_u32 seq →
  ∃ p b', TcpController_MakeDataPacketFromBuffer seq b k t = (p, b') ∧
    pkt_seq p = seq ∧ pkt_len p = k ∧ plain_segment p ∧ packet_wf p ∧
    Buffer_bytes b = packet_bytes p ++ Buffer_bytes b' ∧ Buffer_capacity b' = Buffer_capacity b.
Proof.
  intros Hk Hbuf Hseq. unfold kDefaultDataPacketSize in *. rewrite Buffer_size_spec in Hbuf.
  unfold TcpController_MakeDataPacketFromBuffer, Packet_InjectPayloadFromBuffer.
  rewrite (proj2 (Z.eqb_neq _ _)) by lia.
  destruct (Buffer_Read k b) as [data b'] eqn:Hr.
  destruct (Buffer_Read_spec k _ _ _ ltac:(lia) Hr) as (Hd & Hb & Hcap).
  assert (Z.of_nat (length data) = k) as Hlen by (rewrite Hd, length_take; lia).
  rewrite Hlen, (u32_small k) by word_lia.
  eexists _, _. split; [done|]. split_and!; [done|done| | | |done].
  - split; [|done..|apply Packet_Copy_made; lia]. unfold data_packet, packet_bytes; simpl.
    rewrite (take_ge data) by lia. lia.
  - split; simpl; [|lia|].
    + unfold tcp_header_wf; simpl. split_and!; try apply Hseq; word_lia.
    + intros bs [= <-]. lia.
  - unfold packet_bytes; simpl. rewrite (take_ge data) by lia. by rewrite Hb, Hd, take_drop.
Qed.

(** One packet that fits the window and the buffer. *)
Lemma send_data_packet_spec now restart k t :
  SendWindow_inv (tc_send_window t) → 0 < k <= kDefaultDataPacketSize →
  k <= SendWindow_free_space (tc_send_window t) → k <= Buffer_size (tc_send_buffer t) →
  (sw_packets (tc_send_window t) = [] → restart = true) →
  ∃ p t', send_data_packet now restart k t = Ok t' ∧ sent_packets t [p] t' ∧ pkt_len p = k.
Proof.
  intros Hinv Hk Hfree Hbuf Hrestart. unfold send_data_packet.
  destruct (MakeDataPacketFromBuffer_eq (SendWindow_NextSeqNumberToSend (tc_send_window t))
    (tc_send_buffer t) k t Hk Hbuf (u32_range _)) as (p & b' & -> & Hseq & Hlen & Hplain & Hwf & Hbytes & Hcap).
  destruct (Hplain) as [Hdata _ _ _ _ Hcopy].
  unfold kDefaultDataPacketSize in *. cbn [tc_send_window set set_tc_send_buffer].
  assert (has_room (tc_send_window t) p = true) as Hroom.
  { unfold has_room. apply orb_true_iff. right. apply Z.leb_le. unfold pkt_len in Hlen. lia. }
  assert (sw_size (tc_send_window t) + pkt_len p < 4294967296) as Hsum.
  { rewrite SendWindow_free_space_eq in Hfree by done. destruct Hinv as [_ Hc _ _ _].
    unfold is_u32 in *. lia. }
  rewrite (SendWindow_SendPacket_eq now p _ Hinv) by word_lia.
  rewrite Hroom, Hseq, Z.eqb_refl, Hcopy. cbn [mbind res_bind negb andb].
  exists p. eexists. split; [done|]. split; [|done].
  pose proof (SendWindow_enqueue_inv now p _ Hinv Hseq ltac:(lia) Hsum) as Hinv'.
  assert (0 <= sw_size (tc_send_window t)) as Hsz.
  { rewrite (swi_size _ Hinv). eapply contiguous_total, Hinv. }
  assert (u32 (sw_size (tc_send_window t) + payload_size p) =
    sw_size (tc_send_window t) + total_len [p]) as Hsize.
  { rewrite total_len_cons, total_len_nil. unfold pkt_len in *. rewrite u32_small; word_lia. }
  assert (Forall (λ p, data_packet p ∧ payload_size p <= kDefaultDataPacketSize) [p]) as Hsizes.
  { apply Forall_singleton. unfold pkt_len in Hlen. split; [done|]. unfold kDefaultDataPacketSize. lia. }
  destruct restart; (split; simpl; [done | by rewrite sw_packets_enqueue | done
    | done | done | done | done | done | by rewrite app_nil_r | done | by apply Forall_singleton | | by apply Forall_singleton]).
  - intros Hlaws _ _. simpl. apply Timer_RestartWith_started.
  - intros _ Ht _. simpl. apply Ht. intros He. by specialize (Hrestart He).
Qed.

Lemma sent_total t ps t' : sent_packets t ps t' → SendWindow_inv (tc_send_window t) →
  SendWindow_free_space (tc_send_window t') =
    Z.max 0 (sw_capacity (tc_send_window t) - sw_size (tc_send_window t) - total_len ps) ∧
  Buffer_size (tc_send_buffer t') = Buffer_size (tc_send_buffer t) - total_len ps.
Proof.
  intros [_ _ _ Hc Hs Hinv' _ _ Hy Hsz _ _] Hinv. split.
  - rewrite SendWindow_free_space_eq by done. rewrite Hc, Hs. lia.
  - rewrite !Buffer_size_spec, Hy, length_app, <- (bytes_total ps); [lia|].
    eapply Forall_impl; [exact Hsz|]. by intros p [? _].
Qed.

Lemma send_full_packets_spec now n t :
  SendWindow_inv (tc_send_window t) →
  kDefaultDataPacketSize * Z.of_nat n <= SendWindow_free_space (tc_send_window t) →
  kDefaultDataPacketSize * Z.of_nat n <= Buffer_size (tc_send_buffer t) →
  ∃ ps t', send_full_packets now n t = Ok t' ∧ sent_packets t ps t' ∧
    total_len ps = kDefaultDataPacketSize * Z.of_nat n.
Proof.
  unfold kDefaultDataPacketSize. revert t. induction n as [|n IH]; intros t Hinv Hf Hb; simpl.
  { exists [], t. split_and!; [done | by apply sent_nil | by rewrite total_len_nil]. }
  destruct (send_data_packet_spec now (SendWindow_NumPacketsToAck (tc_send_window t) =? 0)
    kDefaultDataPacketSize t Hinv) as (p & t1 & -> & Hs1 & Hl1); unfold kDefaultDataPacketSize in *;
    [lia..| |].
  { unfold SendWindow_NumPacketsToAck, sw_packets. by intros ->%fmap_nil_inv. }
  destruct (sent_total _ _ _ Hs1 Hinv) as [Hf1 Hb1].
  rewrite SendWindow_free_space_eq in Hf by done.
  rewrite total_len_cons, total_len_nil in Hf1, Hb1.
  destruct (IH t1) as (ps & t2 & Hr & Hs2 & Hl2); [apply Hs1 | lia | lia |].
  exists (p :: ps), t2. cbn [mbind res_bind]. split_and!; [done | by eapply (sent_app t [p]) |].
  rewrite total_len_cons. lia.
Qed.

Lemma SendBufferListener_round_spec now t
    (Hinv : SendWindow_inv (tc_send_window t)) (Hcap : 0 < sw_capacity (tc_send_window t))
    (Hbuf : Buffer_size (tc_send_buffer t) < 2147483648) :
  ∃ ps t', TcpController_SendBufferListener_round now t = Ok t' ∧ sent_packets t ps t' ∧
    total_len ps = Z.min (SendWindow_free_space (tc_send_window t)) (Buffer_size (tc_send_buffer t)).
Proof.
  unfold TcpController_SendBufferListener_round.
  pose proof (SendWindow_free_space_eq _ Hinv) as Hfree.
  assert (0 <= Buffer_size (tc_send_buffer t)) as Hb0 by (rewrite Buffer_size_spec; lia).
  destruct (Z.leb_spec (SendWindow_free_space (tc_send_window t)) 0) as [Hz|Hpos].
  { rewrite (proj2 (Z.ltb_lt _ _) Hcap). simpl. exists [], t.
    split_and!; [done | by apply sent_nil | rewrite total_len_nil; lia]. }
  simpl. rewrite (proj2 (Z.eqb_neq _ _)) by lia. rewrite Utils_Min_spec.
  set (m := Z.min _ _). assert (0 <= m) as Hm by (subst m; lia).
  rewrite i32_small by word_lia. rewrite u32_small by word_lia.
  pose proof (Z.div_mod m kDefaultDataPacketSize ltac:(done)) as Hdm.
  pose proof (Z.mod_pos_bound m kDefaultDataPacketSize ltac:(done)) as Hmod.
  pose proof (Z.div_pos m kDefaultDataPacketSize Hm ltac:(done)) as Hdiv.
  destruct (send_full_packets_spec now (Z.to_nat (m / kDefaultDataPacketSize)) t Hinv)
    as (ps & t1 & -> & Hs1 & Hl1); [subst m; lia | subst m; lia |].
  cbn [mbind res_bind]. rewrite Z2Nat.id in Hl1 by done.
  destruct (Z.ltb_spec 0 (m mod kDefaultDataPacketSize)) as [Hlast|Hnone].
  - destruct (sent_total _ _ _ Hs1 Hinv) as [Hf1 Hb1].
    destruct (send_data_packet_spec now (sw_size (tc_send_window t1) =? 0)
      (m mod kDefaultDataPacketSize) t1) as (p & t2 & -> & Hs2 & Hl2);
      [apply Hs1 | lia | subst m; lia | subst m; lia | |].
    { intros He. pose proof (swi_size _ (sent_inv _ _ _ Hs1)) as Hz. by rewrite Hz, He. }
    exists (ps ++ [p]), t2. split_and!; [done | by eapply sent_app |].
    rewrite total_len_app, total_len_cons, total_len_nil. lia.
  - exists ps, t1. split_and!; [done|done|lia].
Qed.

(** The state and the queue to the host after [SendFIN] made the segment [f]. *)
Definition after_fin (f : Packet) t : TCP_STATE * list Packet :=
  let q := pq_packets (tc_pkt_send_buffer t) in
  match tc_state t with
  | ESTABLISHED => (FIN_WAIT_1, q ++ [f])
  | CLOSE_WAIT => (LAST_ACK, q ++ [f])
  | s => (s, q)
  end.

(** What [SendFIN] does on a connection that is up. *)
Definition fin_result t (r : res (option TcpController)) : Prop :=
  match r with
  | Fault _ => False
  | Ok None => Buffer_bytes (tc_send_buffer t) ≠ []
  | Ok (Some t') => Buffer_bytes (tc_send_buffer t) = [] ∧
      SendWindow_inv (tc_send_window t') ∧
      (∃ f, is_fin f = true ∧ pkt_seq f = SendWindow_NextSeqNumberToSend (tc_send_window t) ∧
        sw_packets (tc_send_window t') = sw_packets (tc_send_window t) ++ [f] ∧
        (tc_state t', pq_packets (tc_pkt_send_buffer t')) = after_fin f t) ∧
      tc_recv_window t' = tc_recv_window t ∧ tc_recv_nodes t' = tc_recv_nodes t ∧
      tc_shutdown t' = tc_shutdown t
  end.

Lemma SendFIN_result now t :
  SendWindow_inv (tc_send_window t) → sw_size (tc_send_window t) + 1 < 4294967296 →
  tc_shutdown t = false → fin_result t (TcpController_SendFIN now t).
Proof.
  intros Hinv Hsize Hup. unfold fin_result, after_fin.
  unfold TcpController_SendFIN, SendFIN_wait. rewrite Hup. simpl.
  destruct (Buffer_empty (tc_send_buffer t)) eqn:He; simpl; last first.
  { intros Hc%Buffer_empty_spec. congruence. }
  apply Buffer_empty_spec in He. set (w := tc_send_window t) in *.
  assert (0 <= sw_size w) as Hs0 by (rewrite (swi_size _ Hinv); eapply contiguous_total, Hinv).
  set (w1 := set_sw_capacity _ w). set (f := TcpController_MakeFinPacket _ t).
  assert (SendWindow_inv w1) as Hinv1.
  { destruct Hinv. split; try done. simpl. apply u32_range. }
  assert (has_room w1 f = true) as Hroom.
  { unfold has_room. apply orb_true_iff. right. apply Z.leb_le.
    rewrite SendWindow_free_space_eq by done. simpl. rewrite u32_small by word_lia. lia. }
  rewrite (SendWindow_SendPacket_eq now f w1 Hinv1) by done.
  assert (pkt_seq f = SendWindow_NextSeqNumberToSend w1) as Hseq by done.
  rewrite Hroom, Hseq, Z.eqb_refl. simpl.
  pose proof (SendWindow_enqueue_inv now f w1 Hinv1 Hseq ltac:(done) ltac:(done)) as Hinv2.
  assert (Packet_Copy f = f) as -> by done.
  destruct (tc_state t) eqn:Hst; simpl; (split; [done|]); (split; [done|]);
    (split; [exists f; rewrite sw_packets_enqueue, ?Hst; by split_and! | by split_and!]).
Qed.

(** ** Properties *)

(** C19. A round of [SendBufferListener] with an open window loses nothing: it
    moves exactly as many bytes as fit both the window and the buffer, in order,
    from the send buffer into packets of one to ten bytes; every packet is
    registered in the send window, contiguous with it, and a copy of it is
    queued for the host. No packet is refused by the window, and no sanity check
    fails. *)
Theorem SendBufferListener_packs now t
    (Hinv : SendWindow_inv (tc_send_window t)) (Hcap : 0 < sw_capacity (tc_send_window t))
    (Hbuf : Buffer_size (tc_send_buffer t) < 2147483648) :
  ∃ ps t', TcpController_SendBufferListener_round now t = Ok t' ∧ sent_packets t ps t' ∧
    total_len ps = Z.min (SendWindow_free_space (tc_send_window t)) (Buffer_size (tc_send_buffer t)).
Proof. by apply SendBufferListener_round_spec. Qed.

(** C31. [SendFIN] never ends in its fatal error: with the send buffer empty the
    FIN always enters the send window, right behind the data, whatever the
    window's capacity was. The connection moves to FIN_WAIT_1 or LAST_ACK and
    the segment is queued for the host exactly in the states ESTABLISHED and
    CLOSE_WAIT; in every other state the FIN is left in the window although
    nothing was sent and the state is unchanged. *)
Theorem SendFIN_spec now t
    (Hinv : SendWindow_inv (tc_send_window t))
    (Hsize : sw_size (tc_send_window t) + 1 < 4294967296) (Hup : tc_shutdown t = false) :
  fin_result t (TcpController_SendFIN now t).
Proof. by apply SendFIN_result. Qed.
End TcpSend.

(** ** Concrete instances *)

#[local] Existing Instance simple_StopWatch.
#[local] Existing Instance simple_Timer.
#[local] Existing Instance simple_Buffer.
#[local] Existing Instance simple_Min.

(** A connection with default options and [n] bytes written to it. *)
Definition send_tcp (s : TCP_STATE) (n : nat) : TcpController :=
  (TcpController_new 0 TcpControllerKey_default TcpController_GetDefaultOptions)
    <| tc_state := s |>
    <| tc_send_buffer := (Buffer_Write (replicate n 7) (Buffer_new 100)).2 |>.

Lemma SendBufferListener_packs_witness : ∃ ps t',
  TcpController_SendBufferListener_round 0 (send_tcp ESTABLISHED 25) = Ok t' ∧
  total_len ps = 25 ∧ sw_packets (tc_send_window t') = [] ++ ps.
Proof.
  destruct (SendBufferListener_packs _ _ 0 (send_tcp ESTABLISHED 25)) as (ps & t' & He & Hs & Hl).
  - by apply SendWindow_new_inv.
  - done.
  - done.
  - exists ps, t'. split; [exact He|]. split; [exact Hl|]. apply Hs.
Defined.

Lemma SendFIN_spec_witness :
  match TcpController_SendFIN 0 (send_tcp CLOSE_WAIT 0) with
  | Ok (Some t') => tc_state t' = LAST_ACK
  | _ => False
  end.
Proof.
  destruct (SendFIN_spec _ _ 0 (send_tcp CLOSE_WAIT 0)) as (_ & _ & (f & _ & _ & _ & H) & _).
  - by apply SendWindow_new_inv.
  - done.
  - done.
  - by injection H.
Defined.
