(* ===== verification/TcpConn.v ===== *)
(** * Connection management

    [TcpController.cc]: the handlers of the segments a connection receives, the
    state machine they drive, and the active open. [max_duplicated_acks], the
    variable of [SendWindow.cc] all connections share, is an argument and a
    result of the handlers that use it. *)
From S2P Require Import Prelude Interfaces Packet Keys PacketQueue SendWindow RecvWindow.
From S2P Require Import Tcp TcpRecv TcpSend.
Open Scope Z_scope.
Open Scope tcp_scope.

Section TcpConn.
Context `{!StopWatchOps, !TimerOps, !BufferOps}.
Implicit Types t : TcpController.

(** ** Operations *)

(** [TcpController::GetNewSendWindowSize] *)
Definition TcpController_GetNewSendWindowSize (rwnd : Z) t : Z :=
  if kEnableCongestionControl then Z.min rwnd (TcpController_CurrentCWND t) else rwnd.

(** [recv_window_.ReceivePacket(pkt)] on the connection's state. *)
Definition TcpController_receive (pkt : Packet) t : res (Z * option loc * TcpController) :=
  '(ack_number, chain, w, h) ← RecvWindow_ReceivePacket pkt (tc_recv_window t) (tc_recv_nodes t);
  Ok (ack_number, chain, t <| tc_recv_window := w |> <| tc_recv_nodes := h |>).

(** [TcpController::TryConnect] *)
Definition TcpController_TryConnect (now : Z) t : res (bool * TcpController) :=
  if negb (bool_decide (tc_state t = CLOSED)) then Ok (false, t)
  else
    let sync_pkt := TcpController_MakeSyncPacket (sw_send_base (tc_send_window t)) t in
    '(sent, w) ← SendWindow_SendPacket now sync_pkt (tc_send_window t);
    let t := t <| tc_send_window := w |> in
    if negb sent then Ok (false, t)
    else
      let t := t <| tc_state := SYN_SENT |> in
      let t := TcpController_SendPacket (Some (Packet_Copy sync_pkt)) t in
      let t := TcpController_restart_timer t in
      Ok (true, t <| tc_syn_timer := Timer_Restart (tc_syn_timer t) |>).

(** [TcpController::HandleDataPacket] *)
Definition TcpController_HandleDataPacket (pkt : Packet) t : res TcpController :=
  if payload_size pkt =? 0 then
    Ok (TcpController_SendPacket
          (Some (TcpController_MakeAckPacket (rw_recv_base (tc_recv_window t)) t)) t)
  else
    '(ack_number, chain, t) ← TcpController_receive pkt t;
    t ← TcpController_StreamDataToReceiveBuffer chain t;
    Ok (TcpController_SendPacket (Some (TcpController_MakeAckPacket ack_number t)) t).

(** The SYN_ACK segment [HandleSYN] makes. *)
Definition TcpController_sync_ack_pkt (ack_number : Z) t : Packet :=
  let server_seq_num := 0 in
  let pkt := TcpController_MakeSyncPacket server_seq_num t in
  pkt <| tcp_header := (tcp_header pkt) <| ack := true |> <| ack_num := ack_number |> |>.

(** [TcpController::HandleSYN] *)
Definition TcpController_HandleSYN (now : Z) (pkt : Packet) t : res (bool * TcpController) :=
  let client_seq_num := pkt_seq pkt in
  '(ack_number, _, t) ← TcpController_receive pkt t;
  _ ← sanity_check (ack_number =? u32 (client_seq_num + 1));
  if 0 <? sw_size (tc_send_window t) then
    let '(base, w) := SendWindow_GetBasePakcketToReSend (tc_send_window t) in
    Ok (true, TcpController_SendPacket base (t <| tc_send_window := w |>))
  else
    let sync_ack_pkt := TcpController_sync_ack_pkt ack_number t in
    '(sent, w) ← SendWindow_SendPacket now sync_ack_pkt (tc_send_window t);
    let t := t <| tc_send_window := w |> in
    if negb sent then Ok (false, t)
    else
      let t := t <| tc_state := SYN_RCVD |> in
      let t := TcpController_SendPacket (Some (Packet_Copy sync_ack_pkt)) t in
      let t := TcpController_restart_timer t in
      Ok (true, t <| tc_syn_timer := Timer_Restart (tc_syn_timer t) |>).

(** [TcpController::HandleACKSYN] *)
Definition TcpController_HandleACKSYN (now g : Z) (pkt : Packet) t : res (Z * TcpController) :=
  '(g, t) ←
    (if bool_decide (tc_state t = SYN_SENT) then
       let t := t <| tc_syn_timer := Timer_Stop (tc_syn_timer t) |> in
       '(_, w, g) ← SendWindow_NewAckedPacket now (ack_num (tcp_header pkt)) (tc_send_window t) g;
       let t := t <| tc_send_window := w |> in
       let t := if SendWindow_NumPacketsToAck w =? 0
                then t <| tc_timer := Timer_Stop (tc_timer t) |> else t in
       let new_capacity := TcpController_GetNewSendWindowSize (window_size (tcp_header pkt)) t in
       let t := t <| tc_send_window := w <| sw_capacity := new_capacity |> |> in
       Ok (g, t <| tc_state := ESTABLISHED |>)
     else Ok (g, t));
  let next := u32 (pkt_seq pkt + 1) in
  let t := t <| tc_recv_window := (tc_recv_window t) <| rw_recv_base := next |> |> in
  Ok (g, TcpController_SendPacket (Some (TcpController_MakeAckPacket next t)) t).

(** [TcpController::HandleFIN]: the state changes first. *)
Definition TcpController_HandleFIN_state t : TcpController :=
  match tc_state t with
  | ESTABLISHED => t <| tc_state := CLOSE_WAIT |>
  | FIN_WAIT_2 => t <| tc_state := TIME_WAIT |> <| tc_kill_threads := S (tc_kill_threads t) |>
  | FIN_WAIT_1 => t <| tc_state := CLOSING |>
  | _ => t
  end.

Definition TcpController_HandleFIN (pkt : Packet) t : res TcpController :=
  let t := TcpController_HandleFIN_state t in
  '(ack_number, chain, t) ← TcpController_receive pkt t;
  t ← TcpController_StreamDataToReceiveBuffer chain t;
  Ok (TcpController_SendPacket (Some (TcpController_MakeAckPacket ack_number t)) t).

(** [TcpController::HandleACK]: the window's part, and whether the window is
    empty afterwards. *)
Definition TcpController_HandleACK_window (now g : Z) (pkt : Packet) t
    : res (Z * bool * TcpController) :=
  '(ack_re, w, g) ← SendWindow_NewAckedPacket now (ack_num (tcp_header pkt)) (tc_send_window t) g;
  let t := t <| tc_send_window := w |> in
  let t :=
    if re_transmit ack_re then
      let '(base, w) := SendWindow_GetBasePakcketToReSend w in
      TcpController_SendPacket base (t <| tc_send_window := w |>)
    else t in
  let send_window_empty := SendWindow_NumPacketsToAck (tc_send_window t) =? 0 in
  let t := if send_window_empty then t <| tc_timer := Timer_Stop (tc_timer t) |>
           else TcpController_restart_timer t in
  let new_capacity := TcpController_GetNewSendWindowSize (window_size (tcp_header pkt)) t in
  let t := t <| tc_send_window := (tc_send_window t) <| sw_capacity := new_capacity |> |> in
  let t := if 0 <? new_capacity then t <| tc_prober_timer := Timer_Stop (tc_prober_timer t) |> else t in
  Ok (g, send_window_empty, t).

(** [HandleACK]: the state's part. *)
Definition TcpController_HandleACK_state (send_window_empty : bool) t : TcpController :=
  match tc_state t, send_window_empty with
  | SYN_RCVD, _ => t <| tc_state := ESTABLISHED |> <| tc_syn_timer := Timer_Stop (tc_syn_timer t) |>
  | FIN_WAIT_1, true =>
      t <| tc_state := FIN_WAIT_2 |> <| tc_fin_timer := Timer_Stop (tc_fin_timer t) |>
  | LAST_ACK, true =>
      TcpController_CloseAndDelete
        (t <| tc_state := CLOSED |> <| tc_fin_timer := Timer_Stop (tc_fin_timer t) |>)
  | CLOSING, _ => t <| tc_state := TIME_WAIT |> <| tc_kill_threads := S (tc_kill_threads t) |>
  | _, _ => t
  end.

Definition TcpController_HandleACK (now g : Z) (pkt : Packet) t : res (Z * TcpController) :=
  '(g, send_window_empty, t) ← TcpController_HandleACK_window now g pkt t;
  Ok (g, TcpController_HandleACK_state send_window_empty t).

(** [TcpController::HandleRst] *)
Definition TcpController_HandleRst t : TcpController := TcpController_CloseAndDelete t.

(** The dispatch of [HandleReceivedPackets], and its loop over the queue. *)
Definition TcpController_HandlePacket (now g : Z) (pkt : Packet) t : res (Z * TcpController) :=
  let h := tcp_header pkt in
  if sync h && negb (ack h) then '(_, t) ← TcpController_HandleSYN now pkt t; Ok (g, t)
  else if sync h && ack h then TcpController_HandleACKSYN now g pkt t
  else if fin h then t ← TcpController_HandleFIN pkt t; Ok (g, t)
  else if ack h then TcpController_HandleACK now g pkt t
  else if rst h then Ok (g, TcpController_HandleRst t)
  else t ← TcpController_HandleDataPacket pkt t; Ok (g, t).

Fixpoint TcpController_HandleReceivedPackets (now g : Z) (new_packets : list Packet) t
    : res (Z * TcpController) :=
  match new_packets with
  | [] => Ok (g, t)
  | pkt :: rest =>
      '(g, t) ← TcpController_HandlePacket now g pkt t;
      TcpController_HandleReceivedPackets now g rest t
  end.

(** A round of [PacketReceiveBufferListener]: [None] when it blocks or ends. *)
Definition TcpController_PacketReceiveBufferListener_round (now g : Z) t
    : res (option (Z * TcpController)) :=
  if tc_shutdown t then Ok None
  else
    match PacketQueue_DeQueueAllTo [] true (tc_pkt_recv_buffer t) with
    | None => Ok None
    | Some (_, new_packets, q) =>
        r ← TcpController_HandleReceivedPackets now g new_packets (t <| tc_pkt_recv_buffer := q |>);
        Ok (Some r)
    end.

(** A detached thread of [HandleFIN] or [HandleACK] waking up. *)
Definition TcpController_kill_thread t : TcpController :=
  match tc_kill_threads t with
  | O => t
  | S n => TcpController_CloseAndDelete (t <| tc_kill_threads := n |>)
  end.

(** ** What the receive pipeline leaves alone *)

(** The fields of a connection outside its receive pipeline. *)
Definition recv_frame t t' : Prop :=
  t' = t <| tc_recv_buffer := tc_recv_buffer t' |> <| tc_overflow_pkts := tc_overflow_pkts t' |>
         <| tc_pipe_state := tc_pipe_state t' |>.

Lemma recv_frame_refl t : recv_frame t t.
Proof. by destruct t. Qed.
Lemma recv_frame_trans t1 t2 t3 : recv_frame t1 t2 → recv_frame t2 t3 → recv_frame t1 t3.
Proof.
  unfold recv_frame. destruct t1, t2, t3. cbn. intros F1 F2.
  injection F1; injection F2; intros; subst; reflexivity.
Qed.

Lemma stream_one_frame p t : recv_frame t (stream_one p t).
Proof.
  unfold stream_one. case_match; [|by destruct t]. case_match. case_match; by destruct t.
Qed.
Lemma push_overflowed_frame t : recv_frame t (TcpController_PushOverflowedPacketsToSocketBuffer t).
Proof. unfold TcpController_PushOverflowedPacketsToSocketBuffer. case_match. by destruct t. Qed.

Lemma stream_loop_frame fuel node t t' : stream_loop fuel node t = Ok t' → recv_frame t t'.
Proof.
  revert node t. induction fuel as [|fuel IH]; intros [l|] t; simpl; try done.
  - intros [= <-]. apply recv_frame_refl.
  - intros Hr. inv_res Hr. case_match; [by eapply IH|]. case_match.
    + injection Hr as <-. by destruct t.
    + apply IH in Hr. eapply recv_frame_trans; [apply stream_one_frame | done].
  - intros [= <-]. apply recv_frame_refl.
Qed.

Lemma StreamData_frame chain t t' :
  TcpController_StreamDataToReceiveBuffer chain t = Ok t' → recv_frame t t'.
Proof.
  intros Hr%stream_loop_frame. eapply recv_frame_trans; [apply push_overflowed_frame | done].
Qed.

(** On a represented chain the delivery follows no dangling pointer. *)
Lemma stream_loop_fault fuel l p pv ns t f :
  lseg (hp_cells (tc_recv_nodes t)) l (Some p) pv ns None →
  stream_loop fuel (Some l) t = Fault f → f = OutOfFuel.
Proof.
  revert l p pv ns t. induction fuel as [|fuel IH]; intros l p pv ns t Hs; simpl; [congruence|].
  pose proof Hs as [Hc _]. unfold heap_load. rewrite Hc. cbn [deref mbind res_bind rn_pkt rn_next].
  case_match; [by eapply IH|]. case_match; [done|]. destruct ns as [|[l' q] ns].
  - simpl. by destruct fuel.
  - apply lseg_cons in Hs as [_ Hs]. simpl. eapply IH. by rewrite stream_one_nodes.
Qed.

Lemma StreamData_fault chain pkts t f :
  chain_rep (tc_recv_nodes t) chain pkts →
  TcpController_StreamDataToReceiveBuffer chain t = Fault f → f = OutOfFuel.
Proof.
  unfold TcpController_StreamDataToReceiveBuffer.
  destruct pkts as [|p pkts], chain as [l|]; try done.
  intros (ns & Hs & _). apply (stream_loop_fault _ l p None ns). by rewrite push_overflowed_nodes.
Qed.

(** ** The invariant of a connection

    The send window is contiguous, and the receive window is a well-formed list
    on the heap of its nodes. *)

Record conn_inv t : Prop := {
  ci_send : SendWindow_inv (tc_send_window t);
  ci_recv : ∃ s, RecvWindow_rep (tc_recv_window t) (tc_recv_nodes t) s;
}.

(** A segment as the channel may deliver it: the fields fit their types. *)
Definition segment_wf (pkt : Packet) : Prop := tcp_header_wf (tcp_header pkt).

Lemma conn_inv_frame t t' : recv_frame t t' → conn_inv t → conn_inv t'.
Proof. intros -> [Hs Hr]. by split. Qed.

Lemma TcpController_receive_spec pkt t : conn_inv t →
  match TcpController_receive pkt t with
  | Fault f => f = SanityCheckFailed
  | Ok (_, chain, t') => conn_inv t' ∧ (∃ pkts, chain_rep (tc_recv_nodes t') chain pkts) ∧
      t' = t <| tc_recv_window := tc_recv_window t' |> <| tc_recv_nodes := tc_recv_nodes t' |>
  end.
Proof.
  intros [Hs [s Hr]]. unfold TcpController_receive.
  pose proof (ReceivePacket_refines pkt _ _ s Hr) as Href. unfold receive_refines in Href.
  destruct (recv_spec pkt s) as [[[a pkts] s']|f] eqn:Hspec.
  - destruct Href as (chain & w' & h' & -> & Hrep & Hch). simpl.
    split; [split; simpl; eauto|]. split; [by exists pkts | done].
  - rewrite Href. simpl. by eapply recv_spec_fault.
Qed.

(** A segment of one byte always fits an empty window it continues. *)
Lemma SendWindow_SendPacket_inv now p w b w' :
  SendWindow_inv w → pkt_len p = 1 → sw_size w = 0 →
  SendWindow_SendPacket now p w = Ok (b, w') → SendWindow_inv w'.
Proof.
  intros Hinv Hl Hz. rewrite (SendWindow_SendPacket_eq now p w Hinv) by (rewrite Hl; done).
  intros Hr. injection Hr as Hr. destruct (_ && _) eqn:Hc; simplify_eq; [|done].
  apply andb_true_iff in Hc as [_ Hc%Z.eqb_eq].
  apply SendWindow_enqueue_inv; [done|done|lia|lia].
Qed.

Lemma SendWindow_SendPacket_fault now p w f :
  SendWindow_inv w → is_u32 (pkt_len p) → SendWindow_SendPacket now p w ≠ Fault f.
Proof. intros Hinv Hp. by rewrite (SendWindow_SendPacket_eq now p w Hinv Hp). Qed.

Lemma set_capacity_inv w c : SendWindow_inv w → is_u32 c → SendWindow_inv (w <| sw_capacity := c |>).
Proof. intros [? ? ? ? ?] Hc. by split. Qed.
Lemma GetBase_inv w : SendWindow_inv w → SendWindow_inv (SendWindow_GetBasePakcketToReSend w).2.
Proof. intros [? ? ? ? ?]. unfold SendWindow_GetBasePakcketToReSend. case_match; by split. Qed.

Lemma SendPacket_conn_inv o t : conn_inv t → conn_inv (TcpController_SendPacket o t).
Proof. destruct o; [|done]. intros [? ?]. by split. Qed.

(** ** The state machine *)

Inductive segment := SegSyn | SegSynAck | SegFin | SegAck | SegRst | SegData.

(** Which handler a segment goes to. *)
Definition segment_of (pkt : Packet) : segment :=
  let h := tcp_header pkt in
  if sync h then if ack h then SegSynAck else SegSyn
  else if fin h then SegFin else if ack h then SegAck else if rst h then SegRst else SegData.

(** The state after a segment other than a SYN; [empty] says whether the send
    window is empty once the segment has been processed. *)
Definition state_after (seg : segment) (empty : bool) (s : TCP_STATE) : TCP_STATE :=
  match seg, s with
  | SegSynAck, SYN_SENT => ESTABLISHED
  | SegFin, ESTABLISHED => CLOSE_WAIT
  | SegFin, FIN_WAIT_1 => CLOSING
  | SegFin, FIN_WAIT_2 => TIME_WAIT
  | SegAck, SYN_RCVD => ESTABLISHED
  | SegAck, FIN_WAIT_1 => if empty then FIN_WAIT_2 else FIN_WAIT_1
  | SegAck, LAST_ACK => if empty then CLOSED else LAST_ACK
  | SegAck, CLOSING => TIME_WAIT
  | _, _ => s
  end.

(** Whether a segment starts the deletion of the connection. *)
Definition closes (seg : segment) (empty : bool) (s : TCP_STATE) : bool :=
  match seg, s with
  | SegRst, _ => true
  | SegAck, LAST_ACK => empty
  | _, _ => false
  end.

Definition window_empty t : bool := SendWindow_NumPacketsToAck (tc_send_window t) =? 0.

(** The faults a handler may end in: a failed consistency check, the overflow of
    the retransmission tolerance, and the endless loop on a SYN segment. *)
Definition handler_fault (f : fault) : Prop :=
  f = SanityCheckFailed ∨ f = BadConversion ∨ f = OutOfFuel.

(** What the handler of a segment of kind [seg] does to the state of [t]. *)
Definition handler_spec (seg : segment) t (r : res TcpController) : Prop :=
  match r with
  | Fault f => handler_fault f
  | Ok t' => conn_inv t' ∧ tc_state t' = state_after seg (window_empty t') (tc_state t) ∧
      tc_shutdown t' = tc_shutdown t || closes seg (window_empty t') (tc_state t)
  end.

Lemma recv_frame_state t t' : recv_frame t t' →
  tc_state t' = tc_state t ∧ tc_shutdown t' = tc_shutdown t ∧ tc_send_window t' = tc_send_window t.
Proof. intros ->. done. Qed.

Lemma SendPacket_state o t :
  tc_state (TcpController_SendPacket o t) = tc_state t ∧
  tc_shutdown (TcpController_SendPacket o t) = tc_shutdown t ∧
  tc_send_window (TcpController_SendPacket o t) = tc_send_window t.
Proof. by destruct o. Qed.

(** Receiving, streaming and acknowledging, the common part of two handlers. *)
Lemma receive_stream_ack pkt t : conn_inv t →
  match ('(ack_number, chain, t) ← TcpController_receive pkt t;
         t ← TcpController_StreamDataToReceiveBuffer chain t;
         Ok (TcpController_SendPacket (Some (TcpController_MakeAckPacket ack_number t)) t)) with
  | Fault f => handler_fault f
  | Ok t' => conn_inv t' ∧ tc_state t' = tc_state t ∧ tc_shutdown t' = tc_shutdown t ∧
      tc_send_window t' = tc_send_window t
  end.
Proof.
  intros Hinv. pose proof (TcpController_receive_spec pkt t Hinv) as Hrec.
  destruct (TcpController_receive pkt t) as [[[a chain] t1]|f]; [|by left].
  destruct Hrec as (Hinv1 & (pkts & Hch) & Ht1). cbn [mbind res_bind].
  destruct (TcpController_StreamDataToReceiveBuffer chain t1) as [t2|f] eqn:Hst;
    cbn [mbind res_bind]; [|right; right; by eapply StreamData_fault].
  apply StreamData_frame in Hst. destruct (recv_frame_state _ _ Hst) as (S1 & S2 & S3).
  split; [by eapply SendPacket_conn_inv, conn_inv_frame|].
  simpl. rewrite S1, S2, S3, Ht1. done.
Qed.

Lemma HandleDataPacket_ok pkt t : conn_inv t →
  handler_spec SegData t (TcpController_HandleDataPacket pkt t).
Proof.
  intros Hinv. unfold TcpController_HandleDataPacket, handler_spec.
  destruct (payload_size pkt =? 0).
  { split; [by apply SendPacket_conn_inv|]. simpl. by rewrite orb_false_r. }
  pose proof (receive_stream_ack pkt t Hinv) as Hr.
  destruct (_ ≫= _); [|done]. destruct Hr as (? & -> & -> & _). simpl. by rewrite orb_false_r.
Qed.

Lemma HandleFIN_ok pkt t : conn_inv t → handler_spec SegFin t (TcpController_HandleFIN pkt t).
Proof.
  intros Hinv. unfold TcpController_HandleFIN, handler_spec.
  set (t1 := TcpController_HandleFIN_state t).
  assert (conn_inv t1 ∧ tc_state t1 = state_after SegFin false (tc_state t) ∧
    tc_shutdown t1 = tc_shutdown t) as (Hinv1 & S1 & S2).
  { subst t1. unfold TcpController_HandleFIN_state. destruct Hinv. destruct (tc_state t) eqn:Hst; simpl; rewrite ?Hst; by split_and!. }
  pose proof (receive_stream_ack pkt t1 Hinv1) as Hr.
  destruct (_ ≫= _); [|done]. destruct Hr as (? & -> & -> & _). rewrite S1, S2, orb_false_r.
  split_and!; [done| |done]. by destruct (tc_state t).
Qed.

Lemma HandleACKSYN_ok now g pkt t : conn_inv t → segment_wf pkt →
  match TcpController_HandleACKSYN now g pkt t with
  | Ok (_, t') => handler_spec SegSynAck t (Ok t')
  | Fault f => handler_fault f
  end.
Proof.
  intros [Hs Hr] (_ & _ & _ & Ha & Hw). unfold TcpController_HandleACKSYN.
  assert (∀ t1 next, conn_inv t1 → conn_inv (t1 <| tc_recv_window :=
    (tc_recv_window t1) <| rw_recv_base := next |> |>)) as Hbase.
  { intros t1 next [Hs1 [[b q] (ns & [? ? ? ? ?])]]. split; [done|]. simpl.
    exists (MkRecv next q), ns. by split. }
  case_bool_decide as Hst; cbn [mbind res_bind]; last first.
  { split; [by apply SendPacket_conn_inv, Hbase|]. simpl.
    rewrite orb_false_r. split; [|done]. by destruct (tc_state t). }
  destruct (SendWindow_NewAckedPacket now _ _ g) as [[[r w] g']|f] eqn:Hn; cbn [mbind res_bind]; last first.
  { destruct (NewAckedPacket_fault _ _ _ _ _ Hn) as [->| ->]; [by left | by right; left]. }
  assert (SendWindow_inv w) as Hw' by by eapply NewAckedPacket_inv.
  split.
  - apply SendPacket_conn_inv, Hbase. split; [|by destruct (_ =? 0)].
    apply set_capacity_inv; [done|]. unfold TcpController_GetNewSendWindowSize, is_u32. simpl. lia.
  - simpl. rewrite Hst, orb_false_r. split; [done|]. by destruct (_ =? 0).
Qed.

Lemma HandleACK_window_ok now g pkt t : conn_inv t → segment_wf pkt →
  match TcpController_HandleACK_window now g pkt t with
  | Ok (_, e, t') => conn_inv t' ∧ tc_state t' = tc_state t ∧ tc_shutdown t' = tc_shutdown t ∧
      e = window_empty t'
  | Fault f => handler_fault f
  end.
Proof.
  intros [Hs Hr] (_ & _ & _ & Ha & Hw). unfold TcpController_HandleACK_window.
  destruct (SendWindow_NewAckedPacket now _ _ g) as [[[r w] g']|f] eqn:Hn; simpl; last first.
  { destruct (NewAckedPacket_fault _ _ _ _ _ Hn) as [->| ->]; [by left | by right; left]. }
  assert (SendWindow_inv w) as Hw' by by eapply NewAckedPacket_inv.
  set (t1 := if re_transmit r then _ else _).
  assert (conn_inv t1 ∧ tc_state t1 = tc_state t ∧ tc_shutdown t1 = tc_shutdown t)
    as ([Hs1 Hr1] & S1 & S2).
  { subst t1. destruct (re_transmit r); [|by split_and!].
    pose proof (GetBase_inv w Hw') as Hg.
    destruct (SendWindow_GetBasePakcketToReSend w) as [base w1]; simpl in Hg.
    split; [apply SendPacket_conn_inv; by split|]. by destruct base. }
  set (t2 := if SendWindow_NumPacketsToAck _ =? 0 then _ else _).
  assert (tc_send_window t2 = tc_send_window t1 ∧ tc_state t2 = tc_state t1 ∧
    tc_shutdown t2 = tc_shutdown t1 ∧ tc_recv_window t2 = tc_recv_window t1 ∧
    tc_recv_nodes t2 = tc_recv_nodes t1) as (W & S3 & S4 & R & N) by (subst t2; by case_match).
  unfold window_empty. rewrite S1 in S3. rewrite S2 in S4.
  assert (is_u32 (window_size (tcp_header pkt))) as Hu by (unfold is_u32; lia).
  pose proof (set_capacity_inv _ _ Hs1 Hu) as Hc.
  rewrite <- W in Hc |- *. rewrite <- R, <- N in Hr1. clearbody t2. clear -S3 S4 Hr1 Hc.
  unfold TcpController_GetNewSendWindowSize. simpl. case_match; by split_and!.
Qed.

Lemma HandleACK_state_spec e t :
  let t' := TcpController_HandleACK_state e t in
  tc_state t' = state_after SegAck e (tc_state t) ∧
  tc_shutdown t' = tc_shutdown t || closes SegAck e (tc_state t) ∧
  tc_send_window t' = tc_send_window t ∧ tc_recv_window t' = tc_recv_window t ∧
  tc_recv_nodes t' = tc_recv_nodes t.
Proof.
  unfold TcpController_HandleACK_state, TcpController_CloseAndDelete.
  destruct (tc_state t) eqn:Hst, e; simpl; rewrite ?Hst, ?orb_false_r, ?orb_true_r; try done.
  destruct (tc_shutdown t) eqn:Hsh; simpl; by rewrite ?Hsh.
Qed.

Lemma HandleACK_ok now g pkt t : conn_inv t → segment_wf pkt →
  match TcpController_HandleACK now g pkt t with
  | Ok (_, t') => handler_spec SegAck t (Ok t')
  | Fault f => handler_fault f
  end.
Proof.
  intros Hinv Hwf. unfold TcpController_HandleACK.
  pose proof (HandleACK_window_ok now g pkt t Hinv Hwf) as Hw.
  destruct (TcpController_HandleACK_window now g pkt t) as [[[g' e] t1]|f]; [|done].
  cbn [mbind res_bind]. destruct Hw as ([Hs Hr] & S1 & S2 & He). unfold handler_spec. rewrite <- S1, <- S2.
  destruct (HandleACK_state_spec e t1) as (S3 & S4 & W & R & N).
  assert (window_empty (TcpController_HandleACK_state e t1) = e) as ->
    by (unfold window_empty in *; by rewrite W).
  split; [split; [by rewrite W | by rewrite R, N] | done].
Qed.

(** A SYN: the state becomes SYN_RCVD when the window was empty and the SYN_ACK
    could be sent, and stays otherwise. *)
Lemma HandleSYN_ok now pkt t : conn_inv t →
  match TcpController_HandleSYN now pkt t with
  | Ok (_, t') => conn_inv t' ∧ tc_shutdown t' = tc_shutdown t ∧
      (tc_state t' = tc_state t ∨ sw_size (tc_send_window t) = 0 ∧ tc_state t' = SYN_RCVD)
  | Fault f => handler_fault f
  end.
Proof.
  intros Hinv. unfold TcpController_HandleSYN.
  pose proof (TcpController_receive_spec pkt t Hinv) as Hrec.
  destruct (TcpController_receive pkt t) as [[[a chain] t1]|f]; [|by left].
  destruct Hrec as ([Hs Hr] & _ & Ht1). cbn [mbind res_bind].
  destruct (sanity_check _) as [[]|f] eqn:Hsc; [|by apply sanity_check_Fault in Hsc as ->; left].
  cbn [mbind res_bind].
  assert (tc_state t1 = tc_state t ∧ tc_shutdown t1 = tc_shutdown t ∧
    tc_send_window t1 = tc_send_window t) as (S1 & S2 & S3) by (by rewrite Ht1).
  clear Ht1. destruct (Z.ltb_spec 0 (sw_size (tc_send_window t1))) as [Hpos|Hz].
  - pose proof (GetBase_inv _ Hs) as Hg. destruct (SendWindow_GetBasePakcketToReSend _) as [base w].
    split; [apply SendPacket_conn_inv; by split|].
    destruct (SendPacket_state base (t1 <| tc_send_window := w |>)) as (-> & -> & _).
    simpl. rewrite S1, S2. by split; [|left].
  - set (p := TcpController_sync_ack_pkt a t1).
    assert (0 <= sw_size (tc_send_window t1)) as Hs0.
    { rewrite (swi_size _ Hs). eapply contiguous_total, Hs. }
    destruct (SendWindow_SendPacket now p (tc_send_window t1)) as [[b w]|f] eqn:Hsend; last first.
    { by apply SendWindow_SendPacket_fault in Hsend. }
    apply SendWindow_SendPacket_inv in Hsend; [|done|done|lia]. cbn [mbind res_bind].
    destruct b; simpl.
    + split; [by split|]. split; [done|]. right. rewrite <- S3. split; [lia|done].
    + split; [by split|]. split; [done|]. by left.
Qed.

(** Every segment, through the dispatch. *)
Lemma HandlePacket_ok now g pkt t : conn_inv t → segment_wf pkt →
  match TcpController_HandlePacket now g pkt t with
  | Ok (_, t') =>
      match segment_of pkt with
      | SegSyn => conn_inv t' ∧ tc_shutdown t' = tc_shutdown t ∧
          (tc_state t' = tc_state t ∨ sw_size (tc_send_window t) = 0 ∧ tc_state t' = SYN_RCVD)
      | seg => handler_spec seg t (Ok t')
      end
  | Fault f => handler_fault f
  end.
Proof.
  intros Hinv Hwf. unfold TcpController_HandlePacket, segment_of.
  destruct (sync _); [destruct (ack _)|destruct (fin _); [|destruct (ack _); [|destruct (rst _)]]];
    cbn [andb negb].
  - by apply HandleACKSYN_ok.
  - pose proof (HandleSYN_ok now pkt t Hinv) as Hr. by destruct (TcpController_HandleSYN now pkt t) as [[]|].
  - pose proof (HandleFIN_ok pkt t Hinv) as Hr. by destruct (TcpController_HandleFIN pkt t).
  - by apply HandleACK_ok.
  - unfold handler_spec, TcpController_HandleRst, TcpController_CloseAndDelete. simpl.
    rewrite orb_true_r. destruct (tc_shutdown t) eqn:Hsh; simpl; [by destruct (tc_state t)|].
    split; [by destruct Hinv|]. by destruct (tc_state t).
  - pose proof (HandleDataPacket_ok pkt t Hinv) as Hr. by destruct (TcpController_HandleDataPacket pkt t).
Qed.

Lemma HandlePacket_dispatch now g pkt t :
  TcpController_HandlePacket now g pkt t =
    match segment_of pkt with
    | SegSyn => '(_, t) ← TcpController_HandleSYN now pkt t; Ok (g, t)
    | SegSynAck => TcpController_HandleACKSYN now g pkt t
    | SegFin => t ← TcpController_HandleFIN pkt t; Ok (g, t)
    | SegAck => TcpController_HandleACK now g pkt t
    | SegRst => Ok (g, TcpController_HandleRst t)
    | SegData => t ← TcpController_HandleDataPacket pkt t; Ok (g, t)
    end.
Proof.
  unfold TcpController_HandlePacket, segment_of.
  by destruct (sync (tcp_header pkt)), (ack (tcp_header pkt)), (fin (tcp_header pkt)),
    (rst (tcp_header pkt)).
Qed.
End TcpConn.
