(* ===== verification/Threads.v ===== *)
(** * The threads of a connection

    What the listeners, the tasks, the timers and the detached threads of a
    [TcpController] do when it is their turn: one function, by which the session
    of two connections and the whole program move. *)
From S2P Require Import Prelude Interfaces Packet Keys PacketQueue SendWindow RecvWindow.
From S2P Require Import Tcp TcpRecv TcpSend TcpConn.
Open Scope Z_scope.
Open Scope tcp_scope.

#[export] Instance tcp_task_eq_dec : EqDecision tcp_task.
Proof. solve_decision. Defined.

Section Threads.
Context {SWO : StopWatchOps} {TMO : TimerOps} {BFO : BufferOps} {MNO : MinOps}.

Inductive conn_action :=
  | KReceive (now : Z) | KToHost | KListen | KSend (now : Z) | KOverflow | KFin (now : Z) | KReset
  | KRetransmit | KProbe | KTimeout | KKill.

(** A task is taken off when it has ended; that of [SendBufferListener], which only its
    first wait tells from the others, when it has begun. *)
Definition drop_task (k : tcp_task) (t : TcpController) : TcpController :=
  match list_find (k =.) (tc_tasks t) with
  | Some (i, _) => t <| tc_tasks := delete i (tc_tasks t) |>
  | None => t
  end.

(** One step of a thread of the connection [t]: the shared tolerance, the packets
    for the host, and the connection; [None] when the thread blocks, has ended or
    was never started, or the timer does not run. *)
Definition conn_do (act : conn_action) (g : Z) (t : TcpController)
    : res (option (Z * list Packet * TcpController)) :=
  match act with
  | KReceive now =>
      r ← TcpController_PacketReceiveBufferListener_round now g t;
      Ok ('(g, t) ← r; Some (g, [], t))
  | KToHost => Ok ('(pkts, t) ← TcpController_PacketSendBufferListener_round t; Some (g, pkts, t))
  | KListen =>
      Ok (if bool_decide (SendBufferListener ∈ tc_tasks t) && negb (tc_shutdown t) &&
            SendBufferListener_state_wait t
          then Some (g, [], drop_task SendBufferListener t) else None)
  | KSend now =>
      if bool_decide (SendBufferListener ∉ tc_tasks t) && negb (tc_shutdown t) &&
        SendBufferListener_window_wait t && SendBufferListener_buffer_wait t
      then t ← TcpController_SendBufferListener_round now t; Ok (Some (g, [], t))
      else Ok None
  | KOverflow => Ok (t ← TcpController_ReceiveBufferListener_round t; Some (g, [], t))
  | KFin now =>
      if bool_decide (SendFIN ∈ tc_tasks t) then
        r ← TcpController_SendFIN now t;
        Ok (t ← r; Some (g, [], drop_task SendFIN t))
      else Ok None
  | KReset =>
      if bool_decide (SendRSTForClosedConnection ∈ tc_tasks t)
      then Ok (t ← TcpController_SendRSTForClosedConnection_round t; Some (g, [], t))
      else Ok None
  | KRetransmit =>
      Ok (if Timer_started (tc_timer t)
          then Some (g, [], TcpController_TimeoutReTransmitter t) else None)
  | KProbe =>
      Ok (if Timer_started (tc_prober_timer t)
          then Some (g, [], TcpController_ProbeWindowSize t) else None)
  | KTimeout =>
      Ok (if Timer_started (tc_syn_timer t) || Timer_started (tc_fin_timer t) ||
             Timer_started (tc_close_timer t)
          then Some (g, [], TcpController_CloseAndDelete t) else None)
  | KKill =>
      Ok (if (0 <? tc_kill_threads t)%nat then Some (g, [], TcpController_kill_thread t) else None)
  end.
(** ** Batches

    The listener of a connection takes all packets that wait in its queue at once;
    the handlers do not look at the queue. *)
Implicit Types t : TcpController.

Definition with_queue (q : PacketQueue) t : TcpController := t <| tc_pkt_recv_buffer := q |>.

Lemma receive_queue q p t : TcpController_receive p (with_queue q t) =
  '(n, chain, t) ← TcpController_receive p t; Ok (n, chain, with_queue q t).
Proof.
  unfold TcpController_receive. simpl.
  by destruct (RecvWindow_ReceivePacket p (tc_recv_window t) (tc_recv_nodes t)) as [[[[]]]|].
Qed.

Lemma stream_one_queue q p t : stream_one p (with_queue q t) = with_queue q (stream_one p t).
Proof. unfold stream_one. simpl. repeat case_match; done. Qed.

Lemma stream_loop_queue q fuel node t : stream_loop fuel node (with_queue q t) =
  t ← stream_loop fuel node t; Ok (with_queue q t).
Proof.
  revert node t. induction fuel as [|fuel IH]; intros [l|] t; simpl; try done.
  destruct (heap_load (tc_recv_nodes t) l) as [nd|]; simpl; [|done].
  destruct (deref (rn_pkt nd)) as [pkt|]; simpl; [|done].
  destruct (sync (tcp_header pkt)); [apply IH|]. destruct (fin (tcp_header pkt)); [done|].
  by rewrite stream_one_queue, IH.
Qed.

Lemma StreamData_queue q chain t : TcpController_StreamDataToReceiveBuffer chain (with_queue q t) =
  t ← TcpController_StreamDataToReceiveBuffer chain t; Ok (with_queue q t).
Proof.
  unfold TcpController_StreamDataToReceiveBuffer.
  assert (TcpController_PushOverflowedPacketsToSocketBuffer (with_queue q t) =
    with_queue q (TcpController_PushOverflowedPacketsToSocketBuffer t)) as ->.
  { unfold TcpController_PushOverflowedPacketsToSocketBuffer. simpl. by case_match. }
  apply stream_loop_queue.
Qed.

Lemma SendPacket_queue q o t : TcpController_SendPacket o (with_queue q t) = with_queue q (TcpController_SendPacket o t).
Proof. by destruct o. Qed.

(** Receive, deliver and acknowledge. *)
Lemma deliver_queue q p t :
  ('(n, chain, t) ← TcpController_receive p (with_queue q t);
   t ← TcpController_StreamDataToReceiveBuffer chain t;
   Ok (TcpController_SendPacket (Some (TcpController_MakeAckPacket n t)) t)) =
  t ← ('(n, chain, t) ← TcpController_receive p t;
       t ← TcpController_StreamDataToReceiveBuffer chain t;
       Ok (TcpController_SendPacket (Some (TcpController_MakeAckPacket n t)) t));
  Ok (with_queue q t).
Proof.
  rewrite receive_queue. destruct (TcpController_receive p t) as [[[n chain] t1]|]; [|done]. cbn [mbind res_bind].
  rewrite StreamData_queue. by destruct (TcpController_StreamDataToReceiveBuffer chain t1).
Qed.

Lemma HandleSYN_queue q now p t : TcpController_HandleSYN now p (with_queue q t) =
  '(b, t) ← TcpController_HandleSYN now p t; Ok (b, with_queue q t).
Proof.
  unfold TcpController_HandleSYN. rewrite receive_queue.
  destruct (TcpController_receive p t) as [[[n chain] t1]|]; [|done]. cbn [mbind res_bind].
  destruct (sanity_check _); [|done]. cbn [mbind res_bind]. simpl.
  destruct (0 <? sw_size (tc_send_window t1)).
  - destruct (SendWindow_GetBasePakcketToReSend (tc_send_window t1)) as [[] w]; done.
  - change (TcpController_sync_ack_pkt n (with_queue q t1)) with (TcpController_sync_ack_pkt n t1).
    destruct (SendWindow_SendPacket now (TcpController_sync_ack_pkt n t1) (tc_send_window t1)) as [[[] w]|]; done.
Qed.

Lemma HandleACKSYN_queue q now g p t : TcpController_HandleACKSYN now g p (with_queue q t) =
  '(g, t) ← TcpController_HandleACKSYN now g p t; Ok (g, with_queue q t).
Proof.
  unfold TcpController_HandleACKSYN. simpl. case_bool_decide; [|done].
  destruct (SendWindow_NewAckedPacket now _ _ g) as [[[r w] g']|]; [|done]. cbn [mbind res_bind].
  by destruct (SendWindow_NumPacketsToAck w =? 0).
Qed.

Lemma HandleACK_queue q now g p t : TcpController_HandleACK now g p (with_queue q t) =
  '(g, t) ← TcpController_HandleACK now g p t; Ok (g, with_queue q t).
Proof.
  assert (∀ e t, TcpController_HandleACK_state e (with_queue q t) = with_queue q (TcpController_HandleACK_state e t)) as Hst.
  { intros e t1. unfold TcpController_HandleACK_state, TcpController_CloseAndDelete. simpl.
    destruct (tc_state t1), e; try done. simpl. by destruct (tc_shutdown t1). }
  assert (TcpController_HandleACK_window now g p (with_queue q t) =
    '(g, e, t) ← TcpController_HandleACK_window now g p t; Ok (g, e, with_queue q t)) as Hw.
  { unfold TcpController_HandleACK_window, TcpController_GetNewSendWindowSize. simpl.
    destruct (SendWindow_NewAckedPacket now _ _ g) as [[[r w] g']|]; [|done]. cbn [mbind res_bind].
    destruct (re_transmit r); simpl;
      [destruct (SendWindow_GetBasePakcketToReSend w) as [[pkt|] w1]; simpl;
       destruct (SendWindow_NumPacketsToAck w1 =? 0)
      |destruct (SendWindow_NumPacketsToAck w =? 0)]; simpl; by destruct (0 <? window_size (tcp_header p)). }
  unfold TcpController_HandleACK. rewrite Hw.
  destruct (TcpController_HandleACK_window now g p t) as [[[g' e] t1]|]; [|done]. cbn [mbind res_bind]. by rewrite Hst.
Qed.

Lemma HandlePacket_queue q now g p t : TcpController_HandlePacket now g p (with_queue q t) =
  '(g, t) ← TcpController_HandlePacket now g p t; Ok (g, with_queue q t).
Proof.
  rewrite !HandlePacket_dispatch. destruct (segment_of p).
  - rewrite HandleSYN_queue. by destruct (TcpController_HandleSYN now p t) as [[]|].
  - apply HandleACKSYN_queue.
  - unfold TcpController_HandleFIN.
    assert (TcpController_HandleFIN_state (with_queue q t) = with_queue q (TcpController_HandleFIN_state t)) as ->.
    { unfold TcpController_HandleFIN_state. simpl. by destruct (tc_state t). }
    rewrite deliver_queue. by match goal with |- context [TcpController_receive p ?t ≫= ?k] =>
      destruct (TcpController_receive p t ≫= k) end.
  - apply HandleACK_queue.
  - unfold TcpController_HandleRst, TcpController_CloseAndDelete. simpl. by destruct (tc_shutdown t).
  - unfold TcpController_HandleDataPacket. destruct (payload_size p =? 0); [done|].
    rewrite deliver_queue. by match goal with |- context [TcpController_receive p ?t ≫= ?k] =>
      destruct (TcpController_receive p t ≫= k) end.
Qed.
(** The handlers do not touch the queue. *)
Lemma HandlePacket_keeps_queue now g p t g' t' :
  TcpController_HandlePacket now g p t = Ok (g', t') → tc_pkt_recv_buffer t' = tc_pkt_recv_buffer t.
Proof.
  intros H. pose proof (HandlePacket_queue (tc_pkt_recv_buffer t) now g p t) as Hq.
  assert (with_queue (tc_pkt_recv_buffer t) t = t) as Ht by by destruct t.
  rewrite Ht, H in Hq. injection Hq as Hq. by rewrite Hq.
Qed.

(** The packets one at a time: each arrives, and has its own round of the listener. *)
Fixpoint receive_each (now g : Z) (pkts : list Packet) t : res (option (Z * TcpController)) :=
  match pkts with
  | [] => Ok (Some (g, t))
  | pkt :: pkts =>
      r ← TcpController_PacketReceiveBufferListener_round now g (TcpController_ReceiveNewPacket pkt t);
      match r with
      | Some (g, t) => receive_each now g pkts t
      | None => Ok None
      end
  end.

(** Whether the connection is still up before each packet but the first. *)
Fixpoint up_between (now g : Z) (pkts : list Packet) t : bool :=
  match pkts with
  | [] => true
  | pkt :: pkts =>
      match TcpController_HandlePacket now g pkt t with
      | Ok (g, t) => (bool_decide (pkts = []) || negb (tc_shutdown t)) && up_between now g pkts t
      | Fault _ => true
      end
  end.

Lemma round_takes now g q t : pq_packets q ≠ [] → pq_destroy q = false → tc_shutdown t = false →
  TcpController_PacketReceiveBufferListener_round now g (with_queue q t) =
    r ← TcpController_HandleReceivedPackets now g (pq_packets q) (with_queue (q <| pq_packets := [] |>) t); Ok (Some r).
Proof.
  intros Hne Hd Hup. unfold TcpController_PacketReceiveBufferListener_round, PacketQueue_DeQueueAllTo,
    PacketQueue_wait_pred, PacketQueue_empty, PacketQueue_DeQueueAllTo_locked. simpl. rewrite Hup, Hd. simpl.
  by destruct (pq_packets q).
Qed.

Lemma receive_each_batch now g pkts t : pq_packets (tc_pkt_recv_buffer t) = [] →
  pq_destroy (tc_pkt_recv_buffer t) = false → (pkts ≠ [] → tc_shutdown t = false) →
  up_between now g pkts t = true →
  receive_each now g pkts t = r ← TcpController_HandleReceivedPackets now g pkts t; Ok (Some r).
Proof.
  revert g t. induction pkts as [|pkt pkts IH]; intros g t Hq Hd Hup Hb; [done|]. simpl in *.
  specialize (Hup ltac:(done)).
  assert (∃ q, TcpController_ReceiveNewPacket pkt t = with_queue q t ∧ pq_packets q = [pkt] ∧
    pq_destroy q = false ∧ q <| pq_packets := [] |> = tc_pkt_recv_buffer t) as (q & -> & H1 & H2 & H3).
  { eexists. split; [done|]. simpl. rewrite Hq. split; [done|]. split; [done|].
    destruct (tc_pkt_recv_buffer t); simpl in *. by subst. }
  rewrite round_takes by (rewrite ?H1; done). rewrite H1, H3. simpl.
  assert (with_queue (tc_pkt_recv_buffer t) t = t) as -> by by destruct t.
  destruct (TcpController_HandlePacket now g pkt t) as [[g1 t1]|f] eqn:Hh; [|done]. cbn [mbind res_bind].
  apply andb_true_iff in Hb as [Hb1 Hb2]. pose proof (HandlePacket_keeps_queue _ _ _ _ _ _ Hh) as Hk.
  apply IH; rewrite ?Hk; try done. intros Hne. apply orb_true_iff in Hb1 as [Hb1|Hb1%negb_true_iff]; [|done].
  by apply bool_decide_eq_true in Hb1.
Qed.

(** ** Properties *)

(** C13. How the packets that arrive fall into batches makes no difference: a round of the
    listener on a queue of packets ends like one round for each of them, the state of
    the connection, the shared tolerance and the failures included, as long as none
    but the last of them shuts the connection down. *)
Theorem Receive_batches now g q t
    (Hne : pq_packets q ≠ []) (Hd : pq_destroy q = false) (Hup : tc_shutdown t = false)
    (Hbetween : up_between now g (pq_packets q) (with_queue (q <| pq_packets := [] |>) t) = true) :
  TcpController_PacketReceiveBufferListener_round now g (with_queue q t) =
    receive_each now g (pq_packets q) (with_queue (q <| pq_packets := [] |>) t).
Proof. rewrite round_takes by done. symmetry. by apply receive_each_batch. Qed.
End Threads.

(** ** A concrete batch: the SYN the host of a server hands over twice. *)
#[local] Existing Instance simple_StopWatch.
#[local] Existing Instance simple_Timer.
#[local] Existing Instance simple_Buffer.
#[local] Existing Instance simple_Min.

Definition new_conn : TcpController :=
  TcpController_new 0 TcpControllerKey_default TcpController_GetDefaultOptions.

Definition two_syns : PacketQueue :=
  (PacketQueue_PushAll (replicate 2 (TcpController_MakeSyncPacket 0 new_conn)) PacketQueue_new).2.

Lemma Receive_batches_witness :
  TcpController_PacketReceiveBufferListener_round 0 3 (with_queue two_syns new_conn) =
    receive_each 0 3 (pq_packets two_syns) new_conn ∧
  match receive_each 0 3 (pq_packets two_syns) new_conn with
  | Ok (Some (_, t)) => tc_state t = SYN_RCVD ∧ length (pq_packets (tc_pkt_send_buffer t)) = 2%nat
  | _ => False
  end.
Proof.
  split; [|by vm_compute]. apply (Receive_batches 0 3 two_syns new_conn); [done|done|done|by vm_compute].
Defined.
