(* ===== verification/Connection.v ===== *)
(** * The life of a connection

    A connection as a step relation: the calls of its user, the segments that
    arrive, the rounds of its listeners, its timers and its detached threads, in
    any order. Each method that holds its locks throughout is one step. The
    invariant holds in every reachable state, and the states follow the diagram
    of RFC 793 but for the exceptions listed. *)
From S2P Require Import Prelude Interfaces Packet Keys PacketQueue SendWindow RecvWindow.
From S2P Require Import Tcp TcpRecv TcpSend TcpConn.
Open Scope Z_scope.
Open Scope tcp_scope.

(** The arcs of the diagram of RFC 793. *)
Inductive rfc793 : TCP_STATE → TCP_STATE → Prop :=
  | rfc_passive_open : rfc793 CLOSED LISTEN
  | rfc_active_open : rfc793 CLOSED SYN_SENT
  | rfc_listen_syn : rfc793 LISTEN SYN_RCVD
  | rfc_listen_send : rfc793 LISTEN SYN_SENT
  | rfc_simultaneous_open : rfc793 SYN_SENT SYN_RCVD
  | rfc_syn_ack : rfc793 SYN_SENT ESTABLISHED
  | rfc_ack_of_syn : rfc793 SYN_RCVD ESTABLISHED
  | rfc_syn_rcvd_close : rfc793 SYN_RCVD FIN_WAIT_1
  | rfc_close : rfc793 ESTABLISHED FIN_WAIT_1
  | rfc_fin : rfc793 ESTABLISHED CLOSE_WAIT
  | rfc_ack_of_fin : rfc793 FIN_WAIT_1 FIN_WAIT_2
  | rfc_simultaneous_close : rfc793 FIN_WAIT_1 CLOSING
  | rfc_fin_wait_2 : rfc793 FIN_WAIT_2 TIME_WAIT
  | rfc_closing : rfc793 CLOSING TIME_WAIT
  | rfc_close_wait : rfc793 CLOSE_WAIT LAST_ACK
  | rfc_last_ack : rfc793 LAST_ACK CLOSED
  | rfc_time_wait : rfc793 TIME_WAIT CLOSED.

Section Connection.
Context `{!StopWatchOps, !TimerOps, !BufferOps, !MinOps}.
Implicit Types t : TcpController.

(** ** Steps *)

Inductive conn_step : TcpController → TcpController → Prop :=
  (** calls *)
  | cs_connect t now b t' : TcpController_TryConnect now t = Ok (b, t') → conn_step t t'
  | cs_write t buf r t' : TcpController_WriteData buf t = Some (r, t') → conn_step t t'
  | cs_read t size r bytes t' :
      TcpController_ReadData size t = Ok (Some (r, bytes, t')) → conn_step t t'
  | cs_shut_down t b t' : TcpController_TryShutDown t = (b, t') → conn_step t t'
  | cs_close t b t' : TcpController_TryClose t = (b, t') → conn_step t t'
  | cs_release_port t b : conn_step t (TcpController_SetReleasePort b t)
  (** segments *)
  | cs_segment t now g pkt g' t' : segment_wf pkt →
      TcpController_HandlePacket now g pkt t = Ok (g', t') → conn_step t t'
  | cs_from_host t pkt : conn_step t (TcpController_ReceiveNewPacket pkt t)
  | cs_to_host t pkts t' :
      TcpController_PacketSendBufferListener_round t = Some (pkts, t') → conn_step t t'
  (** listeners and tasks *)
  | cs_send t now t' : Buffer_size (tc_send_buffer t) < 2147483648 →
      TcpController_SendBufferListener_round now t = Ok t' → conn_step t t'
  | cs_overflow t t' : TcpController_ReceiveBufferListener_round t = Some t' → conn_step t t'
  | cs_fin t now t' : SendFIN ∈ tc_tasks t → sw_size (tc_send_window t) + 1 < 4294967296 →
      TcpController_SendFIN now t = Ok (Some t') → conn_step t t'
  | cs_reset t t' : SendRSTForClosedConnection ∈ tc_tasks t →
      TcpController_SendRSTForClosedConnection_round t = Some t' → conn_step t t'
  (** timers and detached threads *)
  | cs_retransmit t : conn_step t (TcpController_TimeoutReTransmitter t)
  | cs_probe t : conn_step t (TcpController_ProbeWindowSize t)
  | cs_timeout t : conn_step t (TcpController_CloseAndDelete t)
  | cs_kill t : conn_step t (TcpController_kill_thread t).

Definition options_wf (o : TcpControllerOptions) : Prop :=
  is_u32 (send_window_base o) ∧ is_u32 (send_window_size o).

Definition conn_reachable t : Prop :=
  ∃ socket key o, options_wf o ∧ rtc conn_step (TcpController_new socket key o) t.

(** ** The invariant *)

Record conn_ok t : Prop := {
  co_inv : conn_inv t;
  co_listen : tc_state t ≠ LISTEN;
}.

(** Where a step may take the state. *)
Definition state_arc t t' : Prop :=
  tc_state t' = tc_state t ∨ rfc793 (tc_state t) (tc_state t') ∨
  (tc_state t' = SYN_RCVD ∧ sw_size (tc_send_window t) = 0) ∨
  (tc_state t' = CLOSED ∧ SendRSTForClosedConnection ∈ tc_tasks t).

(** A step that leaves alone all the invariant speaks of. *)
Definition conn_same t t' : Prop :=
  tc_state t' = tc_state t ∧
  tc_recv_window t' = tc_recv_window t ∧ tc_recv_nodes t' = tc_recv_nodes t ∧
  (SendWindow_inv (tc_send_window t) → SendWindow_inv (tc_send_window t')).

Lemma conn_same_ok t t' : conn_same t t' → conn_ok t → conn_ok t' ∧ state_arc t t'.
Proof.
  intros (S & R & N & W) [[Hs Hr] Hl]. split; [|by left].
  split; [split; [auto | by rewrite R, N] | congruence].
Qed.

Lemma recv_frame_same t t' : recv_frame t t' → conn_same t t'.
Proof. intros ->. by split_and!. Qed.

Lemma CloseAndDelete_same t : conn_same t (TcpController_CloseAndDelete t).
Proof. unfold TcpController_CloseAndDelete. case_match; by split_and!. Qed.

Lemma SendPacket_same o t : conn_same t (TcpController_SendPacket o t).
Proof. destruct o; by split_and!. Qed.

Lemma state_after_arc seg e s : s ≠ LISTEN →
  (state_after seg e s = s ∨ rfc793 s (state_after seg e s)) ∧ state_after seg e s ≠ LISTEN.
Proof. intros Hs. destruct seg, s, e; split; try done; auto; right; constructor. Qed.

Context (Buffer_bytes : Buffer → list Z) (Buffer_capacity : Buffer → Z).
Context `{!BufferLaws Buffer_bytes Buffer_capacity, !MinLaws}.

(** *** Each kind of step *)

Lemma connect_ok now b t t' : conn_ok t → TcpController_TryConnect now t = Ok (b, t') →
  conn_ok t' ∧ state_arc t t'.
Proof.
  intros [[Hs Hr] Hl]. unfold TcpController_TryConnect.
  case_bool_decide as Hst; simpl; [|intros [= <- <-]; split; [by split | by left]].
  rewrite (SendWindow_SendPacket_eq now _ _ Hs) by done. cbn [mbind res_bind].
  destruct (has_room _ _ && _) eqn:Hc; intros Heq; simplify_eq/=.
  - apply andb_true_iff in Hc as [_ Hc%Z.eqb_eq].
    split; [|right; left; rewrite Hst; constructor]. split; [|done]. split; [|done]. simpl.
    unfold SendWindow_NextSeqNumberToSend in Hc. simpl in Hc.
    apply SendWindow_enqueue_inv; try done.
    assert (sw_size (tc_send_window t) = 0) as Hz.
    { destruct Hs as [Hb _ Hcg Hsz Ht]. apply contiguous_total in Hcg. unfold pkt_seq in Hc. simpl in Hc.
      unfold is_u32 in *. revert Hc. unfold u32. intros Hc.
      assert (0 <= sw_size (tc_send_window t) < 4294967296) by lia.
      destruct (decide (sw_send_base (tc_send_window t) + sw_size (tc_send_window t) < 4294967296)).
      - rewrite Z.mod_small in Hc; lia.
      - rewrite <- (Z.mod_add _ (-1)), Z.mod_small in Hc; lia. }
    simpl. lia.
  - split; [by split | by left].
Qed.

Lemma segment_ok now g pkt g' t t' : conn_ok t → segment_wf pkt →
  TcpController_HandlePacket now g pkt t = Ok (g', t') → conn_ok t' ∧ state_arc t t'.
Proof.
  intros [Hinv Hl] Hwf Hr. pose proof (HandlePacket_ok now g pkt t Hinv Hwf) as Hok.
  rewrite Hr in Hok. destruct (segment_of pkt) eqn:Hseg.
  { destruct Hok as (Hi & _ & [Hs|[Hz Hs]]).
    - split; [|by left]. split; [done | congruence].
    - split; [by split; [|rewrite Hs]|]. right; right; left. done. }
  all: destruct Hok as (Hi & Hs & _);
    match type of Hs with _ = state_after ?seg ?e ?s =>
      destruct (state_after_arc seg e s Hl) as [Ha Hn] end;
    rewrite <- Hs in Ha, Hn; (split; [by split|]); unfold state_arc; tauto.
Qed.

Lemma fin_ok now t t' : conn_ok t → sw_size (tc_send_window t) + 1 < 4294967296 →
  TcpController_SendFIN now t = Ok (Some t') → conn_ok t' ∧ state_arc t t'.
Proof.
  intros [[Hs Hr] Hl] Hsz Hf. destruct (tc_shutdown t) eqn:Hsh.
  { unfold TcpController_SendFIN in Hf. rewrite Hsh in Hf. simplify_eq.
    split; [by split | by left]. }
  pose proof (SendFIN_result _ _ now t Hs Hsz Hsh) as Hres. rewrite Hf in Hres.
  destruct Hres as (_ & Hs' & (f & _ & _ & _ & Hst) & R & N & _).
  assert (tc_state t' = (after_fin f t).1) as Hst' by by rewrite <- Hst.
  split; [split; [split; [done | by rewrite R, N]|]|]; unfold state_arc; rewrite Hst'; unfold after_fin.
  - destruct (tc_state t); done.
  - destruct (tc_state t); simpl; auto; right; left; constructor.
Qed.

Lemma send_ok now t t' : conn_ok t → Buffer_size (tc_send_buffer t) < 2147483648 →
  TcpController_SendBufferListener_round now t = Ok t' → conn_ok t' ∧ state_arc t t'.
Proof.
  intros Hok Hb Hr. apply conn_same_ok; [|done]. destruct Hok as [[Hs _] _].
  destruct (decide (0 < sw_capacity (tc_send_window t))) as [Hc|Hc].
  - destruct (SendBufferListener_round_spec _ _ now t Hs Hc Hb) as (ps & t1 & Hr1 & Hsent & _).
    rewrite Hr1 in Hr. simplify_eq. destruct Hsent as [F _ _ _ _ I _ _ _].
    split_and!; [by rewrite F..|done].
  - unfold TcpController_SendBufferListener_round in Hr.
    assert (sw_capacity (tc_send_window t) = 0) as Hz by (destruct Hs; unfold is_u32 in *; lia).
    rewrite Hz, andb_false_r in Hr. simpl in Hr. by destruct (Timer_started _); simplify_eq/=.
Qed.

Lemma conn_step_ok t t' : conn_ok t → conn_step t t' → conn_ok t' ∧ state_arc t t'.
Proof.
  intros Hok Hstep. destruct Hstep.
  - by eapply connect_ok.
  - apply conn_same_ok; [|done]. unfold TcpController_WriteData in *.
    repeat case_match; simplify_eq; by split_and!.
  - apply conn_same_ok; [|done]. unfold TcpController_ReadData in *.
    repeat case_match; simplify_eq; by split_and!.
  - apply conn_same_ok; [|done]. unfold TcpController_TryShutDown in *.
    case_match; simplify_eq; by split_and!.
  - apply conn_same_ok; [|done]. unfold TcpController_TryClose, TcpController_TryShutDown in *.
    repeat case_match; simplify_eq; by split_and!.
  - apply conn_same_ok; [by split_and!|done].
  - by eapply segment_ok.
  - apply conn_same_ok; [by split_and!|done].
  - apply conn_same_ok; [|done]. unfold TcpController_PacketSendBufferListener_round in *.
    repeat case_match; simplify_eq; by split_and!.
  - by eapply send_ok.
  - apply conn_same_ok; [|done]. unfold TcpController_ReceiveBufferListener_round in *.
    repeat case_match; simplify_eq. apply recv_frame_same, push_overflowed_frame.
  - by eapply fin_ok.
  - unfold TcpController_SendRSTForClosedConnection_round in *. destruct Hok as [[Hs Hr] Hl].
    repeat case_match; simplify_eq. split; [by split|]. right; right; right. done.
  - apply conn_same_ok; [|done]. unfold TcpController_TimeoutReTransmitter.
    destruct (0 <? _); [|by split_and!].
    pose proof (GetBase_inv (tc_send_window t)) as Hg.
    destruct (SendWindow_GetBasePakcketToReSend _) as [[pkt|] w]; by split_and!.
  - apply conn_same_ok; [|done]. unfold TcpController_ProbeWindowSize. case_match; by split_and!.
  - apply conn_same_ok; [apply CloseAndDelete_same|done].
  - apply conn_same_ok; [|done]. unfold TcpController_kill_thread. case_match; [by split_and!|].
    destruct (CloseAndDelete_same (t <| tc_kill_threads := n |>)) as (? & ? & ? & ?). by split_and!.
Qed.

Lemma conn_reachable_ok t : conn_reachable t → conn_ok t.
Proof.
  intros (socket & key & o & [Hb Hw] & Hr). revert Hr. apply rtc_invariant.
  - intros a b Ha Hab. by apply (conn_step_ok a b).
  - split; [|done]. split; [by apply SendWindow_new_inv|].
    exists (MkRecv (recv_window_base o) []).
    by apply (RecvWindow_new_rep (recv_window_base o) (recv_window_size o) heap_empty).
Qed.

(** ** The three-way handshake *)

(** The only packet of a window, acknowledged. *)
Lemma NewAckedPacket_single now w p watch n g :
  SendWindow_inv w → sw_pkts_to_ack w = [MkSendWindowNode p watch n] → pkt_len p = 1 →
  1 <= sw_capacity w →
  ∃ r, SendWindow_NewAckedPacket now (u32 (sw_send_base w + 1)) w g =
    Ok (r, SendWindow_acked (u32 (sw_send_base w + 1)) [] w, kMaxDuplicatedAcksOrigin) ∧
    re_transmit r = false.
Proof.
  intros Hinv Hpk Hlen Hcap.
  assert (total_len (swn_pkt <$> [] ++ [MkSendWindowNode p watch n]) = 1) as Htot.
  { csimpl. by rewrite total_len_cons, total_len_nil, Hlen. }
  rewrite (NewAckedPacket_prefix w [] (MkSendWindowNode p watch n) [] now g 1
    (u32 (sw_send_base w + 1))); try done.
  - by eexists.
  - unfold recognised. destruct Hinv as [Hb Hc _ _ _]. word_lia.
Qed.

(** The segment a fresh receive window expects. *)
Lemma receive_first pkt t :
  RecvWindow_rep (tc_recv_window t) (tc_recv_nodes t) (MkRecv (pkt_seq pkt) []) →
  ∃ chain t', TcpController_receive pkt t = Ok (u32 (pkt_seq pkt + pkt_len pkt), chain, t') ∧
    RecvWindow_rep (tc_recv_window t') (tc_recv_nodes t') (MkRecv (u32 (pkt_seq pkt + pkt_len pkt)) []) ∧
    t' = t <| tc_recv_window := tc_recv_window t' |> <| tc_recv_nodes := tc_recv_nodes t' |>.
Proof.
  intros Hrep. pose proof (ReceivePacket_refines pkt _ _ _ Hrep) as Href.
  unfold receive_refines, recv_spec in Href. simpl in Href.
  rewrite Z.ltb_irrefl, Z.eqb_refl in Href. simpl in Href.
  destruct Href as (chain & w' & h' & Hr & Hrep' & _).
  unfold TcpController_receive. rewrite Hr. simpl.
  exists chain, (t <| tc_recv_window := w' |> <| tc_recv_nodes := h' |>). by split_and!.
Qed.

Lemma first_segment_sent now p w : SendWindow_inv w → sw_pkts_to_ack w = [] → sw_size w = 0 →
  pkt_seq p = sw_send_base w → pkt_len p = 1 → 1 <= sw_capacity w →
  SendWindow_SendPacket now p w = Ok (true, SendWindow_enqueue now p w).
Proof.
  intros Hinv He Hz Hseq Hlen Hcap. rewrite (SendWindow_SendPacket_eq now p w Hinv) by (by rewrite Hlen).
  assert (has_room w p = true) as ->.
  { unfold has_room. apply orb_true_iff. right. apply Z.leb_le.
    rewrite SendWindow_free_space_eq by done. unfold pkt_len in Hlen. lia. }
  unfold SendWindow_NextSeqNumberToSend. rewrite Hz, Z.add_0_r, u32_small by apply Hinv.
  by rewrite Hseq, Z.eqb_refl.
Qed.

(** [w] holds one unacknowledged segment of length one at its base [b]. *)
Record one_segment (b : Z) (w : SendWindow) : Prop := {
  os_inv : SendWindow_inv w;
  os_base : sw_send_base w = b;
  os_size : sw_size w = 1;
  os_capacity : 1 <= sw_capacity w;
  os_node : ∃ p watch n, sw_pkts_to_ack w = [MkSendWindowNode p watch n] ∧ pkt_len p = 1;
}.

Lemma enqueue_one now p b cap : is_u32 b → is_u32 cap → 1 <= cap → pkt_seq p = b → pkt_len p = 1 →
  one_segment b (SendWindow_enqueue now p (SendWindow_new b cap)).
Proof.
  intros Hb Hc H1c Hseq Hlen. split; simpl; [|done| |done|].
  - apply SendWindow_enqueue_inv; [by apply SendWindow_new_inv| |lia|simpl; lia].
    unfold SendWindow_NextSeqNumberToSend; simpl. by rewrite Z.add_0_r, u32_small.
  - unfold pkt_len in Hlen. by rewrite Hlen.
  - eexists p, _, _. done.
Qed.

Lemma rep_base w h b q : RecvWindow_rep w h (MkRecv b q) → rw_recv_base w = b.
Proof. by intros (ns & [<- _ _ _ _]). Qed.

(** What the handshake leaves as it was. *)
Record idle_frame t t' : Prop := {
  if_send : tc_send_buffer t' = tc_send_buffer t;
  if_recv : tc_recv_buffer t' = tc_recv_buffer t;
  if_shutdown : tc_shutdown t' = tc_shutdown t;
  if_overflow : tc_overflow_pkts t' = tc_overflow_pkts t;
  if_pipe : tc_pipe_state t' = tc_pipe_state t;
  if_queue : pq_destroy (tc_pkt_send_buffer t') = pq_destroy (tc_pkt_send_buffer t);
}.

Section handshake.
Context (sc ss : Z) (kc ks : TcpControllerKey) (oc os : TcpControllerOptions).
Hypothesis Hoc : options_wf oc ∧ 1 <= send_window_size oc.
Hypothesis Hos : options_wf os ∧ 1 <= send_window_size os ∧ send_window_base os = 0.

#[local] Abbreviation b := (send_window_base oc).
Definition client0 : TcpController := TcpController_new sc kc oc.
(** The server's side, created for a SYN with sequence number [b]. *)
Definition server0 : TcpController :=
  TcpController_new ss ks (os <| recv_window_base := b |>).

(** First handshake. *)
Lemma handshake_connect now :
  ∃ c1, TcpController_TryConnect now client0 = Ok (true, c1) ∧ tc_state c1 = SYN_SENT ∧
    one_segment b (tc_send_window c1) ∧
    pq_packets (tc_pkt_send_buffer c1) = [TcpController_MakeSyncPacket b client0] ∧
    idle_frame client0 c1.
Proof.
  destruct Hoc as [[Hb Hw] Hcap]. unfold TcpController_TryConnect. simpl.
  rewrite first_segment_sent by (done || by apply SendWindow_new_inv). simpl.
  eexists. split; [done|]. simpl. split_and!; [done| |done|done]. by apply enqueue_one.
Qed.

(** Second: the server gets the SYN. *)
Lemma handshake_syn now g :
  let syn := TcpController_MakeSyncPacket b client0 in
  ∃ s1, TcpController_HandlePacket now g syn server0 = Ok (g, s1) ∧ tc_state s1 = SYN_RCVD ∧
    one_segment 0 (tc_send_window s1) ∧
    RecvWindow_rep (tc_recv_window s1) (tc_recv_nodes s1) (MkRecv (u32 (b + 1)) []) ∧
    idle_frame server0 s1 ∧
    ∃ sa, pq_packets (tc_pkt_send_buffer s1) = [sa] ∧ segment_of sa = SegSynAck ∧
      pkt_seq sa = 0 ∧ ack_num (tcp_header sa) = u32 (b + 1) ∧
      window_size (tcp_header sa) = u16 (Buffer_free_space (tc_recv_buffer server0)).
Proof.
  destruct Hos as ([Hb Hw] & Hcap & Hbase0). intros syn.
  rewrite HandlePacket_dispatch. change (segment_of syn) with SegSyn. cbv iota.
  destruct (receive_first syn server0) as (chain & s1 & Hrecv & Hbase & Heq).
  { by apply (RecvWindow_new_rep b (recv_window_size os) heap_empty). }
  change (pkt_len syn) with 1 in *. change (pkt_seq syn) with b in *.
  assert (tc_send_window s1 = SendWindow_new 0 (send_window_size os)) as Hw1
    by (rewrite Heq; simpl; by rewrite Hbase0).
  assert (tc_pkt_send_buffer s1 = PacketQueue_new ∧ tc_recv_buffer s1 = tc_recv_buffer server0)
    as [Hq1 Hr1] by by rewrite Heq.
  assert (idle_frame server0 s1) as [? ? ? ? ? ?] by (rewrite Heq; by split).
  unfold TcpController_HandleSYN. change (pkt_seq syn) with b. rewrite Hrecv.
  cbn [mbind res_bind]. rewrite Z.eqb_refl, Hw1. cbn [mbind res_bind sanity_check SendWindow_new sw_size].
  rewrite Z.ltb_irrefl.
  rewrite first_segment_sent by (done || by apply SendWindow_new_inv). cbn [mbind res_bind negb].
  eexists. split; [done|]. simpl. rewrite Hq1. split; [done|].
  split; [by apply enqueue_one|]. split; [done|]. split; [by split; simpl; rewrite ?Hq1|].
  eexists. split; [done|]. simpl. by rewrite Hr1.
Qed.

(** Third: the client gets the SYN_ACK. *)
Lemma handshake_syn_ack now g sa c1 :
  segment_of sa = SegSynAck → ack_num (tcp_header sa) = u32 (b + 1) →
  tc_state c1 = SYN_SENT → one_segment b (tc_send_window c1) →
  ∃ g' c2 a, TcpController_HandlePacket now g sa c1 = Ok (g', c2) ∧ tc_state c2 = ESTABLISHED ∧
    sw_packets (tc_send_window c2) = [] ∧ sw_send_base (tc_send_window c2) = u32 (b + 1) ∧
    sw_capacity (tc_send_window c2) = window_size (tcp_header sa) ∧
    rw_recv_base (tc_recv_window c2) = u32 (pkt_seq sa + 1) ∧
    pq_packets (tc_pkt_send_buffer c2) = pq_packets (tc_pkt_send_buffer c1) ++ [a] ∧
    segment_of a = SegAck ∧ ack_num (tcp_header a) = u32 (pkt_seq sa + 1) ∧
    window_size (tcp_header a) = u16 (Buffer_free_space (tc_recv_buffer c1)) ∧
    idle_frame c1 c2 ∧ (is_u32 (window_size (tcp_header sa)) → SendWindow_inv (tc_send_window c2)).
Proof.
  intros Hseg Hack Hst [Hinv Hb Hs Hc (p & watch & n & Hn & Hl)].
  pose proof (SendWindow_acked_inv _ _ [] Hinv (eq_sym (app_nil_r _))) as Hinv'.
  rewrite Hn in Hinv'. csimpl in Hinv'. rewrite total_len_cons, total_len_nil, Hl, Z.add_0_r in Hinv'.
  rewrite HandlePacket_dispatch, Hseg. unfold TcpController_HandleACKSYN.
  rewrite bool_decide_eq_true_2 by done. cbn [tc_send_window set set_tc_syn_timer].
  destruct (NewAckedPacket_single now _ p watch n g Hinv Hn Hl Hc) as (r & Hr & _).
  rewrite Hb in Hr. rewrite Hack, Hr. cbn [mbind res_bind].
  rewrite Hb in Hinv'.
  eexists _, _, _. split; [done|]. destruct (SendWindow_NumPacketsToAck _ =? 0);
    (split_and!; try done; by intros; apply set_capacity_inv).
Qed.

(** And the server gets the acknowledgement. *)
Lemma handshake_ack now g a s1 :
  segment_of a = SegAck → ack_num (tcp_header a) = u32 (0 + 1) →
  tc_state s1 = SYN_RCVD → one_segment 0 (tc_send_window s1) →
  ∃ g' s2, TcpController_HandlePacket now g a s1 = Ok (g', s2) ∧ tc_state s2 = ESTABLISHED ∧
    sw_packets (tc_send_window s2) = [] ∧ sw_send_base (tc_send_window s2) = 1 ∧
    sw_capacity (tc_send_window s2) = window_size (tcp_header a) ∧
    tc_recv_window s2 = tc_recv_window s1 ∧ tc_recv_nodes s2 = tc_recv_nodes s1 ∧
    idle_frame s1 s2 ∧ pq_packets (tc_pkt_send_buffer s2) = pq_packets (tc_pkt_send_buffer s1).
Proof.
  intros Hseg Hack Hst [Hinv Hb Hs Hc (p & watch & n & Hn & Hl)].
  rewrite HandlePacket_dispatch, Hseg.
  unfold TcpController_HandleACK, TcpController_HandleACK_window.
  destruct (NewAckedPacket_single now _ p watch n g Hinv Hn Hl Hc) as (r & Hr & Hre).
  rewrite Hb in Hr. rewrite Hack, Hr. cbn [mbind res_bind]. rewrite Hre.
  eexists _, _. split; [done|].
  unfold TcpController_HandleACK_state. cbn [SendWindow_acked sw_pkts_to_ack tc_send_window set set_tc_send_window].
  destruct (SendWindow_NumPacketsToAck _ =? 0), (0 <? TcpController_GetNewSendWindowSize _ _);
    simpl; rewrite Hst; by split_and!.
Qed.
End handshake.

(** *** The answer to a SYN *)

Definition syn_answer (pkt : Packet) t t' : Prop :=
  (sw_size (tc_send_window t) = 0 ∧ tc_state t' = SYN_RCVD ∧
   ∃ sa, sw_packets (tc_send_window t') = sw_packets (tc_send_window t) ++ [sa] ∧
     segment_of sa = SegSynAck ∧ ack_num (tcp_header sa) = u32 (pkt_seq pkt + 1)) ∨
  (tc_state t' = tc_state t ∧ sw_packets (tc_send_window t') = sw_packets (tc_send_window t)).

Lemma GetBase_packets w : sw_packets (SendWindow_GetBasePakcketToReSend w).2 = sw_packets w.
Proof.
  unfold SendWindow_GetBasePakcketToReSend, sw_packets.
  by destruct (sw_pkts_to_ack w) eqn:Hw; simpl; rewrite ?Hw.
Qed.

Lemma HandleSYN_answer now pkt t b t' : conn_inv t →
  TcpController_HandleSYN now pkt t = Ok (b, t') → syn_answer pkt t t'.
Proof.
  intros Hinv Hr. unfold TcpController_HandleSYN in Hr.
  pose proof (TcpController_receive_spec pkt t Hinv) as Hrec.
  destruct (TcpController_receive pkt t) as [[[a chain] t1]|f]; [|done].
  destruct Hrec as ([Hs _] & _ & Ht1). cbn [mbind res_bind] in Hr.
  apply bind_Ok in Hr as (u & ->%sanity_check_Ok%Z.eqb_eq & Hr).
  assert (tc_state t1 = tc_state t ∧ tc_send_window t1 = tc_send_window t) as (S1 & S2) by (by rewrite Ht1).
  clear Ht1. unfold syn_answer. rewrite <- S1, <- S2. clear S1 S2.
  destruct (Z.ltb_spec 0 (sw_size (tc_send_window t1))) as [Hpos|Hz].
  - right. pose proof (GetBase_packets (tc_send_window t1)) as Hg.
    destruct (SendWindow_GetBasePakcketToReSend _) as [base w]. injection Hr as <- <-. by destruct base.
  - rewrite (SendWindow_SendPacket_eq now _ _ Hs) in Hr by done. cbn [mbind res_bind] in Hr.
    assert (0 <= sw_size (tc_send_window t1)) by (rewrite (swi_size _ Hs); eapply contiguous_total, Hs).
    destruct (has_room _ _ && _); cbn [negb] in Hr; injection Hr as <- <-; [left|by right].
    split; [lia|]. split; [done|]. eexists. cbn [tc_send_window set set_tc_send_window].
    split; [apply sw_packets_enqueue|done].
Qed.

(** ** Properties *)

(** C9. The three-way handshake. For any keys, buffers and options (an initial
    sequence number of the client that wraps around included), with windows of
    at least one byte and the server's side created for the client's SYN: the
    SYN, the SYN_ACK and the ACK, each made by one side and handled by the other,
    bring both sides to ESTABLISHED; nothing is left unacknowledged; each side's
    send base is what the other expects next; and each send window has the size
    of the other side's free receive buffer, modulo 2^16. *)
Theorem three_way_handshake sc ss kc ks oc os now1 now2 now3 now4 g
    (Hoc : options_wf oc ∧ 1 <= send_window_size oc)
    (Hos : options_wf os ∧ 1 <= send_window_size os ∧ send_window_base os = 0) :
  ∃ syn sa a c1 s1 c2 s2 g2 g3,
    TcpController_TryConnect now1 (client0 sc kc oc) = Ok (true, c1) ∧
    pq_packets (tc_pkt_send_buffer c1) = [syn] ∧
    TcpController_HandlePacket now2 g syn (server0 ss ks oc os) = Ok (g, s1) ∧
    pq_packets (tc_pkt_send_buffer s1) = [sa] ∧
    TcpController_HandlePacket now3 g sa c1 = Ok (g2, c2) ∧
    pq_packets (tc_pkt_send_buffer c2) = [syn; a] ∧
    TcpController_HandlePacket now4 g2 a s1 = Ok (g3, s2) ∧
    tc_state c2 = ESTABLISHED ∧ tc_state s2 = ESTABLISHED ∧
    sw_packets (tc_send_window c2) = [] ∧ sw_packets (tc_send_window s2) = [] ∧
    sw_send_base (tc_send_window c2) = u32 (send_window_base oc + 1) ∧
    rw_recv_base (tc_recv_window s2) = u32 (send_window_base oc + 1) ∧
    sw_send_base (tc_send_window s2) = 1 ∧ rw_recv_base (tc_recv_window c2) = 1 ∧
    sw_capacity (tc_send_window c2) = u16 (Buffer_free_space (tc_recv_buffer (server0 ss ks oc os))) ∧
    sw_capacity (tc_send_window s2) = u16 (Buffer_free_space (tc_recv_buffer c1)).
Proof.
  destruct (handshake_connect sc kc oc Hoc now1) as (c1 & E1 & S1 & W1 & Q1 & _).
  destruct (handshake_syn sc ss kc ks oc os Hos now2 g)
    as (s1 & E2 & S2 & W2 & R2 & _ & sa & Q2 & K2 & N2 & A2 & Z2).
  destruct (handshake_syn_ack oc now3 g sa c1 K2 A2 S1 W1)
    as (g2 & c2 & a & E3 & S3 & P3 & B3 & C3 & R3 & Q3 & K3 & A3 & Z3 & _).
  rewrite N2 in A3, R3. rewrite Z2 in C3. rewrite Q1 in Q3.
  destruct (handshake_ack now4 g2 a s1 K3 A3 S2 W2) as (g3 & s2 & E4 & S4 & P4 & B4 & C4 & R4 & _).
  rewrite Z3 in C4. apply rep_base in R2. rewrite <- R4 in R2.
  exists (TcpController_MakeSyncPacket (send_window_base oc) (client0 sc kc oc)), sa, a, c1, s1, c2, s2, g2, g3.
  by split_and!.
Qed.

(** C10. In every reachable state of a connection the send window is contiguous
    and the receive window is a well-formed list on its heap; the state is never
    LISTEN, which is the host's business. *)
Theorem connection_invariant t (Hreach : conn_reachable t) :
  conn_inv t ∧ tc_state t ≠ LISTEN.
Proof. by destruct (conn_reachable_ok t Hreach). Qed.

(** C11. Every step of a connection follows the diagram of RFC 793, except that a
    SYN moves a connection with an empty send window to SYN_RCVD from whatever
    state it is in, and that data arriving after [Close] moves it to CLOSED. *)
Theorem connection_follows_rfc793 t t' (Hreach : conn_reachable t) (Hstep : conn_step t t') :
  tc_state t' = tc_state t ∨ rfc793 (tc_state t) (tc_state t') ∨
  (tc_state t' = SYN_RCVD ∧ sw_size (tc_send_window t) = 0) ∨
  (tc_state t' = CLOSED ∧ SendRSTForClosedConnection ∈ tc_tasks t).
Proof. by apply (conn_step_ok t t' (conn_reachable_ok t Hreach) Hstep). Qed.

(** C12. The handlers, in every reachable state and for every segment whose fields
    fit their types: a handler follows no null or dangling pointer; it fails
    only in a sanity check, in the overflow of the retransmission tolerance or
    in the endless loop on a SYN segment; otherwise the invariant is kept. A SYN
    is answered, whatever the state: with nothing unacknowledged the SYN_ACK that
    acknowledges it goes into the send window and the state becomes SYN_RCVD, or
    state and window stay as they are. After any other segment the new state is
    the one [state_after] gives, and the deletion of the connection is started
    exactly by an RST and by the last ACK. *)
Theorem HandlePacket_spec t now g pkt
    (Hreach : conn_reachable t) (Hwf : segment_wf pkt) :
  match TcpController_HandlePacket now g pkt t with
  | Fault f => f = SanityCheckFailed ∨ f = BadConversion ∨ f = OutOfFuel
  | Ok (_, t') => conn_inv t' ∧
      match segment_of pkt with
      | SegSyn => tc_shutdown t' = tc_shutdown t ∧ syn_answer pkt t t'
      | seg => tc_state t' = state_after seg (window_empty t') (tc_state t) ∧
          tc_shutdown t' = tc_shutdown t || closes seg (window_empty t') (tc_state t)
      end
  end.
Proof.
  destruct (conn_reachable_ok t Hreach) as [Hinv _].
  pose proof (HandlePacket_ok now g pkt t Hinv Hwf) as Hok.
  destruct (TcpController_HandlePacket now g pkt t) as [[g' t']|] eqn:Hr; [|done].
  destruct (segment_of pkt) eqn:Hseg; try done. destruct Hok as (Hinv' & Hs & _).
  split; [done|]. split; [done|]. rewrite HandlePacket_dispatch, Hseg in Hr.
  apply bind_Ok in Hr as ([b t1] & Hr & [= <- <-]). by eapply HandleSYN_answer.
Qed.

(** In the state CLOSING any acknowledgement moves to TIME_WAIT, and starts
    the three seconds after which the connection is deleted, although the FIN is
    still unacknowledged: unlike in FIN_WAIT_1 and LAST_ACK, the code does not
    look at the send window. *)
Theorem CLOSING_leaves_on_any_ack t now g pkt
    (Hst : tc_state t = CLOSING) (Hne : sw_pkts_to_ack (tc_send_window t) ≠ [])
    (Hseg : segment_of pkt = SegAck)
    (Hack : ack_num (tcp_header pkt) = sw_send_base (tc_send_window t))
    (Hdup : u32 (sw_duplicated_acks (tc_send_window t) + 1) < g) :
  ∃ t', TcpController_HandlePacket now g pkt t = Ok (g, t') ∧ tc_state t' = TIME_WAIT ∧
    sw_packets (tc_send_window t') = sw_packets (tc_send_window t) ∧
    tc_kill_threads t' = S (tc_kill_threads t).
Proof.
  rewrite HandlePacket_dispatch, Hseg.
  unfold TcpController_HandleACK, TcpController_HandleACK_window.
  rewrite Hack, NewAckedPacket_dup. cbv zeta. rewrite (proj2 (Z.leb_gt _ _) Hdup).
  cbn [mbind res_bind re_transmit]. eexists. split; [done|].
  unfold TcpController_HandleACK_state.
  destruct (SendWindow_NumPacketsToAck _ =? 0), (0 <? TcpController_GetNewSendWindowSize _ _);
    simpl; rewrite Hst; by split_and!.
Qed.

(** Once a connection is shut down every wait of its threads and of its users
    is over but one: with a full receive buffer [ReceiveBufferListener] stays
    blocked, since its wait looks at nothing else, and no read can make room any
    more, since [ReadData] then returns -1 without reading. [TearDown], which
    waits for the pool's threads, does not end. *)
Theorem TearDown_waits t (Hdown : tc_shutdown t = true) :
  (SendBufferListener_state_wait t = true ∧ SendBufferListener_window_wait t = true ∧
   SendBufferListener_buffer_wait t = true ∧ SendFIN_wait t = true ∧ SendRST_wait t = true ∧
   WriteData_wait t = true ∧ ReadData_wait t = true) ∧
  (Buffer_full (tc_recv_buffer t) = true → ReceiveBufferListener_wait t = false ∧
    ∀ size r bytes t', TcpController_ReadData size t = Ok (Some (r, bytes, t')) → t' = t).
Proof.
  unfold SendBufferListener_state_wait, SendBufferListener_window_wait,
    SendBufferListener_buffer_wait, SendFIN_wait, SendRST_wait, WriteData_wait, ReadData_wait,
    ReceiveBufferListener_wait. rewrite Hdown. split; [done|]. intros ->. split; [done|].
  intros size r bytes t'. unfold TcpController_ReadData, ReadData_wait. rewrite Hdown.
  repeat case_match; congruence.
Qed.
End Connection.

(** ** Concrete instances *)

#[local] Existing Instance simple_StopWatch.
#[local] Existing Instance simple_Timer.
#[local] Existing Instance simple_Buffer.
#[local] Existing Instance simple_Min.

#[local] Abbreviation default_options := TcpController_GetDefaultOptions.

Lemma three_way_handshake_witness : ∃ c2 s2 : TcpController,
  tc_state c2 = ESTABLISHED ∧ tc_state s2 = ESTABLISHED ∧ sw_capacity (tc_send_window c2) = 100.
Proof.
  destruct (three_way_handshake 0 1 TcpControllerKey_default TcpControllerKey_default
    default_options default_options 1 2 3 4 3)
    as (syn & sa & a & c1 & s1 & c2 & s2 & g2 & g3 & _ & _ & _ & _ & _ & _ & _ & Hc & Hs & _ & _ & _ & _ & _ & _ & Hcap & _).
  - done.
  - done.
  - exists c2, s2. split; [exact Hc|]. split; [exact Hs|]. rewrite Hcap. done.
Defined.

(** A fresh connection, and one that has sent its SYN. *)
Definition fresh_conn : TcpController :=
  TcpController_new 0 TcpControllerKey_default default_options.

Lemma fresh_reachable : conn_reachable fresh_conn.
Proof. exists 0, TcpControllerKey_default, default_options. split; [done | apply rtc_refl]. Qed.

Lemma connection_invariant_witness : ∃ t,
  conn_step fresh_conn t ∧ tc_state t = SYN_SENT ∧ conn_inv t ∧ tc_state t ≠ LISTEN.
Proof.
  destruct (handshake_connect 0 TcpControllerKey_default default_options) with (now := 1)
    as (c1 & Hc & Hs & _); [done|].
  assert (conn_step fresh_conn c1) as Hstep by by eapply cs_connect.
  assert (conn_reachable c1) as Hreach.
  { exists 0, TcpControllerKey_default, default_options. split; [done|]. by apply rtc_once. }
  exists c1. split; [exact Hstep|]. split; [exact Hs|].
  exact (connection_invariant _ _ c1 Hreach).
Defined.

Definition ack_segment (n : Z) : Packet :=
  Packet_new IPHeader_default (TcpHeader_default <| ack := true |> <| ack_num := n |>).

Lemma connection_follows_rfc793_witness : ∃ t',
  conn_step fresh_conn t' ∧ tc_state t' = SYN_SENT ∧ rfc793 (tc_state fresh_conn) (tc_state t').
Proof.
  destruct (handshake_connect 0 TcpControllerKey_default default_options) with (now := 1)
    as (c1 & Hc & Hs & _); [done|].
  exists c1. assert (conn_step fresh_conn c1) as Hstep by by eapply cs_connect.
  split; [done|]. split; [done|].
  destruct (connection_follows_rfc793 _ _ fresh_conn c1 fresh_reachable Hstep)
    as [He|[Hr|[[He _]|[He _]]]]; [|exact Hr| |]; rewrite He in Hs; done.
Defined.

Definition syn_segment : Packet :=
  (Packet_new IPHeader_default (TcpHeader_default <| sync := true |>)) <| payload_size := 1 |>.

Lemma fresh_handles_syn : is_ok (TcpController_HandlePacket 1 3 syn_segment fresh_conn) = true.
Proof. vm_compute. reflexivity. Qed.

Lemma HandlePacket_spec_witness :
  match TcpController_HandlePacket 1 3 (ack_segment 0) fresh_conn with
  | Ok (_, t') => tc_state t' = CLOSED
  | Fault _ => False
  end ∧
  ∃ g t', TcpController_HandlePacket 1 3 syn_segment fresh_conn = Ok (g, t') ∧
    syn_answer syn_segment fresh_conn t'.
Proof.
  split.
  - destruct (HandlePacket_spec _ _ fresh_conn 1 3 (ack_segment 0)) as (_ & H & _);
      [apply fresh_reachable | done | exact H].
  - pose proof fresh_handles_syn as Hok.
    pose proof (HandlePacket_spec _ _ fresh_conn 1 3 syn_segment fresh_reachable) as H.
    destruct (TcpController_HandlePacket 1 3 syn_segment fresh_conn) as [[g t']|]; [|discriminate Hok].
    destruct H as (_ & _ & H); [done|]. exists g, t'. split; [reflexivity|exact H].
Defined.

Definition closing_conn : TcpController :=
  fresh_conn <| tc_state := CLOSING |>
    <| tc_send_window := SendWindow_enqueue 0 (hello_pkt 0) (SendWindow_new 0 100) |>.

Lemma CLOSING_leaves_on_any_ack_witness : ∃ t',
  TcpController_HandlePacket 1 3 (ack_segment 0) closing_conn = Ok (3, t') ∧
  tc_state t' = TIME_WAIT.
Proof.
  destruct (CLOSING_leaves_on_any_ack closing_conn 1 3 (ack_segment 0)) as (t' & H & Hs & _);
    [done | done | done | done | done |].
  exists t'. split; [exact H | exact Hs].
Defined.

Lemma TearDown_waits_witness :
  SendFIN_wait (fresh_conn <| tc_shutdown := true |>) = true.
Proof. by apply (TearDown_waits (fresh_conn <| tc_shutdown := true |>)). Defined.
