(* ===== verification/ConnWf.v ===== *)
(** * Well-formed connections

    What a connection relies on in the packets it receives holds of the packets it
    sends: every field fits its type, and the flags, the size and the payload are
    those of one of the six kinds of segments. With it go the bounds that the
    overflow-free arithmetic of [Connection] needs. [conn_wf n] bounds the send
    window by [n], and looks at every place of a connection where packets wait. *)
From S2P Require Import Prelude Interfaces Packet Keys PacketQueue SendWindow RecvWindow.
From S2P Require Import Tcp TcpRecv TcpSend TcpConn Connection.
Open Scope Z_scope.
Open Scope tcp_scope.

(** ** Packets and queues *)

(** The segments of the protocol: SYN, SYN_ACK and FIN have no payload and one
    sequence number, ACK and RST have neither, and a segment without flags is data:
    at most ten bytes, as many as it says. No other flags go together. *)
Definition packet_shape (p : Packet) : Prop :=
  let h := tcp_header p in
  if sync h then fin h = false ∧ rst h = false ∧ packet_bytes p = [] ∧ payload_size p = 1
  else if fin h then ack h = false ∧ rst h = false ∧ packet_bytes p = [] ∧ payload_size p = 1
  else if ack h || rst h then ack h && rst h = false ∧ packet_bytes p = [] ∧ payload_size p = 0
  else payload_size p = Z.of_nat (length (packet_bytes p)) ∧ payload_size p <= kDefaultDataPacketSize.

Record well_formed (p : Packet) : Prop := {
  wp_fields : packet_wf p;
  wp_shape : packet_shape p;
}.

Lemma Copy_wf p : well_formed p → well_formed (Packet_Copy p).
Proof.
  intros [Hp Hs]. destruct (Packet_Copy_faithful p Hp) as (_ & Eh & Ez & Eb & _ & Hp').
  split; [done|]. unfold packet_shape in *. by rewrite Eh, Ez, Eb.
Qed.

Lemma corrupted_wf p b : well_formed p → well_formed (p <| corrupted := b |>).
Proof. intros [Hp Hs]. split; [by destruct Hp; split|exact Hs]. Qed.

Lemma plain_wf p : plain_segment p → data_packet p ∧ payload_size p <= kDefaultDataPacketSize →
  packet_wf p → well_formed p.
Proof.
  intros [_ Hsy Hfi Ha Hr _] [[Hd _] Hsz] Hp. split; [done|]. unfold packet_shape, is_sync, is_fin in *.
  by rewrite Hsy, Hfi, Ha, Hr.
Qed.

(** The segments a connection or a host makes. *)
Ltac made_wf :=
  split; [split; [split_and!; simpl; try done; word_lia|simpl; lia|done]
         |unfold packet_shape; simpl; by split_and!].

Lemma push_loop_Forall (P : Packet → Prop) n pkts dst :
  Forall P pkts → Forall P dst → Forall P (push_loop n pkts dst).1 ∧ Forall P (push_loop n pkts dst).2.
Proof.
  revert pkts dst. induction n as [|n IH]; intros pkts dst Hp Hd; simpl; [done|].
  destruct Hp as [|p pkts Hpp Hp]; [by split|]. apply IH; [done|]. apply Forall_app. split; [done|by apply Forall_singleton].
Qed.

Lemma PushAll_Forall (P : Packet → Prop) pkts q n rest q' :
  PacketQueue_PushAll pkts q = (n, rest, q') → Forall P pkts → Forall P (pq_packets q) →
  Forall P (pq_packets q').
Proof.
  unfold PacketQueue_PushAll. intros Hr Hp Hq.
  destruct (push_loop_Forall P (Z.to_nat (u32 (Z.of_nat (length pkts)))) _ _ Hp Hq) as [_ H2].
  destruct (push_loop _ _ _). by simplify_eq/=.
Qed.

Lemma DeQueueAllTo_Forall (P : Packet → Prop) b q n pkts q' :
  PacketQueue_DeQueueAllTo [] b q = Some (n, pkts, q') → Forall P (pq_packets q) →
  Forall P pkts ∧ Forall P (pq_packets q').
Proof.
  unfold PacketQueue_DeQueueAllTo, PacketQueue_DeQueueAllTo_locked. intros Hr Hq.
  repeat case_match; simplify_eq/=; (split; [try done|try done]); try congruence; by constructor.
Qed.

Section ConnWf.
Context {SWO : StopWatchOps} {TMO : TimerOps} {BFO : BufferOps} {MNO : MinOps}.
Context {Buffer_bytes : Buffer → list Z} {Buffer_capacity : Buffer → Z}.
Context {BFL : BufferLaws Buffer_bytes Buffer_capacity} {MNL : MinLaws}.
Implicit Types (t : TcpController) (w : SendWindow) (p : Packet).

(** ** Windows *)

Record window_wf (n : Z) w : Prop := {
  ww_inv : SendWindow_inv w;
  ww_packets : Forall well_formed (sw_packets w);
  ww_size : sw_size w <= n;
  ww_capacity : sw_capacity w <= n;
}.

Lemma window_wf_mono n m w : n <= m → window_wf n w → window_wf m w.
Proof. intros Hnm []. split; [done|done|lia|lia]. Qed.

Lemma window_wf_size n w : window_wf n w → 0 <= sw_size w.
Proof. intros [H _ _ _]. rewrite (swi_size _ H). eapply contiguous_total, H. Qed.

Lemma acked_wf now n ack w g r w' g' : window_wf n w → is_u32 ack →
  SendWindow_NewAckedPacket now ack w g = Ok (r, w', g') → window_wf n w'.
Proof.
  intros [Hi Hp Hs Hc] Ha Hr. pose proof (NewAckedPacket_inv w ack now g r w' g' Hi Ha Hr) as Hi'.
  assert (sw_packets w' `suffix_of` sw_packets w ∧ sw_capacity w' = sw_capacity w) as [[l Hl] Hc'].
  { unfold SendWindow_NewAckedPacket in Hr. case_match.
    - apply bind_Ok in Hr as ([[[[c1 c2] rtt] size] l2] & Hpop & Hr).
      apply bind_Ok in Hr as (? & _ & [= <- <- <-]).
      apply pop_acked_suffix in Hpop as (l1 & Hl1 & _). rewrite (sw_packets_app _ _ _ Hl1).
      split; [by eexists|done].
    - case_match; [|by injection Hr as <- <- <-]. case_match; [|by injection Hr as <- <- <-].
      apply bind_Ok in Hr as (? & _ & [= <- <- <-]). done. }
  split; [done| | |by rewrite Hc'].
  - rewrite Hl in Hp. by apply Forall_app in Hp as [_ Hp].
  - pose proof (swi_contiguous _ Hi) as Hcg. rewrite (swi_size _ Hi'). rewrite (swi_size _ Hi) in Hs.
    rewrite Hl in Hcg, Hs. apply contiguous_app in Hcg as [Hl1%contiguous_total _].
    rewrite total_len_app in Hs. lia.
Qed.

Lemma capacity_wf n c w : window_wf n w → 0 <= c <= n → n < 4294967296 →
  window_wf n (w <| sw_capacity := c |>).
Proof. intros [Hi Hp Hs Hc] Hcn Hn. split; [apply set_capacity_inv; [done|unfold is_u32; lia]|done|done|simpl; lia]. Qed.

Lemma get_base_wf n w : window_wf n w →
  window_wf n (SendWindow_GetBasePakcketToReSend w).2 ∧
  ∀ p, (SendWindow_GetBasePakcketToReSend w).1 = Some p → well_formed p.
Proof.
  intros [Hi Hp Hs Hc]. pose proof (GetBase_inv w Hi) as Hi'. revert Hi'.
  unfold SendWindow_GetBasePakcketToReSend, sw_packets in *. destruct (sw_pkts_to_ack w) as [|nd l] eqn:Hl; simpl; intros Hi'.
  - split; [|done]. split; [done|by unfold sw_packets; rewrite Hl|done|done].
  - split; [split; [done|by unfold sw_packets; simpl; rewrite Hl|done|done]|].
    intros p [= <-]. csimpl in Hp. apply Forall_cons in Hp as [Hp _]. by apply Copy_wf.
Qed.

(** A packet of one byte may be taken beyond the capacity; a larger one may not. *)
Lemma send_packet_wf now n p w b w' : window_wf n w → well_formed p → 0 < pkt_len p →
  n + 1 < 4294967296 → pkt_len p = 1 ∨ 0 < sw_capacity w →
  SendWindow_SendPacket now p w = Ok (b, w') →
  window_wf (if (0 <? sw_capacity w) || (sw_size w + pkt_len p <=? n) then n else n + 1) w'.
Proof.
  intros Hw Hp Hlen Hn Hor. pose proof (window_wf_size _ _ Hw) as Hs0. destruct Hw as [Hi Hpk Hs Hc].
  assert (is_u32 (pkt_len p)) as Hu by (destruct Hp as [[] _]; unfold pkt_len, is_u32 in *; lia).
  rewrite (SendWindow_SendPacket_eq now p w Hi Hu). intros Hr. injection Hr as Hr.
  set (m := if _ || _ then n else n + 1).
  assert (n <= m <= n + 1) as Hm by (subst m; destruct (_ || _); lia).
  destruct (has_room w p && _) eqn:Hroom; simplify_eq; [|by apply (window_wf_mono n); [lia|split]].
  apply andb_true_iff in Hroom as [Hroom Hseq%Z.eqb_eq].
  assert (sw_size w + pkt_len p <= m) as Hsum.
  { unfold has_room in Hroom. rewrite SendWindow_free_space_eq in Hroom by done.
    apply orb_true_iff in Hroom as [Hz%Z.eqb_eq|Hle%Z.leb_le].
    - destruct Hor as [H1|]; [|lia]. subst m. rewrite Hz. simpl.
      destruct (Z.leb_spec (sw_size w + pkt_len p) n); lia.
    - unfold pkt_len in *. lia. }
  assert (sw_size w + pkt_len p < 4294967296) as Hlt by lia.
  split.
  - by apply SendWindow_enqueue_inv.
  - rewrite sw_packets_enqueue. apply Forall_app. split; [done|by apply Forall_singleton].
  - simpl. unfold pkt_len in *. rewrite u32_small; [lia|]. unfold is_u32. lia.
  - simpl. lia.
Qed.

(** ** The receive pipeline

    The queue of the receive window, on its heap, and the overflow queue. *)

Lemma dseg_inj h prev ns ns' : dseg h prev ns None → dseg h prev ns' None →
  first_loc ns None = first_loc ns' None → ns = ns'.
Proof.
  revert prev ns'. induction ns as [|[l p] ns IH]; intros prev [|[l' p'] ns'] H1 H2 Hf; try done.
  simpl in *. injection Hf as <-. destruct H1 as [H1 D1], H2 as [H2 D2].
  rewrite H1 in H2. injection H2 as <- Hn. f_equal. by eapply IH.
Qed.

(** A window on a heap has one queue. *)
Lemma RecvWindow_rep_queue (rw : RecvWindow) h s s' : RecvWindow_rep rw h s → RecvWindow_rep rw h s' →
  rs_queue s = rs_queue s'.
Proof.
  intros (ns & [_ -> [H1 D1] _ _]) (ns' & [_ -> [H2 D2] _ _]). rewrite H1 in H2.
  injection H2 as Hf. by rewrite (dseg_inj _ _ _ _ D1 D2 Hf).
Qed.

Record pipe_wf t : Prop := {
  pw_window : ∃ s, RecvWindow_rep (tc_recv_window t) (tc_recv_nodes t) s ∧ Forall well_formed (rs_queue s);
  pw_overflow : Forall well_formed (tc_overflow_pkts t);
}.

Lemma recv_insert_Forall (P : Packet → Prop) p q q' :
  recv_insert p q = Ok q' → P p → Forall P q → Forall P q'.
Proof.
  revert q'. induction q as [|x q IH]; intros q'; simpl; [intros [= <-] ? _; by apply Forall_singleton|].
  intros Hr Hp [Hx Hq]%Forall_cons. case_match.
  - apply bind_Ok in Hr as (u & _ & Hr). apply bind_Ok in Hr as (r & Hr & [= <-]).
    apply Forall_cons. split; [done|by eapply IH].
  - apply bind_Ok in Hr as (u & _ & [= <-]). by repeat apply Forall_cons_2.
Qed.

Lemma recv_run_Forall (P : Packet → Prop) p q run lst rest :
  recv_run p q = (run, lst, rest) → P p → Forall P q → Forall P run ∧ Forall P rest.
Proof.
  revert p run lst rest. induction q as [|x q IH]; intros p run lst rest; simpl.
  - intros [= <- <- <-] ? _. split; [by apply Forall_singleton|done].
  - intros Hr Hp [Hx Hq]%Forall_cons. case_match.
    + destruct (recv_run x q) as [[run' lst'] rest'] eqn:Hx'. injection Hr as <- <- <-.
      destruct (IH x run' lst' rest' Hx' Hx Hq). split; [by apply Forall_cons|done].
    + injection Hr as <- <- <-. split; [by apply Forall_singleton|by apply Forall_cons].
Qed.

Lemma recv_spec_Forall (P : Packet → Prop) p s a pkts s' :
  recv_spec p s = Ok (a, pkts, s') → P p → Forall P (rs_queue s) →
  Forall P pkts ∧ Forall P (rs_queue s').
Proof.
  unfold recv_spec. intros Hs Hp Hq. case_match; [by injection Hs as <- <- <-|].
  apply bind_Ok in Hs as (q & Hins & Hs). case_match; last first.
  { injection Hs as <- <- <-. split; [done|]. by eapply recv_insert_Forall. }
  apply bind_Ok in Hs as (? & _ & Hs). destruct (recv_run p (rs_queue s)) as [[run lst] rest] eqn:Hrun.
  injection Hs as <- <- <-. by eapply recv_run_Forall.
Qed.

Lemma push_overflowed_Forall (P : Packet → Prop) n pkts b :
  Forall P pkts → Forall P (push_overflowed n pkts b).1.
Proof.
  revert pkts b. induction n as [|n IH]; intros [|p pkts] b Hp; simpl; try done.
  case_match; [|done]. destruct (write_payload p b) as [k b'].
  case_match; [|done]. apply IH. by apply Forall_cons in Hp as [_ Hp].
Qed.

Lemma pipe_wf_frame t t' :
  tc_recv_window t' = tc_recv_window t → tc_recv_nodes t' = tc_recv_nodes t →
  tc_overflow_pkts t' = tc_overflow_pkts t → pipe_wf t → pipe_wf t'.
Proof. intros E1 E2 E3 []. by split; rewrite ?E1, ?E2, ?E3. Qed.

(** What leaves the pipeline alone, by [done]. *)
#[local] Hint Extern 0 (pipe_wf _) =>
  match goal with H : pipe_wf ?t |- _ => apply (pipe_wf_frame t); [reflexivity..|exact H] end : core.

Lemma set_base_pipe_wf b t : pipe_wf t →
  pipe_wf (t <| tc_recv_window := (tc_recv_window t) <| rw_recv_base := b |> |>).
Proof.
  intros [([b0 q] & (ns & [? ? ? ? ?]) & Hq) Ho]. split; [|done]. exists (MkRecv b q). split; [|done].
  exists ns. by split.
Qed.

Lemma push_overflowed_pipe_wf t : pipe_wf t →
  pipe_wf (TcpController_PushOverflowedPacketsToSocketBuffer t).
Proof.
  intros [Hw Ho]. unfold TcpController_PushOverflowedPacketsToSocketBuffer.
  pose proof (push_overflowed_Forall well_formed (length (tc_overflow_pkts t)) _ (tc_recv_buffer t) Ho) as Hp.
  destruct (push_overflowed _ _ _). by split.
Qed.

Lemma stream_one_pipe_wf p t : well_formed p → pipe_wf t → pipe_wf (stream_one p t).
Proof.
  intros Hp Hw. assert (pipe_wf (t <| tc_overflow_pkts := tc_overflow_pkts t ++ [p] |>)) as Ho.
  { destruct Hw. split; [done|]. apply Forall_app. split; [done|by apply Forall_singleton]. }
  unfold stream_one. case_match; [|done]. destruct (write_payload p (tc_recv_buffer t)) as [k b].
  case_match; [by apply (pipe_wf_frame (t <| tc_overflow_pkts := tc_overflow_pkts t ++ [p] |>))|].
  by apply (pipe_wf_frame t).
Qed.

Lemma stream_loop_pipe_wf fuel l p pv ns t t' :
  lseg (hp_cells (tc_recv_nodes t)) l (Some p) pv ns None → Forall well_formed (p :: ns.*2) → pipe_wf t →
  stream_loop fuel (Some l) t = Ok t' → pipe_wf t'.
Proof.
  revert l p pv ns t. induction fuel as [|fuel IH]; intros l p pv ns t Hs Hf Hw; simpl; [done|].
  pose proof Hs as [Hc _]. unfold heap_load. rewrite Hc. cbn [deref mbind res_bind rn_pkt rn_next].
  case_match; [by eapply IH|]. case_match; [intros [= <-]; by apply (pipe_wf_frame t)|].
  apply Forall_cons in Hf as [Hp Hf]. destruct ns as [|[l' q] ns].
  - destruct fuel; intros [= <-]; by apply stream_one_pipe_wf.
  - apply lseg_cons in Hs as [_ Hs]. eapply IH; [by rewrite stream_one_nodes|done|by apply stream_one_pipe_wf].
Qed.

Lemma StreamData_pipe_wf chain pkts t t' :
  chain_rep (tc_recv_nodes t) chain pkts → Forall well_formed pkts → pipe_wf t →
  TcpController_StreamDataToReceiveBuffer chain t = Ok t' → pipe_wf t'.
Proof.
  intros Hc Hf Hw%push_overflowed_pipe_wf. unfold TcpController_StreamDataToReceiveBuffer.
  destruct pkts as [|p pkts], chain as [l|]; try done.
  - simpl. by intros [= <-].
  - destruct Hc as (ns & Hs & <- & _). eapply stream_loop_pipe_wf; [|done|done].
    rewrite push_overflowed_nodes. exact Hs.
Qed.

Lemma receive_pipe_wf pkt t a chain t' : well_formed pkt → pipe_wf t →
  TcpController_receive pkt t = Ok (a, chain, t') →
  pipe_wf t' ∧ ∃ pkts, chain_rep (tc_recv_nodes t') chain pkts ∧ Forall well_formed pkts.
Proof.
  intros Hp [(s & Hrep & Hq) Ho]. unfold TcpController_receive. intros Hr.
  pose proof (ReceivePacket_refines pkt _ _ s Hrep) as Href. unfold receive_refines in Href.
  destruct (recv_spec pkt s) as [[[a' pkts] s']|f] eqn:Hs; [|by rewrite Href in Hr].
  destruct Href as (chain' & w' & h' & Hrecv & Hrep' & Hch). rewrite Hrecv in Hr.
  cbn [mbind res_bind] in Hr. injection Hr as <- <- <-.
  destruct (recv_spec_Forall well_formed _ _ _ _ _ Hs Hp Hq). split; [|by exists pkts].
  split; [by exists s'|done].
Qed.

(** ** Connections *)

Record conn_wf (n : Z) t : Prop := {
  cw_ok : conn_ok t;
  cw_received : Forall well_formed (pq_packets (tc_pkt_recv_buffer t));
  cw_to_send : Forall well_formed (pq_packets (tc_pkt_send_buffer t));
  cw_window : window_wf n (tc_send_window t);
  cw_base : is_u32 (rw_recv_base (tc_recv_window t));
  cw_buffer : Buffer_capacity (tc_send_buffer t) < 2147483648;
  cw_pipe : pipe_wf t;
}.

(** The part that is not the invariant of [Connection]. *)
Record conn_rest (n : Z) t : Prop := {
  cr_received : Forall well_formed (pq_packets (tc_pkt_recv_buffer t));
  cr_to_send : Forall well_formed (pq_packets (tc_pkt_send_buffer t));
  cr_window : window_wf n (tc_send_window t);
  cr_base : is_u32 (rw_recv_base (tc_recv_window t));
  cr_buffer : Buffer_capacity (tc_send_buffer t) < 2147483648;
  cr_pipe : pipe_wf t;
}.

Lemma conn_wf_rest n t : conn_wf n t → conn_rest n t.
Proof. intros []. by split. Qed.
Lemma conn_wf_intro n t : conn_ok t → conn_rest n t → conn_wf n t.
Proof. intros ? []. by split. Qed.
Lemma conn_wf_mono n m t : n <= m → conn_wf n t → conn_wf m t.
Proof. intros ? []. split; try done. by eapply window_wf_mono. Qed.

(** Two connections that agree on what is looked at. *)
Lemma conn_rest_frame n t t' :
  tc_pkt_recv_buffer t' = tc_pkt_recv_buffer t → tc_pkt_send_buffer t' = tc_pkt_send_buffer t →
  tc_send_window t' = tc_send_window t → tc_recv_window t' = tc_recv_window t →
  tc_send_buffer t' = tc_send_buffer t → tc_recv_nodes t' = tc_recv_nodes t →
  tc_overflow_pkts t' = tc_overflow_pkts t → conn_rest n t → conn_rest n t'.
Proof.
  intros E1 E2 E3 E4 E5 E6 E7 []. split; rewrite ?E1, ?E2, ?E3, ?E4, ?E5; try done. by apply (pipe_wf_frame t).
Qed.

Lemma send_rest n o t : conn_rest n t → (∀ p, o = Some p → well_formed p) →
  conn_rest n (TcpController_SendPacket o t).
Proof.
  intros [] Ho. destruct o as [p|]; [|by split]. split; try done. simpl. apply Forall_app.
  split; [done|]. apply Forall_singleton. by apply Ho.
Qed.

(** The segments a connection makes. *)
Lemma header_wf t : tcp_header_wf (TcpController_tcp_header t).
Proof. split_and!; simpl; word_lia. Qed.

Lemma made_ack_wf ack t : is_u32 ack → well_formed (TcpController_MakeAckPacket ack t).
Proof. intros Ha. made_wf. Qed.

Lemma made_sync_wf seq t : is_u32 seq → well_formed (TcpController_MakeSyncPacket seq t).
Proof. intros Ha. made_wf. Qed.

Lemma made_fin_wf seq t : is_u32 seq → well_formed (TcpController_MakeFinPacket seq t).
Proof. intros Ha. made_wf. Qed.

Lemma made_rst_wf t : well_formed (TcpController_MakeRstPacket t).
Proof. made_wf. Qed.

Lemma sync_ack_wf ack t : is_u32 ack → well_formed (TcpController_sync_ack_pkt ack t).
Proof. intros Ha. made_wf. Qed.

Lemma probe_wf seq t : is_u32 seq → well_formed (TcpController_MakeDataPacket seq None 0 t).
Proof. intros Ha. made_wf. Qed.

(** ** Segments *)

Lemma recv_rest n t t' : recv_frame t t' → pipe_wf t' → conn_rest n t → conn_rest n t'.
Proof. intros -> Hp []. by split. Qed.

Lemma receive_wf n pkt t a chain t' : conn_inv t → conn_rest n t → well_formed pkt →
  TcpController_receive pkt t = Ok (a, chain, t') →
  conn_rest n t' ∧ is_u32 a ∧ ∃ pkts, chain_rep (tc_recv_nodes t') chain pkts ∧ Forall well_formed pkts.
Proof.
  intros [_ [s Hrep]] [H1 H2 H3 H4 H5 H6] Hp Hrecv.
  destruct (receive_pipe_wf pkt t a chain t' Hp H6 Hrecv) as [Hpipe Hch]. revert Hrecv.
  unfold TcpController_receive. intros Hr.
  assert (is_u32 (rs_base s)) as Hb by (destruct s; by rewrite (rep_base _ _ _ _ Hrep) in H4).
  pose proof (ReceivePacket_refines pkt _ _ s Hrep) as Href. unfold receive_refines in Href.
  destruct (recv_spec pkt s) as [[[a' pkts] s']|f] eqn:Hs; [|by rewrite Href in Hr].
  destruct Href as (chain' & w' & h' & Hrecv & Hrep' & _). rewrite Hrecv in Hr.
  cbn [mbind res_bind] in Hr. injection Hr as <- <- <-.
  assert (is_u32 a' ∧ is_u32 (rs_base s')) as [Ha Hb'].
  { unfold recv_spec in Hs. case_match; [by injection Hs as <- <- <-|].
    apply bind_Ok in Hs as (q & _ & Hs). case_match; [|by injection Hs as <- <- <-].
    apply bind_Ok in Hs as (? & _ & Hs). destruct (recv_run pkt (rs_queue s)) as [[run lst] rest].
    injection Hs as <- <- <-. split; apply u32_range. }
  split; [|done]. split; try done. simpl. destruct s' as [b q]. by rewrite (rep_base _ _ _ _ Hrep').
Qed.

(** Receiving, streaming and acknowledging. *)
Lemma receive_stream_ack_wf n pkt t t' : conn_inv t → conn_rest n t → well_formed pkt →
  ('(ack_number, chain, t) ← TcpController_receive pkt t;
   t ← TcpController_StreamDataToReceiveBuffer chain t;
   Ok (TcpController_SendPacket (Some (TcpController_MakeAckPacket ack_number t)) t)) = Ok t' →
  conn_rest n t'.
Proof.
  intros Hi Hrest Hpkt Hr. apply bind_Ok in Hr as ([[a c] t1] & H1 & Hr).
  apply bind_Ok in Hr as (t2 & H2 & Hr). injection Hr as <-.
  destruct (receive_wf _ _ _ _ _ _ Hi Hrest Hpkt H1) as (Hr1 & Ha & pkts & Hc & Hf).
  pose proof (StreamData_pipe_wf _ _ _ _ Hc Hf (cr_pipe _ _ Hr1) H2) as Hpipe.
  apply (send_rest n (Some _)); [by eapply recv_rest; [eapply StreamData_frame|..]|].
  intros p [= <-]. by apply made_ack_wf.
Qed.

Lemma HandleSYN_wf n now pkt t b t' : 1 <= n → n + 1 < 4294967296 → conn_inv t → conn_rest n t → well_formed pkt →
  TcpController_HandleSYN now pkt t = Ok (b, t') → conn_rest n t'.
Proof.
  intros Hn1 Hn Hi Hrest Hpkt. unfold TcpController_HandleSYN. intros Hr.
  apply bind_Ok in Hr as ([[a c] t1] & H1 & Hr).
  destruct (receive_wf _ _ _ _ _ _ Hi Hrest Hpkt H1) as ([R1 R2 R3 R4 R5 R6] & Ha & _).
  apply bind_Ok in Hr as ([] & _ & Hr). destruct (Z.ltb_spec 0 (sw_size (tc_send_window t1))) as [_|Hz].
  - destruct (get_base_wf n _ R3) as [Hw Hp]. destruct (SendWindow_GetBasePakcketToReSend _) as [base w].
    injection Hr as <- <-. by apply send_rest.
  - apply bind_Ok in Hr as ([[] w] & Hs & Hr); cbn [negb] in Hr; injection Hr as <- <-.
    all: pose proof (window_wf_size _ _ R3) as Hs0;
      apply (send_packet_wf _ n) in Hs; [|done|by apply sync_ack_wf|done|done|by left];
      change (pkt_len (TcpController_sync_ack_pkt a t1)) with 1 in Hs;
      rewrite (proj2 (Z.leb_le (sw_size (tc_send_window t1) + 1) n)), orb_true_r in Hs by lia.
    + apply (conn_rest_frame _ (TcpController_SendPacket
        (Some (Packet_Copy (TcpController_sync_ack_pkt a t1))) (t1 <| tc_send_window := w |>))); [done..|].
      apply send_rest; [by split|]. intros p [= <-]. by apply Copy_wf, sync_ack_wf.
    + by split.
Qed.

Lemma HandleACKSYN_wf n now g pkt t g' t' : 65536 <= n → n < 4294967296 → conn_rest n t → well_formed pkt →
  TcpController_HandleACKSYN now g pkt t = Ok (g', t') → conn_rest n t'.
Proof.
  intros Hn1 Hn [R1 R2 R3 R4 R5 R6] [[(_ & _ & _ & Ha & Hwnd) _ _] _]. unfold TcpController_HandleACKSYN. intros Hr.
  apply bind_Ok in Hr as ([g1 t1] & H1 & Hr). apply Ok_inj, pair_eq in Hr as [_ <-].
  assert (conn_rest n t1) as [].
  { destruct (bool_decide _); [|by injection H1 as <- <-].
    apply bind_Ok in H1 as ([[r w] g2] & Hack & H1). apply Ok_inj, pair_eq in H1 as [_ <-].
    apply (acked_wf _ n) in Hack; [|done|done].
    assert (window_wf n (w <| sw_capacity := window_size (tcp_header pkt) |>)) as Hw by (by apply capacity_wf; [|lia|]).
    by destruct (SendWindow_NumPacketsToAck w =? 0). }
  apply send_rest; [split; try done; [apply u32_range|by apply set_base_pipe_wf]|]. intros p [= <-].
  apply made_ack_wf, u32_range.
Qed.

Lemma HandleACK_wf n now g pkt t g' t' : 65536 <= n → n < 4294967296 → conn_rest n t → well_formed pkt →
  TcpController_HandleACK now g pkt t = Ok (g', t') → conn_rest n t'.
Proof.
  intros Hn1 Hn Hrest [[(_ & _ & _ & Ha & Hwnd) _ _] _]. unfold TcpController_HandleACK, TcpController_HandleACK_window.
  intros Hr. apply bind_Ok in Hr as ([[g1 e] t1] & H1 & Hr). injection Hr as <- <-.
  apply bind_Ok in H1 as ([[r w] g2] & Hack & H1). apply Ok_inj, pair_eq in H1 as [_ <-].
  pose proof Hrest as [R1 R2 R3 R4 R5 R6]. apply (acked_wf _ n) in Hack; [|done|done].
  set (t2 := if re_transmit r then _ else _).
  assert (conn_rest n t2) as Hr2.
  { subst t2. destruct (re_transmit r); [|by split]. destruct (get_base_wf n w Hack) as [Hw Hp].
    cbn [tc_send_window set set_tc_send_window].
    destruct (SendWindow_GetBasePakcketToReSend w) as [base w1]. apply send_rest; [by split|done]. }
  clearbody t2. destruct Hr2 as [Q1 Q2 Q3 Q4 Q5 Q6].
  assert (∀ e t, conn_rest n t → conn_rest n (TcpController_HandleACK_state e t)) as Hstate.
  { clear. intros e t. unfold TcpController_HandleACK_state, TcpController_CloseAndDelete.
    destruct (tc_state t), e; try done; try case_match; by apply conn_rest_frame. }
  apply Hstate. clear Hstate. simpl.
  assert (window_wf n ((tc_send_window t2) <| sw_capacity := window_size (tcp_header pkt) |>)) as Hw
    by (by apply capacity_wf; [|lia|]).
  destruct (_ =? 0), (_ <? _); by split.
Qed.

(** Every segment. *)
Lemma HandlePacket_wf n now g pkt t g' t' : 65536 <= n → n + 1 < 4294967296 → conn_wf n t → well_formed pkt →
  TcpController_HandlePacket now g pkt t = Ok (g', t') → conn_wf n t'.
Proof.
  intros Hn1 Hn Hwf Hp Hr. pose proof (conn_wf_rest _ _ Hwf) as Hrest. pose proof Hwf as [Hok _ _ _ _ _ _].
  apply conn_wf_intro; [by eapply segment_ok; [|apply Hp|]|]. pose proof Hok as [Hi _].
  rewrite HandlePacket_dispatch in Hr. destruct (segment_of pkt).
  - apply bind_Ok in Hr as ([b t1] & H1 & Hr). injection Hr as <- <-. eapply HandleSYN_wf; [| |done..]; lia.
  - eapply HandleACKSYN_wf; [| |done..]; lia.
  - apply bind_Ok in Hr as (t1 & H1 & Hr). injection Hr as <- <-. unfold TcpController_HandleFIN in H1.
    eapply receive_stream_ack_wf; [| |exact Hp|exact H1].
    + destruct Hi. unfold TcpController_HandleFIN_state. by case_match.
    + eapply conn_rest_frame; [..|exact Hrest]; unfold TcpController_HandleFIN_state; by case_match.
  - eapply HandleACK_wf; [| |done..]; lia.
  - injection Hr as <- <-. unfold TcpController_HandleRst, TcpController_CloseAndDelete. case_match; [done|by apply (conn_rest_frame n t)].
  - apply bind_Ok in Hr as (t1 & H1 & Hr). injection Hr as <- <-. unfold TcpController_HandleDataPacket in H1.
    case_match; [|by eapply receive_stream_ack_wf].
    injection H1 as <-. apply (send_rest n (Some _)); [done|]. intros p [= <-]. by apply made_ack_wf; destruct Hrest.
Qed.

Lemma HandleReceivedPackets_wf n now g pkts t g' t' : 65536 <= n → n + 1 < 4294967296 → conn_wf n t →
  Forall well_formed pkts → TcpController_HandleReceivedPackets now g pkts t = Ok (g', t') → conn_wf n t'.
Proof.
  intros Hn1 Hn. revert g t. induction pkts as [|p pkts IH]; intros g t Hwf Hp; simpl.
  - by intros [= <- <-].
  - apply Forall_cons in Hp as [Hp Hps]. intros Hr. apply bind_Ok in Hr as ([g1 t1] & H1 & Hr).
    eapply IH; [|done|exact Hr]. eapply HandlePacket_wf; [| | | |exact H1]; try done; lia.
Qed.

(** ** Calls, listeners and timers *)

(** What changes neither windows nor queues. *)
Lemma conn_wf_frame n t t' : conn_same t t' → 
  tc_pkt_recv_buffer t' = tc_pkt_recv_buffer t → tc_pkt_send_buffer t' = tc_pkt_send_buffer t →
  tc_send_window t' = tc_send_window t → tc_recv_window t' = tc_recv_window t →
  Buffer_capacity (tc_send_buffer t') = Buffer_capacity (tc_send_buffer t) →
  (pipe_wf t → pipe_wf t') → conn_wf n t → conn_wf n t'.
Proof.
  intros Hs E1 E2 E3 E4 E5 E6 []. apply conn_wf_intro; [by eapply conn_same_ok|].
  split; rewrite ?E1, ?E2, ?E3, ?E4, ?E5; auto.
Qed.

Lemma TryConnect_wf n now t b t' : 65536 <= n → n + 1 < 4294967296 → conn_wf n t →
  TcpController_TryConnect now t = Ok (b, t') → conn_wf (n + 1) t'.
Proof.
  intros Hn1 Hn Hwf Hr. pose proof Hwf as [Hok R1 R2 R3 R4 R5 R6].
  apply conn_wf_intro; [by eapply connect_ok|]. unfold TcpController_TryConnect in Hr.
  assert (is_u32 (sw_send_base (tc_send_window t))) as Hb by apply R3.
  case_bool_decide; simpl in Hr;
    [|injection Hr as <- <-; apply conn_wf_rest; by apply (conn_wf_mono n); [lia|]].
  apply bind_Ok in Hr as ([[] w] & Hs & Hr); cbn [negb] in Hr; injection Hr as <- <-.
  all: apply (send_packet_wf _ n) in Hs; [|done|by apply made_sync_wf|done|done|by left].
  all: assert (window_wf (n + 1) w) as Hw by (destruct (_ || _); [by apply (window_wf_mono n); [lia|]|done]).
  - apply (conn_rest_frame _ (TcpController_SendPacket
      (Some (Packet_Copy (TcpController_MakeSyncPacket (sw_send_base (tc_send_window t)) t)))
      (t <| tc_send_window := w |>))); [done..|].
    apply send_rest; [by split|]. intros p [= <-]. by apply Copy_wf, made_sync_wf.
  - by split.
Qed.

Lemma WriteData_wf n buf t r t' : conn_wf n t → TcpController_WriteData buf t = Some (r, t') → conn_wf n t'.
Proof.
  intros Hwf. unfold TcpController_WriteData. case_match; [by intros [= <- <-]|].
  case_match; [done|]. case_match; [by intros [= <- <-]|].
  destruct (Buffer_Write buf (tc_send_buffer t)) as [k b] eqn:Hb. intros [= <- <-].
  destruct (Buffer_Write_spec _ _ _ _ Hb) as (_ & _ & Hcap).
  apply (conn_wf_frame n t); [by split_and!|done|done|done|done|by simpl; congruence|done|done].
Qed.

Lemma ReadData_wf n size t r bytes t' : conn_wf n t →
  TcpController_ReadData size t = Ok (Some (r, bytes, t')) → conn_wf n t'.
Proof.
  intros Hwf. unfold TcpController_ReadData. repeat case_match; try done; intros [= <- <- <-]; try done;
    by apply (conn_wf_frame n t).
Qed.

Lemma TryShutDown_wf n t b t' : conn_wf n t → TcpController_TryShutDown t = (b, t') → conn_wf n t'.
Proof.
  intros Hwf. unfold TcpController_TryShutDown. case_match; intros [= <- <-]; [done|]. by apply (conn_wf_frame n t).
Qed.

Lemma TryClose_wf n t b t' : conn_wf n t → TcpController_TryClose t = (b, t') → conn_wf n t'.
Proof.
  intros Hwf. unfold TcpController_TryClose. destruct (TcpController_TryShutDown t) as [b1 t1] eqn:Hs.
  intros [= <- <-]. apply (TryShutDown_wf n) in Hs; [|done]. by apply (conn_wf_frame n t1).
Qed.

Lemma CloseAndDelete_wf n t : conn_wf n t → conn_wf n (TcpController_CloseAndDelete t).
Proof.
  intros Hwf. apply (conn_wf_frame n t); [apply CloseAndDelete_same| | | | | | |done];
    unfold TcpController_CloseAndDelete; by case_match.
Qed.

Lemma ReceiveNewPacket_wf n p t : well_formed p → conn_wf n t → conn_wf n (TcpController_ReceiveNewPacket p t).
Proof.
  intros Hp [Hok R1 R2 R3 R4 R5 R6]. apply conn_wf_intro; [by apply (conn_same_ok t); [by split_and!|]|].
  split; try done. simpl. apply Forall_app. split; [done|by apply Forall_singleton].
Qed.

Lemma TimeoutReTransmitter_wf n t : conn_wf n t → conn_wf n (TcpController_TimeoutReTransmitter t).
Proof.
  intros Hwf. apply conn_wf_intro; [exact (proj1 (conn_step_ok Buffer_bytes Buffer_capacity t _ (cw_ok _ _ Hwf) (cs_retransmit t)))|].
  apply conn_wf_rest in Hwf as Hrest. destruct Hwf as [_ _ _ R3 _ _ _].
  unfold TcpController_TimeoutReTransmitter. case_match; [|by apply (conn_rest_frame n t)].
  destruct (get_base_wf n _ R3) as [Hw Hp]. destruct (SendWindow_GetBasePakcketToReSend _) as [o w].
  apply (conn_rest_frame n (TcpController_SendPacket o (t <| tc_send_window := w |>))); [done..|].
  apply send_rest; [|done]. by destruct Hrest; split.
Qed.

Lemma ProbeWindowSize_wf n t : conn_wf n t → conn_wf n (TcpController_ProbeWindowSize t).
Proof.
  intros Hwf. apply conn_wf_intro; [exact (proj1 (conn_step_ok Buffer_bytes Buffer_capacity t _ (cw_ok _ _ Hwf) (cs_probe t)))|].
  unfold TcpController_ProbeWindowSize. case_match; [|by apply conn_wf_rest].
  apply send_rest; [by apply conn_wf_rest|]. intros p [= <-]. apply Copy_wf, probe_wf, u32_range.
Qed.

Lemma sent_well_formed t ps t' : sent_packets Buffer_bytes Buffer_capacity t ps t' → Forall well_formed ps.
Proof.
  intros [_ _ _ _ _ _ _ _ _ Hs Hp _ Hw]. rewrite Forall_forall in Hs, Hp, Hw |- *.
  intros p Hin. apply plain_wf; auto.
Qed.

(** A round of [SendBufferListener]: the packets it makes fit the window. *)
Lemma SendBufferListener_wf n now t t' : conn_wf n t →
  TcpController_SendBufferListener_round now t = Ok t' → conn_wf n t'.
Proof.
  intros Hwf Hr. pose proof Hwf as [Hok R1 R2 R3 R4 R5 R6].
  assert (Buffer_size (tc_send_buffer t) < 2147483648) as Hb.
  { rewrite Buffer_size_spec. pose proof (Buffer_bounded (tc_send_buffer t)). lia. }
  pose proof (send_ok _ _ now t t' Hok Hb Hr) as [Hok' _]. apply conn_wf_intro; [done|].
  pose proof (swi_capacity _ (ww_inv _ _ R3)) as Hc. unfold is_u32 in Hc.
  destruct (decide (0 < sw_capacity (tc_send_window t))) as [Hpos|Hz].
  - destruct (SendBufferListener_round_spec _ _ now t (ww_inv _ _ R3) Hpos Hb) as (ps & t1 & Hr1 & Hs & Hl).
    rewrite Hr1 in Hr. simplify_eq.
    apply sent_well_formed in Hs as X. destruct Hs as [F W B C Z I Q E _ _ _ _ _].
    split; rewrite ?Q, ?E; try done.
    + rewrite F. exact R1.
    + simpl. by apply Forall_app.
    + split; [done| | |by rewrite C; apply R3].
      * rewrite W. apply Forall_app. split; [apply R3|done].
      * rewrite Z, Hl, SendWindow_free_space_eq by apply R3. destruct R3. lia.
    + rewrite F. exact R4.
    + by apply (pipe_wf_frame t); [rewrite F..|].
  - unfold TcpController_SendBufferListener_round in Hr.
    rewrite (proj2 (Z.ltb_ge 0 _)), andb_false_r, (proj2 (Z.eqb_eq (sw_capacity _) 0)) in Hr by lia.
    injection Hr as <-. by case_match.
Qed.

Lemma SendFIN_wf n now t t' : 65536 <= n → n + 2 < 4294967296 → conn_wf n t →
  TcpController_SendFIN now t = Ok (Some t') → conn_wf (n + 1) t'.
Proof.
  intros Hn1 Hn Hwf Hr. pose proof Hwf as [Hok R1 R2 R3 R4 R5 R6]. pose proof (window_wf_size _ _ R3) as Hs0.
  pose proof R3 as [_ _ Hsz _].
  apply conn_wf_intro; [exact (proj1 (fin_ok Buffer_bytes Buffer_capacity now t t' Hok ltac:(lia) Hr))|]. revert Hr. unfold TcpController_SendFIN.
  assert (conn_rest (n + 1) t) as Hrest by (apply conn_wf_rest; by apply (conn_wf_mono n); [lia|]).
  case_match; [by intros [= <-]|]. case_match; [done|].
  set (w := (tc_send_window t) <| sw_capacity := u32 (sw_size (tc_send_window t) + 1) |>). set (f := TcpController_MakeFinPacket _ t). intros Hr.
  assert (well_formed f) as Hf by apply made_fin_wf, u32_range.
  apply bind_Ok in Hr as ([b w'] & Hs & Hr). destruct b; cbn [negb] in Hr; [|done].
  assert (window_wf (n + 1) w) as Hw.
  { destruct Hrest as [_ _ R3' _ _ _]. apply capacity_wf; [done| |lia]. rewrite u32_small; [lia|]. unfold is_u32. lia. }
  assert (window_wf (n + 1) w') as Hw'.
  { apply (send_packet_wf _ (n + 1)) in Hs; [|done|done|done|lia|by left].
    subst w. simpl in Hs. rewrite u32_small in Hs by (unfold is_u32; lia).
    by rewrite (proj2 (Z.ltb_lt 0 _)) in Hs by lia. }

  assert (conn_rest (n + 1) (t <| tc_send_window := w' |>)) as Hrest' by (by destruct Hrest; split).
  cbn [tc_state set set_tc_send_window] in Hr. destruct (tc_state t); injection Hr as <-; try done;
    (eapply (conn_rest_frame _ (TcpController_SendPacket (Some (Packet_Copy f)) (t <| tc_send_window := w' |>)));
       [done..|]; apply send_rest; [done|]; intros p [= <-]; by apply Copy_wf).
Qed.

Lemma SendRST_wf n t t' : conn_wf n t →
  TcpController_SendRSTForClosedConnection_round t = Some t' → conn_wf n t'.
Proof.
  intros [[[Hs Hr] Hl] R1 R2 R3 R4 R5 R6]. unfold TcpController_SendRSTForClosedConnection_round.
  repeat case_match; try done. intros [= <-]. split; try done; simpl.
  apply Forall_app. split; [done|]. apply Forall_singleton, made_rst_wf.
Qed.

Lemma ReceiveBufferListener_wf n t t' : conn_wf n t →
  TcpController_ReceiveBufferListener_round t = Some t' → conn_wf n t'.
Proof.
  intros Hwf. unfold TcpController_ReceiveBufferListener_round. repeat case_match; try done. intros [= <-].
  pose proof (push_overflowed_frame t) as Hf.
  apply (conn_wf_frame n t); [by apply recv_frame_same|by rewrite Hf..|apply push_overflowed_pipe_wf|done].
Qed.

Lemma PacketSendBufferListener_wf n t pkts t' : conn_wf n t →
  TcpController_PacketSendBufferListener_round t = Some (pkts, t') → conn_wf n t' ∧ Forall well_formed pkts.
Proof.
  intros Hwf. pose proof Hwf as [Hok R1 R2 R3 R4 R5 R6]. unfold TcpController_PacketSendBufferListener_round.
  case_match; [done|]. destruct (PacketQueue_DeQueueAllTo _ _ _) as [[[k ps] q]|] eqn:Hq; [|done].
  intros [= <- <-]. destruct (DeQueueAllTo_Forall _ _ _ _ _ _ Hq R2). split; [|done].
  apply conn_wf_intro; [by apply (conn_same_ok t); [by split_and!|]|by split].
Qed.

Lemma PacketReceiveBufferListener_wf n now g t g' t' : 65536 <= n → n + 1 < 4294967296 → conn_wf n t →
  TcpController_PacketReceiveBufferListener_round now g t = Ok (Some (g', t')) → conn_wf n t'.
Proof.
  intros Hn1 Hn Hwf. pose proof Hwf as [Hok R1 R2 R3 R4 R5 R6]. unfold TcpController_PacketReceiveBufferListener_round.
  case_match; [done|]. destruct (PacketQueue_DeQueueAllTo _ _ _) as [[[k ps] q]|] eqn:Hq; [|done].
  destruct (DeQueueAllTo_Forall _ _ _ _ _ _ Hq R1) as [Hps Hq']. intros Hr.
  apply bind_Ok in Hr as ([g1 t1] & Hr & [= <- <-]). eapply HandleReceivedPackets_wf; [done|lia| |exact Hps|exact Hr].
  apply conn_wf_intro; [by apply (conn_same_ok t); [by split_and!|]|by split].
Qed.

Lemma kill_thread_wf n t : conn_wf n t → conn_wf n (TcpController_kill_thread t).
Proof.
  intros Hwf. unfold TcpController_kill_thread. case_match; [done|]. apply CloseAndDelete_wf.
  by apply (conn_wf_frame n t).
Qed.

(** A new connection. *)
Lemma TcpController_new_wf n socket key o : 65536 <= n → is_u32 (send_window_base o) →
  0 <= send_window_size o <= 65536 → is_u32 (recv_window_base o) →
  0 <= send_buffer_size o < 2147483648 → conn_wf n (TcpController_new socket key o).
Proof.
  intros Hn Hb Hw Hr Hs. destruct (Buffer_new_bytes _ (proj1 Hs)) as [_ Hcap]. split; simpl; try done; [| |lia|].
  - split; [|done]. split; [apply SendWindow_new_inv; [done|unfold is_u32; lia]|].
    exists (MkRecv (recv_window_base o) []).
    by apply (RecvWindow_new_rep (recv_window_base o) (recv_window_size o) heap_empty).
  - split; simpl; [|by constructor|lia|lia]. apply SendWindow_new_inv; [done|unfold is_u32; lia].
  - split; [|by constructor]. exists (MkRecv (recv_window_base o) []). split; [|by constructor].
    by apply (RecvWindow_new_rep (recv_window_base o) (recv_window_size o) heap_empty).
Qed.
End ConnWf.

#[export] Hint Extern 0 (pipe_wf _) =>
  match goal with H : pipe_wf ?t |- _ => apply (pipe_wf_frame t); [reflexivity..|exact H] end : core.
