(* ===== verification/TcpCongestion.v ===== *)
(** * Round-trip times and congestion control

    [TcpController.cc]: [UpdateRTT] and [UpdateCongestionControl]. At this
    commit the handlers' calls to both are commented out: the definitions are
    what the methods do when they are called. *)
From S2P Require Import Prelude Interfaces Packet Keys PacketQueue SendWindow RecvWindow Tcp TcpSend.
Open Scope Z_scope.
Open Scope tcp_scope.

Section TcpCongestion.
Context `{!StopWatchOps, !TimerOps, !BufferOps}.
Implicit Types t : TcpController.

(** ** Operations *)

(** [static_cast<int64>] of [x * (1 - 1/d) + y * (1/d)], for the weights [1/8]
    and [1/4]: doubles hold these sums exactly for durations below [2^50]
    nanoseconds, and the cast drops the fraction. *)
Definition blend (d x y : Z) : Z := Z.quot ((d - 1) * x + y) d.

(** [TcpController::UpdateRTT], with [kRTTExpFactor] and [kRTTDevExpFactor]. *)
Definition TcpController_UpdateRTT (new_rtt : Z) t : TcpController :=
  let estimated := blend 8 (tc_estimated_rtt t) new_rtt in
  let dev := blend 4 (tc_dev_rtt t) (Z.abs (new_rtt - estimated)) in
  t <| tc_estimated_rtt := estimated |> <| tc_dev_rtt := dev |>
    <| tc_timeout_interval := estimated + 4 * dev |>.

(** The three cases of [UpdateCongestionControl]. *)
Definition cc_halve t : TcpController :=
  let t := t <| tc_ssthresh := tc_cwnd t / 2 |> in
  t <| tc_cwnd := u32 (tc_ssthresh t + 2 * kDefaultDataPacketSize) |>
    <| tc_cc_state := FAST_RECOVERY |>.

Definition cc_slow_start (r : AckResult) t : TcpController :=
  if ack_refreshed r then
    let t := t <| tc_cwnd := u32 (tc_cwnd t + kDefaultDataPacketSize) |> in
    if tc_ssthresh t <=? tc_cwnd t then t <| tc_cc_state := CONGESTION_AVOIDANCE |> else t
  else if re_transmit r then cc_halve t else t.

Definition cc_avoidance (r : AckResult) t : res TcpController :=
  if ack_refreshed r then
    if tc_cwnd t =? 0 then Fault DivisionByZero
    else Ok (t <| tc_cwnd := u32 (tc_cwnd t +
               kDefaultDataPacketSize * kDefaultDataPacketSize / tc_cwnd t) |>)
  else Ok (if re_transmit r then cc_halve t else t).

Definition cc_fast_recovery (r : AckResult) t : TcpController :=
  if ack_refreshed r then t <| tc_cwnd := tc_ssthresh t |> <| tc_cc_state := CONGESTION_AVOIDANCE |>
  else if dup_ack r then t <| tc_cwnd := u32 (tc_cwnd t + kDefaultDataPacketSize) |> else t.

(** [TcpController::UpdateCongestionControl]: the case CONGESTION_AVOIDANCE has
    no [break] and runs into FAST_RECOVERY. *)
Definition TcpController_UpdateCongestionControl (r : AckResult) t : res TcpController :=
  match tc_cc_state t with
  | SLOW_START => Ok (cc_slow_start r t)
  | CONGESTION_AVOIDANCE => t ← cc_avoidance r t; Ok (cc_fast_recovery r t)
  | FAST_RECOVERY => Ok (cc_fast_recovery r t)
  end.

(** ** Runs *)

Inductive cc_event := NewAck | DupAck | FastRetransmit | Timeout.

#[export] Instance cc_event_eq_dec : EqDecision cc_event.
Proof. solve_decision. Defined.

(** What [NewAckedPacket] answers for each kind of acknowledgement. *)
Definition ack_result (e : cc_event) : AckResult :=
  match e with
  | NewAck => MkAckResult true false false (Some 0)
  | FastRetransmit => MkAckResult false true true (Some 0)
  | _ => MkAckResult false true false (Some 0)
  end.

Fixpoint cc_run (es : list cc_event) t : res TcpController :=
  match es with
  | [] => Ok t
  | Timeout :: es => cc_run es (TcpController_TimeoutReTransmitter t)
  | e :: es => t ← TcpController_UpdateCongestionControl (ack_result e) t; cc_run es t
  end.

Fixpoint rtt_run (samples : list Z) t : TcpController :=
  match samples with
  | [] => t
  | r :: samples => rtt_run samples (TcpController_UpdateRTT r t)
  end.

(** ** Properties *)

(** What congestion control reads and writes: its state, the window and the
    threshold. [cc_next] is an event on these alone. *)
Definition cc_of t : CongestionControlState * Z * Z := (tc_cc_state t, tc_cwnd t, tc_ssthresh t).

Definition cc_next (e : cc_event) (x : CongestionControlState * Z * Z)
    : res (CongestionControlState * Z * Z) :=
  let '(s, c, ss) := x in
  match e, s with
  | Timeout, _ => Ok (SLOW_START, kDefaultDataPacketSize, c / 2)
  | NewAck, SLOW_START =>
      let c := u32 (c + kDefaultDataPacketSize) in
      Ok (if ss <=? c then CONGESTION_AVOIDANCE else SLOW_START, c, ss)
  | NewAck, CONGESTION_AVOIDANCE =>
      if c =? 0 then Fault DivisionByZero else Ok (CONGESTION_AVOIDANCE, ss, ss)
  | NewAck, FAST_RECOVERY => Ok (CONGESTION_AVOIDANCE, ss, ss)
  | DupAck, SLOW_START => Ok x
  | FastRetransmit, SLOW_START =>
      Ok (FAST_RECOVERY, u32 (c / 2 + 2 * kDefaultDataPacketSize), c / 2)
  | FastRetransmit, CONGESTION_AVOIDANCE =>
      Ok (FAST_RECOVERY, u32 (u32 (c / 2 + 2 * kDefaultDataPacketSize) + kDefaultDataPacketSize), c / 2)
  | _, _ => Ok (s, u32 (c + kDefaultDataPacketSize), ss)
  end.

Fixpoint cc_next_run (es : list cc_event) (x : CongestionControlState * Z * Z)
    : res (CongestionControlState * Z * Z) :=
  match es with
  | [] => Ok x
  | e :: es => x ← cc_next e x; cc_next_run es x
  end.

Lemma retransmit_cc_of t :
  cc_of (TcpController_TimeoutReTransmitter t) = (SLOW_START, kDefaultDataPacketSize, tc_cwnd t / 2).
Proof.
  unfold TcpController_TimeoutReTransmitter, cc_of. destruct (0 <? _); [|done].
  by destruct (SendWindow_GetBasePakcketToReSend _) as [[] ?].
Qed.

Lemma update_cc_of e t : e ≠ Timeout →
  match cc_next e (cc_of t) with
  | Ok x => ∃ t', TcpController_UpdateCongestionControl (ack_result e) t = Ok t' ∧ cc_of t' = x
  | Fault f => TcpController_UpdateCongestionControl (ack_result e) t = Fault f
  end.
Proof.
  intros He. unfold TcpController_UpdateCongestionControl, cc_avoidance, cc_of, cc_next.
  destruct e, (tc_cc_state t) eqn:Hs; try done; simpl;
    try (destruct (tc_cwnd t =? 0); [done|]);
    eexists; (split; [done|]); unfold cc_slow_start, cc_fast_recovery; simpl;
    try (destruct (_ <=? _); simpl); by rewrite ?Hs.
Qed.

Lemma cc_run_of es t :
  match cc_next_run es (cc_of t) with
  | Ok x => ∃ t', cc_run es t = Ok t' ∧ cc_of t' = x
  | Fault f => cc_run es t = Fault f
  end.
Proof.
  revert t. induction es as [|e es IH]; intros t; [by exists t|].
  destruct (decide (e = Timeout)) as [->|He].
  - specialize (IH (TcpController_TimeoutReTransmitter t)). rewrite retransmit_cc_of in IH. apply IH.
  - pose proof (update_cc_of e t He) as Hu. cbn [cc_next_run].
    destruct (cc_next e (cc_of t)) as [x|f]; cbn [mbind res_bind].
    + destruct Hu as (t' & Hu & <-). specialize (IH t'). destruct e; [| | |done]; cbn [cc_run];
        rewrite Hu; apply IH.
    + destruct e; [| | |done]; cbn [cc_run]; by rewrite Hu.
Qed.

Lemma blend_bounds d x y lo hi : 0 < d → 0 <= lo → lo <= x <= hi → lo <= y <= hi →
  lo <= blend d x y <= hi.
Proof.
  intros Hd Hlo Hx Hy. unfold blend. rewrite Z.quot_div_nonneg by nia. split.
  - apply Z.div_le_lower_bound; nia.
  - apply Z.div_le_upper_bound; nia.
Qed.

(** Slow start: while the window stays below the threshold, each new
    acknowledgement adds one packet to it, and it does not leave the state. *)
Theorem slow_start_grows n t
    (Hst : tc_cc_state t = SLOW_START)
    (Hc : 0 <= tc_cwnd t) (Hlt : tc_cwnd t + kDefaultDataPacketSize * Z.of_nat n < tc_ssthresh t)
    (Hss : tc_ssthresh t < 4294967296) :
  cc_run (replicate n NewAck) t =
    Ok (t <| tc_cwnd := tc_cwnd t + kDefaultDataPacketSize * Z.of_nat n |>).
Proof.
  unfold kDefaultDataPacketSize in *. revert t Hst Hc Hlt Hss.
  induction n as [|n IH]; intros t Hst Hc Hlt Hss.
  - simpl. rewrite Z.add_0_r. by destruct t.
  - cbn [replicate cc_run]. unfold TcpController_UpdateCongestionControl. rewrite Hst.
    unfold cc_slow_start, kDefaultDataPacketSize. simpl. rewrite u32_small by word_lia.
    rewrite (proj2 (Z.leb_gt _ _)) by lia.
    rewrite IH; simpl; [|done|lia..].
    replace (tc_cwnd t + 10 * Z.of_nat (S n)) with (tc_cwnd t + 10 + 10 * Z.of_nat n) by lia. done.
Qed.

(** Congestion avoidance never grows the window: a new acknowledgement sets
    it to the threshold, the addition of the state's own case being overwritten
    by the case of fast recovery, which has no [break] before it. *)
Theorem congestion_avoidance_falls_through t
    (Hst : tc_cc_state t = CONGESTION_AVOIDANCE) (Hc : tc_cwnd t ≠ 0) :
  ∃ t', TcpController_UpdateCongestionControl (ack_result NewAck) t = Ok t' ∧
    tc_cwnd t' = tc_ssthresh t ∧ tc_ssthresh t' = tc_ssthresh t ∧
    tc_cc_state t' = CONGESTION_AVOIDANCE.
Proof.
  unfold TcpController_UpdateCongestionControl, cc_avoidance. rewrite Hst. simpl.
  rewrite (proj2 (Z.eqb_neq _ _) Hc). simpl. eexists. split; [done|]. by split_and!.
Qed.

(** Repeated timeouts halve the threshold down to zero; an acknowledgement in
    congestion avoidance then sets the window to zero, and the next one divides
    by it. From the constants the constructor sets. *)
Theorem congestion_window_reaches_zero t
    (Hst : tc_cc_state t = SLOW_START) (Hc : tc_cwnd t = kDefaultDataPacketSize) :
  cc_run [Timeout; Timeout; NewAck; NewAck; Timeout; NewAck; NewAck; Timeout; NewAck; NewAck;
          Timeout; NewAck; NewAck; NewAck] t = Fault DivisionByZero.
Proof.
  pose proof (cc_run_of [Timeout; Timeout; NewAck; NewAck; Timeout; NewAck; NewAck; Timeout; NewAck;
    NewAck; Timeout; NewAck; NewAck; NewAck] t) as Hr.
  unfold cc_of in Hr. rewrite Hst, Hc in Hr. exact Hr.
Qed.

(** The estimate stays within the samples: if the estimate and all samples
    lie in [lo..hi] and the deviation in [0..hi - lo], so do they after any
    sequence of samples, and the timeout lies between [lo] and
    [hi + 4 * (hi - lo)]. *)
Theorem UpdateRTT_bounds samples t lo hi
    (Hlo : 0 <= lo) (Hs : Forall (λ r, lo <= r <= hi) samples) (Hne : samples ≠ [])
    (He : lo <= tc_estimated_rtt t <= hi) (Hd : 0 <= tc_dev_rtt t <= hi - lo) :
  let t' := rtt_run samples t in
  lo <= tc_estimated_rtt t' <= hi ∧ 0 <= tc_dev_rtt t' <= hi - lo ∧
  lo <= tc_timeout_interval t' <= hi + 4 * (hi - lo).
Proof.
  simpl. revert t He Hd Hne. induction Hs as [|r samples Hr Hs IH]; intros t He Hd Hne; [done|].
  simpl. pose proof (blend_bounds 8 _ _ lo hi ltac:(done) Hlo He Hr) as He'.
  assert (0 <= Z.abs (r - blend 8 (tc_estimated_rtt t) r) <= hi - lo) as Ha by lia.
  pose proof (blend_bounds 4 _ _ 0 (hi - lo) ltac:(done) ltac:(done) Hd Ha) as Hd'.
  destruct samples as [|r' samples]; [simpl; lia|]. by apply IH.
Qed.
End TcpCongestion.

(** ** Concrete instances *)

#[local] Existing Instance simple_StopWatch.
#[local] Existing Instance simple_Timer.
#[local] Existing Instance simple_Buffer.

Definition cc_conn : TcpController :=
  TcpController_new 0 TcpControllerKey_default TcpController_GetDefaultOptions.

Lemma slow_start_grows_witness :
  cc_run (replicate 6 NewAck) cc_conn = Ok (cc_conn <| tc_cwnd := 70 |>).
Proof. by apply (slow_start_grows 6 cc_conn). Defined.

Lemma congestion_avoidance_falls_through_witness : ∃ t',
  TcpController_UpdateCongestionControl (ack_result NewAck)
    (cc_conn <| tc_cc_state := CONGESTION_AVOIDANCE |> <| tc_cwnd := 90 |>) = Ok t' ∧
  tc_cwnd t' = 80.
Proof.
  destruct (congestion_avoidance_falls_through
    (cc_conn <| tc_cc_state := CONGESTION_AVOIDANCE |> <| tc_cwnd := 90 |>)) as (t' & H & Hc & _);
    [done|done|]. exists t'. split; [exact H | exact Hc].
Defined.

Lemma congestion_window_reaches_zero_witness :
  cc_run [Timeout; Timeout; NewAck; NewAck; Timeout; NewAck; NewAck; Timeout; NewAck; NewAck;
          Timeout; NewAck; NewAck; NewAck] cc_conn = Fault DivisionByZero.
Proof. by apply (congestion_window_reaches_zero cc_conn). Defined.

Lemma UpdateRTT_bounds_witness :
  200 <= tc_estimated_rtt (rtt_run [300; 500]
    (cc_conn <| tc_estimated_rtt := 200 |> <| tc_dev_rtt := 0 |>)) <= 500.
Proof.
  refine (proj1 (UpdateRTT_bounds [300; 500]
    (cc_conn <| tc_estimated_rtt := 200 |> <| tc_dev_rtt := 0 |>) 200 500 _ _ _ _ _)).
  - done.
  - repeat constructor; done.
  - done.
  - by split.
  - by split.
Defined.
