(* ===== verification/Kernel.v ===== *)
(** * Sockets and open files

    [Kernel.h] and [Kernel.cc]: the entries of the host's open file table. *)
From S2P Require Import Prelude Keys.
Open Scope Z_scope.
Open Scope tcp_scope.

(** [Socket::State] *)
Inductive SocketState := Socket_OPEN | Socket_SHUTDOWN.

#[export] Instance SocketState_eq_dec : EqDecision SocketState.
Proof. solve_decision. Defined.

(** A pointer to a connection: null, to the connection the host keeps under a key,
    or to one that has been destroyed. Destroying a connection turns every pointer
    to it into [con_freed], so that a connection made later under the same key is
    not taken for it. *)
Inductive con_ptr := con_null | con_at (key : TcpControllerKey) | con_freed.

#[export] Instance con_ptr_eq_dec : EqDecision con_ptr.
Proof. solve_decision. Defined.

Record Socket := MkSocket {
  so_state : SocketState;
  so_local_bound : LocalLayerThreeKey;
  so_tcp_con : con_ptr;
}.

#[export] Instance set_so_state : Setter so_state := λ f s,
  MkSocket (f (so_state s)) (so_local_bound s) (so_tcp_con s).
#[export] Instance set_so_local_bound : Setter so_local_bound := λ f s,
  MkSocket (so_state s) (f (so_local_bound s)) (so_tcp_con s).
#[export] Instance set_so_tcp_con : Setter so_tcp_con := λ f s,
  MkSocket (so_state s) (so_local_bound s) (f (so_tcp_con s)).

Definition Socket_new : Socket := MkSocket Socket_OPEN LocalLayerThreeKey_default con_null.

(** [Socket::Reset] *)
Definition Socket_Reset (s : Socket) : Socket :=
  s <| so_state := Socket_OPEN |> <| so_tcp_con := con_null |>
    <| so_local_bound := LocalLayerThreeKey_default |>.

(** [Socket::Bind(key)] and [Socket::Bind(local_ip, local_port)] *)
Definition Socket_BindKey (key : LocalLayerThreeKey) (s : Socket) : Socket :=
  s <| so_local_bound := key |>.
Definition Socket_Bind (ip : string) (port : Z) (s : Socket) : Socket :=
  s <| so_local_bound := MkLocalKey ip (i32 port) |>.

(** [Socket::isBound] *)
Definition Socket_isBound (s : Socket) : bool :=
  negb (bool_decide (local_ip (so_local_bound s) = ""%string)) &&
  (0 <? local_port (so_local_bound s)).

(** [KernelOpenFile] *)
Inductive FileType := REGULAR | SOCKET | UNKNOWN_FILE_TYPE.

#[export] Instance FileType_eq_dec : EqDecision FileType.
Proof. solve_decision. Defined.

Record KernelOpenFile := MkFile {
  kf_type : FileType;
  kf_socket : Socket;
  kf_refs : Z;
}.

#[export] Instance set_kf_socket : Setter kf_socket := λ f k,
  MkFile (kf_type k) (f (kf_socket k)) (kf_refs k).
#[export] Instance set_kf_refs : Setter kf_refs := λ f k,
  MkFile (kf_type k) (kf_socket k) (f (kf_refs k)).

Definition KernelOpenFile_new (type_arg : FileType) : KernelOpenFile := MkFile type_arg Socket_new 0.
Definition KernelOpenFile_IncRef (k : KernelOpenFile) : KernelOpenFile :=
  k <| kf_refs := i32 (kf_refs k + 1) |>.
Definition KernelOpenFile_DecRef (k : KernelOpenFile) : KernelOpenFile :=
  k <| kf_refs := i32 (kf_refs k - 1) |>.
Definition KernelOpenFile_Refs (k : KernelOpenFile) : Z := kf_refs k.
