(* ===== verification/Host.v ===== *)
(** * The host

    [Host.h] and the class [Host] of [Host.cc]: the open file table, the
    connections, the listeners, the port pool, the system calls, and the
    multiplexing of packets. A pointer to a connection is a [con_ptr], a pointer to
    a socket the id of its open file. *)
From S2P Require Import Prelude Interfaces Packet Keys NumPool PacketQueue SendWindow RecvWindow.
From S2P Require Import Tcp TcpRecv TcpSend TcpConn Kernel.
Open Scope Z_scope.
Open Scope tcp_scope.

Definition kMinOpenFileId : Z := 0.
Definition kMaxOpenFileId : Z := 255.
Definition kMinPort : Z := 0.
Definition kMaxPort : Z := 127.

Section Host.
Context `{!StopWatchOps, !TimerOps, !BufferOps}.

(** ** State *)

Record Host := MkHost {
  h_hostname : string;
  h_local_ip_address : string;
  h_recv_pkt_queue : PacketQueue;
  h_send_pkt_queue : PacketQueue;
  h_open_file_id_pool : NumPool;
  h_open_files_table : gmap Z KernelOpenFile;
  h_connections : gmap TcpControllerKey TcpController;
  h_listeners : gmap LocalLayerThreeKey (list Z);
  h_port_pool : NumPool;
}.

Definition host_eta (h : Host) : Host :=
  MkHost (h_hostname h) (h_local_ip_address h) (h_recv_pkt_queue h) (h_send_pkt_queue h)
    (h_open_file_id_pool h) (h_open_files_table h) (h_connections h) (h_listeners h)
    (h_port_pool h).

#[export] Instance set_h_recv_pkt_queue : Setter h_recv_pkt_queue := ltac:(setter_of host_eta).
#[export] Instance set_h_send_pkt_queue : Setter h_send_pkt_queue := ltac:(setter_of host_eta).
#[export] Instance set_h_open_file_id_pool : Setter h_open_file_id_pool := ltac:(setter_of host_eta).
#[export] Instance set_h_open_files_table : Setter h_open_files_table := ltac:(setter_of host_eta).
#[export] Instance set_h_connections : Setter h_connections := ltac:(setter_of host_eta).
#[export] Instance set_h_listeners : Setter h_listeners := ltac:(setter_of host_eta).
#[export] Instance set_h_port_pool : Setter h_port_pool := ltac:(setter_of host_eta).

Implicit Types h : Host.

(** [Host::Host] and [Host::Initialize]; the listeners it starts are
    [Host_PacketsReceiveListener_round] and [Host_PacketsSendListener_round]. *)
Definition Host_new (hostname ip_address : string) : Host :=
  MkHost hostname ip_address PacketQueue_new PacketQueue_new
    (NumPool_new kMinOpenFileId kMaxOpenFileId) ∅ ∅ ∅ (NumPool_new kMinPort kMaxPort).

(** [std::map::emplace]: an entry that exists stays. *)
Definition emplace `{Countable K} {A} (k : K) (a : A) (m : gmap K A) : gmap K A :=
  match m !! k with Some _ => m | None => <[k := a]> m end.

(** ** Sockets *)

(** [Host::GetSocket] *)
Definition Host_GetSocket (open_file_id : Z) h : option Socket :=
  match h_open_files_table h !! open_file_id with
  | None => None
  | Some f => if bool_decide (kf_type f = SOCKET) then Some (kf_socket f) else None
  end.

(** A store through a pointer to a socket. *)
Definition Host_update_socket (open_file_id : Z) (f : Socket → Socket) h : Host :=
  h <| h_open_files_table := alter (λ k, k <| kf_socket := f (kf_socket k) |>) open_file_id
                               (h_open_files_table h) |>.

(** [Host::GetSocketLocalBound] *)
Definition Host_GetSocketLocalBound (open_file_id : Z) h : option LocalLayerThreeKey :=
  match Host_GetSocket open_file_id h with
  | None => None
  | Some socket => if Socket_isBound socket then Some (so_local_bound socket) else None
  end.

(** [Host::ReleasePort] *)
Definition Host_ReleasePort (port : Z) h : Host :=
  h <| h_port_pool := NumPool_Release (i32 port) (h_port_pool h) |>.

(** [Host::CreateNewSocket]: the id, -1 when the pool is empty. *)
Definition Host_CreateNewSocket h : Z * Host :=
  let '(id, pool) := NumPool_Allocate (h_open_file_id_pool h) in
  let h := h <| h_open_file_id_pool := pool |> in
  if id <? 0 then (-1, h)
  else
    let table := emplace id (KernelOpenFile_new SOCKET) (h_open_files_table h) in
    (id, h <| h_open_files_table := alter KernelOpenFile_IncRef id table |>).

(** [Host::SocketBind] *)
Definition Host_SocketBind (open_file_id : Z) (ip : string) (port : Z) h : bool * Host :=
  match Host_GetSocket open_file_id h with
  | None => (false, h)
  | Some socket =>
      if Socket_isBound socket then (false, h)
      else
        let '(taken, pool) := NumPool_Take (i32 port) (h_port_pool h) in
        let h := h <| h_port_pool := pool |> in
        if negb taken then (false, h)
        else (true, Host_update_socket open_file_id (Socket_Bind ip port) h)
  end.

(** [Host::SocketListen] *)
Definition Host_SocketListen (open_file_id : Z) h : bool * Host :=
  match Host_GetSocketLocalBound open_file_id h with
  | None => (false, h)
  | Some key => (true, h <| h_listeners := emplace key [] (h_listeners h) |>)
  end.

(** [Host::SocketAccept]: [None] when it blocks. A socket that is not bound gives
    [false], that is [0]. *)
Definition Host_SocketAccept (open_file_id : Z) h : option (Z * Host) :=
  match Host_GetSocketLocalBound open_file_id h with
  | None => Some (0, h)
  | Some key =>
      match h_listeners h !! key with
      | None => Some (-1, h)
      | Some [] => None
      | Some (new_open_file_id :: rest) =>
          Some (new_open_file_id, h <| h_listeners := <[key := rest]> (h_listeners h) |>)
      end
  end.

(** ** Connections *)

(** Following a pointer to a connection. *)
Definition Host_follow (p : con_ptr) h : res (TcpControllerKey * TcpController) :=
  match p with
  | con_null => Fault NullDereference
  | con_freed => Fault UseAfterFree
  | con_at key =>
      match h_connections h !! key with
      | Some t => Ok (key, t)
      | None => Fault UseAfterFree
      end
  end.

(** [connections_.erase]: the pointers of the sockets to the connection dangle. *)
Definition dangle (key : TcpControllerKey) (s : Socket) : Socket :=
  if bool_decide (so_tcp_con s = con_at key) then s <| so_tcp_con := con_freed |> else s.
Definition Host_erase_connection (key : TcpControllerKey) h : Host :=
  h <| h_open_files_table := (λ f, f <| kf_socket := dangle key (kf_socket f) |>) <$> h_open_files_table h |>
    <| h_connections := delete key (h_connections h) |>.

(** [TcpController::DetachSocket]: a store through [socket_]. *)
Definition Host_DetachSocket (open_file_id : Z) h : res Host :=
  match h_open_files_table h !! open_file_id with
  | None => Fault UseAfterFree
  | Some _ => Ok (Host_update_socket open_file_id (λ s, s <| so_tcp_con := con_null |>) h)
  end.

(** [TcpController::TearDown] of the connection [t], on the host: the timers and
    queues, then the socket, then the port. *)
Definition Host_TearDown_tcp (t : TcpController) h : res (TcpController * Host) :=
  let '(port, t) := TcpController_TearDown t in
  h ← Host_DetachSocket (tc_socket t) h;
  Ok (t, match port with Some p => Host_ReleasePort p h | None => h end).

(** The first half of the thread [CloseAndDelete] spawns. *)
Definition Host_TearDown (key : TcpControllerKey) h : res Host :=
  t ← deref (h_connections h !! key);
  '(t, h) ← Host_TearDown_tcp t h;
  Ok (h <| h_connections := <[key := t]> (h_connections h) |>).

(** [Host::DeleteTcpConnection]: erasing the entry runs the destructor, which
    tears down once more. *)
Definition Host_DeleteTcpConnection (key : TcpControllerKey) h : res Host :=
  match h_connections h !! key with
  | None => Ok h
  | Some t =>
      '(_, h) ← Host_TearDown_tcp t h;
      Ok (Host_erase_connection key h)
  end.

(** [Host::DeleteSocketAndConnection] *)
Definition Host_DeleteSocketAndConnection (open_file_id : Z) h : res Host :=
  match h_open_files_table h !! open_file_id with
  | None => Ok h
  | Some f =>
      key ← match so_tcp_con (kf_socket f) with
            | con_null => Ok TcpControllerKey_default
            | p => '(_, t) ← Host_follow p h; Ok (tc_key t)
            end;
      let h := h <| h_open_files_table := delete open_file_id (h_open_files_table h) |> in
      if negb (bool_decide (key_dest_ip key = ""%string)) && (0 <? key_dest_port key)
      then Host_DeleteTcpConnection key h else Ok h
  end.

(** A store to a connection through a pointer. *)
Definition Host_update_tcp (key : TcpControllerKey) (t : TcpController) h : Host :=
  h <| h_connections := <[key := t]> (h_connections h) |>.

(** [Host::SocketConnect]: [emplace] builds the connection first, and destroys
    it again when the key is taken; its destructor detaches the socket. *)
Definition Host_SocketConnect (RandomNumber : Z → Z) (now open_file_id : Z) (remote_ip : string)
    (remote_port : Z) h : res (bool * Host) :=
  socket ← deref (Host_GetSocket open_file_id h);
  '(local_key, h) ←
    (if negb (Socket_isBound socket) then
       '(port, pool) ← NumPool_AllocateRandom RandomNumber (h_port_pool h);
       let local_key := MkLocalKey (h_local_ip_address h) port in
       let h := h <| h_port_pool := pool |> in
       Ok (local_key, Host_update_socket open_file_id (Socket_BindKey local_key) h)
     else Ok (so_local_bound socket, h));
  let tcp_key := MkKey remote_ip (i32 remote_port) (local_ip local_key) (local_port local_key) in
  let tcp_options := TcpController_GetDefaultOptions in
  let new_tcp := TcpController_new open_file_id tcp_key tcp_options in
  h ← match h_connections h !! tcp_key with
      | None => Ok (Host_update_tcp tcp_key new_tcp h)
      | Some _ => '(_, h) ← Host_TearDown_tcp new_tcp h; Ok h
      end;
  tcp_con ← deref (h_connections h !! tcp_key);
  let h := Host_update_socket open_file_id (λ s, s <| so_tcp_con := con_at tcp_key |>) h in
  '(re, tcp_con) ← TcpController_TryConnect now tcp_con;
  let h := Host_update_tcp tcp_key tcp_con h in
  if negb re then
    Ok (false, h <| h_port_pool := NumPool_Release (local_port local_key) (h_port_pool h) |>)
  else Ok (true, h).

(** [Host::DecOpenFileRef] *)
Definition Host_DecOpenFileRef (open_file_id : Z) h : res (Z * Host) :=
  match h_open_files_table h !! open_file_id with
  | None => Ok (-1, h)
  | Some f =>
      if KernelOpenFile_Refs f <=? 1 then
        let socket := kf_socket f in
        h ← match so_tcp_con socket with
            | con_null =>
                Ok (if Socket_isBound socket
                    then Host_ReleasePort (local_port (so_local_bound socket)) h else h)
            | p =>
                '(key, t) ← Host_follow p h;
                let t := if Socket_isBound socket then TcpController_SetReleasePort true t else t in
                Ok (Host_update_tcp key (TcpController_TryClose t).2 h)
            end;
        Ok (0, h <| h_open_files_table := delete open_file_id (h_open_files_table h) |>)
      else
        let f := KernelOpenFile_DecRef f in
        Ok (KernelOpenFile_Refs f,
            h <| h_open_files_table := <[open_file_id := f]> (h_open_files_table h) |>)
  end.

(** [Host::IncOpenFileRef]; an unknown id gives [false], that is [0]. *)
Definition Host_IncOpenFileRef (open_file_id : Z) h : Z * Host :=
  match h_open_files_table h !! open_file_id with
  | None => (0, h)
  | Some f =>
      let f := KernelOpenFile_IncRef f in
      (KernelOpenFile_Refs f,
       h <| h_open_files_table := <[open_file_id := f]> (h_open_files_table h) |>)
  end.

(** ** Data *)

(** [Host::ReadData]: [None] when it blocks. *)
Definition Host_ReadData (open_file_id size : Z) h : res (option (Z * list Z * Host)) :=
  match Host_GetSocket open_file_id h with
  | None => Ok (Some (-1, [], h))
  | Some socket =>
      '(key, t) ← Host_follow (so_tcp_con socket) h;
      r ← TcpController_ReadData size t;
      Ok (match r with
          | None => None
          | Some (n, bytes, t) => Some (n, bytes, Host_update_tcp key t h)
          end)
  end.

(** [Host::WriteData]: [None] when it blocks. *)
Definition Host_WriteData (open_file_id : Z) (buffer : list Z) h : res (option (Z * Host)) :=
  match Host_GetSocket open_file_id h with
  | None => Ok (Some (-1, h))
  | Some socket =>
      if bool_decide (so_state socket = Socket_SHUTDOWN) then Ok (Some (-1, h))
      else
        match so_tcp_con socket with
        | con_null => Ok (Some (-2, h))
        | p =>
            '(key, t) ← Host_follow p h;
            Ok (match TcpController_WriteData buffer t with
                | None => None
                | Some (n, t) => Some (n, Host_update_tcp key t h)
                end)
        end
  end.

(** [Host::ShutDownSocket]; the [-1] for an unknown socket is [true]. *)
Definition Host_ShutDownSocket (open_file_id : Z) h : res (bool * Host) :=
  match Host_GetSocket open_file_id h with
  | None => Ok (true, h)
  | Some socket =>
      if bool_decide (so_state socket = Socket_SHUTDOWN) then Ok (true, h)
      else
        let h := Host_update_socket open_file_id (λ s, s <| so_state := Socket_SHUTDOWN |>) h in
        '(key, t) ← Host_follow (so_tcp_con socket) h;
        let '(re, t) := TcpController_TryShutDown t in
        Ok (re, Host_update_tcp key t h)
  end.

(** ** Packets *)

(** [Host::MovePacketsFromChannel] and [MultiplexPacketsFromTcp]: the caller's
    queue must come back empty. *)
Definition Host_MovePacketsFromChannel (pkts : list Packet) h : res Host :=
  let '(_, rest, q) := PacketQueue_PushAll pkts (h_recv_pkt_queue h) in
  _ ← sanity_check (bool_decide (rest = []));
  Ok (h <| h_recv_pkt_queue := q |>).
Definition Host_MultiplexPacketsFromTcp (pkts : list Packet) h : res Host :=
  let '(_, rest, q) := PacketQueue_PushAll pkts (h_send_pkt_queue h) in
  _ ← sanity_check (bool_decide (rest = []));
  Ok (h <| h_send_pkt_queue := q |>).

(** [Host::SendBackRST] *)
Definition rst_packet (tcp_key : TcpControllerKey) : Packet :=
  Packet_new (IPHeader_default <| source_ip := key_source_ip tcp_key |>
                               <| dest_ip := key_dest_ip tcp_key |>)
    (TcpHeader_default <| source_port := u16 (key_source_port tcp_key) |>
                       <| dest_port := u16 (key_dest_port tcp_key) |> <| rst := true |>).
Definition Host_SendBackRST (tcp_key : TcpControllerKey) h : Host :=
  h <| h_send_pkt_queue := (PacketQueue_Push (rst_packet tcp_key) (h_send_pkt_queue h)).2 |>.

(** The key of the connection a packet is for: its destination first. *)
Definition demux_key (pkt : Packet) : TcpControllerKey :=
  MkKey (dest_ip (ip_header pkt)) (dest_port (tcp_header pkt))
        (source_ip (ip_header pkt)) (source_port (tcp_header pkt)).

(** [Host::HandleNewConnection] *)
Definition Host_HandleNewConnection (pkt : Packet) h : bool * Host :=
  if negb (sync (tcp_header pkt)) then (false, h)
  else
    let key := MkLocalKey (source_ip (ip_header pkt)) (source_port (tcp_header pkt)) in
    match h_listeners h !! key with
    | None => (false, h)
    | Some tcp_sockets =>
        let tcp_key := demux_key pkt in
        let '(open_file_id, h) := Host_CreateNewSocket h in
        if open_file_id <? 0 then (false, h)
        else
          let tcp_options := TcpController_GetDefaultOptions
            <| recv_window_base := pkt_seq pkt |> in
          let t := TcpController_new open_file_id tcp_key tcp_options in
          let h := h <| h_connections := emplace tcp_key t (h_connections h) |> in
          let h := Host_update_socket open_file_id (λ s, s <| so_tcp_con := con_at tcp_key |>) h in
          let h := h <| h_connections := alter (TcpController_ReceiveNewPacket (Packet_Copy pkt))
                                           tcp_key (h_connections h) |> in
          (true, h <| h_listeners := <[key := tcp_sockets ++ [open_file_id]]> (h_listeners h) |>)
    end.

(** The loop of [Host::DemultiplexPacketsToTcps]: [size] rounds on the queue. A
    packet without a connection stays at the front. *)
Fixpoint Host_demux_loop (size : nat) (new_packets : list Packet) h : res (list Packet * Host) :=
  match size with
  | O => Ok (new_packets, h)
  | S size =>
      match new_packets with
      | [] => Fault OutOfRange
      | pkt :: rest =>
          let tcp_key := demux_key pkt in
          let deliver h :=
            t ← deref (h_connections h !! tcp_key);
            Host_demux_loop size rest
              (Host_update_tcp tcp_key (TcpController_ReceiveNewPacket pkt t) h) in
          match h_connections h !! tcp_key with
          | Some _ => deliver h
          | None =>
              let '(is_new, h) := Host_HandleNewConnection pkt h in
              if is_new then deliver h
              else
                Host_demux_loop size new_packets
                  (if rst (tcp_header pkt) then h else Host_SendBackRST tcp_key h)
          end
      end
  end.

Definition Host_DemultiplexPacketsToTcps (new_packets : list Packet) h : res (list Packet * Host) :=
  Host_demux_loop (Z.to_nat (u32 (Z.of_nat (length new_packets)))) new_packets h.

(** A round of [PacketsReceiveListener]: [None] when it blocks. The queue it took
    is destroyed at the end of the round with what is left in it. *)
Definition Host_PacketsReceiveListener_round h : res (option Host) :=
  match PacketQueue_DeQueueAllTo [] true (h_recv_pkt_queue h) with
  | None => Ok None
  | Some (_, new_packets, q) =>
      '(_, h) ← Host_DemultiplexPacketsToTcps new_packets (h <| h_recv_pkt_queue := q |>);
      Ok (Some h)
  end.

(** A round of [PacketsSendListener]: the packets given to the channel. *)
Definition Host_PacketsSendListener_round h : option (list Packet * Host) :=
  match PacketQueue_DeQueueAllTo [] true (h_send_pkt_queue h) with
  | None => None
  | Some (_, pkts, q) => Some (pkts, h <| h_send_pkt_queue := q |>)
  end.
End Host.
