(* ===== verification/HostDemux.v ===== *)
(** * Demultiplexing

    What [Host::DemultiplexPacketsToTcps] does with a batch: the packets of known
    connections, a packet nobody expects, and a SYN for a listener; and that the
    packets a connection makes come to its peer. *)
From S2P Require Import Prelude Interfaces Packet Keys NumPool PacketQueue SendWindow RecvWindow.
From S2P Require Import Tcp TcpRecv TcpSend TcpConn Kernel Host.
Open Scope Z_scope.
Open Scope tcp_scope.

Section HostDemux.
Context `{!StopWatchOps, !TimerOps, !BufferOps}.
Implicit Types (h : Host) (t : TcpController).

(** ** Known connections *)

(** [ps] at the back of a connection's queue of received packets. *)
Definition with_received (ps : list Packet) t : TcpController :=
  t <| tc_pkt_recv_buffer := (tc_pkt_recv_buffer t)
         <| pq_packets := pq_packets (tc_pkt_recv_buffer t) ++ ps |> |>.

(** The packets of a batch for the connection [k], in the order of the batch. *)
Definition packets_for (k : TcpControllerKey) (pkts : list Packet) : list Packet :=
  filter (λ p, demux_key p = k) pkts.

Definition known h (pkt : Packet) : Prop := is_Some (h_connections h !! demux_key pkt).

(** [h'] is [h] after the packets [pkts] went to their connections. *)
Record delivered h (pkts : list Packet) h' : Prop := {
  dl_frame : h' = h <| h_connections := h_connections h' |>;
  dl_connections k :
    h_connections h' !! k = with_received (packets_for k pkts) <$> h_connections h !! k;
}.

Lemma with_received_nil t : with_received [] t = t.
Proof. unfold with_received. destruct t as [? ? ? []]; cbn. by rewrite app_nil_r. Qed.
Lemma with_received_app ps qs t :
  with_received qs (with_received ps t) = with_received (ps ++ qs) t.
Proof. unfold with_received; cbn. by rewrite app_assoc. Qed.
Lemma ReceiveNewPacket_eq p t : TcpController_ReceiveNewPacket p t = with_received [p] t.
Proof. done. Qed.

Lemma delivered_nil h : delivered h [] h.
Proof.
  split; [by destruct h|]. intros k. destruct (h_connections h !! k) as [t|]; [|done].
  cbn. by rewrite with_received_nil.
Qed.

Lemma delivered_cons h p t pkts h' : h_connections h !! demux_key p = Some t →
  delivered (Host_update_tcp (demux_key p) (TcpController_ReceiveNewPacket p t) h) pkts h' →
  delivered h (p :: pkts) h'.
Proof.
  intros Ht [F C]. split; [by rewrite F; destruct h|]. intros k. rewrite C. unfold packets_for.
  rewrite filter_cons. cbn. destruct (decide (demux_key p = k)) as [<-|Hne].
  - rewrite lookup_insert_eq, Ht. cbn. by rewrite ReceiveNewPacket_eq, with_received_app.
  - by rewrite lookup_insert_ne.
Qed.

Lemma known_update h k t p : h_connections h !! k = Some t → ∀ t',
  known (Host_update_tcp k t' h) p ↔ known h p.
Proof.
  intros Ht t'. unfold known. cbn. destruct (decide (k = demux_key p)) as [->|Hne].
  - rewrite lookup_insert_eq, Ht. by split.
  - by rewrite lookup_insert_ne.
Qed.

Lemma demux_loop_known h pkts : Forall (known h) pkts →
  ∃ h', delivered h pkts h' ∧ ∀ rest n,
    Host_demux_loop (length pkts + n) (pkts ++ rest) h = Host_demux_loop n rest h'.
Proof.
  revert h. induction pkts as [|p pkts IH]; intros h Hk.
  { exists h. split; [apply delivered_nil | done]. }
  apply Forall_cons in Hk as [[t Ht] Hk].
  destruct (IH (Host_update_tcp (demux_key p) (TcpController_ReceiveNewPacket p t) h))
    as (h' & Hd & Hloop).
  { eapply Forall_impl; [exact Hk|]. intros q. by apply (known_update _ _ _ _ Ht). }
  exists h'. split; [by eapply delivered_cons|].
  intros rest n. cbn [length app Nat.add Host_demux_loop]. rewrite Ht. cbn [deref mbind res_bind]. apply Hloop.
Qed.

(** ** A packet nobody expects *)

(** No connection, and no listener it could open one at. *)
Definition refused h (pkt : Packet) : Prop :=
  h_connections h !! demux_key pkt = None ∧
  (sync (tcp_header pkt) = false ∨
   h_listeners h !! MkLocalKey (source_ip (ip_header pkt)) (source_port (tcp_header pkt)) = None).

Lemma HandleNewConnection_refused h pkt : refused h pkt →
  Host_HandleNewConnection pkt h = (false, h).
Proof.
  unfold Host_HandleNewConnection. intros [_ [->| ->]]; [done|]. by case_match.
Qed.

(** [n] copies of the RST for [pkt] on the send queue, none for an RST. *)
Definition with_rsts (n : nat) (pkt : Packet) h : Host :=
  if rst (tcp_header pkt) then h
  else h <| h_send_pkt_queue := (h_send_pkt_queue h)
       <| pq_packets := pq_packets (h_send_pkt_queue h) ++ replicate n (rst_packet (demux_key pkt)) |> |>.

Lemma with_rsts_0 pkt h : with_rsts 0 pkt h = h.
Proof. unfold with_rsts. case_match; [done|]. destruct h as [? ? ? []]; cbn. by rewrite app_nil_r. Qed.

Lemma demux_loop_refused n pkt rest h : refused h pkt →
  Host_demux_loop n (pkt :: rest) h = Ok (pkt :: rest, with_rsts n pkt h).
Proof.
  revert h. induction n as [|n IH]; intros h Hr; [by rewrite with_rsts_0|].
  cbn [Host_demux_loop]. pose proof (HandleNewConnection_refused h pkt Hr) as ->.
  destruct Hr as [Hn Hl]. rewrite Hn. unfold with_rsts.
  destruct (rst (tcp_header pkt)) eqn:Hrst.
  - rewrite IH by by split. unfold with_rsts. by rewrite Hrst.
  - rewrite IH by by split. unfold with_rsts. rewrite Hrst.
    unfold Host_SendBackRST, PacketQueue_Push. cbn. by rewrite <- app_assoc.
Qed.

(** ** A SYN for a listener *)

(** The connection [HandleNewConnection] makes for a SYN. *)
Definition passive_conn (open_file_id : Z) (pkt : Packet) : TcpController :=
  TcpController_new open_file_id (demux_key pkt)
    (TcpController_GetDefaultOptions <| recv_window_base := pkt_seq pkt |>).

(** Its open file. *)
Definition passive_file (pkt : Packet) : KernelOpenFile :=
  MkFile SOCKET (Socket_new <| so_tcp_con := con_at (demux_key pkt) |>) 1.

Lemma CreateNewSocket_spec h id ids : np_pool (h_open_file_id_pool h) = id :: ids → 0 <= id →
  h_open_files_table h !! id = None →
  Host_CreateNewSocket h =
    (id, h <| h_open_file_id_pool := (h_open_file_id_pool h) <| np_pool := ids |> |>
           <| h_open_files_table := <[id := MkFile SOCKET Socket_new 1]> (h_open_files_table h) |>).
Proof.
  intros Hp Hid Hn. unfold Host_CreateNewSocket, NumPool_Allocate. rewrite Hp.
  rewrite (proj2 (Z.ltb_ge _ _) Hid). unfold emplace. cbn. rewrite Hn.
  repeat f_equal. by rewrite alter_insert_eq.
Qed.

Lemma HandleNewConnection_accepts h pkt id ids socks :
  h_connections h !! demux_key pkt = None → sync (tcp_header pkt) = true →
  h_listeners h !! MkLocalKey (source_ip (ip_header pkt)) (source_port (tcp_header pkt)) = Some socks →
  np_pool (h_open_file_id_pool h) = id :: ids → 0 <= id → h_open_files_table h !! id = None →
  Host_HandleNewConnection pkt h =
    (true, h <| h_open_file_id_pool := (h_open_file_id_pool h) <| np_pool := ids |> |>
       <| h_open_files_table := <[id := passive_file pkt]> (h_open_files_table h) |>
       <| h_connections := <[demux_key pkt :=
            with_received [Packet_Copy pkt] (passive_conn id pkt)]> (h_connections h) |>
       <| h_listeners := <[MkLocalKey (source_ip (ip_header pkt)) (source_port (tcp_header pkt)) :=
            socks ++ [id]]> (h_listeners h) |>).
Proof.
  intros Hc Hs Hl Hp Hid Hn. unfold Host_HandleNewConnection. rewrite Hs, Hl. cbn [negb].
  rewrite (CreateNewSocket_spec h id ids Hp Hid Hn), (proj2 (Z.ltb_ge _ _) Hid).
  unfold emplace, Host_update_socket. cbn. rewrite Hc, !alter_insert_eq. done.
Qed.

(** ** Addresses *)

(** The key under which the peer keeps a connection. *)
Definition mirror (k : TcpControllerKey) : TcpControllerKey :=
  MkKey (key_dest_ip k) (key_dest_port k) (key_source_ip k) (key_source_port k).

Definition ports_ok (k : TcpControllerKey) : Prop :=
  0 <= key_source_port k < 65536 ∧ 0 <= key_dest_port k < 65536.

(** Headers made from the key [k]. *)
Definition addressed (k : TcpControllerKey) (pkt : Packet) : Prop :=
  source_ip (ip_header pkt) = key_source_ip k ∧ dest_ip (ip_header pkt) = key_dest_ip k ∧
  source_port (tcp_header pkt) = u16 (key_source_port k) ∧
  dest_port (tcp_header pkt) = u16 (key_dest_port k).

Lemma addressed_demux k pkt : ports_ok k → addressed k pkt → demux_key pkt = mirror k.
Proof.
  intros [Hs Hd] (Es & Ed & Ps & Pd). unfold demux_key, mirror. rewrite Es, Ed, Ps, Pd.
  unfold u16. by rewrite !Z.mod_small.
Qed.

Lemma mirror_involutive k : mirror (mirror k) = k.
Proof. by destruct k. Qed.

(** ** Properties *)

(** C21. A batch whose packets all have a connection: the demultiplexer takes every
    packet, and each connection receives, at the back of its queue, exactly its
    packets of the batch, in order and unchanged; nothing else of the host
    changes. *)
Theorem Host_demux_delivers h pkts
    (Hlen : Z.of_nat (length pkts) < 4294967296)
    (Hknown : Forall (λ p, is_Some (h_connections h !! demux_key p)) pkts) :
  ∃ h', Host_DemultiplexPacketsToTcps pkts h = Ok ([], h') ∧
    h' = h <| h_connections := h_connections h' |> ∧
    ∀ k, h_connections h' !! k =
      (λ t, t <| tc_pkt_recv_buffer := (tc_pkt_recv_buffer t) <| pq_packets :=
               pq_packets (tc_pkt_recv_buffer t) ++ filter (λ p, demux_key p = k) pkts |> |>)
        <$> h_connections h !! k.
Proof.
  destruct (demux_loop_known h pkts Hknown) as (h' & [F C] & Hloop). specialize (Hloop [] O).
  exists h'. split; [|by split]. unfold Host_DemultiplexPacketsToTcps.
  rewrite u32_small, Nat2Z.id by word_lia. by rewrite app_nil_r, Nat.add_0_r in Hloop.
Qed.

(** C33. A packet without a connection, and not a SYN for a listener, blocks the
    rest of its batch: the packets before it are delivered, but it is never taken
    off the queue, so every remaining round looks at it again. The host answers
    each of these rounds with an RST (with none if the packet is one), and the
    packets behind it, whoever they are for, reach nobody. *)
Theorem Host_demux_loses_batch h pkts bad rest
    (Hlen : Z.of_nat (length (pkts ++ bad :: rest)) < 4294967296)
    (Hknown : Forall (λ p, is_Some (h_connections h !! demux_key p)) pkts)
    (Hnone : h_connections h !! demux_key bad = None)
    (Hrefused : sync (tcp_header bad) = false ∨ h_listeners h !!
       MkLocalKey (source_ip (ip_header bad)) (source_port (tcp_header bad)) = None) :
  ∃ h1 h', Host_DemultiplexPacketsToTcps (pkts ++ bad :: rest) h = Ok (bad :: rest, h') ∧
    Host_DemultiplexPacketsToTcps pkts h = Ok ([], h1) ∧
    h_connections h' = h_connections h1 ∧
    pq_packets (h_send_pkt_queue h') = pq_packets (h_send_pkt_queue h) ++
      (if rst (tcp_header bad) then []
       else replicate (S (length rest)) (rst_packet (demux_key bad))).
Proof.
  destruct (demux_loop_known h pkts Hknown) as (h1 & [F C] & Hloop).
  pose proof (Hloop [] O) as Hpre. specialize (Hloop (bad :: rest) (S (length rest))).
  assert (refused h1 bad) as Hr.
  { split; [by rewrite C, Hnone|]. by rewrite F. }
  rewrite (demux_loop_refused _ _ _ _ Hr) in Hloop.
  rewrite length_app in Hlen.
  exists h1, (with_rsts (S (length rest)) bad h1). unfold Host_DemultiplexPacketsToTcps.
  rewrite !u32_small, !Nat2Z.id, length_app by (rewrite ?length_app; word_lia).
  rewrite app_nil_r, Nat.add_0_r in Hpre. split; [done|]. split; [done|].
  unfold with_rsts. destruct (rst (tcp_header bad)).
  - split; [done|]. rewrite F. cbn. by rewrite app_nil_r.
  - split; [done|]. cbn. by rewrite F.
Qed.

(** C23. A SYN for a listener, without a connection yet: the host takes the
    smallest free open file id for a fresh socket, keeps a connection in the state
    CLOSED whose receive window starts at the SYN, hands the id to the listener,
    and leaves the socket unbound. The connection's queue then holds the SYN
    twice: a copy from [HandleNewConnection], and the packet itself. *)
Theorem Host_new_connection h pkt id ids socks
    (Hnone : h_connections h !! demux_key pkt = None)
    (Hsync : sync (tcp_header pkt) = true)
    (Hlisten : h_listeners h !!
       MkLocalKey (source_ip (ip_header pkt)) (source_port (tcp_header pkt)) = Some socks)
    (Hpool : np_pool (h_open_file_id_pool h) = id :: ids) (Hid : 0 <= id)
    (Hfresh : h_open_files_table h !! id = None) :
  ∃ t h', Host_DemultiplexPacketsToTcps [pkt] h = Ok ([], h') ∧
    h_connections h' = <[demux_key pkt := t]> (h_connections h) ∧
    tc_state t = CLOSED ∧ tc_key t = demux_key pkt ∧ tc_socket t = id ∧
    rw_recv_base (tc_recv_window t) = pkt_seq pkt ∧
    pq_packets (tc_pkt_recv_buffer t) = [Packet_Copy pkt; pkt] ∧
    np_pool (h_open_file_id_pool h') = ids ∧
    (∃ f, h_open_files_table h' = <[id := f]> (h_open_files_table h) ∧
       so_tcp_con (kf_socket f) = con_at (demux_key pkt) ∧ Socket_isBound (kf_socket f) = false) ∧
    h_listeners h' = <[MkLocalKey (source_ip (ip_header pkt)) (source_port (tcp_header pkt)) :=
      socks ++ [id]]> (h_listeners h).
Proof.
  unfold Host_DemultiplexPacketsToTcps. change (Z.to_nat _) with 1%nat. cbn [Host_demux_loop].
  rewrite Hnone, (HandleNewConnection_accepts h pkt id ids socks); try done.
  cbn [h_connections set set_h_connections set_h_listeners]. rewrite lookup_insert_eq.
  cbn [deref mbind res_bind]. eexists _, _. split; [done|]. unfold Host_update_tcp. cbn.
  rewrite insert_insert_eq. split_and!; try done. exists (passive_file pkt). by split_and!.
Qed.

(** C32. Whatever packet a connection makes, and the RST a host sends back for a
    key without a connection, the demultiplexer at the peer files under the
    mirrored key: the four addresses swapped. *)
Theorem packets_reach_peer t seq a n b k
    (Hports : 0 <= key_source_port (tc_key t) < 65536 ∧ 0 <= key_dest_port (tc_key t) < 65536)
    (Hk : 0 <= key_source_port k < 65536 ∧ 0 <= key_dest_port k < 65536) :
  Forall (λ p, demux_key p =
      MkKey (key_dest_ip (tc_key t)) (key_dest_port (tc_key t))
            (key_source_ip (tc_key t)) (key_source_port (tc_key t)))
    [TcpController_MakeDataPacket seq None 0 t;
     (TcpController_MakeDataPacketFromBuffer seq b n t).1;
     TcpController_MakeAckPacket a t; TcpController_MakeSyncPacket seq t;
     TcpController_sync_ack_pkt a t; TcpController_MakeFinPacket seq t;
     TcpController_MakeRstPacket t] ∧
  demux_key (rst_packet k) =
    MkKey (key_dest_ip k) (key_dest_port k) (key_source_ip k) (key_source_port k).
Proof.
  split; [|by apply addressed_demux].
  repeat apply Forall_cons_2; try apply Forall_nil_2; apply (addressed_demux (tc_key t)); try done.
  unfold TcpController_MakeDataPacketFromBuffer, Packet_InjectPayloadFromBuffer.
  by repeat case_match; simplify_eq/=.
Qed.
End HostDemux.

(** ** Concrete instances *)

#[local] Existing Instance simple_StopWatch.
#[local] Existing Instance simple_Timer.
#[local] Existing Instance simple_Buffer.

(** A server that listens on port 80 and has one connection from port 40. *)
Definition key40 : TcpControllerKey := MkKey "10.0.0.2" 40 "10.0.0.1" 80.
Definition server_host : Host :=
  (Host_new "server" "10.0.0.1")
    <| h_open_file_id_pool := MkNumPool "" (seqZ 2 254) |>
    <| h_listeners := {[MkLocalKey "10.0.0.1" 80 := []]} |>
    <| h_connections := {[key40 := TcpController_new 1 key40 TcpController_GetDefaultOptions]} |>.

(** A packet for the server: the header's source is the receiver's address. *)
Definition to_server (port seq : Z) (is_syn : bool) : Packet :=
  (Packet_new (IPHeader_default <| source_ip := "10.0.0.1" |> <| dest_ip := "10.0.0.2" |>)
    (TcpHeader_default <| source_port := 80 |> <| dest_port := port |> <| seq_num := seq |>
       <| sync := is_syn |>)) <| payload_size := 1 |>.

Lemma Host_demux_delivers_witness : ∃ h' t,
  Host_DemultiplexPacketsToTcps [to_server 40 1 false; to_server 40 2 false] server_host = Ok ([], h') ∧
  h_connections h' !! key40 = Some t ∧
  pq_packets (tc_pkt_recv_buffer t) = [to_server 40 1 false; to_server 40 2 false].
Proof.
  destruct (Host_demux_delivers server_host [to_server 40 1 false; to_server 40 2 false])
    as (h' & Hd & _ & Hc); [done | by repeat constructor; vm_compute; eexists |].
  exists h'. rewrite Hc. eexists. split_and!; [exact Hd | vm_compute; reflexivity | reflexivity].
Defined.

(** A test of a connection of the host a call returns. *)
Definition after_call (r : res (list Packet * Host)) (k : TcpControllerKey)
    (P : TcpController → Prop) : Prop :=
  match r with
  | Ok (_, h) => match h_connections h !! k with Some t => P t | None => False end
  | Fault _ => False
  end.

Lemma Host_demux_loses_batch_witness : ∃ h',
  Host_DemultiplexPacketsToTcps
    [to_server 40 1 false; to_server 41 0 false; to_server 40 2 false] server_host =
    Ok ([to_server 41 0 false; to_server 40 2 false], h') ∧
  match h_connections h' !! key40 with
  | Some t => pq_packets (tc_pkt_recv_buffer t) = [to_server 40 1 false]
  | None => False
  end ∧
  length (pq_packets (h_send_pkt_queue h')) = 2%nat.
Proof.
  destruct (Host_demux_loses_batch server_host [to_server 40 1 false] (to_server 41 0 false)
    [to_server 40 2 false]) as (h1 & h' & Hd & H1 & Hc & Hq);
    [done | by repeat constructor; vm_compute; eexists | by vm_compute | by left |].
  exists h'. rewrite Hc, Hq. split; [exact Hd|]. split; [|reflexivity].
  assert (after_call (Host_DemultiplexPacketsToTcps [to_server 40 1 false] server_host) key40
    (λ t, pq_packets (tc_pkt_recv_buffer t) = [to_server 40 1 false])) as Ht
    by (vm_compute; reflexivity).
  rewrite H1 in Ht. exact Ht.
Defined.

(** The queue of the connection in the theorem makes it answer with two SYN_ACKs. *)
Definition answers_twice (t : TcpController) : Prop :=
  match TcpController_PacketReceiveBufferListener_round 0 3 t with
  | Ok (Some (_, t')) => tc_state t' = SYN_RCVD ∧ length (pq_packets (tc_pkt_send_buffer t')) = 2%nat
  | _ => False
  end.

Lemma Host_new_connection_witness : ∃ t h',
  Host_DemultiplexPacketsToTcps [to_server 41 7 true] server_host = Ok ([], h') ∧
  tc_socket t = 2 ∧ h_connections h' !! demux_key (to_server 41 7 true) = Some t ∧ answers_twice t.
Proof.
  destruct (Host_new_connection server_host (to_server 41 7 true) 2 (seqZ 3 253) [])
    as (t & h' & Hd & Hc & _ & _ & Hid & _); [by vm_compute..|].
  exists t, h'. split; [exact Hd|]. split; [exact Hid|].
  assert (h_connections h' !! demux_key (to_server 41 7 true) = Some t) as Ht
    by by rewrite Hc, lookup_insert_eq.
  split; [exact Ht|].
  assert (after_call (Host_DemultiplexPacketsToTcps [to_server 41 7 true] server_host)
    (demux_key (to_server 41 7 true)) answers_twice) as Ha by (vm_compute; split; reflexivity).
  unfold after_call in Ha. rewrite Hd, Ht in Ha. exact Ha.
Defined.

Lemma packets_reach_peer_witness :
  demux_key (TcpController_MakeAckPacket 5 (TcpController_new 1 key40 TcpController_GetDefaultOptions))
  = mirror key40.
Proof.
  destruct (packets_reach_peer (TcpController_new 1 key40 TcpController_GetDefaultOptions)
    0 5 1 (Buffer_new 10) key40) as [Hf _]; [done | done |].
  by rewrite !Forall_cons in Hf; destruct Hf as (_ & _ & Hf & _).
Defined.
