(* ===== verification/HostInv.v ===== *)
(** * The invariant of a host

    A host as a step relation: the system calls, the packets it moves, the steps
    of its connections and their deletion, in any order. In every reachable state
    a pointer from a socket to a connection leads back, and does not dangle, unless
    [SocketConnect] gave the socket the connection of another; no open file id is
    used twice. *)
From S2P Require Import Prelude Interfaces Packet Keys NumPool PacketQueue SendWindow RecvWindow.
From S2P Require Import Tcp TcpRecv TcpSend TcpConn Connection Kernel Host HostDemux.
Open Scope Z_scope.
Open Scope tcp_scope.

Section HostInv.
Context {SWO : StopWatchOps} {TMO : TimerOps} {BFO : BufferOps} {MNO : MinOps}.
Implicit Types (h : Host) (t : TcpController).

(** ** The identity of a connection

    Nothing a connection does changes its key or its socket. *)

Definition same_id t t' : Prop := tc_key t' = tc_key t ∧ tc_socket t' = tc_socket t.

#[export] Instance same_id_preorder : PreOrder same_id.
Proof. split; [by split|]. intros x y z [] []. by split; etransitivity. Qed.

Lemma SendPacket_id o t : same_id t (TcpController_SendPacket o t).
Proof. by destruct o. Qed.

Lemma CloseAndDelete_id t : same_id t (TcpController_CloseAndDelete t).
Proof. unfold TcpController_CloseAndDelete. by case_match. Qed.

Lemma recv_frame_id t t' : recv_frame t t' → same_id t t'.
Proof. intros ->. done. Qed.

Lemma receive_id pkt t a c t' : TcpController_receive pkt t = Ok (a, c, t') → same_id t t'.
Proof.
  unfold TcpController_receive. intros Hr. inv_res Hr. repeat case_match; by simplify_eq.
Qed.

Lemma receive_stream_ack_id pkt t t' :
  ('(ack_number, chain, t) ← TcpController_receive pkt t;
   t ← TcpController_StreamDataToReceiveBuffer chain t;
   Ok (TcpController_SendPacket (Some (TcpController_MakeAckPacket ack_number t)) t)) = Ok t' →
  same_id t t'.
Proof.
  intros Hr. apply bind_Ok in Hr as ([[a c] t1] & H1%receive_id & Hr).
  apply bind_Ok in Hr as (t2 & H2%StreamData_frame%recv_frame_id & Hr). injection Hr as <-.
  transitivity t2; [by transitivity t1 | done].
Qed.

Lemma HandleSYN_id now pkt t b t' : TcpController_HandleSYN now pkt t = Ok (b, t') → same_id t t'.
Proof.
  unfold TcpController_HandleSYN. intros Hr.
  apply bind_Ok in Hr as ([[a c] t1] & H1%receive_id & Hr). etransitivity; [exact H1|].
  apply bind_Ok in Hr as ([] & _ & Hr). destruct (0 <? _).
  - destruct (SendWindow_GetBasePakcketToReSend _) as [base w]. injection Hr as <- <-.
    by destruct base.
  - apply bind_Ok in Hr as ([[] w] & _ & Hr); cbn [negb] in Hr; by injection Hr as <- <-.
Qed.

Lemma HandleACKSYN_id now g pkt t g' t' :
  TcpController_HandleACKSYN now g pkt t = Ok (g', t') → same_id t t'.
Proof.
  unfold TcpController_HandleACKSYN. intros Hr.
  apply bind_Ok in Hr as ([g1 t1] & H1 & Hr). injection Hr as <- <-.
  transitivity t1; [|done]. destruct (bool_decide _); [|by injection H1 as <- <-].
  apply bind_Ok in H1 as ([[r w] g2] & _ & H1). apply Ok_inj, pair_eq in H1 as [_ <-].
  by destruct (SendWindow_NumPacketsToAck w =? 0).
Qed.

Lemma HandleACK_id now g pkt t g' t' :
  TcpController_HandleACK now g pkt t = Ok (g', t') → same_id t t'.
Proof.
  unfold TcpController_HandleACK, TcpController_HandleACK_window. intros Hr.
  apply bind_Ok in Hr as ([[g1 e] t1] & H1 & Hr). injection Hr as <- <-.
  transitivity t1.
  - apply bind_Ok in H1 as ([[r w] g2] & _ & H1). apply Ok_inj, pair_eq in H1 as [_ <-].
    destruct (re_transmit r); [destruct (SendWindow_GetBasePakcketToReSend w) as [[|] w1]|];
      case_match; by case_match.
  - unfold TcpController_HandleACK_state, TcpController_CloseAndDelete.
    by destruct (tc_state t1), e; try done; case_match.
Qed.

Lemma HandlePacket_id now g pkt t g' t' :
  TcpController_HandlePacket now g pkt t = Ok (g', t') → same_id t t'.
Proof.
  rewrite HandlePacket_dispatch. destruct (segment_of pkt); intros Hr.
  - apply bind_Ok in Hr as ([b t1] & H1%HandleSYN_id & Hr). by injection Hr as <- <-.
  - by eapply HandleACKSYN_id.
  - apply bind_Ok in Hr as (t1 & H1 & Hr). injection Hr as <- <-.
    apply receive_stream_ack_id in H1. etransitivity; [|exact H1].
    unfold TcpController_HandleFIN_state. by case_match.
  - by eapply HandleACK_id.
  - injection Hr as <- <-. apply CloseAndDelete_id.
  - apply bind_Ok in Hr as (t1 & H1 & Hr). injection Hr as <- <-.
    unfold TcpController_HandleDataPacket in H1. case_match.
    + by injection H1 as <-.
    + by apply receive_stream_ack_id in H1.
Qed.

Lemma send_data_packet_id now b n t t' : send_data_packet now b n t = Ok t' → same_id t t'.
Proof.
  unfold send_data_packet. case_match. intros Hr.
  apply bind_Ok in Hr as ([[] w] & _ & Hr); injection Hr as <-; [|done]. by destruct b.
Qed.

Lemma send_full_packets_id now n t t' : send_full_packets now n t = Ok t' → same_id t t'.
Proof.
  revert t. induction n as [|n IH]; intros t; cbn [send_full_packets].
  - by intros [= <-].
  - intros Hr. apply bind_Ok in Hr as (t1 & H1%send_data_packet_id & H2%IH). by etransitivity.
Qed.

Lemma SendFIN_id now t t' : TcpController_SendFIN now t = Ok (Some t') → same_id t t'.
Proof.
  unfold TcpController_SendFIN. intros Hr. case_match; [by injection Hr as <-|]. case_match; [done|].
  apply bind_Ok in Hr as ([[] w] & _ & Hr); [|done]. cbn [negb] in Hr. cbn in Hr.
  destruct (tc_state t); by injection Hr as <-.
Qed.

Lemma TryConnect_id now t b t' : TcpController_TryConnect now t = Ok (b, t') → same_id t t'.
Proof.
  unfold TcpController_TryConnect. intros Hr. case_match; [by injection Hr as <- <-|].
  apply bind_Ok in Hr as ([[] w] & _ & Hr); cbn [negb] in Hr; by injection Hr as <- <-.
Qed.

Lemma conn_step_id t t' : conn_step t t' → same_id t t'.
Proof.
  destruct 1 as [t now b t' Hr|t buf r t' Hr|t size r bytes t' Hr|t b t' Hr|t b t' Hr|t b
    |t now g pkt g' t' _ Hr|t pkt|t pkts t' Hr|t now t' _ Hr|t t' Hr|t now t' _ _ Hr|t t' _ Hr
    |t|t|t|t].
  - by eapply TryConnect_id.
  - unfold TcpController_WriteData in Hr. by repeat case_match; simplify_eq.
  - unfold TcpController_ReadData in Hr. by repeat case_match; simplify_eq.
  - unfold TcpController_TryShutDown in Hr. by repeat case_match; simplify_eq.
  - unfold TcpController_TryClose, TcpController_TryShutDown in Hr.
    by repeat case_match; simplify_eq.
  - done.
  - by eapply HandlePacket_id.
  - done.
  - unfold TcpController_PacketSendBufferListener_round in Hr. by repeat case_match; simplify_eq.
  - unfold TcpController_SendBufferListener_round in Hr. case_match; [by injection Hr as <-|].
    case_match; [case_match; by injection Hr as <-|].
    apply bind_Ok in Hr as (t1 & H1%send_full_packets_id & Hr). etransitivity; [exact H1|].
    case_match; [by eapply send_data_packet_id | by injection Hr as <-].
  - unfold TcpController_ReceiveBufferListener_round in Hr. repeat case_match; simplify_eq.
    apply recv_frame_id, push_overflowed_frame.
  - by eapply SendFIN_id.
  - unfold TcpController_SendRSTForClosedConnection_round in Hr. by repeat case_match; simplify_eq.
  - unfold TcpController_TimeoutReTransmitter. case_match; [|done].
    by destruct (SendWindow_GetBasePakcketToReSend _) as [[|] ?].
  - unfold TcpController_ProbeWindowSize. by case_match.
  - apply CloseAndDelete_id.
  - unfold TcpController_kill_thread. case_match; [done|].
    by etransitivity; [|apply CloseAndDelete_id].
Qed.

Lemma follow_Ok p h k t :
  Host_follow p h = Ok (k, t) ↔ p = con_at k ∧ h_connections h !! k = Some t.
Proof.
  destruct p as [|key|]; simpl; [naive_solver| |naive_solver].
  destruct (h_connections h !! key) eqn:Hk; naive_solver congruence.
Qed.

(** ** Steps of a host *)

(** The local end [SocketConnect] uses: the socket's, or a free port. *)
Definition connect_local (RandomNumber : Z → Z) (open_file_id : Z) h : option LocalLayerThreeKey :=
  socket ← Host_GetSocket open_file_id h;
  if Socket_isBound socket then Some (so_local_bound socket)
  else match NumPool_AllocateRandom RandomNumber (h_port_pool h) with
       | Ok (port, _) => Some (MkLocalKey (h_local_ip_address h) port)
       | Fault _ => None
       end.

(** The key under which [SocketConnect] files the connection it makes, and uses the
    one that is there. *)
Definition connect_key (RandomNumber : Z → Z) (open_file_id : Z) (ip : string) (port : Z) h
    : option TcpControllerKey :=
  key ← connect_local RandomNumber open_file_id h;
  Some (MkKey ip (i32 port) (local_ip key) (local_port key)).

(** [SocketConnect] takes the connection of another socket: it does not look. *)
Definition takes_over (RandomNumber : Z → Z) (open_file_id : Z) (ip : string) (port : Z) h
    (k : TcpControllerKey) : Prop :=
  connect_key RandomNumber open_file_id ip port h = Some k ∧
  ∃ t, h_connections h !! k = Some t ∧ tc_socket t ≠ open_file_id.

Inductive host_step : Host → Host → Prop :=
  (** system calls *)
  | hs_socket h id h' : Host_CreateNewSocket h = (id, h') → host_step h h'
  | hs_bind h id ip port b h' : Host_SocketBind id ip port h = (b, h') → host_step h h'
  | hs_listen h id b h' : Host_SocketListen id h = (b, h') → host_step h h'
  | hs_accept h id r h' : Host_SocketAccept id h = Some (r, h') → host_step h h'
  | hs_connect h r now id ip port b h' :
      Host_SocketConnect r now id ip port h = Ok (b, h') → host_step h h'
  | hs_read h id size n bytes h' :
      Host_ReadData id size h = Ok (Some (n, bytes, h')) → host_step h h'
  | hs_write h id buf n h' : Host_WriteData id buf h = Ok (Some (n, h')) → host_step h h'
  | hs_shut_down h id b h' : Host_ShutDownSocket id h = Ok (b, h') → host_step h h'
  | hs_dec_ref h id n h' : Host_DecOpenFileRef id h = Ok (n, h') → host_step h h'
  | hs_inc_ref h id n h' : Host_IncOpenFileRef id h = (n, h') → host_step h h'
  (** packets *)
  | hs_from_channel h pkts h' : Host_MovePacketsFromChannel pkts h = Ok h' → host_step h h'
  | hs_receive h h' : Host_PacketsReceiveListener_round h = Ok (Some h') → host_step h h'
  | hs_multiplex h k t pkts t' h' : h_connections h !! k = Some t →
      TcpController_PacketSendBufferListener_round t = Some (pkts, t') →
      Host_MultiplexPacketsFromTcp pkts (Host_update_tcp k t' h) = Ok h' → host_step h h'
  | hs_send h pkts h' : Host_PacketsSendListener_round h = Some (pkts, h') → host_step h h'
  (** connections *)
  | hs_connection h k t t' : h_connections h !! k = Some t → conn_step t t' →
      host_step h (Host_update_tcp k t' h)
  | hs_tear_down h k h' : Host_TearDown k h = Ok h' → host_step h h'
  | hs_delete h k h' : Host_DeleteTcpConnection k h = Ok h' → host_step h h'
  | hs_delete_socket h id h' : Host_DeleteSocketAndConnection id h = Ok h' → host_step h h'.

Definition host_reachable h : Prop := ∃ name ip, rtc host_step (Host_new name ip) h.

(** ** The invariant

    [taken id k]: the socket [id] once connected to the connection [k] of another
    socket. *)

Section invariant.
Context (taken : Z → TcpControllerKey → Prop).

Record host_inv h : Prop := {
  hi_pool : np_pool (h_open_file_id_pool h) `suffix_of` seqZ 0 256;
  hi_ids id f : h_open_files_table h !! id = Some f →
    0 <= id < 256 ∧ id ∉ np_pool (h_open_file_id_pool h);
  hi_type id f : h_open_files_table h !! id = Some f → kf_type f = SOCKET;
  hi_keys k t : h_connections h !! k = Some t → tc_key t = k;
  hi_sockets id f k : h_open_files_table h !! id = Some f → so_tcp_con (kf_socket f) = con_at k →
    ∃ t, h_connections h !! k = Some t ∧ (tc_socket t = id ∨ taken id k);
  hi_freed id f : h_open_files_table h !! id = Some f → so_tcp_con (kf_socket f) = con_freed →
    ∃ k, taken id k;
}.

(** A step keeps the invariant, takes open file ids only from the front of the
    pool, and brings back no entry of the table whose id was handed out before. *)
Record host_next h h' : Prop := {
  hn_inv : host_inv h';
  hn_pool : np_pool (h_open_file_id_pool h') `suffix_of` np_pool (h_open_file_id_pool h);
  hn_closed id : id ∉ np_pool (h_open_file_id_pool h) → h_open_files_table h !! id = None →
    h_open_files_table h' !! id = None;
}.

Lemma host_next_refl h : host_inv h → host_next h h.
Proof. by split. Qed.
Lemma host_next_trans h1 h2 h3 : host_next h1 h2 → (host_inv h2 → host_next h2 h3) → host_next h1 h3.
Proof.
  intros [I1 S1 C1] H. destruct (H I1) as [I2 S2 C2]. split; [done|by etransitivity|].
  intros id Hp Ht. apply C2; [|auto]. destruct S1 as [l Hl]. rewrite Hl in Hp. set_solver.
Qed.

(** The invariant looks at three fields. *)
Lemma host_inv_frame h h' : h_open_file_id_pool h' = h_open_file_id_pool h →
  h_open_files_table h' = h_open_files_table h → h_connections h' = h_connections h →
  host_inv h → host_next h h'.
Proof.
  intros P T C [I1 I2 I3 I4 I5 I6]. split; [|by rewrite P|intros id _; by rewrite T].
  split; rewrite ?P, ?T, ?C; [done|exact I2|exact I3|exact I4|exact I5|exact I6].
Qed.

Lemma update_tcp_inv k t t' h : h_connections h !! k = Some t → same_id t t' →
  host_inv h → host_next h (Host_update_tcp k t' h).
Proof.
  intros Ht [K S] [I1 I2 I3 I4 I5 I6]. split; [|done|done]. split; cbn; [done|exact I2|exact I3| | |exact I6].
  - intros k0 t0. destruct (decide (k = k0)) as [<-|Hne].
    + rewrite lookup_insert_eq. intros [= <-]. rewrite K. by apply I4.
    + rewrite lookup_insert_ne by done. apply I4.
  - intros id f k0 Hf Hk. destruct (I5 id f k0 Hf Hk) as (t0 & Ht0 & Hid).
    destruct (decide (k = k0)) as [<-|Hne].
    + exists t'. rewrite lookup_insert_eq. split; [done|]. rewrite S. simplify_eq. exact Hid.
    + exists t0. by rewrite lookup_insert_ne.
Qed.

Lemma update_socket_inv id g h :
  (∀ s, so_tcp_con (g s) = con_null ∨ so_tcp_con (g s) = so_tcp_con s) →
  host_inv h → host_next h (Host_update_socket id g h).
Proof.
  intros Hg [I1 I2 I3 I4 I5 I6]. split; [|done|intros i _ Hi; cbn; by rewrite lookup_alter_None]. split; cbn; [done| | |exact I4| |].
  - intros id0 f. rewrite lookup_alter_Some. intros [(-> & f0 & Hf & ->)|[_ Hf]]; by eapply I2.
  - intros id0 f. rewrite lookup_alter_Some.
    intros [(-> & f0 & Hf & ->)|[_ Hf]]; [exact (I3 _ _ Hf)|by eapply I3].
  - intros id0 f k. rewrite lookup_alter_Some. intros [(-> & f0 & Hf & ->)|[_ Hf]] Hk.
    + cbn in Hk. destruct (Hg (kf_socket f0)) as [E|E]; rewrite E in Hk; [done|]. by eapply I5.
    + by eapply I5.
  - intros id0 f. rewrite lookup_alter_Some. intros [(-> & f0 & Hf & ->)|[_ Hf]] Hk.
    + cbn in Hk. destruct (Hg (kf_socket f0)) as [E|E]; rewrite E in Hk; [done|]. by eapply I6.
    + by eapply I6.
Qed.

(** A connection for the socket [id]: its own, or one it takes. *)
Lemma set_con_inv id k t h : h_connections h !! k = Some t → tc_socket t = id ∨ taken id k →
  host_inv h → host_next h (Host_update_socket id (λ s, s <| so_tcp_con := con_at k |>) h).
Proof.
  intros Ht Hid [I1 I2 I3 I4 I5 I6]. split; [|done|intros i _ Hi; cbn; by rewrite lookup_alter_None]. split; cbn; [done| | |exact I4| |].
  - intros id0 f. rewrite lookup_alter_Some. intros [(-> & f0 & Hf & ->)|[_ Hf]]; by eapply I2.
  - intros id0 f. rewrite lookup_alter_Some.
    intros [(-> & f0 & Hf & ->)|[_ Hf]]; [exact (I3 _ _ Hf)|by eapply I3].
  - intros id0 f k0. rewrite lookup_alter_Some. intros [(<- & f0 & Hf & ->)|[_ Hf]] Hk.
    + injection Hk as <-. by exists t.
    + by eapply I5.
  - intros id0 f. rewrite lookup_alter_Some. intros [(-> & f0 & Hf & ->)|[_ Hf]] Hk; [done|by eapply I6].
Qed.

Lemma delete_file_inv id h : host_inv h →
  host_next h (h <| h_open_files_table := delete id (h_open_files_table h) |>).
Proof.
  intros [I1 I2 I3 I4 I5 I6]. split; [|done|intros i _ Hi; cbn; rewrite lookup_delete_None; by right].
  split; cbn; [done| | |exact I4| |]; intros id0 f; [| |intros k|];
    rewrite lookup_delete_Some; intros [_ Hf]; eauto.
Qed.

Lemma insert_file_inv id f f' h : h_open_files_table h !! id = Some f →
  kf_type f' = kf_type f → kf_socket f' = kf_socket f → host_inv h →
  host_next h (h <| h_open_files_table := <[id := f']> (h_open_files_table h) |>).
Proof.
  intros Hf T S [I1 I2 I3 I4 I5 I6]. split; [|done|intros i _ Hi; cbn; by rewrite lookup_insert_ne by congruence].
  split; cbn; [done| | |exact I4| |]; intros id0 f0; [| |intros k|]; rewrite lookup_insert_Some;
    intros [[<- <-]|[_ Hf0]]; rewrite ?T, ?S; eauto.
Qed.

(** The entry a destroyed connection leaves: its own socket was detached, the
    pointers of others to it dangle. *)
Lemma dangle_con k s :
  (so_tcp_con s = con_at k ∧ so_tcp_con (dangle k s) = con_freed) ∨
  (so_tcp_con s ≠ con_at k ∧ dangle k s = s).
Proof. unfold dangle. case_bool_decide; [by left|by right]. Qed.

Lemma delete_conn_inv k t h : h_connections h !! k = Some t →
  (∀ f, h_open_files_table h !! tc_socket t = Some f → so_tcp_con (kf_socket f) = con_null) →
  host_inv h → host_next h (Host_erase_connection k h).
Proof.
  intros Ht Hdet [I1 I2 I3 I4 I5 I6].
  split; [|done|intros i _ Hi; cbn; by rewrite lookup_fmap, Hi]. split; cbn; [done|..].
  - intros id f. rewrite lookup_fmap_Some. intros (f0 & <- & Hf). by apply (I2 id f0).
  - intros id f. rewrite lookup_fmap_Some. intros (f0 & <- & Hf). by apply (I3 id f0).
  - intros k0 t0. rewrite lookup_delete_Some. intros [_ H0]. by apply I4.
  - intros id f k0. rewrite lookup_fmap_Some. intros (f0 & <- & Hf). cbn.
    destruct (dangle_con k (kf_socket f0)) as [[_ ->]|[Hne ->]]; [done|]. intros Hk.
    destruct (I5 id f0 k0 Hf Hk) as (t0 & Ht0 & Hid). exists t0. rewrite lookup_delete_ne by congruence. done.
  - intros id f. rewrite lookup_fmap_Some. intros (f0 & <- & Hf). cbn.
    destruct (dangle_con k (kf_socket f0)) as [[Hk ->]|[Hne ->]]; [|by eapply I6]. intros _.
    destruct (I5 id f0 k Hf Hk) as (t0 & Ht0 & [Hid|Htk]); [|by exists k].
    simplify_eq. specialize (Hdet _ Hf). congruence.
Qed.

(** ** Each operation keeps the invariant *)

Lemma pool_pop h id ids : np_pool (h_open_file_id_pool h) = id :: ids → host_inv h →
  0 <= id < 256 ∧ (id ∉ ids) ∧ (ids `suffix_of` seqZ 0 256) ∧ h_open_files_table h !! id = None.
Proof.
  intros Hp [[l Hl] I2 _ _ _ _]. rewrite Hp in *.
  assert (NoDup (l ++ id :: ids)) as Hnd by (rewrite <- Hl; apply NoDup_seqZ).
  apply NoDup_app in Hnd as (_ & _ & Hnd). apply NoDup_cons in Hnd as [Hni _].
  assert (id ∈ seqZ 0 256) as Hin%elem_of_seqZ by (rewrite Hl; set_solver).
  split_and!; [lia|lia|done|exists (l ++ [id]); by rewrite <- app_assoc|].
  apply eq_None_not_Some. intros [f Hf]. apply (I2 id f Hf). set_solver.
Qed.

Lemma socket_step h id h' : Host_CreateNewSocket h = (id, h') → host_inv h → host_next h h'.
Proof.
  intros Hc Hi. destruct (np_pool (h_open_file_id_pool h)) as [|id0 ids] eqn:Hp.
  - unfold Host_CreateNewSocket, NumPool_Allocate in Hc. rewrite Hp in Hc. cbn in Hc.
    injection Hc as <- <-. by apply host_inv_frame.
  - destruct (pool_pop h id0 ids Hp Hi) as ([H1 H2] & Hni & Hsuf & Hnone).
    rewrite (CreateNewSocket_spec h id0 ids Hp H1 Hnone) in Hc. injection Hc as <- <-.
    destruct Hi as [I1 I2 I3 I4 I5 I6]. split; [|by rewrite Hp; exists [id0]|
      intros i Hni' Hf; cbn; rewrite lookup_insert_ne; [done|]; intros <-; rewrite Hp in Hni'; set_solver].
    split; cbn; [done| | |exact I4| |]; intros id f; [| |intros k|]; rewrite lookup_insert_Some;
      intros [[<- <-]|[Hne Hf]]; try done.
    + destruct (I2 id f Hf) as [? Hn]. rewrite Hp in Hn. set_solver.
    + by eapply I3.
    + by eapply I5.
    + by eapply I6.
Qed.

Lemma bind_step h id ip port b h' : Host_SocketBind id ip port h = (b, h') →
  host_inv h → host_next h h'.
Proof.
  unfold Host_SocketBind. intros Hb Hi. case_match; [|by injection Hb as <- <-].
  case_match; [by injection Hb as <- <-|]. destruct (NumPool_Take _ _) as [[] pool]; cbn [negb] in Hb;
    injection Hb as <- <-; [|by apply host_inv_frame].
  eapply host_next_trans; [by apply (host_inv_frame h (h <| h_port_pool := pool |>))|].
  apply update_socket_inv. by right.
Qed.

Lemma listen_step h id b h' : Host_SocketListen id h = (b, h') → host_inv h → host_next h h'.
Proof. unfold Host_SocketListen. intros Hl Hi. by case_match; simplify_eq; apply host_inv_frame. Qed.

Lemma accept_step h id r h' : Host_SocketAccept id h = Some (r, h') → host_inv h → host_next h h'.
Proof.
  unfold Host_SocketAccept. intros Hl Hi. by repeat case_match; simplify_eq; apply host_inv_frame.
Qed.

Lemma detach_step h id h' : Host_DetachSocket id h = Ok h' → host_inv h →
  host_next h h' ∧ h_connections h' = h_connections h ∧
  ∀ f, h_open_files_table h' !! id = Some f → so_tcp_con (kf_socket f) = con_null.
Proof.
  unfold Host_DetachSocket. intros Hd Hi. destruct (h_open_files_table h !! id) eqn:Hf; [|done].
  injection Hd as <-. split; [apply update_socket_inv; [by left|done]|]. split; [done|]. cbn.
  intros f. by rewrite lookup_alter_eq, Hf; intros [= <-].
Qed.

Lemma TearDown_id t : same_id t (TcpController_TearDown t).2.
Proof. done. Qed.

Lemma tear_down_tcp_step h t t' h' : Host_TearDown_tcp t h = Ok (t', h') → host_inv h →
  same_id t t' ∧ host_next h h' ∧ h_connections h' = h_connections h ∧
  ∀ f, h_open_files_table h' !! tc_socket t = Some f → so_tcp_con (kf_socket f) = con_null.
Proof.
  unfold Host_TearDown_tcp. intros Ht Hi. pose proof (TearDown_id t) as Hid.
  destruct (TcpController_TearDown t) as [port t1]. cbn in Hid.
  apply bind_Ok in Ht as (h1 & Hd & Ht). injection Ht as <- <-.
  destruct Hid as [HK HS]. rewrite HS in Hd.
  destruct (detach_step _ _ _ Hd Hi) as (Hn & Hc & Hdet). split; [done|].
  destruct port as [p|]; [|done]. split; [|done].
  eapply host_next_trans; [exact Hn|]. by apply host_inv_frame.
Qed.

Lemma tear_down_step h k h' : Host_TearDown k h = Ok h' → host_inv h → host_next h h'.
Proof.
  unfold Host_TearDown. intros Ht Hi. apply bind_Ok in Ht as (t & Hk%deref_Ok & Ht).
  apply bind_Ok in Ht as ([t' h1] & Htd & Ht). injection Ht as <-.
  destruct (tear_down_tcp_step _ _ _ _ Htd Hi) as (Hid & Hn & Hc & _).
  eapply host_next_trans; [exact Hn|]. apply (update_tcp_inv k t); [by rewrite Hc|done].
Qed.

Lemma delete_step h k h' : Host_DeleteTcpConnection k h = Ok h' → host_inv h → host_next h h'.
Proof.
  unfold Host_DeleteTcpConnection. intros Ht Hi. destruct (h_connections h !! k) as [t|] eqn:Hk;
    [|injection Ht as <-; by apply host_next_refl].
  apply bind_Ok in Ht as ([t' h1] & Htd & Ht). injection Ht as <-.
  destruct (tear_down_tcp_step _ _ _ _ Htd Hi) as (Hid & Hn & Hc & Hdet).
  eapply host_next_trans; [exact Hn|]. apply (delete_conn_inv k t); [by rewrite Hc|done].
Qed.

Lemma delete_socket_step h id h' : Host_DeleteSocketAndConnection id h = Ok h' →
  host_inv h → host_next h h'.
Proof.
  unfold Host_DeleteSocketAndConnection. intros Ht Hi.
  destruct (h_open_files_table h !! id) as [f|]; [|injection Ht as <-; by apply host_next_refl].
  apply bind_Ok in Ht as (key & _ & Ht).
  eapply host_next_trans; [by apply (delete_file_inv id)|]. intros Hi'.
  case_match; [by eapply delete_step | injection Ht as <-; by apply host_next_refl].
Qed.

Lemma TryClose_id t : same_id t (TcpController_TryClose t).2.
Proof. eapply conn_step_id, cs_close, surjective_pairing. Qed.

Lemma dec_ref_step h id n h' : Host_DecOpenFileRef id h = Ok (n, h') → host_inv h → host_next h h'.
Proof.
  unfold Host_DecOpenFileRef. intros Hd Hi.
  destruct (h_open_files_table h !! id) as [f|] eqn:Hf; [|injection Hd as <- <-; by apply host_next_refl].
  destruct (_ <=? 1).
  - apply bind_Ok in Hd as (h1 & Hd & H1). injection H1 as <- <-.
    eapply host_next_trans; [|by apply delete_file_inv].
    assert (∀ p, ('(key, t) ← Host_follow p h;
      let t := if Socket_isBound (kf_socket f) then TcpController_SetReleasePort true t else t in
      Ok (Host_update_tcp key (TcpController_TryClose t).2 h)) = Ok h1 → host_next h h1) as Hclose.
    { intros p Hr. apply bind_Ok in Hr as ([key t] & [_ Hk]%follow_Ok & Hr). apply Ok_inj in Hr as <-.
      apply (update_tcp_inv key t); [done| |done].
      etransitivity; [|apply TryClose_id]. by destruct (Socket_isBound _). }
    destruct (so_tcp_con (kf_socket f)); [|by eapply Hclose..].
    injection Hd as <-. destruct (Socket_isBound _); by apply host_inv_frame.
  - injection Hd as <- <-. by eapply (insert_file_inv id f).
Qed.

Lemma inc_ref_step h id n h' : Host_IncOpenFileRef id h = (n, h') → host_inv h → host_next h h'.
Proof.
  unfold Host_IncOpenFileRef. intros Hd Hi. destruct (h_open_files_table h !! id) as [f|] eqn:Hf;
    injection Hd as <- <-; [by apply (insert_file_inv id f) | by apply host_next_refl].
Qed.

Lemma read_step h id size n bytes h' :
  Host_ReadData id size h = Ok (Some (n, bytes, h')) → host_inv h → host_next h h'.
Proof.
  unfold Host_ReadData. intros Hr Hi.
  destruct (Host_GetSocket id h) as [s|]; [|injection Hr as <- <- <-; by apply host_next_refl].
  apply bind_Ok in Hr as ([key t] & [_ Hk]%follow_Ok & Hr).
  apply bind_Ok in Hr as ([[[r bs] t']|] & Hread & Hr); [|done]. injection Hr as <- <- <-.
  apply (update_tcp_inv key t); [done| |done]. eapply conn_step_id, cs_read, Hread.
Qed.

Lemma write_step h id buf n h' : Host_WriteData id buf h = Ok (Some (n, h')) →
  host_inv h → host_next h h'.
Proof.
  unfold Host_WriteData. intros Hr Hi.
  destruct (Host_GetSocket id h) as [s|]; [|injection Hr as <- <-; by apply host_next_refl].
  case_match; [injection Hr as <- <-; by apply host_next_refl|].
  assert (∃ p, ('(key, t) ← Host_follow p h;
    Ok (match TcpController_WriteData buf t with
        | None => None
        | Some (n, t) => Some (n, Host_update_tcp key t h)
        end)) = Ok (Some (n, h')) ∨ h' = h) as (p & [Hr'| ->]); [|clear Hr|by apply host_next_refl].
  { destruct (so_tcp_con s) as [|k|]; [by injection Hr as <- <-; exists con_null; right|by exists (con_at k); left|done]. }
  apply bind_Ok in Hr' as ([key t] & [_ Hk]%follow_Ok & Hr).
  destruct (TcpController_WriteData buf t) as [[r t']|] eqn:Hw; [|done]. injection Hr as <- <-.
  apply (update_tcp_inv key t); [done| |done]. eapply conn_step_id, cs_write, Hw.
Qed.

Lemma shut_down_step h id b h' : Host_ShutDownSocket id h = Ok (b, h') → host_inv h → host_next h h'.
Proof.
  unfold Host_ShutDownSocket. intros Hr Hi.
  destruct (Host_GetSocket id h) as [s|]; [|injection Hr as <- <-; by apply host_next_refl].
  case_match; [injection Hr as <- <-; by apply host_next_refl|].
  apply bind_Ok in Hr as ([key t] & [_ Hk]%follow_Ok & Hr).
  destruct (TcpController_TryShutDown t) as [re t'] eqn:Hs. injection Hr as <- <-.
  eapply host_next_trans.
  { apply (update_socket_inv id (λ s, s <| so_state := Socket_SHUTDOWN |>)); [|exact Hi]. by right. }
  apply (update_tcp_inv key t); [done|]. eapply conn_step_id, cs_shut_down, Hs.
Qed.

(** The connection [SocketConnect] uses: the new one, or the one that is there. *)
Lemma connect_emplace h id key t0 h' :
  (match h_connections h !! key with
   | None => Ok (Host_update_tcp key t0 h)
   | Some _ => '(_, h) ← Host_TearDown_tcp t0 h; Ok h
   end) = Ok h' →
  tc_key t0 = key → tc_socket t0 = id →
  (∀ t, h_connections h !! key = Some t → tc_socket t = id ∨ taken id key) → host_inv h →
  host_next h h' ∧ ∃ t, h_connections h' !! key = Some t ∧ (tc_socket t = id ∨ taken id key).
Proof.
  intros He HK HS Hok Hi. destruct (h_connections h !! key) as [t|] eqn:Hk.
  - apply bind_Ok in He as ([t' h1] & Htd & He). injection He as <-.
    destruct (tear_down_tcp_step _ _ _ _ Htd Hi) as (_ & Hn & Hc & _). split; [done|].
    exists t. rewrite Hc. auto.
  - injection He as <-. split; [|exists t0; cbn; rewrite lookup_insert_eq; by auto].
    destruct Hi as [I1 I2 I3 I4 I5 I6]. split; [|done|done]. split; cbn; [done|exact I2|exact I3| | |exact I6].
    + intros k t. rewrite lookup_insert_Some. intros [[<- <-]|[_ Ht]]; [done|by apply I4].
    + intros id0 f k Hf Hfk. destruct (I5 id0 f k Hf Hfk) as (t & Ht & Hid).
      exists t. rewrite lookup_insert_ne by congruence. done.
Qed.

Lemma connect_step h r now id ip port b h' : (∀ k, takes_over r id ip port h k → taken id k) →
  Host_SocketConnect r now id ip port h = Ok (b, h') → host_inv h → host_next h h'.
Proof.
  unfold Host_SocketConnect, takes_over, connect_key, connect_local. intros Hok Hc Hi.
  assert (∀ key t, connect_key r id ip port h = Some key → h_connections h !! key = Some t →
    tc_socket t = id ∨ taken id key) as Htk.
  { intros key t Hk Ht. destruct (decide (tc_socket t = id)); [by left|right]. eapply Hok; eauto. }
  unfold connect_key, connect_local in Htk. clear Hok.
  apply bind_Ok in Hc as (socket & Hsock%deref_Ok & Hc). rewrite Hsock in Htk. cbn in Htk.
  apply bind_Ok in Hc as ([key h1] & Hbind & Hc).
  assert (host_next h h1 ∧ h_connections h1 = h_connections h ∧
    let k := MkKey ip (i32 port) (local_ip key) (local_port key) in
    ∀ t, h_connections h !! k = Some t → tc_socket t = id ∨ taken id k) as (Hn1 & Hc1 & Hok1).
  { destruct (Socket_isBound socket); cbn [negb] in Hbind.
    - injection Hbind as <- <-. split; [by apply host_next_refl|]. split; [done|].
      intros k t. by apply Htk.
    - apply bind_Ok in Hbind as ([p pool] & Hall & Hbind). rewrite Hall in Htk.
      injection Hbind as <- <-. split; [|split; [done|intros k t; by apply Htk]].
      eapply host_next_trans; [by apply (host_inv_frame h (h <| h_port_pool := pool |>))|].
      apply update_socket_inv. by right. }
  clear Hbind Htk. eapply host_next_trans; [exact Hn1|]. intros Hi1.
  apply bind_Ok in Hc as (h2 & He & Hc).
  destruct (connect_emplace h1 id _ _ _ He) as [Hn2 (t & Ht & Hid)]; [done|done|by rewrite Hc1|done|].
  eapply host_next_trans; [exact Hn2|]. intros Hi2. rewrite Ht in Hc. cbn [deref mbind res_bind] in Hc.
  apply bind_Ok in Hc as ([re t'] & Htc%TryConnect_id & Hc).
  eapply host_next_trans; [by eapply (set_con_inv id _ t)|]. intros Hi3.
  eapply host_next_trans; [by eapply (update_tcp_inv _ t t')|]. intros Hi4.
  destruct re; cbn [negb] in Hc; injection Hc as <- <-;
    [by apply host_next_refl | by apply host_inv_frame].
Qed.

Lemma new_connection_step h pkt b h' : h_connections h !! demux_key pkt = None →
  Host_HandleNewConnection pkt h = (b, h') → host_inv h → host_next h h'.
Proof.
  intros Hnone Hc Hi. destruct (sync (tcp_header pkt)) eqn:Hs; last first.
  { rewrite HandleNewConnection_refused in Hc by (split; auto). injection Hc as <- <-.
    by apply host_next_refl. }
  destruct (h_listeners h !! MkLocalKey (source_ip (ip_header pkt)) (source_port (tcp_header pkt)))
    as [socks|] eqn:Hl; last first.
  { rewrite HandleNewConnection_refused in Hc by (split; auto). injection Hc as <- <-.
    by apply host_next_refl. }
  destruct (np_pool (h_open_file_id_pool h)) as [|id ids] eqn:Hp.
  { unfold Host_HandleNewConnection, Host_CreateNewSocket, NumPool_Allocate in Hc.
    rewrite Hs, Hl, Hp in Hc. cbn in Hc. injection Hc as <- <-. by apply host_inv_frame. }
  destruct (pool_pop h id ids Hp Hi) as ([H1 H2] & Hni & Hsuf & Hfree).
  rewrite (HandleNewConnection_accepts h pkt id ids socks Hnone Hs Hl Hp H1 Hfree) in Hc.
  injection Hc as <- <-. destruct Hi as [I1 I2 I3 I4 I5 I6]. split; [|by rewrite Hp; exists [id]|
      intros i Hni' Hf; cbn; rewrite lookup_insert_ne; [done|]; intros <-; rewrite Hp in Hni'; set_solver].
  split; cbn; [done|..].
  - intros id0 f. rewrite lookup_insert_Some. intros [[<- <-]|[Hne Hf]]; [done|].
    destruct (I2 id0 f Hf) as [? Hn]. rewrite Hp in Hn. set_solver.
  - intros id0 f. rewrite lookup_insert_Some. intros [[<- <-]|[Hne Hf]]; [done|by eapply I3].
  - intros k t. rewrite lookup_insert_Some. intros [[<- <-]|[_ Ht]]; [done|by apply I4].
  - intros id0 f k. rewrite lookup_insert_Some. intros [[<- <-]|[Hne Hf]] Hk.
    + injection Hk as <-. eexists. rewrite lookup_insert_eq. split; [done|by left].
    + destruct (I5 id0 f k Hf Hk) as (t & Ht & Hid). exists t.
      rewrite lookup_insert_ne by congruence. done.
  - intros id0 f. rewrite lookup_insert_Some. intros [[<- <-]|[Hne Hf]] Hk; [done|by eapply I6].
Qed.

Lemma demux_loop_step n pkts h rest h' : Host_demux_loop n pkts h = Ok (rest, h') →
  host_inv h → host_next h h'.
Proof.
  revert pkts h. induction n as [|n IH]; intros pkts h Hd Hi.
  { injection Hd as <- <-. by apply host_next_refl. }
  assert (∀ pkt ps h0, (t ← deref (h_connections h0 !! demux_key pkt);
     Host_demux_loop n ps (Host_update_tcp (demux_key pkt) (TcpController_ReceiveNewPacket pkt t) h0))
     = Ok (rest, h') → host_inv h0 → host_next h0 h') as Hdel.
  { intros pkt ps h0 Hr Hi0. apply bind_Ok in Hr as (t & Ht%deref_Ok & Hr).
    eapply host_next_trans;
      [by apply (update_tcp_inv (demux_key pkt) t (TcpController_ReceiveNewPacket pkt t))|]. by apply (IH ps). }
  destruct pkts as [|pkt ps]; [done|]. cbn [Host_demux_loop] in Hd.
  destruct (h_connections h !! demux_key pkt) as [t|] eqn:Hk; [rewrite <- Hk in Hd; by eapply Hdel|].
  destruct (Host_HandleNewConnection pkt h) as [b h1] eqn:Hnc.
  eapply host_next_trans; [by eapply new_connection_step|]. intros Hi1.
  destruct b; [by eapply Hdel|]. case_match; [by eapply IH|].
  eapply host_next_trans; [by apply (host_inv_frame h1 (Host_SendBackRST (demux_key pkt) h1))|].
  by eapply IH.
Qed.

Lemma PushAll_step pkts h h' : host_inv h →
  (Host_MovePacketsFromChannel pkts h = Ok h' ∨ Host_MultiplexPacketsFromTcp pkts h = Ok h') →
  host_next h h'.
Proof.
  unfold Host_MovePacketsFromChannel, Host_MultiplexPacketsFromTcp.
  intros Hi [Hm|Hm]; destruct (PacketQueue_PushAll _ _) as [[n rest] q];
    apply bind_Ok in Hm as (u & _ & Hm); injection Hm as <-; by apply host_inv_frame.
Qed.

Lemma host_step_next h h' : host_step h h' →
  (∀ r now id ip port b k, Host_SocketConnect r now id ip port h = Ok (b, h') →
     takes_over r id ip port h k → taken id k) → host_inv h → host_next h h'.
Proof.
  destruct 1 as [h id h' Hr|h id ip port b h' Hr|h id b h' Hr|h id r h' Hr
    |h r now id ip port b h' Hr|h id size n bytes h' Hr|h id buf n h' Hr|h id b h' Hr
    |h id n h' Hr|h id n h' Hr|h pkts h' Hr|h h' Hr|h k t pkts t' h' Hk Ht Hr|h pkts h' Hr
    |h k t t' Hk Hs|h k h' Hr|h k h' Hr|h id h' Hr]; intros Htk Hi.
  - by eapply socket_step.
  - by eapply bind_step.
  - by eapply listen_step.
  - by eapply accept_step.
  - eapply connect_step; [|exact Hr|exact Hi]. intros k. by eapply Htk.
  - by eapply read_step.
  - by eapply write_step.
  - by eapply shut_down_step.
  - by eapply dec_ref_step.
  - by eapply inc_ref_step.
  - eapply PushAll_step; eauto.
  - unfold Host_PacketsReceiveListener_round, Host_DemultiplexPacketsToTcps in Hr.
    destruct (PacketQueue_DeQueueAllTo _ _ _) as [[[m pkts] q]|]; [|done].
    apply bind_Ok in Hr as ([rest h1] & Hd & Hr). injection Hr as <-.
    eapply host_next_trans; [by apply (host_inv_frame h (h <| h_recv_pkt_queue := q |>))|].
    by eapply demux_loop_step.
  - eapply host_next_trans.
    + apply (update_tcp_inv k t t'); [done| |done]. eapply conn_step_id, cs_to_host, Ht.
    + intros Hi'. eapply PushAll_step; eauto.
  - unfold Host_PacketsSendListener_round in Hr.
    destruct (PacketQueue_DeQueueAllTo _ _ _) as [[[m ps] q]|]; [|done]. injection Hr as <- <-.
    by apply host_inv_frame.
  - apply (update_tcp_inv k t t'); [done|by apply conn_step_id|done].
  - by eapply tear_down_step.
  - by eapply delete_step.
  - by eapply delete_socket_step.
Qed.

Lemma Host_new_inv name ip : host_inv (Host_new name ip).
Proof.
  split; cbn; try (intros *; rewrite lookup_empty; done).
  exists []. vm_compute. reflexivity.
Qed.
End invariant.

Lemma host_inv_mono (taken taken' : Z → TcpControllerKey → Prop) h :
  (∀ id k, taken id k → taken' id k) → host_inv taken h → host_inv taken' h.
Proof. intros Ht [I1 I2 I3 I4 I5 I6]. split; [done|exact I2|exact I3|exact I4|naive_solver|naive_solver]. Qed.

(** What does not depend on who took which connection. *)
Definition anyone (_ : Z) (_ : TcpControllerKey) : Prop := True.

Lemma host_steps_next h h' : rtc host_step h h' → host_inv anyone h → host_next anyone h h'.
Proof.
  induction 1 as [h|h1 h2 h3 Hs _ IH]; intros Hi; [by apply host_next_refl|].
  eapply host_next_trans; [by apply host_step_next | exact IH].
Qed.

(** Before it got to [h], the host let the socket [id] take the connection [k] of
    another socket. *)
Definition took_over (id : Z) (k : TcpControllerKey) h : Prop :=
  ∃ h0 r now ip port b h1, host_reachable h0 ∧ takes_over r id ip port h0 k ∧
    Host_SocketConnect r now id ip port h0 = Ok (b, h1) ∧ rtc host_step h1 h.

Lemma took_over_step id k h h' : took_over id k h → host_step h h' → took_over id k h'.
Proof.
  intros (h0 & r & now & ip & port & b & h1 & H0 & Ht & Hc & Hr) Hs.
  exists h0, r, now, ip, port, b, h1. split_and!; [done..|by eapply rtc_r].
Qed.

Lemma host_reachable_inv h : host_reachable h → host_inv (λ id k, took_over id k h) h.
Proof.
  intros (name & ip & Hr).
  assert (host_inv (λ id k, took_over id k h) h ∧ host_reachable h) as [Hi _]; [|exact Hi].
  revert Hr. apply (rtc_invariant host_step (λ h, host_inv (λ id k, took_over id k h) h ∧ host_reachable h)).
  - clear. intros h h' [Hi Hreach] Hs. split; [|destruct Hreach as (n & i & Hr); exists n, i; by eapply rtc_r].
    apply (host_inv_mono _ (λ id k, took_over id k h')) in Hi; [|intros id k Ht; by eapply took_over_step].
    apply (host_step_next _ h h' Hs); [|exact Hi].
    intros r now id ip port b k Hc Ht. exists h, r, now, ip, port, b, h'. by split_and!; [..|apply rtc_refl].
  - split; [apply Host_new_inv|]. exists name, ip. apply rtc_refl.
Qed.

Lemma host_reachable_any h : host_reachable h → host_inv anyone h.
Proof. intros Hi%host_reachable_inv. by eapply host_inv_mono. Qed.

(** ** Lookups of a socket *)

Lemma GetSocket_file h id s : Host_GetSocket id h = Some s →
  ∃ f, h_open_files_table h !! id = Some f ∧ kf_socket f = s.
Proof.
  unfold Host_GetSocket. intros Hs. destruct (h_open_files_table h !! id) as [f|]; [|done].
  case_match; [|done]. injection Hs as <-. by exists f.
Qed.

(** A pointer that is null, dangles or leads to a connection. *)
Definition follows (p : con_ptr) h : Prop :=
  match p with
  | con_null => Host_follow p h = Fault NullDereference
  | con_at k => ∃ t, Host_follow p h = Ok (k, t)
  | con_freed => Host_follow p h = Fault UseAfterFree
  end.

(** Where the pointer of a socket leads. *)
Lemma file_connection taken h id f : host_inv taken h → h_open_files_table h !! id = Some f →
  follows (so_tcp_con (kf_socket f)) h.
Proof.
  unfold follows. intros Hi Hf. destruct (so_tcp_con (kf_socket f)) as [|k|] eqn:Hk; [done| |done].
  destruct (hi_sockets _ h Hi id f k Hf Hk) as (t & Ht & _). exists t. simpl. by rewrite Ht.
Qed.
Lemma socket_connection taken h id s : host_inv taken h → Host_GetSocket id h = Some s →
  follows (so_tcp_con s) h.
Proof. intros Hi (f & Hf & <-)%GetSocket_file. by eapply file_connection. Qed.

Lemma tear_down_tcp_closed t h : h_open_files_table h !! tc_socket t = None →
  Host_TearDown_tcp t h = Fault UseAfterFree.
Proof.
  intros Hn. unfold Host_TearDown_tcp. destruct (TearDown_id t) as [_ Hs].
  destruct (TcpController_TearDown t) as [port t1]. cbn [snd] in Hs.
  unfold Host_DetachSocket. rewrite Hs, Hn. reflexivity.
Qed.

Lemma tear_down_tcp_open t h f : h_open_files_table h !! tc_socket t = Some f →
  tc_release_port t = false → ∃ t',
  Host_TearDown_tcp t h =
    Ok (t', Host_update_socket (tc_socket t) (λ s, s <| so_tcp_con := con_null |>) h).
Proof.
  intros Hf Hp. unfold Host_TearDown_tcp. destruct (TearDown_id t) as [_ Hs].
  destruct (TcpController_TearDown t) as [port t1] eqn:Ht. cbn [snd] in Hs.
  assert (port = None) as ->.
  { unfold TcpController_TearDown in Ht. apply pair_eq in Ht as [<- _]. cbn. by rewrite Hp. }
  unfold Host_DetachSocket. rewrite Hs, Hf. by exists t1.
Qed.

Lemma TryConnect_again now t : tc_state t ≠ CLOSED → TcpController_TryConnect now t = Ok (false, t).
Proof. intros Hs. unfold TcpController_TryConnect. by rewrite bool_decide_eq_false_2. Qed.

(** Numbers behind [i] in a range are larger. *)
Lemma seqZ_suffix_gt m n l i ids x : seqZ m n = l ++ i :: ids → x ∈ ids → i < x < m + n.
Proof.
  intros Hl Hx. apply list_elem_of_lookup in Hx as [j Hj].
  assert (seqZ m n !! (length l + S j)%nat = Some x) as Hx.
  { rewrite Hl, lookup_app_r by lia. by replace (_ - _)%nat with (S j) by lia. }
  assert (seqZ m n !! length l = Some i) as Hi.
  { rewrite Hl, lookup_app_r by lia. by rewrite Nat.sub_diag. }
  apply lookup_seqZ in Hx, Hi. lia.
Qed.

Lemma ReadData_fault size t f : TcpController_ReadData size t = Fault f → f = LogFatal.
Proof.
  unfold TcpController_ReadData. destruct (bool_decide _); [by intros [= <-]|].
  destruct (negb _); [done|]. destruct (tc_shutdown t); [done|]. destruct (_ && _); [done|].
  destruct (_ && _); [done|]. by destruct (Buffer_Read _ _).
Qed.


(** [SocketConnect] where there is a connection already. *)
Lemma connect_existing r now h id socket ip port t :
  let key := MkKey ip (i32 port) (local_ip (so_local_bound socket)) (local_port (so_local_bound socket)) in
  Host_GetSocket id h = Some socket → Socket_isBound socket = true →
  h_connections h !! key = Some t → tc_state t ≠ CLOSED →
  ∃ h', Host_SocketConnect r now id ip port h = Ok (false, h') ∧
    h_connections h' = h_connections h ∧
    h_port_pool h' = NumPool_Release (local_port (so_local_bound socket)) (h_port_pool h) ∧
    h_open_files_table h' =
      alter (λ f, f <| kf_socket := (kf_socket f) <| so_tcp_con := con_at key |> |>) id (h_open_files_table h).
Proof.
  intros key Hsocket Hbound Ht Hstate. destruct (GetSocket_file _ _ _ Hsocket) as (file & Hfile & Hkf).
  unfold Host_SocketConnect. rewrite Hsocket. cbn [deref mbind res_bind]. rewrite Hbound.
  cbn [negb mbind res_bind]. fold key. rewrite Ht.
  set (t0 := TcpController_new _ _ _). assert (tc_release_port t0 = false) as Hp0 by done.
  assert (tc_socket t0 = id) as Hid by done. clearbody t0.
  destruct (tear_down_tcp_open t0 h file) as [t0' ->]; [by rewrite Hid|done|].
  cbn [mbind res_bind]. rewrite Hid. set (h1 := Host_update_socket id _ h).
  assert (h_connections h1 = h_connections h) as Hc1 by done. rewrite Hc1, Ht.
  cbn [deref mbind res_bind]. rewrite TryConnect_again by done. cbn [mbind res_bind negb].
  eexists. split; [reflexivity|]. split; [cbn; by rewrite insert_id|]. split; [done|]. cbn.
  apply map_eq. intros j. destruct (decide (id = j)) as [<-|Hne].
  - rewrite !lookup_alter_eq. by destruct (h_open_files_table h !! id).
  - by rewrite !lookup_alter_ne.
Qed.


(** The faults of the calls. *)
Lemma ReadData_faults h id socket size f :
  Host_GetSocket id h = Some socket → follows (so_tcp_con socket) h →
  f = NullDereference ∨ f = UseAfterFree →
  Host_ReadData id size h = Fault f ↔
    so_tcp_con socket = match f with NullDereference => con_null | _ => con_freed end.
Proof.
  unfold Host_ReadData, follows. intros -> Hp Hf. destruct (so_tcp_con socket) as [|k|].
  - rewrite Hp. cbn [mbind res_bind]. destruct Hf; simplify_eq; naive_solver.
  - destruct Hp as [t ->]. cbn [mbind res_bind]. split; [|destruct Hf; by simplify_eq].
    destruct (TcpController_ReadData size t) as [[[[]]|]|e] eqn:Hr; [done..|].
    apply ReadData_fault in Hr as ->. destruct Hf; by simplify_eq.
  - rewrite Hp. cbn [mbind res_bind]. destruct Hf; simplify_eq; naive_solver.
Qed.

Lemma ShutDownSocket_faults h id socket f :
  Host_GetSocket id h = Some socket → follows (so_tcp_con socket) h →
  Host_ShutDownSocket id h = Fault f ↔ so_state socket = Socket_OPEN ∧
    (f = NullDereference ∧ so_tcp_con socket = con_null ∨
     f = UseAfterFree ∧ so_tcp_con socket = con_freed).
Proof.
  unfold Host_ShutDownSocket, follows. intros -> Hp. destruct (so_state socket); simpl; [|naive_solver].
  destruct (so_tcp_con socket) as [|k|]; [simpl; naive_solver| |simpl; naive_solver].
  destruct Hp as [t [_ Ht]%follow_Ok]. rewrite ?Ht. simpl. rewrite ?Ht. simpl. destruct (TcpController_TryShutDown t). naive_solver.
Qed.

Lemma WriteData_faults h id socket buffer f :
  Host_GetSocket id h = Some socket → follows (so_tcp_con socket) h →
  Host_WriteData id buffer h = Fault f ↔
    f = UseAfterFree ∧ so_state socket = Socket_OPEN ∧ so_tcp_con socket = con_freed.
Proof.
  unfold Host_WriteData, follows. intros -> Hp. destruct (so_state socket); simpl; [|naive_solver].
  destruct (so_tcp_con socket) as [|k|]; [naive_solver| |simpl; naive_solver].
  destruct Hp as [t [_ Ht]%follow_Ok]. rewrite ?Ht. simpl. rewrite ?Ht. simpl. naive_solver.
Qed.

Lemma DecOpenFileRef_faults h id file f :
  h_open_files_table h !! id = Some file → follows (so_tcp_con (kf_socket file)) h →
  Host_DecOpenFileRef id h = Fault f ↔
    f = UseAfterFree ∧ so_tcp_con (kf_socket file) = con_freed ∧ KernelOpenFile_Refs file <= 1.
Proof.
  unfold Host_DecOpenFileRef, follows. intros -> Hp.
  destruct (Z.leb_spec (KernelOpenFile_Refs file) 1); [|naive_solver lia].
  destruct (so_tcp_con (kf_socket file)) as [|k|]; [naive_solver| |simpl; naive_solver].
  destruct Hp as [t [_ Ht]%follow_Ok]. rewrite ?Ht. simpl. rewrite ?Ht. simpl. naive_solver.
Qed.

(** ** Properties *)

(** C22. In every reachable state of a host a socket's pointer to a connection leads
    to a connection that exists and whose own pointer leads back to the socket,
    unless the socket took the connection of another socket in a call of
    [SocketConnect] before; a pointer dangles only after such a call. A connection
    is filed under its own key; the ids of the open files lie in [0..255] and are
    not in the pool, whose numbers are all different. *)
Theorem Host_invariant h (Hreach : host_reachable h) :
  (∀ id f k, h_open_files_table h !! id = Some f → so_tcp_con (kf_socket f) = con_at k →
     ∃ t, h_connections h !! k = Some t ∧ (tc_socket t = id ∨ took_over id k h)) ∧
  (∀ id f, h_open_files_table h !! id = Some f → so_tcp_con (kf_socket f) = con_freed →
     ∃ k, took_over id k h) ∧
  (∀ k t, h_connections h !! k = Some t → tc_key t = k) ∧
  (∀ id f, h_open_files_table h !! id = Some f →
     0 <= id < 256 ∧ id ∉ np_pool (h_open_file_id_pool h)) ∧
  NoDup (np_pool (h_open_file_id_pool h)).
Proof.
  destruct (host_reachable_inv h Hreach) as [[l Hl] I2 _ I4 I5 I6]. split_and!; [done..|].
  pose proof (NoDup_seqZ 0 256) as Hnd. rewrite Hl in Hnd. by apply NoDup_app in Hnd as (_ & _ & Hnd).
Qed.

(** C29. The calls on a socket in a reachable state, by the socket's pointer to its
    connection. [ReadData] and [ShutDownSocket] follow it without a test: a null
    pointer and a dangling one are each their own fault. [WriteData] tests for the
    null pointer, which it answers with -2, and fails on a dangling pointer only;
    so does closing the last descriptor. A pointer dangles only when the socket
    took the connection of another socket before. *)
Theorem Host_socket_calls h id socket size buffer
    (Hreach : host_reachable h) (Hsocket : Host_GetSocket id h = Some socket) :
  (Host_ReadData id size h = Fault NullDereference ↔ so_tcp_con socket = con_null) ∧
  (Host_ReadData id size h = Fault UseAfterFree ↔ so_tcp_con socket = con_freed) ∧
  (∀ f, Host_ShutDownSocket id h = Fault f ↔ so_state socket = Socket_OPEN ∧
     (f = NullDereference ∧ so_tcp_con socket = con_null ∨
      f = UseAfterFree ∧ so_tcp_con socket = con_freed)) ∧
  (∀ f, Host_WriteData id buffer h = Fault f ↔
     f = UseAfterFree ∧ so_state socket = Socket_OPEN ∧ so_tcp_con socket = con_freed) ∧
  (so_state socket = Socket_OPEN → so_tcp_con socket = con_null →
     Host_WriteData id buffer h = Ok (Some (-2, h))) ∧
  (∀ f, Host_DecOpenFileRef id h = Fault f ↔
     f = UseAfterFree ∧ so_tcp_con socket = con_freed ∧
     ∃ file, h_open_files_table h !! id = Some file ∧ KernelOpenFile_Refs file <= 1) ∧
  (so_tcp_con socket = con_freed → ∃ k, took_over id k h).
Proof.
  pose proof (host_reachable_inv h Hreach) as Hi.
  pose proof (socket_connection _ h id socket Hi Hsocket) as Hfollow.
  destruct (GetSocket_file _ _ _ Hsocket) as (file & Hfile & Hkf).
  split_and!; [..|intros Hf; eapply (hi_freed _ h Hi id file Hfile); by rewrite Hkf].
  - apply (ReadData_faults h id socket size NullDereference); auto.
  - apply (ReadData_faults h id socket size UseAfterFree); auto.
  - intros f. by apply (ShutDownSocket_faults h id socket).
  - intros f. by apply (WriteData_faults h id socket).
  - intros Hst Hnull. unfold Host_WriteData. by rewrite Hsocket, Hst, Hnull.
  - intros f. rewrite (DecOpenFileRef_faults h id file) by (done || by rewrite Hkf). rewrite Hkf.
    split; [intros (? & ? & ?); by split_and!; [..|exists file]|]. intros (? & ? & file' & Hf' & ?). by simplify_eq.
Qed.

(** C37. Open file ids are never given back: each new socket's id is larger than
    every id before it, whatever happens in between, so that after the 256th
    socket no call and no connection attempt gets one any more, even when every
    socket has been closed. *)
Theorem Host_open_file_ids_used_up h id h1 h2 id2 h3
    (Hreach : host_reachable h) (Hsocket : Host_CreateNewSocket h = (id, h1)) (Hid : 0 <= id)
    (Hsteps : rtc host_step h1 h2) (Hagain : Host_CreateNewSocket h2 = (id2, h3)) :
  (id < id2 ∨ id2 = -1) ∧ (id = 255 → id2 = -1).
Proof.
  pose proof (host_reachable_any h Hreach) as Hi.
  destruct (np_pool (h_open_file_id_pool h)) as [|i ids] eqn:Hp.
  { unfold Host_CreateNewSocket, NumPool_Allocate in Hsocket. rewrite Hp in Hsocket.
    cbn in Hsocket. simplify_eq. lia. }
  destruct (pool_pop anyone h i ids Hp Hi) as ([H1 H2] & _ & _ & Hnone).
  pose proof (socket_step anyone h id h1 Hsocket Hi) as Hn1.
  rewrite (CreateNewSocket_spec h i ids Hp H1 Hnone) in Hsocket. injection Hsocket as <- <-.
  destruct (host_steps_next _ _ Hsteps (hn_inv _ _ _ Hn1)) as [Hi2 [l Hl] _]. cbn in Hl.
  assert (∀ x, x ∈ ids → i < x < 0 + 256) as Hlt.
  { destruct Hi as [[l0 Hl0] _ _ _ _ _]. rewrite Hp in Hl0. intros x. by eapply seqZ_suffix_gt. }
  assert (id2 = -1 ∨ id2 ∈ ids) as Hid2.
  { destruct (np_pool (h_open_file_id_pool h2)) as [|i2 ids2] eqn:Hp2.
    - left. unfold Host_CreateNewSocket, NumPool_Allocate in Hagain. rewrite Hp2 in Hagain.
      cbn in Hagain. by simplify_eq.
    - right. destruct (pool_pop anyone h2 i2 ids2 Hp2 Hi2) as ([H3 H4] & _ & _ & Hnone2).
      rewrite (CreateNewSocket_spec h2 i2 ids2 Hp2 H3 Hnone2) in Hagain.
      injection Hagain as <- _. rewrite Hl. set_solver. }
  destruct Hid2 as [->|Hin%Hlt]; [lia|lia].
Qed.

(** C34. Closing the last descriptor of a connected socket destroys the socket, but
    the connection keeps its pointer to it: as long as the connection is there,
    tearing it down, which is how every connection ends, writes through the
    dangling pointer. *)
Theorem Host_close_then_teardown h id socket k n h1 h2 t
    (Hreach : host_reachable h) (Hsocket : Host_GetSocket id h = Some socket)
    (Hcon : so_tcp_con socket = con_at k)
    (Hclose : Host_DecOpenFileRef id h = Ok (n, h1)) (Hlast : Host_GetSocket id h1 = None)
    (Hsteps : rtc host_step h1 h2)
    (Ht : h_connections h2 !! k = Some t) (Hsame : tc_socket t = id) :
  Host_TearDown k h2 = Fault UseAfterFree ∧ Host_DeleteTcpConnection k h2 = Fault UseAfterFree.
Proof.
  pose proof (host_reachable_any h Hreach) as Hi.
  destruct (GetSocket_file _ _ _ Hsocket) as (file & Hfile & Hkf).
  pose proof (dec_ref_step anyone h id n h1 Hclose Hi) as [Hi1 [l Hl] _].
  assert (h_open_files_table h1 !! id = None) as Hnone.
  { unfold Host_GetSocket in Hlast. destruct (h_open_files_table h1 !! id) as [f|] eqn:Hf; [|done].
    by rewrite (hi_type _ h1 Hi1 id f Hf) in Hlast. }
  destruct (hi_ids _ h Hi id file Hfile) as [_ Hni]. rewrite Hl in Hni.
  destruct (host_steps_next _ _ Hsteps Hi1) as [_ _ Hclosed].
  assert (h_open_files_table h2 !! id = None) as Hnone2 by (apply Hclosed; set_solver).
  rewrite <- Hsame in Hnone2. apply tear_down_tcp_closed in Hnone2 as Htd.
  unfold Host_TearDown, Host_DeleteTcpConnection. rewrite Ht. cbn [deref mbind res_bind].
  rewrite Htd. cbn [mbind res_bind]. split; reflexivity.
Qed.

(** A second [Connect] on a connected socket to the same remote end fails, as
    it should, but its clean-up gives the port back to the pool although the
    socket and the connection still use it: the next socket that asks for the
    port gets it. *)
Theorem Host_connect_twice_frees_port r now h id socket ip port t
    (Hsocket : Host_GetSocket id h = Some socket) (Hbound : Socket_isBound socket = true)
    (Hport : is_i32 (local_port (so_local_bound socket)))
    (Ht : h_connections h !! MkKey ip (i32 port) (local_ip (so_local_bound socket))
            (local_port (so_local_bound socket)) = Some t)
    (Hstate : tc_state t ≠ CLOSED) :
  ∃ h', Host_SocketConnect r now id ip port h = Ok (false, h') ∧
    h_connections h' = h_connections h ∧
    ∀ id2 other ip2, Host_GetSocket id2 h' = Some other → Socket_isBound other = false →
      ∃ h2, Host_SocketBind id2 ip2 (local_port (so_local_bound socket)) h' = (true, h2).
Proof.
  destruct (connect_existing r now h id socket ip port t Hsocket Hbound Ht Hstate)
    as (h' & Hc & Hconns & Hpool & _). exists h'. split_and!; [done..|].
  intros id2 other ip2 Hother Hunbound. unfold Host_SocketBind. rewrite Hother, Hunbound.
  rewrite i32_small by done. unfold NumPool_Take. rewrite Hpool. cbn [np_pool NumPool_Release set set_np_pool].
  rewrite (proj2 (set_mem_spec _ _)) by (apply elem_of_set_insert; auto). by eexists.
Qed.

End HostInv.

(** ** Concrete instances *)

#[local] Existing Instance simple_StopWatch.
#[local] Existing Instance simple_Timer.
#[local] Existing Instance simple_Buffer.
#[local] Existing Instance simple_Min.

(** The host after a call that returned. *)
Definition host_after {A} (r : res (A * Host)) h : Host :=
  match r with Ok (_, h') => h' | Fault _ => h end.

Lemma host_after_ok {A} (r : res (A * Host)) h : is_ok r = true → ∃ a, r = Ok (a, host_after r h).
Proof. destruct r as [[a h']|]; [by exists a | done]. Qed.

(** A client that opens a socket, connects it from port 5, and closes it. *)
Definition client_key : TcpControllerKey := MkKey "10.0.0.1" 80 "10.0.0.2" 5.
Definition client_new : Host := Host_new "client" "10.0.0.2".
Definition client_open : Host := (Host_CreateNewSocket client_new).2.
Definition connect_again h : res (bool * Host) :=
  Host_SocketConnect (λ _, 5) 0 0 "10.0.0.1" 80 h.
Definition client_connected : Host := host_after (connect_again client_open) client_open.
Definition client_closed : Host := host_after (Host_DecOpenFileRef 0 client_connected) client_connected.

Lemma client_new_reachable : host_reachable client_new.
Proof. exists "client"%string, "10.0.0.2"%string. apply rtc_refl. Qed.

Lemma reachable_step h h' : host_reachable h → host_step h h' → host_reachable h'.
Proof. intros (n & ip & Hr) Hs. exists n, ip. by eapply rtc_r. Qed.

Lemma client_open_reachable : host_reachable client_open.
Proof. eapply reachable_step; [apply client_new_reachable|]. eapply hs_socket, surjective_pairing. Qed.

Lemma connected_reachable r h id : host_reachable h →
  let c := Host_SocketConnect r 0 id "10.0.0.1" 80 h in is_ok c = true → host_reachable (host_after c h).
Proof.
  intros Hr c Hc. destruct (host_after_ok c h Hc) as [b Hb].
  eapply reachable_step; [exact Hr|]. eapply hs_connect, Hb.
Qed.

Lemma client_connected_reachable : host_reachable client_connected.
Proof. apply connected_reachable; [apply client_open_reachable|by vm_compute]. Qed.

(** The client connects once more, in vain; a second socket gets the port, and
    connects to the connection of the first, which is then deleted. *)
Definition client_twice : Host := host_after (connect_again client_connected) client_connected.
Definition client_rival : Host :=
  (Host_SocketBind 1 "10.0.0.2" 5 (Host_CreateNewSocket client_twice).2).2.
Definition client_taken : Host :=
  host_after (Host_SocketConnect (λ _, 5) 0 1 "10.0.0.1" 80 client_rival) client_rival.
Definition client_dangling : Host :=
  match Host_DeleteTcpConnection client_key client_taken with Ok h => h | Fault _ => client_taken end.

Lemma client_rival_reachable : host_reachable client_rival.
Proof.
  assert (host_reachable client_twice) as Hr
    by (apply connected_reachable; [apply client_connected_reachable|by vm_compute]).
  eapply reachable_step; [eapply reachable_step; [exact Hr|]|].
  - eapply hs_socket, surjective_pairing.
  - eapply hs_bind, surjective_pairing.
Qed.

Lemma client_dangling_reachable : host_reachable client_dangling.
Proof.
  assert (host_reachable client_taken) as Hr
    by (apply connected_reachable; [apply client_rival_reachable|by vm_compute]).
  unfold client_dangling. destruct (Host_DeleteTcpConnection client_key client_taken) eqn:Hd; [|done].
  eapply reachable_step; [exact Hr|]. by eapply hs_delete.
Qed.

(** The connected socket, and the part of its connection the properties look at. *)
Definition client_socket : Socket := MkSocket Socket_OPEN (MkLocalKey "10.0.0.2" 5) (con_at client_key).

Lemma client_connection h :
  ((λ t, (tc_socket t, tc_state t)) <$> h_connections h !! client_key) = Some (0, SYN_SENT) →
  ∃ t, h_connections h !! client_key = Some t ∧ tc_socket t = 0 ∧ tc_state t = SYN_SENT.
Proof. intros (t & Hk & [= Hs Ht])%fmap_Some. by exists t. Qed.

(** The socket that took the connection, before and after, and its open file. *)
Definition rival_socket (p : con_ptr) : Socket := MkSocket Socket_OPEN (MkLocalKey "10.0.0.2" 5) p.

Lemma Host_invariant_witness :
  (∃ t, h_connections client_connected !! client_key = Some t) ∧
  h_connections client_dangling !! client_key = None ∧ ∃ k, took_over 1 k client_dangling.
Proof.
  destruct (Host_invariant client_connected client_connected_reachable) as (H1 & _).
  destruct (Host_invariant client_dangling client_dangling_reachable) as (_ & H2 & _).
  split; [|split; [by vm_compute|]].
  - destruct (H1 0 (MkFile SOCKET client_socket 1) client_key) as (t & Ht & _); [by vm_compute|reflexivity|].
    exists t. exact Ht.
  - apply (H2 1 (MkFile SOCKET (rival_socket con_freed) 1)); [by vm_compute|reflexivity].
Defined.

Lemma Host_socket_calls_witness :
  Host_ReadData 0 10 client_open = Fault NullDereference ∧
  Host_WriteData 0 [1] client_open = Ok (Some (-2, client_open)) ∧
  Host_WriteData 1 [1] client_dangling = Fault UseAfterFree.
Proof.
  destruct (Host_socket_calls client_open 0 Socket_new 10 [1]) as (Hr & _ & _ & _ & Hn & _);
    [apply client_open_reachable | by vm_compute |].
  destruct (Host_socket_calls client_dangling 1 (rival_socket con_freed) 10 [1]) as (_ & _ & _ & Hw & _);
    [apply client_dangling_reachable | by vm_compute |].
  split; [by apply Hr|]. split; [by apply Hn|]. apply (Hw UseAfterFree). split; [reflexivity|split; reflexivity].
Defined.


Lemma Host_open_file_ids_used_up_witness : ∃ h3, Host_CreateNewSocket client_closed = (1, h3).
Proof.
  destruct (Host_CreateNewSocket client_closed) as [id2 h3] eqn:H2.
  destruct (Host_open_file_ids_used_up client_new 0 client_open client_closed id2 h3) as ([H|H] & _).
  - apply client_new_reachable.
  - by apply injective_projections.
  - done.
  - destruct (host_after_ok (connect_again client_open) client_open) as [b Hb]; [by vm_compute|].
    destruct (host_after_ok (Host_DecOpenFileRef 0 client_connected) client_connected) as [n Hn];
      [by vm_compute|].
    eapply rtc_l; [eapply hs_connect, Hb|].
    eapply rtc_l; [by eapply hs_dec_ref; exact Hn | apply rtc_refl].
  - exact H2.
  - exists h3. assert ((Host_CreateNewSocket client_closed).1 = 1) as H1 by (by vm_compute).
    rewrite H2 in H1. cbn in H1. by rewrite H1.
  - exists h3. assert ((Host_CreateNewSocket client_closed).1 = 1) as H1 by (by vm_compute).
    rewrite H2 in H1. cbn in H1. by rewrite H1.
Defined.

Lemma Host_close_then_teardown_witness :
  Host_TearDown client_key client_closed = Fault UseAfterFree.
Proof.
  destruct (client_connection client_closed) as (t & Ht & Hid & _); [by vm_compute|].
  destruct (host_after_ok (Host_DecOpenFileRef 0 client_connected) client_connected) as [n Hn];
    [by vm_compute|].
  apply (Host_close_then_teardown client_connected 0 client_socket client_key n client_closed
    client_closed t).
  - apply client_connected_reachable.
  - by vm_compute.
  - reflexivity.
  - exact Hn.
  - by vm_compute.
  - apply rtc_refl.
  - exact Ht.
  - exact Hid.
Defined.

Lemma Host_connect_twice_frees_port_witness : ∃ h',
  connect_again client_connected = Ok (false, h').
Proof.
  destruct (client_connection client_connected) as (t & Ht & _ & Hst); [by vm_compute|].
  assert (Host_GetSocket 0 client_connected = Some client_socket) as Hs by (by vm_compute).
  assert (tc_state t ≠ CLOSED) as Hne by by rewrite Hst.
  pose proof (Host_connect_twice_frees_port (λ _, 5) 0 client_connected 0 client_socket "10.0.0.1" 80 t
    Hs eq_refl) as H.
  assert (is_i32 (local_port (so_local_bound client_socket))) as Hp
    by (unfold is_i32; cbn; split; [intros Hx; discriminate Hx | reflexivity]).
  specialize (H Hp Ht Hne).
  destruct H as (h' & Hr & _). exists h'. exact Hr.
Defined.
