(* ===== verification/Process.v ===== *)
(** * Processes

    The class [Process] of [Host.h] and [Host.cc]: the descriptors of a process and
    its system calls, each on the process and on its host. *)
From S2P Require Import Prelude Interfaces Packet Keys NumPool PacketQueue SendWindow RecvWindow.
From S2P Require Import Tcp TcpRecv TcpSend TcpConn Connection Kernel Host HostDemux HostInv.
From stdpp Require Import sorting.
Open Scope Z_scope.
Open Scope tcp_scope.

Definition kMinFd : Z := 3.
Definition kMaxFd : Z := 63.

(** [program_] is what [Run] calls; see [Process_Run]. *)
Record Process := MkProcess {
  pr_name : string;
  pr_fd_pool : NumPool;
  pr_fd_table : gmap Z Z;
}.

#[export] Instance set_pr_fd_pool : Setter pr_fd_pool := λ f p,
  MkProcess (pr_name p) (f (pr_fd_pool p)) (pr_fd_table p).
#[export] Instance set_pr_fd_table : Setter pr_fd_table := λ f p,
  MkProcess (pr_name p) (pr_fd_pool p) (f (pr_fd_table p)).

(** [Process::Process] *)
Definition Process_new (name : string) : Process := MkProcess name (NumPool_new kMinFd kMaxFd) ∅.

(** [Process::FindFdMappedFileId] *)
Definition Process_FindFdMappedFileId (fd : Z) (p : Process) : Z :=
  match pr_fd_table p !! fd with None => -1 | Some open_file_id => open_file_id end.

Section Process.
Context {SWO : StopWatchOps} {TMO : TimerOps} {BFO : BufferOps} {MNO : MinOps}.
Implicit Types (p : Process) (h : Host).

(** ** System calls *)

(** [Process::Socket] *)
Definition Process_Socket p h : Z * Process * Host :=
  let '(fd, pool) := NumPool_Allocate (pr_fd_pool p) in
  let p := p <| pr_fd_pool := pool |> in
  if fd <? 0 then (-1, p, h)
  else
    let '(open_file_id, h) := Host_CreateNewSocket h in
    if open_file_id <? 0 then (-1, p, h)
    else (fd, p <| pr_fd_table := emplace fd open_file_id (pr_fd_table p) |>, h).

(** [Process::Bind] and [Process::Listen] *)
Definition Process_Bind (socket_fd : Z) (local_ip : string) (local_port : Z) p h : bool * Host :=
  let open_file_id := Process_FindFdMappedFileId socket_fd p in
  if open_file_id <? 0 then (false, h) else Host_SocketBind open_file_id local_ip local_port h.

Definition Process_Listen (socket_fd : Z) p h : bool * Host :=
  let open_file_id := Process_FindFdMappedFileId socket_fd p in
  if open_file_id <? 0 then (false, h) else Host_SocketListen open_file_id h.

(** [Process::Accept]: [None] when it blocks; the [false] for an unknown
    descriptor is [0]. *)
Definition Process_Accept (socket_fd : Z) p h : res (option (Z * Process * Host)) :=
  let open_file_id := Process_FindFdMappedFileId socket_fd p in
  if open_file_id <? 0 then Ok (Some (0, p, h))
  else
    match Host_SocketAccept open_file_id h with
    | None => Ok None
    | Some (new_open_file_id, h) =>
        let '(new_fd, pool) := NumPool_Allocate (pr_fd_pool p) in
        let p := p <| pr_fd_pool := pool |> in
        if new_fd <? 0 then
          h ← Host_DeleteSocketAndConnection open_file_id h;
          Ok (Some (-1, p, h))
        else
          Ok (Some (new_fd,
                p <| pr_fd_table := emplace new_fd new_open_file_id (pr_fd_table p) |>, h))
    end.

(** [Process::Connect] *)
Definition Process_Connect (RandomNumber : Z → Z) (now socket_fd : Z) (remote_ip : string)
    (remote_port : Z) p h : res (bool * Host) :=
  let open_file_id := Process_FindFdMappedFileId socket_fd p in
  if open_file_id <? 0 then Ok (false, h)
  else Host_SocketConnect RandomNumber now open_file_id remote_ip remote_port h.

(** [Process::Read] and [Process::Write]: the [false] for an unknown descriptor is
    [0]. *)
Definition Process_Read (fd size : Z) p h : res (option (Z * list Z * Host)) :=
  let open_file_id := Process_FindFdMappedFileId fd p in
  if open_file_id <? 0 then Ok (Some (0, [], h)) else Host_ReadData open_file_id size h.

Definition Process_Write (fd : Z) (buffer : list Z) p h : res (option (Z * Host)) :=
  let open_file_id := Process_FindFdMappedFileId fd p in
  if open_file_id <? 0 then Ok (Some (0, h)) else Host_WriteData open_file_id buffer h.

(** [Process::ShutDown] *)
Definition Process_ShutDown (fd : Z) p h : res (bool * Host) :=
  let open_file_id := Process_FindFdMappedFileId fd p in
  if open_file_id <? 0 then Ok (false, h) else Host_ShutDownSocket open_file_id h.

(** [Process::Close] *)
Definition Process_Close (fd : Z) p h : res (bool * Process * Host) :=
  let open_file_id := Process_FindFdMappedFileId fd p in
  if open_file_id <? 0 then Ok (false, p, h)
  else
    '(_, h) ← Host_DecOpenFileRef open_file_id h;
    match pr_fd_table p !! fd with
    | None => Ok (false, p, h)
    | Some _ =>
        let p := p <| pr_fd_table := delete fd (pr_fd_table p) |> in
        Ok (true, p <| pr_fd_pool := NumPool_Release fd (pr_fd_pool p) |>, h)
    end.

(** [Process::ReleaseResource]: the descriptors in the order of the [std::map],
    then [Close] on each. *)
Fixpoint close_all (fds : list Z) p h : res (Process * Host) :=
  match fds with
  | [] => Ok (p, h)
  | fd :: fds => '(_, p, h) ← Process_Close fd p h; close_all fds p h
  end.

Definition Process_fds p : list Z := merge_sort Z.le (map_to_list (pr_fd_table p)).*1.

Definition Process_ReleaseResource p h : res (Process * Host) := close_all (Process_fds p) p h.

(** [Process::Run], for a program as a function on the process and its host. *)
Definition Process_Run (program : Process → Host → res (Process * Host)) p h : res (Process * Host) :=
  '(p, h) ← program p h;
  Process_ReleaseResource p h.

(** ** The descriptors *)

Record proc_inv p : Prop := {
  pi_pool : NumPool_inv kMinFd kMaxFd (pr_fd_pool p);
  pi_table fd id : pr_fd_table p !! fd = Some id →
    kMinFd <= fd <= kMaxFd ∧ fd ∉ np_pool (pr_fd_pool p);
}.

(** A process on its host. Calls that leave the descriptors alone, and whatever
    else happens on the host, are steps of the host. *)
Inductive proc_step : Process * Host → Process * Host → Prop :=
  | ps_socket p h fd p' h' : Process_Socket p h = (fd, p', h') → proc_step (p, h) (p', h')
  | ps_accept p h fd r p' h' :
      Process_Accept fd p h = Ok (Some (r, p', h')) → proc_step (p, h) (p', h')
  | ps_close p h fd b p' h' : Process_Close fd p h = Ok (b, p', h') → proc_step (p, h) (p', h')
  | ps_host p h h' : host_step h h' → proc_step (p, h) (p, h').

Definition proc_reachable p h : Prop :=
  ∃ name host ip, rtc proc_step (Process_new name, Host_new host ip) (p, h).

Lemma Process_new_inv name : proc_inv (Process_new name).
Proof. split; [by apply NumPool_new_inv|]. cbn. intros fd id. by rewrite lookup_empty. Qed.

(** Taking the smallest descriptor. *)
Lemma allocate_inv p fd pool : proc_inv p → NumPool_Allocate (pr_fd_pool p) = (fd, pool) →
  (fd < 0 ∧ pool = pr_fd_pool p) ∨
  (kMinFd <= fd <= kMaxFd ∧ pr_fd_table p !! fd = None ∧ np_name pool = np_name (pr_fd_pool p) ∧
   np_pool (pr_fd_pool p) = fd :: np_pool pool ∧
   ∀ id, proc_inv (p <| pr_fd_pool := pool |> <| pr_fd_table := <[fd := id]> (pr_fd_table p) |>) ∧
   proc_inv (p <| pr_fd_pool := pool |>)).
Proof.
  intros [[Hs Hr] Ht]. unfold NumPool_Allocate.
  destruct (np_pool (pr_fd_pool p)) as [|x rest] eqn:Hp; intros [= <- <-]; [by left|right].
  apply StronglySorted_inv in Hs as [Hs Hlt]. rewrite Forall_forall in Hlt.
  assert (kMinFd <= x <= kMaxFd) as Hx by (apply Hr; set_solver).
  assert (x ∉ rest) as Hni by (intros Hin%Hlt; lia).
  split_and!; [lia|lia| |done|done|].
  { apply eq_None_not_Some. intros [id Hid]. destruct (Ht x id Hid). set_solver. }
  assert (NumPool_inv kMinFd kMaxFd ((pr_fd_pool p) <| np_pool := rest |>)) as Hi
    by (split; [done|]; intros y Hy; apply Hr; cbn in Hy; set_solver).
  intros id. split; (split; [exact Hi|]); cbn.
  - intros fd id'. rewrite lookup_insert_Some. intros [[<- <-]|[_ Hf]]; [done|].
    destruct (Ht fd id' Hf). set_solver.
  - intros fd id' Hf. destruct (Ht fd id' Hf). set_solver.
Qed.

Lemma emplace_fresh `{Countable K} {A} (k : K) (a : A) (m : gmap K A) :
  m !! k = None → emplace k a m = <[k := a]> m.
Proof. unfold emplace. by intros ->. Qed.

Lemma socket_inv p h fd p' h' : Process_Socket p h = (fd, p', h') → proc_inv p → proc_inv p'.
Proof.
  unfold Process_Socket. intros Hs Hi. destruct (NumPool_Allocate _) as [n pool] eqn:Ha.
  destruct (allocate_inv p n pool Hi Ha) as [[Hn ->]|(Hn & Hf & _ & _ & Hall)].
  - rewrite (proj2 (Z.ltb_lt _ _) Hn) in Hs. injection Hs as <- <- <-. by destruct Hi.
  - assert ((n <? 0) = false) as Hn0 by (apply Z.ltb_ge; unfold kMinFd in Hn; lia).
    rewrite Hn0 in Hs. destruct (Host_CreateNewSocket h) as [id h1].
    destruct (id <? 0); injection Hs as <- <- <-; [by apply (Hall 0)|].
    cbn [pr_fd_table set set_pr_fd_pool]. rewrite emplace_fresh by done. apply Hall.
Qed.

Lemma accept_inv p h fd r p' h' : Process_Accept fd p h = Ok (Some (r, p', h')) →
  proc_inv p → proc_inv p'.
Proof.
  unfold Process_Accept. intros Hs Hi. destruct (_ <? 0); [by injection Hs as <- <- <-|].
  destruct (Host_SocketAccept _ h) as [[id h1]|]; [|done].
  destruct (NumPool_Allocate _) as [n pool] eqn:Ha.
  destruct (allocate_inv p n pool Hi Ha) as [[Hn ->]|(Hn & Hf & _ & _ & Hall)].
  - rewrite (proj2 (Z.ltb_lt _ _) Hn) in Hs. apply bind_Ok in Hs as (h2 & _ & Hs).
    injection Hs as <- <- <-. by destruct Hi.
  - assert ((n <? 0) = false) as Hn0 by (apply Z.ltb_ge; unfold kMinFd in Hn; lia).
    rewrite Hn0 in Hs. injection Hs as <- <- <-.
    cbn [pr_fd_table set set_pr_fd_pool]. rewrite emplace_fresh by done. apply Hall.
Qed.

(** The process after a descriptor is given back. *)
Definition without_fd (fd : Z) p : Process :=
  p <| pr_fd_table := delete fd (pr_fd_table p) |> <| pr_fd_pool := NumPool_Release fd (pr_fd_pool p) |>.

Lemma without_fd_inv fd p : (∃ id, pr_fd_table p !! fd = Some id) → proc_inv p →
  proc_inv (without_fd fd p).
Proof.
  intros [id Hfd] [[Hs Hr] Ht]. destruct (Ht fd id Hfd) as [Hin _].
  split; cbn; [split; cbn|].
  - by apply set_insert_sorted.
  - intros x [->|Hx]%elem_of_set_insert; [done|auto].
  - intros fd' id'. rewrite lookup_delete_Some. intros [Hne Hf].
    destruct (Ht fd' id' Hf) as [? Hni]. split; [done|].
    intros [->|Hx]%elem_of_set_insert; done.
Qed.

Lemma Process_Close_result fd p h b p' h' : Process_Close fd p h = Ok (b, p', h') →
  (b = false ∧ p' = p ∧ h' = h) ∨
  (b = true ∧ (∃ id, pr_fd_table p !! fd = Some id) ∧ p' = without_fd fd p).
Proof.
  unfold Process_Close, Process_FindFdMappedFileId. intros Hc.
  destruct (pr_fd_table p !! fd) as [id|].
  - destruct (id <? 0); [left; by injection Hc as <- <- <-|].
    apply bind_Ok in Hc as ([n h1] & _ & Hc). injection Hc as <- <- <-. right. eauto.
  - left. by injection Hc as <- <- <-.
Qed.

Lemma close_inv fd p h b p' h' : Process_Close fd p h = Ok (b, p', h') → proc_inv p → proc_inv p'.
Proof.
  intros Hc Hi.
  apply Process_Close_result in Hc as [(-> & -> & ->)|(-> & Hf & ->)]; [done|by apply without_fd_inv].
Qed.

Lemma proc_reachable_inv p h : proc_reachable p h → proc_inv p.
Proof.
  intros (name & host & ip & Hr).
  assert (proc_inv (p, h).1) as Hi; [|exact Hi].
  refine (rtc_invariant proc_step (λ s, proc_inv s.1) _ _ _ _ Hr); [|apply Process_new_inv].
  intros a b Ha Hstep. revert Ha.
  destruct Hstep as [p0 h0 fd p1 h1 Hs|p0 h0 fd r p1 h1 Hs|p0 h0 fd b' p1 h1 Hs|p0 h0 h1 _];
    cbn; intros Ha.
  - by eapply socket_inv.
  - by eapply accept_inv.
  - by eapply close_inv.
  - done.
Qed.

(** ** Closing *)

(** [DecOpenFileRef] moves no socket's pointers. *)
Lemma DecOpenFileRef_sockets id h n h' i f' :
  Host_DecOpenFileRef id h = Ok (n, h') → h_open_files_table h' !! i = Some f' →
  ∃ f, h_open_files_table h !! i = Some f ∧ kf_socket f' = kf_socket f.
Proof.
  unfold Host_DecOpenFileRef. intros Hd Hf'.
  destruct (h_open_files_table h !! id) as [f|] eqn:Hf; [|injection Hd as <- <-; eauto].
  destruct (_ <=? 1).
  - apply bind_Ok in Hd as (h1 & Hd & [= <- <-]). cbn in Hf'. apply lookup_delete_Some in Hf' as [_ Hf'].
    assert (h_open_files_table h1 = h_open_files_table h) as Heq; [|rewrite Heq in Hf'; eauto].
    destruct (so_tcp_con (kf_socket f)); [injection Hd as <-; by case_match|..];
      apply bind_Ok in Hd as ([? ?] & _ & Hd); by injection Hd as <-.
  - injection Hd as <- <-. cbn in Hf'. apply lookup_insert_Some in Hf' as [[<- <-]|[_ Hf']]; eauto.
Qed.

(** Closing a descriptor that names an open file gives the descriptor back, or uses
    freed memory. *)
Lemma Process_Close_open fd id p h : host_inv anyone h → pr_fd_table p !! fd = Some id → 0 <= id →
  (∃ n h', Host_DecOpenFileRef id h = Ok (n, h') ∧
    Process_Close fd p h = Ok (true, without_fd fd p, h')) ∨
  (Process_Close fd p h = Fault UseAfterFree ∧
    ∃ f, h_open_files_table h !! id = Some f ∧ so_tcp_con (kf_socket f) = con_freed).
Proof.
  intros Hi Hfd Hid. unfold Process_Close, Process_FindFdMappedFileId. rewrite Hfd.
  rewrite (proj2 (Z.ltb_ge _ _)) by lia.
  destruct (Host_DecOpenFileRef id h) as [[n h']|e] eqn:Hd; cbn [mbind res_bind]; [eauto|right].
  destruct (h_open_files_table h !! id) as [f|] eqn:Hf.
  - destruct (proj1 (DecOpenFileRef_faults h id f e Hf (file_connection anyone h id f Hi Hf)) Hd)
      as (-> & Hfreed & _).
    split; [done|]. by exists f.
  - unfold Host_DecOpenFileRef in Hd. by rewrite Hf in Hd.
Qed.

(** [p'] is [p] without the descriptors [fds] that name an open file; those that
    name none, [-1], stay. *)
Definition closes_fds (fds : list Z) p p' : Prop :=
  ∀ fd, pr_fd_table p' !! fd =
    match pr_fd_table p !! fd with
    | Some id => if bool_decide (fd ∈ fds) && (0 <=? id) then None else Some id
    | None => None
    end.

(** A socket of the process has a pointer that dangles. *)
Definition dangling_fd (fds : list Z) p h : Prop :=
  ∃ fd id f, fd ∈ fds ∧ pr_fd_table p !! fd = Some id ∧
    h_open_files_table h !! id = Some f ∧ so_tcp_con (kf_socket f) = con_freed.

Lemma dangling_fd_close fd fds p h id n h1 : fd ∉ fds → Host_DecOpenFileRef id h = Ok (n, h1) →
  dangling_fd fds (without_fd fd p) h1 → dangling_fd (fd :: fds) p h.
Proof.
  intros Hni Hd (fd' & id' & f' & Hin & Hfd & Hf' & Hfreed). cbn in Hfd.
  rewrite lookup_delete_ne in Hfd by set_solver.
  destruct (DecOpenFileRef_sockets id h n h1 id' f' Hd Hf') as (f & Hf & Heq).
  exists fd', id', f. split_and!; [set_solver|done|done|congruence].
Qed.

Lemma close_all_spec fds p h : NoDup fds → host_inv anyone h → proc_inv p →
  (∀ fd, fd ∈ fds → is_Some (pr_fd_table p !! fd)) →
  match close_all fds p h with
  | Ok (p', _) => closes_fds fds p p' ∧
      ∀ fd, fd ∈ np_pool (pr_fd_pool p') ↔
        fd ∈ np_pool (pr_fd_pool p) ∨ pr_fd_table p !! fd ≠ pr_fd_table p' !! fd
  | Fault e => e = UseAfterFree ∧ dangling_fd fds p h
  end.
Proof.
  revert p h. induction fds as [|fd fds IH]; intros p h Hnd Hh Hp Hin.
  { cbn. split; [|tauto]. intros fd. case_match; [|done]. by rewrite bool_decide_eq_false_2 by set_solver. }
  apply NoDup_cons in Hnd as [Hni Hnd]. cbn [close_all].
  destruct (Hin fd) as [id Hid]; [set_solver|]. destruct (Z.ltb_spec id 0) as [Hneg|Hpos].
  - assert (Process_Close fd p h = Ok (false, p, h)) as ->.
    { unfold Process_Close, Process_FindFdMappedFileId. by rewrite Hid, (proj2 (Z.ltb_lt _ _)). }
    cbn [mbind res_bind]. specialize (IH p h Hnd Hh Hp). destruct (close_all fds p h) as [[p' h']|e].
    + destruct IH as [Hcl Hpool]; [intros; apply Hin; set_solver|]. split; [|done].
      intros fd'. rewrite Hcl. destruct (pr_fd_table p !! fd') as [id'|] eqn:Hid'; [|done].
      destruct (decide (fd' = fd)) as [->|Hne].
      * simplify_eq. by rewrite (proj2 (Z.leb_gt _ _)), !andb_false_r by lia.
      * by rewrite (bool_decide_ext (fd' ∈ fd :: fds) (fd' ∈ fds)) by set_solver.
    + destruct IH as [-> (fd' & id' & f' & Hin' & Hf')]; [intros; apply Hin; set_solver|].
      split; [done|]. exists fd', id', f'. split; [set_solver|done].
  - destruct (Process_Close_open fd id p h Hh Hid Hpos) as [(n & h1 & Hd & ->)|[-> (f & Hf & Hfreed)]];
      cbn [mbind res_bind]; [|split; [done|]; exists fd, id, f; split_and!; [set_solver|done..]].
    pose proof (hn_inv _ _ _ (dec_ref_step _ _ _ _ _ Hd Hh)) as Hh1.
    pose proof (without_fd_inv fd p (ex_intro _ id Hid) Hp) as Hp1.
    specialize (IH (without_fd fd p) h1 Hnd Hh1 Hp1).
    assert (∀ fd0, fd0 ∈ fds → is_Some (pr_fd_table (without_fd fd p) !! fd0)) as Hin1.
    { intros fd' Hf. cbn. rewrite lookup_delete_ne by set_solver. apply Hin; set_solver. }
    destruct (close_all fds (without_fd fd p) h1) as [[p' h']|e]; destruct (IH Hin1) as [Hcl Hpool];
      [|split; [done|by eapply dangling_fd_close]].
    assert (closes_fds (fd :: fds) p p') as Hcl'.
    { intros fd'. rewrite Hcl. cbn. destruct (decide (fd' = fd)) as [->|Hne].
      - rewrite lookup_delete_eq, Hid, bool_decide_eq_true_2 by set_solver.
        by rewrite (proj2 (Z.leb_le _ _)).
      - rewrite lookup_delete_ne by done.
        by rewrite (bool_decide_ext (fd' ∈ fd :: fds) (fd' ∈ fds)) by set_solver. }
    split; [done|]. intros fd'. rewrite Hpool. cbn.
    rewrite elem_of_set_insert. destruct (decide (fd' = fd)) as [->|Hne].
    + rewrite lookup_delete_eq, Hid, (Hcl' fd), Hid, bool_decide_eq_true_2 by set_solver.
      rewrite (proj2 (Z.leb_le _ _)) by done. cbn. split; [right|left]; auto.
    + rewrite lookup_delete_ne by done. tauto.
Qed.

Lemma Process_fds_spec p : NoDup (Process_fds p) ∧
  ∀ fd, fd ∈ Process_fds p ↔ is_Some (pr_fd_table p !! fd).
Proof.
  unfold Process_fds. split.
  - rewrite merge_sort_Permutation. apply NoDup_fst_map_to_list.
  - intros fd. rewrite merge_sort_Permutation, list_elem_of_fmap. split.
    + intros ([k v] & -> & Hk%elem_of_map_to_list). by exists v.
    + intros [v Hv]. exists (fd, v). split; [done|]. by apply elem_of_map_to_list.
Qed.

Lemma set_insert_head x l : Forall (Z.lt x) l → set_insert x l = x :: l.
Proof. destruct l as [|y l]; [done|]. intros [Hy _]%Forall_cons. cbn. by rewrite (proj2 (Z.ltb_lt _ _)). Qed.

Lemma DecOpenFileRef_fresh id h : h_open_files_table h !! id = Some (MkFile SOCKET Socket_new 1) →
  Host_DecOpenFileRef id h =
    Ok (0, h <| h_open_files_table := delete id (h_open_files_table h) |>).
Proof. intros Hf. unfold Host_DecOpenFileRef. by rewrite Hf. Qed.

(** ** Properties *)

(** The descriptors of a process, whatever calls it makes and whatever happens on
    its host: those in use and those in the pool are different numbers of [3..63],
    and no number is in the pool twice. So [Socket] and [Accept] never hand out a
    descriptor that is in use. *)
Theorem Process_descriptors p h (Hreach : proc_reachable p h) :
  StronglySorted Z.lt (np_pool (pr_fd_pool p)) ∧
  (∀ fd, fd ∈ np_pool (pr_fd_pool p) → 3 <= fd <= 63) ∧
  (∀ fd id, pr_fd_table p !! fd = Some id → 3 <= fd <= 63 ∧ fd ∉ np_pool (pr_fd_pool p)).
Proof. by destruct (proc_reachable_inv p h Hreach) as [[Hs Hr] Ht]. Qed.

(** C36. [Socket] and then [Close] leave the process and the host as they were, but for
    the open file id, which the host does not take back. *)
Theorem Process_Socket_Close p h fd p1 h1
    (Hp : proc_inv p) (Hh : host_reachable h)
    (Hsocket : Process_Socket p h = (fd, p1, h1)) (Hfd : 0 <= fd) :
  ∃ id h2, Process_Close fd p1 h1 = Ok (true, p, h2) ∧
    np_pool (h_open_file_id_pool h) = id :: np_pool (h_open_file_id_pool h2) ∧
    h_open_files_table h2 = h_open_files_table h ∧ h_connections h2 = h_connections h ∧
    h_port_pool h2 = h_port_pool h ∧ h_listeners h2 = h_listeners h.
Proof.
  pose proof (host_reachable_any h Hh) as Hi. unfold Process_Socket in Hsocket.
  destruct (NumPool_Allocate (pr_fd_pool p)) as [n pool] eqn:Ha.
  destruct (allocate_inv p n pool Hp Ha) as [[Hn _]|(Hn & Hf & Hname & Hpool & _)].
  { rewrite (proj2 (Z.ltb_lt _ _) Hn) in Hsocket. injection Hsocket as <- _ _. lia. }
  rewrite (proj2 (Z.ltb_ge _ _)) in Hsocket by (unfold kMinFd in Hn; lia).
  destruct (np_pool (h_open_file_id_pool h)) as [|id ids] eqn:Hids.
  { unfold Host_CreateNewSocket, NumPool_Allocate in Hsocket. rewrite Hids in Hsocket. cbn in Hsocket.
    injection Hsocket as <- _ _. lia. }
  destruct (pool_pop _ h id ids Hids Hi) as ([H1 H2] & _ & _ & Hnone).
  rewrite (CreateNewSocket_spec h id ids Hids H1 Hnone) in Hsocket.
  rewrite (proj2 (Z.ltb_ge _ _) H1) in Hsocket. injection Hsocket as <- <- <-.
  exists id. unfold Process_Close, Process_FindFdMappedFileId.
  cbn [pr_fd_table set set_pr_fd_pool set_pr_fd_table]. rewrite emplace_fresh, lookup_insert_eq by done.
  rewrite (proj2 (Z.ltb_ge _ _) H1), DecOpenFileRef_fresh by (cbn; by rewrite lookup_insert_eq).
  cbn. eexists. rewrite !delete_insert_id by done. match goal with |- Ok (true, ?q, _) = _ ∧ _ => assert (q = p) as -> end; [|by split_and!].
  destruct p as [name [nm l] tbl], pool as [nm' l']; cbn in *. subst nm' l.
  destruct Hp as [[Hs _] _]. apply StronglySorted_inv in Hs as [_ Hs].
  unfold NumPool_Release. cbn. by rewrite set_insert_head.
Qed.

(** C35. When a program ends on a reachable host, the loop of [ReleaseResource] ends.
    It closes every descriptor that names an open file and gives its number back;
    only descriptors that name none, left by a failed [Accept], stay in the table
    and out of the pool for good. A [Close] fails only by following a dangling
    pointer, in a process one of whose sockets once took the connection of another
    socket that has been deleted since. *)
Theorem Process_ReleaseResource_closes p h (Hp : proc_inv p) (Hh : host_reachable h) :
  match Process_ReleaseResource p h with
  | Ok (p', _) =>
      (∀ fd, pr_fd_table p' !! fd =
         match pr_fd_table p !! fd with
         | Some id => if 0 <=? id then None else Some id
         | None => None
         end) ∧
      (∀ fd, fd ∈ np_pool (pr_fd_pool p') ↔ fd ∈ np_pool (pr_fd_pool p) ∨
         ∃ id, pr_fd_table p !! fd = Some id ∧ 0 <= id)
  | Fault e => e = UseAfterFree ∧ ∃ fd id f k, pr_fd_table p !! fd = Some id ∧
      h_open_files_table h !! id = Some f ∧ so_tcp_con (kf_socket f) = con_freed ∧ took_over id k h
  end.
Proof.
  destruct (Process_fds_spec p) as [Hnd Hfds]. unfold Process_ReleaseResource.
  pose proof (close_all_spec (Process_fds p) p h Hnd (host_reachable_any h Hh) Hp) as Hc.
  destruct (close_all (Process_fds p) p h) as [[p' h']|e];
    (destruct Hc as [Hcl Hpool]; [by intros fd Hf; apply Hfds|]).
  - assert (∀ fd, pr_fd_table p' !! fd = match pr_fd_table p !! fd with
       | Some id => if 0 <=? id then None else Some id | None => None end) as Htab.
    { intros fd. rewrite Hcl. destruct (pr_fd_table p !! fd) as [id|] eqn:Hid; [|done].
      by rewrite bool_decide_eq_true_2 by (apply Hfds; eauto). }
    split; [done|]. intros fd. rewrite Hpool, Htab.
    destruct (pr_fd_table p !! fd) as [id|]; [|naive_solver].
    destruct (Z.leb_spec 0 id); naive_solver lia.
  - split; [done|]. destruct Hpool as (fd & id & f & _ & Hfd & Hf & Hfreed).
    destruct (hi_freed _ h (host_reachable_inv h Hh) id f Hf Hfreed) as [k Hk]. by exists fd, id, f, k.
Qed.
End Process.

(** ** Concrete instances *)

#[local] Existing Instance simple_StopWatch.
#[local] Existing Instance simple_Timer.
#[local] Existing Instance simple_Buffer.
#[local] Existing Instance simple_Min.

Definition shell : Process := Process_new "shell".

Lemma shell_reachable : proc_reachable shell client_new.
Proof. exists "shell"%string, "client"%string, "10.0.0.2"%string. apply rtc_refl. Qed.

Lemma Process_descriptors_witness :
  proc_reachable shell client_new ∧ 3 ∈ np_pool (pr_fd_pool shell) ∧ 3 <= 3 <= 63.
Proof.
  destruct (Process_descriptors shell client_new shell_reachable) as (_ & H & _).
  assert (3 ∈ np_pool (pr_fd_pool shell)) as H3 by (apply set_mem_spec; by vm_compute).
  split; [exact shell_reachable|]. split; [exact H3 | exact (H 3 H3)].
Defined.

Definition shell_open : Process := (Process_Socket shell client_new).1.2.

Lemma Process_Socket_Close_witness : ∃ h2,
  Process_Close 3 shell_open client_open = Ok (true, shell, h2) ∧
  h_open_files_table h2 = h_open_files_table client_new.
Proof.
  destruct (Process_Socket_Close shell client_new 3 shell_open client_open)
    as (id & h2 & Hc & _ & Ht & _);
    [apply Process_new_inv|apply client_new_reachable|by vm_compute|lia|].
  exists h2. split; [exact Hc|exact Ht].
Defined.

(** A process with a descriptor for the open file 0, and one that names none. *)
Definition shell_two : Process :=
  MkProcess "shell" (MkNumPool "" (seqZ 5 59)) (<[3 := 0]> (<[4 := -1]> ∅)).

Lemma shell_two_inv : proc_inv shell_two.
Proof.
  split.
  - split; [|cbn; intros x Hx%elem_of_seqZ; unfold kMinFd, kMaxFd; lia].
    assert (NumPool_inv 5 63 (NumPool_new 5 63)) as [Hs _] by by apply NumPool_new_inv.
    vm_compute in Hs. vm_compute. exact Hs.
  - unfold shell_two, kMinFd, kMaxFd; cbn. intros fd id.
    rewrite !lookup_insert_Some, lookup_empty, elem_of_seqZ. naive_solver lia.
Qed.

Lemma shell_two_release :
  match Process_ReleaseResource shell_two client_open with
  | Ok (p', _) => pr_fd_table p' !! 3 = None
  | Fault _ => False
  end.
Proof. vm_compute. reflexivity. Qed.

(** The same descriptors on the host whose second socket has a dangling pointer. *)
Definition shell_dangling : Process :=
  MkProcess "shell" (MkNumPool "" (seqZ 5 59)) (<[3 := 1]> (<[4 := -1]> ∅)).

Lemma shell_dangling_inv : proc_inv shell_dangling.
Proof.
  split; [apply shell_two_inv|]. unfold shell_dangling, kMinFd, kMaxFd; cbn. intros fd id.
  rewrite !lookup_insert_Some, lookup_empty, elem_of_seqZ. naive_solver lia.
Qed.

Lemma shell_dangling_release : is_ok (Process_ReleaseResource shell_dangling client_dangling) = false.
Proof. vm_compute. reflexivity. Qed.

Lemma Process_ReleaseResource_closes_witness :
  (∃ p' h', Process_ReleaseResource shell_two client_open = Ok (p', h') ∧
    pr_fd_table p' !! 3 = None ∧ pr_fd_table p' !! 4 = Some (-1) ∧ 3 ∈ np_pool (pr_fd_pool p')) ∧
  Process_ReleaseResource shell_dangling client_dangling = Fault UseAfterFree.
Proof.
  pose proof shell_two_release as Hok. pose proof shell_dangling_release as Hbad.
  pose proof (Process_ReleaseResource_closes shell_two client_open shell_two_inv client_open_reachable) as H.
  pose proof (Process_ReleaseResource_closes shell_dangling client_dangling shell_dangling_inv
    client_dangling_reachable) as H'.
  destruct (Process_ReleaseResource shell_two client_open) as [[p' h']|]; [|destruct Hok].
  destruct (Process_ReleaseResource shell_dangling client_dangling) as [|e]; [discriminate Hbad|].
  split; [|destruct H' as [-> _]; reflexivity].
  destruct H as [Ht Hp]. exists p', h'. split; [reflexivity|]. rewrite !Ht.
  split; [reflexivity|]. split; [reflexivity|]. apply Hp. right. exists 0. split; [reflexivity|lia].
Defined.
