(* ===== verification/Stream.v ===== *)
(** * Streams of packets over a network

    What a sender has cut into packets, the packets and acknowledgements on their way,
    and how far the two ends of the stream have come. Shared by the models of a
    data transfer and of a whole session. *)
From S2P Require Import Prelude Interfaces Packet Keys PacketQueue SendWindow RecvWindow.
From S2P Require Import Tcp TcpRecv TcpSend TcpConn.
From stdpp Require Import sorting.
Open Scope Z_scope.
Open Scope tcp_scope.

Section Stream.
Context {SWO : StopWatchOps} {TMO : TimerOps} {BFO : BufferOps}.
Context {Buffer_bytes : Buffer → list Z} {Buffer_capacity : Buffer → Z}.
Context {BFL : BufferLaws Buffer_bytes Buffer_capacity} {MNO : MinOps} {MNL : MinLaws}.
Implicit Types (t : TcpController) (sent F G : list Packet) (A : gset nat) (isn R : Z).

(** [sent] are the packets sent so far, from the sequence number [isn]. A copy of
    any of them is the packet itself. *)
Record stream_ok (isn : Z) sent : Prop := {
  sto_base : 0 <= isn;
  sto_contiguous : contiguous isn sent;
  sto_copy : Forall (λ p, Packet_Copy p = p) sent;
  sto_end : isn + total_len sent < 4294967296;
}.

(** What a segment on its way carries: a packet of [sent], or nothing. *)
Definition carries sent (o : option nat) (p : Packet) : Prop :=
  match o with
  | Some i => sent !! i = Some p
  | None => segment_of p = SegData ∧ payload_size p = 0
  end.

(** The packets on their way that the receiver has to queue. *)
Definition ahead (k : nat) (os : list (option nat)) : list nat :=
  filter (λ i, (k < i)%nat) (omap id os).

(** Of a packet the receiver has not reached, at most one copy is on its way, and
    none once it has arrived. *)
Definition flight_ok sent A (k : nat) F : Prop :=
  ∃ os, Forall2 (carries sent) os F ∧ NoDup (ahead k os) ∧ ∀ i, i ∈ ahead k os → i ∉ A.

(** An acknowledgement of the first [m] packets that offers no byte beyond [R]. *)
Record ack_of (isn : Z) sent R (m : nat) (p : Packet) : Prop := {
  ao_segment : segment_of p = SegAck;
  ao_num : ack_num (tcp_header p) = spos isn sent m;
  ao_window : 0 <= window_size (tcp_header p) < 65536;
  ao_offer : spos isn sent m + window_size (tcp_header p) <= R;
}.

Definition acks_ok (isn : Z) sent R (j k : nat) G : Prop :=
  ∃ ms, Forall2 (ack_of isn sent R) ms G ∧ StronglySorted le (j :: ms ++ [k]).

(** *** Segments on their way *)

Lemma ahead_app k os1 os2 : ahead k (os1 ++ os2) = ahead k os1 ++ ahead k os2.
Proof. unfold ahead. by rewrite omap_app, filter_app. Qed.

Lemma elem_of_ahead k os i : i ∈ ahead k os ↔ (k < i)%nat ∧ Some i ∈ os.
Proof.
  unfold ahead. rewrite list_elem_of_filter, list_elem_of_omap. split.
  - intros [? (x & ? & Hx)]. by destruct x; simplify_eq/=.
  - intros [? ?]. split; [done|]. by exists (Some i).
Qed.

Lemma ahead_later k k' os : (k ≤ k')%nat → NoDup (ahead k os) → NoDup (ahead k' os).
Proof.
  intros Hk Hnd. unfold ahead in *.
  rewrite <- (list_filter_filter_l _ (λ i, k < i)%nat) by (intros; lia). by apply NoDup_filter.
Qed.

Lemma omap_Some_fmap (l : list nat) : omap id (Some <$> l) = l.
Proof. induction l as [|x l IH]; csimpl; [done|]. by rewrite IH. Qed.

Lemma flight_nil sent A k : flight_ok sent A k [].
Proof. exists []. split; [constructor|]. split; [constructor|set_solver]. Qed.

(** A segment the receiver has no use for may be added. *)
Lemma flight_old sent A k F p o :
  flight_ok sent A k F → carries sent o p → (∀ i, o = Some i → (i ≤ k)%nat) →
  flight_ok sent A k (F ++ [p]).
Proof.
  intros (os & Hos & Hnd & Hin) Ho Hk. exists (os ++ [o]).
  assert (ahead k [o] = []) as Hnil.
  { unfold ahead. destruct o as [i|]; simpl; [|done]. specialize (Hk i eq_refl).
    rewrite filter_cons, decide_False; [done|lia]. }
  rewrite ahead_app, Hnil, app_nil_r. split; [|done]. apply Forall2_app; [done|by constructor].
Qed.

Lemma carries_app sent new o p : carries sent o p → carries (sent ++ new) o p.
Proof. destruct o; simpl; [apply lookup_app_l_Some|done]. Qed.

(** New packets. *)
Lemma flight_new sent A k F ps :
  flight_ok sent A k F → (k ≤ length sent)%nat → (∀ i, i ∈ A → (i < length sent)%nat) →
  flight_ok (sent ++ ps) A k (F ++ ps).
Proof.
  intros (os & Hos & Hnd & Hin) Hk HA. set (new := seq (length sent) (length ps)).
  exists (os ++ (Some <$> new)).
  assert (∀ i, i ∈ ahead k (Some <$> new) → (length sent <= i)%nat) as Hnew.
  { intros i [_ Hi]%elem_of_ahead. apply list_elem_of_fmap in Hi as (? & [= <-] & Hi).
    apply elem_of_seq in Hi. lia. }
  split; [|rewrite ahead_app; split].
  - apply Forall2_app; [eapply Forall2_impl; [done|]; intros; by apply carries_app|].
    apply Forall2_fmap_l, Forall2_same_length_lookup. subst new. rewrite length_seq. split; [done|].
    intros i x p Hx Hp. apply lookup_seq in Hx as [-> _]. simpl.
    by rewrite lookup_app_r, Nat.add_comm, Nat.add_sub by lia.
  - apply NoDup_app. split_and!; [done| |].
    + intros i [_ Hi]%elem_of_ahead Hi2%Hnew.
      assert (∃ p, carries sent (Some i) p) as [p Hp].
      { apply list_elem_of_lookup in Hi as [n Hn].
        destruct (Forall2_lookup_l _ _ _ _ _ Hos Hn) as (p & _ & Hp). by exists p. }
      apply lookup_lt_Some in Hp. lia.
    + unfold ahead. apply NoDup_filter. rewrite omap_Some_fmap. apply NoDup_seq.
  - intros i [Hi|Hi%Hnew]%elem_of_app; [by apply Hin|]. intros ?%HA. lia.
Qed.

Lemma flight_take sent A k l1 p l2 :
  flight_ok sent A k (l1 ++ p :: l2) → flight_ok sent A k (l1 ++ l2).
Proof.
  intros (os & Hos & Hnd & Hin). apply Forall2_app_inv_r in Hos as (os1 & os2 & H1 & H2 & ->).
  apply Forall2_cons_inv_r in H2 as (o & os2' & Ho & H2 & ->).
  assert (ahead k (os1 ++ os2') `sublist_of` ahead k (os1 ++ o :: os2')) as Hsub.
  { change (o :: os2') with ([o] ++ os2'). rewrite !ahead_app.
    apply sublist_app; [done|]. by apply sublist_inserts_l. }
  exists (os1 ++ os2'). split; [by apply Forall2_app|].
  split; [by eapply sublist_NoDup|]. intros i Hi. apply Hin. by eapply elem_of_sublist.
Qed.
(** *** Acknowledgements on their way *)

Lemma acks_nil isn sent R j k : (j ≤ k)%nat → acks_ok isn sent R j k [].
Proof. intros. exists []. split; [constructor|]. by repeat constructor. Qed.

Lemma acks_jk isn sent R j k G : acks_ok isn sent R j k G → (j ≤ k)%nat.
Proof.
  intros (ms & _ & Hs). apply StronglySorted_inv in Hs as [_ Hs]. rewrite Forall_forall in Hs.
  apply Hs. set_solver.
Qed.

(** The receiver goes on, and sends another acknowledgement. *)
Lemma acks_later isn sent R R' j k k' G :
  acks_ok isn sent R j k G → (k ≤ k')%nat → R <= R' → acks_ok isn sent R' j k' G.
Proof.
  intros (ms & Hms & Hs) Hk HR. exists ms. split.
  - eapply Forall2_impl; [exact Hms|]. intros m p []. split; [done..|lia].
  - change (j :: ms ++ [k]) with ((j :: ms) ++ [k]) in Hs.
    change (j :: ms ++ [k']) with ((j :: ms) ++ [k']).
    apply StronglySorted_app in Hs as (Hall & Hs & _). apply StronglySorted_app.
    split_and!; [|done|by repeat constructor]. intros x y Hx ->%list_elem_of_singleton.
    trans k; [apply Hall; set_solver|done].
Qed.

Lemma acks_snoc isn sent R j k G p :
  acks_ok isn sent R j k G → ack_of isn sent R k p → acks_ok isn sent R j k (G ++ [p]).
Proof.
  intros (ms & Hms & Hs) Hp. exists (ms ++ [k]). split; [apply Forall2_app; [done|by constructor]|].
  change (j :: ms ++ [k]) with ((j :: ms) ++ [k]) in Hs.
  change (j :: (ms ++ [k]) ++ [k]) with (((j :: ms) ++ [k]) ++ [k]). apply StronglySorted_app.
  split_and!; [|done|by repeat constructor]. apply StronglySorted_app in Hs as (Hall & _ & _).
  intros x y Hx ->%list_elem_of_singleton. apply elem_of_app in Hx as [Hx|Hx].
  - apply Hall; set_solver.
  - apply list_elem_of_singleton in Hx as ->. done.
Qed.

(** The first acknowledgement arrives, or is lost. *)
Lemma acks_cons isn sent R j k p G : acks_ok isn sent R j k (p :: G) →
  acks_ok isn sent R j k G ∧
  ∃ m, (j ≤ m)%nat ∧ ack_of isn sent R m p ∧ acks_ok isn sent R m k G.
Proof.
  intros (ms & Hms & Hs). apply Forall2_cons_inv_r in Hms as (m & ms' & Hp & Hms & ->).
  simpl in Hs. apply StronglySorted_inv in Hs as [Hs Hall]. apply Forall_cons in Hall as [Hjm Hall].
  split; [|exists m; split_and!; [done|done|]; by exists ms'].
  exists ms'. split; [done|]. apply StronglySorted_inv in Hs as [Hs _]. by constructor.
Qed.

(** Any of them is lost. *)
Lemma acks_take isn sent R j k G1 p G2 :
  acks_ok isn sent R j k (G1 ++ p :: G2) → acks_ok isn sent R j k (G1 ++ G2).
Proof.
  intros (ms & Hms & Hs). apply Forall2_app_inv_r in Hms as (m1 & m2 & H1 & H2 & ->).
  apply Forall2_cons_inv_r in H2 as (m & m2' & _ & H2 & ->). exists (m1 ++ m2').
  split; [by apply Forall2_app|]. rewrite <- app_assoc in Hs |- *. simpl in Hs.
  change (j :: m1 ++ m :: m2' ++ [k]) with ((j :: m1) ++ m :: (m2' ++ [k])) in Hs.
  change (j :: m1 ++ m2' ++ [k]) with ((j :: m1) ++ (m2' ++ [k])).
  apply StronglySorted_app in Hs as (Ha & Hb & [Hc _]%StronglySorted_inv).
  apply StronglySorted_app. split_and!; [|done|done]. intros x y Hx Hy. apply Ha; set_solver.
Qed.

Lemma ack_of_app isn sent new R m p : (m ≤ length sent)%nat →
  ack_of isn sent R m p → ack_of isn (sent ++ new) R m p.
Proof.
  intros Hm [H1 H2 H3 H4]. assert (spos isn (sent ++ new) m = spos isn sent m) as He.
  { unfold spos. by rewrite take_app_le. }
  split; rewrite ?He; done.
Qed.
(** *** Streams that grow *)

Lemma spos_app isn sent new k : (k ≤ length sent)%nat → spos isn (sent ++ new) k = spos isn sent k.
Proof. intros Hk. unfold spos. by rewrite take_app_le. Qed.

(** The receiver acknowledges what it has, whatever is sent later. *)
Lemma acks_more isn sent new R j k G : (k ≤ length sent)%nat →
  acks_ok isn sent R j k G → acks_ok isn (sent ++ new) R j k G.
Proof.
  intros Hk (ms & Hms & Hs). exists ms. split; [|done].
  assert (∀ m, m ∈ ms → (m ≤ k)%nat) as Hmk.
  { intros m Hm. change (j :: ms ++ [k]) with ((j :: ms) ++ [k]) in Hs.
    apply StronglySorted_app in Hs as (Hall & _). apply Hall; set_solver. }
  clear Hs. induction Hms as [|m p ms G Hm Hms IH]; constructor.
  - apply ack_of_app; [|done]. trans k; [apply Hmk; set_solver|done].
  - apply IH. intros; apply Hmk; set_solver.
Qed.

Lemma recv_stream_more isn sent new A k rs :
  recv_stream_inv isn sent A k rs → recv_stream_inv isn (sent ++ new) A k rs.
Proof.
  intros [Hk Hb (js & Hq & Hs & Hel) Hm Hbf]. split; try done.
  - rewrite length_app. lia.
  - by rewrite spos_app.
  - exists js. split; [|done]. eapply Forall2_impl; [exact Hq|]. simpl. intros.
    by apply lookup_app_l_Some.
Qed.

Lemma recv_stream_bound isn sent A k rs i :
  recv_stream_inv isn sent A k rs → i ∈ A → (i < length sent)%nat.
Proof.
  intros [Hk _ (js & Hq & _ & Hel) Hm _] Hi.
  destruct (decide (k < i)%nat) as [Hki|]; [|destruct (decide (i = k)) as [->|]; [done|lia]].
  pose proof (proj2 (Hel i) (conj Hki Hi)) as Hin. apply list_elem_of_lookup in Hin as [n Hn].
  destruct (Forall2_lookup_l _ _ _ _ _ Hq Hn) as (p & _ & Hp). by apply lookup_lt_Some in Hp.
Qed.

Lemma stream_copy isn sent i p : stream_ok isn sent → sent !! i = Some p → Packet_Copy p = p.
Proof. intros [_ _ Hp _] Hi. rewrite Forall_forall in Hp. by eapply Hp, list_elem_of_lookup_2. Qed.

Lemma spos_le isn sent i j : stream_ok isn sent → (i ≤ j)%nat → spos isn sent i <= spos isn sent j.
Proof.
  intros [_ Hc _ _] Hij. unfold spos.
  assert (contiguous isn (take j sent)) as Hj.
  { rewrite <- (take_drop j sent) in Hc. by apply contiguous_app in Hc as [Hc _]. }
  assert (take j sent = take i sent ++ drop i (take j sent)) as He.
  { rewrite <- (take_drop i (take j sent)) at 1. rewrite take_take. do 2 f_equal. lia. }
  rewrite He, contiguous_app in Hj. destruct Hj as [_ Hd%contiguous_total].
  rewrite He, total_len_app. lia.
Qed.

Lemma spos_all isn sent : spos isn sent (length sent) = isn + total_len sent.
Proof. unfold spos. by rewrite firstn_all. Qed.

Lemma stream_inj isn sent i j p : stream_ok isn sent →
  sent !! i = Some p → sent !! j = Some p → i = j.
Proof.
  intros [Hb Hc _ Hend] Hi Hj. pose proof (seq_compare isn sent Hb Hc Hend i j p p Hi Hj) as H1.
  pose proof (seq_compare isn sent Hb Hc Hend j i p p Hj Hi) as H2. rewrite Z.ltb_irrefl in H1, H2.
  symmetry in H1, H2. apply bool_decide_eq_false in H1, H2. lia.
Qed.

(** A segment that arrives does not fail the check of the receive window. *)
Lemma flight_arrive isn sent A k rs l1 p l2 :
  recv_stream_inv isn sent A k rs → flight_ok sent A k (l1 ++ p :: l2) →
  ∃ o, carries sent o p ∧
    match o with
    | None => True
    | Some i => ¬ queued A i ∧ ∀ k', (k ≤ k')%nat → flight_ok sent (A ∪ {[i]}) k' (l1 ++ l2)
    end.
Proof.
  intros Hinv Hfl. pose proof (flight_take _ _ _ _ _ _ Hfl) as (os' & Hos' & Hnd' & Hin').
  destruct Hfl as (os & Hos & Hnd & Hin).
  apply Forall2_app_inv_r in Hos as (os1 & os2 & H1 & H2 & ->).
  apply Forall2_cons_inv_r in H2 as (o & os2' & Ho & H2 & ->).
  clear os' Hos' Hnd' Hin'. exists o. split; [done|]. destruct o as [i|]; [|done].
  change (Some i :: os2') with ([Some i] ++ os2') in Hnd, Hin.
  assert ((k < i)%nat → i ∈ ahead k (os1 ++ [Some i] ++ os2')) as Hi.
  { intros Hki. apply elem_of_ahead. split; [done|]. set_solver. }
  split.
  { intros (HiA & j & Hji & Hj)%queued_gap.
    destruct (decide (j < k)%nat) as [Hjk|Hjk]; [by apply Hj, Hinv|].
    by destruct (Hin i (Hi ltac:(lia))). }
  intros k' Hk. exists (os1 ++ os2'). split; [by apply Forall2_app|].
  rewrite !ahead_app in Hnd. split.
  - apply (ahead_later k); [done|]. rewrite ahead_app. clear -Hnd.
    eapply sublist_NoDup; [exact Hnd|]. apply sublist_app; [done|]. by apply sublist_inserts_l.
  - intros x [Hx Hxin]%elem_of_ahead [HxA| ->%elem_of_singleton]%elem_of_union.
    + apply (Hin x); [|done]. apply elem_of_ahead. split; [lia|]. set_solver.
    + assert (ahead k [Some i] = [i]) as Hone.
      { unfold ahead. simpl. by rewrite filter_cons, decide_True by lia. }
      rewrite Hone in Hnd. apply NoDup_app in Hnd as (_ & Hd1 & Hnd).
      apply NoDup_cons in Hnd as [Hd2 _].
      apply elem_of_app in Hxin as [Hxin|Hxin].
      * apply (Hd1 i); [apply elem_of_ahead; split; [lia|done]|set_solver].
      * apply Hd2, elem_of_ahead. split; [lia|done].
Qed.
(** The bytes between two positions of the stream. *)
Lemma spos_run isn sent k k' : (k ≤ k')%nat →
  spos isn sent k' = spos isn sent k + total_len (take (k' - k) (drop k sent)).
Proof.
  intros Hk. unfold spos. replace k' with (k + (k' - k))%nat at 1 by lia.
  rewrite <- take_take_drop, total_len_app. lia.
Qed.

Lemma spos_u32 isn sent m : stream_ok isn sent → (m ≤ length sent)%nat → is_u32 (spos isn sent m).
Proof.
  intros Hst Hm. pose proof Hst as [Hb _ _ Hend]. pose proof (spos_le isn sent m _ Hst Hm) as Hle.
  pose proof (spos_le isn sent 0 m Hst ltac:(lia)) as H0. rewrite spos_all in Hle.
  unfold spos in H0 at 1. rewrite take_0, total_len_nil in H0. unfold is_u32. lia.
Qed.

(** The first [n] packets of a window. *)
Lemma window_split w l n : sw_packets w = l → (n ≤ length l)%nat →
  ∃ l1 l2, sw_pkts_to_ack w = l1 ++ l2 ∧ swn_pkt <$> l1 = take n l ∧ swn_pkt <$> l2 = drop n l.
Proof.
  unfold sw_packets. intros <- Hn. exists (take n (sw_pkts_to_ack w)), (drop n (sw_pkts_to_ack w)).
  by rewrite take_drop, fmap_take, fmap_drop.
Qed.

(** An acknowledgement of packets of the window, or of none. *)
Lemma window_acked isn sent j m w now g :
  stream_ok isn sent → SendWindow_inv w → sw_packets w = drop j sent →
  sw_send_base w = spos isn sent j → (j ≤ m ≤ length sent)%nat →
  match SendWindow_NewAckedPacket now (spos isn sent m) w g with
  | Fault f => f = BadConversion ∧ 2147483648 <= g
  | Ok (_, w', _) => SendWindow_inv w' ∧ sw_packets w' = drop m sent ∧
      sw_send_base w' = spos isn sent m
  end.
Proof.
  intros Hst Hinv Hpk Hbase Hm. destruct (decide (m = j)) as [->|Hne].
  - rewrite <- Hbase, NewAckedPacket_dup. cbv zeta. destruct (g <=? _).
    + unfold scale_max_duplicated_acks. destruct (Z.ltb_spec (3 * g / 2) 4294967296) as [|Hbig]; simpl.
      * split; [by destruct Hinv; split|done].
      * split; [done|]. destruct (Z.le_gt_cases 2147483648 g); [done|].
        assert (3 * g / 2 < 4294967296) by (apply Z.div_lt_upper_bound; lia). lia.
    + split; [by destruct Hinv; split|done].
  - destruct (window_split w _ (m - j) Hpk) as (l1 & l2 & Hw & Hl1 & Hl2); [rewrite length_drop; lia|].
    pose proof (spos_run isn sent j m ltac:(lia)) as Hrun. rewrite <- Hl1 in Hrun.
    assert (spos isn sent m = u32 (sw_send_base w + total_len (swn_pkt <$> l1))) as Hack.
    { rewrite Hbase, <- Hrun, u32_small; [done|]. apply spos_u32; [done|lia]. }
    destruct l1 as [|nd l _] using rev_ind.
    { exfalso. assert (length (take (m - j) (drop j sent)) = 0%nat) as H0 by by rewrite <- Hl1.
      rewrite length_take, length_drop in H0. lia. }
    rewrite (NewAckedPacket_prefix w l nd l2 now g _ _ Hinv Hw eq_refl Hack).
    + split; [rewrite Hack; by eapply SendWindow_acked_inv|]. split; [|done].
      unfold sw_packets; simpl. rewrite Hl2, drop_drop. f_equal. lia.
    + left. rewrite Hbase, <- Hrun. destruct (spos_u32 isn sent m Hst); [lia|done].
Qed.

Lemma NumPacketsToAck_empty w : SendWindow_inv w →
  (SendWindow_NumPacketsToAck w =? 0) = bool_decide (sw_packets w = []).
Proof.
  intros Hw. unfold SendWindow_NumPacketsToAck.
  assert (∀ base l, contiguous base l → Z.of_nat (length l) <= total_len l) as Hlen.
  { intros base l. revert base. induction l as [|p l IH]; intros base; [done|].
    intros (_ & Hp & Hl%IH). rewrite total_len_cons. simpl. lia. }
  pose proof (Hlen _ _ (swi_contiguous _ Hw)) as Hle. pose proof (swi_total _ Hw) as Ht.
  assert (length (sw_pkts_to_ack w) = length (sw_packets w)) as ->
    by (unfold sw_packets; by rewrite length_fmap).
  rewrite u32_small by word_lia. destruct (sw_packets w); [done|].
  by rewrite bool_decide_eq_false_2.
Qed.
(** The packet to send again is the first that is not acknowledged. *)
Lemma get_base isn sent m w :
  stream_ok isn sent → SendWindow_inv w → sw_packets w = drop m sent →
  ∃ w', SendWindow_GetBasePakcketToReSend w = (sent !! m, w') ∧ SendWindow_inv w' ∧
    sw_packets w' = drop m sent ∧ sw_send_base w' = sw_send_base w ∧
    sw_capacity w' = sw_capacity w ∧ sw_size w' = sw_size w.
Proof.
  intros Hst Hinv Hpk. unfold SendWindow_GetBasePakcketToReSend.
  pose proof (GetBase_inv w Hinv) as Hinv'. unfold SendWindow_GetBasePakcketToReSend in Hinv'.
  assert (sent !! m = head (sw_packets w)) as Hm.
  { rewrite Hpk. destruct (sent !! m) as [p|] eqn:Hp; [by rewrite (drop_S _ _ _ Hp)|].
    apply lookup_ge_None in Hp. by rewrite drop_ge. }
  rewrite <- Hpk. unfold sw_packets in Hm |- *. destruct (sw_pkts_to_ack w) as [|nd l] eqn:Hnd; csimpl in *.
  - exists w. by rewrite Hm, Hnd.
  - rewrite Hm. eexists. split; [|split; [exact Hinv'|by simpl; rewrite Hnd]].
    by rewrite (stream_copy _ _ _ _ Hst Hm).
Qed.

(** ** The connection *)

Lemma plain_segment_of p : plain_segment p → segment_of p = SegData.
Proof.
  intros [_ Hs Hf Ha Hr _]. unfold is_sync, is_fin in *. unfold segment_of. by rewrite Hs, Hf, Ha, Hr.
Qed.

Lemma SendPacket_frame o t :
  TcpController_SendPacket o t = t <| tc_pkt_send_buffer :=
    (tc_pkt_send_buffer t) <| pq_packets := pq_packets (tc_pkt_send_buffer t) ++ option_list o |> |>.
Proof.
  destruct o; [done|]. simpl. rewrite app_nil_r. by destruct t as [???????????[]????????????????].
Qed.

Lemma made_ack isn sent R m t n :
  n = spos isn sent m → spos isn sent m + Buffer_free_space (tc_recv_buffer t) <= R →
  ack_of isn sent R m (TcpController_MakeAckPacket n t).
Proof.
  intros -> HR. assert (0 <= Buffer_free_space (tc_recv_buffer t)) as Hf.
  { rewrite Buffer_free_space_spec. pose proof (Buffer_bounded (tc_recv_buffer t)). lia. }
  split; [done|done|simpl; word_lia|simpl]. assert (u16 (Buffer_free_space (tc_recv_buffer t)) <=
    Buffer_free_space (tc_recv_buffer t)); [|lia]. by apply Z.mod_le.
Qed.

(** A probe: the window is sent again. *)
Lemma receive_probe now g p b : segment_of p = SegData → payload_size p = 0 →
  TcpController_HandlePacket now g p b = Ok (g, TcpController_SendPacket
    (Some (TcpController_MakeAckPacket (rw_recv_base (tc_recv_window b)) b)) b).
Proof.
  intros Hs Hp. rewrite HandlePacket_dispatch, Hs. unfold TcpController_HandleDataPacket.
  by rewrite Hp.
Qed.

(** The listener that hands packets to the host. *)
Lemma packets_out t pkts t' : pq_destroy (tc_pkt_send_buffer t) = false →
  TcpController_PacketSendBufferListener_round t = Some (pkts, t') →
  pkts = pq_packets (tc_pkt_send_buffer t) ∧
  t' = t <| tc_pkt_send_buffer := (tc_pkt_send_buffer t) <| pq_packets := [] |> |>.
Proof.
  unfold TcpController_PacketSendBufferListener_round, PacketQueue_DeQueueAllTo,
    PacketQueue_wait_pred, PacketQueue_empty, PacketQueue_DeQueueAllTo_locked. intros Hd.
  destruct (tc_shutdown t); [done|]. rewrite Hd. simpl.
  destruct (pq_packets (tc_pkt_send_buffer t)); simpl; [done|]. by intros [= <- <-].
Qed.

Lemma packets_out_ready t : pq_destroy (tc_pkt_send_buffer t) = false → tc_shutdown t = false →
  pq_packets (tc_pkt_send_buffer t) ≠ [] →
  TcpController_PacketSendBufferListener_round t = Some (pq_packets (tc_pkt_send_buffer t),
    t <| tc_pkt_send_buffer := (tc_pkt_send_buffer t) <| pq_packets := [] |> |>).
Proof.
  unfold TcpController_PacketSendBufferListener_round, PacketQueue_DeQueueAllTo,
    PacketQueue_wait_pred, PacketQueue_empty, PacketQueue_DeQueueAllTo_locked. intros Hd -> Hne.
  rewrite Hd. simpl. by destruct (pq_packets (tc_pkt_send_buffer t)).
Qed.

(** ** The sending end

    The first [j] packets of [sent] are acknowledged, the others in the window. *)
Record window_ok (isn : Z) sent (j : nat) t : Prop := {
  wk_window : SendWindow_inv (tc_send_window t);
  wk_packets : sw_packets (tc_send_window t) = drop j sent;
  wk_base : sw_send_base (tc_send_window t) = spos isn sent j;
  wk_j : (j ≤ length sent)%nat;
  wk_buffer : Buffer_capacity (tc_send_buffer t) < 2147483648;
}.

Lemma window_end isn sent j t : window_ok isn sent j t →
  sw_send_base (tc_send_window t) + sw_size (tc_send_window t) = isn + total_len sent.
Proof.
  intros [Hw Hpk Hbase _ _]. rewrite (swi_size _ Hw), Hpk, Hbase. unfold spos.
  rewrite <- (take_drop j sent) at 3. rewrite total_len_app. lia.
Qed.

(** What a round of [SendBufferListener] may change. *)
Definition send_frame t t' : Prop :=
  t' = t <| tc_send_buffer := tc_send_buffer t' |> <| tc_send_window := tc_send_window t' |>
         <| tc_pkt_send_buffer := tc_pkt_send_buffer t' |> <| tc_timer := tc_timer t' |>
         <| tc_prober_timer := tc_prober_timer t' |>.

(** A round of [SendBufferListener]: packets of data join the stream. *)
Lemma round_sends isn sent j t now : stream_ok isn sent → window_ok isn sent j t →
  isn + total_len sent + Buffer_size (tc_send_buffer t) < 4294967296 →
  ∃ ps t', TcpController_SendBufferListener_round now t = Ok t' ∧ send_frame t t' ∧
    Forall plain_segment ps ∧ stream_ok isn (sent ++ ps) ∧ window_ok isn (sent ++ ps) j t' ∧
    tc_pkt_send_buffer t' = (tc_pkt_send_buffer t) <| pq_packets :=
      pq_packets (tc_pkt_send_buffer t) ++ ps |> ∧
    Buffer_bytes (tc_send_buffer t) = (ps ≫= packet_bytes) ++ Buffer_bytes (tc_send_buffer t') ∧
    sw_capacity (tc_send_window t') = sw_capacity (tc_send_window t) ∧
    total_len (sent ++ ps) + Buffer_size (tc_send_buffer t') =
      total_len sent + Buffer_size (tc_send_buffer t) ∧
    total_len ps = Z.min (SendWindow_free_space (tc_send_window t)) (Buffer_size (tc_send_buffer t)) ∧
    (TimerLaws → (timer_inv t → timer_inv t') ∧
      (sw_capacity (tc_send_window t) = 0 → Timer_started (tc_prober_timer t') = true)).
Proof.
  intros Hst Hok Hend. pose proof Hok as [Hw Hpk Hbase Hj Hbuf].
  assert (0 <= Buffer_size (tc_send_buffer t)) as Hb0 by (rewrite Buffer_size_spec; lia).
  pose proof (swi_capacity _ Hw) as [Hc0 _]. pose proof (SendWindow_free_space_eq _ Hw) as Hfree.
  destruct (decide (sw_capacity (tc_send_window t) = 0)) as [Hz|Hnz].
  - exists []. assert (SendWindow_free_space (tc_send_window t) = 0) as Hf.
    { rewrite Hfree, Hz, (swi_size _ Hw). pose proof (contiguous_total _ _ (swi_contiguous _ Hw)). lia. }
    unfold TcpController_SendBufferListener_round. rewrite Hf, Hz. simpl.
    eexists. split; [done|]. rewrite !app_nil_r. rewrite total_len_nil.
    destruct (Timer_started (tc_prober_timer t)) eqn:Hs; simpl.
    + unfold send_frame; split_and!; try done; [by destruct t|by destruct (tc_pkt_send_buffer t)|lia].
    + unfold send_frame; split_and!; try done; [by destruct (tc_pkt_send_buffer t)|lia|].
      intros ?. split; [done|]. intros _. apply Timer_Restart_started.
  - assert (Buffer_size (tc_send_buffer t) < 2147483648) as Hsz.
    { rewrite Buffer_size_spec. pose proof (Buffer_bounded (tc_send_buffer t)). lia. }
    destruct (SendBufferListener_round_spec _ _ now t Hw ltac:(lia) Hsz) as (ps & t' & Hr & Hs & Hl).
    destruct (sent_total _ _ _ _ _ Hs Hw) as [_ Hb].
    pose proof Hs as [Hframe Hw' Hb' Hc' Hs' Hi' Hq' Hcap Hby Hsizes Hpl Htm' _].
    assert (contiguous isn (sent ++ ps)) as Hcont.
    { apply contiguous_app. split; [apply Hst|].
      pose proof (swi_contiguous _ Hi') as Hci. rewrite Hw', contiguous_app in Hci.
      destruct Hci as [_ Hci]. rewrite Hb' in Hci.
      pose proof (window_end _ _ _ _ Hok) as He. rewrite (swi_size _ Hw) in He. by rewrite He in Hci. }
    exists ps, t'. split; [done|]. split_and!; try done.
    + unfold send_frame. clear -Hframe. destruct t, t'; cbn in *. injection Hframe; intros; by subst.
    + destruct Hst as [Hi0 _ Hcp Hi1]. split; [done|done| |rewrite total_len_app; lia].
      apply Forall_app. split; [done|]. eapply Forall_impl; [exact Hpl|]. by intros p [].
    + split; [done| | | |by rewrite Hcap].
      * by rewrite Hw', Hpk, drop_app_le.
      * by rewrite Hb', Hbase, spos_app.
      * rewrite length_app. lia.
    + rewrite total_len_app. lia.
    + intros ?. split; [by apply Htm'|done].
Qed.

(** [SendFIN]: a FIN joins the stream, and goes to the network when the state allows. *)
Lemma fin_sends isn sent j t now t' : stream_ok isn sent → window_ok isn sent j t →
  isn + total_len sent + 1 < 4294967296 → tc_shutdown t = false →
  TcpController_SendFIN now t = Ok (Some t') →
  ∃ f w o s tm ft, t' = (TcpController_SendPacket o (t <| tc_send_window := w |>))
      <| tc_state := s |> <| tc_timer := tm |> <| tc_fin_timer := ft |> ∧
    Buffer_bytes (tc_send_buffer t) = [] ∧
    segment_of f = SegFin ∧ pkt_len f = 1 ∧ packet_bytes f = [] ∧
    stream_ok isn (sent ++ [f]) ∧ window_ok isn (sent ++ [f]) j t' ∧
    (o = Some f ∧ (tc_state t = ESTABLISHED ∧ s = FIN_WAIT_1 ∨ tc_state t = CLOSE_WAIT ∧ s = LAST_ACK) ∨
     o = None ∧ s = tc_state t ∧ s ≠ ESTABLISHED ∧ s ≠ CLOSE_WAIT).
Proof.
  intros Hst Hok Hend Hup. pose proof Hok as [Hw Hpk Hb Hj Hbuf]. pose proof (window_end _ _ _ _ Hok) as He.
  pose proof (contiguous_total _ _ (swi_contiguous _ Hw)) as Hs0. rewrite <- (swi_size _ Hw) in Hs0.
  destruct (spos_u32 isn sent j Hst Hj) as [Hp0 _]. rewrite <- Hb in Hp0.
  unfold TcpController_SendFIN, SendFIN_wait. rewrite Hup. simpl.
  destruct (Buffer_empty (tc_send_buffer t)) eqn:Hem; simpl; [|done]. apply Buffer_empty_spec in Hem.
  set (w1 := set_sw_capacity _ (tc_send_window t)). set (f := TcpController_MakeFinPacket _ t).
  assert (SendWindow_inv w1) as Hinv1 by (destruct Hw; split; try done; apply u32_range).
  assert (has_room w1 f = true) as Hroom.
  { unfold has_room. apply orb_true_iff. right. apply Z.leb_le.
    rewrite SendWindow_free_space_eq by done. simpl. rewrite u32_small by word_lia. lia. }
  rewrite (SendWindow_SendPacket_eq now f w1 Hinv1) by done.
  assert (pkt_seq f = SendWindow_NextSeqNumberToSend w1) as Hseq by done.
  rewrite Hroom, Hseq, Z.eqb_refl. cbn [andb mbind res_bind negb]. set (w2 := SendWindow_enqueue now f w1).
  assert (SendWindow_inv w2) as Hinv2 by (apply SendWindow_enqueue_inv; try done; simpl; lia).
  assert (sw_packets w2 = drop j (sent ++ [f])) as Hpk2.
  { unfold w2. rewrite sw_packets_enqueue, drop_app_le by done. by rewrite <- Hpk. }
  assert (stream_ok isn (sent ++ [f])) as Hst2.
  { destruct Hst as [Hi0 Hc Hcp Hi1].
    split; [done| |apply Forall_app; split; [done|by constructor]|
      rewrite total_len_app; change (total_len [f]) with 1; lia].
    apply contiguous_app. split; [done|]. unfold w1, w2 in *. split; [|done].
    rewrite Hseq. unfold SendWindow_NextSeqNumberToSend. simpl. by rewrite He. }
  assert (∀ t', tc_send_window t' = w2 → tc_send_buffer t' = tc_send_buffer t → window_ok isn (sent ++ [f]) j t') as Hok2.
  { intros t2 E1 E2. split; rewrite ?E1, ?E2; try done; [by rewrite spos_app|rewrite length_app; lia]. }
  destruct (tc_state t) eqn:Hs; intros [= <-]; exists f, w2;
    try (exists None, (tc_state t), (tc_timer t), (tc_fin_timer t);
         split; [clear; by destruct t|]; split_and!; try done; [by apply Hok2|right; by rewrite Hs]).
  - exists (Some f), FIN_WAIT_1. eexists _, _. split; [reflexivity|]. split_and!; try done; [by apply Hok2|].
    left. split; [done|by left].
  - exists (Some f), LAST_ACK. eexists _, _. split; [reflexivity|]. split_and!; try done; [by apply Hok2|].
    left. split; [done|by right].
Qed.

(** The retransmission timer. *)
Lemma timeout_resends isn sent j t : stream_ok isn sent → window_ok isn sent j t →
  ∃ w s1 s2 s3, TcpController_TimeoutReTransmitter t =
      (TcpController_SendPacket (sent !! j) (t <| tc_send_window := w |>))
        <| tc_ssthresh := s1 |> <| tc_cwnd := s2 |> <| tc_cc_state := s3 |> ∧
    SendWindow_inv w ∧ sw_packets w = drop j sent ∧
    sw_send_base w = sw_send_base (tc_send_window t) ∧ sw_capacity w = sw_capacity (tc_send_window t).
Proof.
  intros Hst [Hw Hpk Hbase Hj Hbuf]. unfold TcpController_TimeoutReTransmitter.
  pose proof (NumPacketsToAck_empty _ Hw) as He. rewrite Hpk in He.
  assert (0 <= SendWindow_NumPacketsToAck (tc_send_window t)) as Hn by apply u32_range.
  destruct (Z.ltb_spec 0 (SendWindow_NumPacketsToAck (tc_send_window t))) as [Hpos|Hz].
  - destruct (get_base isn sent j _ Hst Hw Hpk) as (w' & -> & Hw' & Hpk' & Hb' & Hc' & _).
    eexists w', _, _, _. split; [reflexivity|by split_and!].
  - assert (sent !! j = None) as ->.
    { assert (drop j sent = []) as Hd.
      { apply (bool_decide_eq_true (drop j sent = [])). rewrite <- He. apply Z.eqb_eq. lia. }
      apply lookup_ge_None. assert (length (drop j sent) = 0%nat) as Hl by by rewrite Hd.
      rewrite length_drop in Hl. lia. }
    eexists (tc_send_window t), _, _, _. split; [|by split_and!]. simpl. by destruct t.
Qed.

(** An acknowledgement moves the send base to the packet [m] it acknowledges, and may
    ask for that packet again. *)
Lemma ack_window isn sent R j m t p now g :
  stream_ok isn sent → window_ok isn sent j t → (j ≤ m ≤ length sent)%nat → ack_of isn sent R m p →
  match TcpController_HandleACK_window now g p t with
  | Fault f => f = BadConversion ∧ 2147483648 <= g
  | Ok (_, _, t') => ∃ w o tm pt, t' = (TcpController_SendPacket o (t <| tc_send_window := w |>))
        <| tc_timer := tm |> <| tc_prober_timer := pt |> ∧
      SendWindow_inv w ∧ sw_packets w = drop m sent ∧ sw_send_base w = spos isn sent m ∧
      sw_capacity w = window_size (tcp_header p) ∧ (o = None ∨ o = sent !! m) ∧
      (TimerLaws → timer_inv t')
  end.
Proof.
  intros Hst [Hw Hpk Hbase Hj Hbuf] Hm [_ Hnum Hwnd _]. unfold TcpController_HandleACK_window.
  rewrite Hnum. pose proof (window_acked isn sent j m _ now g Hst Hw Hpk Hbase Hm) as Hack.
  destruct (SendWindow_NewAckedPacket now _ _ g) as [[[r w] g']|f]; [|exact Hack].
  destruct Hack as (Hw1 & Hpk1 & Hbase1). cbn [mbind res_bind].
  set (t1 := if re_transmit r then _ else _).
  assert (∃ w1 o, t1 = TcpController_SendPacket o (t <| tc_send_window := w1 |>) ∧ SendWindow_inv w1 ∧
    sw_packets w1 = drop m sent ∧ sw_send_base w1 = spos isn sent m ∧ (o = None ∨ o = sent !! m))
    as (w1 & o & -> & Hw2 & Hpk2 & Hbase2 & Ho).
  { subst t1. destruct (re_transmit r).
    - destruct (get_base isn sent m w Hst Hw1 Hpk1) as (w1 & Hg & ? & ? & Hb1 & _).
      cbn [tc_send_window set set_tc_send_window]. rewrite Hg. exists w1, (sent !! m). rewrite Hb1.
      split_and!; try done. by right.
    - exists w, None. split_and!; try done. by left. }
  rewrite !SendPacket_frame.
  cbn [tc_send_window tc_pkt_send_buffer set set_tc_send_window set_tc_pkt_send_buffer].
  rewrite (NumPacketsToAck_empty w1 Hw2), Hpk2.
  pose proof (set_capacity_inv w1 (window_size (tcp_header p)) Hw2 ltac:(unfold is_u32; lia)) as Hw3.
  set (w3 := w1 <| sw_capacity := window_size (tcp_header p) |>) in *.
  destruct (bool_decide_reflect (drop m sent = [])) as [He|He];
    unfold TcpController_GetNewSendWindowSize; simpl; case_match;
    eexists w3, o, _, _; (split; [rewrite SendPacket_frame; reflexivity|]);
    (split; [exact Hw3|]); (split; [exact Hpk2|]); split_and!; try done; intros ? Hne;
    try apply Timer_RestartWith_started.
  all: destruct Hne; unfold sw_packets in *; simpl in *; congruence.
Qed.

(** ** The receiving end *)

(** [t] with what the receiver changes. *)
Definition with_recv (w : RecvWindow) (h : node_heap) (buf : Buffer) t : TcpController :=
  t <| tc_recv_window := w |> <| tc_recv_nodes := h |> <| tc_recv_buffer := buf |>.

(** A packet of the stream arrives: it is acknowledged, and what became contiguous
    goes to the socket buffer, which has room for it. *)
Lemma receive_streams isn sent A k rs t i p :
  stream_ok isn sent → recv_stream_inv isn sent A k rs →
  RecvWindow_rep (tc_recv_window t) (tc_recv_nodes t) rs → tc_overflow_pkts t = [] →
  sent !! i = Some p → ¬ queued A i →
  (∀ n, let run := take n (drop k sent) in
    Forall (λ q, is_sync q = false) run ∧ Forall data_packet (before_fin run) ∧
    total_len (before_fin run) <= Buffer_free_space (tc_recv_buffer t)) →
  ∃ k' w h buf rs', let run := take (k' - k) (drop k sent) in let t' := with_recv w h buf t in
    let t' := if has_fin run then t' <| tc_pipe_state := EOF_NOT_CONSUMED |> else t' in
    ('(ack_number, chain, t) ← TcpController_receive p t;
     t ← TcpController_StreamDataToReceiveBuffer chain t;
     Ok (TcpController_SendPacket (Some (TcpController_MakeAckPacket ack_number t)) t)) =
      Ok (TcpController_SendPacket (Some (TcpController_MakeAckPacket (spos isn sent k') t')) t') ∧
    (k ≤ k')%nat ∧ recv_stream_inv isn sent (A ∪ {[i]}) k' rs' ∧ RecvWindow_rep w h rs' ∧
    Buffer_bytes buf = Buffer_bytes (tc_recv_buffer t) ++ (before_fin run ≫= packet_bytes) ∧
    Buffer_free_space buf = Buffer_free_space (tc_recv_buffer t) - total_len (before_fin run).
Proof.
  intros [Hb Hc _ Hend] Hrs Hrep Hov Hi Hnq Hrun.
  destruct (recv_stream_step isn sent Hb Hc Hend A k rs i p Hrs Hi Hnq)
    as (k' & rs' & Hspec & Hk & Hrs').
  pose proof (ReceivePacket_refines p _ _ rs Hrep) as Href. rewrite Hspec in Href.
  destruct Href as (chain & w & h & Hrecv & Hrep' & Hch).
  destruct (Hrun (k' - k)%nat) as (Hsy & Hd & Hfits).
  unfold TcpController_receive. rewrite Hrecv. cbn [mbind res_bind].
  set (t1 := t <| tc_recv_window := w |> <| tc_recv_nodes := h |>).
  rewrite (StreamData_chain chain _ t1 Hch Hsy). cbn [mbind res_bind].
  assert (TcpController_PushOverflowedPacketsToSocketBuffer t1 = t1) as ->.
  { unfold TcpController_PushOverflowedPacketsToSocketBuffer. subst t1. destruct t; simpl in *.
    by subst. }
  destruct (stream_packets_fits _ _ _ t1 Hd Hfits) as (buf & -> & Hbytes & Hfree).
  exists k', w, h, buf, rs'. split; [done|]. by split_and!.
Qed.
End Stream.
