(* ===== verification/Transfer.v ===== *)
(** * A data transfer

    Two connections joined by a network: the sender's calls, listeners and timers,
    the receiver's, and the packets in between, which arrive late, out of order or
    not at all. What one end reads is what the other end wrote. *)
From S2P Require Import Prelude Interfaces Packet Keys PacketQueue SendWindow RecvWindow.
From S2P Require Import Tcp TcpRecv TcpSend TcpConn Stream.
From stdpp Require Import sorting.
Open Scope Z_scope.
Open Scope tcp_scope.

Section Transfer.
Context {SWO : StopWatchOps} {TMO : TimerOps} {BFO : BufferOps} {MNO : MinOps}.

(** ** The system

    [xf_a] sends, [xf_b] receives. [xf_data] are the segments on their way to the
    receiver, [xf_acks] the acknowledgements on their way back; the queues of the
    host and of [pkt_recv_buffer_] are parts of the way. [xf_written] and [xf_read]
    record what [WriteData] took and what [ReadData] gave. *)
Record transfer := MkTransfer {
  xf_a : TcpController;
  xf_b : TcpController;
  xf_data : list Packet;
  xf_acks : list Packet;
  xf_written : list Z;
  xf_read : list Z;
}.

Inductive xfer_action :=
  (** the sender *)
  | XWrite (buf : list Z) | XSend (now : Z) | XRetransmit | XProbe | XDataOut
  (** the receiver *)
  | XRead (size : Z) | XOverflow | XAckOut
  (** the network *)
  | XDataIn (now g : Z) (i : nat) | XAckIn (now g : Z) | XLoseData (i : nat) | XLoseAck.

(** The sequence number behind everything written so far, if it does not wrap. *)
Definition xf_end (s : transfer) : Z :=
  sw_send_base (tc_send_window (xf_a s)) + sw_size (tc_send_window (xf_a s)) +
  Buffer_size (tc_send_buffer (xf_a s)).

(** What an action does; [None] when it blocks or there is no such packet. Segments
    arrive in any order, acknowledgements in the order they were sent; both may
    be lost. The tolerance [g] is arbitrary at each arrival, since all
    connections of the program write to it. Sequence numbers do not wrap. *)
Definition xfer_do (act : xfer_action) (s : transfer) : res (option transfer) :=
  let '(MkTransfer a b data acks written read) := s in
  match act with
  | XWrite buf =>
      if 4294967296 <=? xf_end s + Z.of_nat (length buf) then Ok None
      else Ok ('(n, a) ← TcpController_WriteData buf a;
               Some (MkTransfer a b data acks (written ++ take (Z.to_nat n) buf) read))
  | XSend now =>
      a ← TcpController_SendBufferListener_round now a;
      Ok (Some (MkTransfer a b data acks written read))
  | XRetransmit =>
      Ok (Some (MkTransfer (TcpController_TimeoutReTransmitter a) b data acks written read))
  | XProbe => Ok (Some (MkTransfer (TcpController_ProbeWindowSize a) b data acks written read))
  | XDataOut =>
      Ok ('(pkts, a) ← TcpController_PacketSendBufferListener_round a;
          Some (MkTransfer a b (data ++ pkts) acks written read))
  | XRead size =>
      if (size <? 0) || (2147483648 <=? size) then Ok None
      else
        r ← TcpController_ReadData size b;
        Ok ('(_, bytes, b) ← r; Some (MkTransfer a b data acks written (read ++ bytes)))
  | XOverflow =>
      Ok (b ← TcpController_ReceiveBufferListener_round b;
          Some (MkTransfer a b data acks written read))
  | XAckOut =>
      Ok ('(pkts, b) ← TcpController_PacketSendBufferListener_round b;
          Some (MkTransfer a b data (acks ++ pkts) written read))
  | XDataIn now g i =>
      match data !! i with
      | None => Ok None
      | Some pkt =>
          '(_, b) ← TcpController_HandlePacket now g pkt b;
          Ok (Some (MkTransfer a b (delete i data) acks written read))
      end
  | XAckIn now g =>
      match acks with
      | [] => Ok None
      | pkt :: acks =>
          '(_, a) ← TcpController_HandlePacket now g pkt a;
          Ok (Some (MkTransfer a b data acks written read))
      end
  | XLoseData i =>
      Ok (_ ← data !! i; Some (MkTransfer a b (delete i data) acks written read))
  | XLoseAck =>
      Ok (match acks with [] => None | _ :: acks => Some (MkTransfer a b data acks written read) end)
  end.

(** A run: each action is allowed by [ok] when it is taken. *)
Fixpoint xfer_run (ok : xfer_action → transfer → bool) (acts : list xfer_action) (s : transfer)
    : res (option transfer) :=
  match acts with
  | [] => Ok (Some s)
  | act :: acts =>
      if ok act s then
        r ← xfer_do act s;
        match r with None => Ok None | Some s => xfer_run ok acts s end
      else Ok None
  end.

Definition anything (_ : xfer_action) (_ : transfer) : bool := true.

(** Nothing is lost or written any more, a listener takes its round only when its
    waits are over, a timer fires only when it runs, and the tolerance is that
    of a program which has just received a new acknowledgement. *)
Definition fair (act : xfer_action) (s : transfer) : bool :=
  match act with
  | XWrite _ | XLoseData _ | XLoseAck => false
  | XSend _ => SendBufferListener_state_wait (xf_a s) && SendBufferListener_window_wait (xf_a s) &&
      SendBufferListener_buffer_wait (xf_a s)
  | XRetransmit => Timer_started (tc_timer (xf_a s))
  | XProbe => Timer_started (tc_prober_timer (xf_a s))
  | XDataIn _ g _ | XAckIn _ g => g =? kMaxDuplicatedAcksOrigin
  | _ => true
  end.

(** ** The invariant *)

Context {Buffer_bytes : Buffer → list Z} {Buffer_capacity : Buffer → Z}.
Context {BFL : BufferLaws Buffer_bytes Buffer_capacity} {MNL : MinLaws} {TML : TimerLaws}.
Implicit Types (a b : TcpController) (sent F G : list Packet) (A : gset nat) (isn R : Z).

(** The packets of a transfer, which carry data. *)
Record plain_stream (isn : Z) sent : Prop := {
  pst_ok :> stream_ok isn sent;
  pst_plain : Forall plain_segment sent;
}.

(** The sender: the first [j] packets of [sent] are acknowledged. *)
Record sender_ok (isn : Z) sent (j : nat) a : Prop := {
  sk_window : SendWindow_inv (tc_send_window a);
  sk_packets : sw_packets (tc_send_window a) = drop j sent;
  sk_base : sw_send_base (tc_send_window a) = spos isn sent j;
  sk_j : (j ≤ length sent)%nat;
  sk_state : tc_state a = ESTABLISHED;
  sk_up : tc_shutdown a = false;
  sk_queue : pq_destroy (tc_pkt_send_buffer a) = false;
  sk_buffer : Buffer_capacity (tc_send_buffer a) < 2147483648;
  sk_timer : timer_inv a;
}.

(** The receiver: the packets of [A] arrived, the first [k] were delivered. *)
Record receiver_ok (isn : Z) sent A (k : nat) b : Prop := {
  rk_window : ∃ rs, recv_stream_inv isn sent A k rs ∧
    RecvWindow_rep (tc_recv_window b) (tc_recv_nodes b) rs;
  rk_up : tc_shutdown b = false;
  rk_queue : pq_destroy (tc_pkt_send_buffer b) = false;
  rk_overflow : tc_overflow_pkts b = [];
  rk_pipe : tc_pipe_state b = OPEN;
}.

(** The end of what the receiver has room for. *)
Definition xfer_limit (isn : Z) sent (k : nat) (s : transfer) : Z :=
  spos isn sent k + Buffer_free_space (tc_recv_buffer (xf_b s)).

Record xfer_inv (isn : Z) sent A (j k : nat) (s : transfer) : Prop := {
  xi_stream : plain_stream isn sent;
  xi_end : isn + total_len sent + Buffer_size (tc_send_buffer (xf_a s)) < 4294967296;
  xi_sender : sender_ok isn sent j (xf_a s);
  xi_receiver : receiver_ok isn sent A k (xf_b s);
  xi_flight : flight_ok sent A k (xf_data s ++ pq_packets (tc_pkt_send_buffer (xf_a s)));
  xi_acks : acks_ok isn sent (xfer_limit isn sent k s) j k
    (xf_acks s ++ pq_packets (tc_pkt_send_buffer (xf_b s)));
  xi_window : sw_send_base (tc_send_window (xf_a s)) + sw_capacity (tc_send_window (xf_a s)) <=
    xfer_limit isn sent k s;
  xi_fits : isn + total_len sent <= xfer_limit isn sent k s;
  xi_written : xf_written s = (sent ≫= packet_bytes) ++ Buffer_bytes (tc_send_buffer (xf_a s));
  xi_read : xf_read s ++ Buffer_bytes (tc_recv_buffer (xf_b s)) = take k sent ≫= packet_bytes;
}.

(** *** The receiver *)

Lemma stream_plain isn sent i p : plain_stream isn sent → sent !! i = Some p → plain_segment p.
Proof. intros [_ Hp] Hi. rewrite Forall_forall in Hp. by eapply Hp, list_elem_of_lookup_2. Qed.

Lemma recv_base_spos isn sent A k b : receiver_ok isn sent A k b →
  rw_recv_base (tc_recv_window b) = spos isn sent k.
Proof. intros [(rs & [_ <- _ _ _] & (ns & [-> _ _ _ _])) _ _ _ _]. done. Qed.

Lemma stream_run isn sent k n : plain_stream isn sent →
  let run := take n (drop k sent) in
  Forall (λ q, is_sync q = false) run ∧ before_fin run = run ∧ has_fin run = false ∧
  Forall data_packet run.
Proof.
  intros [_ Hp] run.
  assert (Forall plain_segment run) as Hrun by by apply Forall_take, Forall_drop.
  clearbody run. clear Hp. induction Hrun as [|p run [Hd Hs Hf _ _ _] _ (IH1 & IH2 & IH3 & IH4)]; [done|].
  simpl. unfold is_fin in *. rewrite Hf, IH2, IH3. split_and!; [by constructor|done|done|by constructor].
Qed.

(** A packet of the stream arrives: it is acknowledged, and what became
    contiguous goes to the socket buffer. *)
Lemma receive_data isn sent A k b i p now g :
  plain_stream isn sent → receiver_ok isn sent A k b → sent !! i = Some p → ¬ queued A i →
  isn + total_len sent <= spos isn sent k + Buffer_free_space (tc_recv_buffer b) →
  ∃ k' w h buf, let b' := with_recv w h buf b in
    TcpController_HandlePacket now g p b = Ok (g, TcpController_SendPacket
      (Some (TcpController_MakeAckPacket (spos isn sent k') b')) b') ∧
    (k ≤ k')%nat ∧ receiver_ok isn sent (A ∪ {[i]}) k' b' ∧
    Buffer_bytes buf = Buffer_bytes (tc_recv_buffer b) ++
      (take (k' - k) (drop k sent) ≫= packet_bytes) ∧
    spos isn sent k' + Buffer_free_space buf =
      spos isn sent k + Buffer_free_space (tc_recv_buffer b).
Proof.
  intros Hst [(rs & Hrs & Hrep) Hup Hq Hov Hpipe] Hi Hnq Hfits.
  pose proof (stream_plain _ _ _ _ Hst Hi) as Hpl.
  destruct (receive_streams isn sent A k rs b i p (pst_ok _ _ Hst) Hrs Hrep Hov Hi Hnq)
    as (k' & w & h & buf & rs' & Hr & Hk & Hrs' & Hrep' & Hby & Hfree).
  { intros n. destruct (stream_run isn sent k n Hst) as (Hs & Hbf & _ & Hd). cbv zeta. rewrite Hbf.
    split_and!; [done|done|].
    assert (0 <= total_len (drop n (drop k sent))).
    { apply data_total_nonneg. destruct Hst as [_ Hst].
      eapply Forall_impl; [by do 2 apply Forall_drop|]. by intros q []. }
    unfold spos in Hfits. rewrite <- (take_drop k sent) in Hfits at 1. rewrite total_len_app in Hfits.
    rewrite <- (take_drop n (drop k sent)) in Hfits. rewrite total_len_app in Hfits. lia. }
  destruct (stream_run isn sent k (k' - k) Hst) as (_ & Hbf & Hnf & _). rewrite Hbf, Hnf in *.
  rewrite HandlePacket_dispatch, (plain_segment_of p Hpl). unfold TcpController_HandleDataPacket.
  assert ((payload_size p =? 0) = false) as -> by (destruct Hpl as [[_ ?] _ _ _ _ _]; lia).
  rewrite Hr. exists k', w, h, buf. split; [done|]. split; [done|]. pose proof (spos_run isn sent k k' Hk).
  split; [split; [by exists rs'|done..]|split; [done|lia]].
Qed.
(** *** The sender *)

#[local] Abbreviation window_ok := (window_ok (Buffer_capacity := Buffer_capacity)).

Lemma sender_window isn sent j a : sender_ok isn sent j a → window_ok isn sent j a.
Proof. intros []. by split. Qed.

(** An acknowledgement arrives. *)
Lemma receive_ack isn sent R j m a p now g :
  stream_ok isn sent → sender_ok isn sent j a → (j ≤ m ≤ length sent)%nat → ack_of isn sent R m p →
  match TcpController_HandlePacket now g p a with
  | Fault f => f = BadConversion ∧ 2147483648 <= g
  | Ok (_, a') => sender_ok isn sent m a' ∧ tc_send_buffer a' = tc_send_buffer a ∧
      sw_capacity (tc_send_window a') = window_size (tcp_header p) ∧
      ∃ o, pq_packets (tc_pkt_send_buffer a') = pq_packets (tc_pkt_send_buffer a) ++ option_list o ∧
        (o = None ∨ o = sent !! m)
  end.
Proof.
  intros Hst Hsk Hm Ha. rewrite HandlePacket_dispatch, (ao_segment _ _ _ _ _ Ha). unfold TcpController_HandleACK.
  pose proof (ack_window isn sent R j m a p now g Hst (sender_window _ _ _ _ Hsk) Hm Ha) as Hr.
  destruct (TcpController_HandleACK_window now g p a) as [[[g' e] a']|f]; [|exact Hr].
  destruct Hr as (w & o & tm & pt & -> & Hw & Hpk & Hb & Hc & Ho & Htm). cbn [mbind res_bind].
  pose proof Hsk as [_ _ _ _ Hes Hup Hq Hbuf _]. rewrite SendPacket_frame in *. unfold TcpController_HandleACK_state.
  cbn [tc_state set set_tc_prober_timer set_tc_timer set_tc_pkt_send_buffer set_tc_send_window]. rewrite Hes.
  split; [|split; [done|split; [done|by exists o]]]. split; try done; [apply Hm|by apply Htm].
Qed.
Lemma sender_send_packet isn sent j a o :
  sender_ok isn sent j a → sender_ok isn sent j (TcpController_SendPacket o a).
Proof. intros []. rewrite SendPacket_frame. by split. Qed.

Lemma sender_retransmit isn sent j a : stream_ok isn sent → sender_ok isn sent j a →
  let a' := TcpController_TimeoutReTransmitter a in
  sender_ok isn sent j a' ∧ tc_send_buffer a' = tc_send_buffer a ∧
  sw_capacity (tc_send_window a') = sw_capacity (tc_send_window a) ∧
  pq_packets (tc_pkt_send_buffer a') = pq_packets (tc_pkt_send_buffer a) ++ option_list (sent !! j).
Proof.
  intros Hst Hsk. destruct (timeout_resends isn sent j a Hst (sender_window _ _ _ _ Hsk))
    as (w & s1 & s2 & s3 & -> & Hw & Hpk & Hb & Hc).
  destruct Hsk as [_ Hpk0 Hb0 Hj Hes Hup Hq Hbuf Htm]. rewrite SendPacket_frame. split_and!; [|done..].
  split; simpl; try done; [by rewrite Hb|]. intros Hne. apply Htm. simpl in Hne. by rewrite Hpk0, <- Hpk.
Qed.

Lemma sender_probe isn sent j a : sender_ok isn sent j a →
  ∃ o, TcpController_ProbeWindowSize a = TcpController_SendPacket o a ∧
    match o with
    | Some p => carries sent None p
    | None => sw_capacity (tc_send_window a) ≠ 0
    end.
Proof.
  intros _. unfold TcpController_ProbeWindowSize.
  destruct (Z.eqb_spec (sw_capacity (tc_send_window a)) 0) as [Hc|Hc].
  - by eexists (Some _).
  - by exists None.
Qed.

Lemma sender_end isn sent j a : sender_ok isn sent j a →
  sw_send_base (tc_send_window a) + sw_size (tc_send_window a) = isn + total_len sent.
Proof.
  intros [Hw Hpk Hbase _ _ _ _ _ _]. rewrite (swi_size _ Hw), Hpk, Hbase. unfold spos.
  rewrite <- (take_drop j sent) at 3. rewrite total_len_app. lia.
Qed.

(** A round of [SendBufferListener]. *)
Lemma sender_round isn sent j a now : plain_stream isn sent → sender_ok isn sent j a →
  isn + total_len sent + Buffer_size (tc_send_buffer a) < 4294967296 →
  ∃ ps a', TcpController_SendBufferListener_round now a = Ok a' ∧
    plain_stream isn (sent ++ ps) ∧ sender_ok isn (sent ++ ps) j a' ∧
    pq_packets (tc_pkt_send_buffer a') = pq_packets (tc_pkt_send_buffer a) ++ ps ∧
    Buffer_bytes (tc_send_buffer a) = (ps ≫= packet_bytes) ++ Buffer_bytes (tc_send_buffer a') ∧
    sw_send_base (tc_send_window a') = sw_send_base (tc_send_window a) ∧
    sw_capacity (tc_send_window a') = sw_capacity (tc_send_window a) ∧
    isn + total_len (sent ++ ps) + Buffer_size (tc_send_buffer a') =
      isn + total_len sent + Buffer_size (tc_send_buffer a) ∧
    total_len ps = Z.min (SendWindow_free_space (tc_send_window a)) (Buffer_size (tc_send_buffer a)) ∧
    (sw_capacity (tc_send_window a) = 0 → Timer_started (tc_prober_timer a') = true).
Proof.
  intros [Hst Hpl] Hsk Hend. pose proof Hsk as [_ _ Hb Hj Hes Hup Hq _ Htm].
  destruct (round_sends isn sent j a now Hst (sender_window _ _ _ _ Hsk) Hend)
    as (ps & a' & Hr & Hf & Hps & Hst' & Hok & Hq' & Hby & Hc & He & Hl & Ht).
  destruct (Ht _) as [Htm' Hpr]. destruct Hok as [Hw' Hpk' Hb' Hj' Hbuf'].
  exists ps, a'. split; [done|]. split_and!; try done.
  - split; [done|by apply Forall_app].
  - split; try done; [by rewrite Hf..|by rewrite Hq'|by apply Htm'].
  - by rewrite Hq'.
  - by rewrite Hb', Hb, spos_app.
  - lia.
Qed.
End Transfer.
