(* ===== verification/TransferInv.v ===== *)
(** * A data transfer is safe

    Every action of [Transfer] keeps the invariant; the handshake establishes it. *)
From S2P Require Import Prelude Interfaces Packet Keys PacketQueue SendWindow RecvWindow.
From S2P Require Import Tcp TcpRecv TcpSend TcpConn Connection Stream Transfer.
From stdpp Require Import sorting.
Open Scope Z_scope.
Open Scope tcp_scope.

Section Transfer.
Context {SWO : StopWatchOps} {TMO : TimerOps} {BFO : BufferOps} {MNO : MinOps}.
Context {Buffer_bytes : Buffer → list Z} {Buffer_capacity : Buffer → Z}.
Context {BFL : BufferLaws Buffer_bytes Buffer_capacity} {MNL : MinLaws} {TML : TimerLaws}.
Implicit Types (a b : TcpController) (sent F G : list Packet) (A : gset nat) (R : Z).

#[local] Abbreviation sender_ok := (sender_ok (Buffer_capacity := Buffer_capacity)).
#[local] Abbreviation xfer_inv :=
  (xfer_inv (Buffer_bytes := Buffer_bytes) (Buffer_capacity := Buffer_capacity)).

(** ** Every action *)

Section actions.
Context (isn : Z) (sent : list Packet) (A : gset nat) (j k : nat).
Context (a b : TcpController) (data acks : list Packet) (written read : list Z).
Let s : transfer := MkTransfer a b data acks written read.
Hypothesis Hinv : xfer_inv isn sent A j k s.

Lemma step_write buf s' : xfer_do (XWrite buf) s = Ok (Some s') → xfer_inv isn sent A j k s'.
Proof.
  destruct Hinv as [Hst Hend Hsk Hrk Hfl Hak Hwin Hfit Hwr Hrd]. pose proof Hsk as [Hw Hpk Hbase Hj Hes Hup Hq Hbuf Htm].
  unfold xfer_do. subst s. simpl in *. case_match eqn:Hlim; [done|]. apply Z.leb_gt in Hlim.
  unfold xf_end in Hlim. simpl in Hlim. rewrite (sender_end _ _ _ _ Hsk) in Hlim.
  unfold TcpController_WriteData. rewrite Hes, Hup. simpl.
  destruct (WriteData_wait a); simpl; [|done].
  destruct (Buffer_Write buf (tc_send_buffer a)) as [n buf'] eqn:Hbw. simpl. intros [= <-].
  destruct (Buffer_Write_spec _ _ _ _ Hbw) as (Hn & Hby & Hcap).
  pose proof (Buffer_bounded (tc_send_buffer a)) as Hbd.
  rewrite Buffer_free_space_spec in Hn. rewrite i32_small by word_lia.
  split; simpl; try done.
  - rewrite !Buffer_size_spec in *. rewrite Hby, length_app, length_take. lia.
  - split; simpl; try done. by rewrite Hcap.
  - by rewrite Hwr, Hby, app_assoc.
Qed.

Lemma step_send now : ∃ ps a', xfer_do (XSend now) s = Ok (Some (MkTransfer a' b data acks written read)) ∧
  xfer_inv isn (sent ++ ps) A j k (MkTransfer a' b data acks written read) ∧
  Buffer_bytes (tc_send_buffer a) = (ps ≫= packet_bytes) ++ Buffer_bytes (tc_send_buffer a') ∧
  total_len ps = Z.min (SendWindow_free_space (tc_send_window a)) (Buffer_size (tc_send_buffer a)) ∧
  sw_capacity (tc_send_window a') = sw_capacity (tc_send_window a) ∧
  (sw_capacity (tc_send_window a) = 0 → Timer_started (tc_prober_timer a') = true).
Proof.
  destruct Hinv as [Hst Hend Hsk Hrk Hfl Hak Hwin Hfit Hwr Hrd]. subst s. simpl in *.
  destruct (sender_round isn sent j a now Hst Hsk Hend)
    as (ps & a' & Hr & Hst' & Hsk' & Hq & Hby & Hb & Hc & He & Hl & Hpr).
  pose proof Hrk as [(rs & Hrs & Hrep) Hup Hqd Hov Hpipe]. pose proof (rsi_k _ _ _ _ _ Hrs) as Hk.
  exists ps, a'. rewrite Hr. cbn [mbind res_bind]. split; [done|]. split; [|done].
  split; simpl; try done.
  - lia.
  - split; try done. exists rs. split; [by apply recv_stream_more|done].
  - rewrite Hq, app_assoc. apply flight_new; [done|done|]. intros i. by eapply recv_stream_bound.
  - unfold xfer_limit in *. simpl in *. rewrite spos_app by done. by apply acks_more.
  - unfold xfer_limit in *. simpl in *. by rewrite Hb, Hc, spos_app.
  - unfold xfer_limit in *. simpl in *. rewrite spos_app by done. rewrite total_len_app, Hl.
    rewrite SendWindow_free_space_eq by apply Hsk. pose proof (sender_end _ _ _ _ Hsk). lia.
  - by rewrite Hwr, Hby, bind_app, app_assoc.
  - by rewrite Hrd, take_app_le.
Qed.

Lemma step_retransmit : let a' := TcpController_TimeoutReTransmitter a in
  xfer_inv isn sent A j k (MkTransfer a' b data acks written read) ∧
  tc_send_buffer a' = tc_send_buffer a ∧
  pq_packets (tc_pkt_send_buffer a') = pq_packets (tc_pkt_send_buffer a) ++ option_list (sent !! j).
Proof.
  destruct Hinv as [Hst Hend Hsk Hrk Hfl Hak Hwin Hfit Hwr Hrd]. intros a'. subst s.
  destruct (sender_retransmit isn sent j a (pst_ok _ _ Hst) Hsk) as (Hsk' & Hsb & Hc & Hq).
  fold a' in Hsk', Hsb, Hc, Hq. clearbody a'. split; [|done]. simpl in *.
  pose proof Hsk as [_ _ Hb _ _ _ _ _ _]. pose proof Hsk' as [_ _ Hb' _ _ _ _ _ _].
  split; simpl; try done; [by rewrite Hsb| |by rewrite Hb', Hc, <- Hb|by rewrite Hsb].
  rewrite Hq, app_assoc. destruct (sent !! j) as [p|] eqn:Hp; simpl; [|by rewrite app_nil_r].
  apply (flight_old _ _ _ _ _ (Some j)); [done|done|]. intros i [= <-]. by eapply acks_jk.
Qed.

Lemma step_probe : ∃ o, TcpController_ProbeWindowSize a = TcpController_SendPacket o a ∧
  match o with
  | Some p => carries sent None p
  | None => sw_capacity (tc_send_window a) ≠ 0
  end ∧ xfer_inv isn sent A j k (MkTransfer (TcpController_SendPacket o a) b data acks written read).
Proof.
  destruct Hinv as [Hst Hend Hsk Hrk Hfl Hak Hwin Hfit Hwr Hrd]. subst s. simpl in *.
  destruct (sender_probe isn sent j a Hsk) as (o & Ho & Hp). exists o. split_and!; [done|done|].
  pose proof (sender_send_packet isn sent j a o Hsk) as Hsk'. rewrite SendPacket_frame in Hsk' |- *.
  split; simpl; try done. rewrite app_assoc.
  destruct o as [p|]; simpl; [|by rewrite app_nil_r]. by apply (flight_old _ _ _ _ _ None).
Qed.

(** The queues to the network. *)
Lemma step_data_out :
  let a' := a <| tc_pkt_send_buffer := (tc_pkt_send_buffer a) <| pq_packets := [] |> |> in
  xfer_inv isn sent A j k
    (MkTransfer a' b (data ++ pq_packets (tc_pkt_send_buffer a)) acks written read).
Proof.
  destruct Hinv as [Hst Hend Hsk Hrk Hfl Hak Hwin Hfit Hwr Hrd]. subst s. simpl in *.
  split; simpl; try done; [by destruct Hsk; split|]. by rewrite app_nil_r.
Qed.

Lemma step_ack_out :
  let b' := b <| tc_pkt_send_buffer := (tc_pkt_send_buffer b) <| pq_packets := [] |> |> in
  xfer_inv isn sent A j k
    (MkTransfer a b' data (acks ++ pq_packets (tc_pkt_send_buffer b)) written read).
Proof.
  destruct Hinv as [Hst Hend Hsk Hrk Hfl Hak Hwin Hfit Hwr Hrd]. subst s. simpl in *.
  split; simpl; try done; [by destruct Hrk; split|]. by rewrite app_nil_r.
Qed.

(** Losses. *)
Lemma step_lose_data i p : data !! i = Some p →
  xfer_inv isn sent A j k (MkTransfer a b (delete i data) acks written read).
Proof.
  destruct Hinv as [Hst Hend Hsk Hrk Hfl Hak Hwin Hfit Hwr Hrd]. subst s. simpl in *. intros Hp.
  split; simpl; try done. rewrite delete_take_drop. rewrite <- (take_drop_middle data i p Hp) in Hfl.
  rewrite <- app_assoc in *. by eapply flight_take.
Qed.

Lemma step_lose_ack p acks' : acks = p :: acks' →
  xfer_inv isn sent A j k (MkTransfer a b data acks' written read).
Proof.
  destruct Hinv as [Hst Hend Hsk Hrk Hfl Hak Hwin Hfit Hwr Hrd]. subst s. simpl in *. intros ->.
  split; simpl; try done. by eapply acks_cons.
Qed.

(** The reader makes room. *)
Lemma step_read size r bytes b' : 0 <= size < 2147483648 →
  TcpController_ReadData size b = Ok (Some (r, bytes, b')) →
  xfer_inv isn sent A j k (MkTransfer a b' data acks written (read ++ bytes)) ∧
  bytes = take (Z.to_nat size) (Buffer_bytes (tc_recv_buffer b)) ∧
  tc_pkt_send_buffer b' = tc_pkt_send_buffer b ∧
  Buffer_capacity (tc_recv_buffer b') = Buffer_capacity (tc_recv_buffer b).
Proof.
  destruct Hinv as [Hst Hend Hsk Hrk Hfl Hak Hwin Hfit Hwr Hrd]. subst s. simpl in *. intros Hsize.
  pose proof Hrk as [Hrw Hup Hq Hov Hpipe].
  unfold TcpController_ReadData. rewrite Hpipe, Hup. simpl. destruct (ReadData_wait b); simpl; [|done].
  destruct (Buffer_empty (tc_recv_buffer b)) eqn:He; simpl.
  { intros [= <- <- <-]. apply Buffer_empty_spec in He. rewrite He, take_nil, app_nil_r. by split_and!. }
  destruct (Buffer_Read size (tc_recv_buffer b)) as [bs buf] eqn:Hr. intros [= <- <- <-].
  destruct (Buffer_Read_spec _ _ _ _ (proj1 Hsize) Hr) as (Hbs & Hby & Hcap). split; [|done].
  assert (Buffer_free_space (tc_recv_buffer b) <= Buffer_free_space buf) as Hfree.
  { rewrite !Buffer_free_space_spec, Hcap, Hby, length_drop. lia. }
  split; simpl; try done; unfold xfer_limit in *; simpl in *; try lia.
  - eapply acks_later; [exact Hak|done|lia].
  - by rewrite Hby, Hbs, <- app_assoc, take_drop.
Qed.

(** Nothing has overflowed. *)
Lemma step_overflow b' : TcpController_ReceiveBufferListener_round b = Some b' → b' = b.
Proof.
  destruct (xi_receiver _ _ _ _ _ _ Hinv) as [_ Hup _ Hov _]. subst s. simpl in *.
  unfold TcpController_ReceiveBufferListener_round. rewrite Hup. case_match; [|done].
  intros [= <-]. unfold TcpController_PushOverflowedPacketsToSocketBuffer. rewrite Hov. simpl.
  destruct b; simpl in *. by subst.
Qed.

(** A segment arrives, up to the acknowledgement: [b1] is the receiver before it
    queues it. *)
Lemma segment_arrives now g i p : data !! i = Some p →
  ∃ A' k' b1, TcpController_HandlePacket now g p b =
      Ok (g, TcpController_SendPacket (Some (TcpController_MakeAckPacket (spos isn sent k') b1)) b1) ∧
    (k ≤ k')%nat ∧ (sent !! k = Some p → (k < k')%nat) ∧ receiver_ok isn sent A' k' b1 ∧
    flight_ok sent A' k' (delete i data ++ pq_packets (tc_pkt_send_buffer a)) ∧
    tc_pkt_send_buffer b1 = tc_pkt_send_buffer b ∧
    Buffer_bytes (tc_recv_buffer b1) =
      Buffer_bytes (tc_recv_buffer b) ++ (take (k' - k) (drop k sent) ≫= packet_bytes) ∧
    spos isn sent k' + Buffer_free_space (tc_recv_buffer b1) = xfer_limit isn sent k s ∧
    (payload_size p = 0 → tc_recv_buffer b1 = tc_recv_buffer b).
Proof.
  intros Hp. destruct Hinv as [Hst Hend Hsk Hrk Hfl Hak Hwin Hfit Hwr Hrd]. subst s.
  unfold xfer_limit in *. simpl in *.
  rewrite <- (take_drop_middle data i p Hp), <- app_assoc in Hfl. simpl in Hfl.
  pose proof Hrk as [(rs & Hrs & Hrep) _ _ _ _].
  destruct (flight_arrive _ _ _ _ _ _ _ _ Hrs Hfl) as (o & Ho & Hnq).
  apply flight_take in Hfl. rewrite delete_take_drop, <- app_assoc. destruct o as [n|]; simpl in Ho.
  - destruct Hnq as [Hnq Hfl'].
    destruct (receive_data isn sent A k b n p now g Hst Hrk Ho Hnq Hfit)
      as (k' & w & h & buf & Hh & Hk & Hrk' & Hby & Hfree).
    pose proof (stream_plain _ _ _ _ Hst Ho) as [[_ Hpos] _ _ _ _ _].
    exists (A ∪ {[n]}), k', (with_recv w h buf b). split_and!; try done; [|by apply Hfl'|lia].
    intros Hkp. destruct (decide (n = k)) as [->|Hne].
    + destruct Hrk' as [(rs' & [_ _ _ Hm _] & _) _ _ _ _].
      destruct (decide (k' = k)) as [->|]; [set_solver|lia].
    + destruct Hne. by eapply stream_inj; [apply Hst|..].
  - exists A, k, b. destruct Ho as [Hseg Hz]. rewrite (receive_probe now g p b Hseg Hz).
    rewrite (recv_base_spos _ _ _ _ _ Hrk), Nat.sub_diag, take_0. simpl. rewrite app_nil_r.
    split_and!; try done. intros Hkp. exfalso. pose proof (stream_plain _ _ _ _ Hst Hkp) as [[_ Hpos] _ _ _ _ _]. lia.
Qed.

Lemma step_data_in now g i p : data !! i = Some p →
  ∃ A' k' b' p', TcpController_HandlePacket now g p b = Ok (g, b') ∧
    xfer_inv isn sent A' j k' (MkTransfer a b' (delete i data) acks written read) ∧
    (k ≤ k')%nat ∧ (sent !! k = Some p → (k < k')%nat) ∧
    pq_packets (tc_pkt_send_buffer b') = pq_packets (tc_pkt_send_buffer b) ++ [p'] ∧
    Buffer_capacity (tc_recv_buffer b') = Buffer_capacity (tc_recv_buffer b) ∧
    window_size (tcp_header p') = u16 (Buffer_free_space (tc_recv_buffer b')) ∧
    ack_num (tcp_header p') = spos isn sent k' ∧
    (payload_size p = 0 → tc_recv_buffer b' = tc_recv_buffer b).
Proof.
  intros Hp. destruct (segment_arrives now g i p Hp)
    as (A' & k' & b1 & Hh & Hk & Hkp & Hrk' & Hfl' & Hq & Hby & Hlim & Hz).
  destruct Hinv as [Hst Hend Hsk Hrk Hfl Hak Hwin Hfit Hwr Hrd]. subst s.
  unfold xfer_limit in *. simpl in *. set (p' := TcpController_MakeAckPacket (spos isn sent k') b1) in *.
  exists A', k'. eexists _, p'. split; [exact Hh|].
  assert (Buffer_capacity (tc_recv_buffer b1) = Buffer_capacity (tc_recv_buffer b)) as Hcap.
  { rewrite !Buffer_free_space_spec, Hby, length_app, (spos_run isn sent k k' Hk) in Hlim.
    destruct (stream_run isn sent k (k' - k) Hst) as (_ & _ & _ & Hd).
    pose proof (bytes_total _ Hd). lia. }
  split; [|split_and!; try done; simpl; by rewrite Hq].
  split; simpl; try done; unfold xfer_limit; simpl; [by destruct Hrk'; split| |lia|lia|].
  - rewrite Hlim, app_assoc, Hq. apply acks_snoc.
    + by eapply acks_later.
    + apply made_ack; [done|lia].
  - rewrite Hby, app_assoc, Hrd, <- bind_app. f_equal.
    replace k' with (k + (k' - k))%nat at 2 by lia. by rewrite take_take_drop.
Qed.

(** An acknowledgement arrives. *)
Lemma step_ack_in now g p acks' : acks = p :: acks' →
  match TcpController_HandlePacket now g p a with
  | Fault f => f = BadConversion ∧ 2147483648 <= g
  | Ok (_, a') => ∃ m,
      xfer_inv isn sent A m k (MkTransfer a' b data acks' written read) ∧ (j ≤ m)%nat ∧
      ack_num (tcp_header p) = spos isn sent m ∧ tc_send_buffer a' = tc_send_buffer a ∧
      sw_capacity (tc_send_window a') = window_size (tcp_header p)
  end.
Proof.
  destruct Hinv as [Hst Hend Hsk Hrk Hfl Hak Hwin Hfit Hwr Hrd]. subst s.
  unfold xfer_limit in *. simpl in *. intros ->. simpl in Hak.
  destruct (acks_cons _ _ _ _ _ _ _ Hak) as (_ & m & Hjm & Hp & Hak').
  pose proof (acks_jk _ _ _ _ _ _ Hak') as Hmk.
  assert (k ≤ length sent)%nat as Hk by (destruct Hrk as [(rs & [? _ _ _ _] & _) _ _ _ _]; done).
  pose proof (receive_ack isn sent _ j m a p now g Hst Hsk ltac:(lia) Hp) as Hr.
  destruct (TcpController_HandlePacket now g p a) as [[g' a']|f]; [|done].
  destruct Hr as (Hsk' & Hsb & Hcap & o & Hq & Ho).
  exists m. split; [|split_and!; [done|apply Hp|done|done]].
  split; simpl; try done; [by rewrite Hsb| | |by rewrite Hsb].
  - rewrite Hq, app_assoc. destruct o as [q|]; simpl; [|by rewrite app_nil_r].
    destruct Ho as [|Ho]; [done|]. apply (flight_old _ _ _ _ _ (Some m)); [done|by simpl; rewrite <- Ho|].
    by intros i [= <-].
  - rewrite (sk_base _ _ _ _ Hsk'), Hcap. apply Hp.
Qed.
End actions.

(** The invariant, with the space [C] of the receiver's buffer. *)
Definition xfer_ok (isn C : Z) (s : transfer) : Prop :=
  Buffer_capacity (tc_recv_buffer (xf_b s)) = C ∧ ∃ sent A j k, xfer_inv isn sent A j k s.

(** The only failure: the tolerance of duplicate acknowledgements overflows. *)
Definition tolerance_overflow (act : xfer_action) (f : fault) : Prop :=
  f = BadConversion ∧ ∃ now g, act = XAckIn now g ∧ 2147483648 <= g.

Lemma reader_no_fault isn sent A j k s size f : xfer_inv isn sent A j k s →
  TcpController_ReadData size (xf_b s) ≠ Fault f.
Proof.
  intros Hinv Hr. destruct (xi_receiver _ _ _ _ _ _ Hinv) as [_ Hup _ _ Hp].
  unfold TcpController_ReadData in Hr. rewrite Hp, Hup in Hr. simpl in Hr.
  destruct (ReadData_wait _), (Buffer_empty _); simpl in Hr; try done. by case_match.
Qed.

Lemma xfer_do_ok isn C s act : xfer_ok isn C s →
  match xfer_do act s with
  | Fault f => tolerance_overflow act f
  | Ok None => True
  | Ok (Some s') => xfer_ok isn C s'
  end.
Proof.
  intros (Hcap & sent & A & j & k & Hinv). destruct s as [a b data acks written read]. simpl in Hcap.
  assert (∀ sent' A' j' k' s', xfer_inv isn sent' A' j' k' s' →
    Buffer_capacity (tc_recv_buffer (xf_b s')) = C → xfer_ok isn C s') as Hok.
  { intros sent' A' j' k' s' ? ?. split; [done|]. by exists sent', A', j', k'. }
  destruct act as [buf|now| | | |size| | |now g i|now g|i|].
  - destruct (xfer_do _ _) as [[s'|]|f] eqn:Hdo; [|done|].
    + pose proof (step_write _ _ _ _ _ _ _ _ _ _ _ Hinv _ _ Hdo) as Hinv'.
      eapply Hok; [exact Hinv'|]. simpl in Hdo. destruct (_ <=? _); [done|].
      apply Ok_inj in Hdo. destruct (TcpController_WriteData buf a) as [[]|]; simpl in Hdo; by simplify_eq.
    + simpl in Hdo. by destruct (_ <=? _).
  - destruct (step_send _ _ _ _ _ _ _ _ _ _ _ Hinv now) as (ps & a' & -> & Hinv' & _). by eapply Hok.
  - eapply Hok; [by apply (step_retransmit _ _ _ _ _ _ _ _ _ _ _ Hinv)|done].
  - destruct (step_probe _ _ _ _ _ _ _ _ _ _ _ Hinv) as (o & Ho & _ & Hinv').
    simpl. rewrite Ho. by eapply Hok.
  - simpl. destruct (TcpController_PacketSendBufferListener_round a) as [[pkts a']|] eqn:Hr; [|done].
    apply packets_out in Hr as [-> ->]; [|apply Hinv]. simpl. eapply Hok; [by apply step_data_out|done].
  - simpl. destruct (Z.ltb_spec size 0); [done|]. destruct (Z.leb_spec 2147483648 size); [done|]. simpl.
    destruct (TcpController_ReadData size b) as [[[[r bytes] b']|]|f] eqn:Hr; simpl; [|done|].
    + destruct (step_read _ _ _ _ _ _ _ _ _ _ _ Hinv size r bytes b' ltac:(lia) Hr) as (Hinv' & _ & _ & Hc).
      eapply Hok; [exact Hinv'|]. simpl. by rewrite Hc.
    + by destruct (reader_no_fault _ _ _ _ _ _ _ _ Hinv Hr).
  - simpl. destruct (TcpController_ReceiveBufferListener_round b) as [b'|] eqn:Hr; simpl; [|done].
    eapply step_overflow in Hr as ->; [|done]. by eapply Hok.
  - simpl. destruct (TcpController_PacketSendBufferListener_round b) as [[pkts b']|] eqn:Hr; [|done].
    apply packets_out in Hr as [-> ->]; [|apply Hinv]. simpl. eapply Hok; [by apply step_ack_out|done].
  - simpl. destruct (data !! i) as [p|] eqn:Hp; [|done].
    destruct (step_data_in _ _ _ _ _ _ _ _ _ _ _ Hinv now g i p Hp)
      as (A' & k' & b' & p' & -> & Hinv' & _ & _ & _ & Hc & _).
    cbn [mbind res_bind]. eapply Hok; [exact Hinv'|]. simpl. by rewrite Hc.
  - simpl. destruct acks as [|p acks]; [done|].
    pose proof (step_ack_in _ _ _ _ _ _ _ _ _ _ _ Hinv now g p acks eq_refl) as Hr.
    destruct (TcpController_HandlePacket now g p a) as [[g' a']|f]; cbn [mbind res_bind].
    + destruct Hr as (m & Hinv' & _). by eapply Hok.
    + destruct Hr as [-> Hg]. split; [done|]. by exists now, g.
  - simpl. destruct (data !! i) as [p|] eqn:Hp; simpl; [|done].
    eapply Hok; [by eapply step_lose_data|done].
  - simpl. destruct acks as [|p acks]; [done|]. eapply Hok; [by eapply step_lose_ack|done].
Qed.

Lemma xfer_run_ok isn C ok acts s : xfer_ok isn C s →
  match xfer_run ok acts s with
  | Fault f => ∃ act, act ∈ acts ∧ tolerance_overflow act f
  | Ok None => True
  | Ok (Some s') => xfer_ok isn C s'
  end.
Proof.
  revert s. induction acts as [|act acts IH]; intros s Hs; simpl; [done|].
  destruct (ok act s); [|done]. pose proof (xfer_do_ok isn C s act Hs) as Hdo.
  destruct (xfer_do act s) as [[s'|]|f]; cbn [mbind res_bind]; [|done|].
  - specialize (IH s' Hdo). destruct (xfer_run ok acts s') as [[]|f]; [done|done|].
    destruct IH as (act' & ? & ?). exists act'. split; [set_solver|done].
  - exists act. split; [set_solver|done].
Qed.

(** ** The beginning of a transfer

    Both ends are connected, the receiver expects the sender's send base [isn], the
    sender's window is within the receiver's free space, and there is no data
    anywhere. *)
Record transfer_init (isn : Z) (s : transfer) : Prop := {
  tin_isn : is_u32 isn;
  tin_window : SendWindow_inv (tc_send_window (xf_a s)) ∧ sw_packets (tc_send_window (xf_a s)) = [] ∧
    sw_send_base (tc_send_window (xf_a s)) = isn;
  tin_sender : tc_state (xf_a s) = ESTABLISHED ∧ tc_shutdown (xf_a s) = false ∧
    pq_packets (tc_pkt_send_buffer (xf_a s)) = [] ∧ pq_destroy (tc_pkt_send_buffer (xf_a s)) = false;
  tin_send_buffer : Buffer_bytes (tc_send_buffer (xf_a s)) = [] ∧
    Buffer_capacity (tc_send_buffer (xf_a s)) < 2147483648;
  tin_recv_window : RecvWindow_rep (tc_recv_window (xf_b s)) (tc_recv_nodes (xf_b s)) (MkRecv isn []);
  tin_receiver : tc_shutdown (xf_b s) = false ∧ tc_overflow_pkts (xf_b s) = [] ∧
    tc_pipe_state (xf_b s) = OPEN ∧
    pq_packets (tc_pkt_send_buffer (xf_b s)) = [] ∧ pq_destroy (tc_pkt_send_buffer (xf_b s)) = false;
  tin_recv_buffer : Buffer_bytes (tc_recv_buffer (xf_b s)) = [];
  tin_space : sw_capacity (tc_send_window (xf_a s)) <= Buffer_free_space (tc_recv_buffer (xf_b s));
  tin_network : xf_data s = [] ∧ xf_acks s = [] ∧ xf_written s = [] ∧ xf_read s = [];
}.

Lemma transfer_init_ok isn s : transfer_init isn s →
  xfer_ok isn (Buffer_capacity (tc_recv_buffer (xf_b s))) s.
Proof.
  intros [[Hi0 Hi1] (Hw & Hpk & Hb) (Hes & Hup & Hq & Hd) (Hsb & Hsc) Hrw (Hup' & Hov & Hpipe & Hq' & Hd') Hrb
    Hsp (E1 & E2 & E3 & E4)]. split; [done|]. exists [], ∅, 0%nat, 0%nat.
  assert (spos isn [] 0 = isn) as Hs0 by (unfold spos; simpl; rewrite total_len_nil; lia).
  assert (stream_ok isn []) as Hst.
  { split; [done|done|by constructor|]. rewrite total_len_nil. lia. }
  split; rewrite ?E1, ?E2, ?E3, ?E4, ?Hq, ?Hq'; unfold xfer_limit; rewrite ?Hs0, ?total_len_nil.
  - done.
  - rewrite Buffer_size_spec, Hsb. simpl. lia.
  - split; rewrite ?Hs0; try done. intros Hne. by rewrite Hpk in Hne.
  - split; try done. exists (MkRecv isn []). split; [|done].
    by apply (recv_stream_init isn [] Hi0 (sto_contiguous _ _ Hst) (sto_end _ _ Hst)).
  - apply flight_nil.
  - by apply acks_nil.
  - lia.
  - rewrite Buffer_free_space_spec. pose proof (Buffer_bounded (tc_recv_buffer (xf_b s))). lia.
  - by rewrite Hsb.
  - by rewrite Hrb.
Qed.

(** *** The handshake *)

(** The segment a connection has for the network, when it is one. *)
Definition one_out t : option (Packet * TcpController) :=
  match TcpController_PacketSendBufferListener_round t with
  | Some ([pkt], t) => Some (pkt, t)
  | _ => None
  end.

(** A client connects to a server: SYN, SYN_ACK and ACK go from one to the other, and
    the client can send. *)
Definition xfer_handshake (sc ss : Z) (kc ks : TcpControllerKey) (oc os : TcpControllerOptions)
    (now g : Z) : res (option transfer) :=
  '(_, c) ← TcpController_TryConnect now (client0 sc kc oc);
  match one_out c with
  | None => Ok None
  | Some (syn, c) =>
      '(g, s) ← TcpController_HandlePacket now g syn (server0 ss ks oc os);
      match one_out s with
      | None => Ok None
      | Some (sync_ack, s) =>
          '(g, c) ← TcpController_HandlePacket now g sync_ack c;
          match one_out c with
          | None => Ok None
          | Some (ack, c) =>
              '(_, s) ← TcpController_HandlePacket now g ack s;
              Ok (Some (MkTransfer c s [] [] [] []))
          end
      end
  end.

Definition without_packets t : TcpController :=
  t <| tc_pkt_send_buffer := (tc_pkt_send_buffer t) <| pq_packets := [] |> |>.

Lemma one_out_eq t p : pq_packets (tc_pkt_send_buffer t) = [p] → tc_shutdown t = false →
  pq_destroy (tc_pkt_send_buffer t) = false → one_out t = Some (p, without_packets t).
Proof.
  intros Hq Hs Hd. unfold one_out. rewrite packets_out_ready by (done || by rewrite Hq). by rewrite Hq.
Qed.

Lemma without_packets_frame t t' : idle_frame t t' → idle_frame t (without_packets t').
Proof. intros []. by split. Qed.
Lemma idle_frame_trans t1 t2 t3 : idle_frame t1 t2 → idle_frame t2 t3 → idle_frame t1 t3.
Proof. intros [] []. split; congruence. Qed.

Lemma handshake_init sc ss kc ks oc os now g
    (Hoc : options_wf oc ∧ 1 <= send_window_size oc)
    (Hos : options_wf os ∧ 1 <= send_window_size os ∧ send_window_base os = 0)
    (Hbuf : 0 <= send_buffer_size oc < 2147483648 ∧ 0 <= recv_buffer_size os) :
  ∃ s, xfer_handshake sc ss kc ks oc os now g = Ok (Some s) ∧
    transfer_init (u32 (send_window_base oc + 1)) s ∧
    Buffer_capacity (tc_recv_buffer (xf_b s)) = recv_buffer_size os.
Proof.
  destruct Hbuf as [[Hsb0 Hsb1] Hrb0].
  destruct (Buffer_new_bytes _ Hsb0) as [Hsb Hsc]. destruct (Buffer_new_bytes _ Hrb0) as [Hrb Hrc].
  destruct (handshake_connect sc kc oc Hoc now) as (c1 & E1 & S1 & W1 & Q1 & F1).
  destruct (handshake_syn sc ss kc ks oc os Hos now g)
    as (s1 & E2 & S2 & W2 & R2 & G2 & sa & Q2 & K2 & N2 & A2 & Z2).
  destruct (handshake_syn_ack oc now g sa (without_packets c1) K2 A2 S1 W1)
    as (g2 & c2 & a & E3 & S3 & P3 & B3 & C3 & R3 & Q3 & K3 & A3 & Z3 & F3 & I3).
  rewrite N2 in A3. pose proof (idle_frame_trans _ _ _ (without_packets_frame _ _ F1) F3) as F13.
  destruct (handshake_ack now g2 a (without_packets s1) K3 A3 S2 W2)
    as (g3 & s2 & E4 & S4 & P4 & B4 & C4 & RW4 & RN4 & F4 & Q4).
  pose proof (idle_frame_trans _ _ _ (without_packets_frame _ _ G2) F4) as G24.
  unfold xfer_handshake. rewrite E1. cbn [mbind res_bind].
  rewrite (one_out_eq c1 _ Q1) by apply F1. rewrite E2. cbn [mbind res_bind].
  rewrite (one_out_eq s1 _ Q2) by apply G2. rewrite E3. cbn [mbind res_bind].
  rewrite (one_out_eq c2 _ Q3) by apply F13. rewrite E4. cbn [mbind res_bind].
  eexists. split; [done|]. destruct F13 as [f1 f2 f3 f4 f5 f6], G24 as [g1 g4 g5 g6 g7 g8].
  assert (tc_recv_buffer s2 = Buffer_new (recv_buffer_size os)) as Hr2 by by rewrite g4.
  assert (Buffer_free_space (tc_recv_buffer s2) = recv_buffer_size os) as Hfree.
  { rewrite Buffer_free_space_spec, Hr2, Hrb, Hrc. simpl. lia. }
  split; [|simpl; by rewrite Hr2].
  split; simpl; rewrite ?f1, ?g4; try done.
  - apply u32_range.
  - split_and!; [|done|done]. apply I3. rewrite Z2. unfold u16, is_u32. word_lia.
  - change (tc_send_buffer (client0 sc kc oc)) with (Buffer_new (send_buffer_size oc)).
    rewrite Hsb, Hsc. done.
  - rewrite RW4, RN4. exact R2.
  - rewrite C3, Z2. rewrite <- g4, Hfree. by apply Z.mod_le.
Qed.

(** ** Properties *)

(** The handshake makes a transfer possible: for any keys, buffers and options,
    with windows of at least one byte, it brings client and server to a state where
    the sender's window is within the receiver's buffer and the receiver expects
    what the sender will send first. *)
Theorem xfer_handshake_init sc ss kc ks oc os now g
    (Hoc : options_wf oc ∧ 1 <= send_window_size oc)
    (Hos : options_wf os ∧ 1 <= send_window_size os ∧ send_window_base os = 0)
    (Hbuf : 0 <= send_buffer_size oc < 2147483648 ∧ 0 <= recv_buffer_size os) :
  ∃ s, xfer_handshake sc ss kc ks oc os now g = Ok (Some s) ∧
    transfer_init (u32 (send_window_base oc + 1)) s ∧
    Buffer_capacity (tc_recv_buffer (xf_b s)) = recv_buffer_size os.
Proof. by apply handshake_init. Qed.

(** C2. A transfer is safe, whatever the network and the threads do: segments
    arrive late, in any order, or never, acknowledgements get lost, timers fire and
    listeners run at any moment. What was read is a prefix of what was written;
    every byte in between is in the receiver's buffer, in a packet the sender keeps,
    or in the send buffer; the receiver's buffer never overflows. Nothing fails but
    the tolerance of duplicate acknowledgements, when it is 2^31 or more. *)
Theorem Transfer_safe isn acts s0 (Hinit : transfer_init isn s0) :
  match xfer_run anything acts s0 with
  | Fault f => ∃ act, act ∈ acts ∧ tolerance_overflow act f
  | Ok None => True
  | Ok (Some s) =>
      tc_overflow_pkts (xf_b s) = [] ∧ ∃ n, xf_written s =
        xf_read s ++ Buffer_bytes (tc_recv_buffer (xf_b s)) ++
        (drop n (sw_packets (tc_send_window (xf_a s))) ≫= packet_bytes) ++
        Buffer_bytes (tc_send_buffer (xf_a s))
  end.
Proof.
  pose proof (xfer_run_ok isn _ anything acts s0 (transfer_init_ok isn s0 Hinit)) as Hr.
  destruct (xfer_run anything acts s0) as [[s|]|f]; [|done|done].
  destruct Hr as (_ & sent & A & j & k & Hinv).
  destruct Hinv as [_ _ [_ Hpk _ _ _ _ _ _ _] [_ _ _ Hov _] _ Hak _ _ Hwr Hrd].
  split; [done|]. exists (k - j)%nat. pose proof (acks_jk _ _ _ _ _ _ Hak) as Hjk.
  rewrite app_assoc, Hrd, Hpk, drop_drop, Hwr, app_assoc, <- bind_app.
  replace (j + (k - j))%nat with k by lia. by rewrite take_drop.
Qed.
End Transfer.

(** ** Concrete instances *)

#[local] Existing Instance simple_StopWatch.
#[local] Existing Instance simple_Timer.
#[local] Existing Instance simple_Buffer.
#[local] Existing Instance simple_Min.

(** Two connections with default options after their handshake. *)
Definition demo : transfer :=
  let o := TcpController_GetDefaultOptions in
  let t := client0 0 TcpControllerKey_default o in
  match xfer_handshake 0 1 TcpControllerKey_default TcpControllerKey_default o o 0 3 with
  | Ok (Some s) => s
  | _ => MkTransfer t t [] [] [] []
  end.

Lemma demo_init : transfer_init (Buffer_bytes := lb_bytes) (Buffer_capacity := lb_capacity) 1 demo ∧
  lb_capacity (tc_recv_buffer (xf_b demo)) = 100.
Proof.
  destruct (handshake_init 0 1 TcpControllerKey_default TcpControllerKey_default
    TcpController_GetDefaultOptions TcpController_GetDefaultOptions 0 3) as (s & Hs & Hi & Hc); [done..|].
  unfold demo. rewrite Hs. by split.
Qed.

Lemma xfer_handshake_init_witness : ∃ s,
  xfer_handshake 0 1 TcpControllerKey_default TcpControllerKey_default
    TcpController_GetDefaultOptions TcpController_GetDefaultOptions 0 3 = Ok (Some s) ∧
  lb_capacity (tc_recv_buffer (xf_b s)) = 100.
Proof.
  destruct (xfer_handshake_init 0 1 TcpControllerKey_default TcpControllerKey_default
    TcpController_GetDefaultOptions TcpController_GetDefaultOptions 0 3) as (s & Hs & _ & Hc); [done..|].
  exists s. split; [exact Hs|exact Hc].
Defined.

(** Three bytes are written and sent; the segment is lost and sent again. *)
Definition demo_lost : list xfer_action := [XWrite [7; 8; 9]; XSend 0; XDataOut; XLoseData 0].
Definition demo_acts : list xfer_action :=
  demo_lost ++ [XRetransmit; XDataOut; XDataIn 0 3 0; XRead 100].

Lemma Transfer_safe_witness : ∃ s, xfer_run anything demo_acts demo = Ok (Some s) ∧
  xf_read s = [7; 8; 9] ∧ tc_overflow_pkts (xf_b s) = [].
Proof.
  pose proof (Transfer_safe 1 demo_acts demo (proj1 demo_init)) as Hsafe.
  assert (match xfer_run anything demo_acts demo with
    Ok (Some s) => xf_read s = [7; 8; 9] | _ => False end) as Hread by (vm_compute; reflexivity).
  destruct (xfer_run anything demo_acts demo) as [[s|]|f]; [|destruct Hread|destruct Hread].
  exists s. split; [reflexivity|]. split; [exact Hread|exact (proj1 Hsafe)].
Defined.
