(* ===== verification/TransferLive.v ===== *)
(** * A data transfer finishes

    From every state of a transfer a schedule without losses delivers all that was
    written: the retransmission timer, the prober and the acknowledgements suffice. *)
From S2P Require Import Prelude Interfaces Packet Keys PacketQueue SendWindow RecvWindow.
From S2P Require Import Tcp TcpRecv TcpSend TcpConn Connection Stream Transfer TransferInv.
From stdpp Require Import sorting.
Open Scope Z_scope.
Open Scope tcp_scope.

Section Transfer.
Context {SWO : StopWatchOps} {TMO : TimerOps} {BFO : BufferOps} {MNO : MinOps}.
Context {Buffer_bytes : Buffer → list Z} {Buffer_capacity : Buffer → Z}.
Context {BFL : BufferLaws Buffer_bytes Buffer_capacity} {MNL : MinLaws} {TML : TimerLaws}.
Implicit Types (a b : TcpController) (sent F G : list Packet) (A : gset nat) (R : Z).

#[local] Abbreviation sender_ok := (sender_ok (Buffer_capacity := Buffer_capacity)).
#[local] Abbreviation xfer_inv :=
  (xfer_inv (Buffer_bytes := Buffer_bytes) (Buffer_capacity := Buffer_capacity)).
#[local] Abbreviation xfer_ok :=
  (xfer_ok (Buffer_bytes := Buffer_bytes) (Buffer_capacity := Buffer_capacity)).
#[local] Abbreviation transfer_init :=
  (transfer_init (Buffer_bytes := Buffer_bytes) (Buffer_capacity := Buffer_capacity)).

(** ** Schedules that finish *)

Lemma xfer_run_app ok acts1 acts2 s s1 :
  xfer_run ok acts1 s = Ok (Some s1) → xfer_run ok (acts1 ++ acts2) s = xfer_run ok acts2 s1.
Proof.
  revert s. induction acts1 as [|act acts1 IH]; intros s; simpl; [by intros [= ->]|].
  destruct (ok act s); [|done]. destruct (xfer_do act s) as [[s'|]|f]; cbn [mbind res_bind]; [|done..].
  apply IH.
Qed.

(** [s'] can be reached from [s] by a fair schedule. *)
Definition proceeds (s s' : transfer) : Prop :=
  (∃ acts, xfer_run fair acts s = Ok (Some s')) ∧ xf_written s' = xf_written s ∧
  Buffer_capacity (tc_recv_buffer (xf_b s')) = Buffer_capacity (tc_recv_buffer (xf_b s)).

#[local] Instance proceeds_preorder : PreOrder proceeds.
Proof.
  split.
  - intros s. split_and!; [by exists []|done..].
  - intros s1 s2 s3 ((acts1 & H1) & W1 & C1) ((acts2 & H2) & W2 & C2).
    split_and!; [|congruence..]. exists (acts1 ++ acts2). by rewrite (xfer_run_app _ _ _ _ _ H1).
Qed.

Lemma proceeds_step act s s' : fair act s = true → xfer_do act s = Ok (Some s') →
  xf_written s' = xf_written s →
  Buffer_capacity (tc_recv_buffer (xf_b s')) = Buffer_capacity (tc_recv_buffer (xf_b s)) →
  proceeds s s'.
Proof. intros Hf Hdo Hw Hc. split_and!; [|done..]. exists [act]. simpl. by rewrite Hf, Hdo. Qed.

(** No acknowledgement is on its way. *)
Definition quiet (s : transfer) : Prop :=
  xf_acks s = [] ∧ pq_packets (tc_pkt_send_buffer (xf_b s)) = [].

Lemma spos_inj isn sent i j : stream_ok isn sent → (i ≤ j ≤ length sent)%nat →
  spos isn sent i = spos isn sent j → i = j.
Proof.
  intros [Hb Hc _ Hend] Hij He. destruct (decide (i = j)) as [|Hne]; [done|].
  destruct (lookup_lt_is_Some_2 sent i) as [p Hp]; [lia|].
  pose proof (spos_lt isn sent Hc i j p Hp ltac:(lia)).
  destruct (stream_lookup isn sent Hb Hc Hend i p Hp) as (_ & ? & _). lia.
Qed.

(** All acknowledgements on their way arrive. *)
Lemma proceed_acks isn sent A j k s : xfer_inv isn sent A j k s →
  pq_packets (tc_pkt_send_buffer (xf_b s)) = [] →
  ∃ j' s', proceeds s s' ∧ xfer_inv isn sent A j' k s' ∧ quiet s'.
Proof.
  destruct s as [a b data acks written read]. revert a j.
  induction acks as [|p acks IH]; intros a j Hinv Hq.
  { by exists j, (MkTransfer a b data [] written read). }
  pose proof (step_ack_in _ _ _ _ _ _ _ _ _ _ _ Hinv 0 kMaxDuplicatedAcksOrigin p acks eq_refl) as Hr.
  destruct (TcpController_HandlePacket 0 kMaxDuplicatedAcksOrigin p a) as [[g a']|f] eqn:Hh;
    [|by destruct Hr].
  destruct Hr as (m & Hinv' & _). destruct (IH a' m Hinv' Hq) as (j' & s' & Hp & Hinv'' & Hqt).
  exists j', s'. split; [|done]. etrans; [|exact Hp].
  apply (proceeds_step (XAckIn 0 kMaxDuplicatedAcksOrigin)); [done| |done|done]. simpl. by rewrite Hh.
Qed.

Lemma proceed_ack_out isn sent A j k s : xfer_inv isn sent A j k s →
  ∃ s', proceeds s s' ∧ xfer_inv isn sent A j k s' ∧
    pq_packets (tc_pkt_send_buffer (xf_b s')) = [] ∧ xf_a s' = xf_a s ∧ xf_data s' = xf_data s ∧
    xf_acks s' = xf_acks s ++ pq_packets (tc_pkt_send_buffer (xf_b s)) ∧
    tc_recv_buffer (xf_b s') = tc_recv_buffer (xf_b s).
Proof.
  intros Hinv. destruct s as [a b data acks written read]. simpl.
  destruct (pq_packets (tc_pkt_send_buffer b)) as [|p pkts] eqn:Hq.
  { exists (MkTransfer a b data acks written read). simpl. by rewrite app_nil_r. }
  pose proof (step_ack_out _ _ _ _ _ _ _ _ _ _ _ Hinv) as Hinv'.
  destruct (xi_receiver _ _ _ _ _ _ Hinv) as [_ Hup Hqd _ _]. simpl in Hup, Hqd.
  eexists. split; [|split; [exact Hinv'|simpl; by rewrite Hq]].
  apply (proceeds_step XAckOut); [done| |done|done]. simpl.
  by rewrite packets_out_ready by (done || by rewrite Hq).
Qed.

(** The reader takes everything. *)
Lemma proceed_read isn sent A j k s : xfer_inv isn sent A j k s → quiet s →
  Buffer_capacity (tc_recv_buffer (xf_b s)) < 65536 →
  ∃ s', proceeds s s' ∧ xfer_inv isn sent A j k s' ∧ quiet s' ∧ xf_a s' = xf_a s ∧
    Buffer_bytes (tc_recv_buffer (xf_b s')) = [].
Proof.
  intros Hinv [Hq1 Hq2] Hcap. destruct s as [a b data acks written read]. simpl in *.
  destruct (decide (Buffer_bytes (tc_recv_buffer b) = [])) as [He|He].
  { by exists (MkTransfer a b data acks written read). }
  pose proof (Buffer_bounded (tc_recv_buffer b)) as Hbd.
  destruct (xi_receiver _ _ _ _ _ _ Hinv) as [_ Hup _ _ Hpipe]. simpl in Hup, Hpipe.
  destruct (TcpController_ReadData 2147483647 b) as [[[[r bytes] b']|]|f] eqn:Hr.
  - destruct (step_read _ _ _ _ _ _ _ _ _ _ _ Hinv 2147483647 r bytes b' ltac:(lia) Hr)
      as (Hinv' & Hby & Hq & Hc).
    eexists. split; [|split; [exact Hinv'|]].
    + apply (proceeds_step (XRead 2147483647)); [done| |done|done]. simpl. by rewrite Hr.
    + split; [by split; simpl; rewrite ?Hq|]. split; [done|].
      pose proof (xi_read _ _ _ _ _ _ Hinv) as H1. pose proof (xi_read _ _ _ _ _ _ Hinv') as H2.
      simpl in *. rewrite <- H1, <- app_assoc in H2. apply app_inv_head in H2.
      rewrite Hby, take_ge in H2 by lia. by rewrite <- (app_nil_r (Buffer_bytes (tc_recv_buffer b))) in H2 at 2; apply app_inv_head in H2.
  - pose proof (ReadData_spec _ _ 2147483647 b ltac:(lia)) as Hs. rewrite Hr in Hs. by destruct Hs as (_ & _ & ?).
  - pose proof (ReadData_spec _ _ 2147483647 b ltac:(lia)) as Hs. rewrite Hr in Hs. destruct Hs as (_ & ?). congruence.
Qed.

(** The packets the sender has made go out. *)
Lemma proceed_data_out isn sent A j k s : xfer_inv isn sent A j k s → quiet s →
  pq_packets (tc_pkt_send_buffer (xf_a s)) ≠ [] →
  ∃ s', proceeds s s' ∧ xfer_inv isn sent A j k s' ∧ quiet s' ∧
    xf_data s' = xf_data s ++ pq_packets (tc_pkt_send_buffer (xf_a s)) ∧
    tc_send_buffer (xf_a s') = tc_send_buffer (xf_a s) ∧ xf_b s' = xf_b s.
Proof.
  intros Hinv Hqt Hne. destruct s as [a b data acks written read]. simpl in *.
  destruct (xi_sender _ _ _ _ _ _ Hinv) as [_ _ _ _ _ Hup Hqd _ _]. simpl in Hup, Hqd.
  pose proof (step_data_out _ _ _ _ _ _ _ _ _ _ _ Hinv) as Hinv'.
  eexists. split; [|split; [exact Hinv'|by split]].
  apply (proceeds_step XDataOut); [done| |done|done]. simpl. by rewrite packets_out_ready.
Qed.

(** A segment arrives, and its acknowledgement comes back. *)
Lemma proceed_exchange isn sent A j k s n p : xfer_inv isn sent A j k s → quiet s →
  xf_data s !! n = Some p →
  ∃ A' k' s', proceeds s s' ∧ xfer_inv isn sent A' k' k' s' ∧ quiet s' ∧
    (k ≤ k')%nat ∧ (sent !! k = Some p → (k < k')%nat) ∧
    tc_send_buffer (xf_a s') = tc_send_buffer (xf_a s) ∧
    (payload_size p = 0 → sw_capacity (tc_send_window (xf_a s')) =
      u16 (Buffer_free_space (tc_recv_buffer (xf_b s)))).
Proof.
  intros Hinv [Hq1 Hq2] Hp. destruct s as [a b data acks written read]. simpl in *. subst acks.
  set (g := kMaxDuplicatedAcksOrigin).
  destruct (step_data_in _ _ _ _ _ _ _ _ _ _ _ Hinv 0 g n p Hp)
    as (A' & k' & b' & p' & Hh & Hinv' & Hk & Hkp & Hq & Hcap & Hwnd & Hnum & Hz).
  set (s1 := MkTransfer a b' (delete n data) [] written read) in *.
  assert (proceeds (MkTransfer a b data [] written read) s1) as Hp1.
  { apply (proceeds_step (XDataIn 0 g n)); [done| |done|done]. simpl. by rewrite Hp, Hh. }
  destruct (proceed_ack_out _ _ _ _ _ _ Hinv')
    as ([a2 b2 data2 acks2 written2 read2] & Hp2 & Hinv2 & Hqb & Ha2 & _ & Hacks & Hbuf2).
  simpl in *. rewrite Hq, Hq2 in Hacks. subst a2 acks2.
  pose proof (step_ack_in _ _ _ _ _ _ _ _ _ _ _ Hinv2 0 g p' [] eq_refl) as Hr.
  destruct (TcpController_HandlePacket 0 g p' a) as [[g' a']|f] eqn:Hh2; [|by destruct Hr].
  destruct Hr as (m & Hinv3 & Hjm & Hm & Hsb & Hc).
  assert (m = k') as ->.
  { pose proof (acks_jk _ _ _ _ _ _ (xi_acks _ _ _ _ _ _ Hinv3)) as Hmk.
    destruct (xi_receiver _ _ _ _ _ _ Hinv3) as [(rs & [Hkl _ _ _ _] & _) _ _ _ _].
    eapply spos_inj; [apply Hinv|lia|]. by rewrite <- Hm, Hnum. }
  exists A', k'. eexists. split; [|split; [exact Hinv3|]].
  - etrans; [exact Hp1|]. etrans; [exact Hp2|].
    apply (proceeds_step (XAckIn 0 g)); [done| |done|done]. simpl. by rewrite Hh2.
  - split_and!; try done. simpl. intros Hz0. by rewrite Hc, Hwnd, (Hz Hz0).
Qed.

(** A packet is not acknowledged: the timer sends it again. *)
Lemma proceed_retransmit isn sent A j k s : xfer_inv isn sent A j k s → quiet s →
  (j < length sent)%nat →
  ∃ A' k' s', proceeds s s' ∧ xfer_inv isn sent A' k' k' s' ∧ quiet s' ∧ (j < k')%nat ∧
    tc_send_buffer (xf_a s') = tc_send_buffer (xf_a s).
Proof.
  intros Hinv Hqt Hj. destruct s as [a b data acks written read].
  destruct (lookup_lt_is_Some_2 sent j Hj) as [p Hp].
  pose proof (acks_jk _ _ _ _ _ _ (xi_acks _ _ _ _ _ _ Hinv)) as Hjk.
  destruct (step_retransmit _ _ _ _ _ _ _ _ _ _ _ Hinv) as (Hinv1 & Hsb & Hq).
  rewrite Hp in Hq. cbn [option_list] in Hq.
  assert (proceeds (MkTransfer a b data acks written read)
    (MkTransfer (TcpController_TimeoutReTransmitter a) b data acks written read)) as Hp1.
  { apply (proceeds_step XRetransmit); [|done..]. simpl.
    destruct (xi_sender _ _ _ _ _ _ Hinv) as [_ Hpk _ _ _ _ _ _ Htm]. apply Htm. simpl in Hpk.
    simpl. rewrite Hpk, (drop_S _ _ _ Hp). done. }
  generalize dependent (TcpController_TimeoutReTransmitter a). intros a1 Hinv1 Hsb Hq Hp1.
  destruct (proceed_data_out _ _ _ _ _ _ Hinv1 Hqt) as (s2 & Hp2 & Hinv2 & Hqt2 & Hd2 & Hsb2 & _).
  { simpl. rewrite Hq. intros Hnil. apply app_nil in Hnil as [_ ?]. done. }
  assert (∃ n, xf_data s2 !! n = Some p) as [n Hn].
  { apply list_elem_of_lookup. rewrite Hd2. simpl. rewrite Hq. set_solver. }
  destruct (proceed_exchange _ _ _ _ _ _ n p Hinv2 Hqt2 Hn)
    as (A' & k' & s' & Hp3 & Hinv3 & Hqt3 & Hk & Hkp & Hsb3 & _).
  exists A', k', s'. split_and!; [by etrans; [exact Hp1|]; etrans|done|done| |].
  - destruct (decide (j = k)) as [->|]; [by apply Hkp|lia].
  - rewrite Hsb3, Hsb2. exact Hsb.
Qed.

Lemma total_len_zero ps : Forall plain_segment ps → total_len ps = 0 → ps = [].
Proof.
  destruct 1 as [|p ps [[_ Hp] _ _ _ _ _] Hps]; [done|]. rewrite total_len_cons. intros Hz.
  assert (0 <= total_len ps); [|unfold pkt_len in *; lia].
  apply data_total_nonneg. eapply Forall_impl; [exact Hps|]. by intros q [].
Qed.

(** Everything sent is acknowledged, and there is more to send: the listener's
    round is ready when the window is open, or the prober is off. *)
Lemma round_ready isn sent A k s now : xfer_inv isn sent A (length sent) k s →
  Buffer_bytes (tc_send_buffer (xf_a s)) ≠ [] →
  0 < sw_capacity (tc_send_window (xf_a s)) ∨ Timer_started (tc_prober_timer (xf_a s)) = false →
  fair (XSend now) s = true ∧
  SendWindow_free_space (tc_send_window (xf_a s)) = sw_capacity (tc_send_window (xf_a s)).
Proof.
  intros Hinv Hne Hor. destruct (xi_sender _ _ _ _ _ _ Hinv) as [Hw Hpk _ _ Hes Hup _ _ _].
  rewrite drop_all in Hpk. pose proof (swi_size _ Hw) as Hsz. rewrite Hpk, total_len_nil in Hsz.
  pose proof (swi_capacity _ Hw) as [Hc0 _].
  assert (SendWindow_free_space (tc_send_window (xf_a s)) = sw_capacity (tc_send_window (xf_a s))) as Hf
    by (rewrite SendWindow_free_space_eq by done; lia).
  split; [|done]. unfold fair, SendBufferListener_state_wait, SendBufferListener_window_wait,
    SendBufferListener_buffer_wait. rewrite Hes, Hup, Hf. simpl.
  assert (Buffer_empty (tc_send_buffer (xf_a s)) = false) as ->.
  { apply not_true_iff_false. by rewrite Buffer_empty_spec. }
  destruct (Z.ltb_spec 0 (sw_capacity (tc_send_window (xf_a s)))) as [|Hz]; [done|].
  destruct Hor as [|Hor]; [lia|]. rewrite Hor. by rewrite (proj2 (Z.leb_le _ _) Hz).
Qed.

(** With an open window more packets are made. *)
Lemma proceed_send isn sent A k s : xfer_inv isn sent A (length sent) k s → quiet s →
  Buffer_bytes (tc_send_buffer (xf_a s)) ≠ [] → 0 < sw_capacity (tc_send_window (xf_a s)) →
  ∃ ps s', proceeds s s' ∧ xfer_inv isn (sent ++ ps) A (length sent) k s' ∧ quiet s' ∧
    (length (Buffer_bytes (tc_send_buffer (xf_a s'))) <
     length (Buffer_bytes (tc_send_buffer (xf_a s))))%nat.
Proof.
  intros Hinv Hqt Hne Hc. destruct (round_ready _ _ _ _ _ 0 Hinv Hne (or_introl Hc)) as [Hf Hfree].
  destruct s as [a b data acks written read]. simpl in Hqt, Hne, Hc, Hfree.
  destruct (step_send _ _ _ _ _ _ _ _ _ _ _ Hinv 0) as (ps & a' & Hdo & Hinv' & Hby & Hl & _).
  exists ps. eexists. split; [by apply (proceeds_step (XSend 0))|]. split; [exact Hinv'|].
  split; [done|]. simpl. rewrite Hby, length_app. rewrite Hfree, Buffer_size_spec in Hl.
  assert (Forall data_packet ps) as Hd.
  { pose proof (pst_plain _ _ (xi_stream _ _ _ _ _ _ Hinv')) as Hpl. apply Forall_app in Hpl as [_ Hpl].
    eapply Forall_impl; [exact Hpl|]. by intros p []. }
  pose proof (bytes_total ps Hd). destruct (Buffer_bytes (tc_send_buffer a)); [done|]. simpl in Hl. lia.
Qed.

(** With a closed window the prober asks for the window. *)
Lemma proceed_probe isn sent A k s : xfer_inv isn sent A (length sent) k s → quiet s →
  Buffer_bytes (tc_send_buffer (xf_a s)) ≠ [] → sw_capacity (tc_send_window (xf_a s)) = 0 →
  Buffer_bytes (tc_recv_buffer (xf_b s)) = [] →
  0 < Buffer_capacity (tc_recv_buffer (xf_b s)) < 65536 →
  ∃ A' s', proceeds s s' ∧ xfer_inv isn sent A' (length sent) (length sent) s' ∧ quiet s' ∧
    Buffer_bytes (tc_send_buffer (xf_a s')) = Buffer_bytes (tc_send_buffer (xf_a s)) ∧
    0 < sw_capacity (tc_send_window (xf_a s')).
Proof.
  intros Hinv Hqt Hne Hc Hempty Hcap.
  assert (∃ s1, proceeds s s1 ∧ xfer_inv isn sent A (length sent) k s1 ∧ quiet s1 ∧
    Timer_started (tc_prober_timer (xf_a s1)) = true ∧ sw_capacity (tc_send_window (xf_a s1)) = 0 ∧
    Buffer_bytes (tc_send_buffer (xf_a s1)) = Buffer_bytes (tc_send_buffer (xf_a s)) ∧
    xf_b s1 = xf_b s) as (s1 & Hp1 & Hinv1 & Hqt1 & Htm & Hc1 & Hsb1 & Hb1).
  { destruct (Timer_started (tc_prober_timer (xf_a s))) eqn:Htm; [by exists s|].
    destruct (round_ready _ _ _ _ _ 0 Hinv Hne (or_intror Htm)) as [Hf Hfree].
    destruct s as [a b data acks written read]. simpl in *.
    destruct (step_send _ _ _ _ _ _ _ _ _ _ _ Hinv 0) as (ps & a' & Hdo & Hinv' & Hby & Hl & Hc' & Hpr).
    assert (ps = []) as ->.
    { pose proof (pst_plain _ _ (xi_stream _ _ _ _ _ _ Hinv')) as Hpl. apply Forall_app in Hpl as [_ Hpl].
      apply total_len_zero; [done|]. rewrite Hl, Hfree, Hc, Buffer_size_spec. lia. }
    rewrite app_nil_r in Hinv'. simpl in Hby. eexists.
    split; [by apply (proceeds_step (XSend 0))|]. split; [exact Hinv'|]. simpl.
    split_and!; [done|by apply Hpr|congruence|done|done]. }
  destruct s1 as [a b data acks written read]. simpl in Htm, Hc1, Hsb1, Hb1.
  destruct (step_probe _ _ _ _ _ _ _ _ _ _ _ Hinv1) as ([p|] & Ho & Hp & Hinv2); [|done].
  assert (proceeds (MkTransfer a b data acks written read)
    (MkTransfer (TcpController_SendPacket (Some p) a) b data acks written read)) as Hp2.
  { apply (proceeds_step XProbe); [done| |done|done]. simpl. simpl in Ho. by rewrite Ho. }
  destruct (proceed_data_out _ _ _ _ _ _ Hinv2 Hqt1) as (s3 & Hp3 & Hinv3 & Hqt3 & Hd3 & Hsb3 & Hb3).
  { simpl. intros Hnil. apply app_nil in Hnil as [_ ?]. done. }
  assert (∃ n, xf_data s3 !! n = Some p) as [n Hn].
  { apply list_elem_of_lookup. rewrite Hd3. simpl. set_solver. }
  destruct (proceed_exchange _ _ _ _ _ _ n p Hinv3 Hqt3 Hn)
    as (A' & k' & s4 & Hp4 & Hinv4 & Hqt4 & Hk & _ & Hsb4 & Hc4).
  assert (k' = length sent) as ->.
  { pose proof (acks_jk _ _ _ _ _ _ (xi_acks _ _ _ _ _ _ Hinv)).
    destruct (xi_receiver _ _ _ _ _ _ Hinv4) as [(rs & [Hkl _ _ _ _] & _) _ _ _ _]. lia. }
  exists A', s4. split_and!; [by do 3 (etrans; [eassumption|])|done|done| |].
  - rewrite Hsb4, Hsb3. exact Hsb1.
  - destruct Hp as [_ Hz]. rewrite (Hc4 Hz), Hb3. simpl. subst b.
    rewrite Buffer_free_space_spec, Hempty. simpl. word_lia.
Qed.

(** From a quiet state with [n] bytes to send and [d] packets not acknowledged, the
    transfer finishes. *)
Lemma proceed_finish isn n d sent A j k s : xfer_inv isn sent A j k s → quiet s →
  0 < Buffer_capacity (tc_recv_buffer (xf_b s)) < 65536 →
  length (Buffer_bytes (tc_send_buffer (xf_a s))) = n → (length sent - j)%nat = d →
  ∃ s', proceeds s s' ∧ xf_read s' = xf_written s'.
Proof.
  revert d sent A j k s. induction (lt_wf n) as [n _ IHn]. intros d.
  induction (lt_wf d) as [d _ IHd]. intros sent A j k s0 Hinv0 Hqt0 Hcap0 Hn Hd.
  destruct (proceed_read _ _ _ _ _ _ Hinv0 Hqt0 ltac:(lia)) as (s & Hp & Hinv & Hqt & Ha & He).
  pose proof Hp as (_ & _ & Hcap). rewrite <- Hcap in Hcap0. rewrite <- Ha in Hn.
  destruct (decide (j < length sent)%nat) as [Hj|Hj].
  { destruct (proceed_retransmit _ _ _ _ _ _ Hinv Hqt Hj) as (A' & k' & s1 & Hp1 & Hinv1 & Hqt1 & Hjk & Hsb).
    pose proof Hp1 as (_ & _ & Hcap1).
    destruct (IHd (length sent - k')%nat ltac:(lia) sent A' k' k' s1 Hinv1 Hqt1)
      as (s' & Hp' & Hr); [by rewrite Hcap1|by rewrite Hsb|done|].
    exists s'. split; [by do 2 (etrans; [eassumption|])|done]. }
  assert (j = length sent) as ->.
  { destruct (xi_sender _ _ _ _ _ _ Hinv) as [_ _ _ ? _ _ _ _ _]. lia. }
  destruct (decide (Buffer_bytes (tc_send_buffer (xf_a s)) = [])) as [Hempty|Hne].
  { exists s. split; [done|]. rewrite (xi_written _ _ _ _ _ _ Hinv), Hempty, app_nil_r.
    pose proof (xi_read _ _ _ _ _ _ Hinv) as Hrd. rewrite He, app_nil_r in Hrd.
    pose proof (acks_jk _ _ _ _ _ _ (xi_acks _ _ _ _ _ _ Hinv)). rewrite Hrd, take_ge by done. done. }
  assert (∃ A1 k1 s1, proceeds s s1 ∧ xfer_inv isn sent A1 (length sent) k1 s1 ∧ quiet s1 ∧
    Buffer_bytes (tc_send_buffer (xf_a s1)) = Buffer_bytes (tc_send_buffer (xf_a s)) ∧
    0 < sw_capacity (tc_send_window (xf_a s1))) as (A1 & k1 & s1 & Hp1 & Hinv1 & Hqt1 & Hsb1 & Hc1).
  { destruct (decide (sw_capacity (tc_send_window (xf_a s)) = 0)) as [Hz|Hnz].
    - destruct (proceed_probe _ _ _ _ _ Hinv Hqt Hne Hz He Hcap0) as (A' & s' & ? & ? & ? & ? & ?).
      by exists A', (length sent), s'.
    - exists A, k, s. split_and!; try done.
      destruct (xi_sender _ _ _ _ _ _ Hinv) as [Hw _ _ _ _ _ _ _ _]. destruct (swi_capacity _ Hw). lia. }
  rewrite <- Hsb1 in Hne, Hn.
  destruct (proceed_send _ _ _ _ _ Hinv1 Hqt1 Hne Hc1) as (ps & s2 & Hp2 & Hinv2 & Hqt2 & Hlt).
  pose proof Hp1 as (_ & _ & Hcap1). pose proof Hp2 as (_ & _ & Hcap2).
  destruct (IHn (length (Buffer_bytes (tc_send_buffer (xf_a s2)))) ltac:(lia)
    (length (sent ++ ps) - length sent)%nat _ _ _ _ s2 Hinv2 Hqt2) as (s' & Hp' & Hr);
    [by rewrite Hcap2, Hcap1|done|done|].
  exists s'. split; [by do 3 (etrans; [eassumption|])|done].
Qed.

Lemma xfer_finishes isn C s : xfer_ok isn C s → 0 < C < 65536 →
  ∃ s', proceeds s s' ∧ xf_read s' = xf_written s'.
Proof.
  intros (<- & sent & A & j & k & Hinv) Hcap.
  destruct (proceed_ack_out _ _ _ _ _ _ Hinv) as (s1 & Hp1 & Hinv1 & Hq1 & _).
  destruct (proceed_acks _ _ _ _ _ _ Hinv1 Hq1) as (j2 & s2 & Hp2 & Hinv2 & Hqt2).
  pose proof Hp1 as (_ & _ & Hcap1). pose proof Hp2 as (_ & _ & Hcap2).
  rewrite <- Hcap1, <- Hcap2 in Hcap.
  destruct (proceed_finish _ _ _ _ _ _ _ s2 Hinv2 Hqt2 Hcap eq_refl eq_refl) as (s' & Hp' & Hr).
  exists s'. split; [by do 2 (etrans; [eassumption|])|done].
Qed.

(** ** Properties *)

(** C3. A transfer can always finish. However it went so far, whatever was lost or is
    still on its way, there is a continuation in which nothing more is lost, timers
    fire only when they run and listeners go on only when their waits are over, and
    after which all that was written has been read: no state is stuck. The
    receiver's buffer has at least one byte and fewer than 2^16, since
    acknowledgements carry the free space in sixteen bits. *)
Theorem Transfer_finishes isn acts s0 s (Hinit : transfer_init isn s0)
    (Hrun : xfer_run anything acts s0 = Ok (Some s))
    (Hspace : 0 < Buffer_capacity (tc_recv_buffer (xf_b s0)) < 65536) :
  ∃ acts' s', xfer_run fair acts' s = Ok (Some s') ∧
    xf_written s' = xf_written s ∧ xf_read s' = xf_written s.
Proof.
  pose proof (xfer_run_ok isn _ anything acts s0 (transfer_init_ok isn s0 Hinit)) as Hr.
  rewrite Hrun in Hr. destruct (xfer_finishes isn _ s Hr Hspace) as (s' & ((acts' & Hacts) & Hw & _) & Hrd).
  exists acts', s'. split_and!; [done|done|congruence].
Qed.
End Transfer.

(** ** Concrete instances *)

#[local] Existing Instance simple_StopWatch.
#[local] Existing Instance simple_Timer.
#[local] Existing Instance simple_Buffer.
#[local] Existing Instance simple_Min.

Lemma Transfer_finishes_witness : ∃ s acts' s',
  xfer_run anything demo_lost demo = Ok (Some s) ∧
  xfer_run fair acts' s = Ok (Some s') ∧ xf_read s' = [7; 8; 9].
Proof.
  assert (match xfer_run anything demo_lost demo with
    Ok (Some s) => xf_written s = [7; 8; 9] | _ => False end) as Hw by (vm_compute; reflexivity).
  destruct (xfer_run anything demo_lost demo) as [[s|]|f] eqn:Hrun; [|destruct Hw|destruct Hw].
  destruct (Transfer_finishes 1 demo_lost demo s (proj1 demo_init) Hrun) as (acts' & s' & Ha & _ & Hr).
  { rewrite (proj2 demo_init). lia. }
  exists s, acts', s'. split; [reflexivity|]. split; [exact Ha|]. rewrite Hr. exact Hw.
Defined.
