(* ===== verification/Session.v ===== *)
(** * A session

    Two connections from the first SYN to the last FIN, each sending to the other:
    the calls of the programs, all threads and timers of both ends, and a network
    that delivers in order and loses what it likes. *)
From S2P Require Import Prelude Interfaces Packet Keys PacketQueue SendWindow RecvWindow.
From S2P Require Import Tcp TcpRecv TcpSend TcpConn Threads Connection Stream.
From stdpp Require Import sorting.
Open Scope Z_scope.
Open Scope tcp_scope.

Section Session.
Context {SWO : StopWatchOps} {TMO : TimerOps} {BFO : BufferOps} {MNO : MinOps}.

(** ** The system

    An end of the session: the connection, the packets on their way from it to the
    other end, what [WriteData] took from the program, what [ReadData] gave it, and
    whether the program has closed the descriptor. *)
Record endpoint := MkEndpoint {
  ep_tcp : TcpController;
  ep_net : list Packet;
  ep_written : list Z;
  ep_read : list Z;
  ep_closed : bool;
}.

(** The end that connects and the end that was listening. *)
Inductive opener := Active | Passive.

Definition other (r : opener) : opener := match r with Active => Passive | Passive => Active end.

Record session := MkSession { ss_active : endpoint; ss_passive : endpoint }.

Definition end_of (r : opener) (s : session) : endpoint :=
  match r with Active => ss_active s | Passive => ss_passive s end.
Definition session_of (r : opener) (me you : endpoint) : session :=
  match r with Active => MkSession me you | Passive => MkSession you me end.

(** The actions of an end. [SConn] is a turn of one of its threads, with any value of
    the tolerance, which all connections of the program write to; [SDeliver] takes
    the next packet off the network, [SLose] loses one, and [SRst] is the answer
    of the host to a packet it has no connection for. *)
Inductive end_action :=
  | SWrite (buf : list Z) | SRead (size : Z) | SShutDown | SClose
  | SConn (act : conn_action) (g : Z)
  | SDeliver | SLose (i : nat) | SRst.

(** The sequence number behind everything written so far, if it does not wrap. *)
Definition ep_end (t : TcpController) : Z :=
  sw_send_base (tc_send_window t) + sw_size (tc_send_window t) + Buffer_size (tc_send_buffer t).

(** [SendFIN] runs once the other end has acknowledged the SYN; before, the code
    leaves a FIN in the window that it never sends. Sequence numbers do not wrap. *)
Definition conn_action_ok (act : conn_action) (t : TcpController) : bool :=
  match act with
  | KFin _ => (0 <? sw_send_base (tc_send_window t)) && (ep_end t + 1 <? 4294967295)
  | _ => true
  end.

(** What an action does to the end that acts and to the other one; [None] when it
    blocks, or cannot happen. *)
Definition end_do (act : end_action) (me you : endpoint) : res (option (endpoint * endpoint)) :=
  let '(MkEndpoint t net written read closed) := me in
  match act with
  | SWrite buf =>
      if closed || (4294967295 <=? ep_end t + Z.of_nat (length buf)) then Ok None
      else Ok ('(n, t) ← TcpController_WriteData buf t;
               Some (MkEndpoint t net (written ++ take (Z.to_nat n) buf) read closed, you))
  | SRead size =>
      if closed || (size <? 0) || (2147483648 <=? size) then Ok None
      else
        r ← TcpController_ReadData size t;
        Ok ('(_, bytes, t) ← r; Some (MkEndpoint t net written (read ++ bytes) closed, you))
  | SShutDown =>
      Ok (if closed then None
          else Some (MkEndpoint (TcpController_TryShutDown t).2 net written read closed, you))
  | SClose =>
      Ok (if closed then None
          else Some (MkEndpoint (TcpController_TryClose t).2 net written read true, you))
  | SConn act g =>
      if conn_action_ok act t then
        r ← conn_do act g t;
        Ok ('(_, pkts, t) ← r; Some (MkEndpoint t (net ++ pkts) written read closed, you))
      else Ok None
  | SDeliver =>
      let '(MkEndpoint t' net' written' read' closed') := you in
      Ok (match net' with
          | [] => None
          | pkt :: net' => Some (MkEndpoint (TcpController_ReceiveNewPacket pkt t) net written read closed,
                                 MkEndpoint t' net' written' read' closed')
          end)
  | SLose i =>
      Ok (_ ← net !! i; Some (MkEndpoint t (delete i net) written read closed, you))
  | SRst =>
      Ok (Some (MkEndpoint t (net ++ [TcpController_MakeRstPacket t]) written read closed, you))
  end.

Definition session_do (act : opener * end_action) (s : session) : res (option session) :=
  let '(r, act) := act in
  p ← end_do act (end_of r s) (end_of (other r) s);
  Ok ('(me, you) ← p; Some (session_of r me you)).

(** A run; an action that cannot happen leaves everything as it is. *)
Fixpoint session_run (acts : list (opener * end_action)) (s : session) : res session :=
  match acts with
  | [] => Ok s
  | act :: acts =>
      r ← session_do act s;
      session_run acts (match r with Some s => s | None => s end)
  end.

(** *** The beginning

    [SocketConnect] made the client's connection and called [TryConnect]; its SYN
    arrived at the server's host, which made a connection and gave it the segment
    twice: [HandleNewConnection] and then the demultiplexer. *)
Definition session_start (sc ss : Z) (kc ks : TcpControllerKey) (oc os : TcpControllerOptions) (now : Z)
    : res (option session) :=
  '(_, c) ← TcpController_TryConnect now (TcpController_new sc kc oc);
  match TcpController_PacketSendBufferListener_round c with
  | Some ([syn], c) =>
      let s := TcpController_new ss ks (os <| recv_window_base := pkt_seq syn |>) in
      let s := TcpController_ReceiveNewPacket syn (TcpController_ReceiveNewPacket (Packet_Copy syn) s) in
      Ok (Some (MkSession (MkEndpoint c [] [] [] false) (MkEndpoint s [] [] [] false)))
  | _ => Ok None
  end.
End Session.
