(* ===== verification/SessionInv.v ===== *)
(** * The invariant of a session

    What each end has sent, what of it is acknowledged, on its way, delivered and
    read; when a SYN can still be on its way; and which states the state machine can
    be in at what time. *)
From S2P Require Import Prelude Interfaces Packet Keys PacketQueue SendWindow RecvWindow.
From S2P Require Import Tcp TcpRecv TcpSend TcpConn Threads Connection Stream Session.
From stdpp Require Import sorting.
Open Scope Z_scope.
Open Scope tcp_scope.

Section SessionInv.
Context {SWO : StopWatchOps} {TMO : TimerOps} {BFO : BufferOps} {MNO : MinOps}.
Context {Buffer_bytes : Buffer → list Z} {Buffer_capacity : Buffer → Z}.
Context {BFL : BufferLaws Buffer_bytes Buffer_capacity} {MNL : MinLaws}.
Implicit Types (x y t : TcpController) (X Y : endpoint) (sent L F G : list Packet) (A : gset nat) (R : Z).

#[local] Abbreviation window_ok := (window_ok (Buffer_capacity := Buffer_capacity)).

(** ** The invariant *)

(** The progress of an end: the packets it sent and how many of them are
    acknowledged; of the other end's packets, which arrived and how many were
    delivered; the bytes taken out of its receive buffer. *)
Record progress := MkProgress {
  gh_sent : list Packet;
  gh_acked : nat;
  gh_arrived : gset nat;
  gh_next : nat;
  gh_taken : list Z;
}.
Implicit Types gx gy : progress.

(** Of the packets on their way: those of the stream, and the acknowledgements. *)
Definition streamy (p : Packet) : bool :=
  match segment_of p with SegAck | SegRst => false | _ => true end.
Definition ackish (p : Packet) : bool :=
  match segment_of p with SegAck => true | _ => false end.
Definition stream_part (L : list Packet) : list Packet := List.filter streamy L.
Definition ack_part (L : list Packet) : list Packet := List.filter ackish L.

(** The first packet of a stream: a SYN, or a SYN_ACK that offers no more than the
    receive buffer of the end [t] that made it. *)
Definition syn_of (r : opener) t (p : Packet) : Prop :=
  is_fin p = false ∧ pkt_len p = 1 ∧ packet_bytes p = [] ∧
  match r with
  | Active => segment_of p = SegSyn
  | Passive => segment_of p = SegSynAck ∧ ack_num (tcp_header p) = 1 ∧
      0 <= window_size (tcp_header p) < 65536 ∧
      window_size (tcp_header p) <= Buffer_capacity (tc_recv_buffer t)
  end.

Definition fin_segment (p : Packet) : Prop :=
  segment_of p = SegFin ∧ pkt_len p = 1 ∧ packet_bytes p = [].

(** A SYN, data, and FINs. *)
Definition shape (r : opener) t sent : Prop :=
  sent = [] ∨ ∃ s d fs, sent = s :: d ++ fs ∧ syn_of r t s ∧
    Forall plain_segment d ∧ Forall fin_segment fs.

(** The sender's window, its buffer, and what it wrote. *)
Record snd_ok sent (j : nat) (written : list Z) x : Prop := {
  so_ok : window_ok 0 sent j x;
  so_end : total_len sent + Buffer_size (tc_send_buffer x) < 4294967295;
  so_written : written = (sent ≫= packet_bytes) ++ Buffer_bytes (tc_send_buffer x);
  so_fin : has_fin sent = true → Buffer_bytes (tc_send_buffer x) = [];
  so_first : j = 0%nat → (length sent ≤ 1)%nat ∧ sw_capacity (tc_send_window x) ≠ 0;
}.

(** The state machine of the sender. *)
Record phase (r : opener) sent (j : nat) (closed : bool) x : Prop := {
  ph_conn : tc_state x = SYN_SENT ∨ tc_state x = SYN_RCVD → length sent = 1%nat ∧ j = 0%nat;
  ph_closed : tc_state x = CLOSED → sent = [] ∨ tc_shutdown x || closed = true;
  ph_listen : tc_state x ≠ LISTEN;
  ph_role : tc_state x = SYN_SENT → r = Active;
  ph_first : j = 0%nat → InConnectingState (tc_state x) = true;
  ph_listener : SendBufferListener ∈ tc_tasks x ∨ (0 < j)%nat;
  ph_fin : has_fin sent = true → InClosingState (tc_state x) || tc_shutdown x || closed = true;
  ph_reset : SendRSTForClosedConnection ∈ tc_tasks x → closed = true;
  ph_queues : pq_destroy (tc_pkt_send_buffer x) = false ∧ pq_destroy (tc_pkt_recv_buffer x) = false;
}.

(** The receiver's window and buffer: [A] arrived, the first [k] were delivered. *)
Record rcv_ok sent A (k : nat) (taken : list Z) y : Prop := {
  ro_window : ∃ rs, recv_stream_inv 0 sent A k rs ∧
    RecvWindow_rep (tc_recv_window y) (tc_recv_nodes y) rs;
  ro_overflow : tc_overflow_pkts y = [];
  ro_pipe : bool_decide (tc_pipe_state y = OPEN) = negb (has_fin (take k sent));
  ro_eof : tc_pipe_state y = EOF_CONSUMED → Buffer_bytes (tc_recv_buffer y) = [];
  ro_bytes : taken ++ Buffer_bytes (tc_recv_buffer y) = take k sent ≫= packet_bytes;
  ro_fits : Z.of_nat (length (drop k sent ≫= packet_bytes)) <= Buffer_free_space (tc_recv_buffer y);
}.

(** The end of what the receiver has room for. *)
Definition limit sent (k : nat) y : Z := spos 0 sent k + Buffer_free_space (tc_recv_buffer y).

(** SYNs are in front of everything else, and there is none any more once data was
    delivered. *)
Definition syn_first (k : nat) F : Prop :=
  StronglySorted (λ p q, is_sync q = true → is_sync p = true) F ∧
  ((1 < k)%nat → Forall (λ p, is_sync p = false) F).

(** The packets [F] on their way to the receiver, the acknowledgements [G] on their
    way back. *)
Record net_ok (r : opener) sent A (j k : nat) R F G : Prop := {
  no_flight : flight_ok sent A k F;
  no_syn : syn_first k F;
  no_first : j = 0%nat → Forall (λ p, is_sync p = true) F;
  no_acks : acks_ok 0 sent R j k G;
  no_positive : Forall (λ p, 0 < ack_num (tcp_header p)) G;
  no_early : r = Active → j = 0%nat → G = [];
}.

(** The direction from [X], which is [r], to [Y]; the packets on their way are those
    of [ep_net]. *)
Record dir (r : opener) gx X gy Y : Prop := {
  d_stream : stream_ok 0 (gh_sent gx);
  d_shape : shape r (ep_tcp X) (gh_sent gx);
  d_snd : snd_ok (gh_sent gx) (gh_acked gx) (ep_written X) (ep_tcp X);
  d_phase : phase r (gh_sent gx) (gh_acked gx) (ep_closed X) (ep_tcp X);
  d_rcv : rcv_ok (gh_sent gx) (gh_arrived gy) (gh_next gy) (gh_taken gy) (ep_tcp Y);
  d_read : ep_read Y `prefix_of` gh_taken gy ∧ (ep_closed Y = false → gh_taken gy = ep_read Y);
  d_net : net_ok r (gh_sent gx) (gh_arrived gy) (gh_acked gx) (gh_next gy)
    (limit (gh_sent gx) (gh_next gy) (ep_tcp Y)) (stream_part (ep_net X)) (ack_part (ep_net Y));
  d_window : (0 < gh_acked gx)%nat → has_fin (gh_sent gx) = false →
    sw_send_base (tc_send_window (ep_tcp X)) + sw_capacity (tc_send_window (ep_tcp X)) <=
    limit (gh_sent gx) (gh_next gy) (ep_tcp Y);
  d_cross : r = Passive → gh_sent gx ≠ [] → (0 < gh_next gx)%nat;
}.

Definition both (r : opener) gx X gy Y : Prop := dir r gx X gy Y ∧ dir (other r) gy Y gx X.

(** All packets on their way from [me] to [you]: in the queue of [you], on the
    network, in the queue of [me]. *)
Definition flat (me you : endpoint) : endpoint :=
  MkEndpoint (ep_tcp me)
    (pq_packets (tc_pkt_recv_buffer (ep_tcp you)) ++ ep_net me ++ pq_packets (tc_pkt_send_buffer (ep_tcp me)))
    (ep_written me) (ep_read me) (ep_closed me).

Definition session_inv (s : session) : Prop :=
  ∃ ga gp, both Active ga (flat (ss_active s) (ss_passive s)) gp (flat (ss_passive s) (ss_active s)).

(** ** What a step leaves alone *)

Definition same_sender t t' : Prop :=
  tc_send_window t' = tc_send_window t ∧ tc_send_buffer t' = tc_send_buffer t ∧
  Buffer_capacity (tc_recv_buffer t') = Buffer_capacity (tc_recv_buffer t).
Definition same_receiver t t' : Prop :=
  tc_recv_window t' = tc_recv_window t ∧ tc_recv_nodes t' = tc_recv_nodes t ∧
  tc_recv_buffer t' = tc_recv_buffer t ∧ tc_overflow_pkts t' = tc_overflow_pkts t ∧
  tc_pipe_state t' = tc_pipe_state t.
Definition same_state t t' : Prop :=
  tc_state t' = tc_state t ∧ tc_shutdown t' = tc_shutdown t ∧ tc_tasks t' = tc_tasks t ∧
  pq_destroy (tc_pkt_send_buffer t') = pq_destroy (tc_pkt_send_buffer t) ∧
  pq_destroy (tc_pkt_recv_buffer t') = pq_destroy (tc_pkt_recv_buffer t).

Lemma phase_same r sent j closed t t' : same_state t t' → phase r sent j closed t → phase r sent j closed t'.
Proof. intros (E1 & E2 & E3 & E4 & E5) []. by split; rewrite ?E1, ?E2, ?E3, ?E4, ?E5. Qed.

Lemma shape_same r sent t t' : Buffer_capacity (tc_recv_buffer t') = Buffer_capacity (tc_recv_buffer t) →
  shape r t sent → shape r t' sent.
Proof. unfold shape, syn_of. by intros ->. Qed.

(** A step on [X] that does not touch its sending half; its receiving half may go
    on, and it may send what is not of the stream. *)
Lemma dir_sender r gx gx' X X' gy Y :
  dir r gx X gy Y → same_sender (ep_tcp X) (ep_tcp X') → ep_written X' = ep_written X →
  gh_sent gx' = gh_sent gx → gh_acked gx' = gh_acked gx → (gh_next gx ≤ gh_next gx')%nat →
  phase r (gh_sent gx) (gh_acked gx) (ep_closed X') (ep_tcp X') →
  stream_part (ep_net X') = stream_part (ep_net X) → dir r gx' X' gy Y.
Proof.
  intros [Hst Hsh [[] ? ? ? ?] _ Hr Hrd Hn Hw Hx] (E1 & E2 & E3) E4 E5 E6 Hle Hph E7.
  split; rewrite ?E1, ?E5, ?E6, ?E7; try done.
  - by eapply shape_same.
  - by split; [split|..]; rewrite ?E1, ?E2, ?E4.
  - intros Hp Hne. specialize (Hx Hp Hne). lia.
Qed.

(** A step on [Y] that does not touch its receiving half. *)
Lemma dir_receiver r gx X gy gy' Y Y' :
  dir r gx X gy Y → same_receiver (ep_tcp Y) (ep_tcp Y') → ep_read Y' = ep_read Y →
  (ep_closed Y' = false → ep_closed Y = false) →
  gh_arrived gy' = gh_arrived gy → gh_next gy' = gh_next gy → gh_taken gy' = gh_taken gy →
  ack_part (ep_net Y') = ack_part (ep_net Y) → dir r gx X gy' Y'.
Proof.
  intros [Hst Hsh Hs Hph [] [Hr1 Hr2] Hn Hw Hx] (E1 & E2 & E3 & E4 & E5) E6 Hc E7 E8 E9 E10.
  split; rewrite ?E7, ?E8, ?E9, ?E10; unfold limit in *; rewrite ?E3; try done.
  - by split; rewrite ?E1, ?E2, ?E3, ?E4, ?E5.
  - rewrite E6. split; [done|]. auto.
Qed.

(** A step that touches neither half of [X]. *)
Lemma both_idle r gx X X' gy Y :
  both r gx X gy Y → same_sender (ep_tcp X) (ep_tcp X') → same_receiver (ep_tcp X) (ep_tcp X') →
  ep_written X' = ep_written X → ep_read X' = ep_read X →
  (ep_closed X' = false → ep_closed X = false) →
  phase r (gh_sent gx) (gh_acked gx) (ep_closed X') (ep_tcp X') →
  stream_part (ep_net X') = stream_part (ep_net X) → ack_part (ep_net X') = ack_part (ep_net X) →
  both r gx X' gy Y.
Proof.
  intros [H1 H2] **. split; [by eapply dir_sender|by eapply dir_receiver].
Qed.

(** ** Streams with a SYN and FINs *)

Lemma sync_segment p : segment_of p = SegSyn ∨ segment_of p = SegSynAck → is_sync p = true.
Proof. unfold segment_of, is_sync. repeat case_match; naive_solver. Qed.

Lemma fin_segment_flags p : segment_of p = SegFin → is_fin p = true ∧ is_sync p = false.
Proof. unfold segment_of, is_sync, is_fin. repeat case_match; naive_solver. Qed.

Lemma syn_of_sync r t p : syn_of r t p → is_sync p = true.
Proof. intros (_ & _ & _ & Hp). apply sync_segment. destruct r; naive_solver. Qed.

Lemma shape_lookup r t sent i p : shape r t sent → sent !! i = Some p →
  (i = 0%nat ∧ syn_of r t p) ∨ ((0 < i)%nat ∧ (plain_segment p ∨ fin_segment p)).
Proof.
  intros [->|(s & d & fs & -> & Hs & Hd & Hfs)]; [done|]. destruct i as [|i]; simpl.
  - intros [= ->]. by left.
  - intros Hi%list_elem_of_lookup_2. right. split; [lia|]. rewrite Forall_forall in Hd, Hfs.
    apply elem_of_app in Hi as [Hi|Hi]; [left; by apply Hd|right; by apply Hfs].
Qed.

Lemma shape_sync r t sent i p : shape r t sent → sent !! i = Some p →
  is_sync p = bool_decide (i = 0%nat).
Proof.
  intros Hsh Hi. destruct (shape_lookup _ _ _ _ _ Hsh Hi) as [[-> Hp]|(Hpos & Hp)].
  - by eapply syn_of_sync.
  - rewrite bool_decide_eq_false_2 by lia. destruct Hp as [[] |[Hp _]]; [done|by apply fin_segment_flags].
Qed.

Lemma shape_streamy r t sent i p : shape r t sent → sent !! i = Some p → streamy p = true.
Proof.
  intros Hsh Hi. unfold streamy. destruct (shape_lookup _ _ _ _ _ Hsh Hi) as [[-> (_ & _ & _ & Hp)]|(_ & [Hp|[Hp _]])].
  - destruct r; [by rewrite Hp|by destruct Hp as [-> _]].
  - by rewrite (plain_segment_of p Hp).
  - by rewrite Hp.
Qed.

Lemma streamy_not_ackish p : streamy p = true → ackish p = false.
Proof. unfold streamy, ackish. by destruct (segment_of p). Qed.

(** Data is not longer than the sequence numbers it takes. *)
Lemma shape_bytes r t sent k : shape r t sent →
  Z.of_nat (length (drop k sent ≫= packet_bytes)) <= total_len (drop k sent).
Proof.
  intros Hsh. assert (Forall (λ p, Z.of_nat (length (packet_bytes p)) <= pkt_len p) (drop k sent)) as Hall.
  { apply Forall_drop, Forall_lookup. intros i p Hi. unfold pkt_len.
    destruct (shape_lookup _ _ _ _ _ Hsh Hi) as [[_ (_ & Hl & -> & _)]|(_ & [[[-> _] _ _ _ _ _]|(_ & Hl & ->)])];
      unfold pkt_len in *; simpl; lia. }
  induction Hall as [|p l Hp _ IH]; [done|]. csimpl. rewrite length_app, total_len_cons. lia.
Qed.

(** Behind the SYN: data, then FINs. *)
Lemma shape_tail r t sent k n : shape r t sent → (0 < k)%nat →
  ∃ d fs, take n (drop k sent) = d ++ fs ∧ Forall plain_segment d ∧ Forall fin_segment fs.
Proof.
  intros [->|(s & d & fs & -> & _ & Hd & Hfs)] Hk.
  - exists [], []. rewrite drop_nil, take_nil. by repeat constructor.
  - destruct k as [|k]; [lia|]. simpl. rewrite drop_app, take_app.
    eexists _, _. split; [done|]. split; by apply Forall_take, Forall_drop.
Qed.

Lemma tail_facts d fs : Forall plain_segment d → Forall fin_segment fs →
  Forall (λ q, is_sync q = false) (d ++ fs) ∧ before_fin (d ++ fs) = d ∧
  Forall data_packet d ∧ (d ++ fs) ≫= packet_bytes = d ≫= packet_bytes ∧
  has_fin (d ++ fs) = bool_decide (fs ≠ []).
Proof.
  intros Hd Hfs. assert (fs ≫= packet_bytes = []) as Hb.
  { induction Hfs as [|f fs (_ & _ & Hf) _ IH]; [done|]. csimpl. by rewrite Hf. }
  rewrite bind_app, Hb, app_nil_r.
  assert (Forall (λ q, is_sync q = false) fs) as Hs.
  { eapply Forall_impl; [exact Hfs|]. intros f [Hf _]. by apply fin_segment_flags. }
  induction Hd as [|p d [? ? Hf ? ? ?] _ (IH1 & IH2 & IH3 & _ & IH5)]; csimpl.
  - split_and!; [done| |done|done|].
    + destruct Hfs as [|f fs [Hf _] _]; [done|]. simpl. by rewrite (proj1 (fin_segment_flags f Hf)).
    + destruct Hfs as [|f fs [Hf _] _]; [done|]. simpl. by rewrite (proj1 (fin_segment_flags f Hf)).
  - rewrite Hf. simpl. rewrite IH2, IH5. split_and!; [by constructor|done|by constructor|done|done].
Qed.

Lemma has_fin_app l k : has_fin (l ++ k) = has_fin l || has_fin k.
Proof. apply existsb_app. Qed.

(** Once a FIN is delivered, so is all data. *)
Lemma shape_fin_last r t sent k : shape r t sent → has_fin (take k sent) = true →
  drop k sent ≫= packet_bytes = [].
Proof.
  intros [->|(s & d & fs & -> & (Hs & _) & Hd & Hfs)]; [by rewrite take_nil|].
  destruct k as [|k]; [done|]. simpl. rewrite Hs. simpl. rewrite take_app, drop_app. intros Hf.
  destruct (tail_facts (take k d) (take (k - length d) fs)) as (_ & _ & _ & _ & Hf');
    [by apply Forall_take|by apply Forall_take|]. unfold has_fin in Hf, Hf'. rewrite Hf' in Hf.
  apply bool_decide_eq_true in Hf. rewrite (drop_ge d) by (destruct (decide (length d ≤ k)%nat);
    [done|destruct Hf; by rewrite (proj2 (Nat.sub_0_le _ _)) by lia]).
  destruct (tail_facts [] (drop (k - length d) fs)) as (_ & _ & _ & Hb & _); [done|by apply Forall_drop|done].
Qed.

Lemma shape_app r t sent ps : shape r t sent → sent ≠ [] →
  (has_fin sent = false ∧ Forall plain_segment ps) ∨ Forall fin_segment ps → shape r t (sent ++ ps).
Proof.
  intros [->|(s & d & fs & -> & Hs & Hd & Hfs)] Hne Hps; [done|]. right. destruct Hps as [[Hnf Hps]|Hps].
  - exists s, (d ++ ps), []. simpl in Hnf. apply orb_false_iff in Hnf as [_ Hnf].
    destruct (tail_facts d fs Hd Hfs) as (_ & _ & _ & _ & Hf). unfold has_fin in Hf, Hnf. rewrite Hf in Hnf.
    apply bool_decide_eq_false in Hnf. destruct fs; [|by destruct Hnf]. rewrite !app_nil_r.
    split_and!; [done|done|by apply Forall_app|done].
  - exists s, d, (fs ++ ps). split_and!; [simpl; by rewrite <- app_assoc|done|done|by apply Forall_app].
Qed.

(** ** Packets on their way *)

Lemma stream_part_app L1 L2 : stream_part (L1 ++ L2) = stream_part L1 ++ stream_part L2.
Proof. apply List.filter_app. Qed.
Lemma ack_part_app L1 L2 : ack_part (L1 ++ L2) = ack_part L1 ++ ack_part L2.
Proof. apply List.filter_app. Qed.

Lemma syn_first_take k F1 p F2 : syn_first k (F1 ++ p :: F2) → syn_first k (F1 ++ F2).
Proof.
  intros [Hs Hk]. split.
  - apply StronglySorted_app in Hs as (H1 & H2 & H3). apply StronglySorted_inv in H3 as [H3 _].
    apply StronglySorted_app. split_and!; [|done|done]. intros x y Hx Hy. apply H1; set_solver.
  - intros Hlt. specialize (Hk Hlt). rewrite !Forall_app, Forall_cons in *. naive_solver.
Qed.

Lemma syn_first_snoc k F p : syn_first k F → is_sync p = false → syn_first k (F ++ [p]).
Proof.
  intros [Hs Hk] Hp. split.
  - apply StronglySorted_app. split_and!; [|done|by repeat constructor].
    intros x y _ ->%list_elem_of_singleton. congruence.
  - intros Hlt. apply Forall_app. split; [by apply Hk|by constructor].
Qed.

Lemma syn_first_app k F ps : syn_first k F → Forall (λ p, is_sync p = false) ps → syn_first k (F ++ ps).
Proof.
  intros HF Hps. revert F HF. induction Hps as [|p ps Hp _ IH]; intros F HF; [by rewrite app_nil_r|].
  change (p :: ps) with ([p] ++ ps). rewrite app_assoc. by apply IH, syn_first_snoc.
Qed.

Lemma syn_first_more k F p : syn_first k F → Forall (λ p, is_sync p = true) F → is_sync p = true →
  (k ≤ 1)%nat → syn_first k (F ++ [p]).
Proof.
  intros [Hs Hk] HF Hp Hle. split; [|lia]. apply StronglySorted_app.
  split_and!; [|done|by repeat constructor]. rewrite Forall_forall in HF. auto.
Qed.

(** The head arrives. *)
Lemma syn_first_head k k' p F : syn_first k (p :: F) →
  (is_sync p = true → (k' ≤ 1)%nat) → syn_first k' F ∧ (is_sync p = true → (k ≤ 1)%nat).
Proof.
  intros [Hs Hk] Hk'. apply StronglySorted_inv in Hs as [Hs Hall]. split; [split; [done|]|].
  - intros Hlt. destruct (is_sync p); [specialize (Hk' eq_refl); lia|].
    eapply Forall_impl; [exact Hall|]. simpl. intros q Hq. destruct (is_sync q); [|done]. by specialize (Hq eq_refl).
  - intros Hp. destruct (decide (1 < k)%nat) as [Hlt|]; [|lia].
    apply Hk, Forall_cons in Hlt as [? _]. congruence.
Qed.
End SessionInv.
