(* ===== verification/SessionStep.v ===== *)
(** * The steps of a session

    Every call, thread and segment keeps the invariant. *)
From S2P Require Import Prelude Interfaces Packet Keys PacketQueue SendWindow RecvWindow.
From S2P Require Import Tcp TcpRecv TcpSend TcpConn Threads Connection Stream Session SessionInv.
From stdpp Require Import sorting.
Open Scope Z_scope.
Open Scope tcp_scope.

Section SessionStep.
Context {SWO : StopWatchOps} {TMO : TimerOps} {BFO : BufferOps} {MNO : MinOps}.
Context {Buffer_bytes : Buffer → list Z} {Buffer_capacity : Buffer → Z}.
Context {BFL : BufferLaws Buffer_bytes Buffer_capacity} {MNL : MinLaws}.
Implicit Types (x y t : TcpController) (X Y : endpoint) (sent L F G : list Packet) (A : gset nat) (R : Z).
Implicit Types gx gy : progress.

#[local] Abbreviation both := (both (Buffer_bytes := Buffer_bytes) (Buffer_capacity := Buffer_capacity)).
#[local] Abbreviation dir := (dir (Buffer_bytes := Buffer_bytes) (Buffer_capacity := Buffer_capacity)).
#[local] Abbreviation snd_ok := (snd_ok (Buffer_bytes := Buffer_bytes) (Buffer_capacity := Buffer_capacity)).
#[local] Abbreviation rcv_ok := (rcv_ok (Buffer_bytes := Buffer_bytes)).
#[local] Abbreviation window_ok := (window_ok (Buffer_capacity := Buffer_capacity)).

#[local] Abbreviation shape := (shape (Buffer_capacity := Buffer_capacity)).
#[local] Abbreviation syn_of := (syn_of (Buffer_capacity := Buffer_capacity)).
#[local] Abbreviation same_sender := (same_sender (Buffer_capacity := Buffer_capacity)).

(** ** Tasks *)

Lemma drop_task_frame k t : drop_task k t = t <| tc_tasks := tc_tasks (drop_task k t) |>.
Proof. unfold drop_task. repeat case_match; by destruct t. Qed.

Lemma drop_task_subset k k' t : k' ∈ tc_tasks (drop_task k t) → k' ∈ tc_tasks t.
Proof.
  unfold drop_task. repeat case_match; [|done]. simpl. intros Hk. eapply elem_of_sublist; [done|].
  apply sublist_delete.
Qed.

Lemma drop_task_other k k' t : k ≠ k' → k' ∈ tc_tasks t → k' ∈ tc_tasks (drop_task k t).
Proof.
  unfold drop_task. intros Hne Hk. case_match eqn:Hf; [|done]. destruct p as [i k0].
  apply list_find_Some in Hf as (Hi & Hk0 & _). simpl. subst k0.
  rewrite <- (take_drop_middle _ _ _ Hi) in Hk. rewrite delete_take_drop. set_solver.
Qed.

(** ** Receiving *)

(** The sender of [Y] sends more. *)
Lemma rcv_more sent ps A k taken y :
  rcv_ok sent A k taken y → (k ≤ length sent)%nat →
  Z.of_nat (length (drop k (sent ++ ps) ≫= packet_bytes)) <= Buffer_free_space (tc_recv_buffer y) →
  rcv_ok (sent ++ ps) A k taken y.
Proof.
  intros [(rs & Hrs & Hrep) Hov Hp He Hby Hfit] Hk Hlen.
  split; rewrite ?(take_app_le sent) by done; try done.
  exists rs. split; [by apply recv_stream_more|done].
Qed.

Lemma rcv_next sent A k taken y : rcv_ok sent A k taken y →
  (k ≤ length sent)%nat ∧ ∀ i, i ∈ A → (i < length sent)%nat.
Proof.
  intros [(rs & Hrs & _) _ _ _ _ _]. split; [apply Hrs|]. intros i. by eapply recv_stream_bound.
Qed.

(** ** The network *)

Lemma net_wider r sent A j k R R' F G :
  net_ok r sent A j k R F G → R <= R' → net_ok r sent A j k R' F G.
Proof. intros [] HR. split; try done. by eapply acks_later. Qed.

(** The packet that is not acknowledged is sent again. *)
Lemma net_resend r t sent A j k R F G p :
  net_ok r sent A j k R F G → shape r t sent → (k ≤ length sent)%nat →
  (j = 0%nat → (length sent ≤ 1)%nat) → sent !! j = Some p → net_ok r sent A j k R (F ++ [p]) G.
Proof.
  intros [Hf Hs Hfst Ha Hpos Hearly] Hsh Hk Hlen Hp. pose proof (acks_jk _ _ _ _ _ _ Ha) as Hjk.
  pose proof (shape_sync _ _ _ _ _ Hsh Hp) as Hsync.
  split; try done.
  - apply (flight_old _ _ _ _ _ (Some j)); [done|done|]. by intros i [= <-].
  - destruct (decide (j = 0%nat)) as [->|Hne]; [|by apply syn_first_snoc; [|rewrite Hsync, bool_decide_eq_false_2]].
    specialize (Hlen eq_refl). apply syn_first_more; [done|by apply Hfst|done|lia].
  - intros ->. apply Forall_app. split; [by apply Hfst|by constructor].
Qed.

(** A probe. *)
Lemma net_probe r sent A j k R F G p :
  net_ok r sent A j k R F G → (0 < j)%nat → carries sent None p → is_sync p = false →
  net_ok r sent A j k R (F ++ [p]) G.
Proof.
  intros [Hf Hs Hfst Ha Hpos Hearly] Hj Hc Hp. split; try done.
  - by apply (flight_old _ _ _ _ _ None).
  - by apply syn_first_snoc.
  - lia.
Qed.

(** New packets join the stream; whether they go to the network or not. *)
Lemma net_new r sent ps out A j k R F G :
  net_ok r sent A j k R F G → (0 < j)%nat → (k ≤ length sent)%nat → (∀ i, i ∈ A → (i < length sent)%nat) →
  Forall (λ p, is_sync p = false) ps → out = ps ∨ out = [] →
  net_ok r (sent ++ ps) A j k R (F ++ out) G.
Proof.
  intros [Hf Hs Hfst Ha Hpos Hearly] Hj Hk HA Hps Hout. split; try done.
  - destruct Hout as [->| ->]; [by apply flight_new|]. rewrite app_nil_r.
    destruct Hf as (os & Hos & Hnd). exists os. split; [|done].
    eapply Forall2_impl; [done|]. intros. by apply carries_app.
  - apply syn_first_app; [done|]. by destruct Hout as [->| ->].
  - lia.
  - by apply acks_more.
Qed.

(** A step on the receiving half of [Y]. *)
Lemma dir_progress r gx X gy gy' Y Y' :
  dir r gx X gy Y → rcv_ok (gh_sent gx) (gh_arrived gy') (gh_next gy') (gh_taken gy') (ep_tcp Y') →
  ep_read Y' `prefix_of` gh_taken gy' ∧ (ep_closed Y' = false → gh_taken gy' = ep_read Y') →
  limit (gh_sent gx) (gh_next gy) (ep_tcp Y) <= limit (gh_sent gx) (gh_next gy') (ep_tcp Y') →
  net_ok r (gh_sent gx) (gh_arrived gy') (gh_acked gx) (gh_next gy')
    (limit (gh_sent gx) (gh_next gy') (ep_tcp Y')) (stream_part (ep_net X)) (ack_part (ep_net Y')) →
  dir r gx X gy' Y'.
Proof. intros [] ? ? ? ?. split; try done. intros. etrans; [by auto|done]. Qed.

(** Bytes leave the receive buffer. *)
Definition taking (bs : list Z) (g : progress) : progress :=
  MkProgress (gh_sent g) (gh_acked g) (gh_arrived g) (gh_next g) (gh_taken g ++ bs).

Lemma dir_take r gx X gy Y Y' bs buf :
  dir r gx X gy Y → same_receiver ((ep_tcp Y) <| tc_recv_buffer := buf |>) (ep_tcp Y') →
  Buffer_bytes (tc_recv_buffer (ep_tcp Y)) = bs ++ Buffer_bytes buf →
  Buffer_capacity buf = Buffer_capacity (tc_recv_buffer (ep_tcp Y)) →
  ep_read Y' `prefix_of` gh_taken gy ++ bs ∧ (ep_closed Y' = false → gh_taken gy ++ bs = ep_read Y') →
  ack_part (ep_net Y') = ack_part (ep_net Y) → dir r gx X (taking bs gy) Y'.
Proof.
  intros Hd (E1 & E2 & E3 & E4 & E5) Hby Hcap Hrd Hack. simpl in *.
  pose proof (d_rcv _ _ _ _ _ Hd) as [Hwin Hov Hpipe Heof Hbytes Hfit].
  assert (Buffer_free_space (tc_recv_buffer (ep_tcp Y)) <= Buffer_free_space buf) as Hfree.
  { rewrite !Buffer_free_space_spec, Hcap, Hby, length_app. lia. }
  assert (limit (gh_sent gx) (gh_next gy) (ep_tcp Y) <= limit (gh_sent gx) (gh_next gy) (ep_tcp Y')) as Hl.
  { unfold limit. rewrite E3. lia. }
  eapply dir_progress; [exact Hd| |done|done|].
  - split; simpl; rewrite ?E1, ?E2, ?E3, ?E4, ?E5; try done.
    + intros He. specialize (Heof He). rewrite Hby in Heof. by apply app_nil in Heof as [_ ?].
    + by rewrite <- app_assoc, <- Hby.
    + lia.
  - simpl. rewrite Hack. eapply net_wider; [apply (d_net _ _ _ _ _ Hd)|done].
Qed.

(** The sending half of an end that does something else. *)
Lemma dir_sender_same r gx gx' X X' gy Y :
  dir r gx X gy Y → same_sender (ep_tcp X) (ep_tcp X') → same_state (ep_tcp X) (ep_tcp X') →
  ep_written X' = ep_written X → ep_closed X' = ep_closed X →
  gh_sent gx' = gh_sent gx → gh_acked gx' = gh_acked gx → (gh_next gx ≤ gh_next gx')%nat →
  stream_part (ep_net X') = stream_part (ep_net X) → dir r gx' X' gy Y.
Proof.
  intros Hd ? Hst ? Hc ? ? ? ?. eapply dir_sender; try done. rewrite Hc.
  eapply phase_same; [done|apply (d_phase _ _ _ _ _ Hd)].
Qed.

(** [X] adds [ps] to its stream, and sends [out]. *)
Lemma dir_sends r gx gx' X X' gy Y ps out :
  dir r gx X gy Y → (0 < gh_acked gx)%nat →
  gh_sent gx' = gh_sent gx ++ ps → gh_acked gx' = gh_acked gx → gh_next gx' = gh_next gx →
  (has_fin (gh_sent gx) = false ∧ Forall plain_segment ps) ∨ Forall fin_segment ps →
  stream_ok 0 (gh_sent gx ++ ps) →
  snd_ok (gh_sent gx ++ ps) (gh_acked gx) (ep_written X') (ep_tcp X') →
  phase r (gh_sent gx ++ ps) (gh_acked gx) (ep_closed X') (ep_tcp X') →
  Buffer_capacity (tc_recv_buffer (ep_tcp X')) = Buffer_capacity (tc_recv_buffer (ep_tcp X)) →
  Z.of_nat (length (drop (gh_next gy) (gh_sent gx ++ ps) ≫= packet_bytes)) <=
    Buffer_free_space (tc_recv_buffer (ep_tcp Y)) →
  (has_fin (gh_sent gx ++ ps) = false →
    sw_send_base (tc_send_window (ep_tcp X')) + sw_capacity (tc_send_window (ep_tcp X')) <=
    limit (gh_sent gx) (gh_next gy) (ep_tcp Y)) →
  out = ps ∨ out = [] → stream_part (ep_net X') = stream_part (ep_net X) ++ out → dir r gx' X' gy Y.
Proof.
  intros [Hst Hsh Hs Hph Hr Hrd Hn Hw Hx] Hj E1 E2 E3 Hps Hst' Hs' Hph' Hcap Hfit Hw' Hout Hnet.
  destruct (rcv_next _ _ _ _ _ Hr) as [Hk HA].
  assert (gh_sent gx ≠ []) as Hne.
  { destruct Hs as [[_ _ _ Hl _] _ _ _ _]. intros Hnil. rewrite Hnil in Hl. simpl in Hl. lia. }
  assert (Forall (λ p, is_sync p = false) ps) as Hsync.
  { destruct Hps as [[_ Hps]|Hps]; (eapply Forall_impl; [exact Hps|]); [by intros p []|].
    intros p [Hp _]. by apply fin_segment_flags. }
  assert (limit (gh_sent gx ++ ps) (gh_next gy) (ep_tcp Y) = limit (gh_sent gx) (gh_next gy) (ep_tcp Y)) as Hlim.
  { unfold limit. by rewrite spos_app. }
  split; rewrite ?E1, ?E2, ?E3, ?Hlim, ?Hnet; try done.
  - eapply shape_same; [exact Hcap|]. by apply shape_app.
  - by apply rcv_more.
  - by apply net_new.
  - auto.
Qed.

Lemma snd_same sent j wr t t' : tc_send_window t' = tc_send_window t → tc_send_buffer t' = tc_send_buffer t →
  snd_ok sent j wr t → snd_ok sent j wr t'.
Proof. intros E1 E2 [[] ? ? ? ?]. by split; [split|..]; rewrite ?E1, ?E2. Qed.

(** [X] may send the packet that is not acknowledged again. *)
Lemma dir_resend r gx gx' X X' gy Y o :
  dir r gx X gy Y → gh_sent gx' = gh_sent gx → gh_acked gx' = gh_acked gx → (gh_next gx ≤ gh_next gx')%nat →
  SendWindow_inv (tc_send_window (ep_tcp X')) →
  sw_packets (tc_send_window (ep_tcp X')) = drop (gh_acked gx) (gh_sent gx) →
  sw_send_base (tc_send_window (ep_tcp X')) = sw_send_base (tc_send_window (ep_tcp X)) →
  sw_capacity (tc_send_window (ep_tcp X')) = sw_capacity (tc_send_window (ep_tcp X)) →
  tc_send_buffer (ep_tcp X') = tc_send_buffer (ep_tcp X) →
  Buffer_capacity (tc_recv_buffer (ep_tcp X')) = Buffer_capacity (tc_recv_buffer (ep_tcp X)) →
  ep_written X' = ep_written X → phase r (gh_sent gx) (gh_acked gx) (ep_closed X') (ep_tcp X') →
  o = None ∨ o = gh_sent gx !! gh_acked gx →
  stream_part (ep_net X') = stream_part (ep_net X) ++ option_list o → dir r gx' X' gy Y.
Proof.
  intros [Hst Hsh [Hok Hend Hwr Hf Hfst] _ Hr Hrd Hn Hwin Hcr] E1 E2 Hle Hw Hpk Hb Hc Hsb Hcap Hwr' Hph Ho Hnet.
  destruct (rcv_next _ _ _ _ _ Hr) as [Hk _]. destruct Hok as [_ _ Hbase Hj Hbuf].
  split; rewrite ?E1, ?E2, ?Hwr', ?Hnet; try done.
  - by eapply shape_same.
  - split; rewrite ?Hsb; try done; [split; rewrite ?Hb, ?Hsb; done|]. by rewrite Hc.
  - destruct Ho as [->| ->]; [by rewrite app_nil_r|].
    destruct (gh_sent gx !! gh_acked gx) as [p|] eqn:Hp; simpl; [|by rewrite app_nil_r].
    eapply net_resend; [exact Hn|exact Hsh|done|apply Hfst|done].
  - by rewrite Hb, Hc.
  - intros Hp Hne. specialize (Hcr Hp Hne). lia.
Qed.

(** What is sent again is of the stream. *)
Lemma resend_parts r t sent j o : shape r t sent → o = None ∨ o = sent !! j →
  stream_part (option_list o) = option_list o ∧ ack_part (option_list o) = [].
Proof.
  intros Hsh [->|Ho]; [done|]. destruct o as [p|]; [|done]. unfold stream_part, ack_part. simpl.
  pose proof (shape_streamy _ _ _ _ _ Hsh (eq_sym Ho)) as Hp. by rewrite Hp, (streamy_not_ackish p Hp).
Qed.

Section calls.
Context (r : opener) (gx gy : progress) (t : TcpController) (net : list Packet) (w rd : list Z) (cl : bool).
Context (Y : endpoint).
Hypothesis Hboth : both r gx (MkEndpoint t net w rd cl) gy Y.

(** ** The calls of the program *)

Lemma keeps_write buf n t' : cl = false → ep_end t + Z.of_nat (length buf) < 4294967295 →
  TcpController_WriteData buf t = Some (n, t') →
  both r gx (MkEndpoint t' net (w ++ take (Z.to_nat n) buf) rd cl) gy Y.
Proof.
  intros Hcl Hlim. pose proof Hboth as [Hx Hy]. pose proof Hx as [Hst Hsh [Hok Hend Hwr Hfin Hfst] Hph _ _ _ _ _].
  pose proof Hph as [_ _ _ _ _ _ Hpf _ _]. simpl in *.
  unfold TcpController_WriteData. destruct (InClosingState (tc_state t)) eqn:Hc.
  { intros [= <- <-]. by rewrite take_0, app_nil_r. }
  destruct (WriteData_wait t); simpl; [|done]. destruct (tc_shutdown t) eqn:Hs; simpl.
  { intros [= <- <-]. by rewrite take_0, app_nil_r. }
  destruct (Buffer_Write buf (tc_send_buffer t)) as [m buf'] eqn:Hbw. intros [= <- <-].
  destruct (Buffer_Write_spec _ _ _ _ Hbw) as (Hm & Hby & Hcap).
  pose proof (Buffer_bounded (tc_send_buffer t)) as Hbd. pose proof Hok as [Hw Hpk Hbase Hj Hbuf].
  rewrite Buffer_free_space_spec in Hm. rewrite i32_small by word_lia.
  assert (has_fin (gh_sent gx) = false) as Hnf.
  { destruct (has_fin (gh_sent gx)); [|done]. specialize (Hpf eq_refl). by rewrite Hcl in Hpf. }
  unfold ep_end in Hlim. rewrite (window_end _ _ _ _ Hok) in Hlim.
  split; [|by eapply dir_receiver].
  destruct Hx as [_ _ _ _ Hr Hrd Hn Hwd Hcr].
  split; simpl in *; try done; [|by apply (phase_same _ _ _ _ t); [split_and!|]]. split; simpl; try done.
  - split; simpl; try done. by rewrite Hcap.
  - rewrite !Buffer_size_spec in *. rewrite Hby, length_app, length_take. lia.
  - by rewrite Hwr, Hby, app_assoc.
  - rewrite Hnf. done.
Qed.

Lemma keeps_read size n bytes t' : cl = false → 0 <= size < 2147483648 →
  TcpController_ReadData size t = Ok (Some (n, bytes, t')) →
  ∃ gx', both r gx' (MkEndpoint t' net w (rd ++ bytes) cl) gy Y.
Proof.
  intros Hcl Hsize. pose proof Hboth as [Hx Hy].
  pose proof Hy as [_ _ _ _ [Hwin Hov Hpipe Heof Hby Hfit] [Hrd1 Hrd2] Hn Hwd _]. simpl in *.
  assert (∀ bs buf, Buffer_Read size (tc_recv_buffer t) = (bs, buf) →
    ∃ gx', both r gx' (MkEndpoint (t <| tc_recv_buffer := buf |>) net w (rd ++ bs) cl) gy Y) as Htake.
  { intros bs buf Hr. destruct (Buffer_Read_spec _ _ _ _ (proj1 Hsize) Hr) as (Hbs & Hbuf & Hcap).
    exists (taking bs gx). split.
    - by eapply dir_sender_same.
    - eapply dir_take; [exact Hy|by split_and!|by rewrite Hbs, Hbuf, take_drop|done| |done]. simpl.
      by rewrite (Hrd2 Hcl). }
  unfold TcpController_ReadData. destruct (bool_decide_reflect (tc_pipe_state t = EOF_CONSUMED)) as [|Hne]; [done|].
  destruct (ReadData_wait t); simpl; [|done]. destruct (tc_shutdown t).
  { intros [= <- <- <-]. exists gx. by rewrite app_nil_r. }
  destruct (bool_decide_reflect (tc_pipe_state t = EOF_NOT_CONSUMED)) as [Hp|Hp]; simpl;
    destruct (Buffer_empty (tc_recv_buffer t)) eqn:He; simpl.
  2, 4: destruct (Buffer_Read size (tc_recv_buffer t)) as [bs buf]; intros [= <- <- <-]; by apply Htake.
  - apply Buffer_empty_spec in He. intros [= <- <- <-]. exists gx. rewrite app_nil_r.
    split; [by eapply dir_sender_same|].
    eapply dir_progress; [exact Hy| |done|done|apply Hn]. split; try done. simpl.
    rewrite Hp in Hpipe. by rewrite <- Hpipe.
  - intros [= <- <- <-]. exists gx. by rewrite app_nil_r.
Qed.

(** [TryShutDown] and [TryClose] add tasks. *)
Lemma keeps_tasks ts cl' : (cl = true → cl' = true) →
  (∀ k, k ∈ tc_tasks t → k ∈ ts) →
  (SendRSTForClosedConnection ∈ ts → SendRSTForClosedConnection ∈ tc_tasks t ∨ cl' = true) →
  both r gx (MkEndpoint (t <| tc_tasks := ts |>) net w rd cl') gy Y.
Proof.
  intros Hcl Hsub Hrst. eapply both_idle; [exact Hboth|by split_and!..|done|done| | |done|done].
  - simpl. destruct cl, cl'; naive_solver.
  - destruct Hboth as [[_ _ _ [H1 H2 H3 Hro H4 H5 H6 H7 H8] _ _ _ _ _] _]. simpl in *.
    assert (∀ b, tc_shutdown t || cl = b → b = true → tc_shutdown t || cl' = true) as Hor.
    { intros b <-. destruct (tc_shutdown t), cl; naive_solver. }
    split; simpl; try done.
    + intros Hc. destruct (H2 Hc) as [|Hs]; [by left|right; by eapply Hor].
    + destruct H5; [left; auto|by right].
    + intros Hf. specialize (H6 Hf). rewrite <- orb_assoc in *. destruct (InClosingState _); [done|].
      by eapply Hor.
    + intros Hin. destruct (Hrst Hin); auto.
Qed.

Lemma keeps_shutdown : both r gx (MkEndpoint (TcpController_TryShutDown t).2 net w rd cl) gy Y.
Proof.
  unfold TcpController_TryShutDown. case_match; [done|]. simpl. apply keeps_tasks; [done|set_solver|].
  intros [|Hin]%elem_of_app; [by left|set_solver].
Qed.

Lemma keeps_close : both r gx (MkEndpoint (TcpController_TryClose t).2 net w rd true) gy Y.
Proof.
  unfold TcpController_TryClose, TcpController_TryShutDown, TcpController_CloseConnection, TcpController_AddTask.
  destruct (InClosingState (tc_state t)); simpl.
  - apply (keeps_tasks (tc_tasks t ++ [SendRSTForClosedConnection])); [done|set_solver|by right].
  - apply (keeps_tasks ((tc_tasks t ++ [SendFIN]) ++ [SendRSTForClosedConnection])); [done|set_solver|by right].
Qed.
End calls.

(** ** The threads that send *)

Section threads.
Context (r : opener) (gx gy : progress) (t : TcpController) (net : list Packet) (w rd : list Z) (cl : bool).
Context (Y : endpoint).
Hypothesis Hboth : both r gx (MkEndpoint t net w rd cl) gy Y.


(** The connection [t'] after a step, with the packets it added to its queue. *)
Definition stepped t' : Prop :=
  ∃ gx' ps, pq_packets (tc_pkt_send_buffer t') = pq_packets (tc_pkt_send_buffer t) ++ ps ∧
    pq_packets (tc_pkt_recv_buffer t') = pq_packets (tc_pkt_recv_buffer t) ∧
    both r gx' (MkEndpoint t' (net ++ ps) w rd cl) gy Y.

Definition sending (ps : list Packet) (g : progress) : progress :=
  MkProgress (gh_sent g ++ ps) (gh_acked g) (gh_arrived g) (gh_next g) (gh_taken g).

Lemma plain_parts ps : Forall plain_segment ps → stream_part ps = ps ∧ ack_part ps = [].
Proof.
  induction 1 as [|p ps Hp _ [IH1 IH2]]; [done|]. unfold stream_part, ack_part in *. simpl.
  assert (streamy p = true ∧ ackish p = false) as [-> ->]
    by (unfold streamy, ackish; by rewrite (plain_segment_of p Hp)). by rewrite IH1.
Qed.

Lemma keeps_send now t' : SendBufferListener ∉ tc_tasks t →
  TcpController_SendBufferListener_round now t = Ok t' → stepped t'.
Proof.
  intros Hls Hround. pose proof Hboth as [Hx Hy]. pose proof Hx as [Hst Hsh [Hok Hend Hwr Hfin Hfst] Hph Hr _ _ Hwin _].
  simpl in *. assert (0 < gh_acked gx)%nat as Hj by by destruct (ph_listener _ _ _ _ _ Hph).
  destruct (round_sends 0 _ _ t now Hst Hok ltac:(lia)) as (ps & t1 & Hr1 & Hf & Hps & Hst' & Hok' & Hq & Hby & Hc & He & Hl & _).
  rewrite Hround in Hr1. apply Ok_inj in Hr1 as <-. exists (sending ps gx), ps.
  rewrite Hq. split; [done|]. split; [by rewrite Hf|].
  destruct (plain_parts ps Hps) as [Hp1 Hp2]. destruct (rcv_next _ _ _ _ _ Hr) as [Hk _].
  assert (has_fin (gh_sent gx) = true → ps = []) as Hnil.
  { intros Hf1%Hfin. rewrite Hf1 in Hby. symmetry in Hby. apply app_nil in Hby as [Hby _].
    destruct Hps as [|p ps Hp _]; [done|]. exfalso. destruct (pl_data _ Hp) as [Hlen Hpos].
    csimpl in *. apply app_nil in Hby as [Hby _]. rewrite Hby in Hlen. simpl in Hlen. lia. }
  assert (has_fin ps = false) as Hnf.
  { clear -Hps. induction Hps as [|p ps [] _ IH]; [done|]. simpl. by rewrite IH, orb_false_r. }
  split; [|eapply dir_receiver; [exact Hy|..]; try done; [by rewrite Hf; split_and!|]].
  2: { simpl. by rewrite ack_part_app, Hp2, app_nil_r. }
  eapply (dir_sends _ _ _ _ _ _ _ ps ps); [exact Hx|done|done|done|done| |done| | |by rewrite Hf| | |by left|].
  - destruct (has_fin (gh_sent gx)); [right; by rewrite Hnil|by left].
  - split; simpl; [done|lia| | |lia].
    + by rewrite Hwr, Hby, bind_app, app_assoc.
    + rewrite has_fin_app, Hnf, orb_false_r. intros Hf1. rewrite (Hfin Hf1) in Hby. symmetry in Hby.
      by apply app_nil in Hby as [_ ?].
  - destruct Hph as [H1 H2 H3 Hro H4 H5 H6 H7 H8]. rewrite Hf.
    split; simpl; rewrite ?has_fin_app, ?Hnf, ?orb_false_r; try done.
    + intros Hs. destruct (H1 Hs). lia.
    + intros Hs. destruct (H2 Hs) as [Hs0|]; [|by right].
      destruct Hok as [_ _ _ Hle _]. rewrite Hs0 in Hle. simpl in Hle. lia.
    + by rewrite Hq.
  - destruct ps as [|p0 ps0] eqn:Hps0; [rewrite app_nil_r; apply Hr|]. rewrite <- Hps0 in *.
    destruct (has_fin (gh_sent gx)) eqn:Hf1; [by rewrite Hnil in Hps0|].
    assert (0 < total_len ps) as Hpos.
    { rewrite Hps0 in Hps |- *. apply Forall_cons in Hps as [[[_ Hp] _ _ _ _ _] Hps].
      rewrite total_len_cons. assert (0 <= total_len ps0); [|unfold pkt_len; lia]. apply data_total_nonneg.
      eapply Forall_impl; [exact Hps|]. by intros q []. }
    specialize (Hwin Hj eq_refl). unfold limit in Hwin.
    assert (shape r t (gh_sent gx ++ ps)) as Hsh'.
    { apply shape_app; [done| |by left]. intros Hnil0. destruct Hok as [_ _ _ Hle _].
      rewrite Hnil0 in Hle. simpl in Hle. lia. }
    pose proof (shape_bytes _ _ _ (gh_next gy) Hsh') as Hb.
    pose proof (SendWindow_free_space_eq _ (wk_window _ _ _ _ Hok)) as Hfs.
    pose proof (window_end _ _ _ _ Hok) as Hwe. unfold spos in Hwin.
    assert (total_len (gh_sent gx ++ ps) = total_len (take (gh_next gy) (gh_sent gx)) +
      total_len (drop (gh_next gy) (gh_sent gx ++ ps))) as Ht.
    { rewrite <- (take_app_le (gh_sent gx) ps) by done. by rewrite <- total_len_app, take_drop. }
    rewrite total_len_app in Ht. lia.
  - rewrite has_fin_app, Hnf, orb_false_r. intros Hf1. simpl.
    rewrite Hc, (wk_base _ _ _ _ Hok'), spos_app, <- (wk_base _ _ _ _ Hok) by apply Hok. by apply Hwin.
  - simpl. by rewrite stream_part_app, Hp1.
Qed.
(** A task ends. *)
Lemma stepped_drop k t' : k ≠ SendBufferListener → stepped t' → stepped (drop_task k t').
Proof.
  intros Hk (gx' & ps & Hq & Hq' & H). exists gx', ps. rewrite drop_task_frame.
  split; [done|]. split; [done|]. destruct H as [H1 H2].
  assert (∀ k', k' ≠ k → k' ∈ tc_tasks t' → k' ∈ tc_tasks (drop_task k t')) as Hoth.
  { intros k' Hne. by apply drop_task_other. }
  pose proof (drop_task_subset k) as Hsub.
  eapply both_idle; [by split; [exact H1|exact H2]|by split_and!|by split_and!|done|done|done| |done|done].
  destruct (d_phase _ _ _ _ _ H1) as [P1 P2 P3 Pro P4 P5 P6 P7 P8]. simpl in *. split; simpl; try done.
  - destruct P5; [left; by apply Hoth|by right].
  - intros Hin. by eapply P7, Hsub.
Qed.

Lemma stepped_refl : stepped t.
Proof. exists gx, []. by rewrite !app_nil_r. Qed.

Lemma acked_pos : 0 < sw_send_base (tc_send_window t) → (0 < gh_acked gx)%nat.
Proof.
  destruct Hboth as [[_ _ [[_ _ Hb _ _] _ _ _ _] _ _ _ _ _ _] _]. simpl in Hb. rewrite Hb.
  destruct (gh_acked gx); [done|lia].
Qed.

Lemma fin_parts f : segment_of f = SegFin → stream_part [f] = [f] ∧ ack_part [f] = [] ∧ has_fin [f] = true.
Proof.
  intros Hf. unfold stream_part, ack_part, streamy, ackish. simpl. rewrite Hf.
  by rewrite (proj1 (fin_segment_flags f Hf)).
Qed.

Lemma keeps_fin now t' : 0 < sw_send_base (tc_send_window t) → ep_end t + 1 < 4294967295 →
  TcpController_SendFIN now t = Ok (Some t') → stepped t'.
Proof.
  intros Hbase Hend Hfin. apply acked_pos in Hbase as Hj. destruct (tc_shutdown t) eqn:Hup.
  { unfold TcpController_SendFIN in Hfin. rewrite Hup in Hfin. injection Hfin as <-. apply stepped_refl. }
  pose proof Hboth as [Hx Hy]. pose proof Hx as [Hst Hsh [Hok Hend0 Hwr Hf Hfst] Hph Hr _ _ Hwin _].
  unfold ep_end in Hend. simpl in *. rewrite (window_end _ _ _ _ Hok) in Hend.
  rewrite Buffer_size_spec in *.
  destruct (fin_sends 0 _ _ t now t' Hst Hok ltac:(lia) Hup Hfin)
    as (f & w' & o & s & tm & ft & -> & Hem & Hseg & Hlen & Hby & Hst' & Hok' & Ho).
  rewrite SendPacket_frame in *. destruct (fin_parts f Hseg) as (Hs1 & Hs2 & Hs3).
  destruct (rcv_next _ _ _ _ _ Hr) as [Hk _].
  assert (Forall fin_segment [f]) as Hfs by by repeat constructor.
  exists (sending [f] gx), (option_list o). split; [done|]. split; [done|].
  assert (option_list o = [f] ∨ option_list o = []) as Hout by (destruct Ho as [[-> _]|[-> _]]; auto).
  assert (gh_sent gx ≠ []) as Hne.
  { intros Hnil. destruct Hok as [_ _ _ Hl _]. rewrite Hnil in Hl. simpl in Hl. lia. }
  split; [|eapply dir_receiver; [exact Hy|by split_and!|done..|]]; last first.
  { simpl. rewrite ack_part_app. by destruct Hout as [-> | ->]; rewrite ?Hs2, app_nil_r. }
  eapply (dir_sends _ _ _ _ _ _ _ [f] (option_list o)); [exact Hx|done|done|done|done|by right|done| | |done| | |done|].
  - split; simpl; [done| | | |lia].
    + rewrite Hem in *. rewrite total_len_app, Buffer_size_spec, Hem. change (total_len [f]) with (pkt_len f + 0).
      simpl in *. lia.
    + by rewrite Hwr, bind_app, Hem; csimpl; rewrite Hby, !app_nil_r.
    + done.
  - destruct Hph as [H1 H2 H3 Hro H4 H5 H6 H7 H8].
    split; simpl; rewrite ?has_fin_app; try done.
    + intros Hs. destruct Ho as [(_ & [[_ ->]|[_ ->]])|(_ & -> & _)]; [naive_solver..|].
      destruct (H1 Hs). lia.
    + intros ->. right. destruct Ho as [(_ & [[_ ?]|[_ ?]])|(_ & Hs & _)]; [done..|]. symmetry in Hs.
      by destruct (H2 Hs).
    + destruct Ho as [(_ & [[_ ->]|[_ ->]])|(_ & -> & _)]; done.
    + intros ->. destruct Ho as [(_ & [[_ ?]|[_ ?]])|(_ & Hs & _)]; [done..|]. by apply Hro.
    + lia.
    + intros _. destruct Ho as [(_ & [[_ ->]|[_ ->]])|(_ & -> & Hs1' & Hs2')]; [done..|].
      destruct (tc_state t); try done; [|destruct H1; [auto|lia]..]. by destruct (H2 eq_refl).
  - rewrite drop_app_le, bind_app by done. csimpl. rewrite Hby, !app_nil_r. apply Hr.
  - rewrite has_fin_app, Hs3, orb_true_r. done.
  - simpl. rewrite stream_part_app. by destruct Hout as [-> | ->]; rewrite ?Hs1.
Qed.
(** A step that touches neither half, and may send what belongs to no stream. *)
Lemma stepped_idle t' ps :
  pq_packets (tc_pkt_send_buffer t') = pq_packets (tc_pkt_send_buffer t) ++ ps →
  pq_packets (tc_pkt_recv_buffer t') = pq_packets (tc_pkt_recv_buffer t) →
  stream_part ps = [] → ack_part ps = [] → same_sender t t' → same_receiver t t' →
  phase r (gh_sent gx) (gh_acked gx) cl t' → stepped t'.
Proof.
  intros Hq1 Hq2 Hs Ha ? ? ?. exists gx, ps. split; [done|]. split; [done|].
  eapply both_idle; [exact Hboth|done..| |]; simpl.
  - by rewrite stream_part_app, Hs, app_nil_r.
  - by rewrite ack_part_app, Ha, app_nil_r.
Qed.

Lemma phase_down sent j c t1 t2 : phase r sent j c t1 → tc_state t2 = tc_state t1 → tc_tasks t2 = tc_tasks t1 →
  tc_pkt_send_buffer t2 = tc_pkt_send_buffer t1 → tc_pkt_recv_buffer t2 = tc_pkt_recv_buffer t1 →
  (tc_shutdown t1 = true → tc_shutdown t2 = true) → phase r sent j c t2.
Proof.
  intros [H1 H2 H3 Hro H4 H5 H6 H7 H8] E1 E2 E3 E4 Hs.
  split; rewrite ?E1, ?E2, ?E3, ?E4; try done.
  - intros Hc. destruct (H2 Hc) as [|Ho]; [by left|right].
    apply orb_true_iff in Ho as [->%Hs | ->]; [done|by rewrite orb_true_r].
  - intros Hf%H6. rewrite !orb_true_iff in *. naive_solver.
Qed.

Lemma CloseAndDelete_shutdown t1 : tc_shutdown (TcpController_CloseAndDelete t1) = true.
Proof. unfold TcpController_CloseAndDelete. by destruct (tc_shutdown t1) eqn:?. Qed.

Lemma CloseAndDelete_frame t1 : ∃ b, TcpController_CloseAndDelete t1 =
  t1 <| tc_shutdown := true |> <| tc_deleting := b |>.
Proof.
  unfold TcpController_CloseAndDelete. destruct (tc_shutdown t1) eqn:Hs; [|by exists true].
  exists (tc_deleting t1). destruct t1; simpl in *. by subst.
Qed.

Lemma keeps_delete n : stepped (TcpController_CloseAndDelete (t <| tc_kill_threads := n |>)).
Proof.
  destruct (CloseAndDelete_frame (t <| tc_kill_threads := n |>)) as [b ->].
  apply (stepped_idle _ []); simpl; [by rewrite app_nil_r|done|done|done|by split_and!|by split_and!|].
  destruct Hboth as [Hx _]. by apply (phase_down _ _ _ t); [apply (d_phase _ _ _ _ _ Hx)|..].
Qed.

Lemma keeps_timeout : stepped (TcpController_CloseAndDelete t).
Proof.
  assert (t <| tc_kill_threads := tc_kill_threads t |> = t) as Ht by (by destruct t).
  rewrite <- Ht at 1. apply keeps_delete.
Qed.

Lemma keeps_kill : stepped (TcpController_kill_thread t).
Proof. unfold TcpController_kill_thread. destruct (tc_kill_threads t); [apply stepped_refl|apply keeps_delete]. Qed.

Lemma keeps_listen : tc_shutdown t = false → SendBufferListener_state_wait t = true →
  stepped (drop_task SendBufferListener t).
Proof.
  intros Hup Hw. unfold SendBufferListener_state_wait in Hw. rewrite Hup in Hw. simpl in Hw.
  pose proof Hboth as [Hx _]. destruct (d_phase _ _ _ _ _ Hx) as [H1 H2 H3 Hro H4 H5 H6 H7 H8]. simpl in *.
  pose proof (drop_task_subset SendBufferListener) as Hsub.
  rewrite drop_task_frame. apply (stepped_idle _ []); simpl; [by rewrite app_nil_r|done|done|done|by split_and!|by split_and!|].
  split; simpl; try done.
  - right. destruct (decide (gh_acked gx = 0%nat)) as [Hz|]; [|lia]. by rewrite H4 in Hw.
  - intros Hin. by eapply H7, Hsub.
Qed.

Lemma keeps_overflow t' : TcpController_ReceiveBufferListener_round t = Some t' → stepped t'.
Proof.
  destruct Hboth as [_ Hy]. pose proof (d_rcv _ _ _ _ _ Hy) as [_ Hov _ _ _ _]. simpl in Hov.
  unfold TcpController_ReceiveBufferListener_round. repeat case_match; try done. intros [= <-].
  assert (TcpController_PushOverflowedPacketsToSocketBuffer t = t) as ->; [|apply stepped_refl].
  unfold TcpController_PushOverflowedPacketsToSocketBuffer. rewrite Hov. simpl. destruct t; simpl in *. by subst.
Qed.

(** The retransmission timer. *)
Lemma keeps_retransmit : stepped (TcpController_TimeoutReTransmitter t).
Proof.
  pose proof Hboth as [Hx Hy]. pose proof Hx as [Hst Hsh [Hok _ _ _ _] Hph _ _ _ _ _]. simpl in *.
  destruct (timeout_resends 0 _ _ t Hst Hok) as (w' & s1 & s2 & s3 & -> & Hw & Hpk & Hb & Hc).
  rewrite SendPacket_frame. set (o := gh_sent gx !! gh_acked gx) in *.
  exists gx, (option_list o). split; [done|]. split; [done|].
  assert (o = None ∨ o = gh_sent gx !! gh_acked gx) as Ho by by right.
  destruct (resend_parts _ _ _ _ o Hsh Ho) as [Hs1 Ha1]. clearbody o.
  split; [|eapply dir_receiver; [exact Hy|by split_and!|done..|]].
  - eapply (dir_resend _ _ _ _ _ _ _ o); try done; [by apply (phase_same _ _ _ _ t)|].
    simpl. by rewrite stream_part_app, Hs1.
  - simpl. by rewrite ack_part_app, Ha1, app_nil_r.
Qed.

(** The window prober. *)
Lemma keeps_probe : stepped (TcpController_ProbeWindowSize t).
Proof.
  unfold TcpController_ProbeWindowSize. destruct (Z.eqb_spec (sw_capacity (tc_send_window t)) 0) as [Hz|];
    [|apply stepped_refl].
  pose proof Hboth as [Hx Hy]. pose proof Hx as [Hst Hsh [Hok Hend Hwr Hf Hfst] Hph Hr Hrd Hn Hwin Hcr]. simpl in *.
  set (p := Packet_Copy _). assert (carries (gh_sent gx) None p ∧ is_sync p = false) as [Hc Hs] by done.
  exists gx, [p]. split; [done|]. split; [done|].
  split; [|eapply dir_receiver; [exact Hy|by split_and!|done..|]]; last first.
  { simpl. by rewrite ack_part_app, app_nil_r. }
  split; simpl; try done; [by apply (snd_same _ _ _ t)|by apply (phase_same _ _ _ _ t)|].
  rewrite stream_part_app. apply net_probe; [done| |done|done].
  destruct (decide (gh_acked gx = 0%nat)) as [H0|]; [|lia]. by destruct (Hfst H0).
Qed.
Lemma rst_parts p : segment_of p = SegRst → stream_part [p] = [] ∧ ack_part [p] = [].
Proof. intros Hp. unfold stream_part, ack_part, streamy, ackish. simpl. by rewrite Hp. Qed.

(** [SendRSTForClosedConnection]: what the program will not read is thrown away. *)
Lemma keeps_reset t' : SendRSTForClosedConnection ∈ tc_tasks t →
  TcpController_SendRSTForClosedConnection_round t = Some t' → stepped t'.
Proof.
  intros Hin. pose proof Hboth as [Hx Hy]. destruct (d_phase _ _ _ _ _ Hx) as [H1 H2 H3 Hro H4 H5 H6 H7 H8].
  specialize (H7 Hin). simpl in *. unfold TcpController_SendRSTForClosedConnection_round.
  destruct (tc_shutdown t) eqn:Hup; [done|]. destruct (SendRST_wait t); [|done]. simpl. intros [= <-].
  set (p := TcpController_MakeRstPacket _). destruct (rst_parts p eq_refl) as [Hp1 Hp2].
  destruct (Buffer_Clear_spec (tc_recv_buffer t)) as [Hb Hc].
  exists (taking (Buffer_bytes (tc_recv_buffer t)) gx), [p]. split; [done|]. split; [done|]. split.
  - eapply dir_sender; [exact Hx|by split_and!|done|done|done|done| |simpl; by rewrite stream_part_app, Hp1, app_nil_r].
    simpl. rewrite H7. split; simpl; rewrite ?orb_true_r; try done; [naive_solver|by right].
  - eapply dir_take; [exact Hy|by split_and!|simpl; by rewrite Hb, app_nil_r|done| |].
    + simpl. split; [|congruence]. destruct (d_read _ _ _ _ _ Hy) as [Hp _]. simpl in Hp. by apply prefix_app_r.
    + simpl. by rewrite ack_part_app, Hp2, app_nil_r.
Qed.
End threads.
End SessionStep.
