(* ===== verification/SessionRecv.v ===== *)
(** * The segments of a session

    Every segment that arrives, and every one that is lost, keeps the invariant;
    and no handler fails. *)
From S2P Require Import Prelude Interfaces Packet Keys PacketQueue SendWindow RecvWindow.
From S2P Require Import Tcp TcpRecv TcpSend TcpConn Threads Connection Stream Session SessionInv SessionStep.
From stdpp Require Import sorting.
Open Scope Z_scope.
Open Scope tcp_scope.

Section SessionRecv.
Context {SWO : StopWatchOps} {TMO : TimerOps} {BFO : BufferOps} {MNO : MinOps}.
Context {Buffer_bytes : Buffer → list Z} {Buffer_capacity : Buffer → Z}.
Context {BFL : BufferLaws Buffer_bytes Buffer_capacity} {MNL : MinLaws}.
Implicit Types (x y t : TcpController) (X Y : endpoint) (sent L F G : list Packet) (A : gset nat) (R : Z).
Implicit Types gx gy : progress.

#[local] Abbreviation both := (both (Buffer_bytes := Buffer_bytes) (Buffer_capacity := Buffer_capacity)).
#[local] Abbreviation dir := (dir (Buffer_bytes := Buffer_bytes) (Buffer_capacity := Buffer_capacity)).
#[local] Abbreviation snd_ok := (snd_ok (Buffer_bytes := Buffer_bytes) (Buffer_capacity := Buffer_capacity)).
#[local] Abbreviation rcv_ok := (rcv_ok (Buffer_bytes := Buffer_bytes)).
#[local] Abbreviation window_ok := (window_ok (Buffer_capacity := Buffer_capacity)).

#[local] Abbreviation shape := (shape (Buffer_capacity := Buffer_capacity)).
#[local] Abbreviation syn_of := (syn_of (Buffer_capacity := Buffer_capacity)).
#[local] Abbreviation same_sender := (same_sender (Buffer_capacity := Buffer_capacity)).


(** ** Losses *)

Lemma net_lose r sent A j k R F G F' G' : net_ok r sent A j k R F G →
  F' = F ∨ (∃ F1 p F2, F = F1 ++ p :: F2 ∧ F' = F1 ++ F2) →
  G' = G ∨ (∃ G1 p G2, G = G1 ++ p :: G2 ∧ G' = G1 ++ G2) → net_ok r sent A j k R F' G'.
Proof.
  intros [Hf Hs Hfst Ha Hpos Hearly] HF HG. split.
  - destruct HF as [->|(F1 & p & F2 & -> & ->)]; [done|by eapply flight_take].
  - destruct HF as [->|(F1 & p & F2 & -> & ->)]; [done|by eapply syn_first_take].
  - intros Hj. specialize (Hfst Hj). destruct HF as [->|(F1 & p & F2 & -> & ->)]; [done|].
    rewrite Forall_app, Forall_cons in Hfst. rewrite Forall_app. naive_solver.
  - destruct HG as [->|(G1 & p & G2 & -> & ->)]; [done|by eapply acks_take].
  - destruct HG as [->|(G1 & p & G2 & -> & ->)]; [done|].
    rewrite Forall_app, Forall_cons in Hpos. rewrite Forall_app. naive_solver.
  - intros Hr Hj. specialize (Hearly Hr Hj). destruct HG as [->|(G1 & p & G2 & -> & ->)]; [done|].
    by destruct G1.
Qed.

Lemma filter_lose (f : Packet → bool) L1 p L2 :
  List.filter f (L1 ++ L2) = List.filter f (L1 ++ p :: L2) ∨
  ∃ F1 q F2, List.filter f (L1 ++ p :: L2) = F1 ++ q :: F2 ∧ List.filter f (L1 ++ L2) = F1 ++ F2.
Proof.
  rewrite !List.filter_app. simpl. destruct (f p); [right|by left].
  by exists (List.filter f L1), p, (List.filter f L2).
Qed.

(** One packet on its way from [X] is lost. *)
Lemma both_lose r gx X X' gy Y L1 p L2 : both r gx X gy Y → ep_net X = L1 ++ p :: L2 →
  X' = MkEndpoint (ep_tcp X) (L1 ++ L2) (ep_written X) (ep_read X) (ep_closed X) → both r gx X' gy Y.
Proof.
  intros [H1 H2] He ->. destruct X as [t net w rd cl]. simpl in *. subst net.
  destruct H1 as [P1 P2 P3 P4 P5 P6 P7 P8 P9], H2 as [Q1 Q2 Q3 Q4 Q5 Q6 Q7 Q8 Q9]. simpl in *.
  split; split; simpl; try done.
  - eapply net_lose; [exact P7|apply filter_lose|by left].
  - eapply net_lose; [exact Q7|by left|apply filter_lose].
Qed.

Lemma other_other r : other (other r) = r.
Proof. by destruct r. Qed.

Lemma both_sym r gx X gy Y : both r gx X gy Y → both (other r) gy Y gx X.
Proof. intros [H1 H2]. split; [done|]. by destruct r. Qed.

(** ** The receiving half *)

Lemma spos_positive sent k : stream_ok 0 sent → (0 < k ≤ length sent)%nat → 0 < spos 0 sent k.
Proof.
  intros [Hb Hc _ Hend] Hk. destruct (lookup_lt_is_Some_2 sent 0) as [p Hp]; [lia|].
  pose proof (spos_lt 0 sent Hc 0 k p Hp ltac:(lia)). destruct (stream_lookup 0 sent Hb Hc Hend 0 p Hp) as (_ & ? & ? & _). lia.
Qed.

(** What delivery may change. *)
Definition deliver_frame y y1 : Prop :=
  y1 = y <| tc_recv_window := tc_recv_window y1 |> <| tc_recv_nodes := tc_recv_nodes y1 |>
         <| tc_recv_buffer := tc_recv_buffer y1 |> <| tc_pipe_state := tc_pipe_state y1 |>.

(** The bytes of a run of packets, in the buffer that has room for all. *)
Lemma run_fits r t sent A k taken y n : shape r t sent → rcv_ok sent A k taken y → (0 < k)%nat →
  let run := take n (drop k sent) in
  Forall (λ q, is_sync q = false) run ∧ Forall data_packet (before_fin run) ∧
  total_len (before_fin run) <= Buffer_free_space (tc_recv_buffer y) ∧
  total_len (before_fin run) = Z.of_nat (length (run ≫= packet_bytes)) ∧
  before_fin run ≫= packet_bytes = run ≫= packet_bytes ∧ total_len (before_fin run) <= total_len run.
Proof.
  intros Hsh [_ _ _ _ _ Hfit] Hk run. destruct (shape_tail r t sent k n Hsh Hk) as (d & fs & Hrun & Hd & Hfs).
  fold run in Hrun. destruct (tail_facts d fs Hd Hfs) as (Hs & Hbf & Hdd & Hb & _). rewrite Hrun, Hbf, Hb.
  pose proof (bytes_total d Hdd) as Ht.
  assert (Z.of_nat (length (run ≫= packet_bytes)) <= Z.of_nat (length (drop k sent ≫= packet_bytes))) as Hle.
  { rewrite <- (take_drop n (drop k sent)). fold run. rewrite bind_app, length_app. lia. }
  rewrite Hrun, Hb in Hle. split_and!; try done; [lia|].
  rewrite total_len_app. assert (0 <= total_len fs); [|lia].
  clear -Hfs. induction Hfs as [|f fs (_ & Hl & _) _ IH]; [done|]. rewrite total_len_cons. lia.
Qed.

(** A packet of the stream arrives behind the SYN. *)
Lemma rcv_arrive r t sent A k taken y i p : stream_ok 0 sent → shape r t sent → rcv_ok sent A k taken y →
  (0 < k)%nat → sent !! i = Some p → ¬ queued A i →
  ∃ k' y1, ('(ack_number, chain, t) ← TcpController_receive p y;
      t ← TcpController_StreamDataToReceiveBuffer chain t;
      Ok (TcpController_SendPacket (Some (TcpController_MakeAckPacket ack_number t)) t)) =
      Ok (TcpController_SendPacket (Some (TcpController_MakeAckPacket (spos 0 sent k') y1)) y1) ∧
    (k ≤ k')%nat ∧ rcv_ok sent (A ∪ {[i]}) k' taken y1 ∧ limit sent k y <= limit sent k' y1 ∧
    deliver_frame y y1 ∧ Buffer_capacity (tc_recv_buffer y1) = Buffer_capacity (tc_recv_buffer y).
Proof.
  intros Hst Hsh Hr Hk Hi Hnq. pose proof Hr as [(rs & Hrs & Hrep) Hov Hpipe Heof Hby Hfit].
  destruct (receive_streams 0 sent A k rs y i p Hst Hrs Hrep Hov Hi Hnq)
    as (k' & w & h & buf & rs' & Heq & Hk' & Hrs' & Hrep' & Hbuf & Hfree).
  { intros n. destruct (run_fits r t sent A k taken y n Hsh Hr Hk) as (? & ? & ? & _). by split_and!. }
  destruct (run_fits r t sent A k taken y (k' - k) Hsh Hr Hk) as (_ & _ & _ & Hlen & Hbb & Hle).
  set (run := take (k' - k) (drop k sent)) in *. rewrite Hbb in Hbuf. exists k'. eexists. split; [exact Heq|].
  assert (take k' sent = take k sent ++ run) as Htk.
  { subst run. rewrite take_take_drop. f_equal. lia. }
  assert (drop k sent = run ++ drop k' sent) as Hdk.
  { subst run. rewrite <- (take_drop (k' - k) (drop k sent)) at 1. rewrite drop_drop. do 2 f_equal. lia. }
  pose proof (spos_run 0 sent k k' Hk') as Hrun. fold run in Hrun.
  split; [done|]. split; [|split; [|split]].
  - assert (∀ y1, tc_recv_window y1 = w → tc_recv_nodes y1 = h → tc_recv_buffer y1 = buf →
      tc_overflow_pkts y1 = [] → tc_pipe_state y1 = (if has_fin run then EOF_NOT_CONSUMED else tc_pipe_state y) →
      rcv_ok sent (A ∪ {[i]}) k' taken y1) as Hok.
    { intros y1 E1 E2 E3 E4 E5. split; rewrite ?E1, ?E2, ?E3, ?E4, ?E5.
      - by exists rs'.
      - done.
      - rewrite Htk, has_fin_app. destruct (has_fin run); [by rewrite orb_true_r|by rewrite orb_false_r].
      - destruct (has_fin run); [done|]. intros He. rewrite Hbuf, (Heof He). rewrite He in Hpipe.
        assert (has_fin (take k sent) = true) as Hf by (by destruct (has_fin (take k sent))).
        pose proof (shape_fin_last r t sent k Hsh Hf) as Hnil. rewrite Hdk, bind_app in Hnil.
        by apply app_nil in Hnil as [-> _].
      - by rewrite Hbuf, Htk, bind_app, app_assoc, Hby.
      - rewrite Hdk, bind_app, length_app in Hfit. lia. }
    destruct (has_fin run); by apply Hok.
  - unfold limit. destruct (has_fin run); simpl; lia.
  - unfold deliver_frame. destruct (has_fin run), y; done.
  - assert (Buffer_capacity buf = Buffer_capacity (tc_recv_buffer y)) as Hcap.
    { rewrite !Buffer_free_space_spec, Hbuf, length_app in Hfree. lia. }
    by destruct (has_fin run).
Qed.

(** An end sends its first segment. *)
Lemma dir_first r gx gx' X X' gy Y sa now :
  dir r gx X gy Y → gh_sent gx = [] → syn_of r (ep_tcp X') sa → pkt_seq sa = 0 → Packet_Copy sa = sa →
  gh_sent gx' = [sa] → gh_acked gx' = gh_acked gx → (r = Passive → 0 < gh_next gx')%nat →
  sw_send_base (tc_send_window (ep_tcp X)) + sw_size (tc_send_window (ep_tcp X)) = 0 →
  tc_send_window (ep_tcp X') = SendWindow_enqueue now sa (tc_send_window (ep_tcp X)) →
  tc_send_buffer (ep_tcp X') = tc_send_buffer (ep_tcp X) →
  tc_state (ep_tcp X') = match r with Active => SYN_SENT | Passive => SYN_RCVD end →
  tc_tasks (ep_tcp X') = tc_tasks (ep_tcp X) → tc_shutdown (ep_tcp X') = tc_shutdown (ep_tcp X) →
  pq_destroy (tc_pkt_send_buffer (ep_tcp X')) = pq_destroy (tc_pkt_send_buffer (ep_tcp X)) →
  pq_destroy (tc_pkt_recv_buffer (ep_tcp X')) = pq_destroy (tc_pkt_recv_buffer (ep_tcp X)) →
  ep_written X' = ep_written X → ep_closed X' = ep_closed X →
  stream_part (ep_net X') = stream_part (ep_net X) ++ [sa] → dir r gx' X' gy Y.
Proof.
  intros [Hst Hsh [Hok Hend Hwr Hfin Hfst] [P1 P2 P3 Pro P4 P5 P6 P7 P8] Hr Hrd Hn Hwin Hcr] Hnil Hsyn Hseq Hcopy
    E1 E2 Hk Hpos Ew Eb Es Et Eh Ed1 Ed2 Ewr Ec Hnet. rewrite Hnil in *. simpl in *.
  pose proof Hok as [Hw Hpk Hbase Hj Hbuf]. assert (gh_acked gx = 0%nat) as Hj0 by (simpl in Hj; lia). rewrite Hj0 in *.
  destruct (rcv_next _ _ _ _ _ Hr) as [Hk0 _]. assert (gh_next gy = 0%nat) as Hn0 by (simpl in Hk0; lia). rewrite Hn0 in *.
  pose proof Hsyn as (Hf & Hl & Hb & _).
  assert (Buffer_size (tc_send_buffer (ep_tcp X)) < 2147483648) as Hsz.
  { rewrite Buffer_size_spec. pose proof (Buffer_bounded (tc_send_buffer (ep_tcp X))). lia. }
  pose proof (contiguous_total _ _ (swi_contiguous _ Hw)) as Hs0. rewrite <- (swi_size _ Hw) in Hs0.
  destruct (spos_u32 0 [] 0 Hst ltac:(done)) as [Hp0 _]. rewrite <- Hbase in Hp0.
  assert (is_sync sa = true) as Hsy by by eapply syn_of_sync.
  split; rewrite ?E1, ?E2, ?Hj0, ?Hn0; try done.
  - split; [done| |by constructor|rewrite total_len_cons, total_len_nil; lia]. simpl. split_and!; [done|lia|done].
  - right. exists sa, [], []. by split_and!.
  - split; rewrite ?Eb, ?Ewr; [|rewrite total_len_cons, total_len_nil; lia| |by simpl; rewrite Hf|].
    + split; rewrite ?Ew, ?Eb; try done; [|by rewrite sw_packets_enqueue, Hpk|simpl; lia].
      apply SendWindow_enqueue_inv; [done| |lia|lia]. unfold SendWindow_NextSeqNumberToSend. by rewrite Hseq, Hpos.
    + rewrite Hwr. csimpl. by rewrite Hb.
    + rewrite Ew. intros _. split; [done|]. by apply Hfst.
  - split; rewrite ?Es, ?Et, ?Eh, ?Ed1, ?Ed2, ?Ec; try done; destruct r; try done; simpl; by rewrite Hf.
  - apply (rcv_more [] [sa]); [done|done|]. simpl. rewrite Hb. simpl. rewrite Buffer_free_space_spec.
    pose proof (Buffer_bounded (tc_recv_buffer (ep_tcp Y))). lia.
  - rewrite Hnet. destruct Hn as [Nf Ns Nfst Na Npos Nearly]. split; try done.
    + apply (flight_new []); [done|done|]. intros i. destruct Hr as [(rs & Hrs & _) _ _ _ _ _]. by eapply recv_stream_bound.
    + apply syn_first_more; [done|by apply Nfst|done|lia].
    + intros _. apply Forall_app. split; [by apply Nfst|by constructor].
    + by apply (acks_more _ []).
  - lia.
  - auto.
Qed.

(** ** Arrivals

    [p] is the next packet from the other end, [L] what is behind it. *)
Section arrivals.
Context (r : opener) (gx gy : progress) (t : TcpController) (net : list Packet) (w rd : list Z) (cl : bool).
Context (ty : TcpController) (p : Packet) (L : list Packet) (wy ry : list Z) (cy : bool).
Hypothesis Hboth : both r gx (MkEndpoint t net w rd cl) gy (MkEndpoint ty (p :: L) wy ry cy).

(** The connection [t'] once it has handled [p]. *)
Definition handled t' : Prop :=
  ∃ gx' gy' ps, pq_packets (tc_pkt_send_buffer t') = pq_packets (tc_pkt_send_buffer t) ++ ps ∧
    pq_packets (tc_pkt_recv_buffer t') = pq_packets (tc_pkt_recv_buffer t) ∧
    both r gx' (MkEndpoint t' (net ++ ps) w rd cl) gy' (MkEndpoint ty L wy ry cy).

Lemma arrival_lost : both r gx (MkEndpoint t net w rd cl) gy (MkEndpoint ty L wy ry cy).
Proof. apply both_sym in Hboth. rewrite <- (other_other r). by apply both_sym, (both_lose _ _ _ _ _ _ [] p L Hboth). Qed.

(** A reset. *)
Lemma arrive_rst : handled (TcpController_HandleRst t).
Proof.
  exists gx, gy, []. unfold TcpController_HandleRst. destruct (CloseAndDelete_frame t) as [b ->].
  split; [by rewrite app_nil_r|]. split; [done|]. pose proof arrival_lost as Hl.
  eapply both_idle; [exact Hl|by split_and!|by split_and!|done|done|done| |by rewrite app_nil_r..].
  destruct Hl as [Hx _]. simpl. by apply (phase_down _ _ _ _ t); [apply (d_phase _ _ _ _ _ Hx)|..].
Qed.

(** *** Acknowledgements *)

(** What the state machine may change. *)
Definition state_frame t1 t2 : Prop :=
  t2 = t1 <| tc_state := tc_state t2 |> <| tc_syn_timer := tc_syn_timer t2 |>
    <| tc_fin_timer := tc_fin_timer t2 |> <| tc_kill_threads := tc_kill_threads t2 |>
    <| tc_shutdown := tc_shutdown t2 |> <| tc_deleting := tc_deleting t2 |>.

Lemma HandleACK_state_frame e t1 : state_frame t1 (TcpController_HandleACK_state e t1).
Proof.
  unfold state_frame, TcpController_HandleACK_state.
  destruct (CloseAndDelete_frame (t1 <| tc_state := CLOSED |> <| tc_fin_timer := Timer_Stop (tc_fin_timer t1) |>))
    as [b ->].
  destruct (tc_state t1), e; by destruct t1.
Qed.

(** What the state machine makes of an acknowledgement. *)
Lemma phase_ack e sent j m t1 : phase r sent j cl t1 → (r = Active → (0 < j)%nat) → (0 < m)%nat →
  (sent = [] → False) → phase r sent m cl (TcpController_HandleACK_state e t1).
Proof.
  intros [H1 H2 H3 Hro H4 H5 H6 H7 H8] Hact Hm Hne.
  assert (∀ t2, tc_tasks t2 = tc_tasks t1 → tc_pkt_send_buffer t2 = tc_pkt_send_buffer t1 →
    tc_pkt_recv_buffer t2 = tc_pkt_recv_buffer t1 →
    tc_state t2 ≠ SYN_SENT → tc_state t2 ≠ SYN_RCVD → tc_state t2 ≠ LISTEN →
    (tc_state t2 = CLOSED → tc_shutdown t2 || cl = true) →
    (has_fin sent = true → InClosingState (tc_state t2) || tc_shutdown t2 || cl = true) →
    phase r sent m cl t2) as Hnew.
  { intros t2 E1 E2 E3 N1 N2 N3 Hc Hf. split; rewrite ?E1, ?E2, ?E3; try done; [by intros [|]|auto|lia|auto]. }
  assert (tc_state t1 ≠ SYN_SENT) as Hns.
  { intros Hs. destruct H1 as [_ ->]; [by left|]. specialize (Hact (Hro Hs)). lia. }
  assert (tc_state t1 = CLOSED → tc_shutdown t1 || cl = true) as H2' by (intros Hs; by destruct (H2 Hs)).
  unfold TcpController_HandleACK_state.
  destruct (CloseAndDelete_frame (t1 <| tc_state := CLOSED |> <| tc_fin_timer := Timer_Stop (tc_fin_timer t1) |>))
    as [b ->].
  destruct (tc_state t1) eqn:Hs; destruct e; try done;
    apply Hnew; simpl; rewrite ?Hs; try done; intros Hf; by apply H6 in Hf.
Qed.

Lemma arrive_ack now g : segment_of p = SegAck →
  match TcpController_HandlePacket now g p t with
  | Fault f => f = BadConversion
  | Ok (_, t') => handled t'
  end.
Proof.
  intros Hseg. pose proof Hboth as [Hx Hy].
  pose proof Hx as [Hst Hsh [Hok Hend Hwr Hfin Hfst] Hph Hr Hrd Hn Hwin Hcr]. simpl in *.
  assert (ackish p = true ∧ streamy p = false) as [Ha Hs] by (unfold ackish, streamy; by rewrite Hseg).
  unfold ack_part in Hn. simpl in Hn. rewrite Ha in Hn.
  pose proof Hn as [Nf Ns Nfst Na Npos Nearly]. destruct (rcv_next _ _ _ _ _ Hr) as [Hk _].
  destruct (acks_cons _ _ _ _ _ _ _ Na) as (_ & m & Hjm & Hp & Hmk). pose proof (acks_jk _ _ _ _ _ _ Hmk) as Hm.
  apply Forall_cons in Npos as [Hp0 Npos].
  assert (0 < m)%nat as Hm0.
  { rewrite (ao_num _ _ _ _ _ Hp) in Hp0. destruct m; [done|lia]. }
  rewrite HandlePacket_dispatch, Hseg. unfold TcpController_HandleACK.
  pose proof (ack_window 0 _ _ _ m t p now g Hst Hok ltac:(lia) Hp) as Haw.
  destruct (TcpController_HandleACK_window now g p t) as [[[g' e] t1]|f]; [|by destruct Haw].
  destruct Haw as (w1 & o & tm & pt & -> & Hw & Hpk & Hb & Hc & Ho & _). cbn [mbind res_bind].
  rewrite SendPacket_frame. match goal with |- context [TcpController_HandleACK_state e ?x] => set (t1 := x) end.
  assert (phase r (gh_sent gx) m cl (TcpController_HandleACK_state e t1)) as Hph'.
  { apply (phase_ack _ _ (gh_acked gx)); [by apply (phase_same _ _ _ _ t)| |done|].
    - intros Hra. destruct (gh_acked gx); [|lia]. by specialize (Nearly Hra eq_refl).
    - intros Hnil. rewrite Hnil in Hk. simpl in Hk. lia. }
  pose proof (HandleACK_state_frame e t1) as Hf. set (t2 := TcpController_HandleACK_state e t1) in *.
  exists (MkProgress (gh_sent gx) m (gh_arrived gx) (gh_next gx) (gh_taken gx)), gy, (option_list o).
  destruct (resend_parts _ _ _ _ o Hsh Ho) as [Hs1 Ha1].
  split; [by rewrite Hf|]. split; [by rewrite Hf|]. pose proof arrival_lost as [_ Hy'].
  split; [|eapply dir_receiver; [exact Hy'| |done|done|done|done|done|]]; last first.
  { simpl. by rewrite ack_part_app, Ha1, app_nil_r. }
  { rewrite Hf. by split_and!. }
  assert (net_ok r (gh_sent gx) (gh_arrived gy) m (gh_next gy) (limit (gh_sent gx) (gh_next gy) ty)
    (stream_part net ++ option_list o) (ack_part L)) as Hn'.
  { assert (net_ok r (gh_sent gx) (gh_arrived gy) m (gh_next gy) (limit (gh_sent gx) (gh_next gy) ty)
      (stream_part net) (ack_part L)) as Hn0 by (split; try done; lia).
    destruct Ho as [->|Ho]; [by rewrite app_nil_r|]. destruct o as [q|]; [|by rewrite app_nil_r].
    by eapply net_resend; [exact Hn0|exact Hsh|done|lia|]. }
  assert (tc_send_window t2 = w1 ∧ tc_send_buffer t2 = tc_send_buffer t ∧ tc_recv_buffer t2 = tc_recv_buffer t)
    as (F1 & F2 & F3) by (by rewrite Hf).
  clearbody t2. clear Hf t1.
  split; simpl; rewrite ?F1; [done|by eapply shape_same; [rewrite F3|]| |done|done|done| | |done].
  - destruct Hok. split; rewrite ?F1, ?F2; [|done|done|done|lia]. by split; rewrite ?F1, ?F2; try done; lia.
  - by rewrite stream_part_app, Hs1.
  - rewrite Hb, Hc. intros. apply Hp.
Qed.
(** *** Packets of the stream *)

Definition accepting (A : gset nat) (k : nat) (g : progress) : progress :=
  MkProgress (gh_sent g) (gh_acked g) A k (gh_taken g).

(** The receiving half goes on, and acknowledges what it has. *)
Lemma handled_ack t' A' k' n t1 :
  streamy p = true → (other r = Active → gh_acked gy ≠ 0%nat) →
  phase r (gh_sent gx) (gh_acked gx) cl t' → same_sender t t' →
  pq_packets (tc_pkt_send_buffer t') = pq_packets (tc_pkt_send_buffer t) ++ [TcpController_MakeAckPacket n t1] →
  pq_packets (tc_pkt_recv_buffer t') = pq_packets (tc_pkt_recv_buffer t) →
  (gh_next gx ≤ k')%nat → (0 < k')%nat → (is_sync p = true → (k' ≤ 1)%nat) →
  rcv_ok (gh_sent gy) A' k' (gh_taken gx) t' →
  limit (gh_sent gy) (gh_next gx) t <= limit (gh_sent gy) k' t' →
  n = spos 0 (gh_sent gy) k' → tc_recv_buffer t1 = tc_recv_buffer t' →
  flight_ok (gh_sent gy) A' k' (stream_part L) → handled t'.
Proof.
  intros Hsp Hea Hph Hsame Hq1 Hq2 Hk Hk0 Hsy Hr Hlim -> Hbuf Hfl.
  set (q := TcpController_MakeAckPacket _ t1) in *. exists (accepting A' k' gx), gy, [q].
  split; [done|]. split; [done|]. pose proof arrival_lost as [Hx Hy].
  assert (stream_part [q] = [] ∧ ack_part [q] = [q]) as [Hq3 Hq4] by done. split.
  { eapply dir_sender; [exact Hx|done..| |]; [done|]. simpl. by rewrite stream_part_app, Hq3, app_nil_r. }
  pose proof (d_net _ _ _ _ _ (proj2 Hboth)) as Hn0.
  pose proof (d_net _ _ _ _ _ Hy) as [Nf Ns Nfst Na Npos Nearly]. simpl in *.
  unfold stream_part in Hn0. simpl in Hn0. rewrite Hsp in Hn0. pose proof (no_syn _ _ _ _ _ _ _ _ Hn0) as Hn1. clear Hn0. rename Hn1 into Hn0.
  destruct (syn_first_head _ k' _ _ Hn0 Hsy) as [Hs' _].
  destruct (rcv_next _ _ _ _ _ Hr) as [Hk' _].
  eapply dir_progress; [exact Hy|done|apply (d_read _ _ _ _ _ Hy)|done|]. simpl.
  rewrite ack_part_app. change (ack_part [q]) with [q]. split; try done.
  - apply acks_snoc; [by eapply acks_later|]. apply made_ack; [done|]. unfold limit. by rewrite Hbuf.
  - apply Forall_app. split; [done|]. constructor; [|done]. simpl. apply spos_positive; [apply Hy|lia].
  - intros Hr' Hj. by destruct (Hea Hr').
Qed.

(** Packets that are not SYNs come after the first one was delivered. *)
Lemma behind_syn : streamy p = true → is_sync p = false →
  gh_acked gy ≠ 0%nat ∧ (0 < gh_next gx)%nat.
Proof.
  intros Hsp Hns. pose proof (d_net _ _ _ _ _ (proj2 Hboth)) as [_ _ Hf Ha _ _]. simpl in *.
  unfold stream_part in Hf. simpl in Hf. rewrite Hsp in Hf. pose proof (acks_jk _ _ _ _ _ _ Ha) as Hjk.
  assert (gh_acked gy ≠ 0%nat); [|split; [done|lia]].
  intros Hj. apply Hf, Forall_cons in Hj as [? _]. congruence.
Qed.

(** What has arrived, of the stream or a probe. *)
Lemma head_carries : streamy p = true → ∃ o, carries (gh_sent gy) o p ∧
  match o with
  | None => flight_ok (gh_sent gy) (gh_arrived gx) (gh_next gx) (stream_part L)
  | Some i => ¬ queued (gh_arrived gx) i ∧ ∀ k', (gh_next gx ≤ k')%nat →
      flight_ok (gh_sent gy) (gh_arrived gx ∪ {[i]}) k' (stream_part L)
  end.
Proof.
  intros Hsp. destruct Hboth as [_ Hy].
  pose proof (d_net _ _ _ _ _ Hy) as [Hf _ _ _ _ _]. pose proof (d_rcv _ _ _ _ _ Hy) as [(rs & Hrs & _) _ _ _ _ _].
  simpl in *. unfold stream_part in Hf. simpl in Hf. rewrite Hsp in Hf.
  destruct (flight_arrive 0 _ _ _ rs [] p _ Hrs Hf) as ([i|] & Hc & Ho); [by exists (Some i)|].
  exists None. split; [done|]. by apply (flight_take _ _ _ [] p).
Qed.

(** A segment behind the SYN, on a connection whose state may have changed. *)
Lemma arrive_stream i t0 : streamy p = true → is_sync p = false → gh_sent gy !! i = Some p →
  ¬ queued (gh_arrived gx) i →
  (∀ k', (gh_next gx ≤ k')%nat → flight_ok (gh_sent gy) (gh_arrived gx ∪ {[i]}) k' (stream_part L)) →
  phase r (gh_sent gx) (gh_acked gx) cl t0 → same_sender t t0 → same_receiver t t0 →
  pq_packets (tc_pkt_send_buffer t0) = pq_packets (tc_pkt_send_buffer t) →
  pq_packets (tc_pkt_recv_buffer t0) = pq_packets (tc_pkt_recv_buffer t) →
  ∃ t', ('(ack_number, chain, t) ← TcpController_receive p t0;
      t ← TcpController_StreamDataToReceiveBuffer chain t;
      Ok (TcpController_SendPacket (Some (TcpController_MakeAckPacket ack_number t)) t)) = Ok t' ∧ handled t'.
Proof.
  intros Hsp Hns Hi Hnq Hfl Hph Hsame (E1 & E2 & E3 & E4 & E5) Hq1 Hq2.
  destruct (behind_syn Hsp Hns) as [Hj Hk]. destruct Hboth as [_ Hy].
  pose proof (d_rcv _ _ _ _ _ Hy) as Hr. simpl in Hr.
  assert (rcv_ok (gh_sent gy) (gh_arrived gx) (gh_next gx) (gh_taken gx) t0) as Hr0.
  { destruct Hr. by split; rewrite ?E1, ?E2, ?E3, ?E4, ?E5. }
  destruct (rcv_arrive _ _ _ _ _ _ _ i p (d_stream _ _ _ _ _ Hy) (d_shape _ _ _ _ _ Hy) Hr0 Hk Hi Hnq)
    as (k' & y1 & -> & Hkk & Hr1 & Hlim & Hf & Hcap).
  eexists. split; [done|]. rewrite SendPacket_frame.
  assert (limit (gh_sent gy) (gh_next gx) t <= limit (gh_sent gy) k' y1) as Hlim'.
  { etrans; [|exact Hlim]. unfold limit. by rewrite E3. }
  destruct Hsame as (F1 & F2 & F3).
  assert (phase r (gh_sent gx) (gh_acked gx) cl y1) as Hph'.
  { rewrite Hf. by apply (phase_same _ _ _ _ t0). }
  assert (tc_send_window y1 = tc_send_window t ∧ tc_send_buffer y1 = tc_send_buffer t) as [G1 G2] by by rewrite Hf.
  assert (tc_pkt_send_buffer y1 = tc_pkt_send_buffer t0 ∧ tc_pkt_recv_buffer y1 = tc_pkt_recv_buffer t0) as [G3 G4] by by rewrite Hf.
  clear Hf. eapply (handled_ack _ (gh_arrived gx ∪ {[i]}) k' _ y1);
    simpl; try done; [by apply (phase_same _ _ _ _ y1)|split_and!; simpl; congruence| | |lia| | |by apply Hfl].
  - simpl. by rewrite G3, Hq1.
  - simpl. by rewrite G4, Hq2.
  - congruence.
  - destruct Hr1. by split.
Qed.
Lemma segment_streamy : segment_of p ≠ SegAck → segment_of p ≠ SegRst → streamy p = true.
Proof. unfold streamy. by destruct (segment_of p). Qed.

Lemma segment_plain : (segment_of p = SegData ∨ segment_of p = SegFin) → is_sync p = false ∧ streamy p = true.
Proof.
  unfold streamy, segment_of, is_sync. destruct (sync _); [by destruct (ack _); intros [|]|].
  split; [done|]. by repeat case_match; destruct H.
Qed.

(** Data, or a probe. *)
Lemma arrive_data : segment_of p = SegData →
  ∃ t', TcpController_HandleDataPacket p t = Ok t' ∧ handled t'.
Proof.
  intros Hseg. destruct segment_plain as [Hns Hsp]; [by left|]. destruct (behind_syn Hsp Hns) as [Hj Hk].
  pose proof Hboth as [Hx Hy]. pose proof (d_phase _ _ _ _ _ Hx) as Hph. simpl in Hph.
  pose proof (d_rcv _ _ _ _ _ Hy) as Hr. pose proof Hr as [(rs & Hrs & Hrep) _ _ _ _ _]. simpl in *.
  unfold TcpController_HandleDataPacket. destruct (head_carries Hsp) as ([i|] & Hc & Hf); simpl in Hc.
  - destruct (shape_lookup _ _ _ _ _ (d_shape _ _ _ _ _ Hy) Hc) as [[-> Hsyn%syn_of_sync]|(_ & [Hp|[Hp _]])];
      [congruence| |congruence]. destruct Hp as [[_ Hpos] _ _ _ _ _].
    rewrite (proj2 (Z.eqb_neq _ _)) by lia. destruct Hf as [Hnq Hf].
    by apply (arrive_stream i t).
  - destruct Hc as [_ ->]. simpl. eexists. split; [done|].
    eapply (handled_ack _ (gh_arrived gx) (gh_next gx) _ t); simpl; try done.
    + by apply (phase_same _ _ _ _ t).
    + by rewrite Hns.
    + destruct Hr. by split.
    + destruct Hrep as (ns & Hrep). rewrite <- (rr_base _ _ _ _ Hrep). apply Hrs.
Qed.

Lemma phase_fin sent j t1 : phase r sent j cl t1 → phase r sent j cl (TcpController_HandleFIN_state t1).
Proof.
  intros [H1 H2 H3 Hro H4 H5 H6 H7 H8]. unfold TcpController_HandleFIN_state.
  destruct (tc_state t1) eqn:Hs; split; simpl; rewrite ?Hs; try done.
  all: intros; naive_solver.
Qed.

Lemma arrive_fin : segment_of p = SegFin → ∃ t', TcpController_HandleFIN p t = Ok t' ∧ handled t'.
Proof.
  intros Hseg. destruct segment_plain as [Hns Hsp]; [by right|].
  pose proof Hboth as [Hx Hy]. pose proof (d_phase _ _ _ _ _ Hx) as Hph. simpl in Hph.
  destruct (head_carries Hsp) as ([i|] & Hc & Hf); simpl in Hc; [|destruct Hc; congruence].
  destruct Hf as [Hnq Hf]. unfold TcpController_HandleFIN. apply (arrive_stream i); try done.
  - by apply phase_fin.
  - unfold TcpController_HandleFIN_state. by destruct (tc_state t).
  - unfold TcpController_HandleFIN_state. by destruct (tc_state t).
  - unfold TcpController_HandleFIN_state. by destruct (tc_state t).
  - unfold TcpController_HandleFIN_state. by destruct (tc_state t).
Qed.
(** *** The first segment *)

Lemma sync_streamy q : is_sync q = true → streamy q = true ∧ (segment_of q = SegSyn ∨ segment_of q = SegSynAck).
Proof. unfold is_sync, streamy, segment_of. intros ->. destruct (ack _); auto. Qed.

Lemma first_arrives : is_sync p = true →
  gh_sent gy !! 0%nat = Some p ∧ syn_of (other r) ty p ∧ pkt_seq p = 0 ∧ spos 0 (gh_sent gy) 1 = 1 ∧
  (gh_next gx = 1%nat ∨ gh_next gx = 0%nat ∧ gh_sent gy = [p]) ∧
  flight_ok (gh_sent gy) (gh_arrived gx ∪ {[0%nat]}) 1 (stream_part L).
Proof.
  intros Hs. destruct (sync_streamy p Hs) as [Hsp Hseg]. destruct Hboth as [_ Hy].
  pose proof Hy as [Hst Hsh [_ _ _ _ Hfst] _ Hr _ Hn _ _]. pose proof (no_syn _ _ _ _ _ _ _ _ Hn) as Hsf.
  pose proof (no_acks _ _ _ _ _ _ _ _ Hn) as Hjk%acks_jk. simpl in *.
  unfold stream_part in Hsf. simpl in Hsf. rewrite Hsp in Hsf.
  destruct (syn_first_head _ 1 _ _ Hsf ltac:(done)) as [_ Hk]. specialize (Hk Hs).
  destruct (head_carries Hsp) as ([i|] & Hc & Hf); simpl in Hc; [|destruct Hc as [Hc _]; destruct Hseg; congruence].
  pose proof (shape_sync _ _ _ _ _ Hsh Hc) as Hi. rewrite Hs in Hi. symmetry in Hi.
  apply bool_decide_eq_true in Hi as ->. destruct Hf as [_ Hf].
  destruct (shape_lookup _ _ _ _ _ Hsh Hc) as [[_ Hp]|]; [|lia]. pose proof Hp as (_ & Hl & _).
  split; [done|]. split; [done|].
  destruct (gh_sent gy) as [|q l] eqn:He; [done|]. injection Hc as ->.
  pose proof (sto_contiguous _ _ Hst) as (Hseq & _). split; [done|]. split; [|split; [|by apply Hf]].
  - unfold spos. simpl. rewrite ?take_0, total_len_cons, total_len_nil. lia.
  - destruct (gh_next gx) as [|[|]]; [right|by left|lia]. split; [done|].
    destruct Hfst as [Hlen _]; [lia|]. destruct l; [done|]. simpl in Hlen. lia.
Qed.

Lemma rcv_first sent A k taken y A' rs' y' : sent !! 0%nat = Some p → packet_bytes p = [] → is_fin p = false →
  rcv_ok sent A k taken y → (k ≤ 1)%nat → recv_stream_inv 0 sent A' 1 rs' →
  RecvWindow_rep (tc_recv_window y') (tc_recv_nodes y') rs' → tc_recv_buffer y' = tc_recv_buffer y →
  tc_overflow_pkts y' = tc_overflow_pkts y → tc_pipe_state y' = tc_pipe_state y → rcv_ok sent A' 1 taken y'.
Proof.
  intros Hp Hb Hf [_ Hov Hpipe Heof Hby Hfit] Hk Hrs Hrep E1 E2 E3.
  destruct sent as [|q l]; [done|]. injection Hp as ->.
  assert (take k (p :: l) ≫= packet_bytes = [] ∧ has_fin (take k (p :: l)) = false) as [Hb1 Hf1].
  { destruct k as [|[|]]; [done| |lia]. simpl. rewrite ?take_0. csimpl. by rewrite Hb, Hf. }
  split; rewrite ?E1, ?E2, ?E3; [by exists rs'|done| |done| |]; simpl; rewrite ?take_0.
  - rewrite Hpipe, Hf1. simpl. by rewrite Hf.
  - rewrite Hby, Hb1. csimpl. by rewrite Hb.
  - destruct k as [|[|]]; [|done|lia]. csimpl in Hfit. by rewrite Hb in Hfit.
Qed.

(** *** SYN_ACK *)

(** What [HandleACKSYN] does in every state. *)
Lemma arrive_synack_base next : segment_of p = SegSynAck → next = u32 (pkt_seq p + 1) →
  let t1 := t <| tc_recv_window := (tc_recv_window t) <| rw_recv_base := next |> |> in
  handled (TcpController_SendPacket (Some (TcpController_MakeAckPacket next t1)) t1).
Proof.
  intros Hseg Hnext. assert (is_sync p = true) as Hs by (apply sync_segment; auto).
  destruct (first_arrives Hs) as (H0 & (Hfin & Hlen & Hb & Hrole) & Hseq & Hpos & Hk & Hf).
  rewrite Hseq in Hnext. assert (next = 1) as -> by done. clear Hnext. intros t1.
  destruct Hboth as [Hx Hy]. pose proof (d_phase _ _ _ _ _ Hx) as Hph. pose proof (d_rcv _ _ _ _ _ Hy) as Hr.
  simpl in *. pose proof Hr as [(rs & Hrs & Hrep) _ _ _ _ _].
  assert (∃ rs', recv_stream_inv 0 (gh_sent gy) (gh_arrived gx ∪ {[0%nat]}) 1 rs' ∧
    RecvWindow_rep (tc_recv_window t1) (tc_recv_nodes t1) rs') as (rs' & Hrs' & Hrep').
  { destruct Hrep as (ns & [R1 R2 R3 R4 R5]). destruct rs as [b q]. exists (MkRecv 1 q). split; [|exists ns; by split].
    pose proof (λ i, recv_stream_bound _ _ _ _ _ i Hrs) as Hbd. destruct Hrs as [S1 S2 (js & Q1 & Q2 & Q3) S4 S5]. simpl in *.
    destruct Hk as [Hk|[Hk He]]; rewrite Hk in *.
    - assert (0%nat ∈ gh_arrived gx) as HA by (apply S5; lia).
      replace (gh_arrived gx ∪ {[0%nat]}) with (gh_arrived gx) by set_solver. split; try done. by exists js.
    - rewrite He in *. simpl in *.
      assert (∀ i, i ∈ gh_arrived gx → False) as HA.
      { intros i Hi. assert (i = 0)%nat as -> by (specialize (Hbd i Hi); lia). done. }
      split; simpl; [lia|done| | |].
      + exists js. split; [done|]. split; [done|]. intros j. rewrite Q3. split; [intros [? ?%HA]; done|].
        intros [? [?%HA|?%elem_of_singleton]%elem_of_union]; [done|lia].
      + intros [?%HA|?%elem_of_singleton]%elem_of_union; done.
      + intros j ?. assert (j = 0)%nat as -> by lia. set_solver. }
  assert (gh_next gx ≤ 1)%nat as Hle by lia.
  eapply (handled_ack _ (gh_arrived gx ∪ {[0%nat]}) 1 1 t1); try done.
  - by apply sync_streamy.
  - clear -Hseg Hrole. destruct (other r); [congruence|done].
  - by apply (phase_same _ _ _ _ t).
  - lia.
  - by eapply rcv_first.
  - unfold limit. subst t1. simpl.
    assert (spos 0 (gh_sent gy) (gh_next gx) <= spos 0 (gh_sent gy) 1); [|lia].
    apply spos_le; [apply Hy|done].
Qed.

(** The handshake ends at the end that connects. *)
Lemma synack_opens now g : segment_of p = SegSynAck → tc_state t = SYN_SENT →
  match SendWindow_NewAckedPacket now (ack_num (tcp_header p)) (tc_send_window t) g with
  | Fault f => f = BadConversion
  | Ok (_, w1, _) => ∃ gx', ∀ tm st, 
      both r gx' (MkEndpoint (t <| tc_syn_timer := st |> <| tc_send_window := w1 <| sw_capacity := window_size (tcp_header p) |> |>
        <| tc_timer := tm |> <| tc_state := ESTABLISHED |>) net w rd cl) gy (MkEndpoint ty (p :: L) wy ry cy)
  end.
Proof.
  intros Hseg Hsyn. assert (is_sync p = true) as Hs by (apply sync_segment; auto).
  destruct (first_arrives Hs) as (H0 & (_ & _ & _ & Hrole) & _ & _ & _ & _).
  pose proof Hboth as [Hx Hy]. pose proof Hx as [Hst Hsh [Hok Hend Hwr Hfin Hfst] Hph Hr _ Hn _ _].
  pose proof (d_cross _ _ _ _ _ Hy) as Hcr. pose proof Hph as [H1 H2 H3 Hro H4 H5 H6 H7 H8]. simpl in *.
  specialize (Hro Hsyn). rewrite Hro in *. simpl in *. destruct Hrole as (_ & Hnum & Hw & Hcap).
  destruct H1 as [Hlen Hj]; [by left|]. rewrite Hj in *. pose proof Hok as [Hw0 Hpk Hbase _ Hbuf].
  assert (spos 0 (gh_sent gx) 1 = 1) as Hs1.
  { destruct (gh_sent gx) as [|q l] eqn:He; [done|].
    destruct (shape_lookup _ _ _ 0 q Hsh eq_refl) as [[_ (_ & Hl & _)]|]; [|lia].
    unfold spos. simpl. rewrite ?take_0, total_len_cons, total_len_nil. lia. }
  rewrite Hnum, <- Hs1.
  pose proof (window_acked 0 _ _ 1 _ now g Hst Hw0 Hpk Hbase ltac:(lia)) as Hack.
  destruct (SendWindow_NewAckedPacket now _ _ g) as [[[r1 w1] g1]|f]; [|by destruct Hack].
  destruct Hack as (Hw1 & Hpk1 & Hb1).
  assert (0 < gh_next gy)%nat as Hk. { apply Hcr; [done|]. intros Hnil. by rewrite Hnil in H0. }
  destruct (rcv_next _ _ _ _ _ Hr) as [Hkl _]. assert (gh_next gy = 1%nat) as Hk1 by lia.
  exists (MkProgress (gh_sent gx) 1 (gh_arrived gx) (gh_next gx) (gh_taken gx)). intros tm st.
  split; [|by eapply dir_receiver].
  destruct Hx as [_ _ _ _ _ Hrd _ _ _]. simpl in *.
  split; simpl; try done.
  - split; simpl; try done. split; simpl; try done; [|lia]. apply set_capacity_inv; [done|unfold is_u32; lia].
  - split; simpl; try done; [by intros [|]|by right; lia|].
    intros Hf%H6. by rewrite Hsyn in Hf.
  - destruct Hn as [Nf Ns Nfst Na Npos Nearly]. rewrite (Nearly eq_refl eq_refl) in *.
    split; try done. apply acks_nil. lia.
  - intros _ _. rewrite Hb1, Hs1. unfold limit. rewrite Hk1, Hs1.
    destruct Hr as [_ _ _ _ Hby _]. rewrite Hk1 in Hby.
    assert (take 1 (gh_sent gx) ≫= packet_bytes = []) as Hnil.
    { destruct (gh_sent gx) as [|q l] eqn:He; [done|].
      destruct (shape_lookup _ _ _ 0 q Hsh eq_refl) as [[_ (_ & _ & Hq & _)]|]; [|lia].
      simpl. rewrite ?take_0. csimpl. by rewrite Hq. }
    rewrite Hnil in Hby. apply app_nil in Hby as [_ Hby]. rewrite Buffer_free_space_spec, Hby. simpl. lia.
Qed.
(** *** SYN *)

(** The SYN reaches the receive window. *)
Lemma syn_received : segment_of p = SegSyn →
  ∃ w1 h1 chain, TcpController_receive p t =
      Ok (1, chain, t <| tc_recv_window := w1 |> <| tc_recv_nodes := h1 |>) ∧ pkt_seq p = 0 ∧ other r = Active ∧
    ∀ t', tc_recv_window t' = w1 → tc_recv_nodes t' = h1 → tc_recv_buffer t' = tc_recv_buffer t →
      tc_overflow_pkts t' = tc_overflow_pkts t → tc_pipe_state t' = tc_pipe_state t →
      ∀ ps, ack_part ps = [] →
      dir (other r) gy (MkEndpoint ty L wy ry cy) (accepting (gh_arrived gx ∪ {[0%nat]}) 1 gx)
        (MkEndpoint t' (net ++ ps) w rd cl).
Proof.
  intros Hseg. assert (is_sync p = true) as Hs by (apply sync_segment; auto).
  destruct (first_arrives Hs) as (H0 & (Hfin & Hlen & Hb & Hrole) & Hseq & Hpos & Hk & Hf).
  assert (other r = Active) as Hact.
  { clear -Hrole Hseg. destruct (other r); [done|]. destruct Hrole. congruence. }
  destruct Hboth as [_ Hy]. pose proof (d_rcv _ _ _ _ _ Hy) as Hr. simpl in *.
  pose proof Hr as [(rs & Hrs & Hrep) _ _ _ _ _]. pose proof (d_stream _ _ _ _ _ Hy) as [Hsb Hsc _ Hse].
  assert (∃ chain rs', recv_spec p rs = Ok (1, chain, rs') ∧
    recv_stream_inv 0 (gh_sent gy) (gh_arrived gx ∪ {[0%nat]}) 1 rs') as (pkts & rs' & Hspec & Hrs').
  { destruct Hk as [Hk|[Hk He]]; rewrite Hk in *.
    - destruct (recv_stream_old 0 _ Hsb Hsc Hse _ _ rs 0 p Hrs H0 ltac:(lia)) as [Hspec Hrs']. rewrite Hpos in Hspec. eauto.
    - destruct (recv_stream_deliver 0 _ Hsb Hsc Hse _ _ rs p Hrs H0) as (k' & rs' & Hspec & Hlt & Hrs').
      pose proof (rsi_k _ _ _ _ _ Hrs') as Hle. rewrite He in Hle. simpl in Hle.
      assert (k' = 1)%nat as -> by lia. rewrite Hpos in Hspec. eauto. }
  pose proof (ReceivePacket_refines p _ _ rs Hrep) as Href. rewrite Hspec in Href.
  destruct Href as (chain & w1 & h1 & Hrecv & Hrep' & _). exists w1, h1, chain.
  unfold TcpController_receive. rewrite Hrecv. split; [done|]. split; [done|]. split; [done|].
  intros t' E1 E2 E3 E4 E5 ps Hps. pose proof arrival_lost as [_ Hl].
  assert (gh_next gx ≤ 1)%nat as Hle by lia.
  assert (limit (gh_sent gy) (gh_next gx) t <= limit (gh_sent gy) 1 t') as Hlim.
  { unfold limit. rewrite E3. pose proof (spos_le 0 _ _ 1 (d_stream _ _ _ _ _ Hy) Hle). simpl in *. lia. }
  pose proof (d_net _ _ _ _ _ Hy) as Hn0. pose proof (d_net _ _ _ _ _ Hl) as [Nf Ns Nfst Na Npos Nearly]. simpl in *.
  eapply dir_progress; [exact Hl| |apply (d_read _ _ _ _ _ Hl)|done|]; simpl.
  - eapply rcv_first; try done. by rewrite E1, E2.
  - rewrite ack_part_app, Hps, app_nil_r. split; try done; [|by eapply acks_later].
    pose proof (no_syn _ _ _ _ _ _ _ _ Hn0) as Hsf. unfold stream_part in Hsf. simpl in Hsf.
    rewrite (proj1 (sync_streamy p Hs)) in Hsf. by destruct (syn_first_head _ 1 _ _ Hsf ltac:(done)).
Qed.
Lemma arrive_syn now : segment_of p = SegSyn →
  ∃ b t', TcpController_HandleSYN now p t = Ok (b, t') ∧ handled t'.
Proof.
  intros Hseg. destruct (syn_received Hseg) as (w1 & h1 & chain & Hrecv & Hseq & Hact & Hy').
  unfold TcpController_HandleSYN. rewrite Hrecv, Hseq. cbn [mbind res_bind]. change (u32 (0 + 1)) with 1.
  set (t1 := t <| tc_recv_window := w1 |> <| tc_recv_nodes := h1 |>). simpl.
  pose proof arrival_lost as [Hx _].
  pose proof Hx as [Hst Hsh [Hok Hend Hwr Hfin Hfst] Hph Hr Hrd Hn Hwin Hcr]. simpl in *.
  pose proof Hok as [Hw Hpk Hbase Hj Hbuf]. set (gx' := accepting (gh_arrived gx ∪ {[0%nat]}) 1 gx) in *.
  assert (r = Passive) as Hrole by (destruct r; [done|done]).
  assert ((gh_next gx ≤ 1)%nat) as Hle.
  { destruct (first_arrives ltac:(apply sync_segment; auto)) as (_ & _ & _ & _ & Hk & _). lia. }
  destruct (Z.ltb_spec 0 (sw_size (tc_send_window t))) as [Hpos|Hz].
  - destruct (get_base 0 _ _ _ Hst Hw Hpk) as (w2 & -> & Hw2 & Hpk2 & Hb2 & Hc2 & _).
    set (o := gh_sent gx !! gh_acked gx).
    destruct (resend_parts _ _ _ _ o Hsh ltac:(by right)) as [Hs1 Ha1].
    eexists _, _. split; [done|]. rewrite SendPacket_frame. exists gx', gy, (option_list o).
    split; [done|]. split; [done|]. split; [|by apply Hy'].
    eapply (dir_resend _ _ _ _ _ _ _ o); [exact Hx|..]; try done; [by apply (phase_same _ _ _ _ t)|by right|].
    simpl. by rewrite stream_part_app, Hs1.
  - set (sa := TcpController_sync_ack_pkt 1 t1).
    rewrite (SendWindow_SendPacket_eq now sa _ Hw) by done. cbn [mbind res_bind].
    assert (0 <= sw_size (tc_send_window t)) as Hs0.
    { rewrite (swi_size _ Hw). eapply contiguous_total, Hw. }
    destruct (_ && _) eqn:Hc; cbn [negb]; last first.
    { eexists _, _. split; [done|]. exists gx', gy, []. rewrite !app_nil_r. split; [done|]. split; [done|].
      split; [|by rewrite <- (app_nil_r net); apply Hy'].
      eapply dir_sender_same; [exact Hx|by split_and!..|done|done|done|done|done|done]. }
    eexists _, _. split; [done|]. exists (sending [sa] gx'), gy, [sa]. split; [done|]. split; [done|].
    apply andb_true_iff in Hc as [_ Hnx%Z.eqb_eq]. split.
    2: { match goal with |- dir _ _ _ _ (MkEndpoint ?t' _ _ _ _) =>
           pose proof (Hy' t' eq_refl eq_refl eq_refl eq_refl eq_refl [sa] eq_refl) as Hy1 end.
         eapply dir_receiver; [exact Hy1|by split_and!|done..]. }
    unfold SendWindow_NextSeqNumberToSend in Hnx. change (pkt_seq sa) with 0 in Hnx.
    pose proof (window_end _ _ _ _ Hok) as He. destruct (spos_u32 0 _ _ Hst Hj) as [Hp0 _]. rewrite <- Hbase in Hp0.
    assert (sw_send_base (tc_send_window t) + sw_size (tc_send_window t) = 0) as He0.
    { rewrite u32_small in Hnx; [done|]. unfold is_u32. destruct Hst. pose proof (Buffer_bounded (tc_send_buffer t)).
      rewrite Buffer_size_spec in Hend. lia. }
    assert (gh_sent gx = []) as Hnil.
    { destruct (gh_sent gx) as [|q l] eqn:Hg; [done|]. exfalso.
      destruct Hst as [_ (_ & Hq & Hcl) _ _]. apply contiguous_total in Hcl. rewrite total_len_cons in He. lia. }
    subst r. eapply (dir_first _ _ _ _ _ _ _ sa); [exact Hx|done|..]; try done.
    + assert (0 <= Buffer_free_space (tc_recv_buffer t) <= Buffer_capacity (tc_recv_buffer t)) as Hfs.
      { rewrite Buffer_free_space_spec. pose proof (Buffer_bounded (tc_recv_buffer t)). lia. }
      assert (0 <= u16 (Buffer_free_space (tc_recv_buffer t)) < 65536) by word_lia.
      assert (u16 (Buffer_free_space (tc_recv_buffer t)) <= Buffer_free_space (tc_recv_buffer t)) by (apply Z.mod_le; lia).
      split_and!; try done; simpl; lia.
    + simpl. by rewrite Hnil.
    + simpl. lia.
    + simpl. by rewrite stream_part_app.
Qed.
End arrivals.

(** ** Every segment *)

Lemma arrive_synack r gx gy t net w rd cl ty p L wy ry cy now g :
  both r gx (MkEndpoint t net w rd cl) gy (MkEndpoint ty (p :: L) wy ry cy) → segment_of p = SegSynAck →
  match TcpController_HandleACKSYN now g p t with
  | Fault f => f = BadConversion
  | Ok (_, t') => handled r t net w rd cl ty L wy ry cy t'
  end.
Proof.
  intros Hb Hseg. unfold TcpController_HandleACKSYN. case_bool_decide as Hs; cbn [mbind res_bind].
  - pose proof (synack_opens _ _ _ _ _ _ _ _ _ _ _ _ _ _ Hb now g Hseg Hs) as Ho. simpl.
    destruct (SendWindow_NewAckedPacket now _ _ g) as [[[r1 w1] g1]|f]; [|done]. cbn [mbind res_bind].
    destruct Ho as [gx' Ho]. unfold TcpController_GetNewSendWindowSize. simpl.
    set (tm := if SendWindow_NumPacketsToAck w1 =? 0 then Timer_Stop (tc_timer t) else tc_timer t).
    specialize (Ho tm (Timer_Stop (tc_syn_timer t))).
    pose proof (arrive_synack_base _ _ _ _ _ _ _ _ _ _ _ _ _ _ Ho _ Hseg eq_refl) as Hh.
    subst tm. destruct (SendWindow_NumPacketsToAck w1 =? 0); exact Hh.
  - apply (arrive_synack_base _ _ _ _ _ _ _ _ _ _ _ _ _ _ Hb _ Hseg eq_refl).
Qed.

(** The dispatch: of all checks and loops, only the tolerance of duplicate
    acknowledgements can fail, when it outgrows its type. *)
Lemma arrive_any r gx gy t net w rd cl ty p L wy ry cy now g :
  both r gx (MkEndpoint t net w rd cl) gy (MkEndpoint ty (p :: L) wy ry cy) →
  match TcpController_HandlePacket now g p t with
  | Fault f => f = BadConversion
  | Ok (_, t') => handled r t net w rd cl ty L wy ry cy t'
  end.
Proof.
  intros Hb. destruct (segment_of p) eqn:Hseg.
  4: by eapply arrive_ack.
  all: rewrite HandlePacket_dispatch, Hseg.
  - destruct (arrive_syn _ _ _ _ _ _ _ _ _ _ _ _ _ _ Hb now Hseg) as (b & t' & -> & Hh). done.
  - by eapply arrive_synack.
  - destruct (arrive_fin _ _ _ _ _ _ _ _ _ _ _ _ _ _ Hb Hseg) as (t' & -> & Hh). done.
  - by eapply arrive_rst.
  - destruct (arrive_data _ _ _ _ _ _ _ _ _ _ _ _ _ _ Hb Hseg) as (t' & -> & Hh). done.
Qed.

(** All packets of the queue, one after the other. *)
Lemma arrive_all r gx gy t net w rd cl ty P L wy ry cy now g :
  both r gx (MkEndpoint t net w rd cl) gy (MkEndpoint ty (P ++ L) wy ry cy) →
  match TcpController_HandleReceivedPackets now g P t with
  | Fault f => f = BadConversion
  | Ok (_, t') => handled r t net w rd cl ty L wy ry cy t'
  end.
Proof.
  revert gx gy t net g. induction P as [|p P IH]; intros gx gy t net g Hb; simpl.
  { exists gx, gy, []. by rewrite !app_nil_r. }
  pose proof (arrive_any _ _ _ _ _ _ _ _ _ _ _ _ _ _ now g Hb) as Hp.
  destruct (TcpController_HandlePacket now g p t) as [[g1 t1]|f]; [|done]. cbn [mbind res_bind].
  destruct Hp as (gx1 & gy1 & ps & Hq1 & Hq2 & Hb1). specialize (IH _ _ _ _ g1 Hb1).
  destruct (TcpController_HandleReceivedPackets now g1 P t1) as [[g2 t2]|f]; [|done].
  destruct IH as (gx2 & gy2 & ps2 & Hq3 & Hq4 & Hb2). exists gx2, gy2, (ps ++ ps2).
  rewrite Hq3, Hq4, Hq1, Hq2, <- app_assoc. split; [done|]. split; [done|]. by rewrite app_assoc.
Qed.

End SessionRecv.
