(* ===== verification/SessionSafe.v ===== *)
(** * Sessions are safe

    Every action keeps the invariant, the handshake establishes it, and in every
    session what an end has read is a prefix of what the other wrote; an end of
    file is read only after everything. *)
From S2P Require Import Prelude Interfaces Packet Keys PacketQueue SendWindow RecvWindow.
From S2P Require Import Tcp TcpRecv TcpSend TcpConn Threads Connection Stream Session SessionInv SessionStep SessionRecv.
From stdpp Require Import sorting.
Open Scope Z_scope.
Open Scope tcp_scope.

Section SessionSafe.
Context {SWO : StopWatchOps} {TMO : TimerOps} {BFO : BufferOps} {MNO : MinOps}.
Context {Buffer_bytes : Buffer → list Z} {Buffer_capacity : Buffer → Z}.
Context {BFL : BufferLaws Buffer_bytes Buffer_capacity} {MNL : MinLaws}.
Implicit Types (x y t : TcpController) (X Y me you : endpoint) (sent L F G : list Packet) (r : opener).
Implicit Types gx gy : progress.

#[local] Abbreviation both := (both (Buffer_bytes := Buffer_bytes) (Buffer_capacity := Buffer_capacity)).
#[local] Abbreviation dir := (dir (Buffer_bytes := Buffer_bytes) (Buffer_capacity := Buffer_capacity)).
#[local] Abbreviation stepped := (stepped (Buffer_bytes := Buffer_bytes) (Buffer_capacity := Buffer_capacity)).
#[local] Abbreviation session_inv := (session_inv (Buffer_bytes := Buffer_bytes) (Buffer_capacity := Buffer_capacity)).

(** ** Every action *)

Definition pair_inv r me you : Prop := ∃ gx gy, both r gx (flat me you) gy (flat you me).

Lemma session_pair r s : session_inv s ↔ pair_inv r (end_of r s) (end_of (other r) s).
Proof.
  unfold SessionInv.session_inv, pair_inv. destruct r; simpl; [done|].
  split; intros (g1 & g2 & Hb); exists g2, g1; by apply both_sym in Hb.
Qed.

(** A thread of [me] has made a step. *)
Lemma stepped_pair r t net w rd cl you gx gy t' :
  stepped r gy t (pq_packets (tc_pkt_recv_buffer (ep_tcp you)) ++ net ++ pq_packets (tc_pkt_send_buffer t))
    w rd cl (flat you (MkEndpoint t net w rd cl)) t' →
  pair_inv r (MkEndpoint t' net w rd cl) you.
Proof.
  intros (gx' & ps & Hq1 & Hq2 & Hb). exists gx', gy. unfold flat in *. simpl in *.
  by rewrite Hq1, Hq2, <- !app_assoc in *.
Qed.

(** The ways an action can fail. *)
Definition action_fault (act : end_action) me (f : fault) : Prop :=
  match act with
  | SConn (KReceive _) _ => f = BadConversion
  | SRead _ => f = LogFatal ∧ tc_pipe_state (ep_tcp me) = EOF_CONSUMED
  | _ => False
  end.

Definition action_ok r act me you : Prop :=
  match end_do act me you with
  | Ok (Some (me', you')) => pair_inv r me' you'
  | Ok None => True
  | Fault f => action_fault act me f
  end.

(** The listener that takes the packets of the host. *)
Lemma packets_in now g t : pq_destroy (tc_pkt_recv_buffer t) = false →
  TcpController_PacketReceiveBufferListener_round now g t =
    if tc_shutdown t || PacketQueue_empty (tc_pkt_recv_buffer t) then Ok None
    else r ← TcpController_HandleReceivedPackets now g (pq_packets (tc_pkt_recv_buffer t))
           (t <| tc_pkt_recv_buffer := (tc_pkt_recv_buffer t) <| pq_packets := [] |> |>); Ok (Some r).
Proof.
  unfold TcpController_PacketReceiveBufferListener_round, PacketQueue_DeQueueAllTo, PacketQueue_wait_pred,
    PacketQueue_DeQueueAllTo_locked, PacketQueue_empty. intros ->.
  destruct (tc_shutdown t); [done|]. simpl. by destruct (pq_packets (tc_pkt_recv_buffer t)).
Qed.

Lemma receive_ok r now g me you : pair_inv r me you → action_ok r (SConn (KReceive now) g) me you.
Proof.
  intros (gx & gy & Hb). destruct me as [t net w rd cl]. unfold action_ok. simpl.
  pose proof Hb as [Hx _]. destruct (ph_queues _ _ _ _ _ (d_phase _ _ _ _ _ Hx)) as [_ Hd]. simpl in Hd.
  rewrite packets_in by done. destruct (_ || _); [done|].
  set (t0 := t <| tc_pkt_recv_buffer := (tc_pkt_recv_buffer t) <| pq_packets := [] |> |>).
  unfold flat in Hb. simpl in Hb.
  assert (both r gx (MkEndpoint t0 (pq_packets (tc_pkt_recv_buffer (ep_tcp you)) ++ net ++ pq_packets (tc_pkt_send_buffer t0)) w rd cl)
    gy (MkEndpoint (ep_tcp you) (pq_packets (tc_pkt_recv_buffer t) ++ ep_net you ++ pq_packets (tc_pkt_send_buffer (ep_tcp you)))
      (ep_written you) (ep_read you) (ep_closed you))) as Hb0.
  { eapply both_idle; [exact Hb|by split_and!..|done|done|done| |done|done].
    simpl. by apply (phase_same _ _ _ _ t); [split_and!|apply (d_phase _ _ _ _ _ Hx)]. }
  pose proof (arrive_all _ _ _ _ _ _ _ _ _ _ _ _ _ _ now g Hb0) as Hh.
  destruct (TcpController_HandleReceivedPackets now g _ t0) as [[g' t']|f]; [|done].
  destruct Hh as (gx' & gy' & ps & Hq1 & Hq2 & Hb1). simpl. exists gx', gy'. unfold flat. simpl.
  rewrite app_nil_r, Hq1, Hq2. simpl. by rewrite <- !app_assoc in Hb1.
Qed.

(** A thread that cannot fail. *)
Lemma thread_ok r act g me you t1 : pair_inv r me you → conn_do act g (ep_tcp me) = Ok (Some (g, [], t1)) →
  (∀ gx gy, both r gx (flat me you) gy (flat you me) →
    stepped r gy (ep_tcp me) (ep_net (flat me you)) (ep_written me) (ep_read me) (ep_closed me) (flat you me) t1) →
  action_ok r (SConn act g) me you.
Proof.
  intros (gx & gy & Hb) Hdo Hs. specialize (Hs gx gy Hb). unfold action_ok.
  destruct me as [t net w rd cl]. simpl in *. rewrite Hdo. destruct (conn_action_ok act t); [|done]. simpl.
  rewrite app_nil_r. by eapply stepped_pair.
Qed.

Lemma thread_blocks r act g me you : conn_do act g (ep_tcp me) = Ok None → action_ok r (SConn act g) me you.
Proof. intros Hdo. unfold action_ok. destruct me. simpl in *. rewrite Hdo. by destruct (conn_action_ok act _). Qed.

Lemma to_host_ok r g me you : pair_inv r me you → action_ok r (SConn KToHost g) me you.
Proof.
  intros (gx & gy & Hb). destruct me as [t net w rd cl]. unfold action_ok. simpl.
  destruct (TcpController_PacketSendBufferListener_round t) as [[pkts t']|] eqn:Hr; simpl; [|done].
  pose proof Hb as [Hx _]. destruct (ph_queues _ _ _ _ _ (d_phase _ _ _ _ _ Hx)) as [Hd _]. simpl in Hd.
  destruct (packets_out t pkts t' Hd Hr) as [-> ->]. exists gx, gy. unfold flat in *. simpl in *.
  rewrite app_nil_r. eapply both_idle; [exact Hb|by split_and!|by split_and!|done|done|done| |done|done].
  simpl. by apply (phase_same _ _ _ _ t); [split_and!|apply (d_phase _ _ _ _ _ Hx)].
Qed.

Lemma thread_send_ok r now g me you : pair_inv r me you → action_ok r (SConn (KSend now) g) me you.
Proof.
  intros Hp. pose proof Hp as (gx & gy & Hb). pose proof Hb as [[Hst _ [Hok Hend _ _ _] _ _ _ _ _ _] _].
  destruct (round_sends 0 _ _ (ep_tcp me) now Hst Hok ltac:(simpl in Hend; lia)) as (ps & t1 & Hr & _).
  destruct (bool_decide (SendBufferListener ∉ tc_tasks (ep_tcp me)) && negb (tc_shutdown (ep_tcp me)) &&
    SendBufferListener_window_wait (ep_tcp me) && SendBufferListener_buffer_wait (ep_tcp me)) eqn:Hc.
  - eapply thread_ok; [done|simpl; by rewrite Hc, Hr|]. intros gx' gy' Hb'.
    rewrite !andb_true_iff, bool_decide_eq_true in Hc. destruct Hc as [[[? _] _] _].
    by eapply keeps_send.
  - apply thread_blocks. simpl. by rewrite Hc.
Qed.

Lemma thread_fin_ok r now g me you : pair_inv r me you → action_ok r (SConn (KFin now) g) me you.
Proof.
  intros Hp. destruct (conn_action_ok (KFin now) (ep_tcp me)) eqn:Hact.
  2: { unfold action_ok. destruct me; simpl in *. by rewrite Hact. }
  simpl in Hact. apply andb_true_iff in Hact as [Hj%Z.ltb_lt Hend%Z.ltb_lt].
  destruct (bool_decide (SendFIN ∈ tc_tasks (ep_tcp me))) eqn:Hc; [|apply thread_blocks; simpl; by rewrite Hc].
  assert (∃ o, TcpController_SendFIN now (ep_tcp me) = Ok o) as [[t1|] Ho].
  { destruct (tc_shutdown (ep_tcp me)) eqn:Hs; [unfold TcpController_SendFIN; rewrite Hs; eauto|].
    pose proof Hp as (gx & gy & [[_ _ [Hok _ _ _ _] _ _ _ _ _ _] _]).
    pose proof (wk_window _ _ _ _ Hok) as Hw. simpl in Hw. unfold ep_end in Hend.
    assert (0 <= Buffer_size (tc_send_buffer (ep_tcp me))) by (rewrite Buffer_size_spec; lia).
    pose proof (SendFIN_result _ _ now _ Hw ltac:(lia) Hs) as Hres. unfold fin_result in Hres.
    destruct (TcpController_SendFIN now (ep_tcp me)) as [o|]; [by exists o|done]. }
  - eapply thread_ok; [done|simpl; by rewrite Hc, Ho|]. intros gx' gy' Hb'.
    apply stepped_drop; [done|]. by eapply keeps_fin.
  - apply thread_blocks. simpl. by rewrite Hc, Ho.
Qed.

Lemma conn_ok r act g me you : pair_inv r me you → action_ok r (SConn act g) me you.
Proof.
  intros Hp. destruct act; [by apply receive_ok|by apply to_host_ok| |by apply thread_send_ok| |by apply thread_fin_ok|..].
  - destruct (bool_decide (SendBufferListener ∈ tc_tasks (ep_tcp me)) && negb (tc_shutdown (ep_tcp me)) &&
      SendBufferListener_state_wait (ep_tcp me)) eqn:Hc; [|apply thread_blocks; simpl; by rewrite Hc].
    eapply thread_ok; [done|simpl; by rewrite Hc|]. intros gx gy Hb.
    rewrite !andb_true_iff, negb_true_iff in Hc. destruct Hc as [[_ ?] ?]. by eapply keeps_listen.
  - destruct (TcpController_ReceiveBufferListener_round (ep_tcp me)) as [t1|] eqn:Hr;
      [|apply thread_blocks; simpl; by rewrite Hr].
    eapply thread_ok; [done|simpl; by rewrite Hr|]. intros gx gy Hb. by eapply keeps_overflow.
  - destruct (bool_decide (SendRSTForClosedConnection ∈ tc_tasks (ep_tcp me))) eqn:Hc;
      [|apply thread_blocks; simpl; by rewrite Hc].
    destruct (TcpController_SendRSTForClosedConnection_round (ep_tcp me)) as [t1|] eqn:Hr;
      [|apply thread_blocks; simpl; by rewrite Hc, Hr].
    eapply thread_ok; [done|simpl; by rewrite Hc, Hr|]. intros gx gy Hb.
    apply bool_decide_eq_true in Hc. by eapply keeps_reset.
  - destruct (Timer_started (tc_timer (ep_tcp me))) eqn:Hc; [|apply thread_blocks; simpl; by rewrite Hc].
    eapply thread_ok; [done|simpl; by rewrite Hc|]. intros gx gy Hb. by eapply keeps_retransmit.
  - destruct (Timer_started (tc_prober_timer (ep_tcp me))) eqn:Hc; [|apply thread_blocks; simpl; by rewrite Hc].
    eapply thread_ok; [done|simpl; by rewrite Hc|]. intros gx gy Hb. by eapply keeps_probe.
  - destruct (Timer_started (tc_syn_timer (ep_tcp me)) || Timer_started (tc_fin_timer (ep_tcp me)) ||
      Timer_started (tc_close_timer (ep_tcp me))) eqn:Hc; [|apply thread_blocks; simpl; by rewrite Hc].
    eapply thread_ok; [done|simpl; by rewrite Hc|]. intros gx gy Hb. by eapply keeps_timeout.
  - destruct (0 <? tc_kill_threads (ep_tcp me))%nat eqn:Hc; [|apply thread_blocks; simpl; by rewrite Hc].
    eapply thread_ok; [done|simpl; by rewrite Hc|]. intros gx gy Hb. by eapply keeps_kill.
Qed.

Lemma WriteData_queues buf n t t' : TcpController_WriteData buf t = Some (n, t') →
  tc_pkt_send_buffer t' = tc_pkt_send_buffer t ∧ tc_pkt_recv_buffer t' = tc_pkt_recv_buffer t.
Proof. unfold TcpController_WriteData. repeat case_match; by intros [= <- <-]. Qed.

Lemma ReadData_queues size t t' n bs : TcpController_ReadData size t = Ok (Some (n, bs, t')) →
  tc_pkt_send_buffer t' = tc_pkt_send_buffer t ∧ tc_pkt_recv_buffer t' = tc_pkt_recv_buffer t.
Proof. unfold TcpController_ReadData. repeat case_match; by intros [= <- <- <-]. Qed.

Lemma TryClose_queues t : let t' := (TcpController_TryClose t).2 in
  tc_pkt_send_buffer t' = tc_pkt_send_buffer t ∧ tc_pkt_recv_buffer t' = tc_pkt_recv_buffer t.
Proof.
  unfold TcpController_TryClose, TcpController_TryShutDown, TcpController_CloseConnection, TcpController_AddTask.
  by destruct (InClosingState (tc_state t)).
Qed.

Lemma TryShutDown_queues t : let t' := (TcpController_TryShutDown t).2 in
  tc_pkt_send_buffer t' = tc_pkt_send_buffer t ∧ tc_pkt_recv_buffer t' = tc_pkt_recv_buffer t.
Proof. unfold TcpController_TryShutDown, TcpController_AddTask. by case_match. Qed.

(** A call of [me] has kept the invariant. *)
Lemma called_pair r t t' net w w' rd rd' cl cl' you gx gy :
  tc_pkt_send_buffer t' = tc_pkt_send_buffer t ∧ tc_pkt_recv_buffer t' = tc_pkt_recv_buffer t →
  both r gx (MkEndpoint t' (ep_net (flat (MkEndpoint t net w rd cl) you)) w' rd' cl') gy
    (flat you (MkEndpoint t net w rd cl)) →
  pair_inv r (MkEndpoint t' net w' rd' cl') you.
Proof. intros [E1 E2] Hb. exists gx, gy. unfold flat in *. simpl in *. by rewrite E1, E2. Qed.

Lemma read_again_fault size t f : TcpController_ReadData size t = Fault f →
  f = LogFatal ∧ tc_pipe_state t = EOF_CONSUMED.
Proof.
  unfold TcpController_ReadData. case_bool_decide; [by intros [= <-]|]. by repeat case_match.
Qed.

Lemma end_do_ok r act me you : pair_inv r me you → action_ok r act me you.
Proof.
  intros Hp. destruct act as [buf|size| | |act g| |i| ]; [| | | |by apply conn_ok|..];
    destruct me as [t net w rd cl]; destruct Hp as (gx & gy & Hb); unfold action_ok; simpl.
  - destruct cl eqn:Hc; simpl; [done|]. destruct (Z.leb_spec 4294967295 (ep_end t + Z.of_nat (length buf))); [done|].
    destruct (TcpController_WriteData buf t) as [[n t']|] eqn:Hw; simpl; [|done].
    eapply called_pair; [by eapply WriteData_queues|]. by eapply keeps_write.
  - destruct cl eqn:Hc; simpl; [done|]. destruct (_ || _) eqn:Hs; [done|].
    apply orb_false_iff in Hs as [?%Z.ltb_ge ?%Z.leb_gt].
    destruct (TcpController_ReadData size t) as [[[[n bs] t']|]|f] eqn:Hr; simpl; [|done|by apply (read_again_fault size)].
    destruct (keeps_read _ _ _ _ _ _ _ _ _ Hb size n bs t' eq_refl ltac:(lia) Hr) as [gx' Hb'].
    eapply called_pair; [by eapply ReadData_queues|exact Hb'].
  - destruct cl; [done|]. eapply called_pair; [apply TryShutDown_queues|]. by eapply keeps_shutdown.
  - destruct cl; [done|]. eapply called_pair; [apply TryClose_queues|]. by eapply keeps_close.
  - destruct you as [t' [|pkt net'] w' rd' cl']; simpl; [done|]. exists gx, gy. unfold flat in *. simpl in *.
    rewrite <- app_assoc. eapply both_idle; [exact Hb|by split_and!..|done|done|done| |done|done].
    apply (phase_same _ _ _ _ t); [by split_and!|apply (d_phase _ _ _ _ _ (proj1 Hb))].
  - destruct (net !! i) as [p|] eqn:Hi; simpl; [|done]. exists gx, gy. unfold flat in *. simpl in *.
    set (q1 := pq_packets (tc_pkt_recv_buffer (ep_tcp you))) in *. set (q2 := pq_packets (tc_pkt_send_buffer t)) in *.
    clearbody q1 q2. refine (both_lose r gx _ _ gy _ (q1 ++ take i net) p (drop (S i) net ++ q2) Hb _ _); simpl.
    + rewrite <- (take_drop_middle _ _ _ Hi) at 1. by rewrite <- !app_assoc.
    + by rewrite delete_take_drop, <- !app_assoc.
  - exists gx, gy. unfold flat in *. simpl in *.
    destruct (rst_parts (TcpController_MakeRstPacket t) eq_refl) as [Hs Ha].
    set (p := TcpController_MakeRstPacket t) in *. clearbody p.
    eapply both_idle; [exact Hb|by split_and!|by split_and!|done|done|done|apply (d_phase _ _ _ _ _ (proj1 Hb))| |]; simpl.
    + by rewrite !stream_part_app, Hs, app_nil_r.
    + by rewrite !ack_part_app, Ha, app_nil_r.
Qed.
Lemma session_do_ok act s : session_inv s →
  match session_do act s with
  | Ok (Some s') => session_inv s'
  | Ok None => True
  | Fault f => action_fault act.2 (end_of act.1 s) f
  end.
Proof.
  destruct act as [r act]. rewrite (session_pair r). intros Hp%(end_do_ok r act). unfold action_ok in Hp.
  unfold session_do. simpl. destruct (end_do act _ _) as [[[me' you']|]|f]; [|done|done]. simpl.
  rewrite (session_pair r). by destruct r.
Qed.

(** ** The beginning *)

(** The options of an end; the code starts all sequence numbers from zero. *)
Record session_options (o : TcpControllerOptions) : Prop := {
  opt_window : 1 <= send_window_size o < 4294967296;
  opt_send_base : send_window_base o = 0;
  opt_recv_base : recv_window_base o = 0;
  opt_send_buffer : 0 <= send_buffer_size o < 2147483648;
  opt_recv_buffer : 0 <= recv_buffer_size o;
}.

Definition no_progress : progress := MkProgress [] 0 ∅ 0 [].

Lemma dir_fresh r sk k o sk' k' o' : session_options o → session_options o' →
  dir r no_progress (MkEndpoint (TcpController_new sk k o) [] [] [] false)
    no_progress (MkEndpoint (TcpController_new sk' k' o') [] [] [] false).
Proof.
  intros [Hw Hsb Hrb Hs Hr] [_ _ Hrb' _ Hr'].
  destruct (Buffer_new_bytes _ (proj1 Hs)) as [Hb1 Hc1]. destruct (Buffer_new_bytes _ Hr') as [Hb2 Hc2].
  split; simpl; try done; [by left| | | | |lia].
  - split; simpl; rewrite ?Buffer_size_spec, ?Hb1; try done; [|lia].
    split; simpl; rewrite ?Hc1; try done; [|lia]. apply SendWindow_new_inv; unfold is_u32; lia.
  - split; simpl; try done; [by intros [|]|by left|left; set_solver|set_solver].
  - assert (stream_ok 0 []) as [Hb Hc _ He] by (split; rewrite ?total_len_nil; done).
    split; simpl; rewrite ?Hb2; try done.
    + exists (MkRecv 0 []). split; [by apply recv_stream_init|].
      pose proof (RecvWindow_new_rep (recv_window_base o') (recv_window_size o') heap_empty _ _ eq_refl) as Hrep.
      rewrite Hrb' in *. exact Hrep.
    + rewrite Buffer_free_space_spec, Hb2, Hc2. simpl. lia.
  - split; [apply flight_nil| |by constructor|by apply acks_nil|done|done]. split; [constructor|lia].
Qed.

Lemma session_start_ok sc ss kc ks oc os now : session_options oc → session_options os →
  ∃ s, session_start sc ss kc ks oc os now = Ok (Some s) ∧ session_inv s ∧
    ∀ r, ep_written (end_of r s) = [] ∧ ep_read (end_of r s) = [] ∧ ep_closed (end_of r s) = false.
Proof.
  intros Hoc Hos. pose proof Hoc as [Hw Hsb Hrb Hs Hr]. unfold session_start, TcpController_TryConnect. simpl.
  rewrite Hsb. set (syn := TcpController_MakeSyncPacket 0 (TcpController_new sc kc oc)).
  set (w0 := SendWindow_new 0 (send_window_size oc)).
  assert (SendWindow_inv w0) as Hinv by (apply SendWindow_new_inv; unfold is_u32; lia).
  rewrite (SendWindow_SendPacket_eq now syn w0 Hinv) by done.
  assert (has_room w0 syn = true) as ->.
  { unfold has_room. apply orb_true_iff. right. apply Z.leb_le. rewrite SendWindow_free_space_eq by done. simpl. lia. }
  cbn [andb]. change (pkt_seq syn =? SendWindow_NextSeqNumberToSend w0) with true. cbn [mbind res_bind negb].
  unfold TcpController_PacketSendBufferListener_round. simpl. eexists. split; [done|]. split; [|by intros []].
  change (Packet_Copy syn) with syn. change (pkt_seq syn) with 0.
  assert (set_recv_window_base (λ _, 0) os = os) as -> by (pose proof (opt_recv_base _ Hos); destruct os; simpl in *; by subst).
  pose proof (dir_fresh Active sc kc oc ss ks os Hoc Hos) as Ha.
  pose proof (dir_fresh Passive ss ks os sc kc oc Hos Hoc) as Hp.
  set (g1 := MkProgress [syn] 0 ∅ 0 []). exists g1, no_progress.
  split; cbn [ss_active ss_passive].
  - match goal with |- dir _ _ (flat (MkEndpoint ?c _ _ _ _) _) _ _ =>
      assert (dir Active g1 (MkEndpoint c [syn] [] [] false) no_progress
        (MkEndpoint (TcpController_new ss ks os) [] [] [] false)) as H1 end.
    { eapply (dir_first _ _ _ _ _ _ _ syn now); [exact Ha|..]; try done; simpl; by rewrite Hsb. }
    eapply dir_receiver; [|..].
    { eapply (dir_resend _ _ _ _ _ _ _ (Some syn)); [exact H1|..]; try done; [apply (d_snd _ _ _ _ _ H1)..| |by right].
      apply (d_phase _ _ _ _ _ H1). }
    all: try done.
  - eapply dir_sender_same; [eapply dir_receiver; [exact Hp|..]|..]; try done; by split_and!.
Qed.

(** ** Runs *)

Lemma session_run_ok acts s : session_inv s →
  match session_run acts s with
  | Ok s' => session_inv s'
  | Fault f => ∃ pre r act post s', acts = pre ++ (r, act) :: post ∧ session_run pre s = Ok s' ∧
      action_fault act (end_of r s') f
  end.
Proof.
  revert s. induction acts as [|[r act] acts IH]; intros s Hs; [done|]. cbn [session_run].
  pose proof (session_do_ok (r, act) s Hs) as Hdo.
  destruct (session_do (r, act) s) as [o|f] eqn:Hr; cbn [mbind res_bind]; last first.
  { by exists [], r, act, acts, s. }
  assert (session_inv (match o with Some s1 => s1 | None => s end)) as Hs1 by by destruct o.
  specialize (IH _ Hs1). destruct (session_run acts _) as [s2|f]; [done|].
  destruct IH as (pre & r' & act' & post & s' & -> & Hpre & Hf). exists ((r, act) :: pre), r', act', post, s'.
  split; [done|]. split; [|done]. cbn [session_run]. rewrite Hr. done.
Qed.

(** What the invariant says about the bytes that [Y] reads from [X]. *)
Definition stream_delivered X Y : Prop :=
  ep_read Y `prefix_of` ep_written X ∧ tc_overflow_pkts (ep_tcp Y) = [] ∧
  (ep_closed Y = false →
    (∃ n, ep_written X = ep_read Y ++ Buffer_bytes (tc_recv_buffer (ep_tcp Y)) ++
      (drop n (sw_packets (tc_send_window (ep_tcp X))) ≫= packet_bytes) ++
      Buffer_bytes (tc_send_buffer (ep_tcp X))) ∧
    (tc_pipe_state (ep_tcp Y) = EOF_CONSUMED → ep_read Y = ep_written X)).

Lemma dir_delivered r gx X gy Y : dir r gx X gy Y → stream_delivered X Y.
Proof.
  intros [_ Hsh [Hok _ Hwr Hfin _] _ [Hwin Hov Hpipe Heof Hby _] [Hrd1 Hrd2] Hn _ _].
  pose proof (acks_jk _ _ _ _ _ _ (no_acks _ _ _ _ _ _ _ _ Hn)) as Hjk.
  set (sent := gh_sent gx) in *. set (j := gh_acked gx) in *. set (k := gh_next gy) in *.
  assert (gh_taken gy ++ Buffer_bytes (tc_recv_buffer (ep_tcp Y)) ++ (drop k sent ≫= packet_bytes) ++
    Buffer_bytes (tc_send_buffer (ep_tcp X)) = ep_written X) as Hall.
  { rewrite Hwr, app_assoc, Hby, app_assoc. f_equal. by rewrite <- bind_app, take_drop. }
  assert (drop k sent = drop (k - j) (sw_packets (tc_send_window (ep_tcp X)))) as Hd.
  { rewrite (wk_packets _ _ _ _ Hok), drop_drop. f_equal. lia. }
  split; [etrans; [exact Hrd1|]; rewrite <- Hall; by apply prefix_app_r|]. split; [done|]. intros Hc.
  split; [exists (k - j)%nat; by rewrite <- Hd, <- (Hrd2 Hc), Hall|].
  intros He. rewrite <- (Hrd2 Hc), <- Hall, (Heof He). rewrite He in Hpipe. simpl in Hpipe.
  assert (has_fin (take k sent) = true) as Hf by by destruct (has_fin (take k sent)).
  rewrite (shape_fin_last _ _ _ _ Hsh Hf), Hfin; [by rewrite app_nil_r|].
  rewrite <- (take_drop k sent), has_fin_app, Hf. done.
Qed.

Lemma session_delivered r s : session_inv s → stream_delivered (end_of (other r) s) (end_of r s).
Proof.
  intros (ga & gp & Ha & Hp). destruct r; simpl; [|apply dir_delivered in Ha; exact Ha].
  apply dir_delivered in Hp. exact Hp.
Qed.

(** ** Properties *)

(** C1. In every session of two connections, from the SYN the server's host hands over
    twice, whatever the programs call, the threads and timers do, and the network
    loses, what each end has read is a prefix of what the other end wrote; as long as
    an end is open, what it has not read is, in order, in its receive buffer, in the
    last packets of the other's send window, or in the other's send buffer; and when
    it has read the end of file, it has read everything. The network keeps the order of
    the packets, [SendFIN] runs once the SYN is acknowledged, and sequence numbers do
    not wrap around ([end_do]). *)
Theorem Session_safe sc ss kc ks oc os now acts
    (Hoc : session_options oc) (Hos : session_options os) :
  ∃ s0, session_start sc ss kc ks oc os now = Ok (Some s0) ∧
    ∀ s r, session_run acts s0 = Ok s →
      let me := end_of r s in let you := end_of (other r) s in
      ep_read me `prefix_of` ep_written you ∧ tc_overflow_pkts (ep_tcp me) = [] ∧
      (ep_closed me = false →
        (∃ n, ep_written you = ep_read me ++ Buffer_bytes (tc_recv_buffer (ep_tcp me)) ++
          (drop n (sw_packets (tc_send_window (ep_tcp you))) ≫= packet_bytes) ++
          Buffer_bytes (tc_send_buffer (ep_tcp you))) ∧
        (tc_pipe_state (ep_tcp me) = EOF_CONSUMED → ep_read me = ep_written you)).
Proof.
  destruct (session_start_ok sc ss kc ks oc os now Hoc Hos) as (s0 & Hs0 & Hinv & _).
  exists s0. split; [done|]. intros s r Hrun. pose proof (session_run_ok acts s0 Hinv) as Hok.
  rewrite Hrun in Hok. by apply session_delivered.
Qed.

(** C5. No session ends in a failed check, a dangling node, a send window that refuses
    a packet or an endless loop: the only failures are the tolerance of duplicate
    acknowledgements outgrowing its type while packets are handled, and a program
    that reads again after the end of file. *)
Theorem Session_faults sc ss kc ks oc os now acts
    (Hoc : session_options oc) (Hos : session_options os) :
  ∃ s0, session_start sc ss kc ks oc os now = Ok (Some s0) ∧
    ∀ f, session_run acts s0 = Fault f → ∃ pre r act post s,
      acts = pre ++ (r, act) :: post ∧ session_run pre s0 = Ok s ∧
      match act with
      | SConn (KReceive _) _ => f = BadConversion
      | SRead _ => f = LogFatal ∧ tc_pipe_state (ep_tcp (end_of r s)) = EOF_CONSUMED
      | _ => False
      end.
Proof.
  destruct (session_start_ok sc ss kc ks oc os now Hoc Hos) as (s0 & Hs0 & Hinv & _).
  exists s0. split; [done|]. intros f Hrun. pose proof (session_run_ok acts s0 Hinv) as Hok.
  by rewrite Hrun in Hok.
Qed.
End SessionSafe.

(** ** A concrete session

    The client writes five bytes and shuts down; the SYN_ACK that is sent twice arrives
    once, and the data is lost and sent again. *)
#[local] Existing Instance simple_StopWatch.
#[local] Existing Instance simple_Timer.
#[local] Existing Instance simple_Buffer.
#[local] Existing Instance simple_Min.

#[local] Abbreviation act_c := (λ a g, (Active, SConn a g)).
#[local] Abbreviation act_s := (λ a g, (Passive, SConn a g)).

Definition sample_session : list (opener * end_action) :=
  [act_s (KReceive 0) 3; act_s KToHost 3; (Passive, SLose 1); (Active, SDeliver);
   act_c (KReceive 1) 3; act_c KToHost 3; (Passive, SDeliver); act_s (KReceive 2) 3;
   act_c KListen 3; (Active, SWrite [1; 2; 3; 4; 5]); act_c (KSend 3) 3; act_c KToHost 3; (Active, SLose 0);
   act_c KRetransmit 3; act_c KToHost 3; (Passive, SDeliver); act_s (KReceive 4) 3;
   (Passive, SRead 3); act_s KToHost 3; (Active, SDeliver); act_c (KReceive 5) 3;
   (Active, SShutDown); act_c (KFin 6) 3; act_c KToHost 3; (Passive, SDeliver); act_s (KReceive 7) 3;
   (Passive, SRead 10); (Passive, SRead 10)].

Definition sample_start : res (option session) :=
  session_start 1 2 TcpControllerKey_default TcpControllerKey_default
    TcpController_GetDefaultOptions TcpController_GetDefaultOptions 0.

Lemma default_session_options : session_options TcpController_GetDefaultOptions.
Proof. by split. Qed.

Lemma Session_safe_witness : ∃ s0 s, sample_start = Ok (Some s0) ∧ session_run sample_session s0 = Ok s ∧
  ep_written (ss_active s) = [1; 2; 3; 4; 5] ∧ ep_closed (ss_passive s) = false ∧
  tc_pipe_state (ep_tcp (ss_passive s)) = EOF_CONSUMED ∧ ep_read (ss_passive s) = ep_written (ss_active s).
Proof.
  destruct (Session_safe 1 2 TcpControllerKey_default TcpControllerKey_default TcpController_GetDefaultOptions
    TcpController_GetDefaultOptions 0 sample_session default_session_options default_session_options)
    as (s0 & Hs0 & Hsafe).
  assert (∃ s, session_run sample_session s0 = Ok s ∧ ep_written (ss_active s) = [1; 2; 3; 4; 5] ∧
    ep_closed (ss_passive s) = false ∧ tc_pipe_state (ep_tcp (ss_passive s)) = EOF_CONSUMED) as (s & Hs & Hw & Hc & He).
  { vm_compute in Hs0. injection Hs0 as <-. eexists. split; [vm_compute; reflexivity|]. by vm_compute. }
  exists s0, s. split; [done|]. split; [done|]. split; [done|]. split; [done|]. split; [done|].
  by apply (Hsafe s Passive Hs).
Defined.

(** A program that reads once more ends the session. *)
Lemma Session_faults_witness : ∃ s0, sample_start = Ok (Some s0) ∧
  session_run (sample_session ++ [(Passive, SRead 10)]) s0 = Fault LogFatal ∧
  ∃ pre r act post, sample_session ++ [(Passive, SRead 10)] = pre ++ (r, act) :: post ∧
    match act with SConn (KReceive _) _ | SRead _ => True | _ => False end.
Proof.
  destruct (Session_faults 1 2 TcpControllerKey_default TcpControllerKey_default TcpController_GetDefaultOptions
    TcpController_GetDefaultOptions 0 (sample_session ++ [(Passive, SRead 10)])
    default_session_options default_session_options) as (s0 & Hs0 & Hf).
  assert (session_run (sample_session ++ [(Passive, SRead 10)]) s0 = Fault LogFatal) as Hr.
  { vm_compute in Hs0. injection Hs0 as <-. by vm_compute. }
  exists s0. split; [done|]. split; [done|]. destruct (Hf _ Hr) as (pre & r & act & post & s & Heq & _ & Ha).
  exists pre, r, act, post. split; [done|]. destruct act as [| | | |[]| | |]; done.
Defined.
