(* ===== verification/SessionSpec.v ===== *)
(** * What a session is for

    The abstract specification of a session: two streams of bytes, one in each
    direction, on which a program puts bytes and takes them off in order, and which
    end once everything was taken off. Every session behaves like it. *)
From S2P Require Import Prelude Interfaces Packet Keys PacketQueue SendWindow RecvWindow.
From S2P Require Import Tcp TcpRecv TcpSend TcpConn Threads Connection Stream Session SessionInv SessionStep SessionRecv SessionSafe.
From stdpp Require Import sorting.
Open Scope Z_scope.
Open Scope tcp_scope.

(** ** The specification *)

(** A stream: the bytes that were put on it and not taken off, and whether its reader
    was told that it has ended. *)
Record bytestream := MkStream { bs_pending : list Z; bs_ended : bool }.

Definition stream_new : bytestream := MkStream [] false.

(** What a call came to: bytes written, bytes read, the end of the stream. *)
Inductive call_event := Wrote (bytes : list Z) | Got (bytes : list Z) | Ended.

(** Nothing is put on a stream that has ended; only what is in front is taken off; a
    stream ends when there is nothing left. *)
Definition stream_do (e : call_event) (s : bytestream) : option bytestream :=
  match e with
  | Wrote bytes =>
      if bs_ended s && negb (bool_decide (bytes = [])) then None
      else Some (MkStream (bs_pending s ++ bytes) (bs_ended s))
  | Got bytes =>
      if bool_decide (bytes `prefix_of` bs_pending s)
      then Some (MkStream (drop (length bytes) (bs_pending s)) (bs_ended s)) else None
  | Ended => if bool_decide (bs_pending s = []) then Some (MkStream [] true) else None
  end.

(** Both directions: the stream an end writes to, and the one it reads from. *)
Record duplex := MkDuplex { dx_active : bytestream; dx_passive : bytestream }.

Definition duplex_new : duplex := MkDuplex stream_new stream_new.
Definition written_by (r : opener) (d : duplex) : bytestream :=
  match r with Active => dx_active d | Passive => dx_passive d end.
Definition with_stream (r : opener) (s : bytestream) (d : duplex) : duplex :=
  match r with Active => MkDuplex s (dx_passive d) | Passive => MkDuplex (dx_active d) s end.

Definition duplex_do (ev : opener * call_event) (d : duplex) : option duplex :=
  let '(r, e) := ev in
  let w := match e with Wrote _ => r | _ => other r end in
  s ← stream_do e (written_by w d);
  Some (with_stream w s d).

Fixpoint duplex_run (tr : list (opener * call_event)) (d : duplex) : option duplex :=
  match tr with
  | [] => Some d
  | ev :: tr => d ← duplex_do ev d; duplex_run tr d
  end.

Section SessionSpec.
Context {SWO : StopWatchOps} {TMO : TimerOps} {BFO : BufferOps} {MNO : MinOps}.

(** ** What the programs see of a session *)

(** What a call came to that returned: [WriteData] gave a number of bytes, or -1;
    [ReadData] asked for bytes and gave 0, or gave bytes, or -1 and none. *)
Definition event_of (act : end_action) (me : endpoint) : option call_event :=
  match act with
  | SWrite buf =>
      '(n, _) ← TcpController_WriteData buf (ep_tcp me);
      Some (Wrote (take (Z.to_nat n) buf))
  | SRead size =>
      match TcpController_ReadData size (ep_tcp me) with
      | Ok (Some (n, bytes, _)) => Some (if (n =? 0) && (0 <? size) then Ended else Got bytes)
      | _ => None
      end
  | _ => None
  end.

(** A run with the results of its calls. *)
Fixpoint session_trace (acts : list (opener * end_action)) (s : session)
    : res (list (opener * call_event) * session) :=
  match acts with
  | [] => Ok ([], s)
  | (r, act) :: acts =>
      o ← session_do (r, act) s;
      match o with
      | None => session_trace acts s
      | Some s' =>
          '(tr, s'') ← session_trace acts s';
          Ok (option_list (pair r <$> event_of act (end_of r s)) ++ tr, s'')
      end
  end.
(** ** The end of file stays

    Once a FIN was delivered, the receiver never counts as open again. *)
Definition eof_seen (t : TcpController) : Prop := tc_pipe_state t ≠ OPEN.
Implicit Types t : TcpController.

Lemma eof_same t t' : tc_pipe_state t' = tc_pipe_state t → eof_seen t → eof_seen t'.
Proof. unfold eof_seen. by intros ->. Qed.

Lemma stream_one_pipe p t : tc_pipe_state (stream_one p t) = tc_pipe_state t.
Proof. unfold stream_one. by repeat case_match. Qed.

Lemma SendPacket_pipe o t : tc_pipe_state (TcpController_SendPacket o t) = tc_pipe_state t.
Proof. by destruct o. Qed.

Lemma push_overflowed_pipe t :
  tc_pipe_state (TcpController_PushOverflowedPacketsToSocketBuffer t) = tc_pipe_state t.
Proof. unfold TcpController_PushOverflowedPacketsToSocketBuffer. by case_match. Qed.

Lemma stream_loop_eof fuel node t t' : stream_loop fuel node t = Ok t' → eof_seen t → eof_seen t'.
Proof.
  revert node t. induction fuel as [|fuel IH]; intros [l|] t; simpl; try done; [by intros [= <-]| |by intros [= <-]].
  destruct (heap_load (tc_recv_nodes t) l) as [nd|]; simpl; [|done].
  destruct (deref (rn_pkt nd)) as [pkt|]; simpl; [|done].
  destruct (sync (tcp_header pkt)); [apply IH|]. destruct (fin (tcp_header pkt)); [by intros [= <-] _|].
  intros H He. eapply IH; [exact H|]. by apply (eof_same t); [apply stream_one_pipe|].
Qed.

Lemma receive_pipe p t n chain t' : TcpController_receive p t = Ok (n, chain, t') → tc_pipe_state t' = tc_pipe_state t.
Proof. unfold TcpController_receive. intros H. inv_res H. repeat case_match. by injection H as <- <- <-. Qed.

(** Receive, deliver and acknowledge. *)
Lemma deliver_eof p t t' :
  ('(n, chain, t) ← TcpController_receive p t;
   t ← TcpController_StreamDataToReceiveBuffer chain t;
   Ok (TcpController_SendPacket (Some (TcpController_MakeAckPacket n t)) t)) = Ok t' → eof_seen t → eof_seen t'.
Proof.
  destruct (TcpController_receive p t) as [[[n chain] t1]|] eqn:Hr; [|done]. cbn [mbind res_bind].
  unfold TcpController_StreamDataToReceiveBuffer. destruct (stream_loop _ chain _) as [t2|] eqn:Hs; [|done].
  intros [= <-] He. apply (eof_same t2); [done|]. eapply stream_loop_eof; [exact Hs|].
  apply (eof_same t1); [apply push_overflowed_pipe|]. apply (eof_same t); [by eapply receive_pipe|done].
Qed.

Lemma HandlePacket_eof now g p t g' t' : TcpController_HandlePacket now g p t = Ok (g', t') → eof_seen t → eof_seen t'.
Proof.
  rewrite HandlePacket_dispatch. intros H He. destruct (segment_of p).
  - unfold TcpController_HandleSYN in H.
    destruct (TcpController_receive p t) as [[[n chain] t1]|] eqn:Hr; [|done]. apply receive_pipe in Hr. simpl in H.
    destruct (sanity_check _); [|done]. simpl in H.
    apply (eof_same t); [|done]. rewrite <- Hr. destruct (0 <? sw_size (tc_send_window t1)).
    + destruct (SendWindow_GetBasePakcketToReSend (tc_send_window t1)) as [[] w]; by injection H as <- <-.
    + destruct (SendWindow_SendPacket now _ _) as [[[] w]|]; [|by injection H as <- <-|done]; by injection H as <- <-.
  - unfold TcpController_HandleACKSYN in H. apply (eof_same t); [|done]. case_bool_decide; [|by injection H as <- <-].
    simpl in H. destruct (SendWindow_NewAckedPacket now _ _ g) as [[[r w] g1]|]; [|done]. simpl in H.
    destruct (SendWindow_NumPacketsToAck w =? 0); by injection H as <- <-.
  - unfold TcpController_HandleFIN in H. inv_res H. injection H as <- <-. eapply deliver_eof; [exact Ha|].
    apply (eof_same t); [|done]. unfold TcpController_HandleFIN_state. by destruct (tc_state t).
  - unfold TcpController_HandleACK, TcpController_HandleACK_window in H. apply (eof_same t); [|done].
    assert (∀ e t1, tc_pipe_state (TcpController_HandleACK_state e t1) = tc_pipe_state t1) as Hst.
    { intros e t1. pose proof (HandleACK_state_frame e t1) as ->. done. }
    simpl in H. destruct (SendWindow_NewAckedPacket now _ _ g) as [[[r w] g1]|]; [|done]. simpl in H.
    destruct (re_transmit r); [destruct (SendWindow_GetBasePakcketToReSend w) as [[] w1]|];
      injection H as _ <-; rewrite Hst; repeat case_match; done.
  - injection H as _ <-. unfold TcpController_HandleRst. destruct (CloseAndDelete_frame t) as [b ->]. done.
  - unfold TcpController_HandleDataPacket in H. destruct (payload_size p =? 0); [by injection H as <- <-|].
    inv_res H. injection H as <- <-. by eapply deliver_eof.
Qed.

Lemma HandleReceivedPackets_eof now g ps t g' t' :
  TcpController_HandleReceivedPackets now g ps t = Ok (g', t') → eof_seen t → eof_seen t'.
Proof.
  revert g t. induction ps as [|p ps IH]; intros g t; simpl; [by intros [= <- <-]|].
  destruct (TcpController_HandlePacket now g p t) as [[g1 t1]|] eqn:Hh; [|done]. intros H He.
  eapply IH; [exact H|]. by eapply HandlePacket_eof.
Qed.
Lemma send_data_packet_pipe now b size t t' :
  send_data_packet now b size t = Ok t' → tc_pipe_state t' = tc_pipe_state t.
Proof.
  unfold send_data_packet. case_match. intros Hrun. inv_res Hrun. case_match. injection Hrun as <-. by repeat case_match.
Qed.

Lemma send_full_packets_pipe now n t t' : send_full_packets now n t = Ok t' → tc_pipe_state t' = tc_pipe_state t.
Proof.
  revert t. induction n as [|n IH]; intros t; simpl; [by intros [= <-]|]. intros Hrun. inv_res Hrun.
  apply IH in Hrun as ->. by eapply send_data_packet_pipe.
Qed.

Lemma SendBufferListener_pipe now t t' :
  TcpController_SendBufferListener_round now t = Ok t' → tc_pipe_state t' = tc_pipe_state t.
Proof.
  unfold TcpController_SendBufferListener_round. case_match; [by intros [= <-]|]. case_match.
  { case_match; by intros [= <-]. }
  intros Hrun. inv_res Hrun. apply send_full_packets_pipe in Ha. rewrite <- Ha.
  case_match; [by eapply send_data_packet_pipe|by injection Hrun as <-].
Qed.

Lemma SendFIN_pipe now t t' : TcpController_SendFIN now t = Ok (Some t') → tc_pipe_state t' = tc_pipe_state t.
Proof.
  unfold TcpController_SendFIN. case_match; [by intros [= <-]|]. case_match; [done|]. intros Hrun. inv_res Hrun.
  case_match. case_match; [done|]. case_match; by injection Hrun as <-.
Qed.

Lemma CloseAndDelete_pipe t : tc_pipe_state (TcpController_CloseAndDelete t) = tc_pipe_state t.
Proof. by destruct (CloseAndDelete_frame t) as [b ->]. Qed.

Lemma drop_task_pipe k t : tc_pipe_state (drop_task k t) = tc_pipe_state t.
Proof. by rewrite drop_task_frame. Qed.

(** No thread reopens a connection whose end of file was seen. *)
Lemma conn_do_eof act g t g' ps t' : conn_do act g t = Ok (Some (g', ps, t')) → eof_seen t → eof_seen t'.
Proof.
  destruct act; simpl; intros Hrun He.
  - inv_res Hrun. destruct a as [[g1 t1]|]; [|done]. injection Hrun as <- <- <-.
    unfold TcpController_PacketReceiveBufferListener_round in Ha. case_match; [done|]. case_match; [|done].
    repeat case_match. match type of Ha with (?r ≫= _) = _ => destruct r as [[g2 t2]|] eqn:Hh; [|done] end.
    cbn [mbind res_bind] in Ha. injection Ha as <- <-. by eapply HandleReceivedPackets_eof.
  - destruct (TcpController_PacketSendBufferListener_round t) as [[l t1]|] eqn:Hr; [|done]. injection Hrun as <- <- <-.
    apply (eof_same t); [|done]. unfold TcpController_PacketSendBufferListener_round in Hr.
    repeat case_match; try done; by injection Hr as <- <-.
  - case_match; [|done]. injection Hrun as <- <- <-. by apply (eof_same t); [apply drop_task_pipe|].
  - case_match; [|done]. inv_res Hrun. injection Hrun as <- <- <-. by apply (eof_same t); [eapply SendBufferListener_pipe|].
  - destruct (TcpController_ReceiveBufferListener_round t) as [t1|] eqn:Hr; [|done]. injection Hrun as <- <- <-.
    apply (eof_same t); [|done]. unfold TcpController_ReceiveBufferListener_round in Hr.
    repeat case_match; try done. injection Hr as <-. apply push_overflowed_pipe.
  - case_match; [|done]. inv_res Hrun. destruct a as [t1|]; [|done]. injection Hrun as <- <- <-.
    apply (eof_same t); [|done]. rewrite drop_task_pipe. by eapply SendFIN_pipe.
  - case_match; [|done]. destruct (TcpController_SendRSTForClosedConnection_round t) as [t1|] eqn:Hr; [|done].
    injection Hrun as <- <- <-. apply (eof_same t); [|done]. unfold TcpController_SendRSTForClosedConnection_round in Hr.
    repeat case_match; try done; by injection Hr as <-.
  - case_match; [|done]. injection Hrun as <- <- <-. apply (eof_same t); [|done].
    unfold TcpController_TimeoutReTransmitter. repeat case_match; try done. simpl. by rewrite SendPacket_pipe.
  - case_match; [|done]. injection Hrun as <- <- <-. apply (eof_same t); [|done].
    unfold TcpController_ProbeWindowSize. by case_match.
  - case_match; [|done]. injection Hrun as <- <- <-. by apply (eof_same t); [apply CloseAndDelete_pipe|].
  - case_match; [|done]. injection Hrun as <- <- <-. apply (eof_same t); [|done].
    unfold TcpController_kill_thread. case_match; [done|]. by rewrite CloseAndDelete_pipe.
Qed.

Lemma end_do_eof act me you me' you' : end_do act me you = Ok (Some (me', you')) →
  (eof_seen (ep_tcp me) → eof_seen (ep_tcp me')) ∧ (eof_seen (ep_tcp you) → eof_seen (ep_tcp you')).
Proof.
  destruct me as [t net w rd cl]. destruct act as [buf|size| | |act g| |i| ]; simpl; intros Hrun.
  - case_match; [done|]. destruct (TcpController_WriteData buf t) as [[n t1]|] eqn:Hw; [|done].
    injection Hrun as <- <-. split; [|done]. apply eof_same. unfold TcpController_WriteData in Hw.
    repeat case_match; try done; by injection Hw as <- <-.
  - case_match; [done|]. inv_res Hrun. destruct a as [[[n bs] t1]|]; [|done]. injection Hrun as <- <-. split; [|done].
    simpl. unfold TcpController_ReadData in Ha. intros He. repeat case_match; try done; injection Ha as <- <- <-; done.
  - case_match; [done|]. injection Hrun as <- <-. split; [|done]. apply eof_same.
    unfold TcpController_TryShutDown. by case_match.
  - case_match; [done|]. injection Hrun as <- <-. split; [|done]. apply eof_same.
    unfold TcpController_TryClose, TcpController_TryShutDown. by destruct (InClosingState (tc_state t)).
  - destruct (conn_action_ok act t); [|done]. inv_res Hrun. destruct a as [[[g' ps] t1]|]; [|done].
    injection Hrun as <- <-. split; [|done]. by eapply conn_do_eof.
  - destruct you as [t' [|p net'] w' rd' cl']; [done|]. by injection Hrun as <- <-.
  - destruct (net !! i); [|done]. by injection Hrun as <- <-.
  - by injection Hrun as <- <-.
Qed.
(** ** The simulation *)

Context {Buffer_bytes : Buffer → list Z} {Buffer_capacity : Buffer → Z}.
Context {BFL : BufferLaws Buffer_bytes Buffer_capacity} {MNL : MinLaws}.
Implicit Types (me you : endpoint) (r : opener) (d : duplex).

#[local] Abbreviation pair_inv := (pair_inv (Buffer_bytes := Buffer_bytes) (Buffer_capacity := Buffer_capacity)).
#[local] Abbreviation session_inv := (session_inv (Buffer_bytes := Buffer_bytes) (Buffer_capacity := Buffer_capacity)).

(** The stream from [me] to [you]. *)
Definition linked me you (s : bytestream) : Prop :=
  ep_written me = ep_read you ++ bs_pending s ∧
  (bs_ended s = true → eof_seen (ep_tcp you) ∧ bs_pending s = []).

Definition sim r me you d : Prop := linked me you (written_by r d) ∧ linked you me (written_by (other r) d).

Lemma pair_delivered r me you : pair_inv r me you →
  stream_delivered (Buffer_bytes := Buffer_bytes) you me ∧ stream_delivered (Buffer_bytes := Buffer_bytes) me you.
Proof. intros (gx & gy & Hx & Hy). split; [exact (dir_delivered _ _ _ _ _ Hy)|exact (dir_delivered _ _ _ _ _ Hx)]. Qed.

(** Behind the end of a stream nothing is written. *)
Lemma write_after_end r me you buf n t' : pair_inv r me you → eof_seen (ep_tcp you) → ep_closed me = false →
  TcpController_WriteData buf (ep_tcp me) = Some (n, t') → take (Z.to_nat n) buf = [].
Proof.
  intros (gx & gy & [Hx _]) He Hc. pose proof (ro_pipe _ _ _ _ _ (d_rcv _ _ _ _ _ Hx)) as Hp.
  pose proof (ph_fin _ _ _ _ _ (d_phase _ _ _ _ _ Hx)) as Hf. simpl in Hp, Hf.
  rewrite bool_decide_eq_false_2 in Hp by done. symmetry in Hp. apply negb_false_iff in Hp.
  rewrite Hc, orb_false_r in Hf.
  assert (InClosingState (tc_state (ep_tcp me)) || tc_shutdown (ep_tcp me) = true) as Hst.
  { apply Hf. rewrite <- (take_drop (gh_next gy) (gh_sent gx)), has_fin_app, Hp. done. }
  unfold TcpController_WriteData. destruct (InClosingState _); [by intros [= <- <-]|]. simpl in Hst. rewrite Hst.
  unfold WriteData_wait. rewrite Hst. simpl. by intros [= <- <-].
Qed.

(** What [ReadData] returned. *)
Lemma read_event size t n bytes t' : 0 <= size < 2147483648 → TcpController_ReadData size t = Ok (Some (n, bytes, t')) →
  n = 0 → 0 < size → bytes = [] ∧ tc_pipe_state t' = EOF_CONSUMED.
Proof.
  intros Hs Hr Hn Hpos. unfold TcpController_ReadData in Hr. case_bool_decide; [done|].
  destruct (ReadData_wait t); [|done]. destruct (tc_shutdown t); simpl in Hr.
  { injection Hr as <- <- <-. done. }
  destruct (bool_decide (tc_pipe_state t = EOF_NOT_CONSUMED)), (Buffer_empty (tc_recv_buffer t)) eqn:He; simpl in Hr;
    try (by injection Hr as <- <- <-).
  all: destruct (Buffer_Read size (tc_recv_buffer t)) as [bs buf] eqn:Hb; injection Hr as <- <- <-; exfalso.
  all: destruct (Buffer_Read_spec _ _ _ _ (proj1 Hs) Hb) as (Hbs & _).
  all: assert (length bs ≤ Z.to_nat size)%nat as Hl by (rewrite Hbs, length_take; lia).
  all: rewrite i32_small in Hn by word_lia; assert (length bs = 0)%nat as H0 by lia.
  all: rewrite Hbs, length_take in H0; destruct (Buffer_bytes (tc_recv_buffer t)) eqn:Hby; simpl in H0; [|lia].
  all: apply Buffer_empty_spec in Hby; congruence.
Qed.

Definition event_step r (e : option call_event) d : option duplex :=
  match e with Some e => duplex_do (r, e) d | None => Some d end.

Lemma written_same r st d : written_by r (with_stream r st d) = st.
Proof. by destruct r. Qed.
Lemma written_other r st d : written_by (other r) (with_stream r st d) = written_by (other r) d.
Proof. by destruct r. Qed.
Lemma written_other' r st d : written_by r (with_stream (other r) st d) = written_by r d.
Proof. by destruct r. Qed.

(** An action that is no call of the program. *)
Lemma sim_idle r me you me' you' d : sim r me you d →
  ep_written me' = ep_written me ∧ ep_read me' = ep_read me ∧ ep_written you' = ep_written you ∧ ep_read you' = ep_read you →
  (eof_seen (ep_tcp me) → eof_seen (ep_tcp me')) ∧ (eof_seen (ep_tcp you) → eof_seen (ep_tcp you')) →
  sim r me' you' d.
Proof.
  intros [[H1 H2] [H3 H4]] (E1 & E2 & E3 & E4) [M1 M2]. unfold sim, linked. rewrite E1, E2, E3, E4.
  split; (split; [done|]); intros He; [destruct (H2 He)|destruct (H4 He)]; auto.
Qed.

Lemma sim_write r me you d n buf t' : pair_inv r me you → sim r me you d → ep_closed me = false →
  (eof_seen (ep_tcp me) → eof_seen t') →
  TcpController_WriteData buf (ep_tcp me) = Some (n, t') →
  ∃ d', duplex_do (r, Wrote (take (Z.to_nat n) buf)) d = Some d' ∧
    sim r (MkEndpoint t' (ep_net me) (ep_written me ++ take (Z.to_nat n) buf) (ep_read me) (ep_closed me)) you d'.
Proof.
  intros Hp [[H1 H2] [H3 H4]] Hc Hm Hw. set (bs := take (Z.to_nat n) buf). unfold duplex_do, stream_do.
  assert (bs_ended (written_by r d) = true → bs = []) as Hend.
  { intros He. destruct (H2 He) as [Hs _]. by eapply write_after_end. }
  destruct (bs_ended (written_by r d) && negb (bool_decide (bs = []))) eqn:Hb.
  { apply andb_true_iff in Hb as [He%Hend Hb]. by rewrite bool_decide_eq_true_2 in Hb. }
  simpl. eexists. split; [done|]. unfold sim, linked. rewrite ?written_same, ?written_other, ?written_other'. simpl. split; split.
  - by rewrite H1, <- app_assoc.
  - intros He. destruct (H2 He) as [? ->]. by rewrite (Hend He).
  - done.
  - intros He. destruct (H4 He). auto.
Qed.

(** Bytes are taken off. *)
Lemma sim_got r me you d bytes t' : sim r me you d →
  pair_inv r (MkEndpoint t' (ep_net me) (ep_written me) (ep_read me ++ bytes) (ep_closed me)) you →
  (eof_seen (ep_tcp me) → eof_seen t') →
  ∃ d', duplex_do (r, Got bytes) d = Some d' ∧
    sim r (MkEndpoint t' (ep_net me) (ep_written me) (ep_read me ++ bytes) (ep_closed me)) you d'.
Proof.
  intros [[H1 H2] [H3 H4]] Hp Hm. apply pair_delivered in Hp as [[Hpre _] _]. simpl in Hpre.
  rewrite H3 in Hpre. apply prefix_app_inv in Hpre as Hb. pose proof Hb as [rest Hrest].
  unfold duplex_do, stream_do. rewrite bool_decide_eq_true_2 by done. simpl. eexists. split; [done|].
  unfold sim, linked. rewrite ?written_same, ?written_other, ?written_other'. simpl.
  split; split.
  - done.
  - done.
  - by rewrite H3, Hrest, drop_app_length, app_assoc.
  - intros He. destruct (H4 He) as [? Hn]. rewrite Hn in Hrest |- *. split; [auto|]. by rewrite drop_nil.
Qed.

(** The end of the stream is told. *)
Lemma sim_ended r me you d t' : sim r me you d → tc_pipe_state t' = EOF_CONSUMED → ep_closed me = false →
  pair_inv r (MkEndpoint t' (ep_net me) (ep_written me) (ep_read me ++ []) (ep_closed me)) you →
  ∃ d', duplex_do (r, Ended) d = Some d' ∧
    sim r (MkEndpoint t' (ep_net me) (ep_written me) (ep_read me ++ []) (ep_closed me)) you d'.
Proof.
  rewrite app_nil_r. intros [[H1 H2] [H3 H4]] He Hc Hp. apply pair_delivered in Hp as [(_ & _ & Hall) _].
  destruct (Hall Hc) as [_ Heq]. simpl in Heq. specialize (Heq He). rewrite Heq in H3.
  assert (bs_pending (written_by (other r) d) = []) as Hnil.
  { apply (f_equal length) in H3. rewrite length_app in H3. apply length_zero_iff_nil. lia. }
  unfold duplex_do, stream_do. rewrite bool_decide_eq_true_2 by done. simpl. eexists. split; [done|].
  unfold sim, linked. rewrite ?written_same, ?written_other, ?written_other'. simpl.
  split; split; try done.
  - by rewrite app_nil_r.
  - intros _. unfold eof_seen. by rewrite He.
Qed.

Lemma sim_step r act me you me' you' d : pair_inv r me you → pair_inv r me' you' → sim r me you d →
  end_do act me you = Ok (Some (me', you')) →
  ∃ d', event_step r (event_of act me) d = Some d' ∧ sim r me' you' d'.
Proof.
  intros Hp Hp' Hsim Hdo. destruct (end_do_eof _ _ _ _ _ Hdo) as [M1 M2].
  assert (event_of act me = None →
    ep_written me' = ep_written me ∧ ep_read me' = ep_read me ∧ ep_written you' = ep_written you ∧ ep_read you' = ep_read you →
    ∃ d', event_step r (event_of act me) d = Some d' ∧ sim r me' you' d') as Hidle.
  { intros -> Hs. exists d. split; [done|]. by eapply sim_idle. }
  destruct me as [t net w rd cl]. destruct act as [buf|size| | |act g| |i| ]; simpl in *.
  - destruct cl eqn:Hc; simpl in Hdo; [done|]. case_match; [done|].
    destruct (TcpController_WriteData buf t) as [[n t1]|] eqn:Hw; [|done]. simpl. injection Hdo as <- <-.
    by apply (sim_write r (MkEndpoint t net w rd false) you d n buf t1).
  - destruct cl eqn:Hc; simpl in Hdo; [done|]. destruct (_ || _) eqn:Hs; [done|].
    apply orb_false_iff in Hs as [Hs1%Z.ltb_ge Hs2%Z.leb_gt].
    destruct (TcpController_ReadData size t) as [[[[n bs] t1]|]|] eqn:Hr; simpl in Hdo; [|done..]. injection Hdo as <- <-.
    destruct ((n =? 0) && (0 <? size)) eqn:Hz; simpl.
    + apply andb_true_iff in Hz as [Hz1%Z.eqb_eq Hz2%Z.ltb_lt].
      destruct (read_event size t n bs t1 ltac:(lia) Hr Hz1 Hz2) as [-> He].
      by apply (sim_ended r (MkEndpoint t net w rd false)).
    + by apply (sim_got r (MkEndpoint t net w rd false)).
  - destruct cl; [done|]. injection Hdo as <- <-. by apply Hidle.
  - destruct cl; [done|]. injection Hdo as <- <-. by apply Hidle.
  - destruct (conn_action_ok act t); [|done]. inv_res Hdo. destruct a as [[[g' ps] t1]|]; [|done].
    injection Hdo as <- <-. by apply Hidle.
  - destruct you as [t' [|p net'] w' rd' cl']; [done|]. injection Hdo as <- <-. by apply Hidle.
  - destruct (net !! i); [|done]. injection Hdo as <- <-. by apply Hidle.
  - injection Hdo as <- <-. by apply Hidle.
Qed.

Definition session_sim (s : session) d : Prop := sim Active (ss_active s) (ss_passive s) d.

Lemma session_sim_end r s d : session_sim s d ↔ sim r (end_of r s) (end_of (other r) s) d.
Proof. unfold session_sim, sim. destruct r; simpl; [done|]. tauto. Qed.

Lemma session_trace_ok acts s d tr s' : session_inv s → session_sim s d → session_trace acts s = Ok (tr, s') →
  ∃ d', duplex_run tr d = Some d' ∧ session_sim s' d'.
Proof.
  revert s d tr. induction acts as [|[r act] acts IH]; intros s d tr Hinv Hsim; cbn [session_trace].
  { intros [= <- <-]. by exists d. }
  pose proof (session_do_ok (r, act) s Hinv) as Hok. destruct (session_do (r, act) s) as [o|] eqn:Hdo; [|done].
  cbn [mbind res_bind]. destruct o as [s1|]; [|by apply IH].
  destruct (session_trace acts s1) as [[tr1 s2]|] eqn:Htr; [|done]. intros [= <- <-].
  unfold session_do in Hdo. inv_res Hdo. destruct a as [[me' you']|]; [|done]. injection Hdo as <-.
  destruct (sim_step r act (end_of r s) (end_of (other r) s) me' you' d) as (d1 & Hev & Hsim1).
  - by apply session_pair.
  - apply (session_pair r) in Hok. by destruct r.
  - by apply session_sim_end.
  - done.
  - destruct (IH _ d1 tr1 Hok) as (d2 & Hrun & Hsim2); [apply (session_sim_end r); by destruct r|done|].
    exists d2. split; [|done]. unfold event_step in Hev.
    destruct (event_of act (end_of r s)) as [e|]; [|by injection Hev as <-].
    change (duplex_run ((r, e) :: tr1) d = Some d2). cbn [duplex_run]. by rewrite Hev.
Qed.

(** ** Property *)

(** C4. A session implements two streams of bytes. The results of all calls of the
    programs, in the order of any run, are those of a run of the specification: what a
    call reads is what was written first and not read yet, the end is told when nothing
    is left, and nothing is written behind it. What a stream holds at the end of the
    run is what was written and not read. The network, FINs and sequence
    numbers are those of [end_do]. *)
Theorem Session_refines_streams sc ss kc ks oc os now acts
    (Hoc : session_options oc) (Hos : session_options os) :
  ∃ s0, session_start sc ss kc ks oc os now = Ok (Some s0) ∧
    ∀ tr s, session_trace acts s0 = Ok (tr, s) →
      ∃ d, duplex_run tr duplex_new = Some d ∧
        ∀ r, ep_written (end_of r s) = ep_read (end_of (other r) s) ++ bs_pending (written_by r d).
Proof.
  destruct (session_start_ok sc ss kc ks oc os now Hoc Hos) as (s0 & Hs0 & Hinv & Hnew).
  exists s0. split; [done|]. intros tr s Htr.
  assert (session_sim s0 duplex_new) as Hsim.
  { destruct (Hnew Active) as (E1 & E2 & _), (Hnew Passive) as (E3 & E4 & _). simpl in *.
    unfold session_sim, sim, linked. simpl. by rewrite E1, E2, E3, E4. }
  destruct (session_trace_ok acts s0 duplex_new tr s Hinv Hsim Htr) as (d & Hrun & Hs). exists d. split; [done|].
  intros r. apply (session_sim_end r) in Hs. apply Hs.
Qed.
End SessionSpec.

(** The sample session, as the programs see it. *)
#[local] Existing Instance simple_StopWatch.
#[local] Existing Instance simple_Timer.
#[local] Existing Instance simple_Buffer.
#[local] Existing Instance simple_Min.

Lemma Session_refines_streams_witness : ∃ s0 s d, sample_start = Ok (Some s0) ∧
  session_trace sample_session s0 = Ok ([(Active, Wrote [1; 2; 3; 4; 5]); (Passive, Got [1; 2; 3]);
    (Passive, Got [4; 5]); (Passive, Ended)], s) ∧
  duplex_run [(Active, Wrote [1; 2; 3; 4; 5]); (Passive, Got [1; 2; 3]); (Passive, Got [4; 5]); (Passive, Ended)]
    duplex_new = Some d ∧
  ep_written (ss_active s) = ep_read (ss_passive s) ++ bs_pending (dx_active d).
Proof.
  destruct (Session_refines_streams 1 2 TcpControllerKey_default TcpControllerKey_default TcpController_GetDefaultOptions
    TcpController_GetDefaultOptions 0 sample_session default_session_options default_session_options)
    as (s0 & Hs0 & Href).
  assert (∃ s, session_trace sample_session s0 = Ok ([(Active, Wrote [1; 2; 3; 4; 5]); (Passive, Got [1; 2; 3]);
    (Passive, Got [4; 5]); (Passive, Ended)], s)) as [s Hs].
  { vm_compute in Hs0. injection Hs0 as <-. eexists. by vm_compute. }
  destruct (Href _ _ Hs) as (d & Hd & Hr). exists s0, s, d. split; [done|]. split; [done|]. split; [done|].
  apply (Hr Active).
Defined.

(** ** Why the network keeps the order

    The server answers the doubled SYN with two SYN_ACKs, and sends three bytes. *)
Definition doubled_syn_ack : list (opener * end_action) :=
  [(Passive, SConn (KReceive 0) 3); (Passive, SConn KToHost 3); (Active, SDeliver);
   (Active, SConn (KReceive 1) 3); (Active, SConn KToHost 3); (Passive, SDeliver);
   (Passive, SConn (KReceive 2) 3); (Passive, SConn KListen 3); (Passive, SWrite [1; 2; 3]);
   (Passive, SConn (KSend 3) 3); (Passive, SConn KToHost 3)].

(** If the data overtakes the second SYN_ACK, the client goes back to the beginning, and
    a retransmission of the data is delivered again: the client reads it twice. *)
Example late_syn_ack_duplicates :
  match sample_start with
  | Ok (Some s0) =>
      match session_run doubled_syn_ack s0 with
      | Ok s =>
          match ep_net (ss_passive s) with
          | [syn_ack; data] =>
              match TcpController_HandleReceivedPackets 4 3 [data; syn_ack; data] (ep_tcp (ss_active s)) with
              | Ok (_, t) => ep_written (ss_passive s) = [1; 2; 3] ∧ lb_bytes (tc_recv_buffer t) = [1; 2; 3; 1; 2; 3]
              | Fault _ => False
              end
          | _ => False
          end
      | Fault _ => False
      end
  | _ => False
  end.
Proof. by vm_compute. Qed.
