(* ===== verification/App.v ===== *)
(** * Programs of processes

    [main.cc]: the two programs the repository runs, as interaction trees whose
    events are the system calls of [Process]; how a tree runs on a process; and
    [Host::CreateProcess]. *)
From S2P Require Import Prelude Interfaces Packet Keys NumPool PacketQueue SendWindow RecvWindow.
From S2P Require Import Tcp TcpRecv TcpSend TcpConn Connection Kernel Host HostInv Process.
From ITree Require Import ITree Eq.Shallow.
Open Scope Z_scope.
Open Scope tcp_scope.

(** ** System calls

    [CRead] answers with the value returned and the bytes stored, [CWrite] takes
    the bytes it is given. [CLog] is a line of the log, its arguments left out.
    [CBadAccess] is a store behind the end of an array. *)
Variant callE : Type → Type :=
  | CSocket : callE Z
  | CBind (fd : Z) (ip : string) (port : Z) : callE bool
  | CListen (fd : Z) : callE bool
  | CAccept (fd : Z) : callE Z
  | CConnect (fd : Z) (ip : string) (port : Z) : callE bool
  | CRead (fd size : Z) : callE (Z * list Z)
  | CWrite (fd : Z) (buffer : list Z) : callE Z
  | CClose (fd : Z) : callE bool
  | CLog (msg : string) : callE unit
  | CBadAccess : callE Empty_set.

#[export] Instance itree_mret {E} : MRet (itree E) := λ A a, ITreeDefinition.Ret a.
#[export] Instance itree_mbind {E} : MBind (itree E) := λ A B k t, ITree.bind t k.

Definition call {A} (e : callE A) : itree callE A := ITree.trigger e.
Definition log (msg : string) : itree callE unit := call (CLog msg).

(** A [Program]; its argument, the process, is what the calls are made on. *)
Definition Program : Type := itree callE unit.

(** ** Memory

    Storing [bytes] at [buffer + off]. *)
Definition store (off : Z) (bytes buffer : list Z) : itree callE (list Z) :=
  if off + Z.of_nat (length bytes) <=? Z.of_nat (length buffer)
  then mret (take (Z.to_nat off) buffer ++ bytes ++ drop (Z.to_nat off + length bytes) buffer)
  else x ← call CBadAccess; match x : Empty_set with end.

(** ** The programs *)

Definition kAliceIP : string := "127.0.0.1".
Definition kBobIP : string := "127.0.0.2".
Definition kAlicePort : Z := 10.
Definition kBobPort : Z := 20.
Definition kTestDataSize : Z := 100.

(** [InitData]: every byte is the letter a. *)
Definition data : list Z := replicate 100 97.

(** [ReceivedDataCorrect] *)
Definition ReceivedDataCorrect (receive_buffer : list Z) : bool :=
  forallb (λ x, x.1 =? x.2) (zip receive_buffer data).

Section programs.
(** Converting an [int] to [byte], a type of the library. *)
Context (to_byte : Z → Z).

(** The loop that writes [buffer]; [stop] says whether an answer that is not
    positive ends it. *)
Definition write_loop (stop : bool) (fd : Z) (buffer : list Z) : itree callE Z :=
  ITree.iter (λ writen : Z,
    if writen <? kTestDataSize then
      re ← call (CWrite fd (drop (Z.to_nat writen) buffer));
      mret (if 0 <? re then inl (u32 (writen + re)) else if stop then inr writen else inl writen)
    else mret (inr writen)) 0.

(** The client's loop of reads: how many bytes were read, and the buffer. *)
Definition Client_read (fd : Z) (client_buffer : list Z) : itree callE (Z * list Z) :=
  ITree.iter (λ '(readn, client_buffer),
    '(re, bytes) ← call (CRead fd kTestDataSize);
    if 0 <? re then
      client_buffer ← store readn bytes client_buffer;
      mret (inl (u32 (readn + re), client_buffer))
    else mret (inr (readn, client_buffer))) (0, client_buffer).

(** [Client]; [client_buffer] is what the array on its stack holds at first. *)
Definition Client (client_buffer : list Z) : Program :=
  fd ← call CSocket;
  if fd <? 0 then log "Failed to create client socket"
  else
    re ← call (CBind fd kAliceIP kAlicePort);
    if negb re then log "Failed to bind socket"
    else
      re ← call (CConnect fd kBobIP kBobPort);
      if negb re then log "Client Alice failed to connect to server Bob"
      else
        writen ← write_loop true fd data;
        _ ← (if negb (writen =? kTestDataSize) then log "Alice sent" else mret tt);
        '(readn, client_buffer) ← Client_read fd client_buffer;
        if negb (readn =? kTestDataSize) then
          _ ← log "Alice received"; _ ← call (CClose fd); mret tt
        else
          _ ← (if forallb (λ x, x.1 =? 256 - x.2) (zip client_buffer data)
               then log "Alice received correct data" else log "Alice received back wrong data!");
          _ ← call (CClose fd);
          mret tt.

(** The server's loop of reads: whether the client closed, how many bytes were
    read, and the buffer. *)
Definition Server_read (tcp_socket : Z) (receive_buffer : list Z) : itree callE (bool * Z * list Z) :=
  ITree.iter (λ '(readn, receive_buffer),
    if readn <? kTestDataSize then
      '(re, bytes) ← call (CRead tcp_socket kTestDataSize);
      if 0 <? re then
        receive_buffer ← store readn bytes receive_buffer;
        mret (inl (u32 (readn + re), receive_buffer))
      else mret (inr (re =? 0, readn, receive_buffer))
    else mret (inr (false, readn, receive_buffer))) (0, receive_buffer).

(** One turn of the server's loop: [inl] to go on, [inr] to return. *)
Definition Server_turn (sock_fd : Z) (receive_buffer : list Z) : itree callE (list Z + unit) :=
  tcp_socket ← call (CAccept sock_fd);
  if tcp_socket <? 0 then _ ← log "Accept failed"; mret (inl receive_buffer)
  else
    '(closed, readn, receive_buffer) ← Server_read tcp_socket receive_buffer;
    if closed : bool then
      _ ← log "Client closed socket, server now closing...";
      _ ← call (CClose tcp_socket);
      mret (inr tt)
    else if negb (readn =? kTestDataSize) then
      _ ← log "Bob received"; _ ← call (CClose tcp_socket); mret (inr tt)
    else
      _ ← (if ReceivedDataCorrect receive_buffer then log "Bob received correct data"
           else log "Receive data failed");
      let receive_buffer := (λ x, to_byte (256 - x)) <$> receive_buffer in
      writen ← write_loop false tcp_socket receive_buffer;
      _ ← (if negb (writen =? kTestDataSize) then log "Bob sent" else mret tt);
      _ ← call (CClose tcp_socket);
      mret (inl receive_buffer).

(** [Server]; [receive_buffer] is what the global array holds at first. *)
Definition Server (receive_buffer : list Z) : Program :=
  sock_fd ← call CSocket;
  if sock_fd <? 0 then log "Failed to create server socket"
  else
    re ← call (CBind sock_fd kBobIP kBobPort);
    if negb re then log "Failed to bind socket"
    else
      re ← call (CListen sock_fd);
      if negb re then log "Failed to listen on socket"
      else ITree.iter (Server_turn sock_fd) receive_buffer.
End programs.

(** ** Running a program

    A handler answers the calls on a state [S]; [Ok None] means that the call
    blocks. [run] takes at most [fuel] steps: the result and the state when the
    program has returned, the state alone when it blocks. *)
Definition handler (S : Type) : Type := ∀ A, callE A → S → res (option (A * S)).

Fixpoint run {S R} (h : handler S) (fuel : nat) (t : itree callE R) (s : S) : res (R * S + S) :=
  match fuel with
  | O => Fault OutOfFuel
  | Datatypes.S fuel =>
      match observe t with
      | RetF r => Ok (inl (r, s))
      | TauF t => run h fuel t s
      | VisF e k =>
          r ← h _ e s;
          match r with
          | None => Ok (inr s)
          | Some (x, s) => run h fuel (k x) s
          end
      end
  end.

(** *** On a process and its host *)

Section process.
Context {SWO : StopWatchOps} {TMO : TimerOps} {BFO : BufferOps} {MNO : MinOps}.
Context (RandomNumber : Z → Z) (now : Z).

(** The process, its host and the lines of the log. *)
Definition process_state : Type := Process * Host * list string.

Definition process_handler : handler process_state := λ A e '(p, h, msgs),
  match e in callE A return res (option (A * process_state)) with
  | CSocket => let '(fd, p, h) := Process_Socket p h in Ok (Some (fd, (p, h, msgs)))
  | CBind fd ip port => let '(re, h) := Process_Bind fd ip port p h in Ok (Some (re, (p, h, msgs)))
  | CListen fd => let '(re, h) := Process_Listen fd p h in Ok (Some (re, (p, h, msgs)))
  | CAccept fd => r ← Process_Accept fd p h; Ok ('(fd, p, h) ← r; Some (fd, (p, h, msgs)))
  | CConnect fd ip port =>
      '(re, h) ← Process_Connect RandomNumber now fd ip port p h; Ok (Some (re, (p, h, msgs)))
  | CRead fd size =>
      r ← Process_Read fd size p h; Ok ('(n, bytes, h) ← r; Some (n, bytes, (p, h, msgs)))
  | CWrite fd buffer => r ← Process_Write fd buffer p h; Ok ('(n, h) ← r; Some (n, (p, h, msgs)))
  | CClose fd => '(re, p, h) ← Process_Close fd p h; Ok (Some (re, (p, h, msgs)))
  | CLog msg => Ok (Some (tt, (p, h, msgs ++ [msg])))
  | CBadAccess => Fault OutOfRange
  end.

(** [Process::Run] of a program, for a run that ends. *)
Definition Program_Run (fuel : nat) (program : Program) p h : res (option (Process * Host)) :=
  r ← run process_handler fuel program (p, h, []);
  match r with
  | inr _ => Ok None
  | inl (_, (p, h, _)) => '(p, h) ← Process_ReleaseResource p h; Ok (Some (p, h))
  end.

(** *** Processes of a host

    [nd_processes] is [processes_], each process with its program; [nd_tasks] are
    the calls of [Run] given to the host's thread pool, each with the name of its
    process and what is left of the program. *)
Record Node := MkNode {
  nd_host : Host;
  nd_processes : gmap string (Process * Program);
  nd_tasks : list (string * Program);
}.

Definition node_eta (n : Node) : Node := MkNode (nd_host n) (nd_processes n) (nd_tasks n).
#[export] Instance set_nd_host : Setter nd_host := ltac:(setter_of node_eta).
#[export] Instance set_nd_processes : Setter nd_processes := ltac:(setter_of node_eta).
#[export] Instance set_nd_tasks : Setter nd_tasks := ltac:(setter_of node_eta).

(** [Host::CreateProcess] *)
Definition Host_CreateProcess (name : string) (program : Program) (n : Node) : res (bool * Node) :=
  let processes := emplace name (Process_new name, program) (nd_processes n) in
  process ← deref (processes !! name);
  Ok (true, MkNode (nd_host n) processes (nd_tasks n ++ [(name, process.2)])).
End process.

(** ** How runs end

    [ends h t s o]: running [t] from [s] ends with [o]. *)
Inductive outcome (S R : Type) :=
  | Returns (r : R) (s : S)
  | Blocks (s : S)
  | Fails (f : fault).
Arguments Returns {S R} r s.
Arguments Blocks {S R} s.
Arguments Fails {S R} f.

Section ends.
Context {S : Type} (h : handler S).

Inductive ends {R} : itree callE R → S → outcome S R → Prop :=
  | ends_ret t s r : observe t = RetF r → ends t s (Returns r s)
  | ends_tau t s t' o : observe t = TauF t' → ends t' s o → ends t s o
  | ends_vis t s A (e : callE A) k x s' o :
      observe t = VisF e k → h A e s = Ok (Some (x, s')) → ends (k x) s' o → ends t s o
  | ends_block t s A (e : callE A) k :
      observe t = VisF e k → h A e s = Ok None → ends t s (Blocks s)
  | ends_fail t s A (e : callE A) k f :
      observe t = VisF e k → h A e s = Fault f → ends t s (Fails f).

Definition outcome_res {R} (o : outcome S R) : res (R * S + S) :=
  match o with
  | Returns r s => Ok (inl (r, s))
  | Blocks s => Ok (inr s)
  | Fails f => Fault f
  end.

(** Enough fuel finds the end. *)
Lemma ends_run {R} (t : itree callE R) s o : ends t s o → ∃ fuel, run h fuel t s = outcome_res o.
Proof.
  induction 1 as [t s r Ht|t s t' o Ht _ [n IH]|t s A e k x s' o Ht He _ [n IH]|t s A e k Ht He|t s A e k f Ht He].
  - exists 1%nat. simpl. by rewrite Ht.
  - exists (Datatypes.S n). simpl. by rewrite Ht.
  - exists (Datatypes.S n). simpl. by rewrite Ht, He.
  - exists 1%nat. simpl. by rewrite Ht, He.
  - exists 1%nat. simpl. by rewrite Ht, He.
Qed.

(** One step of a run. *)
Lemma run_vis {R} fuel (t : itree callE R) s A (e : callE A) k x s' :
  observe t = VisF e k → h A e s = Ok (Some (x, s')) → run h (Datatypes.S fuel) t s = run h fuel (k x) s'.
Proof. intros Ht He. simpl. by rewrite Ht, He. Qed.

Lemma run_tau {R} fuel (t t' : itree callE R) s :
  observe t = TauF t' → run h (Datatypes.S fuel) t s = run h fuel t' s.
Proof. intros Ht. simpl. by rewrite Ht. Qed.

(** The calls a tree makes first depend on its observation only. *)
Lemma ends_observe {R} (t t' : itree callE R) s o : observe t = observe t' → ends t s o → ends t' s o.
Proof.
  intros Ht He. destruct He; rewrite Ht in *; by econstructor.
Qed.

Lemma ends_mret {R} (r : R) s : ends (mret r) s (Returns r s).
Proof. by apply ends_ret. Qed.

Lemma ends_bind {A R} (t : itree callE A) (k : A → itree callE R) s o :
  ends t s o →
  match o with
  | Returns x s' => ∀ o', ends (k x) s' o' → ends (t ≫= k) s o'
  | Blocks s' => ends (t ≫= k) s (Blocks s')
  | Fails f => ends (t ≫= k) s (Fails f)
  end.
Proof.
  assert (∀ t : itree callE A, observe (t ≫= k) = match observe t with
    | RetF x => observe (k x) | TauF t => TauF (t ≫= k) | VisF e g => VisF e (λ x, g x ≫= k) end) as Hob.
  { intros u. unfold mbind, itree_mbind. rewrite observe_bind. by destruct (observe u). }
  induction 1 as [t s r Ht|t s t' o Ht _ IH|t s B e g x s' o Ht He _ IH|t s B e g Ht He|t s B e g f Ht He].
  - intros o'. apply ends_observe. by rewrite Hob, Ht.
  - destruct o; intros; eapply ends_tau; try (by rewrite Hob, Ht); auto.
  - destruct o; intros; eapply ends_vis; try (by rewrite Hob, Ht); eauto.
  - eapply ends_block; [by rewrite Hob, Ht|done].
  - eapply ends_fail; [by rewrite Hob, Ht|done].
Qed.

Lemma ends_call {A} (e : callE A) s x s' : h A e s = Ok (Some (x, s')) → ends (call e) s (Returns x s').
Proof. intros He. eapply ends_vis; [done|exact He|]. by apply ends_ret. Qed.

(** A call in front of a program. *)
Lemma ends_call_bind {A R} (e : callE A) (k : A → itree callE R) s x s' o :
  h A e s = Ok (Some (x, s')) → ends (k x) s' o → ends (call e ≫= k) s o.
Proof. intros He. exact (ends_bind _ k _ _ (ends_call e s x s' He) o). Qed.

(** A loop: its next turn, or its last. *)
Lemma ends_iter {I R} (f : I → itree callE (I + R)) i s o1 o : ends (f i) s o1 →
  match o1 with
  | Returns (inl i') s' => ends (ITree.iter f i') s' o
  | Returns (inr r) s' => o = Returns r s'
  | Blocks s' => o = Blocks s'
  | Fails e => o = Fails e
  end → ends (ITree.iter f i) s o.
Proof.
  intros Hf Ho. set (k := λ lr : I + R, ITree.on_left lr l (Tau (ITree.iter f l))).
  apply (ends_observe (f i ≫= k)); [reflexivity|].
  pose proof (ends_bind _ k _ _ Hf) as Hb. destruct o1 as [[i'|r] s'|s'|e]; subst; try done.
  - apply Hb. by eapply ends_tau.
  - apply Hb. by apply ends_ret.
Qed.
End ends.

(** ** Pipes

    What the calls promise to a program, when nothing fails: the bytes of the other
    end come in pieces of any size, then the end of the stream; bytes written are
    taken in pieces of any size. [pp_cuts] are the sizes, less one. *)
Record pipe := MkPipe {
  pp_in : list Z;
  pp_cuts : list nat;
  pp_out : list Z;
  pp_conns : nat;
  pp_log : list string;
  pp_closed : list Z;
}.

#[export] Instance set_pp_in : Setter pp_in := λ f s,
  MkPipe (f (pp_in s)) (pp_cuts s) (pp_out s) (pp_conns s) (pp_log s) (pp_closed s).
#[export] Instance set_pp_cuts : Setter pp_cuts := λ f s,
  MkPipe (pp_in s) (f (pp_cuts s)) (pp_out s) (pp_conns s) (pp_log s) (pp_closed s).
#[export] Instance set_pp_out : Setter pp_out := λ f s,
  MkPipe (pp_in s) (pp_cuts s) (f (pp_out s)) (pp_conns s) (pp_log s) (pp_closed s).
#[export] Instance set_pp_conns : Setter pp_conns := λ f s,
  MkPipe (pp_in s) (pp_cuts s) (pp_out s) (f (pp_conns s)) (pp_log s) (pp_closed s).
#[export] Instance set_pp_log : Setter pp_log := λ f s,
  MkPipe (pp_in s) (pp_cuts s) (pp_out s) (pp_conns s) (f (pp_log s)) (pp_closed s).
#[export] Instance set_pp_closed : Setter pp_closed := λ f s,
  MkPipe (pp_in s) (pp_cuts s) (pp_out s) (pp_conns s) (pp_log s) (f (pp_closed s)).

(** How much of [n] bytes goes through at once. *)
Definition cut (n : nat) (s : pipe) : nat :=
  match pp_cuts s with [] => n | c :: _ => Nat.min (S c) n end.

(** [s] after [n] bytes were read from it, and after [bytes] were written to it. *)
Definition pipe_get (n : nat) (s : pipe) : pipe :=
  s <| pp_in := drop n (pp_in s) |> <| pp_cuts := tail (pp_cuts s) |>.
Definition pipe_put (bytes : list Z) (s : pipe) : pipe :=
  s <| pp_out := pp_out s ++ bytes |> <| pp_cuts := tail (pp_cuts s) |>.

Definition pipe_handler : handler pipe := λ A e s,
  match e in callE A return res (option (A * pipe)) with
  | CSocket => Ok (Some (3, s))
  | CBind _ _ _ | CConnect _ _ _ => Ok (Some (true, s))
  | CListen _ => Ok (Some (true, s))
  | CAccept _ =>
      match pp_conns s with
      | O => Ok None
      | S n => Ok (Some (4, s <| pp_conns := n |>))
      end
  | CRead _ size =>
      let n := cut (Nat.min (Z.to_nat size) (length (pp_in s))) s in
      Ok (Some (Z.of_nat n, take n (pp_in s), pipe_get n s))
  | CWrite _ buffer =>
      let n := cut (length buffer) s in
      Ok (Some (Z.of_nat n, pipe_put (take n buffer) s))
  | CClose fd => Ok (Some (true, s <| pp_closed := pp_closed s ++ [fd] |>))
  | CLog msg => Ok (Some (tt, s <| pp_log := pp_log s ++ [msg] |>))
  | CBadAccess => Fault OutOfRange
  end.

(** [s] with other cuts. *)
Definition recut (cuts : list nat) (s : pipe) : pipe := s <| pp_cuts := cuts |>.

Lemma cut_bounds n s : (cut n s ≤ n)%nat ∧ ((0 < n)%nat → (0 < cut n s)%nat).
Proof. unfold cut. destruct (pp_cuts s); lia. Qed.

(** Everything is written, in pieces. *)
Lemma write_loop_ends stop fd buffer s : length buffer = 100%nat →
  ∃ cuts, ends pipe_handler (write_loop stop fd buffer) s
    (Returns 100 (recut cuts (s <| pp_out := pp_out s ++ buffer |>))).
Proof.
  intros Hlen. unfold write_loop. set (f := λ writen : Z, _).
  assert (∀ (n w : nat) (s : pipe), (100 - w)%nat = n → (w ≤ 100)%nat → ∃ cuts,
    ends pipe_handler (ITree.iter f (Z.of_nat w)) s
      (Returns 100 (recut cuts (s <| pp_out := pp_out s ++ drop w buffer |>)))) as Hloop;
    [|exact (Hloop 100%nat 0%nat s eq_refl ltac:(lia))].
  clear s. intros n. induction (lt_wf n) as [n _ IH]. intros w s Hn Hw.
  destruct (decide (w = 100%nat)) as [->|Hne].
  { exists (pp_cuts s). eapply ends_iter; [unfold f; apply ends_mret|]. simpl.
    rewrite drop_ge by lia. rewrite app_nil_r. by destruct s. }
  set (rest := drop w buffer). assert (length rest = 100 - w)%nat as Hrest.
  { subst rest. rewrite length_drop. lia. }
  destruct (cut_bounds (length rest) s) as [Hc1 Hc2]. set (c := cut (length rest) s) in *.
  set (s1 := pipe_put (take c rest) s).
  assert (ends pipe_handler (f (Z.of_nat w)) s (Returns (inl (Z.of_nat (w + c))) s1)) as Hturn.
  { unfold f, kTestDataSize. rewrite (proj2 (Z.ltb_lt _ _)) by lia. rewrite Nat2Z.id.
    eapply ends_call_bind; [reflexivity|]. fold rest c s1.
    rewrite (proj2 (Z.ltb_lt 0 (Z.of_nat c))) by lia. rewrite u32_small by word_lia.
    rewrite <- Nat2Z.inj_add. apply ends_mret. }
  destruct (IH (100 - (w + c))%nat ltac:(lia) (w + c)%nat s1 eq_refl ltac:(lia)) as (cuts & Hend).
  exists cuts. eapply ends_iter; [exact Hturn|]. cbv beta iota.
  assert (recut cuts (s <| pp_out := pp_out s ++ rest |>) =
    recut cuts (s1 <| pp_out := pp_out s1 ++ drop (w + c) buffer |>)) as ->; [|exact Hend].
  unfold recut, s1, pipe_put. simpl. rewrite <- drop_drop, <- app_assoc. fold rest. by rewrite take_drop.
Qed.

Lemma store_ends off bytes buffer (s : pipe) :
  if (off + length bytes <=? length buffer)%nat
  then ends pipe_handler (store (Z.of_nat off) bytes buffer) s
    (Returns (take off buffer ++ bytes ++ drop (off + length bytes) buffer) s)
  else ends pipe_handler (store (Z.of_nat off) bytes buffer) s (Fails OutOfRange).
Proof.
  unfold store. destruct (Nat.leb_spec (off + length bytes) (length buffer)).
  - rewrite (proj2 (Z.leb_le _ _)), Nat2Z.id by lia. apply ends_mret.
  - rewrite (proj2 (Z.leb_gt _ _)) by lia.
    assert (ends pipe_handler (call CBadAccess) s (Fails OutOfRange)) as Hc
      by (eapply ends_fail; reflexivity).
    exact (ends_bind _ _ _ _ _ Hc).
Qed.

(** The bytes that have come in, at their place in the buffer. *)
Definition filled (r : nat) (bytes buffer : list Z) : list Z :=
  take r buffer ++ bytes ++ drop (r + length bytes) buffer.

Lemma filled_step r c bytes buffer : (r + length bytes ≤ length buffer)%nat → (c ≤ length bytes)%nat →
  filled (r + c) (drop c bytes) (filled r (take c bytes) buffer) = filled r bytes buffer.
Proof.
  intros Hlen Hc. unfold filled. rewrite length_drop, (length_take bytes), (Nat.min_l c) by lia.
  assert (length (take r buffer ++ take c bytes) = (r + c)%nat) as Hl.
  { rewrite length_app, !length_take. lia. }
  rewrite (app_assoc (take r buffer) (take c bytes)), take_app_length' by done.
  rewrite drop_app_add' by done. rewrite drop_drop, <- app_assoc, (app_assoc (take c bytes)), take_drop.
  do 3 f_equal. lia.
Qed.

Lemma filled_length r bytes buffer : (r + length bytes ≤ length buffer)%nat →
  length (filled r bytes buffer) = length buffer.
Proof. intros. unfold filled. rewrite !length_app, length_take, length_drop. lia. Qed.

(** A turn of a loop that reads: the bytes that come, or the end of the stream. *)
Lemma read_turn {I R} fd r buffer (s : pipe) (next : Z * list Z → I) (last : Z → R) :
  let n := cut (Nat.min 100 (length (pp_in s))) s in
  let t := ('(re, bytes) ← call (CRead fd kTestDataSize);
    if 0 <? re then
      buffer ← store (Z.of_nat r) bytes buffer;
      mret (inl (next (u32 (Z.of_nat r + re), buffer)))
    else mret (inr (last re))) : itree callE (I + R) in
  (r ≤ 100)%nat →
  match pp_in s with
  | [] => ends pipe_handler t s (Returns (inr (last 0)) (pipe_get 0 s))
  | _ => if (r + n <=? length buffer)%nat
         then ends pipe_handler t s (Returns (inl (next (Z.of_nat (r + n),
                filled r (take n (pp_in s)) buffer))) (pipe_get n s))
         else ends pipe_handler t s (Fails OutOfRange)
  end.
Proof.
  intros n t Hr. destruct (cut_bounds (Nat.min 100 (length (pp_in s))) s) as [Hn1 Hn2]. fold n in Hn1, Hn2.
  assert (∀ o, ends pipe_handler (if 0 <? Z.of_nat n then
      buffer ← store (Z.of_nat r) (take n (pp_in s)) buffer;
      mret (inl (next (u32 (Z.of_nat r + Z.of_nat n), buffer)))
    else mret (inr (last (Z.of_nat n))) : itree callE (I + R)) (pipe_get n s) o →
    ends pipe_handler t s o) as Hcall.
  { intros o Ho. eapply ends_call_bind; [reflexivity|exact Ho]. }
  clearbody n t. destruct (pp_in s) as [|x l] eqn:Hin.
  - assert (n = 0%nat) as -> by (simpl in Hn1; lia). apply Hcall. apply ends_mret.
  - specialize (Hn2 ltac:(simpl; lia)). rewrite <- Hin in *.
    assert (length (take n (pp_in s)) = n) as Hlen by (rewrite length_take; lia).
    pose proof (store_ends r (take n (pp_in s)) buffer (pipe_get n s)) as Hst. rewrite Hlen in Hst.
    rewrite (proj2 (Z.ltb_lt 0 (Z.of_nat n))) in Hcall by lia.
    destruct (r + n <=? length buffer)%nat; apply Hcall.
    + apply (ends_bind _ _ _ _ _ Hst). rewrite u32_small by word_lia.
      rewrite <- Nat2Z.inj_add. unfold filled. rewrite Hlen. apply ends_mret.
    + exact (ends_bind _ _ _ _ _ Hst).
Qed.

Lemma filled_nil r buffer : filled r [] buffer = buffer.
Proof. unfold filled. simpl. by rewrite Nat.add_0_r, take_drop. Qed.

Lemma filled_all bytes buffer : length bytes = length buffer → filled 0 bytes buffer = bytes.
Proof. intros Hl. unfold filled. simpl. rewrite drop_ge by lia. apply app_nil_r. Qed.

(** The client reads to the end of the stream; a byte too many is stored behind its
    buffer. *)
Lemma Client_read_ends fd buffer s : length buffer = 100%nat →
  if (length (pp_in s) <=? 100)%nat
  then ∃ cuts, ends pipe_handler (Client_read fd buffer) s
    (Returns (Z.of_nat (length (pp_in s)), filled 0 (pp_in s) buffer) (recut cuts (s <| pp_in := [] |>)))
  else ends pipe_handler (Client_read fd buffer) s (Fails OutOfRange).
Proof.
  unfold Client_read. set (f := λ '(readn, client_buffer), _).
  assert (∀ (n r : nat) buffer (s : pipe), length (pp_in s) = n → length buffer = 100%nat → (r ≤ 100)%nat →
    if (r + n <=? 100)%nat
    then ∃ cuts, ends pipe_handler (ITree.iter f (Z.of_nat r, buffer)) s
      (Returns (Z.of_nat (r + n), filled r (pp_in s) buffer) (recut cuts (s <| pp_in := [] |>)))
    else ends pipe_handler (ITree.iter f (Z.of_nat r, buffer)) s (Fails OutOfRange)) as Hloop;
    [|intros Hb; exact (Hloop _ 0%nat buffer s eq_refl Hb ltac:(lia))].
  clear buffer s. intros n. induction (lt_wf n) as [n _ IH]. intros r buffer s Hn Hb Hr.
  pose proof (read_turn fd r buffer s id (λ _, (Z.of_nat r, buffer)) Hr) as Hturn.
  destruct (cut_bounds (Nat.min 100 (length (pp_in s))) s) as [Hc1 Hc2].
  set (c := cut _ s) in *. rewrite Hb in Hturn. destruct (pp_in s) as [|x l] eqn:Hin.
  { simpl in Hn. subst n. rewrite Nat.add_0_r, (proj2 (Nat.leb_le _ _) Hr), filled_nil.
    exists (pp_cuts (pipe_get 0 s)). eapply ends_iter; [exact Hturn|]. unfold recut, pipe_get. simpl. by rewrite Hin. }
  specialize (Hc2 ltac:(simpl; lia)). rewrite <- Hin in *. clearbody c.
  destruct (Nat.leb_spec (r + c) 100) as [Hrc|Hrc]; last first.
  { rewrite (proj2 (Nat.leb_gt _ _)) by lia. by eapply ends_iter; [exact Hturn|]. }
  assert (length (take c (pp_in s)) = c) as Hlen by (rewrite length_take; lia).
  pose proof (IH (n - c)%nat ltac:(lia) (r + c)%nat (filled r (take c (pp_in s)) buffer) (pipe_get c s)
    ltac:(simpl; rewrite length_drop; lia) ltac:(rewrite filled_length; lia) Hrc) as Hrest.
  replace (r + c + (n - c))%nat with (r + n)%nat in Hrest by lia.
  destruct (Nat.leb_spec (r + n) 100) as [Hrn|Hrn]; [|by eapply ends_iter; [exact Hturn|]].
  destruct Hrest as (cuts & Hrest). exists cuts. eapply ends_iter; [exact Hturn|]. cbv beta iota.
  simpl in Hrest. rewrite filled_step in Hrest by lia. exact Hrest.
Qed.

(** The server reads what it has a buffer for, or to the end of the stream. *)
Lemma Server_read_ends fd buffer s : length buffer = 100%nat → (length (pp_in s) ≤ 100)%nat →
  ∃ cuts, ends pipe_handler (Server_read fd buffer) s
    (Returns (negb (length (pp_in s) =? 100)%nat, Z.of_nat (length (pp_in s)), filled 0 (pp_in s) buffer)
       (recut cuts (s <| pp_in := [] |>))).
Proof.
  unfold Server_read. set (f := λ '(readn, receive_buffer), _).
  assert (∀ (n r : nat) buffer (s : pipe), length (pp_in s) = n → length buffer = 100%nat → (r + n ≤ 100)%nat →
    ∃ cuts, ends pipe_handler (ITree.iter f (Z.of_nat r, buffer)) s
      (Returns (negb (r + n =? 100)%nat, Z.of_nat (r + n), filled r (pp_in s) buffer)
        (recut cuts (s <| pp_in := [] |>)))) as Hloop;
    [|intros Hb Hl; exact (Hloop _ 0%nat buffer s eq_refl Hb Hl)].
  clear buffer s. intros n. induction (lt_wf n) as [n _ IH]. intros r buffer s Hn Hb Hr.
  destruct (decide (r = 100%nat)) as [->|Hne].
  { assert (pp_in s = []) as Hin by (apply length_zero_iff_nil; lia). rewrite Hin, filled_nil.
    assert (n = 0%nat) as -> by lia. exists (pp_cuts s). eapply ends_iter; [apply ends_mret|].
    unfold recut. destruct s; simpl in *. by subst. }
  pose proof (read_turn fd r buffer s id (λ re, (re =? 0, Z.of_nat r, buffer)) ltac:(lia)) as Hturn.
  assert ((Z.of_nat r <? kTestDataSize) = true) as Hlt by (apply Z.ltb_lt; unfold kTestDataSize; lia).
  destruct (cut_bounds (Nat.min 100 (length (pp_in s))) s) as [Hc1 Hc2].
  set (c := cut _ s) in *. rewrite Hb in Hturn. destruct (pp_in s) as [|x l] eqn:Hin.
  { simpl in Hn. subst n. rewrite Nat.add_0_r, filled_nil, (proj2 (Nat.eqb_neq r 100) Hne).
    exists (pp_cuts (pipe_get 0 s)). eapply ends_iter; [unfold f; rewrite Hlt; exact Hturn|].
    unfold recut, pipe_get. simpl. by rewrite Hin. }
  specialize (Hc2 ltac:(simpl; lia)). rewrite <- Hin in *. clearbody c.
  rewrite (proj2 (Nat.leb_le (r + c) 100)) in Hturn by lia.
  assert (length (take c (pp_in s)) = c) as Hlen by (rewrite length_take; lia).
  pose proof (IH (n - c)%nat ltac:(lia) (r + c)%nat (filled r (take c (pp_in s)) buffer) (pipe_get c s)
    ltac:(simpl; rewrite length_drop; lia) ltac:(rewrite filled_length; lia) ltac:(lia)) as Hrest.
  replace (r + c + (n - c))%nat with (r + n)%nat in Hrest by lia.
  destruct Hrest as (cuts & Hrest). exists cuts.
  eapply ends_iter; [unfold f; rewrite Hlt; exact Hturn|]. cbv beta iota.
  simpl in Hrest. rewrite filled_step in Hrest by lia. exact Hrest.
Qed.

(** *** The programs on a pipe *)

#[local] Arguments call : simpl never.
#[local] Arguments log : simpl never.
#[local] Arguments itree_mbind : simpl never.

(** What the client makes of the bytes it received, and what the server sends back. *)
Definition Client_verdict (bytes : list Z) : string :=
  if (length bytes =? 100)%nat then
    if forallb (λ x, x.1 =? 256 - x.2) (zip bytes data)
    then "Alice received correct data" else "Alice received back wrong data!"
  else "Alice received".

Definition Server_verdict (bytes : list Z) : string :=
  if ReceivedDataCorrect bytes then "Bob received correct data" else "Receive data failed".

Definition Server_reply (to_byte : Z → Z) (bytes : list Z) : list Z := (λ x, to_byte (256 - x)) <$> bytes.

(** [s] after its bytes were read and [bytes] written, [msg] logged and [fd] closed. *)
Definition served (bytes : list Z) (msg : string) (fd : Z) (s : pipe) : pipe :=
  s <| pp_in := [] |> <| pp_out := pp_out s ++ bytes |> <| pp_log := pp_log s ++ [msg] |>
    <| pp_closed := pp_closed s ++ [fd] |>.

Lemma Client_ends buffer s : length buffer = 100%nat →
  ∃ cuts, ends pipe_handler (Client buffer) s
    (if (length (pp_in s) <=? 100)%nat
     then Returns tt (recut cuts (served data (Client_verdict (pp_in s)) 3 s))
     else Fails OutOfRange).
Proof.
  intros Hb. destruct (write_loop_ends true 3 data s eq_refl) as (cuts1 & Hw).
  set (s1 := recut cuts1 _) in Hw.
  assert (∀ o, ends pipe_handler ('(readn, client_buffer) ← Client_read 3 buffer;
      if negb (readn =? kTestDataSize) then
        _ ← log "Alice received"; _ ← call (CClose 3); mret tt
      else
        _ ← (if forallb (λ x, x.1 =? 256 - x.2) (zip client_buffer data)
             then log "Alice received correct data" else log "Alice received back wrong data!");
        _ ← call (CClose 3);
        mret tt) s1 o → ends pipe_handler (Client buffer) s o) as Hstart.
  { intros o Ho. unfold Client. do 3 (eapply ends_call_bind; [reflexivity|]; simpl).
    apply (ends_bind _ _ _ _ _ Hw). apply (ends_bind _ _ _ _ _ (ends_mret pipe_handler tt s1)). exact Ho. }
  pose proof (Client_read_ends 3 buffer s1 Hb) as Hr. change (pp_in s1) with (pp_in s) in Hr.
  destruct (Nat.leb_spec (length (pp_in s)) 100) as [Hle|Hgt].
  - destruct Hr as (cuts & Hr). exists cuts. apply Hstart. apply (ends_bind _ _ _ _ _ Hr).
    unfold Client_verdict, kTestDataSize. destruct (Nat.eqb_spec (length (pp_in s)) 100) as [He|Hne].
    + rewrite He, filled_all by lia. simpl.
      destruct (forallb _ _); (do 2 (eapply ends_call_bind; [reflexivity|])); apply ends_mret.
    + rewrite (proj2 (Z.eqb_neq _ _)) by lia. simpl.
      do 2 (eapply ends_call_bind; [reflexivity|]). apply ends_mret.
  - exists []. apply Hstart. exact (ends_bind _ _ _ _ _ Hr).
Qed.

Lemma Server_turn_ends to_byte buffer s n : length buffer = 100%nat → (length (pp_in s) ≤ 100)%nat →
  pp_conns s = S n →
  ∃ cuts, ends pipe_handler (Server_turn to_byte 3 buffer) s
    (if (length (pp_in s) =? 100)%nat
     then Returns (inl (Server_reply to_byte (pp_in s)))
       (recut cuts (served (Server_reply to_byte (pp_in s)) (Server_verdict (pp_in s)) 4 s
         <| pp_conns := n |>))
     else Returns (inr tt)
       (recut cuts (served [] "Client closed socket, server now closing..." 4 s <| pp_conns := n |>))).
Proof.
  intros Hb Hle Hconns. set (s1 := s <| pp_conns := n |>).
  destruct (Server_read_ends 4 buffer s1 Hb Hle) as (cuts & Hr). set (s2 := recut cuts _) in Hr.
  change (pp_in s1) with (pp_in s) in Hr.
  assert (pipe_handler _ (CAccept 3) s = Ok (Some (4, s1))) as Hacc by (simpl; by rewrite Hconns).
  destruct (Nat.eqb_spec (length (pp_in s)) 100) as [He|Hne].
  - rewrite He, filled_all in Hr by lia.
    set (s3 := s2 <| pp_log := pp_log s2 ++ [Server_verdict (pp_in s)] |>).
    destruct (write_loop_ends false 4 (Server_reply to_byte (pp_in s)) s3) as (cuts' & Hw);
      [unfold Server_reply; by rewrite length_fmap|].
    exists cuts'. unfold Server_turn. eapply ends_call_bind; [exact Hacc|]. simpl.
    apply (ends_bind _ _ _ _ _ Hr). simpl.
    assert (∀ (k : unit → itree callE (list Z + unit)) o, ends pipe_handler (k tt) s3 o →
      ends pipe_handler ((if ReceivedDataCorrect (pp_in s) then log "Bob received correct data"
        else log "Receive data failed") ≫= k) s2 o) as Hlog.
    { intros k o Ho. unfold s3, Server_verdict in Ho.
      destruct (ReceivedDataCorrect (pp_in s)); (eapply ends_call_bind; [reflexivity|exact Ho]). }
    apply Hlog. apply (ends_bind _ _ _ _ _ Hw).
    apply (ends_bind _ _ _ _ _ (ends_mret pipe_handler tt _)). eapply ends_call_bind; [reflexivity|].
    unfold s3, s2, s1, served, recut. simpl. apply ends_mret.
  - exists cuts. unfold Server_turn. eapply ends_call_bind; [exact Hacc|]. simpl.
    apply (ends_bind _ _ _ _ _ Hr). simpl. do 2 (eapply ends_call_bind; [reflexivity|]).
    unfold s2, s1, served, recut. simpl. rewrite app_nil_r. apply ends_mret.
Qed.

(** ** Properties *)

(** The client, whatever the other end sends: up to its buffer's size it reads
    everything, judges it and closes; one byte more and it stores behind the
    buffer, since every read asks for the size of the whole buffer. *)
Theorem Client_spec buffer s (Hbuffer : length buffer = 100%nat) :
  ∃ fuel cuts, run pipe_handler fuel (Client buffer) s =
    if (length (pp_in s) <=? 100)%nat
    then Ok (inl (tt, recut cuts (served data (Client_verdict (pp_in s)) 3 s)))
    else Fault OutOfRange.
Proof.
  destruct (Client_ends buffer s Hbuffer) as (cuts & He). apply ends_run in He as [fuel Hr].
  exists fuel, cuts. rewrite Hr. by destruct (_ <=? _)%nat.
Qed.

(** C27. The two programs do their work, however reads and writes are cut into
    pieces: given what the server sends, the client sends its data, and given that,
    the server sends the reply and waits for the next client. Both ends come in
    finitely many steps and store nothing behind their buffers. The server finds the
    data correct; the client finds the reply correct exactly when [byte] holds 159,
    that is, when it is unsigned. *)
Theorem Client_Server_service to_byte cuts_c cuts_s buffer_c buffer_s
    (Hc : length buffer_c = 100%nat) (Hs : length buffer_s = 100%nat) :
  let reply := Server_reply to_byte data in
  ∃ fuel_c fuel_s sc ss,
    run pipe_handler fuel_c (Client buffer_c) (MkPipe reply cuts_c [] 0 [] []) = Ok (inl (tt, sc)) ∧
    run pipe_handler fuel_s (Server to_byte buffer_s) (MkPipe data cuts_s [] 1 [] []) = Ok (inr ss) ∧
    pp_out sc = data ∧ pp_out ss = reply ∧ pp_closed sc = [3] ∧ pp_closed ss = [4] ∧
    pp_log ss = ["Bob received correct data"%string] ∧
    pp_log sc = [if to_byte 159 =? 159 then "Alice received correct data"%string
                 else "Alice received back wrong data!"%string].
Proof.
  intros reply. assert (length reply = 100%nat) as Hr by (unfold reply, Server_reply; by rewrite length_fmap).
  destruct (Client_spec buffer_c (MkPipe reply cuts_c [] 0 [] []) Hc) as (fuel_c & cuts & Hrun).
  simpl pp_in in Hrun. rewrite Hr in Hrun.
  destruct (Server_turn_ends to_byte buffer_s (MkPipe data cuts_s [] 1 [] []) 0 Hs) as (cuts' & Ht); [done..|].
  simpl in Ht. set (ss := recut cuts' _) in Ht.
  assert (ends pipe_handler (Server to_byte buffer_s) (MkPipe data cuts_s [] 1 [] []) (Blocks ss)) as He.
  { unfold Server. do 3 (eapply ends_call_bind; [reflexivity|]; simpl).
    eapply ends_iter; [exact Ht|]. cbv beta iota.
    assert (ends pipe_handler (call (CAccept 3)) ss (Blocks ss)) as Hacc by (eapply ends_block; reflexivity).
    eapply ends_iter; [exact (ends_bind _ _ _ _ _ Hacc)|reflexivity]. }
  apply ends_run in He as [fuel_s Hrs]. exists fuel_c, fuel_s. eexists _, ss.
  split; [exact Hrun|]. split; [exact Hrs|]. do 5 (split; [reflexivity|]).
  unfold reply, Client_verdict. simpl. change (256 - 97) with 159. by destruct (to_byte 159 =? 159).
Qed.

Lemma write_loop_step stop fd buffer : ∃ k,
  observe (write_loop stop fd buffer) = VisF (CWrite fd buffer) k ∧
  ∀ re, (0 <? re) = false → observe (k re) = if stop then RetF 0 else TauF (write_loop stop fd buffer).
Proof.
  unfold write_loop. set (f := λ writen : Z, _).
  set (g := λ re, mret (if 0 <? re then inl (u32 (0 + re)) else if stop then inr 0 else inl 0) : itree callE (Z + Z)).
  exists (λ re, ITree.bind (ITree.bind (Ret re) g) (λ lr, ITree.on_left lr l (Tau (ITree.iter f l)))).
  split; [reflexivity|].
  intros re Hz. simpl. unfold g. rewrite Hz. by destruct stop.
Qed.

(** Writing to a file that answers with zero or less and stays as it is. *)
Lemma write_loop_error {S} (h : handler S) fd buffer s re :
  (∀ bytes, h Z (CWrite fd bytes) s = Ok (Some (re, s))) → re <= 0 →
  (∀ fuel, run h fuel (write_loop false fd buffer) s = Fault OutOfFuel) ∧
  ∃ fuel, run h fuel (write_loop true fd buffer) s = Ok (inl (0, s)).
Proof.
  intros Herror Hre.
  assert ((0 <? re) = false) as Hz by (apply Z.ltb_ge; lia).
  assert (∀ stop fuel, run h (Datatypes.S (Datatypes.S fuel)) (write_loop stop fd buffer) s =
    if stop then Ok (inl (0, s)) else run h fuel (write_loop false fd buffer) s) as Hstep.
  { intros stop fuel. destruct (write_loop_step stop fd buffer) as (k & Hk & Hn).
    rewrite (run_vis h _ _ _ _ _ _ _ _ Hk (Herror buffer)). specialize (Hn re Hz).
    destruct stop; [simpl; by rewrite Hn|]. exact (run_tau h _ _ _ _ Hn). }
  split; [|by exists 2%nat; rewrite Hstep].
  intros fuel. induction (lt_wf fuel) as [fuel _ IH]. destruct fuel as [|[|fuel]]; [done| |].
  - destruct (write_loop_step false fd buffer) as (k & Hk & _).
    by rewrite (run_vis h _ _ _ _ _ _ _ _ Hk (Herror buffer)).
  - rewrite Hstep. apply IH. lia.
Qed.

Section on_process.
Context {SWO : StopWatchOps} {TMO : TimerOps} {BFO : BufferOps} {MNO : MinOps}.
Context (RandomNumber : Z → Z) (now : Z).

(** C28. The server's loop of writes does not look at errors: on a connection that
    is closing or was shut down, as by a reset of the other end, [Write] answers -1
    and changes nothing, and the loop runs for ever. The client's loop stops. *)
Theorem Server_write_spins fd id socket key t buffer p h msgs
    (Hfd : pr_fd_table p !! fd = Some id) (Hid : 0 <= id)
    (Hsocket : Host_GetSocket id h = Some socket) (Hkey : so_tcp_con socket = con_at key)
    (Ht : h_connections h !! key = Some t)
    (Hdown : tc_shutdown t = true ∨ InClosingState (tc_state t) = true) :
  (∀ fuel, run (process_handler RandomNumber now) fuel (write_loop false fd buffer) (p, h, msgs) =
     Fault OutOfFuel) ∧
  ∃ fuel, run (process_handler RandomNumber now) fuel (write_loop true fd buffer) (p, h, msgs) =
     Ok (inl (0, (p, h, msgs))).
Proof.
  apply (write_loop_error _ _ _ _ (-1)); [|done]. intros bytes. simpl.
  unfold Process_Write, Process_FindFdMappedFileId. rewrite Hfd. simpl.
  rewrite (proj2 (Z.ltb_ge id 0) Hid). unfold Host_WriteData. rewrite Hsocket, Hkey.
  case_bool_decide; [done|]. simpl. rewrite Ht. simpl.
  assert (TcpController_WriteData bytes t = Some (-1, t)) as ->.
  { unfold TcpController_WriteData, WriteData_wait. destruct (InClosingState (tc_state t)); [done|].
    by destruct Hdown as [->|]. }
  simpl. unfold Host_update_tcp, set, set_h_connections. rewrite insert_id by done. by destruct h.
Qed.
(** A name in use: the new program is dropped, and the process that has the name is
    given to the pool a second time. *)
Theorem Host_CreateProcess_in_use name program n process (Hname : nd_processes n !! name = Some process) :
  Host_CreateProcess name program n = Ok (true, MkNode (nd_host n) (nd_processes n) (nd_tasks n ++ [(name, process.2)])).
Proof. unfold Host_CreateProcess, emplace. by rewrite Hname; simpl; rewrite Hname. Qed.

End on_process.

(** ** Concrete runs *)

Lemma Client_Server_service_witness : ∃ fuel_c fuel_s sc ss,
  run pipe_handler fuel_c (Client (replicate 100 0)) (MkPipe (replicate 100 159) [2; 50; 0]%nat [] 0 [] []) =
    Ok (inl (tt, sc)) ∧
  run pipe_handler fuel_s (Server (λ x, x mod 256) (replicate 100 0)) (MkPipe data [0; 7]%nat [] 1 [] []) =
    Ok (inr ss) ∧
  pp_log ss = ["Bob received correct data"%string] ∧ pp_log sc = ["Alice received correct data"%string].
Proof.
  destruct (Client_Server_service (λ x, x mod 256) [2; 50; 0]%nat [0; 7]%nat (replicate 100 0) (replicate 100 0))
    as (fuel_c & fuel_s & sc & ss & Hc & Hs & _ & _ & _ & _ & Hls & Hlc); [reflexivity..|].
  exists fuel_c, fuel_s, sc, ss. split; [exact Hc|]. split; [exact Hs|]. split; [exact Hls|exact Hlc].
Defined.

#[local] Existing Instance simple_StopWatch.
#[local] Existing Instance simple_Timer.
#[local] Existing Instance simple_Buffer.
#[local] Existing Instance simple_Min.

(** The connected client after its connection was shut down. *)
Definition client_reset (t : TcpController) : Host :=
  Host_update_tcp client_key (t <| tc_shutdown := true |>) client_connected.

Lemma Server_write_spins_witness : ∃ t, h_connections client_connected !! client_key = Some t ∧
  ∀ fuel, run (process_handler (λ _, 5) 0) fuel (write_loop false 3 data) (shell_open, client_reset t, []) =
    Fault OutOfFuel.
Proof.
  destruct (client_connection client_connected) as (t & Ht & _); [by vm_compute|].
  exists t. split; [exact Ht|].
  apply (Server_write_spins (λ _, 5) 0 3 0 client_socket client_key (t <| tc_shutdown := true |>)).
  - by vm_compute.
  - done.
  - by vm_compute.
  - reflexivity.
  - apply lookup_insert_eq.
  - by left.
Defined.
