(* ===== verification/World.v ===== *)
(** * The whole program

    [main]: two hosts joined by two channels, a process on each. The world moves by
    actions: a call of a program, a round of a listener of a host, of a connection
    or of a channel, a timer, the deletion of a connection. Any sequence of actions
    is an interleaving of the program's threads. *)
From Stdlib Require Import QArith.
From ITree Require Import ITree.
From S2P Require Import Prelude Interfaces Packet Keys NumPool PacketQueue BaseChannel SendWindow RecvWindow.
From S2P Require Import Tcp TcpRecv TcpSend TcpConn Threads Connection Kernel Host HostInv Process App.
Open Scope Z_scope.
Open Scope tcp_scope.

Section World.
Context {SWO : StopWatchOps} {TMO : TimerOps} {BFO : BufferOps} {MNO : MinOps}.
Context (RandomNumber : Z → Z) (RandomFloat : nat → Q) (to_byte : Z → Z) (memory : bool).

(** ** The world

    A channel hands its packets to the host behind it; [w_dice] is how many dice
    were rolled, [w_dup] the tolerance [max_duplicated_acks]. *)
Inductive side := Alice | Bob.

Definition Channel : Type := BaseChannel (res Host).

Record World := MkWorld {
  w_alice : Node;
  w_bob : Node;
  w_alice_to_bob : Channel;
  w_bob_to_alice : Channel;
  w_dice : nat;
  w_dup : Z;
  w_log : list string;
}.

Definition world_eta (w : World) : World :=
  MkWorld (w_alice w) (w_bob w) (w_alice_to_bob w) (w_bob_to_alice w) (w_dice w) (w_dup w) (w_log w).
#[export] Instance set_w_alice : Setter w_alice := ltac:(setter_of world_eta).
#[export] Instance set_w_bob : Setter w_bob := ltac:(setter_of world_eta).
#[export] Instance set_w_alice_to_bob : Setter w_alice_to_bob := ltac:(setter_of world_eta).
#[export] Instance set_w_bob_to_alice : Setter w_bob_to_alice := ltac:(setter_of world_eta).
#[export] Instance set_w_dice : Setter w_dice := ltac:(setter_of world_eta).
#[export] Instance set_w_dup : Setter w_dup := ltac:(setter_of world_eta).
#[export] Instance set_w_log : Setter w_log := ltac:(setter_of world_eta).

Definition node_of (s : side) (w : World) : Node := match s with Alice => w_alice w | Bob => w_bob w end.
Definition set_node (s : side) (n : Node) (w : World) : World :=
  match s with Alice => w <| w_alice := n |> | Bob => w <| w_bob := n |> end.

(** The channel that leads out of a host, and where it leads. *)
Definition channel_of (s : side) (w : World) : Channel :=
  match s with Alice => w_alice_to_bob w | Bob => w_bob_to_alice w end.
Definition set_channel (s : side) (c : Channel) (w : World) : World :=
  match s with Alice => w <| w_alice_to_bob := c |> | Bob => w <| w_bob_to_alice := c |> end.
Definition peer (s : side) : side := match s with Alice => Bob | Bob => Alice end.

Definition host_of (s : side) (w : World) : Host := nd_host (node_of s w).
Definition set_host (s : side) (h : Host) (w : World) : World :=
  set_node s ((node_of s w) <| nd_host := h |>) w.

(** *** Programs

    One step of a program: its next call, or [ReleaseResource] at its end. [None]
    when the call blocks; the rest of the program is [None] when it has ended. *)
Definition task_step (now : Z) (program : Program) (s : process_state)
    : res (option (option Program * process_state)) :=
  match observe program with
  | RetF _ =>
      let '(p, h, msgs) := s in
      '(p, h) ← Process_ReleaseResource p h;
      Ok (Some (None, (p, h, msgs)))
  | TauF program => Ok (Some (Some program, s))
  | VisF e k =>
      r ← process_handler RandomNumber now _ e s;
      Ok ('(x, s) ← r; Some (Some (k x), s))
  end.

(** The task [i] of a host. *)
Definition run_task (now : Z) (i : nat) (n : Node) (msgs : list string)
    : res (option (Node * list string)) :=
  match nd_tasks n !! i with
  | None => Ok None
  | Some (name, program) =>
      process ← deref (nd_processes n !! name);
      r ← task_step now program (process.1, nd_host n, msgs);
      Ok ('(rest, (p, h, msgs)) ← r;
          Some (MkNode h (<[name := (p, process.2)]> (nd_processes n))
            (match rest with
             | None => delete i (nd_tasks n)
             | Some program => <[i := (name, program)]> (nd_tasks n)
             end), msgs))
  end.

(** *** Actions *)

Inductive action :=
  | ATask (s : side) (i : nat) (now : Z)          (** a program *)
  | AReceive (s : side) | ASend (s : side)        (** the listeners of a host *)
  | ADeliver (s : side)                           (** the listener of a channel *)
  | AConn (s : side) (key : TcpControllerKey) (act : conn_action)
  | ATearDown (s : side) (key : TcpControllerKey) (** the thread of [CloseAndDelete] *)
  | ADelete (s : side) (key : TcpControllerKey).

(** The connection [key] is being deleted. *)
Definition deleting (key : TcpControllerKey) (h : Host) : bool :=
  match h_connections h !! key with Some t => tc_deleting t | None => false end.

Definition world_do (act : action) (w : World) : res (option World) :=
  match act with
  | ATask s i now =>
      r ← run_task now i (node_of s w) (w_log w);
      Ok ('(n, msgs) ← r; Some ((set_node s n w) <| w_log := msgs |>))
  | AReceive s =>
      r ← Host_PacketsReceiveListener_round (host_of s w);
      Ok (h ← r; Some (set_host s h w))
  | ASend s =>
      match Host_PacketsSendListener_round (host_of s w) with
      | None => Ok None
      | Some (pkts, h) =>
          let '(_, dice, c) := BaseChannel_SendAll RandomFloat (w_dice w) pkts (channel_of s w) in
          Ok (Some ((set_channel s c (set_host s h w)) <| w_dice := dice |>))
      end
  | ADeliver s =>
      match BaseChannel_WaitingForPackets_round (channel_of s w) (Ok (host_of (peer s) w)) with
      | None => Ok None
      | Some (c, h) => h ← h; Ok (Some (set_channel s c (set_host (peer s) h w)))
      end
  | AConn s key act =>
      match h_connections (host_of s w) !! key with
      | None => Ok None
      | Some t =>
          r ← conn_do act (w_dup w) t;
          match r with
          | None => Ok None
          | Some (g, pkts, t) =>
              let h := Host_update_tcp key t (host_of s w) in
              h ← (match act with KToHost => Host_MultiplexPacketsFromTcp pkts h | _ => Ok h end);
              Ok (Some ((set_host s h w) <| w_dup := g |>))
          end
      end
  | ATearDown s key =>
      if deleting key (host_of s w)
      then h ← Host_TearDown key (host_of s w); Ok (Some (set_host s h w))
      else Ok None
  | ADelete s key =>
      if deleting key (host_of s w)
      then h ← Host_DeleteTcpConnection key (host_of s w); Ok (Some (set_host s h w))
      else Ok None
  end.

(** A schedule; a thread whose turn comes while it blocks stays where it is. *)
Fixpoint world_run (acts : list action) (w : World) : res World :=
  match acts with
  | [] => Ok w
  | act :: acts =>
      r ← world_do act w;
      world_run acts (match r with Some w => w | None => w end)
  end.

(** *** The start

    [main], up to its endless loop. The programs get the arrays they use: the
    server's is global, the client's on its stack. [memory] is what the flags of the
    channels hold before [Start] sets them. *)
Definition from_channel (pkts : list Packet) (h : res Host) : res Host :=
  h ← h; Host_MovePacketsFromChannel pkts h.

Definition main (receive_buffer client_buffer : list Z) : res World :=
  let channel_alice_to_bob : Channel := BaseChannel_default memory in
  let channel_bob_to_alice : Channel := BaseChannel_default memory in
  let alice := MkNode (Host_new "Alice" kAliceIP) ∅ [] in
  let bob := MkNode (Host_new "Bob" kBobIP) ∅ [] in
  let channel_alice_to_bob := BaseChannel_RegisterReceiverCallback from_channel channel_alice_to_bob in
  let channel_bob_to_alice := BaseChannel_RegisterReceiverCallback from_channel channel_bob_to_alice in
  let channel_alice_to_bob := BaseChannel_Start channel_alice_to_bob in
  let channel_bob_to_alice := BaseChannel_Start channel_bob_to_alice in
  '(_, bob) ← Host_CreateProcess "Server" (Server to_byte receive_buffer) bob;
  '(_, alice) ← Host_CreateProcess "Client" (Client client_buffer) alice;
  Ok (MkWorld alice bob channel_alice_to_bob channel_bob_to_alice 0 kMaxDuplicatedAcksOrigin []).
End World.

(** ** A run of the program

    A schedule: the server starts first, as the client's pause intends; then the
    threads of both hosts take turns, and from time to time the timers fire. The
    channels drop the packets that the dice say. *)

#[local] Existing Instance simple_StopWatch.
#[local] Existing Instance simple_Timer.
#[local] Existing Instance simple_Buffer.
#[local] Existing Instance simple_Min.

(** The connection, as each end calls it. *)
Definition alice_key : TcpControllerKey := MkKey kBobIP kBobPort kAliceIP kAlicePort.
Definition bob_key : TcpControllerKey := MkKey kAliceIP kAlicePort kBobIP kBobPort.

Definition turns (s : side) (key : TcpControllerKey) : list action :=
  ATask s 0 0 ::
  (AConn s key <$> [KReceive 0; KListen; KSend 0; KOverflow; KFin 0; KReset; KToHost]) ++
  [ASend s; ADeliver s; AReceive (peer s)].
Definition all_turns : list action := turns Alice alice_key ++ turns Bob bob_key.
Definition timers : list action :=
  [AConn Alice alice_key KRetransmit; AConn Alice alice_key KProbe;
   AConn Bob bob_key KRetransmit; AConn Bob bob_key KProbe].
Definition schedule : list action :=
  replicate 5 (ATask Bob 0 0) ++
  concat (replicate 10 (concat (replicate 8 all_turns) ++ timers)).

Definition run_main (dice : nat → Q) : res World :=
  w ← main (λ x, x mod 256) true (replicate 100 0) (replicate 100 0);
  world_run (λ _, 5) dice schedule w.

(** Dice that lose nothing, and dice that lose about a fifth of the packets. *)
Definition no_loss (_ : nat) : Q := 1.
Definition some_loss (n : nat) : Q := Z.of_nat n * (7919 * Z.of_nat n + 13) mod 101 # 101.

(** What the client and the server logged, whether the client has ended, the states
    of the two connections, and what the deletion of the client's does. *)
Definition observed (dice : nat → Q) (w : World) :
    list string * bool * option TCP_STATE * option TCP_STATE * option fault :=
  (w_log w, match nd_tasks (w_alice w) with [] => true | _ => false end,
   tc_state <$> (h_connections (host_of Alice w) !! alice_key),
   tc_state <$> (h_connections (host_of Bob w) !! bob_key),
   match world_do (λ _, 5) dice (ATearDown Alice alice_key) w with Fault f => Some f | Ok _ => None end).

(** A test of the model: in this schedule, with and without losses, the client
    connects, sends its data and receives the reply, both find what they received
    correct, both close, and the client's program ends; the thread that deletes
    the client's connection then writes through the pointer to the closed socket. *)
Example main_run :
  Forall (λ dice, ∃ w, run_main dice = Ok w ∧
    observed dice w = (["Bob received correct data"; "Alice received correct data"]%string, true,
      Some CLOSED, Some TIME_WAIT, Some UseAfterFree)) [no_loss; some_loss].
Proof.
  assert (∀ dice r, match run_main dice with Ok w => observed dice w = r | Fault _ => False end →
    ∃ w, run_main dice = Ok w ∧ observed dice w = r) as Hrun.
  { intros dice r. destruct (run_main dice) as [w|]; [|done]. by exists w. }
  repeat constructor; apply Hrun; vm_compute; reflexivity.
Qed.
