(* ===== verification/WorldInv.v ===== *)
(** * Every packet fits its types

    In every state the whole program can reach, under any schedule and any losses,
    every packet in a queue, a channel or a window is well formed, and every
    connection satisfies its invariant: what a connection assumes of the segments
    that arrive, the connections and hosts guarantee of the segments they send. *)
From Stdlib Require Import QArith.
From ITree Require Import ITree.
From S2P Require Import Prelude Interfaces Packet Keys NumPool PacketQueue BaseChannel SendWindow RecvWindow.
From S2P Require Import Tcp TcpRecv TcpSend TcpConn Threads Connection ConnWf Kernel Host HostInv Process App World.
Open Scope Z_scope.
Open Scope tcp_scope.

Section WorldInv.
Context {SWO : StopWatchOps} {TMO : TimerOps} {BFO : BufferOps} {MNO : MinOps}.
Context {Buffer_bytes : Buffer → list Z} {Buffer_capacity : Buffer → Z}.
Context {BFL : BufferLaws Buffer_bytes Buffer_capacity} {MNL : MinLaws}.
Implicit Types (h : Host) (t : TcpController) (n : Z) (k : TcpControllerKey).

#[local] Abbreviation conn_wf := (conn_wf (Buffer_capacity := Buffer_capacity)).

(** ** Hosts *)

Record host_wf n h : Prop := {
  hw_recv : Forall well_formed (pq_packets (h_recv_pkt_queue h));
  hw_send : Forall well_formed (pq_packets (h_send_pkt_queue h));
  hw_connections k t : h_connections h !! k = Some t → conn_wf n t;
}.

Lemma host_wf_mono n m h : n <= m → host_wf n h → host_wf m h.
Proof. intros Hnm [H1 H2 H3]. split; [done|done|]. intros k t Ht. by eapply conn_wf_mono, H3. Qed.

(** What leaves packets and connections alone. *)
Record host_same h h' : Prop := {
  hs_recv : h_recv_pkt_queue h' = h_recv_pkt_queue h;
  hs_send : h_send_pkt_queue h' = h_send_pkt_queue h;
  hs_connections : h_connections h' = h_connections h;
}.

#[local] Instance host_same_preorder : PreOrder host_same.
Proof. split; [by split|]. intros h1 h2 h3 [] []. split; congruence. Qed.

Lemma host_same_wf n h h' : host_same h h' → host_wf n h → host_wf n h'.
Proof. intros [E1 E2 E3] []. by split; rewrite ?E1, ?E2, ?E3. Qed.

Lemma update_tcp_wf n k t h : conn_wf n t → host_wf n h → host_wf n (Host_update_tcp k t h).
Proof.
  intros Ht [H1 H2 H3]. split; [done|done|]. simpl. intros k' t' [[_ <-]|[_ Hk]]%lookup_insert_Some; [done|by eapply H3].
Qed.

Lemma update_socket_same id f h : host_same h (Host_update_socket id f h).
Proof. by split. Qed.
Lemma ReleasePort_same p h : host_same h (Host_ReleasePort p h).
Proof. by split. Qed.

Lemma DetachSocket_same id h h' : Host_DetachSocket id h = Ok h' → host_same h h'.
Proof. unfold Host_DetachSocket. case_match; [|done]. by intros [= <-]. Qed.

Lemma CreateNewSocket_same h id h' : Host_CreateNewSocket h = (id, h') → host_same h h'.
Proof. unfold Host_CreateNewSocket. repeat case_match; intros [= <- <-]; by split. Qed.

Lemma SocketBind_same id ip port h b h' : Host_SocketBind id ip port h = (b, h') → host_same h h'.
Proof. unfold Host_SocketBind. repeat case_match; intros [= <- <-]; by split. Qed.

Lemma SocketListen_same id h b h' : Host_SocketListen id h = (b, h') → host_same h h'.
Proof. unfold Host_SocketListen. repeat case_match; intros [= <- <-]; by split. Qed.

Lemma SocketAccept_same id h r h' : Host_SocketAccept id h = Some (r, h') → host_same h h'.
Proof. unfold Host_SocketAccept. repeat case_match; try done; intros [= <- <-]; by split. Qed.

(** *** Deletion *)

Lemma TearDown_conn_wf n t : conn_wf n t → conn_wf n (TcpController_TearDown t).2.
Proof.
  intros [Hok R1 R2 R3 R4 R5 R6]. apply conn_wf_intro; [|by split].
  by apply (conn_same_ok t); [by split_and!|].
Qed.

Lemma TearDown_tcp_wf n t h t' h' : Host_TearDown_tcp t h = Ok (t', h') →
  host_same h h' ∧ (conn_wf n t → conn_wf n t').
Proof.
  unfold Host_TearDown_tcp. pose proof (TearDown_conn_wf n t) as Hc.
  destruct (TcpController_TearDown t) as [port t1]. intros Hr.
  apply bind_Ok in Hr as (h1 & H1%DetachSocket_same & Hr). injection Hr as <- <-.
  split; [|done]. destruct port; [|done]. by destruct H1; split.
Qed.

Lemma Host_TearDown_wf n k h h' : host_wf n h → Host_TearDown k h = Ok h' → host_wf n h'.
Proof.
  intros Hw. unfold Host_TearDown. intros Hr. apply bind_Ok in Hr as (t & Ht%deref_Ok & Hr).
  apply bind_Ok in Hr as ([t1 h1] & Hd & Hr). injection Hr as <-.
  destruct (TearDown_tcp_wf n _ _ _ _ Hd) as [Hs Hc]. eapply host_same_wf in Hs; [|done].
  apply (update_tcp_wf n k t1 h1); [|done]. apply Hc. by eapply (hw_connections n h).
Qed.

Lemma DeleteTcpConnection_wf n k h h' : host_wf n h → Host_DeleteTcpConnection k h = Ok h' → host_wf n h'.
Proof.
  intros Hw. unfold Host_DeleteTcpConnection. case_match eqn:Ht; [|by intros [= <-]]. intros Hr.
  apply bind_Ok in Hr as ([t1 h1] & Hd & Hr). injection Hr as <-.
  destruct (TearDown_tcp_wf n _ _ _ _ Hd) as [Hs _]. eapply host_same_wf in Hs as [H1 H2 H3]; [|done].
  split; [done|done|]. simpl. intros k' t' [_ Hk]%lookup_delete_Some. by eapply H3.
Qed.

Lemma DeleteSocketAndConnection_wf n id h h' : host_wf n h →
  Host_DeleteSocketAndConnection id h = Ok h' → host_wf n h'.
Proof.
  intros Hw. unfold Host_DeleteSocketAndConnection. case_match; [|by intros [= <-]]. intros Hr.
  apply bind_Ok in Hr as (key & _ & Hr).
  assert (host_wf n (h <| h_open_files_table := delete id (h_open_files_table h) |>)) as Hw'
    by by destruct Hw; split.
  case_match; [by eapply DeleteTcpConnection_wf|by injection Hr as <-].
Qed.

(** *** Calls *)

Lemma SocketConnect_wf n RandomNumber now id ip port h b h' :
  65536 <= n → n + 1 < 4294967296 → host_wf n h →
  Host_SocketConnect RandomNumber now id ip port h = Ok (b, h') → host_wf (n + 1) h'.
Proof.
  intros Hn1 Hn Hw. unfold Host_SocketConnect. intros Hr.
  apply bind_Ok in Hr as (socket & _ & Hr). apply bind_Ok in Hr as ([local_key h1] & Hl & Hr).
  assert (host_same h h1) as Hs1.
  { destruct (negb (Socket_isBound socket)); [|by injection Hl as <- <-].
    apply bind_Ok in Hl as ([p pool] & _ & Hl). by injection Hl as <- <-. }
  apply (host_same_wf n) in Hs1; [|done]. apply bind_Ok in Hr as (h2 & Hc & Hr).
  assert (host_wf n h2) as Hw2.
  { case_match.
    - apply bind_Ok in Hc as ([t2 h3] & Hd & Hc). injection Hc as <-.
      apply (TearDown_tcp_wf n) in Hd as [Hs _]. by eapply host_same_wf.
    - injection Hc as <-. apply update_tcp_wf; [|done]. by apply TcpController_new_wf. }
  apply bind_Ok in Hr as (tcp & Ht%deref_Ok & Hr). apply bind_Ok in Hr as ([re tcp'] & Htry & Hr).
  assert (conn_wf (n + 1) tcp') as Htcp
    by (eapply TryConnect_wf; [done|done| |exact Htry]; by eapply (hw_connections n)).
  assert (host_wf (n + 1) h2) as Hw3 by (by apply (host_wf_mono n); [lia|]).
  destruct re; injection Hr as <- <-; (eapply host_same_wf; [|by eapply update_tcp_wf]; by split).
Qed.

Lemma DecOpenFileRef_wf n id h r h' : host_wf n h → Host_DecOpenFileRef id h = Ok (r, h') → host_wf n h'.
Proof.
  intros Hw. unfold Host_DecOpenFileRef. case_match; [|by intros [= <- <-]].
  case_match; [|intros [= <- <-]; by destruct Hw; split]. intros Hr.
  apply bind_Ok in Hr as (h1 & H1 & Hr). injection Hr as <- <-.
  assert (host_wf n h1) as []; [|by split]. destruct (so_tcp_con _) as [|k0|].
  1: injection H1 as <-; case_match; [by apply (host_same_wf n h); [split|]|done].
  all: apply bind_Ok in H1 as ([key t] & [_ Ht]%follow_Ok & H1); injection H1 as <-;
    (apply update_tcp_wf; [|done]); (eapply TryClose_wf; [|apply surjective_pairing]);
    pose proof (hw_connections _ _ Hw _ _ Ht) as Hc; (case_match; [|done]); by apply (conn_wf_frame n t).
Qed.

Lemma ReadData_host_wf n id size h r bytes h' : host_wf n h →
  Host_ReadData id size h = Ok (Some (r, bytes, h')) → host_wf n h'.
Proof.
  intros Hw. unfold Host_ReadData. case_match; [|by intros [= <- <- <-]]. intros Hr.
  apply bind_Ok in Hr as ([key t] & [_ Ht]%follow_Ok & Hr). apply bind_Ok in Hr as (x & Hx & Hr). destruct x as [[[m bs] t']|]; [|done]. injection Hr as <- <- <-.
  apply update_tcp_wf; [|done]. eapply ReadData_wf; [by eapply (hw_connections n)|exact Hx].
Qed.

Lemma WriteData_host_wf n id buf h r h' : host_wf n h →
  Host_WriteData id buf h = Ok (Some (r, h')) → host_wf n h'.
Proof.
  intros Hw. unfold Host_WriteData. case_match; [|by intros [= <- <-]].
  case_match; [by intros [= <- <-]|]. destruct (so_tcp_con _) as [|k0|]; [by intros [= <- <-]|..]; intros Hr;
    apply bind_Ok in Hr as ([key t] & [_ Ht]%follow_Ok & Hr);
    (destruct (TcpController_WriteData buf t) as [[m t']|] eqn:Hx; [|done]); injection Hr as <- <-;
    (apply update_tcp_wf; [|done]); (eapply WriteData_wf; [by eapply (hw_connections n)|exact Hx]).
Qed.

(** *** Packets *)

Lemma MovePacketsFromChannel_wf n pkts h h' : host_wf n h → Forall well_formed pkts →
  Host_MovePacketsFromChannel pkts h = Ok h' → host_wf n h'.
Proof.
  intros [H1 H2 H3] Hp. unfold Host_MovePacketsFromChannel.
  destruct (PacketQueue_PushAll pkts _) as [[m rest] q] eqn:Hq. intros Hr.
  apply bind_Ok in Hr as (? & _ & Hr). injection Hr as <-. split; [|done|done].
  by eapply PushAll_Forall.
Qed.

Lemma MultiplexPacketsFromTcp_wf n pkts h h' : host_wf n h → Forall well_formed pkts →
  Host_MultiplexPacketsFromTcp pkts h = Ok h' → host_wf n h'.
Proof.
  intros [H1 H2 H3] Hp. unfold Host_MultiplexPacketsFromTcp.
  destruct (PacketQueue_PushAll pkts _) as [[m rest] q] eqn:Hq. intros Hr.
  apply bind_Ok in Hr as (? & _ & Hr). injection Hr as <-. split; [done| |done].
  by eapply PushAll_Forall.
Qed.

Lemma HandleNewConnection_wf n pkt h b h' : 65536 <= n → host_wf n h → well_formed pkt →
  Host_HandleNewConnection pkt h = (b, h') → host_wf n h'.
Proof.
  intros Hn Hw Hp. unfold Host_HandleNewConnection. case_match; [by intros [= <- <-]|].
  case_match; [|by intros [= <- <-]]. destruct (Host_CreateNewSocket h) as [id h1] eqn:Hs.
  apply CreateNewSocket_same, (host_same_wf n) in Hs as [H1 H2 H3]; [|done].
  case_match; [by intros [= <- <-]|]. intros [= <- <-]. split; [done|done|]. simpl.
  intros k t. rewrite lookup_alter_Some. pose proof Hp as [[(_ & _ & Hseq & _) _ _] _].
  assert (∀ k t, emplace (demux_key pkt) (TcpController_new id (demux_key pkt)
    (TcpController_GetDefaultOptions <| recv_window_base := pkt_seq pkt |>)) (h_connections h1) !! k = Some t →
    conn_wf n t) as Hem.
  { intros k' t'. unfold emplace. case_match; [by eapply H3|].
    intros [[_ <-]|[_ Hk]]%lookup_insert_Some; [by apply TcpController_new_wf|by eapply H3]. }
  intros [(_ & t0 & Ht0 & ->)|[_ Ht]]; [|by eapply Hem].
  apply ReceiveNewPacket_wf; [by apply Copy_wf|by eapply Hem].
Qed.

Lemma rst_well_formed k : well_formed (rst_packet k).
Proof. made_wf. Qed.

Lemma demux_loop_wf n size pkts h rest h' : 65536 <= n → host_wf n h → Forall well_formed pkts →
  Host_demux_loop size pkts h = Ok (rest, h') → host_wf n h'.
Proof.
  intros Hn. revert pkts h. induction size as [|size IH]; intros pkts h Hw Hp; simpl; [by intros [= <- <-]|].
  destruct pkts as [|p pkts]; [done|]. apply Forall_cons in Hp as Hp'. destruct Hp' as [Hpp Hps].
  assert (∀ h, host_wf n h → (t ← deref (h_connections h !! demux_key p);
    Host_demux_loop size pkts (Host_update_tcp (demux_key p) (TcpController_ReceiveNewPacket p t) h)) =
    Ok (rest, h') → host_wf n h') as Hdeliver.
  { intros h1 Hw1 Hr. apply bind_Ok in Hr as (t & Ht%deref_Ok & Hr). eapply IH; [|exact Hps|exact Hr].
    apply update_tcp_wf; [|done]. apply ReceiveNewPacket_wf; [done|by eapply (hw_connections n)]. }
  destruct (h_connections h !! demux_key p) as [t|] eqn:Ht.
  { intros Hr. apply (Hdeliver h Hw). by rewrite Ht. }
  destruct (Host_HandleNewConnection p h) as [is_new h1] eqn:Hnew.
  apply (HandleNewConnection_wf n) in Hnew; [|done|done|done]. destruct is_new; [by apply Hdeliver|].
  apply IH; [|done]. case_match; [done|]. destruct Hnew as [H1 H2 H3]. split; [done| |done].
  simpl. apply Forall_app. split; [done|]. apply Forall_singleton, rst_well_formed.
Qed.

Lemma PacketsReceiveListener_wf n h h' : 65536 <= n → host_wf n h →
  Host_PacketsReceiveListener_round h = Ok (Some h') → host_wf n h'.
Proof.
  intros Hn [H1 H2 H3]. unfold Host_PacketsReceiveListener_round.
  destruct (PacketQueue_DeQueueAllTo _ _ _) as [[[m pkts] q]|] eqn:Hq; [|done].
  destruct (DeQueueAllTo_Forall _ _ _ _ _ _ Hq H1) as [Hp Hq']. intros Hr.
  apply bind_Ok in Hr as ([rest h1] & Hr & [= <-]). by eapply demux_loop_wf; [| |exact Hp|exact Hr].
Qed.

Lemma PacketsSendListener_wf n h pkts h' : host_wf n h →
  Host_PacketsSendListener_round h = Some (pkts, h') → host_wf n h' ∧ Forall well_formed pkts.
Proof.
  intros [H1 H2 H3]. unfold Host_PacketsSendListener_round.
  destruct (PacketQueue_DeQueueAllTo _ _ _) as [[[m ps] q]|] eqn:Hq; [|done].
  destruct (DeQueueAllTo_Forall _ _ _ _ _ _ Hq H2) as [Hp Hq']. by intros [= <- <-].
Qed.

(** ** Programs *)

Context (RandomNumber : Z → Z) (RandomFloat : nat → Q) (to_byte : Z → Z).

Lemma Process_Close_wf n fd p h b p' h' : host_wf n h → Process_Close fd p h = Ok (b, p', h') → host_wf n h'.
Proof.
  intros Hw. unfold Process_Close. case_match; [by intros [= <- <- <-]|]. intros Hr.
  apply bind_Ok in Hr as ([r h1] & H1 & Hr). apply (DecOpenFileRef_wf n) in H1; [|done].
  case_match; by simplify_eq.
Qed.

Lemma close_all_wf n fds p h p' h' : host_wf n h → close_all fds p h = Ok (p', h') → host_wf n h'.
Proof.
  revert p h. induction fds as [|fd fds IH]; intros p h Hw; simpl; [by intros [= <- <-]|]. intros Hr.
  apply bind_Ok in Hr as ([[b p1] h1] & H1 & Hr). eapply IH; [|exact Hr]. by eapply Process_Close_wf.
Qed.

(** A call of a program. *)
Lemma process_handler_wf n now A (e : callE A) p h msgs x p' h' msgs' :
  65536 <= n → n + 1 < 4294967296 → host_wf n h →
  process_handler RandomNumber now A e (p, h, msgs) = Ok (Some (x, (p', h', msgs'))) → host_wf (n + 1) h'.
Proof.
  intros Hn1 Hn Hw. pose proof (host_wf_mono n (n + 1) h ltac:(lia) Hw) as Hw1.
  destruct e as [|fd ip port|fd|fd|fd ip port|fd size|fd buf|fd|msg|]; unfold process_handler.
  - destruct (Process_Socket p h) as [[fd p1] h1] eqn:Hs. intros [= <- <- <- <-].
    unfold Process_Socket in Hs. destruct (NumPool_Allocate _) as [fd' pool]. case_match; [by simplify_eq|].
    destruct (Host_CreateNewSocket h) as [id h2] eqn:H2. apply CreateNewSocket_same in H2.
    eapply host_same_wf in H2; [|exact Hw1]. case_match; by simplify_eq.
  - destruct (Process_Bind _ _ _ _ _) as [b h1] eqn:Hs. intros [= <- <- <- <-].
    unfold Process_Bind in Hs. case_match; [by simplify_eq|]. apply SocketBind_same in Hs. by eapply host_same_wf.
  - destruct (Process_Listen _ _ _) as [b h1] eqn:Hs. intros [= <- <- <- <-].
    unfold Process_Listen in Hs. case_match; [by simplify_eq|]. apply SocketListen_same in Hs. by eapply host_same_wf.
  - intros Hr. apply bind_Ok in Hr as (r & Hs & Hr). destruct r as [[[fd' p1] h1]|]; [|done].
    injection Hr as <- <- <- <-. unfold Process_Accept in Hs. case_match; [by simplify_eq|].
    destruct (Host_SocketAccept _ _) as [[id h2]|] eqn:H2; [|done]. apply SocketAccept_same in H2.
    eapply host_same_wf in H2; [|exact Hw1]. destruct (NumPool_Allocate _) as [fd2 pool].
    case_match; [|by simplify_eq]. apply bind_Ok in Hs as (h3 & H3 & Hs). simplify_eq.
    by eapply DeleteSocketAndConnection_wf.
  - intros Hr. apply bind_Ok in Hr as ([b h1] & Hs & Hr). injection Hr as <- <- <- <-.
    unfold Process_Connect in Hs. case_match; [by simplify_eq|]. by eapply SocketConnect_wf.
  - intros Hr. apply bind_Ok in Hr as (r & Hs & Hr). destruct r as [[[m bytes] h1]|]; [|done].
    injection Hr as <- <- <- <-. unfold Process_Read in Hs. case_match; [by simplify_eq|]. by eapply ReadData_host_wf.
  - intros Hr. apply bind_Ok in Hr as (r & Hs & Hr). destruct r as [[m h1]|]; [|done].
    injection Hr as <- <- <- <-. unfold Process_Write in Hs. case_match; [by simplify_eq|]. by eapply WriteData_host_wf.
  - intros Hr. apply bind_Ok in Hr as ([[b p1] h1] & Hs & Hr). injection Hr as <- <- <- <-. by eapply Process_Close_wf.
  - by intros [= <- <- <- <-].
  - done.
Qed.

Lemma run_task_wf n now i nd msgs nd' msgs' : 65536 <= n → n + 1 < 4294967296 → host_wf n (nd_host nd) →
  run_task RandomNumber now i nd msgs = Ok (Some (nd', msgs')) → host_wf (n + 1) (nd_host nd').
Proof.
  intros Hn1 Hn Hw. unfold run_task. destruct (nd_tasks nd !! i) as [[name program]|]; [|done]. intros Hr.
  apply bind_Ok in Hr as ([p0 prog] & _ & Hr). apply bind_Ok in Hr as (r & Hs & Hr).
  destruct r as [[rest [[p h] msgs1]]|]; [|done]. injection Hr as <- <-. simpl.
  unfold task_step in Hs. simpl in Hs. destruct (observe program) as [[]|t|A e kk].
  - apply bind_Ok in Hs as ([p1 h1] & H1 & Hs). injection Hs as <- <- <- <-.
    apply (host_wf_mono n); [lia|]. by eapply close_all_wf.
  - injection Hs as <- <- <- <-. apply (host_wf_mono n); [lia|done].
  - apply bind_Ok in Hs as (r & H1 & Hs). destruct r as [[x [[p1 h1] msgs2]]|]; [|done].
    injection Hs as <- <- <- <-. by eapply process_handler_wf.
Qed.

(** ** Connections *)

Lemma drop_task_wf n task t : conn_wf n t → conn_wf n (drop_task task t).
Proof. intros Hw. unfold drop_task. repeat case_match; [by apply (conn_wf_frame n t)|done]. Qed.

Lemma conn_do_wf n act g t g' pkts t' : 65536 <= n → n + 2 < 4294967296 → conn_wf n t →
  conn_do act g t = Ok (Some (g', pkts, t')) → conn_wf (n + 1) t' ∧ Forall well_formed pkts.
Proof.
  intros Hn1 Hn Hw. assert (∀ t, conn_wf n t → conn_wf (n + 1) t ∧ Forall well_formed []) as Hsame.
  { intros t1 ?. split; [by apply (conn_wf_mono n); [lia|]|constructor]. }
  destruct act as [now| | |now| |now| | | | |]; unfold conn_do; intros Hr.
  - apply bind_Ok in Hr as (r & Hs & Hr). destruct r as [[g1 t1]|]; [|done]. injection Hr as <- <- <-.
    apply Hsame. eapply PacketReceiveBufferListener_wf; [done| |done|exact Hs]. lia.
  - destruct (TcpController_PacketSendBufferListener_round t) as [[ps t1]|] eqn:Hs; [|done].
    injection Hr as <- <- <-. destruct (PacketSendBufferListener_wf n _ _ _ Hw Hs). split; [|done].
    by apply (conn_wf_mono n); [lia|].
  - case_match; [|done]. injection Hr as <- <- <-. by apply Hsame, drop_task_wf.
  - case_match; [|done]. apply bind_Ok in Hr as (t1 & Hs & Hr). injection Hr as <- <- <-.
    apply Hsame. by eapply SendBufferListener_wf.
  - destruct (TcpController_ReceiveBufferListener_round t) as [t1|] eqn:Hs; [|done]. injection Hr as <- <- <-.
    apply Hsame. by eapply ReceiveBufferListener_wf.
  - case_match; [|done]. apply bind_Ok in Hr as (r & Hs & Hr). destruct r as [t1|]; [|done].
    injection Hr as <- <- <-. split; [|constructor]. apply drop_task_wf. by eapply SendFIN_wf.
  - case_match; [|done]. destruct (TcpController_SendRSTForClosedConnection_round t) as [t1|] eqn:Hs; [|done].
    injection Hr as <- <- <-. apply Hsame. by eapply SendRST_wf.
  - case_match; [|done]. injection Hr as <- <- <-. by apply Hsame, TimeoutReTransmitter_wf.
  - case_match; [|done]. injection Hr as <- <- <-. by apply Hsame, ProbeWindowSize_wf.
  - case_match; [|done]. injection Hr as <- <- <-. by apply Hsame, CloseAndDelete_wf.
  - case_match; [|done]. injection Hr as <- <- <-. by apply Hsame, kill_thread_wf.
Qed.

(** What can go wrong in a thread of a connection. *)
Lemma HandleReceivedPackets_fault n now g pkts t f : 65536 <= n → n + 1 < 4294967296 → conn_wf n t →
  Forall well_formed pkts → TcpController_HandleReceivedPackets now g pkts t = Fault f → handler_fault f.
Proof.
  intros Hn1 Hn. revert g t. induction pkts as [|p pkts IH]; intros g t Hw Hp; simpl; [done|].
  apply Forall_cons in Hp as [Hp Hps]. intros [Hf|([g1 t1] & H1 & Hf)]%bind_Fault.
  - pose proof (HandlePacket_ok now g p t (co_inv _ (cw_ok _ _ Hw)) (wf_header _ (wp_fields _ Hp))) as Hok. by rewrite Hf in Hok.
  - eapply IH; [|done|exact Hf]. by eapply HandlePacket_wf; [| | | |exact H1].
Qed.

Lemma conn_do_fault n act g t f : 65536 <= n → n + 2 < 4294967296 → conn_wf n t →
  conn_do act g t = Fault f → handler_fault f ∧ ∃ now, act = KReceive now.
Proof.
  intros Hn1 Hn Hw. pose proof Hw as [[[Hi _] _] R1 _ R3 _ R5 _]. destruct R3 as [_ _ Hsz _].
  destruct act as [now| | |now| |now| | | | |]; unfold conn_do; try done.
  - intros [Hf|(r & _ & Hf)]%bind_Fault; [|done]. split; [|by exists now]. revert Hf.
    unfold TcpController_PacketReceiveBufferListener_round. case_match; [done|].
    destruct (PacketQueue_DeQueueAllTo _ _ _) as [[[k ps] q]|] eqn:Hq; [|done].
    destruct (DeQueueAllTo_Forall _ _ _ _ _ _ Hq R1) as [Hps Hq'].
    intros [Hf|(r & _ & Hf)]%bind_Fault; [|done]. eapply HandleReceivedPackets_fault; [done| | |exact Hps|exact Hf]; [lia|].
    destruct Hw as [Hok _ R2' R3' R4' _ R6']. by split; [apply (conn_same_ok t); [by split_and!|]|..].
  - case_match; [|done]. intros [Hf|(r & _ & Hf)]%bind_Fault; [|done].
    assert (Buffer_size (tc_send_buffer t) < 2147483648) as Hb.
    { rewrite Buffer_size_spec. pose proof (Buffer_bounded (tc_send_buffer t)). lia. }
    destruct (decide (0 < sw_capacity (tc_send_window t))) as [Hc|Hc].
    + destruct (SendBufferListener_round_spec _ _ now t Hi Hc Hb) as (ps & t1 & Hr1 & _). by rewrite Hr1 in Hf.
    + unfold TcpController_SendBufferListener_round in Hf. pose proof (swi_capacity _ Hi) as Hc0. unfold is_u32 in Hc0.
      rewrite (proj2 (Z.ltb_ge 0 _)), andb_false_r, (proj2 (Z.eqb_eq (sw_capacity _) 0)) in Hf by lia. done.
  - case_match; [|done]. intros [Hf|(r & _ & Hf)]%bind_Fault; [|done].
    destruct (tc_shutdown t) eqn:Hup; [unfold TcpController_SendFIN in Hf; by rewrite Hup in Hf|].
    pose proof (SendFIN_result _ _ now t Hi ltac:(lia) Hup) as Hres. by rewrite Hf in Hres.
  - by case_match.
Qed.

(** ** Channels *)

Record channel_wf (c : Channel) : Prop := {
  chw_packets : Forall well_formed (pq_packets (bc_pkt_buffer c));
  chw_callback : bc_receiver_callback c = Some from_channel;
}.

Lemma channel_send_loop_wf size d pkts acc rest out d' : Forall well_formed pkts → Forall well_formed acc →
  channel_send_loop RandomFloat size d pkts acc = (rest, out, d') → Forall well_formed out.
Proof.
  revert d pkts acc. induction size as [|size IH]; intros d pkts acc Hp Ha; simpl; [by intros [= <- <- <-]|].
  destruct pkts as [|p pkts]; [by intros [= <- <- <-]|]. apply Forall_cons in Hp as [Hpp Hps].
  case_match; [by apply IH|]. apply IH; [done|]. apply Forall_app. split; [done|]. apply Forall_singleton.
  case_match; [by apply corrupted_wf|done].
Qed.

Lemma SendAll_wf dice pkts c rest dice' c' : channel_wf c → Forall well_formed pkts →
  BaseChannel_SendAll RandomFloat dice pkts c = (rest, dice', c') → channel_wf c'.
Proof.
  intros [H1 H2] Hp. unfold BaseChannel_SendAll.
  destruct (channel_send_loop _ _ _ _ _) as [[rest1 out] d] eqn:Hl.
  apply channel_send_loop_wf in Hl; [|done|constructor].
  destruct (PacketQueue_PushAll _ _) as [[m r2] q] eqn:Hq. intros [= <- <- <-]. split; [|done].
  by eapply PushAll_Forall.
Qed.

Lemma WaitingForPackets_wf n c h c' h' : channel_wf c → host_wf n h →
  BaseChannel_WaitingForPackets_round c (Ok h) = Some (c', Ok h') → channel_wf c' ∧ host_wf n h'.
Proof.
  intros [H1 H2] Hw. unfold BaseChannel_WaitingForPackets_round.
  destruct (PacketQueue_DeQueueAllTo _ _ _) as [[[re pkts] q]|] eqn:Hq; [|done].
  destruct (DeQueueAllTo_Forall _ _ _ _ _ _ Hq H1) as [Hp Hq'].
  assert (channel_wf (c <| bc_pkt_buffer := q |>)) as Hc by (split; [exact Hq'|exact H2]).
  case_match; [by intros [= <- <-]|]. cbn [bc_receiver_callback set set_bc_pkt_buffer]. rewrite H2.
  intros [= <- Hm]. split; [exact Hc|]. exact (MovePacketsFromChannel_wf n pkts h h' Hw Hp Hm).
Qed.

(** ** The world *)

Record world_wf n (w : World) : Prop := {
  wd_host s : host_wf n (host_of s w);
  wd_channel s : channel_wf (channel_of s w);
}.

Lemma world_wf_mono n m w : n <= m → world_wf n w → world_wf m w.
Proof. intros Hnm []. split; [|done]. intros s. by apply (host_wf_mono n). Qed.

Lemma set_host_wf n s h w : world_wf n w → host_wf n h → world_wf n (set_host s h w).
Proof.
  intros [H1 H2] Hh. split; intros s'.
  - destruct s, s'; first [exact Hh|exact (H1 Alice)|exact (H1 Bob)].
  - destruct s, s'; first [exact (H2 Alice)|exact (H2 Bob)].
Qed.

Lemma set_channel_wf n s c w : world_wf n w → channel_wf c → world_wf n (set_channel s c w).
Proof.
  intros [H1 H2] Hc. split; intros s'.
  - destruct s, s'; first [exact (H1 Alice)|exact (H1 Bob)].
  - destruct s, s'; first [exact Hc|exact (H2 Alice)|exact (H2 Bob)].
Qed.

(** What an action does beside hosts and channels. *)
Lemma world_wf_frame n w w' :
  (∀ s, nd_host (node_of s w') = host_of s w) → (∀ s, channel_of s w' = channel_of s w) →
  world_wf n w → world_wf n w'.
Proof. intros E1 E2 [H1 H2]. split; intros s; [unfold host_of; by rewrite E1|by rewrite E2]. Qed.

Lemma world_do_wf n act w w' : 65536 <= n → n + 2 < 4294967296 → world_wf n w →
  world_do RandomNumber RandomFloat act w = Ok (Some w') → world_wf (n + 1) w'.
Proof.
  intros Hn1 Hn Hw. pose proof (world_wf_mono n (n + 1) w ltac:(lia) Hw) as Hw1. destruct Hw as [Hh Hc].
  destruct act as [s i now|s|s|s|s key act|s key|s key]; unfold world_do; intros Hr.
  - apply bind_Ok in Hr as (r & Hs & Hr). destruct r as [[nd msgs]|]; [|done]. injection Hr as <-.
    apply run_task_wf with (n := n) in Hs; [|done|lia|apply Hh].
    apply (world_wf_frame _ (set_host s (nd_host nd) w)); [by destruct s; intros []..|]. by apply set_host_wf.
  - apply bind_Ok in Hr as (r & Hs & Hr). destruct r as [h|]; [|done]. injection Hr as <-.
    apply set_host_wf; [done|]. apply (host_wf_mono n); [lia|]. by eapply PacketsReceiveListener_wf; [| |exact Hs].
  - destruct (Host_PacketsSendListener_round _) as [[pkts h]|] eqn:Hs; [|done].
    destruct (PacketsSendListener_wf n _ _ _ (Hh s) Hs) as [Hh' Hp].
    destruct (BaseChannel_SendAll _ _ _ _) as [[rest dice] c] eqn:Ha. injection Hr as <-.
    apply SendAll_wf in Ha; [|apply Hc|done].
    apply (world_wf_frame _ (set_channel s c (set_host s h w))); [by destruct s; intros []..|].
    apply set_channel_wf; [|done]. apply set_host_wf; [done|]. by apply (host_wf_mono n); [lia|].
  - destruct (BaseChannel_WaitingForPackets_round _ _) as [[c r]|] eqn:Hd; [|done].
    apply bind_Ok in Hr as (h & -> & Hr). injection Hr as <-.
    apply (WaitingForPackets_wf n) in Hd as [Hc' Hh']; [|apply Hc|apply Hh].
    apply set_channel_wf; [|done]. apply set_host_wf; [done|]. by apply (host_wf_mono n); [lia|].
  - destruct (h_connections (host_of s w) !! key) as [t|] eqn:Ht; [|done].
    apply bind_Ok in Hr as (r & Hd & Hr). destruct r as [[[g pkts] t']|]; [|done].
    apply (conn_do_wf n) in Hd as [Ht' Hp]; [|done|done|by eapply hw_connections].
    apply bind_Ok in Hr as (h & Hm & Hr). injection Hr as <-.
    assert (host_wf (n + 1) (Host_update_tcp key t' (host_of s w))) as Hup by (apply update_tcp_wf; [done|apply Hw1]).
    apply (world_wf_frame _ (set_host s h w)); [by destruct s; intros []..|]. apply set_host_wf; [done|].
    destruct act; try (by injection Hm as <-). by eapply MultiplexPacketsFromTcp_wf.
  - case_match; [|done]. apply bind_Ok in Hr as (h & Hs & Hr). injection Hr as <-.
    apply set_host_wf; [done|]. apply (host_wf_mono n); [lia|]. by eapply Host_TearDown_wf; [|exact Hs].
  - case_match; [|done]. apply bind_Ok in Hr as (h & Hs & Hr). injection Hr as <-.
    apply set_host_wf; [done|]. apply (host_wf_mono n); [lia|]. by eapply DeleteTcpConnection_wf; [|exact Hs].
Qed.

Lemma world_run_wf n acts w w' : 65536 <= n → n + Z.of_nat (length acts) + 1 < 4294967296 →
  world_wf n w → world_run RandomNumber RandomFloat acts w = Ok w' → world_wf (n + Z.of_nat (length acts)) w'.
Proof.
  revert n w. induction acts as [|act acts IH]; intros n w Hn1 Hn Hw; simpl.
  - intros [= <-]. by rewrite Z.add_0_r.
  - simpl in Hn. intros Hr. apply bind_Ok in Hr as (r & Hd & Hr).
    replace (n + Z.of_nat (S (length acts))) with (n + 1 + Z.of_nat (length acts)) by lia.
    eapply IH; [lia|lia| |exact Hr]. destruct r as [w1|].
    + by eapply world_do_wf; [|lia| |exact Hd].
    + by apply (world_wf_mono n); [lia|].
Qed.

Lemma Host_new_wf n name ip : host_wf n (Host_new name ip).
Proof. split; [constructor|constructor|]. intros k t Ht. simpl in Ht. by rewrite lookup_empty in Ht. Qed.

Lemma main_wf n memory b c w : main to_byte memory b c = Ok w → world_wf n w.
Proof.
  unfold main, Host_CreateProcess, emplace. simpl. rewrite !lookup_empty, !lookup_insert_eq. simpl.
  intros [= <-]. split; intros []; [apply Host_new_wf..|by split|by split].
Qed.

(** All packets of a connection. *)
Lemma conn_wf_packets n t p :
  p ∈ pq_packets (tc_pkt_recv_buffer t) ∨ p ∈ pq_packets (tc_pkt_send_buffer t) ∨
  p ∈ sw_packets (tc_send_window t) ∨
  (∃ r, RecvWindow_rep (tc_recv_window t) (tc_recv_nodes t) r ∧ p ∈ rs_queue r) ∨
  p ∈ tc_overflow_pkts t → conn_wf n t → well_formed p.
Proof.
  intros Hp [_ Q1 Q2 [_ Q3 _ _] _ _ [(s & Hs & Q4) Q5]]. rewrite Forall_forall in Q1, Q2, Q3, Q4, Q5.
  destruct Hp as [|[|[|[(r & Hr & Hp)|]]]]; auto. apply Q4. by rewrite (RecvWindow_rep_queue _ _ _ _ Hs Hr).
Qed.

(** ** Properties *)

(** The packets on their way between two connections: in the queues of the hosts,
    in the channels, and, in the connections, in the queues, in the send window, in
    the receive window and in the overflow queue. *)
Definition in_flight (w : World) (p : Packet) : Prop := ∃ s,
  p ∈ pq_packets (h_recv_pkt_queue (host_of s w)) ∨ p ∈ pq_packets (h_send_pkt_queue (host_of s w)) ∨
  p ∈ pq_packets (bc_pkt_buffer (channel_of s w)) ∨
  ∃ k t, h_connections (host_of s w) !! k = Some t ∧
    (p ∈ pq_packets (tc_pkt_recv_buffer t) ∨ p ∈ pq_packets (tc_pkt_send_buffer t) ∨
     p ∈ sw_packets (tc_send_window t) ∨
     (∃ r, RecvWindow_rep (tc_recv_window t) (tc_recv_nodes t) r ∧ p ∈ rs_queue r) ∨
     p ∈ tc_overflow_pkts t).

(** C7. Types are kept by the whole program. From the start, under every schedule
    of programs, listeners, timers and deletions, and whatever the channels lose:
    every packet, wherever one waits, has fields that fit their types, no more
    bytes announced than its block holds, and the shape of one of the six segments
    of the protocol: SYN, SYN_ACK and FIN with one sequence number and no bytes,
    ACK and RST with neither, data with at most ten bytes, exactly as many as it
    says; no other flags go together. And every connection satisfies its
    invariant, so that it never gets a segment its handlers are not made for. The
    schedule has fewer than four billion actions, since each may add one byte to a
    window whose size is an [uint32]. *)
Theorem World_well_typed memory b c acts w0 w p
    (Hmain : main to_byte memory b c = Ok w0) (Hlen : Z.of_nat (length acts) < 4294901759)
    (Hrun : world_run RandomNumber RandomFloat acts w0 = Ok w) :
  (in_flight w p → packet_wf p ∧ packet_shape p) ∧
  ∀ s k t, h_connections (host_of s w) !! k = Some t →
    conn_ok t ∧ is_u32 (rw_recv_base (tc_recv_window t)).
Proof.
  apply (main_wf 65536) in Hmain. apply (world_run_wf 65536) in Hrun as [Hh Hc]; [|done|lia|done].
  split.
  - intros (s & Hp). destruct (Hh s) as [H1 H2 H3], (Hc s) as [H4 _].
    rewrite Forall_forall in H1, H2, H4.
    assert (well_formed p) as []; [|done].
    destruct Hp as [|[|[|(k & t & Ht & Hp)]]]; [by apply H1|by apply H2|by apply H4|].
    by eapply conn_wf_packets, H3.
  - intros s k t Ht. by destruct (hw_connections _ _ (Hh s) k t Ht).
Qed.

(** C8. What can go wrong in the threads of a connection, in the whole program: only
    the handling of a segment can, and only in three ways: a failed consistency
    check, the overflow of the tolerance of duplicate acknowledgements, the endless
    delivery of a SYN. Sending never fails: no sanity check of the send window, and
    never the fatal error of a FIN the window refuses. *)
Theorem World_thread_faults memory b c acts w0 w s k t act
    (Hmain : main to_byte memory b c = Ok w0) (Hlen : Z.of_nat (length acts) < 4294901758)
    (Hrun : world_run RandomNumber RandomFloat acts w0 = Ok w)
    (Ht : h_connections (host_of s w) !! k = Some t) :
  match conn_do act (w_dup w) t with
  | Ok _ => True
  | Fault f => handler_fault f ∧ ∃ now, act = KReceive now
  end.
Proof.
  apply (main_wf 65536) in Hmain. apply (world_run_wf 65536) in Hrun as [Hh _]; [|done|lia|done].
  case_match eqn:Hdo; [done|].
  eapply conn_do_fault; [| |by eapply hw_connections|exact Hdo]; lia.
Qed.
End WorldInv.

(** ** A concrete run *)

#[local] Existing Instance simple_StopWatch.
#[local] Existing Instance simple_Timer.
#[local] Existing Instance simple_Buffer.
#[local] Existing Instance simple_Min.

(** The client's SYN on its way. *)
Definition hello : list action :=
  replicate 5 (ATask Bob 0 0) ++ replicate 3 (ATask Alice 0 0) ++ [AConn Alice alice_key KToHost].

Definition hello_world : res World :=
  w ← main (λ x, x mod 256) true (replicate 100 0) (replicate 100 0); world_run (λ _, 5) no_loss hello w.

Lemma hello_syn :
  match hello_world with
  | Ok w => match pq_packets (h_send_pkt_queue (host_of Alice w)) with
            | [p] => is_sync p = true
            | _ => False
            end
  | Fault _ => False
  end.
Proof. vm_compute. reflexivity. Qed.

Lemma World_well_typed_witness : ∃ w p,
  hello_world = Ok w ∧ in_flight w p ∧ is_sync p = true ∧ packet_bytes p = [] ∧ payload_size p = 1.
Proof.
  pose proof hello_syn as Hs. unfold hello_world in *.
  destruct (main (λ x, x mod 256) true (replicate 100 0) (replicate 100 0)) as [w0|] eqn:Hm; [|destruct Hs].
  cbn [mbind res_bind] in *. destruct (world_run (λ _, 5) no_loss hello w0) as [w|] eqn:Hr; [|destruct Hs].
  destruct (pq_packets (h_send_pkt_queue (host_of Alice w))) as [|p [|]] eqn:Hp; [destruct Hs| |destruct Hs].
  assert (in_flight w p) as Hin by (exists Alice; right; left; rewrite Hp; apply list_elem_of_here).
  exists w, p. split; [reflexivity|]. split; [exact Hin|]. split; [exact Hs|].
  destruct (World_well_typed (λ _, 5) no_loss (λ x, x mod 256) true (replicate 100 0) (replicate 100 0) hello w0 w p
    Hm ltac:(vm_compute; reflexivity) Hr) as [Hw _].
  destruct (Hw Hin) as [_ Hshape]. unfold packet_shape, is_sync in *. rewrite Hs in Hshape.
  destruct Hshape as (_ & _ & Hb & Hz). split; [exact Hb|exact Hz].
Defined.

(** The SYN at the connection the server made for it, which got it twice. *)
Definition knock : list action := hello ++ [ASend Alice; ADeliver Alice; AReceive Bob].

Definition knock_world : res World :=
  w ← main (λ x, x mod 256) true (replicate 100 0) (replicate 100 0); world_run (λ _, 5) no_loss knock w.

Lemma knock_at_server :
  match knock_world with
  | Ok w => match h_connections (host_of Bob w) !! bob_key with
            | Some t => length (pq_packets (tc_pkt_recv_buffer t)) = 2%nat
            | None => False
            end
  | Fault _ => False
  end.
Proof. vm_compute. reflexivity. Qed.

Lemma World_thread_faults_witness : ∃ w t,
  length (pq_packets (tc_pkt_recv_buffer t)) = 2%nat ∧
  match conn_do (KReceive 0) (w_dup w) t with
  | Ok _ => True
  | Fault f => handler_fault f ∧ ∃ now, KReceive 0 = KReceive now
  end.
Proof.
  pose proof knock_at_server as Hs. unfold knock_world in *.
  destruct (main (λ x, x mod 256) true (replicate 100 0) (replicate 100 0)) as [w0|] eqn:Hm; [|destruct Hs].
  cbn [mbind res_bind] in *. destruct (world_run (λ _, 5) no_loss knock w0) as [w|] eqn:Hr; [|destruct Hs].
  destruct (h_connections (host_of Bob w) !! bob_key) as [t|] eqn:Ht; [|destruct Hs].
  exists w, t. split; [exact Hs|].
  apply (World_thread_faults (λ _, 5) no_loss (λ x, x mod 256) true (replicate 100 0) (replicate 100 0)
    knock w0 w Bob bob_key t (KReceive 0)); [exact Hm|vm_compute; reflexivity|exact Hr|exact Ht].
Defined.
