(* ===== verification/UnitTests.v ===== *)
(** * The unit tests

    [SendWindow_test.cc], [RecvWindow_test.cc], [PacketQueue_test.cc] and
    [BaseChannel_test.cc] as programs on the model: a test is a list of statements on
    its fixture, each with the assertions it makes. *)
From S2P Require Import Prelude Interfaces Packet PacketQueue BaseChannel SendWindow RecvWindow.
Open Scope Z_scope.
Open Scope tcp_scope.

(** ** Tests

    [AssertTrue] and [AssertEqual] are of a library that is not in the repository: a
    false assertion fails the test. *)
Inductive verdict := Passed | Failed (n : nat) | Crashed (f : fault).

(** A statement: the values it asserts, and the fixture. *)
Definition statement (S : Type) := S → res (list bool * S).

(** The verdict after the statements, counting assertions from [n], and the fixture. *)
Fixpoint run_test {S} (n : nat) (test : list (statement S)) (s : S) : verdict * S :=
  match test with
  | [] => (Passed, s)
  | st :: test =>
      match st s with
      | Fault f => (Crashed f, s)
      | Ok (asserts, s) =>
          match list_find (λ b, b = false) asserts with
          | Some (i, _) => (Failed (n + i), s)
          | None => run_test (n + length asserts) test s
          end
      end
  end.

Definition asserting {S} (f : S → bool) : statement S := λ s, Ok ([f s], s).

Definition hello : list Z := [104; 101; 108; 108; 111].

(** ** [SendWindow_test.cc] *)
Section SendWindowTest.
Context {SWO : StopWatchOps}.

(** The window, and the variable of [SendWindow.cc] all windows share. *)
Definition send_fixture : Type := SendWindow * Z.

Definition SendWindowTest_new : send_fixture := (SendWindow_new 0 16, kMaxDuplicatedAcksOrigin).

Definition SendWindowTest_MakePacket (tcp_seq_num : Z) (data : list Z) : Packet :=
  Packet_of_string IPHeader_default (TcpHeader_default <| seq_num := tcp_seq_num |>) data.

(** [AssertTrue] or [AssertFalse] of [SendPacket(MakePacket(seq, "hello"))]. *)
Definition assert_sent (seq : Z) (expected : bool) : statement send_fixture := λ '(w, g),
  '(sent, w) ← SendWindow_SendPacket 0 (SendWindowTest_MakePacket seq hello) w;
  Ok ([Bool.eqb sent expected], (w, g)).

(** An assertion on a field of the result of [NewAckedPacket(ack)]. *)
Definition assert_acked (ack : Z) (field : AckResult → bool) (expected : bool) : statement send_fixture :=
  λ '(w, g),
  '(r, w, g) ← SendWindow_NewAckedPacket 0 ack w g;
  Ok ([Bool.eqb (field r) expected], (w, g)).

Definition assert_base (base : Z) : statement send_fixture :=
  asserting (λ '(w, _), sw_send_base w =? base).

Definition three_hellos : list (statement send_fixture) :=
  [assert_sent 0 true; assert_sent 5 true; assert_sent 10 true].

Definition SendWindowTest_TestSend : list (statement send_fixture) :=
  three_hellos ++ [assert_sent 15 false].

Definition SendWindowTest_TestAckInOrder : list (statement send_fixture) :=
  three_hellos ++
  [assert_acked 5 ack_refreshed true; assert_base 5;
   assert_acked 10 ack_refreshed true; assert_base 10;
   assert_acked 15 ack_refreshed true; assert_base 15].

Definition SendWindowTest_TestAccumulativeAck : list (statement send_fixture) :=
  three_hellos ++
  [assert_acked 5 ack_refreshed true; assert_base 5;
   assert_acked 15 ack_refreshed true; assert_base 15].

Definition SendWindowTest_TestDuplicatedAck : list (statement send_fixture) :=
  three_hellos ++
  [assert_acked 5 ack_refreshed true; assert_base 5;
   assert_acked 5 ack_refreshed false; assert_acked 5 re_transmit false; assert_base 5;
   assert_acked 5 ack_refreshed false; assert_acked 5 re_transmit true; assert_base 5;
   assert_acked 15 ack_refreshed true; assert_acked 5 re_transmit false; assert_base 15].

(** [~(uint32)0x1 + 1] *)
Definition max_uint32 : Z := u32 (Z.lnot 1 + 1).

Definition SendWindowTest_TestAckOverFlow : list (statement send_fixture) :=
  [λ '(_, g), Ok ([], (SendWindow_new (max_uint32 - 6) 25, g));
   assert_sent (max_uint32 - 6) true; assert_sent (max_uint32 - 1) true;
   assert_sent 3 true; assert_sent 8 true; assert_sent 13 true;
   asserting (λ '(w, _), SendWindow_NumPacketsToAck w =? 5);
   assert_acked 13 ack_refreshed true;
   asserting (λ '(w, _), sw_send_base w =? 13);
   asserting (λ '(w, _), sw_size w =? 5);
   asserting (λ '(w, _), SendWindow_NumPacketsToAck w =? 1);
   assert_acked 18 ack_refreshed true;
   asserting (λ '(w, _), sw_send_base w =? 18);
   asserting (λ '(w, _), sw_size w =? 0);
   asserting (λ '(w, _), SendWindow_NumPacketsToAck w =? 0)].
End SendWindowTest.

(** ** [RecvWindow_test.cc] *)

Definition recv_fixture : Type := RecvWindow * node_heap.

Definition RecvWindowTest_new : recv_fixture := RecvWindow_new 0 65536 heap_empty.

(** [PacketChainSize]: with its assertion on the first node. *)
Definition RecvWindowTest_PacketChainSize (h : node_heap) (node : option loc) : res (list bool * Z) :=
  match node with
  | None => Ok ([], 0)
  | Some l =>
      nd ← heap_load h l;
      pkts ← chain_packets (hp_next h) h node;
      Ok ([match rn_prev nd with None => true | Some _ => false end], u32 (Z.of_nat (length pkts)))
  end.

Definition assert_received (seq ack_num size : Z) : statement recv_fixture := λ '(w, h),
  '(a, chain, w, h) ← RecvWindow_ReceivePacket (SendWindowTest_MakePacket seq hello) w h;
  '(asserts, n) ← RecvWindowTest_PacketChainSize h chain;
  Ok ([a =? ack_num] ++ asserts ++ [n =? size], (w, h)).

Definition RecvWindowTest_TestReceiveOrderly : list (statement recv_fixture) :=
  (λ i, assert_received (i * 5) ((i + 1) * 5) 1) <$> (Z.of_nat <$> seq 0 100).

Definition RecvWindowTest_TestReceiveOutOfOrder : list (statement recv_fixture) :=
  [assert_received 0 5 1; assert_received 10 5 0; assert_received 15 5 0; assert_received 25 5 0;
   assert_received 5 20 3; assert_received 30 20 0; assert_received 20 35 3].

(** ** [PacketQueue_test.cc]

    The fixture: the queue, and the packets the test took from it. *)

Definition test_packet (tcp_seq_num : Z) : Packet :=
  Packet_new IPHeader_default (TcpHeader_default <| seq_num := tcp_seq_num |>).

Definition PacketQueueTest_setup : PacketQueue :=
  foldl (λ q i, (PacketQueue_Push (test_packet i) q).2) PacketQueue_new [1; 2; 3].

(** [DeQueue] follows a null pointer in the assertion when it blocks or is empty. *)
Definition PacketQueueTest_TestPush : list (statement PacketQueue) :=
  [asserting (λ q, PacketQueue_size q =? 3)].

Definition PacketQueueTest_TestDeQueue : list (statement PacketQueue) :=
  [λ q, '(pkt1, q) ← deref (PacketQueue_DeQueue true q);
        pkt1 ← deref pkt1;
        Ok ([PacketQueue_size q =? 2; 1 =? pkt_seq pkt1], q)].

Definition PacketQueueTest_TestDeQueueAll : list (statement PacketQueue) :=
  [λ q, '(n, receiver_queue, q) ← deref (PacketQueue_DeQueueAllTo [] true q);
        front1 ← deref (head receiver_queue);
        front2 ← deref (head (tail receiver_queue));
        Ok ([n =? 2; pkt_seq front1 =? 2; pkt_seq front2 =? 3], q)].

Definition PacketQueueTest_main : list (statement PacketQueue) :=
  PacketQueueTest_TestPush ++ PacketQueueTest_TestDeQueue ++ PacketQueueTest_TestDeQueueAll.

(** ** [BaseChannel_test.cc]

    The state of the callback: [receiver_buffer_] and [num_packets_received_]. The
    senders and the thread of the channel take turns as they like. *)

Definition channel_fixture : Type := BaseChannel (list Packet * Z) * (list Packet * Z).

(** The callback of [setup]: it swaps the two queues. *)
Definition BaseChannelTest_callback (new_packets : list Packet) (s : list Packet * Z) : list Packet * Z :=
  (new_packets, i32 (s.2 + Z.of_nat (length new_packets))).

Definition BaseChannelTest_setup : channel_fixture :=
  (BaseChannel_Start (BaseChannel_RegisterReceiverCallback BaseChannelTest_callback (BaseChannel_default true)),
   ([], 0)).

(** A turn: [channel_.Send(MakePacket(seq))], or a round of the channel's thread. *)
Inductive turn := TSend (seq : Z) | TRound.

Definition take_turn (f : channel_fixture) (tn : turn) : channel_fixture :=
  let '(c, s) := f in
  match tn with
  | TSend seq => (BaseChannel_Send (test_packet seq) c, s)
  | TRound => default (c, s) (BaseChannel_WaitingForPackets_round c s)
  end.

Definition take_turns (tns : list turn) (f : channel_fixture) : channel_fixture := foldl take_turn f tns.

(** The packets sent in the turns. *)
Definition turn_sends (tns : list turn) : list Packet :=
  omap (λ tn, match tn with TSend seq => Some (test_packet seq) | TRound => None end) tns.

(** [test_Send]: the turns until its first assertions, and until its last ones. *)
Definition BaseChannelTest_test_Send (tns1 tns2 : list turn) : list (statement channel_fixture) :=
  [λ f, let f := take_turns tns1 f in
        Ok ([Z.of_nat (length f.2.1) =? 3; f.2.2 =? 3], f);
   λ f, let f := take_turns tns2 f in
        Ok ([Z.of_nat (length f.2.1) =? 2; f.2.2 =? 5], f)].

Definition BaseChannelTest_test_LoadTest (tns : list turn) : list (statement channel_fixture) :=
  [λ f, let f := take_turns tns f in Ok ([f.2.2 =? 30 * 1000], f)].

(** ** Verdicts *)

#[local] Existing Instance simple_StopWatch.

(** What the four [main] functions run passes, and so do the tests they leave out, but
    for one: [TestDuplicatedAck]. *)
Example SendWindow_test_main : (run_test 0 SendWindowTest_TestAckOverFlow SendWindowTest_new).1 = Passed.
Proof. by vm_compute. Qed.

Example SendWindow_test_others :
  (run_test 0 SendWindowTest_TestSend SendWindowTest_new).1 = Passed ∧
  (run_test 0 SendWindowTest_TestAckInOrder SendWindowTest_new).1 = Passed ∧
  (run_test 0 SendWindowTest_TestAccumulativeAck SendWindowTest_new).1 = Passed.
Proof. by vm_compute. Qed.

(** The third duplicate, which asks for a retransmission, is the call whose
    [ack_refreshed] is asserted; the next call, whose [re_transmit] should be set, counts
    from one again. *)
Example SendWindow_test_duplicated_ack :
  (run_test 0 SendWindowTest_TestDuplicatedAck SendWindowTest_new).1 = Failed 9.
Proof. by vm_compute. Qed.

Example RecvWindow_test_main :
  (run_test 0 RecvWindowTest_TestReceiveOutOfOrder RecvWindowTest_new).1 = Passed ∧
  (run_test 0 RecvWindowTest_TestReceiveOrderly RecvWindowTest_new).1 = Passed.
Proof. by vm_compute. Qed.

Example PacketQueue_test_main : (run_test 0 PacketQueueTest_main PacketQueueTest_setup).1 = Passed.
Proof. by vm_compute. Qed.

(** The callback sees every packet, however the channel cuts them into batches. *)
Lemma take_turns_count tns (c : BaseChannel (list Packet * Z)) buf n :
  bc_receiver_callback c = Some BaseChannelTest_callback → pq_destroy (bc_pkt_buffer c) = false → 0 <= n →
  n + Z.of_nat (length (pq_packets (bc_pkt_buffer c)) + length (turn_sends tns)) < 2147483648 →
  let '(c', (_, n')) := take_turns tns (c, (buf, n)) in
  n' + Z.of_nat (length (pq_packets (bc_pkt_buffer c'))) =
    n + Z.of_nat (length (pq_packets (bc_pkt_buffer c)) + length (turn_sends tns)).
Proof.
  revert c buf n. induction tns as [|[seq|] tns IH]; intros c buf n Hcb Hd Hn Hlt; csimpl in *; [lia| |].
  - specialize (IH (BaseChannel_Send (test_packet seq) c) buf n Hcb Hd Hn). simpl in IH. rewrite length_app in IH.
    simpl in IH. specialize (IH ltac:(lia)). destruct (take_turns _ _) as [c' [b' n']]. lia.
  - rewrite (BaseChannel_delivers c (buf, n)) by (done || lia). rewrite Hcb. destruct (pq_packets (bc_pkt_buffer c)) as [|p l] eqn:Hq.
    + simpl. specialize (IH c buf n Hcb Hd Hn). rewrite Hq in IH. by apply IH.
    + cbn [default]. unfold BaseChannelTest_callback at 1. cbn [snd]. rewrite i32_small by (simpl in *; word_lia).
      simpl. match goal with |- context [take_turns tns (?c1, (?buf1, ?n1))] =>
        specialize (IH c1 buf1 n1 Hcb Hd ltac:(lia)) end.
      simpl in *. specialize (IH ltac:(lia)).
      destruct (take_turns _ _) as [c' [b' n']]. lia.
Qed.

(** [test_LoadTest] passes when all packets were sent and the channel has nothing left. *)
Lemma BaseChannel_test_main tns : Z.of_nat (length (turn_sends tns)) = 30 * 1000 →
  pq_packets (bc_pkt_buffer (take_turns tns BaseChannelTest_setup).1) = [] →
  (run_test 0 (BaseChannelTest_test_LoadTest tns) BaseChannelTest_setup).1 = Passed.
Proof.
  intros Hs Hq. unfold BaseChannelTest_setup in *.
  pose proof (take_turns_count tns (BaseChannel_Start (BaseChannel_RegisterReceiverCallback
    BaseChannelTest_callback (BaseChannel_default true))) [] 0 eq_refl eq_refl ltac:(lia)) as Hc.
  simpl in Hc. specialize (Hc ltac:(lia)). cbn [run_test BaseChannelTest_test_LoadTest].
  destruct (take_turns tns _) as [c' [b' n']]. simpl in *. rewrite Hq in Hc. simpl in Hc.
  assert (n' = 30000) as -> by lia. done.
Qed.

(** [test_Send] passes when its packets come in one batch, and fails when the thread of
    the channel wakes up after the first. *)
Example BaseChannel_test_Send :
  (run_test 0 (BaseChannelTest_test_Send [TSend 1; TSend 2; TSend 3; TRound] [TSend 4; TSend 5; TRound]) BaseChannelTest_setup).1 = Passed ∧
  (run_test 0 (BaseChannelTest_test_Send [TSend 1; TRound; TSend 2; TSend 3; TRound]
    [TSend 4; TSend 5; TRound]) BaseChannelTest_setup).1 = Failed 0.
Proof. by vm_compute. Qed.
